(* ===== verification/_CoqProject ===== *)
-Q . S2P
Prelude.v
Format.v
Types.v
World.v
Logic.v
Messages.v
Buffer.v
Mmio.v
MmioFacts.v
MmioAccess.v
Irq.v
Ledger.v
IrqFacts.v
IrqTable.v
Event.v
Names.v
Afu.v
AfuInv.v
Trace.v
Fuel.v
EventFacts.v
AfuClose.v
AfuOpen.v
Api.v
Client.v
VirtAfu.v
VirtAfuFacts.v
VirtOcxl.v
Demo.v
MmioSpec.v
IrqSpec.v
AfuSpec.v
EventSpec.v
Memcpy.v
Getopt.v
MemcpySample.v
MemcpyQueue.v
MemcpyWait.v
MemcpyRun.v
MemcpySpec.v
MemcpyDemo.v
MemcpyTest.v
MemcpyTestRun.v
MemcpyTestMain.v
MemcpyTestSpec.v
GetoptLong.v
Afp.v
AfpRun.v
AfpLatency.v
AfpLatencyRun.v
AfpSpec.v
UnitTest.v
UnitTests.v
UnitTestFacts.v
UnitTestReport.v
UnitTestMmio.v
UnitTestRun.v
UnitTestSpec.v
