(* ===== verification/Prelude.v ===== *)
(** * libocxl: a verification library

    libocxl is the user-space library for OpenCAPI accelerators: an
    application opens an AFU (accelerator functional unit), attaches its
    memory to it, maps and accesses the AFU's MMIO registers, allocates
    interrupts for the AFU to trigger, and waits for interrupts and
    translation faults.  The library is C; this development translates it to
    executable definitions and proves what each part promises.

    ** How the program is modelled

    The program runs in the monad [M] of World.v: a computation maps a state
    (C heap, the library's globals, the state of the kernel and the log of the
    operations issued) to a result, to undefined behaviour ([UB]) or to the
    exhaustion of its fuel ([Diverge]).  Pointers are block numbers; the heap
    holds AFU records, strings and the two growable arrays, blocks are never
    reused, and an access through a pointer to a block that was freed or moved
    by [realloc] is undefined behaviour, as are a double free, a write outside
    an array, an MMIO access outside its mapping, an indeterminate value that
    is read and a [printf] whose arguments do not fit its format.  Memory that
    a program shares with the AFU is not in the heap: the sample and test
    programs access it with [load_mem] and [store_mem], operations of the
    platform that are undefined at a NULL pointer.  Integers are [Z] with the
    wrap-around of their C type written out ([u16], [u64], [s64], ...).

    All that is outside the repository is an argument.  The kernel, the device
    and the C library are a [Platform]: a state [K] and an answer to every
    operation of the type [sys].  The contents of <misc/ocxl.h>, the generated
    version text, the byte order of the host and structure sizes are the class
    [Abi].  What a theorem relies on beyond that is a class or a record of its
    own: [NonZeroHandles] (interrupt offsets and mappings are not 0),
    [ShortNames] (the kernel limits AFU names), [ByteLoads] and
    [RegisterMemory] (registers are bytes; registers behave like memory),
    [event_kernel] and [EventLaws] (epoll reports data registered with it, an
    eventfd is read whole or not), [SingleEvents] (a context has one event
    pending at a time, and marks it as the last one), [Finite] (the device
    delivers finitely many events, and finitely many readings of the clock
    come before a deadline), [AllocatedMemory] (aligned_alloc answers an
    address or NULL), [GrantedMemory] and [AlignedMemory] (memory that is
    mapped is not at address 0, aligned memory is aligned), [SetMemory]
    (memset), [Pongs] (the AFP AFU answers after finitely many loads),
    [MapRange] (mappings lie in the address space), [Device] (the platform has
    the variables of the virtual device).  VirtOcxl.v, MemcpySpec.v,
    MemcpyTestSpec.v, AfpSpec.v and UnitTestRun.v discharge them for the
    virtual device of the unit tests.

    [wp m Q w] says that [m] returns from [w], without undefined behaviour and
    within its fuel, in a state that satisfies [Q]: every theorem stated with
    [wp] is one of total correctness.  [wpx U D m Q w] allows besides
    undefined behaviour where [U] holds and the exhaustion of the fuel where
    [D] does: it states what the code does next to a hazard it does not guard
    against.  [settles U m Q w] says the same of a program with loops: from
    some amount of fuel on it returns with [Q], or it has undefined behaviour
    and [U] holds.

    ** The files

    - Prelude.v: widths, bytes of integers, record update, hint databases.
    - Format.v: the [printf] conversions the sources use; Names.v: the
      [strchr] and [sscanf] with which src/afu.c parses device names.
    - Types.v: the types of src/include/libocxl.h and
      src/libocxl_internal.h, the globals of src/internal.c, heap objects.
    - World.v: operations, platform, monad, heap, [wp]; Logic.v: rules for
      them, the log of effects ([effects]), [quiet] and [did].
    - Messages.v: src/setup.c and the initialisation, error and trace
      messages of src/internal.c.  Buffer.v: [grow_buffer] of src/internal.c.
    - Mmio.v: src/mmio.c.  MmioFacts.v: the invariant of the array of areas
      and mapping; MmioAccess.v: bounds, byte orders, reads, writes, unmapping.
    - Irq.v: the IRQs of src/irq.c.  Ledger.v: the abstract account of
      descriptors, interrupts and mappings held; IrqFacts.v, IrqTable.v: the
      rules of the IRQ operations and the invariant of the array of IRQs.
    - Event.v: the event functions of src/irq.c; EventFacts.v: their rules.
    - Afu.v: src/afu.c.  AfuInv.v: the invariant of an AFU; AfuClose.v,
      AfuOpen.v: the rules of closing and opening.
    - Trace.v: the log is complete, the state of the outside is where the
      logged operations lead; Fuel.v: more fuel changes no outcome, and
      termination ([terminates], [settles]), with the hazard of a section as an
      [Excuse].
    - Api.v: programs over the whole API as a step relation, its invariant;
      Client.v: the same invariant for an application that drives one AFU and
      waits for its events, with one rule per call.
    - VirtAfu.v: unittests/virtocxl.c, the handlers of the device and the code
      that creates it; VirtAfuFacts.v: its rules; VirtOcxl.v: a kernel around
      it, as a concrete platform; Demo.v: states of a process that uses it.
    - MmioSpec.v, IrqSpec.v, AfuSpec.v, EventSpec.v: the theorems, each with
      an instance on the virtual device.
    - Memcpy.v: the work element queue of samples/memcpy/memcpy.c as a data
      structure.  Getopt.v: what the programs use of the C library ([getopt],
      [atoi], [struct timeval]).  MemcpySample.v: the sample program itself,
      from the queue in memory to [main]; MemcpyQueue.v: that queue is the
      ring; MemcpyWait.v: the waiting loops; MemcpyRun.v: starting, finishing
      and running a copy; MemcpySpec.v: its theorems; MemcpyDemo.v: runs of
      [main] on a concrete memcpy engine.
    - MemcpyTest.v: the test program afutests/memcpy/ocxl_memcpy.c, one process
      at a time; MemcpyTestRun.v: its waits and its loop; MemcpyTestMain.v:
      the set-up and the ends of a process, and [main]; MemcpyTestSpec.v: its
      theorems, and runs on that engine.
    - GetoptLong.v: [getopt_long] and [strtoul].  Afp.v and AfpLatency.v: the
      two programs of afutests/afp, ocxl_afp3.c and ocxl_afp3_latency.c;
      AfpRun.v, AfpLatencyRun.v: their rules; AfpSpec.v: their theorems, and
      a platform whose AFU answers pings.
    - UnitTest.v: the framework of unittests/unittests.c, with a monad of its
      own for the jumps to the label [end:]; UnitTests.v: its tests and [main];
      UnitTestFacts.v: the table of tests as an invariant, and rules for total
      correctness ([wpt]); UnitTestReport.v: names and the report;
      UnitTestMmio.v: the tests that fill the MMIO area; UnitTestRun.v: the
      program on the virtual kernel; UnitTestSpec.v: the theorems.

    ** What is shown

    Whole programs (AfuSpec.v): in every state reached through the API each
    handle is a well-formed AFU, AFUs share no memory, the kernel objects held
    are exactly those the AFUs record; every allowed call returns but for the
    hazards [allowed] names (a register access at a negative offset, a device
    with more events than the caller has room for or with no last one); and a
    program that closed its handles leaks nothing.  AFUs (AfuSpec.v): what
    opening, attaching and closing do on every branch, which of the devices
    that match the name, function and index asked for is opened and which
    error passes a device over, and how device names are parsed.  MMIO
    (MmioSpec.v): mapping on every branch, exactness of the bounds checks,
    effects of accesses on the device, write/read round trips for both byte
    orders, unmapping exactly once.  IRQs and events (IrqSpec.v, EventSpec.v):
    allocation with its error path, lookups, which events a check reports, and
    when it can fail to return.  Buffers: growth keeps the elements.  The ring
    of the memcpy sample refines an unbounded queue, and its wrap bit lets the
    device tell new elements from old ones; the queue the sample keeps in
    memory is that ring.  The sample program (MemcpySpec.v): its waits end,
    report exactly what the checks for events delivered, and return success
    only when the status was seen set; a copy starts in the order the AFU
    needs and succeeds only when every element was seen done; [main] ends on
    every path and returns with nothing left behind, and goes wrong only where
    an allocation was answered with NULL ([out_of_memory]), which the code
    does not check; the timeouts have to fit an int in milliseconds.  The test
    program (MemcpyTestSpec.v): a process ends, gives its AFU back on every
    path, and succeeds only when each of its loops was started behind a
    barrier, seen done and its destination compared with its source; [main]
    waits for every child and counts those that failed.  The arguments are
    those of [targs_ok] (no -S with -r, no negative size, a timeout that
    fits): the code has undefined behaviour or an overflow outside.  The AFP
    programs (AfpSpec.v): they end and return 0 only after a whole measurement
    with the values their options gave: the registers written in order, the
    counters sampled as often as asked for or the pings answered, and the AFU
    stopped and given back; the fields of the work element descriptor do not
    overlap.  The unit tests (UnitTestSpec.v): every test keeps the table
    well-formed and leaves its own entry with a verdict; the report says what
    the table holds; the device is created as described on every path, and a
    fault forced on it is what the library reads; the test of the 32-bit
    accesses passes on every platform where it can open the AFU and map an
    area of the right size, the test of [ocxl_afu_close] cannot pass on any,
    and the tests up to the attaching of an AFU pass on the virtual kernel.
    Some theorems pin down behaviour the code does not intend: handles and
    epoll addresses that dangle when an array moves, counts that wrap at 16
    bits, checks that let a bad offset or index through, memory that is not
    freed, a test that reads an AFU it has closed.

    ** Bounds and fuel

    Loops over arrays and lists recurse on the number of elements.  The loop
    that reads device events has no bound of its own and runs on fuel; a check
    runs out of it only if the device goes on for that many events without
    marking one as the last ([starves]), fuel beyond a rank of the device
    ([Ranked]) is enough, and any positive fuel is with [SingleEvents].  The
    waiting loops of the sample run on fuel too: one step per event the device
    still has ([budget]) and one per reading of the clock before the deadline
    ([readings]) is enough (one per ping and per load without an answer,
    [zeros], for the latency program), and Fuel.v shows that the amount does
    not matter beyond that.  The loop that writes the file of the virtual
    device takes a step per chunk of 1024 bytes and one that finds the end
    ([chunks]); those of the unit tests one per register and one that finds
    the end ([accesses], which the definitions pass themselves).  The arrays
    of IRQs and areas hold fewer than 32768 elements when they are grown (the
    16-bit counts wrap behind that); the theorems that need it say so.

    ** What is not modelled

    Threads (the mutexes are operations of the platform and every run is
    sequential; a child of the test program is a run of its own).  The thread
    of the virtual device runs behind the platform: its handlers are modelled,
    libfuse and the loop that calls them are not.  The unit tests are those of
    the build for PPC64; the test between [#ifdef __UNUSED] and [#endif] is
    not part of the program, and the signal handler does not interrupt a test.
    Floating-point values are only printed by the programs, and their texts
    are parameters.  What the instruction of [ocxl_wait] does is an operation
    of the platform ([SWait]). *)

From Stdlib Require Export ZArith Lia Ascii.
From stdpp Require Export base numbers list strings gmap option.
#[global] Open Scope Z_scope.

(** ** Fixed-width integers

    A [w]-bit C integer is a [Z]; [uwrap]/[swrap] are the conversions the
    compiler inserts when a value is stored into an unsigned or a signed
    object of that width. *)

Definition uwrap (w : Z) (z : Z) : Z := z mod 2 ^ w.

Definition swrap (w : Z) (z : Z) : Z :=
  let u := uwrap w z in if u <? 2 ^ (w - 1) then u else u - 2 ^ w.

Definition u8 : Z → Z := uwrap 8.
Definition u16 : Z → Z := uwrap 16.
Definition u32 : Z → Z := uwrap 32.
Definition u64 : Z → Z := uwrap 64.
Definition s32 : Z → Z := swrap 32.
Definition s64 : Z → Z := swrap 64.

Definition UINT16_MAX : Z := 65535.
Definition UINT32_MAX : Z := 4294967295.

Lemma uwrap_range w z : 0 <= w → 0 <= uwrap w z < 2 ^ w.
Proof. intros. apply Z.mod_pos_bound, Z.pow_pos_nonneg; lia. Qed.

Lemma uwrap_small w z : 0 <= z < 2 ^ w → uwrap w z = z.
Proof. apply Z.mod_small. Qed.

Lemma swrap_small w z : 0 < w → - 2 ^ (w - 1) <= z < 2 ^ (w - 1) → swrap w z = z.
Proof.
  intros Hw Hz. unfold swrap.
  assert (E : 2 ^ w = 2 * 2 ^ (w - 1)) by (rewrite <-Z.pow_succ_r by lia; f_equal; lia).
  destruct (Z.le_gt_cases 0 z) as [Hz0|Hz0].
  - rewrite uwrap_small by lia. destruct (Z.ltb_spec z (2 ^ (w - 1))); lia.
  - assert (uwrap w z = z + 2 ^ w) as ->.
    { unfold uwrap. symmetry. apply Z.mod_unique with (-1); lia. }
    destruct (Z.ltb_spec (z + 2 ^ w) (2 ^ (w - 1))); lia.
Qed.

Lemma uwrap_uwrap w z : uwrap w (uwrap w z) = uwrap w z.
Proof. apply Zdiv.Zmod_mod. Qed.

(** [lia] with the powers of two the widths stand for. *)
Ltac solve_width :=
  unfold u8, u16, u32, u64, s32, s64, uwrap in *;
  change (2 ^ 8) with 256 in *; change (2 ^ 16) with 65536 in *;
  change (2 ^ 32) with 4294967296 in *;
  change (2 ^ 63) with 9223372036854775808 in *;
  change (2 ^ 64) with 18446744073709551616 in *;
  Z.div_mod_to_equations; lia.

(** [!!x] of C. *)
Definition c_bool (z : Z) : bool := negb (z =? 0).

(** ** Bytes of an integer, least significant first *)

Fixpoint le_bytes (n : nat) (v : Z) : list Z :=
  match n with
  | O => []
  | S n' => v mod 256 :: le_bytes n' (v / 256)
  end.

Fixpoint of_le_bytes (bs : list Z) : Z :=
  match bs with
  | [] => 0
  | b :: bs' => b + 256 * of_le_bytes bs'
  end.

Definition be_bytes (n : nat) (v : Z) : list Z := reverse (le_bytes n v).
Definition of_be_bytes (bs : list Z) : Z := of_le_bytes (reverse bs).

Definition is_byte (b : Z) : Prop := 0 <= b < 256.

Lemma length_le_bytes n v : length (le_bytes n v) = n.
Proof. revert v. induction n as [|n IH]; intros v; simpl; [done|by rewrite IH]. Qed.

Lemma le_bytes_are_bytes n v : Forall is_byte (le_bytes n v).
Proof.
  revert v. induction n as [|n IH]; intros v; simpl; constructor; [|done].
  apply Z.mod_pos_bound. lia.
Qed.

Lemma of_le_le_bytes n v : of_le_bytes (le_bytes n v) = v mod 256 ^ Z.of_nat n.
Proof.
  revert v. induction n as [|n IH]; intros v.
  - simpl. by rewrite Z.mod_1_r.
  - cbn [le_bytes of_le_bytes]. rewrite IH, Nat2Z.inj_succ, Z.pow_succ_r by lia.
    rewrite Z.rem_mul_r by (try apply Z.pow_nonzero; lia). lia.
Qed.

Lemma of_le_bytes_range bs :
  Forall is_byte bs → 0 <= of_le_bytes bs < 256 ^ Z.of_nat (length bs).
Proof.
  induction 1 as [|b bs Hb Hbs IH]; simpl length; [simpl; lia|].
  cbn [of_le_bytes]. rewrite Nat2Z.inj_succ, Z.pow_succ_r by lia.
  unfold is_byte in Hb. lia.
Qed.

Lemma le_bytes_of_le bs : Forall is_byte bs → le_bytes (length bs) (of_le_bytes bs) = bs.
Proof.
  induction 1 as [|b bs Hb Hbs IH]; [done|]. unfold is_byte in Hb.
  cbn [length of_le_bytes le_bytes].
  rewrite (Z.mul_comm 256), Z.mod_add, Z.div_add by lia.
  rewrite Z.mod_small, Z.div_small by lia. rewrite Z.add_0_l. by rewrite IH.
Qed.

Lemma of_be_be_bytes n v : of_be_bytes (be_bytes n v) = v mod 256 ^ Z.of_nat n.
Proof. unfold of_be_bytes, be_bytes. by rewrite reverse_involutive, of_le_le_bytes. Qed.

(** ** Strings *)

Lemma str_app_assoc (s t u : string) : (s +:+ t) +:+ u = s +:+ (t +:+ u).
Proof. induction s as [|c s IH]; [done|]. exact (f_equal (String c) IH). Qed.

Lemma str_app_nil_r (s : string) : s +:+ "" = s.
Proof. induction s as [|c s IH]; [done|]. exact (f_equal (String c) IH). Qed.

(** ** Record update

    [r <| f := v |>] is [r] with the field [f] replaced; the setter of a
    projection is found from the eta-expansion of its record type. *)

Class Eta (R : Type) := eta_expand : R → R.
#[export] Hint Mode Eta ! : typeclass_instances.

Class FieldUpd {R F : Type} (proj : R → F) := field_upd : (F → F) → R → R.
Arguments field_upd {R F} proj {_} !_ !_ / : assert.

Ltac solve_field_upd :=
  match goal with
  | |- @FieldUpd ?R ?F ?p =>
      let i := constr:(_ : Eta R) in
      let e := eval hnf in i in
      lazymatch (eval pattern p in e) with
      | ?b _ => exact (fun g r => b (fun r' => g (p r')) r)
      end
  end.
#[export] Hint Extern 0 (FieldUpd _) => solve_field_upd : typeclass_instances.

Declare Scope record_scope.
Open Scope record_scope.
Notation "r <| f := v |>" := (field_upd f (fun _ => v) r)
  (at level 1, left associativity, f constr at level 0, v at level 200,
   format "r  <| f  :=  v |>") : record_scope.

(** ** Automation

    [ocxl] resolves the side conditions of the rules for AFUs; [lengths]
    computes the lengths of lists for [lia]. *)

Create HintDb ocxl.
Create Rewrite HintDb lengths.

#[export] Hint Resolve uwrap_uwrap le_bytes_are_bytes : ocxl.
#[export] Hint Rewrite @length_app @length_fmap @length_replicate @length_take @length_drop
  @length_insert @length_imap length_le_bytes : lengths.

(** Arithmetic about the lengths of lists. *)
Ltac solve_length := autorewrite with lengths in *; simpl length in *; lia.
