(* ===== verification/Format.v ===== *)
(** * Format: the [printf] family as libocxl uses it

    [errmsg] and [trace_message] (src/internal.c) and the path construction
    of src/afu.c and src/mmio.c go through [vsnprintf], [vfprintf] and
    [snprintf].  This file models the conversions that occur in the sources:
    [%d %u %x %p %s %%], the flags [# - 0], a field width, the length
    modifiers [l]/[ll], and for [%s] the [.*] precision and the [*] width.  A directive with no
    argument left, or an argument of the wrong kind, is undefined behaviour
    in C and [None] here.  [snprintf]/[vsnprintf] truncate to the size of the
    destination, less one byte for the terminating NUL. *)

From S2P Require Import Prelude.
Open Scope Z_scope.

Inductive arg : Type :=
| AInt (z : Z)
| AStr (s : string).

Inductive conv : Type := ConvD | ConvU | ConvX | ConvP | ConvS.

Record spec : Type := mk_spec {
  sp_alt : bool;    (* # *)
  sp_left : bool;   (* - *)
  sp_zero : bool;   (* 0 *)
  sp_width : nat;
  sp_dot : bool;    (* . *)
  sp_star : bool;   (* .* *)
  sp_wide : bool;   (* * *)
  sp_long : bool    (* l, ll *)
}.

#[export] Instance eta_spec : Eta spec := fun s =>
  mk_spec (sp_alt s) (sp_left s) (sp_zero s) (sp_width s) (sp_dot s) (sp_star s) (sp_wide s) (sp_long s).

Definition plain_spec : spec := mk_spec false false false 0 false false false false.

Inductive piece : Type :=
| Lit (c : ascii)
| Dir (s : spec) (c : conv).

Definition digit_of (c : ascii) : option nat :=
  let n := nat_of_ascii c in
  if (48 <=? n)%nat && (n <=? 57)%nat then Some (n - 48)%nat else None.

(** The directives of a format string; [None] for a conversion that is not
    one of the above. *)
Fixpoint parse_format (dir : option spec) (fmt : string) : option (list piece) :=
  match fmt, dir with
  | EmptyString, None => Some []
  | EmptyString, Some _ => None
  | String c fmt', None =>
      if Ascii.eqb c "%" then parse_format (Some plain_spec) fmt'
      else ps ← parse_format None fmt'; Some (Lit c :: ps)
  | String c fmt', Some s =>
      let conv k := ps ← parse_format None fmt'; Some (Dir s k :: ps) in
      if Ascii.eqb c "%" then ps ← parse_format None fmt'; Some (Lit c :: ps)
      else if Ascii.eqb c "#" then parse_format (Some (s <| sp_alt := true |>)) fmt'
      else if Ascii.eqb c "-" then parse_format (Some (s <| sp_left := true |>)) fmt'
      else if Ascii.eqb c "." then parse_format (Some (s <| sp_dot := true |>)) fmt'
      else if Ascii.eqb c "*" then
        parse_format (Some (if sp_dot s then s <| sp_star := true |> else s <| sp_wide := true |>)) fmt'
      else if Ascii.eqb c "l" then parse_format (Some (s <| sp_long := true |>)) fmt'
      else if Ascii.eqb c "d" then conv ConvD
      else if Ascii.eqb c "u" then conv ConvU
      else if Ascii.eqb c "x" then conv ConvX
      else if Ascii.eqb c "p" then conv ConvP
      else if Ascii.eqb c "s" then conv ConvS
      else match digit_of c with
           | Some O => if (sp_width s =? 0)%nat
                       then parse_format (Some (s <| sp_zero := true |>)) fmt'
                       else parse_format (Some (s <| sp_width := (10 * sp_width s)%nat |>)) fmt'
           | Some d => parse_format (Some (s <| sp_width := (10 * sp_width s + d)%nat |>)) fmt'
           | None => None
           end
  end.

(** ** Numbers and padding *)

Definition digit_char (d : Z) : ascii :=
  ascii_of_nat (Z.to_nat (if d <? 10 then 48 + d else 87 + d)).

Fixpoint digits (fuel : nat) (base n : Z) (acc : string) : string :=
  match fuel with
  | O => acc
  | S fuel' =>
      let acc' := String (digit_char (n mod base)) acc in
      if n / base =? 0 then acc' else digits fuel' base (n / base) acc'
  end.

(** A value of [w] bits has at most [w] digits in any base. *)
Definition print_nat (base n : Z) : string := digits 64 base n "".

Definition print_int (n : Z) : string :=
  if n <? 0 then String "-" (print_nat 10 (- n)) else print_nat 10 n.

Fixpoint pad (c : ascii) (n : nat) : string :=
  match n with O => "" | S n' => String c (pad c n') end.

Definition justify (s : spec) (body : string) : string :=
  let fill := (sp_width s - String.length body)%nat in
  if sp_left s then body +:+ pad " " fill
  else pad (if sp_zero s then "0" else " ") fill +:+ body.

Definition render_int (s : spec) (c : conv) (z : Z) : string :=
  let w := if sp_long s then 64 else 32 in
  match c with
  | ConvD => print_int (swrap w z)
  | ConvU => print_nat 10 (uwrap w z)
  | ConvX => (if sp_alt s && negb (uwrap w z =? 0) then "0x" else "") +:+ print_nat 16 (uwrap w z)
  | ConvP => "0x" +:+ print_nat 16 (uwrap 64 z)
  | ConvS => ""
  end.

(** A [*] width: a negative one is the flag [-] and a width. *)
Definition wide (s : spec) (n : Z) : spec :=
  s <| sp_width := Z.to_nat (Z.abs n) |> <| sp_left := sp_left s || (n <? 0) |>.

(** The text of a parsed format, or [None] when the argument list does not
    fit the directives. *)
Fixpoint render (ps : list piece) (args : list arg) : option string :=
  match ps with
  | [] => Some ""
  | Lit c :: ps' => String c <$> render ps' args
  | Dir s ConvS :: ps' =>
      match sp_wide s, sp_star s, args with
      | false, false, AStr a :: args' => String.append (justify s a) <$> render ps' args'
      | true, false, AInt n :: AStr a :: args' =>
          String.append (justify (wide s n) a) <$> render ps' args'
      | false, true, AInt n :: AStr a :: args' =>
          String.append (justify s (String.substring 0 (Z.to_nat n) a)) <$> render ps' args'
      | _, _, _ => None
      end
  | Dir s c :: ps' =>
      match args with
      | AInt z :: args' => String.append (justify s (render_int s c z)) <$> render ps' args'
      | _ => None
      end
  end.

Definition vformat (fmt : string) (args : list arg) : option string :=
  ps ← parse_format None fmt; render ps args.

(** What [snprintf(buf, size, ...)] leaves in [buf]. *)
Definition truncate (size : nat) (s : string) : string := String.substring 0 (size - 1) s.

(** ** A format fits its arguments *)

Fixpoint fits (ps : list piece) (args : list arg) : bool :=
  match ps with
  | [] => true
  | Lit _ :: ps' => fits ps' args
  | Dir s ConvS :: ps' =>
      match sp_wide s, sp_star s, args with
      | false, false, AStr _ :: args' => fits ps' args'
      | true, false, AInt _ :: AStr _ :: args' => fits ps' args'
      | false, true, AInt _ :: AStr _ :: args' => fits ps' args'
      | _, _, _ => false
      end
  | Dir _ _ :: ps' => match args with AInt _ :: args' => fits ps' args' | _ => false end
  end.

Definition conforms (fmt : string) (args : list arg) : bool :=
  match parse_format None fmt with Some ps => fits ps args | None => false end.

Lemma render_fits ps args : is_Some (render ps args) ↔ fits ps args = true.
Proof.
  revert args. induction ps as [|[c|s k] ps IH]; intros args; simpl.
  - naive_solver.
  - rewrite fmap_is_Some. apply IH.
  - destruct k, args as [|[z|a] args], (sp_wide s), (sp_star s); simpl; rewrite ?fmap_is_Some;
      try (split; [intros [? [=]]|discriminate]); try apply IH.
    all: destruct args as [|[z'|a'] args]; simpl; rewrite ?fmap_is_Some;
      try (split; [intros [? [=]]|discriminate]); apply IH.
Qed.

Lemma vformat_conforms fmt args : is_Some (vformat fmt args) ↔ conforms fmt args = true.
Proof.
  unfold vformat, conforms. destruct (parse_format None fmt) as [ps|]; simpl.
  - apply render_fits.
  - split; [intros [? [=]]|discriminate].
Qed.

Lemma length_substring n m s : (String.length (String.substring n m s) <= m)%nat.
Proof.
  revert n m. induction s as [|c s IH]; intros [|n] [|m]; simpl; auto with lia.
  apply le_n_S, IH.
Qed.

Lemma length_truncate size s : (0 < size)%nat → (String.length (truncate size s) < size)%nat.
Proof. intros. unfold truncate. pose proof (length_substring 0 (size - 1) s). lia. Qed.

Lemma substring_full s n : (String.length s <= n)%nat → String.substring 0 n s = s.
Proof.
  revert n. induction s as [|c s IH]; intros [|n]; simpl; try lia; auto.
  intros. by rewrite IH by lia.
Qed.

Lemma truncate_fits size s : (String.length s < size)%nat → truncate size s = s.
Proof. intros. apply substring_full. lia. Qed.

Lemma length_string_app s t : String.length (s +:+ t) = (String.length s + String.length t)%nat.
Proof. induction s as [|c s IH]; simpl; [done|]. by rewrite IH. Qed.

Example format_example :
  vformat "%s MMIO Read32@0x%04lx=0x%08x" [AStr "Global"; AInt 16; AInt 3735928559] =
  Some "Global MMIO Read32@0x0010=0xdeadbeef"%string.
Proof. reflexivity. Qed.

Example format_wide :
  vformat "%-*s|%*s|" [AInt 5; AStr "AFU"; AInt 5; AStr "AFU"] = Some "AFU  |  AFU|"%string.
Proof. reflexivity. Qed.

Example format_missing_argument :
  vformat "short read of eventfd %d IRQ %d" [] = None.
Proof. reflexivity. Qed.
