(* ===== verification/Types.v ===== *)
(** * Types: the data of libocxl

    The enumerations and structures of src/include/libocxl.h and
    src/libocxl_internal.h, and the objects the library keeps on the C heap.

    An address is a [Z] and [NULL] is 0.  A pointer to a heap object is the
    number of its block; a pointer into one of the two growable arrays of an
    AFU (its IRQs, its MMIO areas) is a block and an index, since the library
    hands such pointers to its caller and to the kernel.  A C enumeration can
    hold any [int], so the ones that are switched on with a [default] case
    have a constructor for the remaining values. *)

From S2P Require Import Prelude.
Open Scope Z_scope.

Abbreviation ptr := Z (only parsing).
Definition NULL : ptr := 0.

(** ** src/include/libocxl.h *)

Definition OCXL_NO_MESSAGES : Z := 0.
Definition OCXL_ERRORS : Z := Z.shiftl 1 0.
Definition OCXL_TRACING : Z := Z.shiftl 1 1.
Definition OCXL_ATTACH_FLAGS_NONE : Z := 0.

Inductive ocxl_endian : Set :=
| OCXL_MMIO_BIG_ENDIAN
| OCXL_MMIO_LITTLE_ENDIAN
| OCXL_MMIO_HOST_ENDIAN
| ocxl_endian_other (n : Z).

Inductive ocxl_mmio_type : Set :=
| OCXL_GLOBAL_MMIO
| OCXL_PER_PASID_MMIO
| ocxl_mmio_type_other (n : Z).

#[export] Instance ocxl_mmio_type_eq_dec : EqDecision ocxl_mmio_type.
Proof. solve_decision. Defined.

Definition ocxl_mmio_type_code (t : ocxl_mmio_type) : Z :=
  match t with OCXL_GLOBAL_MMIO => 0 | OCXL_PER_PASID_MMIO => 1 | ocxl_mmio_type_other n => n end.

Definition AFU_NAME_MAX : Z := 24.

Inductive ocxl_err : Set :=
| OCXL_OK
| OCXL_NO_MEM
| OCXL_NO_DEV
| OCXL_NO_CONTEXT
| OCXL_NO_IRQ
| OCXL_INTERNAL_ERROR
| OCXL_ALREADY_DONE
| OCXL_OUT_OF_BOUNDS
| OCXL_NO_MORE_CONTEXTS
| OCXL_INVALID_ARGS.

#[export] Instance ocxl_err_eq_dec : EqDecision ocxl_err.
Proof. solve_decision. Defined.

Definition ocxl_err_code (e : ocxl_err) : Z :=
  match e with
  | OCXL_OK => 0
  | OCXL_NO_MEM => -1
  | OCXL_NO_DEV => -2
  | OCXL_NO_CONTEXT => -3
  | OCXL_NO_IRQ => -4
  | OCXL_INTERNAL_ERROR => -5
  | OCXL_ALREADY_DONE => -6
  | OCXL_OUT_OF_BOUNDS => -7
  | OCXL_NO_MORE_CONTEXTS => -8
  | OCXL_INVALID_ARGS => -9
  end.

(** [if (rc != OCXL_OK)] *)
Definition is_ok (e : ocxl_err) : bool := match e with OCXL_OK => true | _ => false end.

Record ocxl_event_irq : Set := mk_event_irq {
  ev_irq : Z;       (* uint16_t irq *)
  ev_handle : Z;    (* uint64_t handle *)
  ev_info : Z;      (* void *info *)
  ev_irq_count : Z  (* uint64_t count *)
}.

Record ocxl_event_translation_fault : Set := mk_event_fault {
  ev_addr : Z;
  ev_dsisr : Z;
  ev_fault_count : Z
}.

(** The tagged union [ocxl_event]. *)
Inductive ocxl_event : Set :=
| OCXL_EVENT_IRQ (e : ocxl_event_irq)
| OCXL_EVENT_TRANSLATION_FAULT (e : ocxl_event_translation_fault).

(** ** src/libocxl_internal.h *)

Definition SYS_PATH_DEFAULT : string := "/sys/class/ocxl".
Definition DEV_PATH_DEFAULT : string := "/dev/ocxl".

Definition INITIAL_IRQ_COUNT : Z := 64.
Definition INITIAL_MMIO_COUNT : Z := 4.

(** Indeterminate contents (an object the code has not written) are [None]. *)
Record ocxl_mmio_area : Set := mk_mmio_area {
  area_start : Z;            (* char *start, NULL once unmapped *)
  area_length : Z;           (* size_t length *)
  area_type : ocxl_mmio_type;
  area_afu : option ptr      (* ocxl_afu *afu *)
}.

#[export] Instance eta_mmio_area : Eta ocxl_mmio_area := fun a =>
  mk_mmio_area (area_start a) (area_length a) (area_type a) (area_afu a).

Inductive ocxl_event_action : Set :=
| OCXL_EVENT_ACTION_SUCCESS
| OCXL_EVENT_ACTION_FAIL
| OCXL_EVENT_ACTION_NONE
| OCXL_EVENT_ACTION_IGNORE.

#[export] Instance ocxl_event_action_eq_dec : EqDecision ocxl_event_action.
Proof. solve_decision. Defined.

(** [&irqs[idx]]: a pointer into an array of IRQs. *)
Record irq_ptr : Set := mk_irq_ptr { irq_blk : ptr; irq_idx : Z }.

(** [&mmios[idx]]: an MMIO handle is a pointer into the array of areas. *)
Record ocxl_mmio_h : Set := mk_mmio_h { mmio_blk : ptr; mmio_idx : Z }.

#[export] Instance ocxl_mmio_h_eq_dec : EqDecision ocxl_mmio_h.
Proof. solve_decision. Defined.

Inductive epoll_source_type : Set := EPOLL_SOURCE_OCXL | EPOLL_SOURCE_IRQ.

Record epoll_fd_source : Set := mk_fd_source {
  source_type : epoll_source_type;
  source_irq : option irq_ptr  (* None: NULL *)
}.

(** What [ev.data.ptr] points at: the [fd_info] of an AFU or of an IRQ. *)
Inductive source_ptr : Set :=
| AfuFdInfo (afu : ptr)
| IrqFdInfo (irq : irq_ptr).

Record ocxl_irq : Set := mk_irq {
  irq_offset : Z;             (* event.irq_offset *)
  irq_eventfd : Z;            (* event.eventfd *)
  irq_reserved : Z;           (* event.reserved *)
  irq_number : Z;             (* uint16_t *)
  irq_addr : Z;               (* void *addr *)
  irq_info : Z;               (* void *info *)
  irq_fd_info : epoll_fd_source
}.

#[export] Instance eta_irq : Eta ocxl_irq := fun i =>
  mk_irq (irq_offset i) (irq_eventfd i) (irq_reserved i) (irq_number i) (irq_addr i)
         (irq_info i) (irq_fd_info i).

(** The error message callbacks: the library's default, or one installed by
    the application, known by its address. *)
Inductive handler : Set :=
| DefaultHandler
| UserHandler (f : Z).

Record ocxl_afu : Set := mk_afu {
  afu_index : option Z;       (* identifier.afu_index *)
  afu_name : string;          (* identifier.afu_name *)
  afu_device_path : ptr;
  afu_sysfs_path : ptr;
  afu_version_major : Z;
  afu_version_minor : Z;
  afu_fd : Z;
  afu_fd_info : epoll_fd_source;
  afu_epoll_fd : Z;
  afu_epoll_events : ptr;
  afu_epoll_event_count : Z;
  afu_global_mmio_fd : Z;
  afu_global_mmio : ocxl_mmio_area;
  afu_per_pasid_mmio : ocxl_mmio_area;
  afu_page_size : Z;
  afu_irqs : ptr;
  afu_irq_count : Z;          (* uint16_t *)
  afu_irq_max_count : Z;      (* uint16_t *)
  afu_mmios : ptr;
  afu_mmio_count : Z;         (* uint16_t *)
  afu_mmio_max_count : Z;     (* uint16_t *)
  afu_pasid : Z;              (* uint32_t *)
  afu_verbose_errors : bool;
  afu_error_handler : handler;
  afu_tracing : bool;
  afu_attached : bool;
  afu_ppc64_amr : Z
}.

#[export] Instance eta_afu : Eta ocxl_afu := fun a =>
  mk_afu (afu_index a) (afu_name a) (afu_device_path a) (afu_sysfs_path a)
    (afu_version_major a) (afu_version_minor a) (afu_fd a) (afu_fd_info a)
    (afu_epoll_fd a) (afu_epoll_events a) (afu_epoll_event_count a)
    (afu_global_mmio_fd a) (afu_global_mmio a) (afu_per_pasid_mmio a)
    (afu_page_size a) (afu_irqs a) (afu_irq_count a) (afu_irq_max_count a)
    (afu_mmios a) (afu_mmio_count a) (afu_mmio_max_count a) (afu_pasid a)
    (afu_verbose_errors a) (afu_error_handler a) (afu_tracing a) (afu_attached a)
    (afu_ppc64_amr a).

(** ** The library's global variables (src/internal.c) *)

Record lib_globals : Set := mk_globals {
  g_sys_path : option string;       (* NULL or a path *)
  g_dev_path : option string;
  g_libocxl_inited : bool;
  g_verbose_errors : bool;
  g_verbose_errors_all : bool;
  g_tracing : bool;
  g_tracing_all : bool;
  g_error_handler : handler
}.

#[export] Instance eta_globals : Eta lib_globals := fun g =>
  mk_globals (g_sys_path g) (g_dev_path g) (g_libocxl_inited g) (g_verbose_errors g)
    (g_verbose_errors_all g) (g_tracing g) (g_tracing_all g) (g_error_handler g).

(** The initial values of the globals. *)
Definition initial_globals : lib_globals :=
  mk_globals None None false false false false false DefaultHandler.

(** [SYS_PATH] and [DEVICE_PATH] *)
Definition SYS_PATH (g : lib_globals) : string := default SYS_PATH_DEFAULT (g_sys_path g).
Definition DEVICE_PATH (g : lib_globals) : string := default DEV_PATH_DEFAULT (g_dev_path g).

(** ** Heap objects

    An element of a growable array is [None] while it is indeterminate. *)
Inductive hobj : Set :=
| HAfu (a : ocxl_afu)
| HStr (s : string)
| HIrqs (l : list (option ocxl_irq))
| HMmios (l : list (option ocxl_mmio_area))
| HEpollEvents (n : Z).

(** A growable array of an AFU: how its elements are stored on the heap and
    what an element reads as when its bytes are all zero. *)
Class BufElt (A : Set) := {
  buf_obj : list (option A) → hobj;
  buf_get : hobj → option (list (option A));
  zero_elt : A;
  buf_get_obj l : buf_get (buf_obj l) = Some l
}.

#[export, refine] Instance irq_elt : BufElt ocxl_irq := {|
  buf_obj := HIrqs;
  buf_get o := match o with HIrqs l => Some l | _ => None end;
  zero_elt := mk_irq 0 0 0 0 NULL NULL (mk_fd_source EPOLL_SOURCE_OCXL None)
|}.
Proof. done. Defined.

#[export, refine] Instance mmio_elt : BufElt ocxl_mmio_area := {|
  buf_obj := HMmios;
  buf_get o := match o with HMmios l => Some l | _ => None end;
  zero_elt := mk_mmio_area NULL 0 OCXL_GLOBAL_MMIO (Some NULL)
|}.
Proof. done. Defined.
