(* ===== verification/World.v ===== *)
(** * World: the kernel, the C heap and the monad the library runs in

    libocxl is a thin layer over the kernel.  Everything it asks of the
    outside (system calls, the device registers behind an MMIO mapping, the
    allocator, mutexes, stderr, the application's callbacks) is an operation
    of [sys]; a [Platform] answers them from a state [K] of its own, so every
    theorem holds for every kernel and device unless it names what it relies
    on.  A library function is a computation of the monad [M]: it has the
    heap, the library's globals and the log of the operations issued so far
    as its state, and its outcome is a result, undefined behaviour (a bad
    pointer, a double free, an indeterminate value read, a write outside an
    array, a malformed [printf]), or no result within its fuel. *)

From S2P Require Import Prelude Format Types.
Open Scope Z_scope.

(** ** Constants of the C library and of Linux *)

Definition EAGAIN : Z := 11.
Definition EWOULDBLOCK : Z := 11.
Definition ENOSPC : Z := 28.
Definition PATH_MAX : Z := 4096.
Definition PROT_READ : Z := 1.
Definition PROT_WRITE : Z := 2.
Definition MAP_FAILED : Z := 2 ^ 64 - 1.
Definition GLOB_NOSPACE : Z := 1.
Definition GLOB_NOMATCH : Z := 3.

Inductive open_flag : Set := O_RDWR | O_CLOEXEC | O_NONBLOCK.
Inductive mutex : Set := libocxl_inited_mutex | stderr_mutex.

(** The result of [OCXL_IOCTL_GET_METADATA]. *)
Record ocxl_ioctl_metadata : Set := mk_metadata {
  md_version_major : Z;
  md_version_minor : Z;
  md_pasid : Z;
  md_pp_mmio_size : Z;
  md_global_mmio_size : Z
}.

(** ** Operations of the outside world, with the type of their answer

    A system call answers its return value and, where the code reads it, the
    value it leaves in [errno]. *)
Inductive sys : Set → Set :=
(* process and C library *)
| SGetenv (name : string) : sys (option string)
| SPagesize : sys Z
| SMalloc (size : Z) : sys bool
| SErrno : sys Z
| SLock (m : mutex) : sys unit
| SUnlock (m : mutex) : sys unit
| SStderr (text : string) : sys unit
| SCallback (f : Z) (afu : ptr) (err : Z) (message : string) : sys unit
| SSync : sys unit
(* what the applications of the library ask for besides *)
| SStdout (text : string) : sys unit
| SGettimeofday : sys (Z * Z)
| SWait : sys unit
| SAlignedAlloc (alignment size : Z) : sys Z
| SMemset (addr c n : Z) : sys unit
| SGetpid : sys Z
| SFork : sys Z
| SWaitChild : sys (Z * Z)
| SShmget (size : Z) : sys Z
| SShmat (id : Z) : sys Z
| SShmdt (addr : Z) : sys Z
| SShmRemove (id : Z) : sys Z
| SMmapAnon (length : Z) : sys Z
| SMunmapAnon (addr length : Z) : sys Z
| SMemalign (alignment size : Z) : sys (Z * Z)
| SSleep (usecs : Z) : sys unit
| STimebase : sys Z
| SNoGather : sys unit
| SSignal (signal : Z) : sys bool
| SPendingSignal : sys (option Z)
| SMkdir (path : string) (mode : Z) : sys Z
| SCreat (path : string) (mode : Z) : sys Z
| SWrite (fd : Z) (bytes : list Z) : sys Z
| SSymlink (target path : string) : sys Z
| SUnlink (path : string) : sys Z
(* the thread of the virtual device of the unit tests, and its FUSE session *)
| SThreadCreate (device_name : string) : sys (Z * Z)
| SThreadKill (thread signal : Z) : sys Z
| SThreadJoin (thread : Z) : sys Z
| SSessionExit (session : Z) : sys unit
| SSessionDestroy (session : Z) : sys unit
(* file system *)
| SStat (path : string) : sys (option Z)
| SOpendir (path : string) : sys (option (list string))
| SClosedir (path : string) : sys unit
| SFstatat (dir : string) (name : string) : sys (option (bool * Z))
| SGlob (pattern : string) : sys (Z * list string)
| SOpen (path : string) (flags : list open_flag) : sys Z
| SClose (fd : Z) : sys Z
| SRead (fd : Z) (size : Z) : sys (Z * list Z)
(* memory mappings *)
| SMmap (length prot fd offset : Z) : sys Z
| SMunmap (addr length : Z) : sys Z
| SLoad (addr : Z) (n : nat) : sys (list Z)
| SStore (addr : Z) (bytes : list Z) : sys unit
(* event notification *)
| SEventfd : sys Z
| SEpollCreate : sys Z
| SEpollCtlAdd (epfd fd : Z) (data : source_ptr) : sys Z
| SEpollWait (epfd maxevents timeout : Z) : sys (Z * list source_ptr)
(* the ocxl driver *)
| SIoctlAttach (fd amr : Z) : sys Z
| SIoctlGetMetadata (fd : Z) : sys (Z * ocxl_ioctl_metadata)
| SIoctlIrqAlloc (fd : Z) : sys (Z * Z)
| SIoctlIrqSetFd (fd offset eventfd : Z) : sys Z
| SIoctlIrqFree (fd offset : Z) : sys Z
| SIoctlGetFeatures (fd : Z) : sys (Z * Z)
| SIoctlEnableP9Wait (fd : Z) : sys (Z * Z).

(** One operation the library issued, and its answer. *)
Inductive event : Type :=
| Ev {R : Set} (c : sys R) (r : R).

(** Operations that touch neither a kernel object nor the device: memory
    allocation, and what the library does for messages and nothing else. *)
Definition silent {R} (c : sys R) : bool :=
  match c with
  | SMalloc _ | SErrno | SLock _ | SUnlock _ | SStderr _ | SStdout _ | SCallback _ _ _ _ => true
  | _ => false
  end.

Definition ev_silent (e : event) : bool := let 'Ev c _ := e in silent c.

(** ** The platform

    The structures and constants of the kernel's <misc/ocxl.h>, the generated
    libocxl_info.h, the byte order of the host and the sizes its ABI gives to
    structures are not part of the repository: they are parameters. *)
Class Abi := {
  strerror : Z → string;
  host_little_endian : bool;
  libocxl_info : string;
  sizeof_ocxl_afu : Z;
  sizeof_ocxl_irq : Z;
  sizeof_epoll_event : Z;
  sizeof_event_header : Z;
  sizeof_xsl_fault_error : Z;
  OCXL_AFU_EVENT_XSL_FAULT_ERROR : Z;
  OCXL_KERNEL_EVENT_FLAG_LAST : Z;
  OCXL_IOCTL_FEATURES_FLAGS0_P9_WAIT : Z;
  header_type : list Z → Z;
  header_flags : list Z → Z;
  xsl_addr : list Z → Z;
  xsl_dsisr : list Z → Z;
  xsl_count : list Z → Z
}.

(** The kernel and the device: a state and the answers to the operations. *)
Class Platform (K : Type) := os_step : ∀ R : Set, sys R → K → R * K.
#[export] Hint Mode Platform ! : typeclass_instances.

(** [sizeof(ocxl_mmio_area)]: two words, an enumeration and a pointer. *)
Definition sizeof_ocxl_mmio_area : Z := 32.

(** ** State and outcomes *)

Record world (K : Type) : Type := mk_world {
  w_os : K;
  w_heap : gmap Z hobj;
  w_next : Z;             (* the next block the allocator gives out *)
  w_glob : lib_globals;
  w_trace : list event
}.
Arguments mk_world {_}.
Arguments w_os {_}.
Arguments w_heap {_}.
Arguments w_next {_}.
Arguments w_glob {_}.
Arguments w_trace {_}.

#[export] Instance eta_world K : Eta (world K) := fun w =>
  mk_world (w_os w) (w_heap w) (w_next w) (w_glob w) (w_trace w).

(** A process that has not called the library yet. *)
Definition initial_world {K} (k : K) : world K := mk_world k ∅ 1 initial_globals [].

Inductive outcome (K A : Type) : Type :=
| Ret (a : A) (w : world K)
| UB
| Diverge.
Arguments Ret {_ _}.
Arguments UB {_ _}.
Arguments Diverge {_ _}.

Definition M (K A : Type) : Type := world K → outcome K A.

#[export] Instance M_ret K : MRet (M K) := λ A a w, Ret a w.
#[export] Instance M_bind K : MBind (M K) := λ A B f m w,
  match m w with Ret a w' => f a w' | UB => UB | Diverge => Diverge end.

Definition undefined {K A} : M K A := λ _, UB.
Definition diverge {K A} : M K A := λ _, Diverge.
Definition get_globals {K} : M K lib_globals := λ w, Ret (w_glob w) w.
Definition set_globals {K} (g : lib_globals) : M K unit := λ w, Ret tt (w <| w_glob := g |>).

Section operations.
Context {K : Type} `{Platform K}.

Definition call {R : Set} (c : sys R) : M K R := λ w,
  let '(r, k) := os_step R c (w_os w) in
  Ret r (w <| w_os := k |> <| w_trace := w_trace w ++ [Ev c r] |>).

(** [if (b) c;] *)
Definition when (b : bool) (c : M K unit) : M K unit := if b then c else mret tt.

(** ** The heap

    Blocks are never reused, so an access through a pointer to an object
    that was freed or moved is always detected. *)

Definition alloc (o : hobj) : M K ptr := λ w,
  Ret (w_next w) (w <| w_heap := <[w_next w := o]> (w_heap w) |> <| w_next := w_next w + 1 |>).

Definition malloc (size : Z) (o : hobj) : M K ptr :=
  ok ← call (SMalloc size);
  if (ok : bool) then alloc o else mret NULL.

Definition free (p : ptr) : M K unit := λ w,
  if p =? NULL then Ret tt w
  else match w_heap w !! p with
       | Some _ => Ret tt (w <| w_heap := delete p (w_heap w) |>)
       | None => UB
       end.

Definition load_obj (p : ptr) : M K hobj := λ w,
  match w_heap w !! p with Some o => Ret o w | None => UB end.

Definition store_obj (p : ptr) (o : hobj) : M K unit := λ w,
  match w_heap w !! p with
  | Some _ => Ret tt (w <| w_heap := <[p := o]> (w_heap w) |>)
  | None => UB
  end.

(** [*afu] through an AFU handle. *)
Definition get_afu (p : ptr) : M K ocxl_afu :=
  o ← load_obj p;
  match o with HAfu a => mret a | _ => undefined end.

Definition set_afu (p : ptr) (f : ocxl_afu → ocxl_afu) : M K unit :=
  a ← get_afu p; store_obj p (HAfu (f a)).

(** A C string on the heap. *)
Definition get_str (p : ptr) : M K string :=
  o ← load_obj p;
  match o with HStr s => mret s | _ => undefined end.

(** The elements of a growable array, and reading and writing one of them. *)
Definition get_buf {A : Set} `{BufElt A} (p : ptr) : M K (list (option A)) :=
  o ← load_obj p;
  match buf_get o with Some l => mret l | None => undefined end.

Definition read_elt {A : Set} `{BufElt A} (p : ptr) (i : Z) : M K A :=
  l ← get_buf p;
  if i <? 0 then undefined else
  match l !! Z.to_nat i with
  | Some (Some x) => mret x
  | _ => undefined
  end.

Definition write_elt {A : Set} `{BufElt A} (p : ptr) (i : Z) (x : A) : M K unit :=
  l ← get_buf (A := A) p;
  if (i <? 0) || (Z.of_nat (length l) <=? i) then undefined
  else store_obj p (buf_obj (<[Z.to_nat i := Some x]> l)).

End operations.

(** ** Weakest preconditions: [wp m Q w] says that [m] run from [w] returns,
    without undefined behaviour, a result and a state that satisfy [Q]. *)

Definition wp {K A} (m : M K A) (Q : A → world K → Prop) (w : world K) : Prop :=
  match m w with Ret a w' => Q a w' | UB | Diverge => False end.

(** [m] run from [w] has undefined behaviour. *)
Definition goes_wrong {K A} (m : M K A) (w : world K) : Prop := m w = UB.

Lemma wp_mono {K A} (m : M K A) (Q Q' : A → world K → Prop) w :
  (∀ a w', Q a w' → Q' a w') → wp m Q w → wp m Q' w.
Proof. unfold wp. intros HQ. destruct (m w); auto. Qed.

Lemma wp_ret {K A} (a : A) (Q : A → world K → Prop) w : Q a w → wp (mret a) Q w.
Proof. done. Qed.

Lemma wp_bind {K A B} (m : M K A) (k : A → M K B) (Q : B → world K → Prop) w :
  wp m (λ a w', wp (k a) Q w') w → wp (m ≫= k) Q w.
Proof. unfold wp, mbind, M_bind. by destruct (m w). Qed.

Lemma wp_run {K A} (m : M K A) (Q : A → world K → Prop) w :
  wp m Q w → ∃ a w', m w = Ret a w' ∧ Q a w'.
Proof. unfold wp. destruct (m w); naive_solver. Qed.

Lemma run_wp {K A} (m : M K A) (Q : A → world K → Prop) w a w' :
  wp m Q w → m w = Ret a w' → Q a w'.
Proof. unfold wp. intros Hm E. by rewrite E in Hm. Qed.

Lemma goes_wrong_bind {K A B} (m : M K A) (k : A → M K B) w :
  wp m (λ a w', goes_wrong (k a) w') w → goes_wrong (m ≫= k) w.
Proof. unfold wp, goes_wrong, mbind, M_bind. by destruct (m w). Qed.

Lemma goes_wrong_bind_l {K A B} (m : M K A) (k : A → M K B) w : goes_wrong m w → goes_wrong (m ≫= k) w.
Proof. unfold goes_wrong, mbind, M_bind. by intros ->. Qed.

(** ** All three outcomes: [wpx U D m Q w] says what holds when [m] run from
    [w] returns ([Q]), when it goes wrong ([U]) and when its fuel does not
    suffice ([D]). *)

Definition wpx {K A} (U D : Prop) (m : M K A) (Q : A → world K → Prop) (w : world K) : Prop :=
  match m w with Ret a w' => Q a w' | UB => U | Diverge => D end.

Lemma wpx_wp {K A} (m : M K A) (Q : A → world K → Prop) w : wpx False False m Q w → wp m Q w.
Proof. done. Qed.

Lemma wp_wpx {K A} U D (m : M K A) (Q : A → world K → Prop) w : wp m Q w → wpx U D m Q w.
Proof. unfold wp, wpx. by destruct (m w). Qed.

Lemma wpx_mono {K A} (U U' D D' : Prop) (m : M K A) (Q Q' : A → world K → Prop) w :
  (U → U') → (D → D') → (∀ a w', Q a w' → Q' a w') → wpx U D m Q w → wpx U' D' m Q' w.
Proof. unfold wpx. intros HU HD HQ. destruct (m w); auto. Qed.

Lemma wpx_bind {K A B} U D (m : M K A) (k : A → M K B) (Q : B → world K → Prop) w :
  wpx U D m (λ a w', wpx U D (k a) Q w') w → wpx U D (m ≫= k) Q w.
Proof. unfold wpx, mbind, M_bind. by destruct (m w). Qed.

Lemma wpx_bind_wp {K A B} U D (m : M K A) (k : A → M K B) (Q : B → world K → Prop) w :
  wp m (λ a w', wpx U D (k a) Q w') w → wpx U D (m ≫= k) Q w.
Proof. intros Hm. by apply wpx_bind, wp_wpx. Qed.

Lemma wpx_ret {K A} U D (a : A) (Q : A → world K → Prop) w : Q a w → wpx U D (mret a) Q w.
Proof. done. Qed.

Lemma run_wpx {K A} U D (m : M K A) (Q : A → world K → Prop) w a w' :
  wpx U D m Q w → m w = Ret a w' → Q a w'.
Proof. unfold wpx. intros Hm E. by rewrite E in Hm. Qed.
