(* ===== verification/Logic.v ===== *)
(** * Logic: rules for the operations of the world

    The effects of a run are the operations it issued that are not [silent]
    (memory allocation, messages, traces and the locks around them); [quiet]
    relates two states between which only silent operations happened and the
    memory of the process is the same, [did c r] two states between which
    exactly the operation [c], answered by [r], was an effect. *)

From S2P Require Import Prelude Format Types World.
Open Scope Z_scope.

Definition effects {K} (w : world K) : list event :=
  filter (λ e, ev_silent e = false) (w_trace w).

(** The part of the state that belongs to the process is the same. *)
Record same_mem {K} (w w' : world K) : Prop := mk_same_mem {
  sm_heap : w_heap w' = w_heap w;
  sm_next : w_next w' = w_next w;
  sm_glob : w_glob w' = w_glob w
}.

(** The outside moved by silent operations only. *)
Inductive silent_step {K} `{Platform K} : relation K :=
| silent_step_intro (R : Set) (c : sys R) (k : K) :
    silent c = true → silent_step k (os_step R c k).2.

Record quiet {K} `{Platform K} (w w' : world K) : Prop := mk_quiet {
  quiet_mem : same_mem w w';
  quiet_effects : effects w' = effects w;
  quiet_os : rtc silent_step (w_os w) (w_os w')
}.

Record did {K} `{Platform K} {R : Set} (c : sys R) (r : R) (w w' : world K) : Prop := mk_did {
  did_mem : same_mem w w';
  did_effects : effects w' = effects w ++ [Ev c r];
  did_step : os_step R c (w_os w) = (r, w_os w')
}.

#[export] Instance same_mem_preorder {K} : PreOrder (same_mem (K := K)).
Proof. split; [done|]. intros w1 w2 w3 [] []; split; congruence. Qed.

#[export] Instance quiet_preorder {K} `{Platform K} : PreOrder (quiet (K := K)).
Proof. split; [by split|]. intros w1 w2 w3 [] []; split; [by etrans|congruence|by etrans]. Qed.

Definition upd_heap {K} (f : gmap Z hobj → gmap Z hobj) (w : world K) : world K :=
  w <| w_heap := f (w_heap w) |>.

Lemma effects_upd_heap {K} f (w : world K) : effects (upd_heap f w) = effects w.
Proof. done. Qed.

Lemma heap_upd_eq {K} (w : world K) p o : w_heap (upd_heap <[p := o]> w) !! p = Some o.
Proof. apply lookup_insert_eq. Qed.

Lemma heap_upd_ne {K} (w : world K) p q o :
  p ≠ q → w_heap (upd_heap <[p := o]> w) !! q = w_heap w !! q.
Proof. apply lookup_insert_ne. Qed.

(** ** Runs of the outside

    [ran es w w']: between the two states the effects were exactly [es], and
    the outside went through them, and silent operations, in that order. *)

Inductive os_path {K} `{Platform K} : list event → relation K :=
| path_nil (k : K) : os_path [] k k
| path_silent k k1 k' es : silent_step k k1 → os_path es k1 k' → os_path es k k'
| path_effect (R : Set) (c : sys R) r k k1 k' es :
    os_step R c k = (r, k1) → os_path es k1 k' → os_path (Ev c r :: es) k k'.

Lemma os_path_app {K} `{Platform K} es es' (k k1 k' : K) :
  os_path es k k1 → os_path es' k1 k' → os_path (es ++ es') k k'.
Proof. induction 1; simpl; eauto using os_path. Qed.

Lemma os_path_silent {K} `{Platform K} (k k' : K) : rtc silent_step k k' → os_path [] k k'.
Proof. induction 1; eauto using os_path. Qed.

Record ran {K} `{Platform K} (es : list event) (w w' : world K) : Prop := mk_ran {
  ran_effects : effects w' = effects w ++ es;
  ran_os : os_path es (w_os w) (w_os w')
}.

Lemma ran_quiet {K} `{Platform K} (w w' : world K) : quiet w w' → ran [] w w'.
Proof. intros [_ E Hs]. split; [by rewrite app_nil_r|by apply os_path_silent]. Qed.

Lemma ran_did {K} `{Platform K} {R : Set} (c : sys R) r (w w' : world K) : did c r w w' → ran [Ev c r] w w'.
Proof. intros [_ E Hs]. split; [done|]. econstructor; [done|constructor]. Qed.

Lemma ran_trans {K} `{Platform K} es es' (w w1 w' : world K) :
  ran es w w1 → ran es' w1 w' → ran (es ++ es') w w'.
Proof. intros [E1 P1] [E2 P2]. split; [by rewrite E2, E1, app_assoc|by eapply os_path_app]. Qed.

Lemma ran_cons {K} `{Platform K} {R : Set} (c : sys R) r es (w w1 w' : world K) :
  did c r w w1 → ran es w1 w' → ran (Ev c r :: es) w w'.
Proof. intros Hd Hr. exact (ran_trans [_] es _ _ _ (ran_did _ _ _ _ Hd) Hr). Qed.

Lemma ran_quiet_r {K} `{Platform K} es (w w1 w' : world K) : ran es w w1 → quiet w1 w' → ran es w w'.
Proof. intros Hr Hq. rewrite <-(app_nil_r es). by eapply ran_trans, ran_quiet. Qed.

Lemma ran_quiet_l {K} `{Platform K} es (w w1 w' : world K) : quiet w w1 → ran es w1 w' → ran es w w'.
Proof. intros Hq Hr. eapply (ran_trans []); [by apply ran_quiet|done]. Qed.

Lemma ran_refl {K} `{Platform K} (w : world K) : ran [] w w.
Proof. by apply ran_quiet. Qed.

(** A run that logged nothing. *)
Lemma ran_memory_only {K} `{Platform K} es (w w' : world K) :
  ran es w w' → effects w' = effects w → ran [] w w'.
Proof.
  intros [E Hp] E'. rewrite E in E'. rewrite <-(app_nil_r (effects w)) in E' at 2.
  apply app_inv_head in E' as ->. split; [by rewrite E|done].
Qed.

(** A quantity of the outside that never grows, and falls with every effect of
    a kind: there are at most that many such effects. *)
Class Ranked {K} `{Platform K} (rank : K → nat) (hit : event → bool) : Prop := {
  rank_step (R : Set) (c : sys R) k :
    (rank (os_step R c k).2 + (if hit (Ev c (os_step R c k).1) then 1 else 0) <= rank k)%nat
}.

Definition hits (hit : event → bool) (es : list event) : nat := length (List.filter hit es).

Lemma hits_app hit es es' : hits hit (es ++ es') = (hits hit es + hits hit es')%nat.
Proof. unfold hits. by rewrite List.filter_app, length_app. Qed.

Lemma rank_path {K} `{Platform K} rank hit `{!Ranked rank hit} es (k k' : K) :
  os_path es k k' → (rank k' + hits hit es <= rank k)%nat.
Proof.
  induction 1 as [|k k1 k' es Hs _ IH|R c r k k1 k' es E _ IH]; [unfold hits; simpl; lia|..].
  - destruct Hs as [R c k _]. pose proof (rank_step (rank := rank) (hit := hit) R c k). lia.
  - pose proof (rank_step (rank := rank) (hit := hit) R c k) as Hr. rewrite E in Hr. simpl in Hr.
    unfold hits in *. simpl. destruct (hit (Ev c r)); simpl; lia.
Qed.

Lemma rank_ran {K} `{Platform K} rank hit `{!Ranked rank hit} es (w w' : world K) :
  ran es w w' → (rank (w_os w') + hits hit es <= rank (w_os w))%nat.
Proof. intros [_ Hp]. by apply (rank_path rank hit). Qed.

Section rules.
Context {K : Type} `{Platform K}.
Implicit Types (w : world K).

Lemma wp_call {R : Set} (c : sys R) (Q : R → world K → Prop) w :
  silent c = false → (∀ r w', did c r w w' → Q r w') → wp (call c) Q w.
Proof.
  intros Hc HQ. unfold wp, call. destruct (os_step R c (w_os w)) as [r k] eqn:E.
  apply HQ. split; [done| |done].
  unfold effects. simpl. rewrite list.filter_app, filter_cons_True by done. done.
Qed.

Lemma wp_call_silent {R : Set} (c : sys R) (Q : R → world K → Prop) w :
  silent c = true → (∀ r w', quiet w w' → Q r w') → wp (call c) Q w.
Proof.
  intros Hc HQ. unfold wp, call. destruct (os_step R c (w_os w)) as [r k] eqn:E.
  apply HQ. split; [done| |].
  - unfold effects. simpl. rewrite list.filter_app, filter_cons_False by (simpl; congruence).
    by rewrite app_nil_r.
  - simpl. apply rtc_once. replace k with (os_step R c (w_os w)).2 by (by rewrite E). by constructor.
Qed.

Lemma wp_when b (m : M K unit) (Q : unit → world K → Prop) w :
  (b = true → wp m Q w) → (b = false → Q tt w) → wp (when b m) Q w.
Proof. destruct b; simpl; [intros Hm _; by apply Hm|intros _ HQ; by apply HQ]. Qed.

Lemma wp_load_obj p o (Q : hobj → world K → Prop) w :
  w_heap w !! p = Some o → Q o w → wp (load_obj p) Q w.
Proof. intros E HQ. unfold wp, load_obj. by rewrite E. Qed.

Lemma wp_store_obj p o (Q : unit → world K → Prop) w :
  is_Some (w_heap w !! p) → Q tt (upd_heap <[p := o]> w) → wp (store_obj p o) Q w.
Proof. intros [? E] HQ. unfold wp, store_obj. by rewrite E. Qed.

Lemma wp_get_afu p a (Q : ocxl_afu → world K → Prop) w :
  w_heap w !! p = Some (HAfu a) → Q a w → wp (get_afu p) Q w.
Proof. intros. apply wp_bind. by eapply wp_load_obj. Qed.

Lemma wp_set_afu p f a (Q : unit → world K → Prop) w :
  w_heap w !! p = Some (HAfu a) → Q tt (upd_heap <[p := HAfu (f a)]> w) →
  wp (set_afu p f) Q w.
Proof. intros E HQ. apply wp_bind. eapply wp_get_afu; [done|]. by apply wp_store_obj; eauto. Qed.

Lemma wp_get_str p s (Q : string → world K → Prop) w :
  w_heap w !! p = Some (HStr s) → Q s w → wp (get_str p) Q w.
Proof. intros. apply wp_bind. by eapply wp_load_obj. Qed.

Lemma wp_free p (Q : unit → world K → Prop) w :
  p = NULL ∨ is_Some (w_heap w !! p) →
  Q tt (if p =? NULL then w else upd_heap (delete p) w) → wp (free p) Q w.
Proof.
  unfold wp, free. destruct (Z.eqb_spec p NULL) as [->|Hp]; [done|].
  intros [?|[o E]]; [done|]. by rewrite E.
Qed.

Lemma wp_alloc o (Q : ptr → world K → Prop) w :
  Q (w_next w) (upd_heap <[w_next w := o]> w <| w_next := w_next w + 1 |>) →
  wp (alloc o) Q w.
Proof. done. Qed.

(** An allocation that can fail: [NULL], or a block that was free. *)
Lemma wp_malloc size o (Q : ptr → world K → Prop) w :
  (∀ w', quiet w w' → Q NULL w') →
  (∀ w', quiet w w' →
     Q (w_next w) (upd_heap <[w_next w := o]> w' <| w_next := w_next w + 1 |>)) →
  wp (malloc size o) Q w.
Proof.
  intros Hf Ht. apply wp_bind, wp_call_silent; [done|]. intros [] w' Hw'; [|by apply wp_ret, Hf].
  apply wp_alloc. destruct (quiet_mem _ _ Hw') as [_ E _]. rewrite E. by apply Ht.
Qed.

Context {A : Set} `{BufElt A}.

Lemma wp_get_buf p (l : list (option A)) (Q : list (option A) → world K → Prop) w :
  w_heap w !! p = Some (buf_obj l) → Q l w → wp (get_buf p) Q w.
Proof. intros. apply wp_bind. eapply wp_load_obj; [done|]. by rewrite buf_get_obj. Qed.

Lemma wp_read_elt p (l : list (option A)) i x (Q : A → world K → Prop) w :
  w_heap w !! p = Some (buf_obj l) → 0 <= i → l !! Z.to_nat i = Some (Some x) → Q x w →
  wp (read_elt p i) Q w.
Proof.
  intros E Hi El HQ. apply wp_bind. eapply wp_get_buf; [done|].
  destruct (Z.ltb_spec i 0); [lia|]. by rewrite El.
Qed.

Lemma wp_write_elt p (l : list (option A)) i x (Q : unit → world K → Prop) w :
  w_heap w !! p = Some (buf_obj l) → 0 <= i < Z.of_nat (length l) →
  Q tt (upd_heap <[p := buf_obj (<[Z.to_nat i := Some x]> l)]> w) →
  wp (write_elt p i x) Q w.
Proof.
  intros E Hi HQ. apply wp_bind. eapply wp_get_buf; [done|].
  destruct (Z.ltb_spec i 0), (Z.leb_spec (Z.of_nat (length l)) i); [lia..|].
  apply wp_store_obj; eauto.
Qed.

Lemma wp_get_globals (Q : lib_globals → world K → Prop) w :
  Q (w_glob w) w → wp get_globals Q w.
Proof. done. Qed.

Lemma wp_set_globals g (Q : unit → world K → Prop) w :
  Q tt (w <| w_glob := g |>) → wp (set_globals g) Q w.
Proof. done. Qed.

End rules.

(** Push a [wp] through binds and returns. *)
Ltac wp_bind := repeat apply wp_bind.
