(* ===== verification/Messages.v ===== *)
(** * Messages: error messages, tracing and library initialisation

    src/setup.c and the message functions of src/internal.c. *)

From S2P Require Import Prelude Format Types World Logic.
Open Scope Z_scope.

(** [strcasecmp(a, b) == 0] in the C locale. *)
Definition to_lower (c : ascii) : ascii :=
  let n := nat_of_ascii c in
  if (65 <=? n)%nat && (n <=? 90)%nat then ascii_of_nat (n + 32) else c.

Fixpoint strcase_eq (a b : string) : bool :=
  match a, b with
  | EmptyString, EmptyString => true
  | String c a', String d b' => Ascii.eqb (to_lower c) (to_lower d) && strcase_eq a' b'
  | _, _ => false
  end.

(** [val && (!strcasecmp(val, "yes") || !strcmp(val, "1"))] *)
Definition env_enabled (val : option string) : bool :=
  match val with
  | Some v => strcase_eq v "yes" || String.eqb v "1"
  | None => false
  end.

(** [ocxl_err_to_string]: an error value is an [int]. *)
Definition ocxl_err_to_string (err : Z) : string :=
  match err with
  | 0 => "OK"
  | -1 => "No memory"
  | -3 => "AFU context not available"
  | -4 => "AFU interrupt not available"
  | -5 => "Internal error"
  | -6 => "Already done"
  | -7 => "Out of bounds"
  | -8 => "No more contexts"
  | -9 => "Invalid arguments"
  | _ => "Unknown error"
  end.

Definition MAX_MESSAGE_LENGTH : nat := 255.

Section messages.
Context {K : Type} `{Platform K} `{Abi}.

Definition ocxl_enable_messages (sources : Z) : M K unit :=
  g ← get_globals;
  set_globals (g <| g_verbose_errors := c_bool (Z.land sources OCXL_ERRORS) |>
                 <| g_tracing := c_bool (Z.land sources OCXL_TRACING) |>).

Definition ocxl_set_error_message_handler (h : handler) : M K unit :=
  g ← get_globals;
  set_globals (g <| g_error_handler := h |>).

Definition ocxl_info : string := libocxl_info.

(** [ocxl_set_sys_path], [ocxl_set_dev_path] (test builds) *)
Definition ocxl_set_sys_path (path : string) : M K unit :=
  g ← get_globals; set_globals (g <| g_sys_path := Some path |>).

Definition ocxl_set_dev_path (path : string) : M K unit :=
  g ← get_globals; set_globals (g <| g_dev_path := Some path |>).

Definition libocxl_init : M K unit :=
  call (SLock libocxl_inited_mutex);;
  g ← get_globals;
  if g_libocxl_inited g then call (SUnlock libocxl_inited_mutex) else
  val ← call (SGetenv "LIBOCXL_INFO");
  when (env_enabled val) (call (SStderr (libocxl_info +:+ String "010" ""))) ;;
  val ← call (SGetenv "LIBOCXL_TRACE_ALL");
  g ← get_globals;
  when (env_enabled val) (set_globals (g <| g_tracing_all := true |> <| g_tracing := true |>)) ;;
  val ← call (SGetenv "LIBOCXL_VERBOSE_ERRORS_ALL");
  g ← get_globals;
  when (env_enabled val)
    (set_globals (g <| g_verbose_errors_all := true |> <| g_verbose_errors := true |>)) ;;
  val ← call (SGetenv "LIBOCXL_SYSPATH");
  g ← get_globals;
  (match val with Some v => set_globals (g <| g_sys_path := Some v |>) | None => mret tt end) ;;
  g ← get_globals;
  set_globals (g <| g_libocxl_inited := true |>) ;;
  call (SUnlock libocxl_inited_mutex).

(** [fprintf(stderr, fmt, ...)] *)
Definition fprintf_stderr (fmt : string) (args : list arg) : M K unit :=
  match vformat fmt args with
  | Some text => call (SStderr text)
  | None => undefined
  end.

Definition tab : string := String "009" "".
Definition newline : string := String "010" "".

Definition trace_message (label file : string) (line : Z) (function : string)
    (format : string) (args : list arg) : M K unit :=
  call (SLock stderr_mutex) ;;
  fprintf_stderr ("%s: %s:%d" +:+ tab +:+ "%s():" +:+ tab +:+ tab)
    [AStr label; AStr file; AInt line; AStr function] ;;
  fprintf_stderr format args ;;
  fprintf_stderr newline [] ;;
  call (SUnlock stderr_mutex).

(** The macros [TRACE] (an AFU's own flag) and [TRACE_OPEN] (the global one). *)
Definition TRACE (afu : ptr) (file : string) (line : Z) (function : string)
    (format : string) (args : list arg) : M K unit :=
  a ← get_afu afu;
  when (afu_tracing a) (trace_message "Trace" file line function format args).

Definition TRACE_OPEN (file : string) (line : Z) (function : string)
    (format : string) (args : list arg) : M K unit :=
  g ← get_globals;
  when (g_tracing g) (trace_message "Trace" file line function format args).

Definition ocxl_default_error_handler (error : Z) (message : string) : M K unit :=
  call (SLock stderr_mutex) ;;
  fprintf_stderr ("ERROR: %s: %s" +:+ newline) [AStr (ocxl_err_to_string error); AStr message] ;;
  call (SUnlock stderr_mutex).

Definition ocxl_afu_get_device_path (afu : ptr) : M K ptr :=
  a ← get_afu afu; mret (afu_device_path a).

Definition ocxl_default_afu_error_handler (afu : ptr) (error : Z) (message : string) : M K unit :=
  dev ← ocxl_afu_get_device_path afu;
  call (SLock stderr_mutex) ;;
  name ← (if dev =? NULL then mret "No AFU"%string else get_str dev);
  fprintf_stderr ("ERROR: %s" +:+ tab +:+ "%s: %s" +:+ newline)
    [AStr name; AStr (ocxl_err_to_string error); AStr message] ;;
  call (SUnlock stderr_mutex).

(** [vsnprintf(buf, sizeof(buf), format, ap)] into the message buffer. *)
Definition message_text (format : string) (args : list arg) : M K string :=
  match vformat format args with
  | Some text => mret (truncate MAX_MESSAGE_LENGTH text)
  | None => undefined
  end.

Definition errmsg (afu : ptr) (error : ocxl_err) (format : string) (args : list arg) : M K unit :=
  let code := ocxl_err_code error in
  if negb (afu =? NULL) then
    a ← get_afu afu;
    when (afu_verbose_errors a)
      (buf ← message_text format args;
       match afu_error_handler a with
       | DefaultHandler => ocxl_default_afu_error_handler afu code buf
       | UserHandler f => call (SCallback f afu code buf)
       end)
  else
    g ← get_globals;
    when (g_verbose_errors g)
      (buf ← message_text format args;
       match g_error_handler g with
       | DefaultHandler => ocxl_default_error_handler code buf
       | UserHandler f => call (SCallback f NULL code buf)
       end).

(** The arguments [errno, strerror(errno)] of a message. *)
Definition errno_args : M K (list arg) :=
  e ← call SErrno; mret [AInt e; AStr (strerror e)].

(** ** Rules: reporting leaves everything but the log of messages alone *)

Implicit Types (w : world K).

(** [p] is an AFU whose device path, if it has one, is a string. *)
Definition afu_at w (p : ptr) (a : ocxl_afu) : Prop :=
  w_heap w !! p = Some (HAfu a) ∧
  (afu_device_path a = NULL ∨ ∃ s, w_heap w !! afu_device_path a = Some (HStr s)).

(** The owner of a message: no AFU, or a live one. *)
Definition can_report w (p : ptr) : Prop := p = NULL ∨ ∃ a, afu_at w p a.

Lemma afu_at_same_mem w w' p a : same_mem w w' → afu_at w p a → afu_at w' p a.
Proof. intros [E _ _]. unfold afu_at. by rewrite E. Qed.

Lemma can_report_same_mem w w' p : same_mem w w' → can_report w p → can_report w' p.
Proof. intros Hs [->|[a Ha]]; [by left|right; eauto using afu_at_same_mem]. Qed.

Lemma can_report_quiet w w' p : quiet w w' → can_report w p → can_report w' p.
Proof. intros []. by apply can_report_same_mem. Qed.

Lemma wp_fprintf_stderr fmt args Q w :
  conforms fmt args = true → (∀ w', quiet w w' → Q tt w') → wp (fprintf_stderr fmt args) Q w.
Proof.
  intros Hc HQ. unfold fprintf_stderr.
  apply vformat_conforms in Hc as [text ->]. apply wp_call_silent; [done|].
  intros [] w'. apply HQ.
Qed.

(** Sequencing two computations that only report. *)
Lemma wp_quiet_seq (m1 m2 : M K unit) Q w :
  (∀ Q', (∀ w', quiet w w' → Q' tt w') → wp m1 Q' w) →
  (∀ w1, quiet w w1 → ∀ Q', (∀ w', quiet w1 w' → Q' tt w') → wp m2 Q' w1) →
  (∀ w', quiet w w' → Q tt w') → wp (m1 ;; m2) Q w.
Proof.
  intros H1 H2 HQ. apply wp_bind, H1. intros w1 Hw1. apply (H2 w1 Hw1).
  intros w2 Hw2. apply HQ. by etrans.
Qed.

Lemma wp_report {R : Set} (c : sys R) w (Q : R → world K → Prop) :
  silent c = true → (∀ r w', quiet w w' → Q r w') → wp (call c) Q w.
Proof. apply wp_call_silent. Qed.

Lemma wp_report_unit (c : sys unit) w (Q : unit → world K → Prop) :
  silent c = true → (∀ w', quiet w w' → Q tt w') → wp (call c) Q w.
Proof. intros Hc HQ. apply wp_report; [done|]. intros []. apply HQ. Qed.

Lemma wp_trace_message label file line function fmt args Q w :
  conforms fmt args = true → (∀ w', quiet w w' → Q tt w') →
  wp (trace_message label file line function fmt args) Q w.
Proof.
  intros Hc HQ. unfold trace_message.
  apply wp_quiet_seq; [intros; by apply wp_report_unit| |done].
  intros w1 _ Q1 HQ1. apply wp_quiet_seq; [intros; by apply wp_fprintf_stderr| |done].
  intros w2 _ Q2 HQ2. apply wp_quiet_seq; [intros; by apply wp_fprintf_stderr| |done].
  intros w3 _ Q3 HQ3. apply wp_quiet_seq; [intros; by apply wp_fprintf_stderr| |done].
  intros w4 _ Q4 HQ4. by apply wp_report_unit.
Qed.

Lemma wp_TRACE p a file line function fmt args Q w :
  w_heap w !! p = Some (HAfu a) → conforms fmt args = true →
  (∀ w', quiet w w' → Q tt w') → wp (TRACE p file line function fmt args) Q w.
Proof.
  intros Ha Hc HQ. apply wp_bind. eapply wp_get_afu; [done|].
  apply wp_when; [|intros; by apply HQ]. intros. by apply wp_trace_message.
Qed.

Lemma wp_TRACE_OPEN file line function fmt args Q w :
  conforms fmt args = true →
  (∀ w', quiet w w' → Q tt w') → wp (TRACE_OPEN file line function fmt args) Q w.
Proof.
  intros Hc HQ. apply wp_bind, wp_get_globals.
  apply wp_when; [|intros; by apply HQ]. intros. by apply wp_trace_message.
Qed.

Lemma wp_default_error_handler err msg Q w :
  (∀ w', quiet w w' → Q tt w') → wp (ocxl_default_error_handler err msg) Q w.
Proof.
  apply wp_quiet_seq; [intros; by apply wp_report_unit|].
  intros w1 _ Q1 HQ1. apply wp_quiet_seq; [intros; by apply wp_fprintf_stderr| |done].
  intros w2 _ Q2 HQ2. by apply wp_report_unit.
Qed.

Lemma wp_default_afu_error_handler p a err msg Q w :
  afu_at w p a → (∀ w', quiet w w' → Q tt w') →
  wp (ocxl_default_afu_error_handler p err msg) Q w.
Proof.
  intros [Ha Hd] HQ. do 2 apply wp_bind. eapply wp_get_afu; [done|]. apply wp_ret.
  apply wp_quiet_seq; [intros; by apply wp_report_unit| |done].
  intros w1 [[E1 _ _] _] Q1 HQ1. apply wp_bind.
  assert (∀ s, wp (fprintf_stderr ("ERROR: %s" +:+ tab +:+ "%s: %s" +:+ newline)
      [AStr s; AStr (ocxl_err_to_string err); AStr msg] ;; call (SUnlock stderr_mutex)) Q1 w1) as Hk.
  { intros s. apply wp_quiet_seq; [intros; by apply wp_fprintf_stderr| |done].
    intros w2 _ Q2 HQ2. by apply wp_report_unit. }
  destruct (Z.eqb_spec (afu_device_path a) NULL); [by apply wp_ret|].
  destruct Hd as [?|[s Hs]]; [done|]. eapply wp_get_str; [by rewrite E1|]. apply Hk.
Qed.

Lemma wp_message_text fmt args Q w :
  conforms fmt args = true → (∀ s, vformat fmt args = Some s → Q (truncate MAX_MESSAGE_LENGTH s) w) →
  wp (message_text fmt args) Q w.
Proof.
  intros Hc HQ. unfold message_text. apply vformat_conforms in Hc as [s E]. rewrite E. by apply HQ.
Qed.

Lemma wp_errmsg p err fmt args Q w :
  can_report w p → conforms fmt args = true →
  (∀ w', quiet w w' → Q tt w') → wp (errmsg p err fmt args) Q w.
Proof.
  intros Hp Hc HQ. unfold errmsg. destruct (Z.eqb_spec p NULL) as [->|Hne]; simpl.
  - apply wp_bind, wp_get_globals. apply wp_when; [|intros; by apply HQ]. intros _.
    apply wp_bind, wp_message_text; [done|]. intros s _.
    destruct (g_error_handler _); [by apply wp_default_error_handler|by apply wp_report_unit].
  - destruct Hp as [?|[a Ha]]; [done|]. apply wp_bind.
    eapply wp_get_afu; [apply Ha|]. apply wp_when; [|intros; by apply HQ]. intros _.
    apply wp_bind, wp_message_text; [done|]. intros s _.
    destruct (afu_error_handler a);
      [by eapply wp_default_afu_error_handler|by apply wp_report_unit].
Qed.

Lemma wp_errno_args Q w :
  (∀ e w', quiet w w' → Q [AInt e; AStr (strerror e)] w') → wp errno_args Q w.
Proof. intros HQ. apply wp_bind, wp_report; [done|]. intros e w' Hw'. by apply wp_ret, HQ. Qed.

End messages.
