(* ===== verification/Buffer.v ===== *)
(** * Buffer: the growable arrays of an AFU ([grow_buffer], src/internal.c)

    The IRQs and the MMIO areas of an AFU live in arrays that double in size
    when they are full.  [realloc] ends the life of the old block: a pointer
    into it dangles afterwards. *)

From S2P Require Import Prelude Format Types World Logic Messages.
Open Scope Z_scope.

Section buffer.
Context {K : Type} `{Platform K} `{Abi} {A : Set} `{BufElt A}.
Implicit Types (w : world K).

(** The first [n] elements of [l], with indeterminate ones behind them. *)
Definition resize_elts (n : nat) (l : list (option A)) : list (option A) :=
  take n l ++ replicate (n - length l) None.

(** [realloc(p, bytes)] of an array, to [n] elements *)
Definition realloc_buf (p : ptr) (bytes : Z) (n : nat) : M K ptr :=
  ok ← call (SMalloc bytes);
  if negb (ok : bool) then mret NULL else
  l ← (if p =? NULL then mret [] else get_buf p);
  temp ← alloc (buf_obj (resize_elts n l));
  free p ;;
  mret temp.

(** [memset] of [bytes] zero bytes from element [first] on, the elements
    being [size] bytes long; an element that is covered only in part is
    indeterminate. *)
Definition memset_elts (first bytes size : Z) (l : list (option A)) : list (option A) :=
  imap (λ i x,
    let i := Z.of_nat i in
    if (first <=? i) && ((i - first + 1) * size <=? bytes) then Some zero_elt
    else if (first <=? i) && ((i - first) * size <? bytes) then None
    else x) l.

(** The number of elements the buffer is grown to. *)
Definition new_count (count initial_count : Z) : Z :=
  if 0 <? count then 2 * count else initial_count.

(** [grow_buffer(afu, &buffer, &count, size, initial_count)] with the new
    values of [buffer] and [count]. *)
Definition grow_buffer (afu : ptr) (buffer : ptr) (count size initial_count : Z) :
    M K (ocxl_err * ptr * Z) :=
  let n := new_count count initial_count in
  temp ← realloc_buf buffer (u64 (n * size)) (Z.to_nat n);
  if temp =? NULL then
    e ← errno_args;
    errmsg afu OCXL_NO_MEM
      "Could not realloc buffer to %lu elements of %lu bytes (%lu bytes total): %d '%s'"
      ([AInt n; AInt size; AInt (u64 (n * size))] ++ e) ;;
    mret (OCXL_NO_MEM, buffer, count)
  else
    l ← get_buf (A := A) temp;
    store_obj temp (buf_obj (memset_elts count (u64 (n - count)) size l)) ;;
    mret (OCXL_OK, temp, u16 n).

(** ** Facts about the contents *)

Lemma length_resize_elts n l : length (resize_elts n l) = n.
Proof. unfold resize_elts. solve_length. Qed.

Lemma resize_elts_lookup n l i x : l !! i = Some x → (i < n)%nat → resize_elts n l !! i = Some x.
Proof.
  intros Hl Hi. unfold resize_elts. pose proof (lookup_lt_Some _ _ _ Hl).
  rewrite lookup_app_l by solve_length. by rewrite lookup_take_lt.
Qed.

Lemma resize_elts_new n l i : (length l <= i < n)%nat → resize_elts n l !! i = Some None.
Proof.
  intros Hi. unfold resize_elts. rewrite lookup_app_r by solve_length.
  rewrite length_take. apply lookup_replicate_2. lia.
Qed.

Lemma length_memset_elts first bytes size l : length (memset_elts first bytes size l) = length l.
Proof. apply length_imap. Qed.

(** [memset] from [first] on leaves the elements before [first]. *)
Lemma memset_elts_before first bytes size l i :
  Z.of_nat i < first → memset_elts first bytes size l !! i = l !! i.
Proof.
  intros Hi. unfold memset_elts. rewrite list_lookup_imap.
  destruct (l !! i) as [x|]; [|done]. simpl.
  destruct (Z.leb_spec first (Z.of_nat i)); [lia|]. done.
Qed.

Lemma memset_elts_beyond first bytes size l i :
  first <= Z.of_nat i → bytes <= (Z.of_nat i - first) * size → 0 < size →
  memset_elts first bytes size l !! i = l !! i.
Proof.
  intros Hi Hb Hs. unfold memset_elts. rewrite list_lookup_imap.
  destruct (l !! i) as [x|]; [|done]. simpl.
  destruct (Z.leb_spec ((Z.of_nat i - first + 1) * size) bytes); [lia|].
  destruct (Z.ltb_spec ((Z.of_nat i - first) * size) bytes); [lia|].
  by destruct (first <=? Z.of_nat i).
Qed.

(** The contents of a buffer of [count] elements after it was grown. *)
Definition grown (count size initial_count : Z) (l : list (option A)) : list (option A) :=
  let n := new_count count initial_count in
  memset_elts count (u64 (n - count)) size (resize_elts (Z.to_nat n) l).

Lemma length_grown count size initial l :
  length (grown count size initial l) = Z.to_nat (new_count count initial).
Proof. unfold grown. by rewrite length_memset_elts, length_resize_elts. Qed.

Lemma grown_lookup count size initial l i x :
  Z.of_nat i < count → l !! i = Some x → grown count size initial l !! i = Some x.
Proof.
  intros Hi Hl. unfold grown. rewrite memset_elts_before by done.
  apply resize_elts_lookup; [done|]. unfold new_count.
  destruct (Z.ltb_spec 0 count); lia.
Qed.

(** ** Heaps

    [heap_wf]: the allocator has not given out the blocks from [w_next] on,
    and [NULL] is not a block. *)
Definition heap_wf w : Prop :=
  0 < w_next w ∧ ∀ p, is_Some (w_heap w !! p) → 0 < p < w_next w.

(** [p] is the array [l]; an array with no element yet is [NULL]. *)
Definition buf_at w (p : ptr) (l : list (option A)) : Prop :=
  (p = NULL ∧ l = []) ∨ (p ≠ NULL ∧ w_heap w !! p = Some (buf_obj l)).

Lemma heap_wf_fresh w : heap_wf w → w_heap w !! w_next w = None.
Proof.
  intros [_ Hw]. destruct (w_heap w !! w_next w) eqn:E; [|done].
  destruct (Hw (w_next w)); [eauto|lia].
Qed.

Lemma heap_wf_null w : heap_wf w → w_heap w !! NULL = None.
Proof.
  intros [_ Hw]. destruct (w_heap w !! NULL) eqn:E; [|done].
  destruct (Hw NULL); [eauto|unfold NULL in *; lia].
Qed.

Lemma heap_wf_same_mem w w' : same_mem w w' → heap_wf w → heap_wf w'.
Proof. intros [E1 E2 _]. unfold heap_wf. by rewrite E1, E2. Qed.

Lemma buf_at_same_mem w w' p l : same_mem w w' → buf_at w p l → buf_at w' p l.
Proof. intros [E1 _ _]. unfold buf_at. by rewrite E1. Qed.

(** Replacing the object of a live block keeps the heap well-formed. *)
Lemma heap_wf_insert w p o : is_Some (w_heap w !! p) → heap_wf w → heap_wf (upd_heap <[p := o]> w).
Proof.
  intros Hp [Hn Hw]. split; [done|]. simpl. intros q [x Hq].
  destruct (decide (p = q)) as [<-|Hne]; [by apply Hw|].
  rewrite lookup_insert_ne in Hq by done. apply Hw. eauto.
Qed.

Lemma heap_wf_delete w p : heap_wf w → heap_wf (upd_heap (delete p) w).
Proof.
  intros [Hn Hw]. split; [done|]. simpl. intros q [x Hq]. apply Hw.
  apply lookup_delete_Some in Hq as [_ Hq]. eauto.
Qed.

Lemma heap_wf_alloc w o :
  heap_wf w → heap_wf (upd_heap <[w_next w := o]> w <| w_next := w_next w + 1 |>).
Proof.
  intros [Hn Hw]. split; simpl; [lia|]. intros q [x Hq].
  destruct (decide (w_next w = q)) as [<-|Hne]; [lia|].
  rewrite lookup_insert_ne in Hq by done. destruct (Hw q); [eauto|lia].
Qed.

(** The state after a buffer was moved to a fresh block. *)
Definition moved w (buffer : ptr) (l : list (option A)) : world K :=
  upd_heap (λ h, <[w_next w := buf_obj l]> (if buffer =? NULL then h else delete buffer h)) w
    <| w_next := w_next w + 1 |>.

(** ** The rule of [grow_buffer]: out of memory with everything as it was, or
    the contents in a fresh block, the old block gone and nothing else on
    the heap touched. *)
Lemma wp_grow_buffer afu buffer count size initial l Q w :
  heap_wf w → can_report w afu → buf_at w buffer l →
  0 < new_count count initial →
  (∀ w', quiet w w' → Q (OCXL_NO_MEM, buffer, count) w') →
  (∀ w1, quiet w w1 →
     Q (OCXL_OK, w_next w, u16 (new_count count initial))
       (moved w1 buffer (grown count size initial l))) →
  wp (grow_buffer afu buffer count size initial) Q w.
Proof.
  intros Hw Hr Hb Hn Hfail Hok. unfold grow_buffer, realloc_buf.
  set (n := new_count count initial) in *. do 2 apply wp_bind.
  apply wp_call_silent; [done|]. intros [] w1 Hw1; simpl; pose proof (quiet_mem _ _ Hw1) as Hm.
  2:{ apply wp_ret. simpl. apply wp_bind, wp_errno_args. intros e w2 Hw2.
      assert (quiet w w2) as Hq2 by (by etrans).
      apply wp_bind, wp_errmsg; [by eapply can_report_quiet|done|].
      intros w3 Hw3. apply wp_ret, Hfail. by etrans. }
  pose proof (heap_wf_same_mem _ _ Hm Hw) as Hw1'. pose proof (buf_at_same_mem _ _ _ _ Hm Hb) as Hb1.
  pose proof (heap_wf_fresh _ Hw1') as Hfr. destruct Hw1' as [Hpos Hlt].
  assert (wp (if buffer =? NULL then mret [] else get_buf buffer) (λ l' w', l' = l ∧ w' = w1) w1) as Hl.
  { destruct Hb1 as [[-> ->]|[Hne Hb1]]; [by apply wp_ret|].
    destruct (Z.eqb_spec buffer NULL); [done|]. by eapply wp_get_buf. }
  apply wp_bind. eapply wp_mono; [|exact Hl]. intros l' w1' [-> ->].
  apply wp_bind, wp_alloc. apply wp_bind, wp_free.
  { destruct Hb1 as [[-> _]|[Hne Hb1]]; [by left|right].
    simpl. rewrite lookup_insert_ne; [eauto|]. intros <-. congruence. }
  apply wp_ret.
  destruct (Z.eqb_spec (w_next w1) NULL); [unfold NULL in *; lia|].
  set (h := if buffer =? NULL then _ else _).
  assert (w_heap h !! w_next w1 = Some (buf_obj (resize_elts (Z.to_nat n) l))) as Hh.
  { subst h. destruct (Z.eqb_spec buffer NULL); simpl; [by rewrite lookup_insert_eq|].
    rewrite lookup_delete_ne; [by rewrite lookup_insert_eq|].
    destruct Hb1 as [[? _]|[_ Hb1]]; [done|]. congruence. }
  apply wp_bind. eapply wp_get_buf; [exact Hh|]. apply wp_bind, wp_store_obj; [eauto|]. apply wp_ret.
  replace (w_next w1) with (w_next w) at 1 by (symmetry; apply Hm).
  eapply (eq_ind _ (Q _)); [exact (Hok w1 Hw1)|].
  unfold moved, upd_heap, field_upd. subst h. destruct (Z.eqb_spec buffer NULL); simpl; f_equal.
  - by rewrite insert_insert_eq.
  - symmetry. rewrite delete_insert_ne; [by rewrite insert_insert_eq|].
    destruct Hb1 as [[? _]|[_ Hb1]]; [done|]. congruence.
Qed.

(** ** A moved buffer *)

Lemma grown_split (xs : list A) size initial :
  let n := new_count (Z.of_nat (length xs)) initial in
  0 < n → Z.of_nat (length xs) <= n →
  ∃ rest, grown (Z.of_nat (length xs)) size initial (Some <$> xs) = (Some <$> xs) ++ rest ∧
          n = Z.of_nat (length xs + length rest).
Proof.
  intros n Hn Hle. set (g := grown _ _ _ _). exists (drop (length xs) g).
  assert (length g = Z.to_nat n) as Hlen by apply length_grown.
  split; [|solve_length].
  rewrite <-(take_drop (length xs) g) at 1. f_equal. apply list_eq_same_length with (length xs).
  - by rewrite length_fmap.
  - solve_length.
  - intros i x y Hi Hx Hy. rewrite lookup_take_lt in Hx by lia.
    assert (g !! i = Some y) as Hg by (apply grown_lookup; [lia|done]). congruence.
Qed.

Lemma lookup_moved_eq w b (l : list (option A)) :
  w_heap (moved w b l) !! w_next w = Some (buf_obj l).
Proof. simpl. by rewrite lookup_insert_eq. Qed.

Lemma lookup_moved_ne w b (l : list (option A)) q :
  q ≠ w_next w → q ≠ b → w_heap (moved w b l) !! q = w_heap w !! q.
Proof.
  intros Hq Hb. simpl. rewrite lookup_insert_ne by done.
  destruct (b =? NULL); [done|]. by rewrite lookup_delete_ne.
Qed.

Lemma heap_wf_moved w b (l : list (option A)) :
  heap_wf w → heap_wf (moved w b l).
Proof.
  intros Hw. unfold moved. destruct (b =? NULL).
  - by apply heap_wf_alloc.
  - exact (heap_wf_alloc _ (buf_obj l) (heap_wf_delete w b Hw)).
Qed.

(** ** Growing a full array

    The array [buffer] of the elements [xs] was moved to [buffer'], where
    indeterminate or zero elements [rest] stand behind them. *)
Record array_grown w w' (buffer buffer' : ptr) (xs : list A) (rest : list (option A)) : Prop := {
  ag_wf : heap_wf w';
  ag_fresh : buffer' = w_next w ∧ buffer' ≠ NULL ∧ w_heap w !! buffer' = None;
  ag_buf : w_heap w' !! buffer' = Some (buf_obj ((Some <$> xs) ++ rest));
  ag_old : w_heap w' !! buffer = None;
  ag_other q : q ≠ buffer → q ≠ buffer' → w_heap w' !! q = w_heap w !! q;
  ag_glob : w_glob w' = w_glob w;
  ag_effects : effects w' = effects w
}.

(** A block that is no such array was not touched. *)
Lemma array_grown_keeps w w' buffer buffer' xs rest q o :
  heap_wf w → buf_at w buffer (Some <$> xs) → array_grown w w' buffer buffer' xs rest →
  w_heap w !! q = Some o → (∀ l, o ≠ buf_obj l) →
  w_heap w' !! q = Some o ∧ q ≠ buffer ∧ q ≠ buffer'.
Proof.
  intros Hw Hb [_ (_ & _ & Hf) _ _ Ho _ _] Hq Hk.
  assert (q ≠ buffer) as Hq1.
  { intros ->. destruct Hb as [[E _]|[_ E]]; [by rewrite E, (heap_wf_null _ Hw) in Hq|].
    rewrite E in Hq. injection Hq as <-. by eapply Hk. }
  assert (q ≠ buffer') as Hq2 by congruence. by rewrite Ho.
Qed.

Lemma new_count_bounds count initial :
  0 <= count < 32768 → 0 < initial <= UINT16_MAX →
  0 < new_count count initial <= UINT16_MAX ∧ count < new_count count initial ∧
  u16 (new_count count initial) = new_count count initial.
Proof.
  unfold new_count, UINT16_MAX. intros Hc Hi.
  assert (0 < (if 0 <? count then 2 * count else initial) <= 65535 ∧
          count < (if 0 <? count then 2 * count else initial)) as [Hn Hlt]
    by (destruct (Z.ltb_spec 0 count); lia).
  split_and!; [lia..|]. apply uwrap_small. lia.
Qed.

Lemma wp_grow_full afu buffer size initial (xs : list A) Q w :
  heap_wf w → can_report w afu → buf_at w buffer (Some <$> xs) →
  Z.of_nat (length xs) < 32768 → 0 < initial <= UINT16_MAX →
  (∀ w', quiet w w' → Q (OCXL_NO_MEM, buffer, Z.of_nat (length xs)) w') →
  (∀ w' buffer' n rest, array_grown w w' buffer buffer' xs rest →
     n = Z.of_nat (length xs + length rest) → n = new_count (Z.of_nat (length xs)) initial →
     Z.of_nat (length xs) < n <= UINT16_MAX → Q (OCXL_OK, buffer', n) w') →
  wp (grow_buffer afu buffer (Z.of_nat (length xs)) size initial) Q w.
Proof.
  intros Hw Hr Hb Hc Hinit Hfail Hok.
  destruct (new_count_bounds (Z.of_nat (length xs)) initial) as (Hn & Hlt & Hu); [lia|done|].
  eapply wp_grow_buffer; [done|done|exact Hb|lia|done|]. intros w1 Hq. rewrite Hu.
  destruct (grown_split xs size initial) as [rest [-> Hl]]; [lia..|].
  destruct (quiet_mem _ _ Hq) as [Eh En Eg]. pose proof (heap_wf_fresh _ Hw) as Hfr.
  pose proof (heap_wf_same_mem _ _ (quiet_mem _ _ Hq) Hw) as Hw1.
  assert (w_next w ≠ NULL) as Hnn by (destruct Hw; unfold NULL; lia).
  assert (buffer ≠ w_next w) as Hbn by (destruct Hb as [[-> _]|[_ Hb]]; congruence).
  eapply Hok; [|exact Hl|done|lia]. split; [by apply heap_wf_moved|done| | | | |].
  - rewrite <-En. apply lookup_moved_eq.
  - simpl. rewrite En, lookup_insert_ne by done.
    destruct (Z.eqb_spec buffer NULL) as [->|]; [by apply heap_wf_null|apply lookup_delete_eq].
  - intros q Hq1 Hq2. rewrite lookup_moved_ne by congruence. by rewrite Eh.
  - exact Eg.
  - exact (quiet_effects _ _ Hq).
Qed.

End buffer.
