(* ===== verification/Mmio.v ===== *)
(** * Mmio: mapping and accessing the MMIO areas of an AFU (src/mmio.c)

    An MMIO handle points into the array [afu->mmios]: a slot whose [start]
    is [NULL] is free and is used again by the next mapping.  The registers
    themselves are bytes behind the mapping: a native access moves the bytes
    of a 32- or 64-bit integer in the byte order of the host, between two
    full memory barriers. *)

From S2P Require Import Prelude Format Types World Logic Messages Buffer.
Open Scope Z_scope.

Definition mmio_type_name (t : ocxl_mmio_type) : string :=
  if decide (t = OCXL_GLOBAL_MMIO) then "Global" else "Per-PASID".

(** ** Byte order of the host *)
Section endian.
Context `{Abi}.

(** The bytes of an [n]-byte integer object in memory, and back. *)
Definition native_bytes (n : nat) (v : Z) : list Z :=
  if host_little_endian then le_bytes n v else be_bytes n v.

Definition of_native_bytes (bs : list Z) : Z :=
  if host_little_endian then of_le_bytes bs else of_be_bytes bs.

(** [bswap_32], [bswap_64] *)
Definition bswap (n : nat) (v : Z) : Z := of_be_bytes (le_bytes n v).

(** <endian.h>: [htobe32] and [be32toh] are the same function, and so on. *)
Definition be32toh (v : Z) : Z := if host_little_endian then bswap 4 v else v.
Definition le32toh (v : Z) : Z := if host_little_endian then v else bswap 4 v.
Definition be64toh (v : Z) : Z := if host_little_endian then bswap 8 v else v.
Definition le64toh (v : Z) : Z := if host_little_endian then v else bswap 8 v.
Definition htobe32 : Z → Z := be32toh.
Definition htole32 : Z → Z := le32toh.
Definition htobe64 : Z → Z := be64toh.
Definition htole64 : Z → Z := le64toh.
End endian.

Section mmio.
Context {K : Type} `{Platform K} `{Abi}.
Implicit Types (w : world K).

(** ** The table of MMIO areas *)

(** The loop of [register_mmio]: the first of the [n] areas from [mmio] on
    that has been unmapped, or -1. *)
Fixpoint find_unmapped (n : nat) (mmios : ptr) (mmio : Z) : M K Z :=
  match n with
  | O => mret (-1)
  | S n' =>
      area ← read_elt mmios mmio;
      if area_start area =? NULL then mret mmio else find_unmapped n' mmios (mmio + 1)
  end.

(** [grow_buffer(afu, &afu->mmios, &afu->mmio_max_count, ...)] *)
Definition grow_mmios (afu : ptr) : M K ocxl_err :=
  a ← get_afu afu;
  '(rc, buffer, count) ← grow_buffer (A := ocxl_mmio_area) afu (afu_mmios a)
     (afu_mmio_max_count a) sizeof_ocxl_mmio_area INITIAL_MMIO_COUNT;
  when (is_ok rc)
    (set_afu afu (λ a, a <| afu_mmios := buffer |> <| afu_mmio_max_count := count |>)) ;;
  mret rc.

(** [available_mmio = afu->mmio_count++], after the array was grown if it
    was full. *)
Definition new_slot (afu : ptr) : M K (ocxl_err + Z) :=
  a ← get_afu afu;
  rc ← (if afu_mmio_count a =? afu_mmio_max_count a then grow_mmios afu else mret OCXL_OK);
  if negb (is_ok rc) then
    errmsg afu rc "Could not grow MMIO buffer" [] ;;
    mret (inl rc)
  else
    set_afu afu (λ a, a <| afu_mmio_count := u16 (afu_mmio_count a + 1) |>) ;;
    mret (inr (afu_mmio_count a)).

Definition register_mmio (afu : ptr) (addr size : Z) (type : ocxl_mmio_type) :
    M K (ocxl_err * option ocxl_mmio_h) :=
  a ← get_afu afu;
  found ← find_unmapped (Z.to_nat (afu_mmio_count a)) (afu_mmios a) 0;
  slot ← (if found =? -1 then new_slot afu else mret (inr found));
  match slot with
  | inl rc => mret (rc, None)
  | inr available_mmio =>
      a ← get_afu afu;
      write_elt (afu_mmios a) available_mmio (mk_mmio_area addr size type (Some afu)) ;;
      TRACE afu "src/mmio.c" 86 "register_mmio" "Mapped %ld bytes of %s MMIO at %p"
        [AInt size; AStr (mmio_type_name type); AInt addr] ;;
      mret (OCXL_OK, Some (mk_mmio_h (afu_mmios a) available_mmio))
  end.

Definition global_mmio_open (afu : ptr) : M K ocxl_err :=
  a ← get_afu afu;
  sysfs_path ← get_str (afu_sysfs_path a);
  let full := sysfs_path +:+ "/global_mmio_area" in
  if PATH_MAX + 1 <=? Z.of_nat (String.length full) then
    errmsg afu OCXL_NO_DEV "global MMIO path truncated" [] ;;
    mret OCXL_NO_DEV
  else
    fd ← call (SOpen full [O_RDWR; O_CLOEXEC]);
    if fd <? 0 then
      e ← errno_args;
      errmsg afu OCXL_NO_DEV "Could not open global MMIO '%s': Error %d: %s" ([AStr full] ++ e) ;;
      mret OCXL_NO_DEV
    else
      set_afu afu (λ a, a <| afu_global_mmio_fd := fd |>) ;;
      mret OCXL_OK.

Definition global_mmio_map (afu : ptr) (size prot flags offset : Z) :
    M K (ocxl_err * option ocxl_mmio_h) :=
  a ← get_afu afu;
  if area_length (afu_global_mmio a) =? 0 then
    errmsg afu OCXL_NO_MEM "Cannot map Global MMIO as there is 0 bytes allocated by the AFU" [] ;;
    mret (OCXL_NO_MEM, None)
  else if negb (flags =? 0) then
    errmsg afu OCXL_INVALID_ARGS
      "MMIO flags of 0x%llx is not supported by this version of libocxl" [AInt flags] ;;
    mret (OCXL_INVALID_ARGS, None)
  else
    addr ← call (SMmap size prot (afu_global_mmio_fd a) offset);
    if addr =? MAP_FAILED then
      e ← errno_args;
      errmsg afu OCXL_NO_MEM "Could not map global MMIO, %d: %s" e ;;
      mret (OCXL_NO_MEM, None)
    else
      '(rc, mmio_region) ← register_mmio afu addr size OCXL_GLOBAL_MMIO;
      if negb (is_ok rc) then
        errmsg afu rc "Could not register global MMIO region" [] ;;
        call (SMunmap addr size) ;;
        mret (rc, None)
      else mret (OCXL_OK, mmio_region).

Definition mmio_map (afu : ptr) (size prot flags offset : Z) :
    M K (ocxl_err * option ocxl_mmio_h) :=
  a ← get_afu afu;
  if negb (flags =? 0) then
    errmsg afu OCXL_INVALID_ARGS
      "MMIO flags of 0x%llx is not supported by this version of libocxl" [AInt flags] ;;
    mret (OCXL_INVALID_ARGS, None)
  else if afu_fd a <? 0 then
    errmsg afu OCXL_NO_CONTEXT
      "Could not map per-PASID MMIO as the AFU has not been opened" [] ;;
    mret (OCXL_NO_CONTEXT, None)
  else if negb (afu_attached a) then
    errmsg afu OCXL_NO_CONTEXT
      "Could not map per-PASID MMIO as the AFU has not been attached" [] ;;
    mret (OCXL_NO_CONTEXT, None)
  else
    addr ← call (SMmap size prot (afu_fd a) offset);
    if addr =? MAP_FAILED then
      e ← errno_args;
      errmsg afu OCXL_NO_MEM "Could not map per-PASID MMIO: %d: %s" e ;;
      mret (OCXL_NO_MEM, None)
    else
      '(rc, mmio_region) ← register_mmio afu addr size OCXL_PER_PASID_MMIO;
      if negb (is_ok rc) then
        errmsg afu rc "Could not register global MMIO region" [AStr (afu_name a)] ;;
        call (SMunmap addr size) ;;
        mret (rc, None)
      else mret (OCXL_OK, mmio_region).

(** The size a request of 0 stands for, and the check that the request stays
    inside the area; both in [size_t] arithmetic. *)
Definition map_size (length size offset : Z) : Z :=
  if size =? 0 then u64 (length - offset) else size.

Definition map_exceeds (length size offset : Z) : bool := length <? u64 (offset + size).

Definition ocxl_mmio_map_advanced (afu : ptr) (type : ocxl_mmio_type)
    (size prot flags offset : Z) : M K (ocxl_err * option ocxl_mmio_h) :=
  a ← get_afu afu;
  let size := match type with
              | OCXL_PER_PASID_MMIO => map_size (area_length (afu_per_pasid_mmio a)) size offset
              | OCXL_GLOBAL_MMIO => map_size (area_length (afu_global_mmio a)) size offset
              | ocxl_mmio_type_other _ => map_size size size offset
              end in
  match type with
  | OCXL_GLOBAL_MMIO =>
      if map_exceeds (area_length (afu_global_mmio a)) size offset then
        errmsg afu OCXL_NO_MEM
          "Offset(%#x) + size(%#x) of global MMIO map request exceeds available size of %#x"
          [AInt offset; AInt size; AInt (area_length (afu_global_mmio a))] ;;
        mret (OCXL_NO_MEM, None)
      else global_mmio_map afu size prot flags offset
  | OCXL_PER_PASID_MMIO =>
      if map_exceeds (area_length (afu_per_pasid_mmio a)) size offset then
        errmsg afu OCXL_NO_MEM
          "Offset(%#x) + size(%#x) of per-pasid MMIO map request exceeds available size of %#x"
          [AInt offset; AInt size; AInt (area_length (afu_global_mmio a))] ;;
        mret (OCXL_NO_MEM, None)
      else mmio_map afu size prot flags offset
  | ocxl_mmio_type_other n =>
      errmsg afu OCXL_INVALID_ARGS "Unknown MMIO type %d" [AInt n] ;;
      mret (OCXL_INVALID_ARGS, None)
  end.

Definition ocxl_mmio_map (afu : ptr) (type : ocxl_mmio_type) : M K (ocxl_err * option ocxl_mmio_h) :=
  ocxl_mmio_map_advanced afu type 0 (Z.lor PROT_READ PROT_WRITE) 0 0.

(** [*region], and an assignment to its [start] *)
Definition get_area (region : ocxl_mmio_h) : M K ocxl_mmio_area :=
  read_elt (mmio_blk region) (mmio_idx region).

Definition ocxl_mmio_unmap (region : ocxl_mmio_h) : M K unit :=
  area ← get_area region;
  if area_start area =? NULL then mret tt else
  call (SMunmap (area_start area) (area_length area)) ;;
  write_elt (mmio_blk region) (mmio_idx region) (area <| area_start := NULL |>).

Definition ocxl_mmio_get_fd (afu : ptr) (type : ocxl_mmio_type) : M K Z :=
  a ← get_afu afu;
  match type with
  | OCXL_GLOBAL_MMIO => mret (afu_global_mmio_fd a)
  | OCXL_PER_PASID_MMIO => mret (afu_fd a)
  | ocxl_mmio_type_other n =>
      errmsg afu OCXL_INVALID_ARGS "Unknown MMIO type %d" [AInt n] ;; mret (-1)
  end.

Definition ocxl_mmio_size (afu : ptr) (type : ocxl_mmio_type) : M K Z :=
  a ← get_afu afu;
  match type with
  | OCXL_GLOBAL_MMIO => mret (area_length (afu_global_mmio a))
  | OCXL_PER_PASID_MMIO => mret (area_length (afu_per_pasid_mmio a))
  | ocxl_mmio_type_other n =>
      errmsg afu OCXL_INVALID_ARGS "Invalid MMIO area requested '%d'" [AInt n] ;; mret 0
  end.

(** [errmsg(region->afu, ...)] and [TRACE(region->afu, ...)] *)
Definition area_owner (area : ocxl_mmio_area) : M K ptr :=
  match area_afu area with Some p => mret p | None => undefined end.

Definition ocxl_mmio_get_info (region : ocxl_mmio_h) : M K (ocxl_err * option (Z * Z)) :=
  area ← get_area region;
  if area_start area =? NULL then
    afu ← area_owner area;
    errmsg afu OCXL_INVALID_ARGS "MMIO region has already been unmapped" [] ;;
    mret (OCXL_INVALID_ARGS, None)
  else mret (OCXL_OK, Some (area_start area, area_length area)).

(** ** Accesses *)

(** [offset >= (off_t)(region->length - (size - 1))] *)
Definition out_of_bounds (length offset size : Z) : bool :=
  s64 (u64 (length - u64 (size - 1))) <=? offset.

Definition mmio_check (region : ocxl_mmio_h) (offset size : Z) : M K ocxl_err :=
  if mmio_blk region =? NULL then
    errmsg NULL OCXL_INVALID_ARGS "MMIO region is invalid" [] ;;
    mret OCXL_INVALID_ARGS
  else
    area ← get_area region;
    if area_start area =? NULL then
      afu ← area_owner area;
      errmsg afu OCXL_INVALID_ARGS "MMIO region has already been unmapped" [] ;;
      mret OCXL_INVALID_ARGS
    else if out_of_bounds (area_length area) offset size then
      afu ← area_owner area;
      errmsg afu OCXL_OUT_OF_BOUNDS "%s MMIO access of 0x%016lx exceeds limit of 0x%016lx"
        [AStr (mmio_type_name (area_type area)); AInt offset; AInt (area_length area)] ;;
      mret OCXL_OUT_OF_BOUNDS
    else mret OCXL_OK.

(** The [n] bytes at an offset of a mapping. *)
Definition in_mapping (area : ocxl_mmio_area) (n : nat) (offset : Z) : bool :=
  negb (area_start area =? NULL) && (0 <=? offset) && (offset + Z.of_nat n <=? u64 (area_length area)).

(** [*(volatile uintN_t * )(mmio->start + offset)] between two barriers; outside
    of the mapping that is undefined behaviour. *)
Definition load_native (n : nat) (area : ocxl_mmio_area) (offset : Z) : M K Z :=
  if negb (in_mapping area n offset) then undefined else
  call SSync ;;
  bs ← call (SLoad (u64 (area_start area + offset)) n);
  call SSync ;;
  mret (of_native_bytes bs).

Definition store_native (n : nat) (area : ocxl_mmio_area) (offset value : Z) : M K unit :=
  if negb (in_mapping area n offset) then undefined else
  call SSync ;;
  call (SStore (u64 (area_start area + offset)) (native_bytes n value)) ;;
  call SSync.

Definition mmio_read32_native (region : ocxl_mmio_h) (offset : Z) : M K (ocxl_err * option Z) :=
  ret ← mmio_check region offset 4;
  if negb (is_ok ret) then mret (ret, None) else
  area ← get_area region;
  out ← load_native 4 area offset;
  afu ← area_owner area;
  TRACE afu "src/mmio.c" 491 "mmio_read32_native" "%s MMIO Read32@0x%04lx=0x%08x"
    [AStr (mmio_type_name (area_type area)); AInt offset; AInt out] ;;
  mret (OCXL_OK, Some out).

Definition mmio_read64_native (region : ocxl_mmio_h) (offset : Z) : M K (ocxl_err * option Z) :=
  ret ← mmio_check region offset 8;
  if negb (is_ok ret) then mret (ret, None) else
  area ← get_area region;
  out ← load_native 8 area offset;
  afu ← area_owner area;
  TRACE afu "src/mmio.c" 527 "mmio_read64_native" "%s MMIO Read64@0x%04lx=0x%016lx"
    [AStr (mmio_type_name (area_type area)); AInt offset; AInt out] ;;
  mret (OCXL_OK, Some out).

Definition mmio_write32_native (region : ocxl_mmio_h) (offset value : Z) : M K ocxl_err :=
  ret ← mmio_check region offset 4;
  if negb (is_ok ret) then mret ret else
  area ← get_area region;
  afu ← area_owner area;
  TRACE afu "src/mmio.c" 561 "mmio_write32_native" "%s MMIO Write32@0x%04lx=0x%08x"
    [AStr (mmio_type_name (area_type area)); AInt offset; AInt value] ;;
  store_native 4 area offset value ;;
  mret OCXL_OK.

Definition mmio_write64_native (region : ocxl_mmio_h) (offset value : Z) : M K ocxl_err :=
  ret ← mmio_check region offset 8;
  if negb (is_ok ret) then mret ret else
  area ← get_area region;
  afu ← area_owner area;
  TRACE afu "src/mmio.c" 599 "mmio_write64_native" "%s MMIO Write64@0x%04lx=0x%016lx"
    [AStr (mmio_type_name (area_type area)); AInt offset; AInt value] ;;
  store_native 8 area offset value ;;
  mret OCXL_OK.

Definition ocxl_mmio_read32 (mmio : ocxl_mmio_h) (offset : Z) (endian : ocxl_endian) :
    M K (ocxl_err * option Z) :=
  '(ret, val) ← mmio_read32_native mmio offset;
  if negb (is_ok ret) then mret (ret, None) else
  mret (OCXL_OK,
    match endian with
    | OCXL_MMIO_BIG_ENDIAN => be32toh <$> val
    | OCXL_MMIO_LITTLE_ENDIAN => le32toh <$> val
    | _ => val
    end).

Definition ocxl_mmio_read64 (mmio : ocxl_mmio_h) (offset : Z) (endian : ocxl_endian) :
    M K (ocxl_err * option Z) :=
  '(ret, val) ← mmio_read64_native mmio offset;
  if negb (is_ok ret) then mret (ret, None) else
  mret (OCXL_OK,
    match endian with
    | OCXL_MMIO_BIG_ENDIAN => be64toh <$> val
    | OCXL_MMIO_LITTLE_ENDIAN => le64toh <$> val
    | _ => val
    end).

Definition ocxl_mmio_write32 (mmio : ocxl_mmio_h) (offset : Z) (endian : ocxl_endian) (value : Z) :
    M K ocxl_err :=
  let value := match endian with
               | OCXL_MMIO_BIG_ENDIAN => htobe32 value
               | OCXL_MMIO_LITTLE_ENDIAN => htole32 value
               | _ => value
               end in
  mmio_write32_native mmio offset value.

Definition ocxl_mmio_write64 (mmio : ocxl_mmio_h) (offset : Z) (endian : ocxl_endian) (value : Z) :
    M K ocxl_err :=
  let value := match endian with
               | OCXL_MMIO_BIG_ENDIAN => htobe64 value
               | OCXL_MMIO_LITTLE_ENDIAN => htole64 value
               | _ => value
               end in
  mmio_write64_native mmio offset value.

End mmio.
