(* ===== verification/MmioFacts.v ===== *)
(** * MmioFacts: the table of MMIO areas and the accesses, proved

    The invariant [mmio_table] of the array [afu->mmios], an abstract
    description of the table (a list of areas, [place]) and the rules of the
    operations of Mmio.v. *)

From S2P Require Import Prelude Format Types World Logic Messages Buffer Mmio.
Open Scope Z_scope.

(** ** The abstract table

    A mapping takes the first free entry, or a new one at the end. *)

Fixpoint first_free (areas : list ocxl_mmio_area) : option nat :=
  match areas with
  | [] => None
  | x :: areas' => if area_start x =? NULL then Some O else S <$> first_free areas'
  end.

Definition place (areas : list ocxl_mmio_area) (x : ocxl_mmio_area) : nat * list ocxl_mmio_area :=
  match first_free areas with
  | Some i => (i, <[i := x]> areas)
  | None => (length areas, areas ++ [x])
  end.

Lemma first_free_Some areas i :
  first_free areas = Some i →
  (∃ x, areas !! i = Some x ∧ area_start x = NULL) ∧
  ∀ j y, (j < i)%nat → areas !! j = Some y → area_start y ≠ NULL.
Proof.
  revert i. induction areas as [|x areas IH]; intros i; simpl; [done|].
  destruct (Z.eqb_spec (area_start x) NULL) as [Hx|Hx].
  - intros [= <-]. split; [by exists x|]. intros; lia.
  - destruct (first_free areas) as [k|]; intros [= <-].
    destruct (IH k eq_refl) as [Hk Hj]. split; [done|].
    intros [|j] y Hlt Hy; simpl in Hy; [congruence|]. eapply Hj; [|done]. lia.
Qed.

Lemma first_free_None areas i x :
  first_free areas = None → areas !! i = Some x → area_start x ≠ NULL.
Proof.
  revert i. induction areas as [|y areas IH]; intros i; simpl; [done|].
  destruct (Z.eqb_spec (area_start y) NULL) as [Hy|Hy]; [done|].
  destruct (first_free areas); [done|]. intros _. destruct i; simpl; [naive_solver|].
  by apply IH.
Qed.

(** Placing an area at an entry makes it readable there and leaves every
    mapped area where it was. *)
Lemma place_same areas x : (place areas x).2 !! (place areas x).1 = Some x.
Proof.
  unfold place. destruct (first_free areas) as [i|] eqn:E; simpl.
  - destruct (first_free_Some _ _ E) as [[y [Hy _]] _].
    apply list_lookup_insert_eq. by eapply lookup_lt_Some.
  - by rewrite lookup_app_r, Nat.sub_diag by lia.
Qed.

Lemma place_other areas x j y :
  areas !! j = Some y → area_start y ≠ NULL → (place areas x).2 !! j = Some y.
Proof.
  intros Hj Hy. unfold place. destruct (first_free areas) as [i|] eqn:E; simpl.
  - destruct (first_free_Some _ _ E) as [[z [Hz Hz0]] _].
    rewrite list_lookup_insert_ne; [done|]. intros ->. naive_solver.
  - by apply lookup_app_l_Some.
Qed.

Lemma place_fresh areas x y :
  areas !! (place areas x).1 = Some y → area_start y = NULL.
Proof.
  unfold place. destruct (first_free areas) as [i|] eqn:E; simpl.
  - destruct (first_free_Some _ _ E) as [[z [Hz Hz0]] _]. naive_solver.
  - intros Hl. apply lookup_lt_Some in Hl. lia.
Qed.

Lemma length_place areas x :
  length (place areas x).2 = (if first_free areas is Some _ then length areas else S (length areas)).
Proof.
  unfold place. destruct (first_free areas); simpl; [apply length_insert|].
  solve_length.
Qed.

Lemma place_Forall (P : ocxl_mmio_area → Prop) areas x :
  Forall P areas → P x → Forall P (place areas x).2.
Proof.
  intros Ha Hx. unfold place. destruct (first_free areas); simpl.
  - by apply Forall_insert.
  - apply Forall_app; auto.
Qed.

Section facts.
Context {K : Type} `{Platform K} `{Abi}.
Implicit Types (w : world K).

(** ** The invariant of the table

    The AFU [a] at [p] has the areas [areas]: they are the first
    [mmio_count] elements of an array of [mmio_max_count] elements, and each
    points back at its AFU. *)
Record mmio_table w (p : ptr) (a : ocxl_afu) (areas : list ocxl_mmio_area) : Prop := {
  mt_buf : ∃ rest, buf_at w (afu_mmios a) ((Some <$> areas) ++ rest) ∧
                   afu_mmio_max_count a = Z.of_nat (length areas + length rest);
  mt_count : afu_mmio_count a = Z.of_nat (length areas);
  mt_owner : Forall (λ x, area_afu x = Some p) areas;
  mt_bound : afu_mmio_max_count a <= UINT16_MAX
}.

(** The table of an AFU whose heap is well-formed. *)
Record mmio_inv w (p : ptr) (a : ocxl_afu) (areas : list ocxl_mmio_area) : Prop := {
  mi_heap : heap_wf w;
  mi_null : p ≠ NULL;
  mi_afu : afu_at w p a;
  mi_table : mmio_table w p a areas
}.

Lemma mmio_inv_same_mem w w' p a areas :
  same_mem w w' → mmio_inv w p a areas → mmio_inv w' p a areas.
Proof.
  intros Hm [Hw Hn Ha [[rest [Hb Hl]] Hc Ho Hbd]]. split; [by eapply heap_wf_same_mem|done|
    by eapply afu_at_same_mem|]. split; [|done..]. exists rest.
  split; [by eapply buf_at_same_mem|done].
Qed.

Lemma mmio_inv_report w p a areas : mmio_inv w p a areas → can_report w p.
Proof. intros []. right. eauto. Qed.

Lemma mmio_inv_lookup w p a areas : mmio_inv w p a areas → w_heap w !! p = Some (HAfu a).
Proof. by intros [_ _ []]. Qed.

(** Reading an element of the table. *)
Lemma mmio_inv_area w p a areas i x :
  mmio_inv w p a areas → areas !! i = Some x →
  ∃ rest, w_heap w !! afu_mmios a = Some (HMmios ((Some <$> areas) ++ rest)) ∧
          afu_mmios a ≠ NULL ∧ ((Some <$> areas) ++ rest) !! i = Some (Some x).
Proof.
  intros [_ _ _ [[rest [Hb Hl]] _ _ _]] Hx. exists rest.
  assert (((Some <$> areas) ++ rest) !! i = Some (Some x)) as Hi.
  { apply lookup_app_l_Some. rewrite list_lookup_fmap. by rewrite Hx. }
  destruct Hb as [[_ Hnil]|[Hne Hb]]; [|done]. by rewrite Hnil in Hi.
Qed.

Lemma wp_find_unmapped w p areas rest n i :
  (n = 0%nat ∨ w_heap w !! p = Some (HMmios ((Some <$> areas) ++ rest))) →
  (i + n = length areas)%nat →
  wp (find_unmapped n p (Z.of_nat i))
     (λ r w', w' = w ∧ r = match first_free (drop i areas) with
                           | Some j => Z.of_nat (i + j) | None => -1 end) w.
Proof.
  revert i. induction n as [|n IH]; intros i Hb Hi; simpl.
  - apply wp_ret. rewrite drop_ge by lia. done.
  - destruct Hb as [?|Hb]; [done|].
    destruct (lookup_lt_is_Some_2 areas i) as [x Hx]; [lia|].
    assert (((Some <$> areas) ++ rest) !! Z.to_nat (Z.of_nat i) = Some (Some x)) as Hl.
    { rewrite Nat2Z.id. apply lookup_app_l_Some. by rewrite list_lookup_fmap, Hx. }
    apply wp_bind. eapply (wp_read_elt (A := ocxl_mmio_area)); [exact Hb|lia|exact Hl|].
    rewrite (drop_S _ _ _ Hx). simpl. destruct (Z.eqb_spec (area_start x) NULL).
    + apply wp_ret. split; [done|]. lia.
    + replace (Z.of_nat i + 1) with (Z.of_nat (S i)) by lia.
      eapply wp_mono; [|apply IH; [by right|lia]]. simpl. intros r w' [-> ->]. split; [done|].
      destruct (first_free (drop (S i) areas)); simpl; lia.
Qed.

(** ** Growing the table *)

(** What an operation on the table may change: the AFU's record (its three
    MMIO fields) and the block that holds the array, old and new. *)
Record mmio_frame w w' (p : ptr) (a a' : ocxl_afu) : Prop := {
  mf_heap q : q ≠ p → q ≠ afu_mmios a → q ≠ afu_mmios a' → w_heap w' !! q = w_heap w !! q;
  mf_new : afu_mmios a' = afu_mmios a ∨ w_heap w !! afu_mmios a' = None;
  mf_old : afu_mmios a' = afu_mmios a ∨ w_heap w' !! afu_mmios a = None;
  mf_glob : w_glob w' = w_glob w;
  mf_effects : effects w' = effects w;
  mf_afu : a' = a <| afu_mmios := afu_mmios a' |> <| afu_mmio_count := afu_mmio_count a' |>
                  <| afu_mmio_max_count := afu_mmio_max_count a' |>
}.

Lemma mmio_frame_quiet w p a w' : quiet w w' → mmio_frame w w' p a a.
Proof. intros [[Eh _ Eg] Ee]. split; [by rewrite Eh|by left|by left|done..|by destruct a]. Qed.

Lemma mmio_frame_trans w1 w2 w3 p a1 a2 a3 :
  mmio_frame w1 w2 p a1 a2 → mmio_frame w2 w3 p a2 a3 → afu_mmios a3 = afu_mmios a2 →
  w_heap w2 !! p = Some (HAfu a2) → mmio_frame w1 w3 p a1 a3.
Proof.
  intros [h1 n1 o1 g1 e1 f1] [h2 n2 o2 g2 e2 f2] E Hp. split.
  - intros q Hqp Hq1 Hq3. rewrite h2, h1 by congruence. done.
  - rewrite E. destruct n1 as [->|Hn]; [by left|by right].
  - rewrite E. destruct o1 as [->|Ho]; [by left|].
    destruct (decide (afu_mmios a2 = afu_mmios a1)) as [->|Hne]; [by left|right].
    rewrite h2; [done|congruence..].
  - congruence.
  - congruence.
  - rewrite f2, f1. by destruct a1.
Qed.

(** The rest of the heap does not hold AFUs, arrays and strings at once. *)
Lemma heap_kind_ne w p q o1 o2 :
  w_heap w !! p = Some o1 → w_heap w !! q = Some o2 → o1 ≠ o2 → p ≠ q.
Proof. intros Hp Hq Hne ->. congruence. Qed.

(** The device path of an AFU survives a change elsewhere. *)
Lemma afu_at_frame w w' p a a' :
  afu_at w p a → w_heap w' !! p = Some (HAfu a') → afu_device_path a' = afu_device_path a →
  (∀ s, w_heap w !! afu_device_path a = Some (HStr s) →
        w_heap w' !! afu_device_path a = Some (HStr s)) →
  afu_at w' p a'.
Proof. intros [Hp [Hd|[s Hs]]] Hp' Hd' Hk; split; rewrite ?Hd'; eauto. Qed.

Lemma wp_grow_mmios w p a areas Q :
  mmio_inv w p a areas → afu_mmio_count a = afu_mmio_max_count a → Z.of_nat (length areas) < 32768 →
  (∀ w', quiet w w' → Q OCXL_NO_MEM w') →
  (∀ w' a', mmio_inv w' p a' areas → mmio_frame w w' p a a' →
     afu_mmio_count a' < afu_mmio_max_count a' → afu_mmios a' = w_next w → Q OCXL_OK w') →
  wp (grow_mmios p) Q w.
Proof.
  intros Hi Hfull Hroom Hfail Hok. pose proof Hi as [Hw Hnull Ha [[rest [Hb Hmax]] Hcnt Ho Hbd]].
  assert (rest = []) as -> by (apply length_zero_iff_nil; lia). rewrite app_nil_r in Hb.
  pose proof (mmio_inv_lookup _ _ _ _ Hi) as Hp. apply wp_bind. eapply wp_get_afu; [done|].
  assert (afu_mmio_max_count a = Z.of_nat (length areas)) as -> by lia. apply wp_bind.
  apply wp_grow_full; [done|by eapply mmio_inv_report|exact Hb|done|done|..].
  { intros w' Hw'. apply wp_bind, wp_ret, wp_ret. by apply Hfail. }
  intros w1 buffer n rest Hg Hl _ Hn. pose proof Hg as [Hw1 (Eb & Hbn & Hbf) Hbuf Hold Hoth Eg Ee].
  assert (∀ q o, w_heap w !! q = Some o → (∀ l, o ≠ HMmios l) →
    w_heap w1 !! q = Some o ∧ q ≠ afu_mmios a ∧ q ≠ buffer) as Hk.
  { intros q o Hq Ho1. eapply (array_grown_keeps w w1); [done|exact Hb|exact Hg|done|exact Ho1]. }
  destruct (Hk _ _ Hp) as (Hp1 & _ & Hpb); [done|].
  apply wp_bind, wp_when; [intros _|done]. eapply wp_set_afu; [exact Hp1|]. apply wp_ret.
  set (a' := a <| afu_mmios := _ |> <| afu_mmio_max_count := _ |>).
  apply (Hok _ a'); [| |simpl; lia|done].
  - split; [apply heap_wf_insert; eauto|done| |].
    + eapply (afu_at_frame w); [done|apply heap_upd_eq|done|]. intros s Hs.
      rewrite heap_upd_ne by (eapply heap_kind_ne; [exact Hp|exact Hs|done]). by destruct (Hk _ _ Hs) as [? _].
    + split; [|done|done|simpl; lia]. exists rest. split; [right; split; [done|]|done].
      rewrite heap_upd_ne by done. exact Hbuf.
  - split; [|by right| |done|done|by destruct a].
    + intros q Hq1 Hq2 Hq3. rewrite heap_upd_ne by done. by apply Hoth.
    + right. rewrite heap_upd_ne; [done|]. by destruct (Hk _ _ Hp) as (_ & ? & _).
Qed.

(** ** Registering a mapping *)

(** Entry [i], an existing one or the one behind the last, was chosen for a
    new area and is about to be written. *)
Record slot_ready w (p : ptr) (a : ocxl_afu) (areas : list ocxl_mmio_area) (i : nat) : Prop := {
  sr_heap : heap_wf w;
  sr_null : p ≠ NULL;
  sr_afu : afu_at w p a;
  sr_buf : ∃ rest, afu_mmios a ≠ NULL ∧
     w_heap w !! afu_mmios a = Some (HMmios ((Some <$> areas) ++ rest)) ∧
     (i < length areas + length rest)%nat ∧
     afu_mmio_max_count a = Z.of_nat (length areas + length rest);
  sr_index : (i <= length areas)%nat;
  sr_count : afu_mmio_count a = Z.of_nat (length areas `max` S i);
  sr_owner : Forall (λ x, area_afu x = Some p) areas;
  sr_bound : afu_mmio_max_count a <= UINT16_MAX
}.

(** Writing the chosen entry completes the table. *)
Lemma wp_write_slot w p a areas i x areas' Q :
  slot_ready w p a areas i → area_afu x = Some p →
  areas' = (if decide (i < length areas)%nat then <[i := x]> areas else areas ++ [x]) →
  (∀ w', mmio_inv w' p a areas' → mmio_frame w w' p a a → Q tt w') →
  wp (write_elt (afu_mmios a) (Z.of_nat i) x) Q w.
Proof.
  intros [Hw Hn Ha [rest (Hb0 & Hb & Hlt & Hmax)] Hi Hc Ho Hbd] Hx -> HQ.
  eapply (wp_write_elt (A := ocxl_mmio_area)); [exact Hb|solve_length|].
  rewrite Nat2Z.id. pose proof Ha as [Hp _]. apply HQ.
  - split; [apply heap_wf_insert; eauto|done| |].
    + eapply afu_at_frame; [exact Ha| |done|].
      * rewrite heap_upd_ne; [done|]. by eapply heap_kind_ne.
      * intros s Hs. rewrite heap_upd_ne; [done|]. by eapply heap_kind_ne.
    + destruct (decide (i < length areas)%nat) as [Hil|Hil].
      * split; rewrite ?length_insert; [|lia|by apply Forall_insert|done].
        exists rest. split; [right; split; [done|]|lia]. rewrite heap_upd_eq.
        rewrite insert_app_l by solve_length. by rewrite list_fmap_insert.
      * assert (i = length areas) as -> by lia.
        destruct rest as [|o rest]; [simpl in Hlt; lia|].
        split; rewrite ?length_app; simpl length in *; [|lia|by apply Forall_app; auto|done].
        exists rest. split; [right; split; [done|]|lia]. rewrite heap_upd_eq.
        rewrite insert_app_r_alt, length_fmap, Nat.sub_diag by (rewrite length_fmap; lia).
        rewrite fmap_app, <-app_assoc. done.
  - split; [|by left|by left|done|done|by destruct a].
    intros q Hq Hqb _. by apply heap_upd_ne.
Qed.

Lemma wp_new_slot w p a areas Q :
  mmio_inv w p a areas → Z.of_nat (length areas) < 32768 →
  (∀ w', quiet w w' → Q (inl OCXL_NO_MEM) w') →
  (∀ w' a', slot_ready w' p a' areas (length areas) → mmio_frame w w' p a a' →
     afu_mmios a' = (if afu_mmio_count a =? afu_mmio_max_count a then w_next w else afu_mmios a) →
     Q (inr (Z.of_nat (length areas))) w') →
  wp (new_slot p) Q w.
Proof.
  intros Hi Hroom Hfail Hok. pose proof Hi as [Hw Hn Ha [[rest [Hb Hmax]] Hcnt Ho Hbd]].
  apply wp_bind. eapply wp_get_afu; [by eapply mmio_inv_lookup|].
  apply wp_bind.
  apply (wp_mono _ (λ rc w', (rc = OCXL_NO_MEM ∧ quiet w w') ∨
     (rc = OCXL_OK ∧ ∃ a', mmio_inv w' p a' areas ∧ mmio_frame w w' p a a' ∧
        afu_mmio_count a' < afu_mmio_max_count a' ∧
        afu_mmios a' = if afu_mmio_count a =? afu_mmio_max_count a then w_next w else afu_mmios a))).
  - intros rc w' [[-> Hq]|(-> & a' & Hi' & Hf & Hlt & Hm)]; simpl.
    + apply wp_bind, wp_errmsg; [eapply can_report_quiet, mmio_inv_report; eauto|done|].
      intros w2 Hw2. apply wp_ret, Hfail. by etrans.
    + pose proof Hi' as [Hw' _ Ha' [[rest' [Hb' Hmax']] Hcnt' _ Hbd']].
      apply wp_bind. eapply wp_set_afu; [by eapply mmio_inv_lookup|]. apply wp_ret.
      rewrite Hcnt. destruct Hb' as [[_ Hnil]|[Hb0 Hb']].
      { apply app_eq_nil in Hnil as [Hnil ->]. apply fmap_nil_inv in Hnil as ->. simpl in *. lia. }
      assert (u16 (afu_mmio_count a' + 1) = afu_mmio_count a' + 1) as Hu.
      { apply uwrap_small. unfold UINT16_MAX in *. lia. }
      pose proof (mmio_inv_lookup _ _ _ _ Hi') as Hp'.
      apply (Hok _ (a' <| afu_mmio_count := u16 (afu_mmio_count a' + 1) |>)); [| |exact Hm].
      * split; [apply heap_wf_insert; eauto|done| | |lia|simpl; rewrite Hu; lia|done|done].
        { eapply afu_at_frame; [exact Ha'|apply heap_upd_eq|done|].
          intros s Hs. rewrite heap_upd_ne; [done|]. by eapply heap_kind_ne. }
        exists rest'. repeat split; [done| |lia|done].
        simpl afu_mmios. rewrite heap_upd_ne; [done|]. by eapply heap_kind_ne.
      * eapply mmio_frame_trans; [exact Hf| |done|done].
        split; [|by left|by left|done|done|by destruct a']. intros q Hq _ _. by apply heap_upd_ne.
  - destruct (Z.eqb_spec (afu_mmio_count a) (afu_mmio_max_count a)) as [Hfull|Hfull].
    + eapply wp_grow_mmios; [done|done|done|by auto|].
      intros w' a' ? ? ? ?. right. split; [done|]. exists a'. auto.
    + apply wp_ret. right. split; [done|]. exists a.
      split_and!; [done|by apply mmio_frame_quiet|lia|done].
Qed.

(** A new mapping makes the array move: it has no free entry and no room. *)
Definition table_full (a : ocxl_afu) (areas : list ocxl_mmio_area) : bool :=
  match first_free areas with
  | Some _ => false
  | None => afu_mmio_count a =? afu_mmio_max_count a
  end.

(** The last steps of [register_mmio]: the entry is written and traced. *)
Lemma wp_fill_slot w p a areas i x (type : ocxl_mmio_type) (addr size : Z) areas' Q :
  slot_ready w p a areas i → area_afu x = Some p →
  areas' = (if decide (i < length areas)%nat then <[i := x]> areas else areas ++ [x]) →
  (∀ w', mmio_inv w' p a areas' → mmio_frame w w' p a a →
     Q (OCXL_OK, Some (mk_mmio_h (afu_mmios a) (Z.of_nat i))) w') →
  wp (a ← get_afu p;
      write_elt (afu_mmios a) (Z.of_nat i) x ;;
      TRACE p "src/mmio.c" 86 "register_mmio" "Mapped %ld bytes of %s MMIO at %p"
        [AInt size; AStr (mmio_type_name type); AInt addr] ;;
      mret (OCXL_OK, Some (mk_mmio_h (afu_mmios a) (Z.of_nat i)))) Q w.
Proof.
  intros Hs Hx Ha' HQ. pose proof Hs as [_ _ [Hp _] _ _ _ _ _].
  apply wp_bind. eapply wp_get_afu; [done|].
  apply wp_bind. eapply wp_write_slot; [exact Hs|exact Hx|exact Ha'|]. intros w1 Hi1 Hf1.
  apply wp_bind. eapply wp_TRACE; [by eapply mmio_inv_lookup|done|]. intros w2 Hw2.
  apply wp_ret, HQ; [by eapply mmio_inv_same_mem, Hi1; apply Hw2|].
  eapply mmio_frame_trans; [exact Hf1|by apply mmio_frame_quiet|done|by eapply mmio_inv_lookup].
Qed.

Lemma wp_register_mmio w p a areas addr size type Q :
  mmio_inv w p a areas →
  (first_free areas = None → Z.of_nat (length areas) < 32768) →
  (∀ w', first_free areas = None → quiet w w' → Q (OCXL_NO_MEM, None) w') →
  (∀ w' a', let x := mk_mmio_area addr size type (Some p) in
     mmio_inv w' p a' (place areas x).2 → mmio_frame w w' p a a' →
     afu_mmios a' = (if table_full a areas then w_next w else afu_mmios a) →
     Q (OCXL_OK, Some (mk_mmio_h (afu_mmios a') (Z.of_nat (place areas x).1))) w') →
  wp (register_mmio p addr size type) Q w.
Proof.
  intros Hi Hroom Hfail Hok. pose proof Hi as [_ _ _ [[rest [Hb Hmax]] Hcnt Ho _]].
  apply wp_bind. eapply wp_get_afu; [by eapply mmio_inv_lookup|].
  apply wp_bind. eapply wp_mono;
    [|apply (wp_find_unmapped w (afu_mmios a) areas rest _ 0%nat); [|lia]].
  2:{ destruct Hb as [[_ Hnil]|[_ Hb]]; [left|by right].
      apply app_eq_nil in Hnil as [Hnil _]. apply fmap_nil_inv in Hnil as ->. by rewrite Hcnt. }
  intros r w' [-> ->]. rewrite drop_0. unfold table_full, place in Hok.
  destruct (first_free areas) as [i|] eqn:E.
  - destruct (first_free_Some _ _ E) as [[z [Hz _]] _]. apply lookup_lt_Some in Hz as Hlt.
    destruct (Z.eqb_spec (Z.of_nat (0 + i)) (-1)); [lia|]. apply wp_bind, wp_ret.
    destruct (mmio_inv_area _ _ _ _ _ _ Hi Hz) as (rest' & Hb' & Hb0 & _).
    eapply (wp_fill_slot w p a areas i); [|done|by rewrite decide_True|by eauto].
    destruct Hi as [Hw Hn Ha [[rest'' [Hb'' Hmax'']] _ _ Hbd]].
    destruct Hb'' as [[? _]|[_ Hb'']]; [done|].
    split; [done..| |lia|lia|done|done]. exists rest''. split_and!; [done|done|lia|done].
  - simpl. apply wp_bind, (wp_new_slot w p a areas); [done|by apply Hroom|..].
    { intros w' Hw'. by apply wp_ret, Hfail. }
    intros w' a' Hs Hf Hm.
    eapply (wp_fill_slot w' p a' areas); [exact Hs|done|by rewrite decide_False by lia|].
    intros w2 Hi2 Hf2. apply Hok; [done| |done].
    eapply mmio_frame_trans; [done..|]. by destruct Hs as [_ _ []].
Qed.

(** ** Mapping a region *)

(** What a request to map amounts to before the kernel is asked: an error,
    or the descriptor and the length to map. *)
Definition map_request (a : ocxl_afu) (type : ocxl_mmio_type) (size flags offset : Z) :
    ocxl_err + (Z * Z) :=
  match type with
  | OCXL_GLOBAL_MMIO =>
      let length := area_length (afu_global_mmio a) in
      let size := map_size length size offset in
      if map_exceeds length size offset then inl OCXL_NO_MEM
      else if length =? 0 then inl OCXL_NO_MEM
      else if negb (flags =? 0) then inl OCXL_INVALID_ARGS
      else inr (afu_global_mmio_fd a, size)
  | OCXL_PER_PASID_MMIO =>
      let length := area_length (afu_per_pasid_mmio a) in
      let size := map_size length size offset in
      if map_exceeds length size offset then inl OCXL_NO_MEM
      else if negb (flags =? 0) then inl OCXL_INVALID_ARGS
      else if (afu_fd a <? 0) || negb (afu_attached a) then inl OCXL_NO_CONTEXT
      else inr (afu_fd a, size)
  | ocxl_mmio_type_other _ => inl OCXL_INVALID_ARGS
  end.

Lemma map_request_err a type size flags offset err :
  map_request a type size flags offset = inl err → is_ok err = false.
Proof. destruct type; simpl; repeat case_match; by intros [= <-]. Qed.

(** The outcomes of asking the kernel to map [size] bytes of [fd]: the kernel
    refused; there was no memory for the handle, and the mapping was undone;
    or the new area is in the table and the others are where they were. *)
Inductive map_outcome w (p : ptr) (a : ocxl_afu) (areas : list ocxl_mmio_area)
    (type : ocxl_mmio_type) (size prot fd offset : Z) :
    ocxl_err * option ocxl_mmio_h → world K → Prop :=
| map_refused w1 w' :
    did (SMmap size prot fd offset) MAP_FAILED w w1 →
    quiet w1 w' →
    map_outcome w p a areas type size prot fd offset (OCXL_NO_MEM, None) w'
| map_undone addr rc w1 w2 w' :
    addr ≠ MAP_FAILED →
    first_free areas = None →
    did (SMmap size prot fd offset) addr w w1 →
    quiet w1 w2 →
    did (SMunmap addr size) rc w2 w' →
    map_outcome w p a areas type size prot fd offset (OCXL_NO_MEM, None) w'
| map_done a' addr i areas' w1 w' :
    addr ≠ MAP_FAILED →
    did (SMmap size prot fd offset) addr w w1 →
    place areas (mk_mmio_area addr size type (Some p)) = (i, areas') →
    mmio_inv w' p a' areas' →
    mmio_frame w1 w' p a a' →
    afu_mmios a' = (if table_full a areas then w_next w else afu_mmios a) →
    map_outcome w p a areas type size prot fd offset
      (OCXL_OK, Some (mk_mmio_h (afu_mmios a') (Z.of_nat i))) w'.

(** The part [global_mmio_map] and [mmio_map] share: the system call and the
    registration of the mapping, undone when there is no room for it. *)
Lemma wp_map_and_register w p a areas type size prot fd offset fmt1 fmt2 args2 :
  mmio_inv w p a areas →
  (first_free areas = None → Z.of_nat (length areas) < 32768) →
  (∀ e, conforms fmt1 [AInt e; AStr (strerror e)] = true) → conforms fmt2 args2 = true →
  wp (addr ← call (SMmap size prot fd offset);
      if addr =? MAP_FAILED then
        e ← errno_args;
        errmsg p OCXL_NO_MEM fmt1 e ;;
        mret (OCXL_NO_MEM, None)
      else
        '(rc, mmio_region) ← register_mmio p addr size type;
        if negb (is_ok rc) then
          errmsg p rc fmt2 args2 ;;
          call (SMunmap addr size) ;;
          mret (rc, None)
        else mret (OCXL_OK, mmio_region))
     (map_outcome w p a areas type size prot fd offset) w.
Proof.
  intros Hi Hroom Hc1 Hc2. apply wp_bind, wp_call; [done|]. intros addr w1 Hd.
  pose proof (mmio_inv_same_mem _ _ _ _ _ (did_mem _ _ _ _ Hd) Hi) as Hi1.
  destruct (Z.eqb_spec addr MAP_FAILED) as [->|Hne].
  - apply wp_bind, wp_errno_args. intros e w2 Hq2. apply wp_bind, wp_errmsg; [|done|].
    { eapply can_report_quiet; [done|by eapply mmio_inv_report]. }
    intros w3 Hq3. apply wp_ret. eapply map_refused; [done|by etrans].
  - apply wp_bind. eapply wp_register_mmio; [done|done|..].
    + intros w2 Hff Hq2. simpl. apply wp_bind, wp_errmsg; [|done|].
      { eapply can_report_quiet; [done|by eapply mmio_inv_report]. }
      intros w3 Hq3. apply wp_bind, wp_call; [done|]. intros rc w4 Hd4. apply wp_ret.
      eapply map_undone; [done|done|done| |done]. by etrans.
    + intros w2 a' x Hi2 Hf Hm. simpl. apply wp_ret. rewrite (sm_next _ _ (did_mem _ _ _ _ Hd)) in Hm.
      eapply map_done; [done|done|apply surjective_pairing|done..].
Qed.

(** What [ocxl_mmio_map_advanced] does on each of its branches. *)
Definition map_result w (p : ptr) (a : ocxl_afu) (areas : list ocxl_mmio_area)
    (type : ocxl_mmio_type) (size prot flags offset : Z)
    (res : ocxl_err * option ocxl_mmio_h) w' : Prop :=
  match map_request a type size flags offset with
  | inl err => res = (err, None) ∧ quiet w w'
  | inr (fd, n) => map_outcome w p a areas type n prot fd offset res w'
  end.

Lemma wp_refuse w p a areas err fmt args (Q : ocxl_err * option ocxl_mmio_h → world K → Prop) :
  mmio_inv w p a areas → conforms fmt args = true →
  (∀ w', quiet w w' → Q (err, None) w') →
  wp (errmsg p err fmt args ;; mret (err, None)) Q w.
Proof.
  intros Hi Hc HQ. apply wp_bind, wp_errmsg; [by eapply mmio_inv_report|done|].
  intros w' Hw'. by apply wp_ret, HQ.
Qed.

Lemma wp_mmio_map_advanced w p a areas type size prot flags offset :
  mmio_inv w p a areas →
  (first_free areas = None → Z.of_nat (length areas) < 32768) →
  wp (ocxl_mmio_map_advanced p type size prot flags offset)
     (map_result w p a areas type size prot flags offset) w.
Proof.
  intros Hi Hroom. pose proof (mmio_inv_lookup _ _ _ _ Hi) as Hp.
  apply wp_bind. eapply wp_get_afu; [done|]. unfold map_result.
  destruct type as [| |t]; simpl; [| |by eapply wp_refuse].
  - destruct (map_exceeds _ _ _); [by eapply wp_refuse|].
    apply wp_bind. eapply wp_get_afu; [done|].
    destruct (area_length (afu_global_mmio a) =? 0); [by eapply wp_refuse|].
    destruct (flags =? 0); [|by eapply wp_refuse]. by apply wp_map_and_register.
  - destruct (map_exceeds _ _ _); [by eapply wp_refuse|].
    apply wp_bind. eapply wp_get_afu; [done|].
    destruct (flags =? 0); [|by eapply wp_refuse].
    destruct (afu_fd a <? 0); [by eapply wp_refuse|].
    destruct (afu_attached a); [|by eapply wp_refuse]. by apply wp_map_and_register.
Qed.

End facts.
