(* ===== verification/MmioAccess.v ===== *)
(** * MmioAccess: reading and writing the registers of a mapped area

    The rules of the checks, of the native and of the byte-order aware
    accesses, and of unmapping, on the table of MmioFacts.v. *)

From S2P Require Import Prelude Format Types World Logic Messages Buffer Mmio MmioFacts.
Open Scope Z_scope.

(** The handle of entry [i] of the table of an AFU. *)
Definition handle_of (a : ocxl_afu) (i : nat) : ocxl_mmio_h := mk_mmio_h (afu_mmios a) (Z.of_nat i).

(** ** Bounds *)

(** The check is exact: it lets an access through when, and only when, all
    its bytes are in the area. *)
Lemma out_of_bounds_exact length offset size :
  0 <= length < 2 ^ 63 → 0 <= offset < 2 ^ 63 → 1 <= size <= 2 ^ 62 →
  out_of_bounds length offset size = negb (offset + size <=? length).
Proof.
  intros Hl Ho Hs. unfold out_of_bounds, u64. rewrite (uwrap_small 64 (size - 1)) by lia.
  destruct (Z.le_gt_cases (size - 1) length) as [Hle|Hgt].
  - rewrite uwrap_small by lia. unfold s64. rewrite swrap_small by lia.
    destruct (Z.leb_spec (length - (size - 1)) offset), (Z.leb_spec (offset + size) length);
      simpl; lia.
  - assert (s64 (uwrap 64 (length - (size - 1))) = length - (size - 1)) as ->.
    { unfold s64, swrap. rewrite uwrap_uwrap. fold (swrap 64 (length - (size - 1))).
      apply swrap_small; lia. }
    destruct (Z.leb_spec (length - (size - 1)) offset), (Z.leb_spec (offset + size) length);
      simpl; lia.
Qed.

(** ** Byte order *)

Section endian.
Context `{Abi}.

(** The bytes of an [n]-byte register written in a byte order, and back. *)
Definition encode (endian : ocxl_endian) (n : nat) (v : Z) : list Z :=
  match endian with
  | OCXL_MMIO_BIG_ENDIAN => be_bytes n v
  | OCXL_MMIO_LITTLE_ENDIAN => le_bytes n v
  | _ => native_bytes n v
  end.

Definition decode (endian : ocxl_endian) (bs : list Z) : Z :=
  match endian with
  | OCXL_MMIO_BIG_ENDIAN => of_be_bytes bs
  | OCXL_MMIO_LITTLE_ENDIAN => of_le_bytes bs
  | _ => of_native_bytes bs
  end.

Lemma be_bytes_of_be bs : Forall is_byte bs → be_bytes (length bs) (of_be_bytes bs) = bs.
Proof.
  intros Hb. unfold be_bytes, of_be_bytes. rewrite <-length_reverse.
  rewrite le_bytes_of_le by by apply Forall_reverse. apply reverse_involutive.
Qed.

Lemma le_bytes_bswap n v : le_bytes n (bswap n v) = be_bytes n v.
Proof.
  unfold bswap, of_be_bytes, be_bytes. set (bs := reverse (le_bytes n v)).
  assert (n = length bs) as En by (unfold bs; by rewrite length_reverse, length_le_bytes).
  rewrite En at 1. apply le_bytes_of_le, Forall_reverse, le_bytes_are_bytes.
Qed.

Lemma be_bytes_bswap n v : be_bytes n (bswap n v) = le_bytes n v.
Proof. unfold be_bytes at 1. rewrite le_bytes_bswap. apply reverse_involutive. Qed.

Lemma bswap_of_le n bs : Forall is_byte bs → length bs = n → bswap n (of_le_bytes bs) = of_be_bytes bs.
Proof. intros Hb <-. unfold bswap. by rewrite le_bytes_of_le. Qed.

Lemma bswap_of_be n bs : Forall is_byte bs → length bs = n → bswap n (of_be_bytes bs) = of_le_bytes bs.
Proof.
  intros Hb <-. unfold bswap, of_be_bytes. rewrite <-length_reverse.
  by rewrite le_bytes_of_le, reverse_involutive by by apply Forall_reverse.
Qed.

(** The conversion the library applies to a value before a native store is
    the encoding in the requested order, whatever the order of the host. *)
Lemma native_bytes_convert n endian v :
  native_bytes n (match endian with
                  | OCXL_MMIO_BIG_ENDIAN => if host_little_endian then bswap n v else v
                  | OCXL_MMIO_LITTLE_ENDIAN => if host_little_endian then v else bswap n v
                  | _ => v
                  end) = encode endian n v.
Proof.
  destruct endian; simpl; unfold native_bytes; destruct host_little_endian;
    auto using le_bytes_bswap, be_bytes_bswap.
Qed.

Lemma of_native_bytes_convert n endian bs :
  Forall is_byte bs → length bs = n →
  match endian with
  | OCXL_MMIO_BIG_ENDIAN =>
      if host_little_endian then bswap n (of_native_bytes bs) else of_native_bytes bs
  | OCXL_MMIO_LITTLE_ENDIAN =>
      if host_little_endian then of_native_bytes bs else bswap n (of_native_bytes bs)
  | _ => of_native_bytes bs
  end = decode endian bs.
Proof.
  intros. destruct endian; simpl; unfold of_native_bytes; destruct host_little_endian;
    auto using bswap_of_le, bswap_of_be.
Qed.

Lemma decode_encode endian n v : decode endian (encode endian n v) = v mod 256 ^ Z.of_nat n.
Proof.
  destruct endian; simpl; unfold native_bytes, of_native_bytes; try destruct host_little_endian;
    auto using of_le_le_bytes, of_be_be_bytes.
Qed.

Lemma length_encode endian n v : length (encode endian n v) = n.
Proof.
  assert (length (be_bytes n v) = n) by (unfold be_bytes; by rewrite length_reverse, length_le_bytes).
  destruct endian; simpl; unfold native_bytes; try destruct host_little_endian;
    auto using length_le_bytes.
Qed.

Lemma encode_are_bytes endian n v : Forall is_byte (encode endian n v).
Proof.
  assert (Forall is_byte (be_bytes n v)) by apply Forall_reverse, le_bytes_are_bytes.
  destruct endian; simpl; unfold native_bytes; try destruct host_little_endian;
    auto using le_bytes_are_bytes.
Qed.
End endian.

(** ** What the library relies on

    A load of [n] bytes answers [n] bytes. *)
Class ByteLoads (K : Type) `{Platform K} : Prop :=
  load_bytes : ∀ addr n (k : K),
    length (os_step _ (SLoad addr n) k).1 = n ∧ Forall is_byte (os_step _ (SLoad addr n) k).1.

Section access.
Context {K : Type} `{Platform K} `{Abi}.
Implicit Types (w : world K).

(** The verdict of [mmio_check] on an entry of the table. *)
Definition access_verdict (x : ocxl_mmio_area) (offset size : Z) : ocxl_err :=
  if area_start x =? NULL then OCXL_INVALID_ARGS
  else if out_of_bounds (area_length x) offset size then OCXL_OUT_OF_BOUNDS
  else OCXL_OK.

Lemma wp_get_area w p a areas i x Q :
  mmio_inv w p a areas → areas !! i = Some x → Q x w → wp (get_area (handle_of a i)) Q w.
Proof.
  intros Hi Hx HQ. destruct (mmio_inv_area _ _ _ _ _ _ Hi Hx) as (rest & Hb & _ & Hl).
  eapply (wp_read_elt (A := ocxl_mmio_area)); [exact Hb|simpl; lia|simpl; by rewrite Nat2Z.id|done].
Qed.

Lemma mmio_inv_owner w p a areas i x :
  mmio_inv w p a areas → areas !! i = Some x → area_afu x = Some p.
Proof. intros [_ _ _ [_ _ Ho _]] Hx. exact (Forall_lookup_1 _ _ _ _ Ho Hx). Qed.

Lemma wp_area_owner x p (Q : ptr → world K → Prop) w :
  area_afu x = Some p → Q p w → wp (area_owner x) Q w.
Proof. intros E HQ. unfold area_owner. by rewrite E. Qed.

(** An error that is reported against the owner of an entry. *)
Lemma wp_owner_error {A} w p a areas i x err fmt args (r : A) Q :
  mmio_inv w p a areas → areas !! i = Some x → conforms fmt args = true →
  (∀ w', quiet w w' → Q r w') →
  wp (afu ← area_owner x; errmsg afu err fmt args ;; mret r) Q w.
Proof.
  intros Hi Hx Hc HQ. apply wp_bind. eapply wp_area_owner; [by eapply mmio_inv_owner|].
  apply wp_bind, wp_errmsg; [by eapply mmio_inv_report|done|]. intros w' Hw'. by apply wp_ret, HQ.
Qed.

Lemma wp_mmio_check w p a areas i x offset size Q :
  mmio_inv w p a areas → areas !! i = Some x →
  (∀ w', quiet w w' → Q (access_verdict x offset size) w') →
  wp (mmio_check (handle_of a i) offset size) Q w.
Proof.
  intros Hi Hx HQ. unfold mmio_check. simpl mmio_blk.
  destruct (mmio_inv_area _ _ _ _ _ _ Hi Hx) as (_ & _ & Hne & _).
  destruct (Z.eqb_spec (afu_mmios a) NULL); [done|].
  apply wp_bind. eapply wp_get_area; [done|done|]. unfold access_verdict in HQ.
  destruct (area_start x =? NULL); [by eapply wp_owner_error|].
  destruct (out_of_bounds _ _ _); [by eapply wp_owner_error|]. by apply wp_ret, HQ.
Qed.

(** Two states between which the device saw exactly one access, between two
    barriers. *)
Definition accessed {R : Set} (c : sys R) (r : R) w w' : Prop :=
  ∃ w1 w2 w3 w4, quiet w w1 ∧ did SSync tt w1 w2 ∧ did c r w2 w3 ∧ did SSync tt w3 w4 ∧ quiet w4 w'.

Lemma accessed_mem {R : Set} (c : sys R) r w w' : accessed c r w w' → same_mem w w'.
Proof.
  intros (w1 & w2 & w3 & w4 & [] & [] & [] & [] & []).
  etrans; [done|]. etrans; [done|]. etrans; [done|]. etrans; done.
Qed.

Lemma accessed_effects {R : Set} (c : sys R) r w w' :
  accessed c r w w' → effects w' = effects w ++ [Ev SSync tt; Ev c r; Ev SSync tt].
Proof.
  intros (w1 & w2 & w3 & w4 & [_ E1] & [_ E2] & [_ E3] & [_ E4] & [_ E5]).
  rewrite E5, E4, E3, E2, E1, <-!app_assoc. done.
Qed.

Lemma accessed_step {R : Set} (c : sys R) r w w' :
  accessed c r w w' → ∃ k : K, (os_step R c k).1 = r.
Proof. intros (w1 & w2 & w3 & w4 & _ & _ & [_ _ E] & _). exists (w_os w2). by rewrite E. Qed.

Lemma wp_sync_access {R : Set} (c : sys R) w w0 Q :
  silent c = false → quiet w0 w →
  (∀ r w1, (∀ w', quiet w1 w' → accessed c r w0 w') → same_mem w w1 → Q r w1) →
  wp (call SSync ;; r ← call c ; call SSync ;; mret r) Q w.
Proof.
  intros Hc Hq HQ. apply wp_bind, wp_call; [done|]. intros [] w2 Hd2.
  apply wp_bind, wp_call; [done|]. intros r w3 Hd3.
  apply wp_bind, wp_call; [done|]. intros [] w4 Hd4. apply wp_ret, HQ.
  - intros w' Hq'. exists w, w2, w3, w4. auto.
  - destruct Hd2, Hd3, Hd4. etrans; [done|]. etrans; done.
Qed.

(** What the check lets through lies in the mapping, unless its offset is
    negative. *)
Lemma verdict_in_mapping x offset n :
  access_verdict x offset (Z.of_nat n) = OCXL_OK → 0 <= offset → (1 <= n <= 8)%nat →
  in_mapping x n offset = true.
Proof.
  unfold access_verdict, in_mapping. destruct (area_start x =? NULL); [done|].
  destruct (out_of_bounds _ _ _) eqn:E; [done|]. intros _ Ho Hn. simpl.
  rewrite (proj2 (Z.leb_le 0 offset) Ho). simpl. apply Z.leb_le. unfold out_of_bounds in E.
  apply Z.leb_gt in E. unfold s64, swrap in E.
  assert (1 <= Z.of_nat n <= 8) as Hn' by lia. clear Hn. revert E Hn'. generalize (Z.of_nat n) as m.
  change (2 ^ (64 - 1)) with 9223372036854775808. intros m.
  destruct (_ <? _) eqn:El; [apply Z.ltb_lt in El|apply Z.ltb_ge in El]; revert El; solve_width.
Qed.

Lemma verdict_outside x offset n : offset < 0 → in_mapping x n offset = false.
Proof.
  intros Ho. unfold in_mapping. rewrite (proj2 (Z.leb_gt 0 offset) Ho). by rewrite andb_false_r.
Qed.

Lemma wp_load_native n x offset w w0 Q :
  in_mapping x n offset = true → quiet w0 w →
  (∀ bs w1, (∀ w', quiet w1 w' → accessed (SLoad (u64 (area_start x + offset)) n) bs w0 w') → same_mem w w1 →
     Q (of_native_bytes bs) w1) →
  wp (load_native n x offset) Q w.
Proof.
  intros Hin Hq HQ. unfold load_native. rewrite Hin. cbn [negb]. cbv iota.
  pose proof (wp_sync_access (SLoad (u64 (area_start x + offset)) n) w w0
    (λ bs, Q (of_native_bytes bs)) eq_refl Hq HQ) as Hs.
  revert Hs. unfold wp, mbind, M_bind, mret, M_ret.
  destruct (call SSync w) as [[] w1| |]; [|done..].
  destruct (call (SLoad _ _) w1) as [bs w2| |]; [|done..].
  by destruct (call SSync w2) as [[] w3| |].
Qed.

Lemma wp_store_native n x offset v w w0 Q :
  in_mapping x n offset = true → quiet w0 w →
  (∀ w1, (∀ w', quiet w1 w' → accessed (SStore (u64 (area_start x + offset)) (native_bytes n v)) tt w0 w') →
     same_mem w w1 → Q tt w1) →
  wp (store_native n x offset v) Q w.
Proof.
  intros Hin Hq HQ. unfold store_native. rewrite Hin. cbn [negb]. cbv iota.
  apply wp_bind, wp_call; [done|]. intros [] w2 Hd2.
  apply wp_bind, wp_call; [done|]. intros [] w3 Hd3.
  apply wp_call; [done|]. intros [] w4 Hd4. apply HQ.
  - intros w' Hq'. exists w, w2, w3, w4. auto.
  - destruct Hd2, Hd3, Hd4. etrans; [done|]. etrans; done.
Qed.

(** ** The native accesses, for both widths *)

Definition native_read (line : Z) (fn fmt : string) (n : nat) (region : ocxl_mmio_h) (offset : Z) :
    M K (ocxl_err * option Z) :=
  ret ← mmio_check region offset (Z.of_nat n);
  if negb (is_ok ret) then mret (ret, None) else
  area ← get_area region;
  out ← load_native n area offset;
  afu ← area_owner area;
  TRACE afu "src/mmio.c" line fn fmt
    [AStr (mmio_type_name (area_type area)); AInt offset; AInt out] ;;
  mret (OCXL_OK, Some out).

Definition native_write (line : Z) (fn fmt : string) (n : nat) (region : ocxl_mmio_h)
    (offset value : Z) : M K ocxl_err :=
  ret ← mmio_check region offset (Z.of_nat n);
  if negb (is_ok ret) then mret ret else
  area ← get_area region;
  afu ← area_owner area;
  TRACE afu "src/mmio.c" line fn fmt
    [AStr (mmio_type_name (area_type area)); AInt offset; AInt value] ;;
  store_native n area offset value ;;
  mret OCXL_OK.

(** The check does not look at the start of the area; a negative offset that it
    lets through is an access before the mapping. *)
Definition underruns (x : ocxl_mmio_area) (offset : Z) (n : nat) : Prop :=
  access_verdict x offset (Z.of_nat n) = OCXL_OK ∧ offset < 0.

Lemma not_underruns x offset n : 0 <= offset → ¬ underruns x offset n.
Proof. intros Ho [_ ?]. lia. Qed.

Lemma unmapped_not_underruns x offset n : area_start x = NULL → ¬ underruns x offset n.
Proof. unfold underruns, access_verdict. intros ->. by intros [? _]. Qed.

Lemma wp_native_read line fn fmt n w p a areas i x offset Q :
  mmio_inv w p a areas → areas !! i = Some x → (1 <= n <= 8)%nat → ¬ underruns x offset n →
  (∀ s u v, conforms fmt [AStr s; AInt u; AInt v] = true) →
  (∀ err w', access_verdict x offset (Z.of_nat n) = err → is_ok err = false → quiet w w' →
     Q (err, None) w') →
  (∀ bs w', access_verdict x offset (Z.of_nat n) = OCXL_OK →
     accessed (SLoad (u64 (area_start x + offset)) n) bs w w' →
     Q (OCXL_OK, Some (of_native_bytes bs)) w') →
  wp (native_read line fn fmt n (handle_of a i) offset) Q w.
Proof.
  intros Hi Hx Hn Hu Hc Hbad Hgood. apply wp_bind. eapply wp_mmio_check; [done|done|]. intros w1 Hq1.
  destruct (is_ok (access_verdict x offset (Z.of_nat n))) eqn:E; simpl;
    [|by apply wp_ret, Hbad].
  assert (access_verdict x offset (Z.of_nat n) = OCXL_OK) as EOK by (by destruct (access_verdict _ _ _)).
  assert (mmio_inv w1 p a areas) as Hi1 by (eapply mmio_inv_same_mem; [apply Hq1|done]).
  apply wp_bind. eapply wp_get_area; [done|done|].
  assert (in_mapping x n offset = true) as Hin.
  { apply verdict_in_mapping; [done| |done]. apply Z.le_ngt. intros ?. by apply Hu. }
  apply wp_bind. eapply wp_load_native; [done|exact Hq1|]. intros bs w2 Hacc Hm2.
  apply wp_bind. eapply wp_area_owner; [by eapply mmio_inv_owner|].
  apply wp_bind. eapply wp_TRACE; [by eapply mmio_inv_lookup, mmio_inv_same_mem|done|].
  intros w3 Hq3. apply wp_ret, Hgood; auto.
Qed.

Lemma wp_native_write line fn fmt n w p a areas i x offset v Q :
  mmio_inv w p a areas → areas !! i = Some x → (1 <= n <= 8)%nat → ¬ underruns x offset n →
  (∀ s u v, conforms fmt [AStr s; AInt u; AInt v] = true) →
  (∀ err w', access_verdict x offset (Z.of_nat n) = err → is_ok err = false → quiet w w' →
     Q err w') →
  (∀ w', access_verdict x offset (Z.of_nat n) = OCXL_OK →
     accessed (SStore (u64 (area_start x + offset)) (native_bytes n v)) tt w w' → Q OCXL_OK w') →
  wp (native_write line fn fmt n (handle_of a i) offset v) Q w.
Proof.
  intros Hi Hx Hn Hu Hc Hbad Hgood. apply wp_bind. eapply wp_mmio_check; [done|done|]. intros w1 Hq1.
  destruct (is_ok (access_verdict x offset (Z.of_nat n))) eqn:E; simpl;
    [|by apply wp_ret, Hbad].
  assert (access_verdict x offset (Z.of_nat n) = OCXL_OK) as EOK by (by destruct (access_verdict _ _ _)).
  assert (mmio_inv w1 p a areas) as Hi1 by (eapply mmio_inv_same_mem; [apply Hq1|done]).
  apply wp_bind. eapply wp_get_area; [done|done|].
  apply wp_bind. eapply wp_area_owner; [by eapply mmio_inv_owner|].
  apply wp_bind. eapply wp_TRACE; [by eapply mmio_inv_lookup|done|]. intros w2 Hq2.
  assert (in_mapping x n offset = true) as Hin.
  { apply verdict_in_mapping; [done| |done]. apply Z.le_ngt. intros ?. by apply Hu. }
  apply wp_bind. eapply (wp_store_native _ _ _ _ _ w); [done|by etrans|]. intros w3 Hacc Hm3.
  apply wp_ret, Hgood; [done|]. by apply Hacc.
Qed.

(** An access before the mapping goes wrong. *)
Lemma native_read_underrun line fn fmt n w p a areas i x offset :
  mmio_inv w p a areas → areas !! i = Some x → underruns x offset n →
  goes_wrong (native_read line fn fmt n (handle_of a i) offset) w.
Proof.
  intros Hi Hx [E Ho]. apply goes_wrong_bind. eapply wp_mmio_check; [done|done|]. intros w1 Hq1.
  rewrite E. apply goes_wrong_bind. eapply wp_get_area; [by eapply mmio_inv_same_mem; [apply Hq1|]|done|].
  apply goes_wrong_bind_l. unfold goes_wrong, load_native. by rewrite verdict_outside.
Qed.

Lemma native_write_underrun line fn fmt n w p a areas i x offset v :
  mmio_inv w p a areas → areas !! i = Some x →
  (∀ s u v, conforms fmt [AStr s; AInt u; AInt v] = true) → underruns x offset n →
  goes_wrong (native_write line fn fmt n (handle_of a i) offset v) w.
Proof.
  intros Hi Hx Hc [E Ho]. apply goes_wrong_bind. eapply wp_mmio_check; [done|done|]. intros w1 Hq1.
  assert (mmio_inv w1 p a areas) as Hi1 by (eapply mmio_inv_same_mem; [apply Hq1|done]).
  rewrite E. apply goes_wrong_bind. eapply wp_get_area; [done|done|].
  apply goes_wrong_bind. eapply wp_area_owner; [by eapply mmio_inv_owner|].
  apply goes_wrong_bind. eapply wp_TRACE; [by eapply mmio_inv_lookup|done|]. intros w2 Hq2.
  apply goes_wrong_bind_l. unfold goes_wrong, store_native. by rewrite verdict_outside.
Qed.

(** ** The accesses of the API

    [read_result] and [write_result] say what an access does on every
    branch: an entry that is unmapped or too short is refused without the
    device being touched; otherwise the device sees one access of [n] bytes
    at [start + offset], in the requested byte order. *)
Definition read_result (n : nat) (x : ocxl_mmio_area) (offset : Z) (endian : ocxl_endian) w
    (res : ocxl_err * option Z) w' : Prop :=
  match access_verdict x offset (Z.of_nat n) with
  | OCXL_OK => ∃ bs, accessed (SLoad (u64 (area_start x + offset)) n) bs w w' ∧
                     res = (OCXL_OK, Some (decode endian bs))
  | err => res = (err, None) ∧ quiet w w'
  end.

Definition write_result (n : nat) (x : ocxl_mmio_area) (offset : Z) (endian : ocxl_endian) (v : Z) w
    (res : ocxl_err) w' : Prop :=
  match access_verdict x offset (Z.of_nat n) with
  | OCXL_OK => accessed (SStore (u64 (area_start x + offset)) (encode endian n v)) tt w w' ∧
               res = OCXL_OK
  | err => res = err ∧ quiet w w'
  end.

Lemma read_result_refused n x offset endian w w' err :
  access_verdict x offset (Z.of_nat n) = err → is_ok err = false → quiet w w' →
  read_result n x offset endian w (err, None) w'.
Proof. intros E Hk Hq. unfold read_result. rewrite E. by destruct err. Qed.

Lemma write_result_refused n x offset endian v w w' err :
  access_verdict x offset (Z.of_nat n) = err → is_ok err = false → quiet w w' →
  write_result n x offset endian v w err w'.
Proof. intros E Hk Hq. unfold write_result. rewrite E. by destruct err. Qed.

(** Whether an access underruns its mapping is decided by the entry. *)
#[export] Instance underruns_dec x offset n : Decision (underruns x offset n).
Proof. unfold underruns. apply _. Defined.

Lemma wpx_underruns {A} (m : M K A) x offset n (Q : A → world K → Prop) w :
  (¬ underruns x offset n → wp m Q w) → (underruns x offset n → goes_wrong m w) →
  wpx (offset < 0) (offset < 0) m Q w.
Proof.
  intros Hok Hub. destruct (decide (underruns x offset n)) as [Hu|Hu]; [|by apply wp_wpx, Hok].
  unfold wpx. rewrite (Hub Hu). apply Hu.
Qed.

Lemma mmio_write32_underrun w p a areas i x offset endian v :
  mmio_inv w p a areas → areas !! i = Some x → underruns x offset 4 →
  goes_wrong (ocxl_mmio_write32 (handle_of a i) offset endian v) w.
Proof.
  intros Hi Hx Hu. by apply (native_write_underrun 561 "mmio_write32_native" "%s MMIO Write32@0x%04lx=0x%08x" 4
    w p a areas i x).
Qed.

Lemma mmio_write64_underrun w p a areas i x offset endian v :
  mmio_inv w p a areas → areas !! i = Some x → underruns x offset 8 →
  goes_wrong (ocxl_mmio_write64 (handle_of a i) offset endian v) w.
Proof.
  intros Hi Hx Hu. by apply (native_write_underrun 599 "mmio_write64_native" "%s MMIO Write64@0x%04lx=0x%016lx" 8
    w p a areas i x).
Qed.

Lemma mmio_read32_underrun w p a areas i x offset endian :
  mmio_inv w p a areas → areas !! i = Some x → underruns x offset 4 →
  goes_wrong (ocxl_mmio_read32 (handle_of a i) offset endian) w.
Proof.
  intros Hi Hx Hu. apply goes_wrong_bind_l.
  by apply (native_read_underrun 491 "mmio_read32_native" "%s MMIO Read32@0x%04lx=0x%08x" 4 w p a areas i x).
Qed.

Lemma mmio_read64_underrun w p a areas i x offset endian :
  mmio_inv w p a areas → areas !! i = Some x → underruns x offset 8 →
  goes_wrong (ocxl_mmio_read64 (handle_of a i) offset endian) w.
Proof.
  intros Hi Hx Hu. apply goes_wrong_bind_l.
  by apply (native_read_underrun 527 "mmio_read64_native" "%s MMIO Read64@0x%04lx=0x%016lx" 8 w p a areas i x).
Qed.

Lemma wp_mmio_write32 w p a areas i x offset endian v :
  mmio_inv w p a areas → areas !! i = Some x → ¬ underruns x offset 4 →
  wp (ocxl_mmio_write32 (handle_of a i) offset endian v) (write_result 4 x offset endian v w) w.
Proof.
  intros Hi Hx Hu. apply (wp_native_write 561 "mmio_write32_native" "%s MMIO Write32@0x%04lx=0x%08x" 4
    w p a areas i x); [done|done|lia|done|done| |].
  - intros err w' E Hk Hq. by apply write_result_refused.
  - intros w' E Hacc. unfold write_result. rewrite E. split; [|done].
    rewrite <-native_bytes_convert. exact Hacc.
Qed.

Lemma wp_mmio_write64 w p a areas i x offset endian v :
  mmio_inv w p a areas → areas !! i = Some x → ¬ underruns x offset 8 →
  wp (ocxl_mmio_write64 (handle_of a i) offset endian v) (write_result 8 x offset endian v w) w.
Proof.
  intros Hi Hx Hu. apply (wp_native_write 599 "mmio_write64_native" "%s MMIO Write64@0x%04lx=0x%016lx" 8
    w p a areas i x); [done|done|lia|done|done| |].
  - intros err w' E Hk Hq. by apply write_result_refused.
  - intros w' E Hacc. unfold write_result. rewrite E. split; [|done].
    rewrite <-native_bytes_convert. exact Hacc.
Qed.

Context `{!ByteLoads K}.

Lemma accessed_load addr n bs w w' :
  accessed (SLoad addr n) bs w w' → length bs = n ∧ Forall is_byte bs.
Proof. intros [k <-]%accessed_step. apply load_bytes. Qed.

Lemma wp_mmio_read32 w p a areas i x offset endian :
  mmio_inv w p a areas → areas !! i = Some x → ¬ underruns x offset 4 →
  wp (ocxl_mmio_read32 (handle_of a i) offset endian) (read_result 4 x offset endian w) w.
Proof.
  intros Hi Hx Hu. apply wp_bind.
  apply (wp_native_read 491 "mmio_read32_native" "%s MMIO Read32@0x%04lx=0x%08x" 4
    w p a areas i x); [done|done|lia|done|done| |].
  - intros err w' E Hk Hq. simpl. rewrite Hk. by apply wp_ret, read_result_refused.
  - intros bs w' E Hacc. simpl. apply wp_ret. unfold read_result. rewrite E.
    exists bs. split; [done|]. destruct (accessed_load _ _ _ _ _ Hacc) as [Hl Hb].
    rewrite <-(of_native_bytes_convert 4 endian bs Hb Hl). by destruct endian.
Qed.

Lemma wp_mmio_read64 w p a areas i x offset endian :
  mmio_inv w p a areas → areas !! i = Some x → ¬ underruns x offset 8 →
  wp (ocxl_mmio_read64 (handle_of a i) offset endian) (read_result 8 x offset endian w) w.
Proof.
  intros Hi Hx Hu. apply wp_bind.
  apply (wp_native_read 527 "mmio_read64_native" "%s MMIO Read64@0x%04lx=0x%016lx" 8
    w p a areas i x); [done|done|lia|done|done| |].
  - intros err w' E Hk Hq. simpl. rewrite Hk. by apply wp_ret, read_result_refused.
  - intros bs w' E Hacc. simpl. apply wp_ret. unfold read_result. rewrite E.
    exists bs. split; [done|]. destruct (accessed_load _ _ _ _ _ Hacc) as [Hl Hb].
    rewrite <-(of_native_bytes_convert 8 endian bs Hb Hl). by destruct endian.
Qed.

End access.

(** ** Unmapping *)

Section unmap.
Context {K : Type} `{Platform K} `{Abi}.
Implicit Types (w : world K).

(** The table after entry [i] was released. *)
Definition unmapped (areas : list ocxl_mmio_area) (i : nat) (x : ocxl_mmio_area) :
    list ocxl_mmio_area :=
  <[i := x <| area_start := NULL |>]> areas.

(** Unmapping releases the mapping of a live entry, once, and makes the entry
    free; on a free entry it does nothing. *)
Definition unmap_result (p : ptr) (a : ocxl_afu) (areas : list ocxl_mmio_area) (i : nat)
    (x : ocxl_mmio_area) w w' : Prop :=
  if area_start x =? NULL then w' = w
  else ∃ rc w1, did (SMunmap (area_start x) (area_length x)) rc w w1 ∧
       mmio_inv w' p a (unmapped areas i x) ∧ mmio_frame w1 w' p a a.

Lemma mmio_inv_slot w p a areas i x :
  mmio_inv w p a areas → areas !! i = Some x → slot_ready w p a areas i.
Proof.
  intros Hi Hx. pose proof (mmio_inv_area _ _ _ _ _ _ Hi Hx) as (_ & _ & Hne & _).
  destruct Hi as [Hw Hn Ha [[rest [Hb Hmax]] Hc Ho Hbd]].
  destruct Hb as [[? _]|[_ Hb]]; [done|]. apply lookup_lt_Some in Hx.
  split; [done..| |lia|lia|done|done]. exists rest. split_and!; [done|done|lia|done].
Qed.

Lemma wp_mmio_unmap w p a areas i x Q :
  mmio_inv w p a areas → areas !! i = Some x →
  (∀ w', unmap_result p a areas i x w w' → Q tt w') →
  wp (ocxl_mmio_unmap (handle_of a i)) Q w.
Proof.
  intros Hi Hx HQ. unfold unmap_result in HQ. pose proof (lookup_lt_Some _ _ _ Hx).
  apply wp_bind. eapply wp_get_area; [done|done|].
  destruct (Z.eqb_spec (area_start x) NULL) as [E|E]; [by apply wp_ret, HQ|].
  apply wp_bind, wp_call; [done|]. intros rc w1 Hd.
  assert (mmio_inv w1 p a areas) as Hi1 by (eapply mmio_inv_same_mem; [apply Hd|done]).
  eapply wp_write_slot; [by eapply mmio_inv_slot| |by rewrite decide_True|].
  - unfold field_upd; simpl. by eapply mmio_inv_owner.
  - intros w' Hi' Hf. apply HQ. exists rc, w1. auto.
Qed.

(** What [ocxl_mmio_get_info] answers for an entry. *)
Lemma wp_mmio_get_info w p a areas i x Q :
  mmio_inv w p a areas → areas !! i = Some x →
  (∀ w', quiet w w' →
     Q (if area_start x =? NULL then (OCXL_INVALID_ARGS, None)
        else (OCXL_OK, Some (area_start x, area_length x))) w') →
  wp (ocxl_mmio_get_info (handle_of a i)) Q w.
Proof.
  intros Hi Hx HQ. apply wp_bind. eapply wp_get_area; [done|done|].
  destruct (area_start x =? NULL); [by eapply wp_owner_error|]. by apply wp_ret, HQ.
Qed.

(** ** A handle into a block that is gone *)

Lemma stale_get_area w h : w_heap w !! mmio_blk h = None → get_area h w = UB.
Proof.
  intros E. unfold get_area, read_elt, get_buf, load_obj, mbind, M_bind. by rewrite E.
Qed.

Lemma stale_mmio_check w h offset size :
  mmio_blk h ≠ NULL → w_heap w !! mmio_blk h = None → mmio_check h offset size w = UB.
Proof.
  intros Hn E. unfold mmio_check. destruct (Z.eqb_spec (mmio_blk h) NULL); [done|].
  unfold mbind, M_bind. by rewrite stale_get_area.
Qed.

End unmap.

(** ** Registers that behave like memory

    [reg_byte k addr] is the byte of the device at [addr]; loads and stores
    act on it as on memory, and nothing else the library does in between
    changes it. *)
Class RegisterMemory (K : Type) `{Platform K} := {
  reg_byte : K → Z → Z;
  reg_is_byte k q : is_byte (reg_byte k q);
  reg_load addr n k :
    (os_step _ (SLoad addr n) k).1 = (λ i, reg_byte k (addr + Z.of_nat i)) <$> seq 0 n;
  reg_load_same addr n k q : reg_byte (os_step _ (SLoad addr n) k).2 q = reg_byte k q;
  reg_store addr bs k q :
    Forall is_byte bs →
    reg_byte (os_step _ (SStore addr bs) k).2 q =
    (if addr <=? q then default (reg_byte k q) (bs !! Z.to_nat (q - addr)) else reg_byte k q);
  reg_sync k q : reg_byte (os_step _ SSync k).2 q = reg_byte k q;
  reg_silent (R : Set) (c : sys R) k q :
    silent c = true → reg_byte (os_step R c k).2 q = reg_byte k q
}.

Section registers.
Context {K : Type} `{Platform K} `{Abi} `{!RegisterMemory K}.
Implicit Types (w : world K).

#[export] Instance register_memory_loads : ByteLoads K.
Proof.
  intros addr n k. rewrite reg_load. split; [by rewrite length_fmap, length_seq|].
  apply Forall_fmap, Forall_forall. intros i _. apply reg_is_byte.
Qed.

(** The bytes of the device from [addr] on. *)
Definition reg_bytes w (addr : Z) (n : nat) : list Z :=
  (λ i, reg_byte (w_os w) (addr + Z.of_nat i)) <$> seq 0 n.

Lemma reg_quiet w w' q : quiet w w' → reg_byte (w_os w') q = reg_byte (w_os w) q.
Proof.
  intros [_ _ Hs]. induction Hs as [|k1 k2 k3 [R c k Hc] _ IH]; [done|]. by rewrite IH, reg_silent.
Qed.

Lemma reg_did {R : Set} (c : sys R) r w w' q :
  did c r w w' → reg_byte (w_os w') q = reg_byte (os_step R c (w_os w)).2 q.
Proof. intros [_ _ E]. by rewrite E. Qed.

Lemma reg_accessed {R : Set} (c : sys R) r w w' q :
  accessed c r w w' → ∃ k, (∀ q, reg_byte k q = reg_byte (w_os w) q) ∧
    (os_step R c k).1 = r ∧ reg_byte (w_os w') q = reg_byte (os_step R c k).2 q.
Proof.
  intros (w1 & w2 & w3 & w4 & H1 & H2 & H3 & H4 & H5). exists (w_os w2). split_and!.
  - intros q'. by rewrite (reg_did _ _ _ _ _ H2), reg_sync, (reg_quiet _ _ _ H1).
  - by rewrite (did_step _ _ _ _ H3).
  - by rewrite (reg_quiet _ _ _ H5), (reg_did _ _ _ _ _ H4), reg_sync, (reg_did _ _ _ _ _ H3).
Qed.

(** A load through the library sees the bytes of the device and leaves them
    alone; a store replaces exactly the bytes it names. *)
Lemma reg_load_access addr n bs w w' :
  accessed (SLoad addr n) bs w w' →
  bs = reg_bytes w addr n ∧ ∀ q, reg_byte (w_os w') q = reg_byte (w_os w) q.
Proof.
  intros Hacc. split.
  - destruct (reg_accessed _ _ _ _ 0 Hacc) as (k & Hk & <- & _). rewrite reg_load.
    apply list_fmap_ext. intros i x _. apply Hk.
  - intros q. destruct (reg_accessed _ _ _ _ q Hacc) as (k & Hk & _ & ->).
    by rewrite reg_load_same, Hk.
Qed.

Lemma reg_store_access addr bs w w' q :
  accessed (SStore addr bs) tt w w' → Forall is_byte bs →
  reg_byte (w_os w') q =
  if addr <=? q then default (reg_byte (w_os w) q) (bs !! Z.to_nat (q - addr))
  else reg_byte (w_os w) q.
Proof.
  intros Hacc Hb. destruct (reg_accessed _ _ _ _ q Hacc) as (k & Hk & _ & ->).
  rewrite reg_store by done. by rewrite Hk.
Qed.

Lemma reg_bytes_stored addr bs w w' :
  accessed (SStore addr bs) tt w w' → Forall is_byte bs → reg_bytes w' addr (length bs) = bs.
Proof.
  intros Hacc Hb. apply list_eq_same_length with (length bs); [done| |].
  { unfold reg_bytes. by rewrite length_fmap, length_seq. }
  intros i x y Hi Hx Hy. unfold reg_bytes in Hx. rewrite list_lookup_fmap in Hx.
  rewrite lookup_seq_lt in Hx by done. simpl in Hx. injection Hx as <-.
  rewrite (reg_store_access _ _ _ _ _ Hacc Hb).
  destruct (Z.leb_spec addr (addr + Z.of_nat i)); [|lia].
  replace (Z.to_nat (addr + Z.of_nat i - addr)) with i by lia. by rewrite Hy.
Qed.

Lemma reg_bytes_elsewhere addr bs w w' addr' n :
  accessed (SStore addr bs) tt w w' → Forall is_byte bs →
  addr' + Z.of_nat n <= addr ∨ addr + Z.of_nat (length bs) <= addr' →
  reg_bytes w' addr' n = reg_bytes w addr' n.
Proof.
  intros Hacc Hb Hd. apply list_fmap_ext. intros i x Hi. apply lookup_seq in Hi as [-> Hi].
  rewrite (reg_store_access _ _ _ _ _ Hacc Hb).
  destruct (Z.leb_spec addr (addr' + Z.of_nat (0 + i))); [|done].
  rewrite lookup_ge_None_2 by lia. done.
Qed.

End registers.
