(* ===== verification/Irq.v ===== *)
(** * Irq: the interrupts of an AFU (src/irq.c, first part)

    An IRQ is an eventfd, a kernel interrupt bound to it and a trigger page
    mapped from the device; it lives in the array [afu->irqs], and epoll is
    given the address of its [fd_info]. *)

From S2P Require Import Prelude Format Types World Logic Messages Buffer.
Open Scope Z_scope.

Section irq.
Context {K : Type} `{Platform K} `{Abi}.
Implicit Types (w : world K).

(** [*irq], and an assignment to some of its fields *)
Definition get_irq (irq : irq_ptr) : M K ocxl_irq := read_elt (irq_blk irq) (irq_idx irq).

Definition set_irq (irq : irq_ptr) (f : ocxl_irq → ocxl_irq) : M K unit :=
  i ← get_irq irq; write_elt (irq_blk irq) (irq_idx irq) (f i).

Definition irq_dealloc (afu : ptr) (irq : irq_ptr) : M K unit :=
  i ← get_irq irq;
  when (negb (irq_addr i =? NULL))
    (a ← get_afu afu;
     rc ← call (SMunmap (irq_addr i) (afu_page_size a));
     when (c_bool rc)
       (e ← errno_args;
        errmsg afu OCXL_INTERNAL_ERROR "Could not unmap IRQ page: %d: '%s'" e) ;;
     set_irq irq (λ i, i <| irq_addr := NULL |>)) ;;
  i ← get_irq irq;
  when (negb (irq_offset i =? 0))
    (a ← get_afu afu;
     rc ← call (SIoctlIrqFree (afu_fd a) (irq_offset i));
     when (c_bool rc)
       (errmsg afu OCXL_INTERNAL_ERROR "Could not free IRQ in kernel: %d" [AInt rc]) ;;
     set_irq irq (λ i, i <| irq_offset := 0 |>)) ;;
  i ← get_irq irq;
  when (0 <=? irq_eventfd i)
    (call (SClose (irq_eventfd i)) ;;
     set_irq irq (λ i, i <| irq_eventfd := -1 |>)) ;;
  set_irq irq (λ i, i <| irq_info := NULL |>).

(** The assignments at the start of [irq_allocate]. *)
Definition fresh_irq (irq : irq_ptr) (info : Z) : ocxl_irq :=
  mk_irq 0 (-1) 0 UINT16_MAX NULL info (mk_fd_source EPOLL_SOURCE_IRQ (Some irq)).

(** [errmsg(afu, ret, ...); goto errend;] *)
Definition irq_errend (afu : ptr) (irq : irq_ptr) (fmt : string) (args : list arg) : M K ocxl_err :=
  e ← errno_args;
  errmsg afu OCXL_INTERNAL_ERROR fmt (args ++ e) ;;
  irq_dealloc afu irq ;;
  mret OCXL_INTERNAL_ERROR.

Definition irq_allocate (afu : ptr) (irq : irq_ptr) (info : Z) : M K ocxl_err :=
  write_elt (irq_blk irq) (irq_idx irq) (fresh_irq irq info) ;;
  fd ← call SEventfd;
  if fd <? 0 then irq_errend afu irq "Could not open eventfd : %d: '%s'" [] else
  set_irq irq (λ i, i <| irq_eventfd := fd |>) ;;
  a ← get_afu afu;
  '(rc, offset) ← call (SIoctlIrqAlloc (afu_fd a));
  if c_bool rc then irq_errend afu irq "Could not allocate IRQ in kernel: %d: '%s'" [] else
  set_irq irq (λ i, i <| irq_offset := offset |>) ;;
  i ← get_irq irq;
  rc ← call (SIoctlIrqSetFd (afu_fd a) (irq_offset i) (irq_eventfd i));
  if c_bool rc then
    irq_errend afu irq "Could not set event descriptor in kernel: %d: '%s'" [] else
  addr ← call (SMmap (afu_page_size a) PROT_WRITE (afu_fd a) (irq_offset i));
  set_irq irq (λ i, i <| irq_addr := addr |>) ;;
  if addr =? MAP_FAILED then irq_errend afu irq "mmap for IRQ failed: %d: '%s'" [] else
  rc ← call (SEpollCtlAdd (afu_epoll_fd a) (irq_eventfd i) (IrqFdInfo irq));
  if rc =? -1 then
    irq_errend afu irq "Could not add IRQ fd %d to epoll fd %d: %d: '%s'"
      [AInt (irq_eventfd i); AInt (afu_epoll_fd a)] else
  mret OCXL_OK.

(** [grow_buffer(afu, &afu->irqs, &afu->irq_max_count, ...)] *)
Definition grow_irqs (afu : ptr) : M K ocxl_err :=
  a ← get_afu afu;
  '(rc, buffer, count) ← grow_buffer (A := ocxl_irq) afu (afu_irqs a) (afu_irq_max_count a)
     sizeof_ocxl_irq INITIAL_IRQ_COUNT;
  when (is_ok rc)
    (set_afu afu (λ a, a <| afu_irqs := buffer |> <| afu_irq_max_count := count |>)) ;;
  mret rc.

Definition ocxl_irq_alloc (afu : ptr) (info : Z) : M K (ocxl_err * option Z) :=
  a ← get_afu afu;
  rc ← (if afu_irq_count a =? afu_irq_max_count a then grow_irqs afu else mret OCXL_OK);
  if negb (is_ok rc) then
    errmsg afu rc "Could not grow IRQ buffer" [] ;; mret (rc, None)
  else
    a ← get_afu afu;
    let irq := mk_irq_ptr (afu_irqs a) (afu_irq_count a) in
    rc ← irq_allocate afu irq info;
    if negb (is_ok rc) then
      errmsg afu rc "Could not allocate IRQ" [] ;; mret (rc, None)
    else
      set_irq irq (λ i, i <| irq_number := afu_irq_count a |>) ;;
      set_afu afu (λ a, a <| afu_irq_count := u16 (afu_irq_count a + 1) |>) ;;
      mret (OCXL_OK, Some (afu_irq_count a)).

Definition ocxl_irq_get_handle (afu : ptr) (irq : Z) : M K Z :=
  a ← get_afu afu;
  if afu_irq_count a <? irq then mret 0 else
  i ← get_irq (mk_irq_ptr (afu_irqs a) irq); mret (irq_addr i).

Definition ocxl_irq_get_fd (afu : ptr) (irq : Z) : M K Z :=
  a ← get_afu afu;
  if afu_irq_count a <? irq then mret (-1) else
  i ← get_irq (mk_irq_ptr (afu_irqs a) irq); mret (irq_eventfd i).

Definition ocxl_afu_get_event_fd (afu : ptr) : M K Z :=
  a ← get_afu afu; mret (afu_fd a).

End irq.
