(* ===== verification/Ledger.v ===== *)
(** * Ledger: the kernel objects a log of operations leaves behind

    An abstract view of the library's effects: which descriptors, interrupts
    and mappings the operations acquired and released.  [balance es r] is the
    number of times [r] was acquired in [es] less the number of times it was
    released; a run that leaves no trace in the kernel has balance 0. *)

From S2P Require Import Prelude Types World Logic.
Open Scope Z_scope.

Inductive resource : Set :=
| RFd (fd : Z)                  (* an open descriptor *)
| RIrq (fd offset : Z)          (* an interrupt of the context [fd] *)
| RMap (addr length : Z).       (* a mapping *)

#[export] Instance resource_eq_dec : EqDecision resource.
Proof. solve_decision. Defined.

(** What one operation acquires (if it succeeded), and what it releases. *)
Definition acquires {R : Set} (c : sys R) : R → option resource :=
  match c in sys R return R → option resource with
  | SOpen _ _ => λ fd, if 0 <=? fd then Some (RFd fd) else None
  | SCreat _ _ => λ fd, if 0 <=? fd then Some (RFd fd) else None
  | SEventfd => λ fd, if 0 <=? fd then Some (RFd fd) else None
  | SEpollCreate => λ fd, if 0 <=? fd then Some (RFd fd) else None
  | SMmap length _ _ _ => λ addr, if addr =? MAP_FAILED then None else Some (RMap addr length)
  | SIoctlIrqAlloc fd => λ '(rc, offset), if rc =? 0 then Some (RIrq fd offset) else None
  | _ => λ _, None
  end.

Definition releases {R : Set} (c : sys R) : option resource :=
  match c with
  | SClose fd => if 0 <=? fd then Some (RFd fd) else None
  | SMunmap addr length => if addr =? MAP_FAILED then None else Some (RMap addr length)
  | SIoctlIrqFree fd offset => Some (RIrq fd offset)
  | _ => None
  end.

Definition one_if (r : resource) (o : option resource) : Z :=
  if decide (o = Some r) then 1 else 0.

Definition delta (e : event) (r : resource) : Z :=
  let 'Ev c a := e in one_if r (acquires c a) - one_if r (releases c).

Definition balance (es : list event) (r : resource) : Z :=
  foldr (λ e n, delta e r + n) 0 es.

Lemma balance_app es es' r : balance (es ++ es') r = balance es r + balance es' r.
Proof. induction es as [|e es IH]; [done|]. simpl. rewrite IH. lia. Qed.

Lemma balance_snoc es e r : balance (es ++ [e]) r = balance es r + delta e r.
Proof. rewrite balance_app. simpl. lia. Qed.

Lemma one_if_Some r r' : one_if r (Some r') = if decide (r' = r) then 1 else 0.
Proof. unfold one_if. destruct (decide (r' = r)) as [->|]; repeat case_decide; naive_solver. Qed.

Lemma one_if_None r : one_if r None = 0.
Proof. done. Qed.

(** The balance of a number of resources that are held once each. *)
Definition held (rs : list resource) (r : resource) : Z :=
  foldr (λ r' n, one_if r (Some r') + n) 0 rs.

Lemma held_app rs rs' r : held (rs ++ rs') r = held rs r + held rs' r.
Proof. induction rs as [|x rs IH]; [done|]. simpl. rewrite IH. lia. Qed.

Section rules.
Context {K : Type} `{Platform K}.
Implicit Types (w : world K).

Lemma balance_quiet w w' r : quiet w w' → balance (effects w') r = balance (effects w) r.
Proof. by intros [_ -> _]. Qed.

Lemma balance_did {R : Set} (c : sys R) a w w' r :
  did c a w w' → balance (effects w') r = balance (effects w) r + delta (Ev c a) r.
Proof. intros [_ -> _]. apply balance_snoc. Qed.

End rules.
