(* ===== verification/IrqFacts.v ===== *)
(** * IrqFacts: the array of IRQs, proved

    The rules of the operations of Irq.v on the array [afu->irqs]; what an
    allocation and a deallocation ask of the kernel, call by call. *)

From S2P Require Import Prelude Format Types World Logic Messages Buffer Ledger Irq.
Open Scope Z_scope.

(** ** Deallocation, abstractly *)

(** The operations that release an IRQ, with the kernel's answers: exactly
    those for what the IRQ still holds. *)
Definition dealloc_effects (page_size fd : Z) (i : ocxl_irq) (r1 r2 r3 : Z) : list event :=
  (if irq_addr i =? NULL then [] else [Ev (SMunmap (irq_addr i) page_size) r1]) ++
  (if irq_offset i =? 0 then [] else [Ev (SIoctlIrqFree fd (irq_offset i)) r2]) ++
  (if 0 <=? irq_eventfd i then [Ev (SClose (irq_eventfd i)) r3] else []).

(** The IRQ afterwards: it holds nothing. *)
Definition released (i : ocxl_irq) : ocxl_irq :=
  mk_irq 0 (if 0 <=? irq_eventfd i then -1 else irq_eventfd i) (irq_reserved i) (irq_number i) NULL NULL
    (irq_fd_info i).

(** What an IRQ holds. *)
Definition irq_resources (page_size fd : Z) (i : ocxl_irq) : list resource :=
  (if (irq_addr i =? NULL) || (irq_addr i =? MAP_FAILED) then [] else [RMap (irq_addr i) page_size]) ++
  (if irq_offset i =? 0 then [] else [RIrq fd (irq_offset i)]) ++
  (if 0 <=? irq_eventfd i then [RFd (irq_eventfd i)] else []).

Lemma dealloc_balance page_size fd i r1 r2 r3 r :
  balance (dealloc_effects page_size fd i r1 r2 r3) r = - held (irq_resources page_size fd i) r.
Proof.
  unfold dealloc_effects, irq_resources. rewrite !balance_app, !held_app.
  assert (balance (if irq_addr i =? NULL then [] else [Ev (SMunmap (irq_addr i) page_size) r1]) r =
    - held (if (irq_addr i =? NULL) || (irq_addr i =? MAP_FAILED) then []
            else [RMap (irq_addr i) page_size]) r) as ->.
  { destruct (irq_addr i =? NULL); simpl; [done|]. destruct (irq_addr i =? MAP_FAILED);
      simpl; rewrite ?one_if_None; lia. }
  assert (balance (if irq_offset i =? 0 then [] else [Ev (SIoctlIrqFree fd (irq_offset i)) r2]) r =
    - held (if irq_offset i =? 0 then [] else [RIrq fd (irq_offset i)]) r) as ->.
  { destruct (irq_offset i =? 0); simpl; rewrite ?one_if_None; lia. }
  assert (balance (if 0 <=? irq_eventfd i then [Ev (SClose (irq_eventfd i)) r3] else []) r =
    - held (if 0 <=? irq_eventfd i then [RFd (irq_eventfd i)] else []) r) as ->.
  { destruct (0 <=? irq_eventfd i) eqn:E; simpl; rewrite ?E, ?one_if_None; lia. }
  lia.
Qed.

(** What the library relies on to tell that it holds nothing: the kernel
    hands out neither interrupt offset 0 nor a mapping at address 0. *)
Class NonZeroHandles (K : Type) `{Platform K} : Prop := {
  irq_offset_nonzero fd (k : K) : (os_step _ (SIoctlIrqAlloc fd) k).1 ≠ (0, 0);
  mmap_nonzero n prot fd offset (k : K) : (os_step _ (SMmap n prot fd offset) k).1 ≠ NULL
}.

(** ** Allocation, abstractly

    [irq_attempt page_size fd epoll_fd irq info es rc i]: an attempt to set
    up [irq] asks the kernel for [es], returns [rc] and leaves [i] behind. *)
Section attempt.
Context (page_size fd epoll_fd : Z) (irq : irq_ptr) (info : Z).

(** The IRQ with what it holds so far. *)
Definition partial_irq (offset eventfd addr : Z) : ocxl_irq :=
  mk_irq offset eventfd 0 UINT16_MAX addr info (mk_fd_source EPOLL_SOURCE_IRQ (Some irq)).

Inductive irq_attempt : list event → ocxl_err → ocxl_irq → Prop :=
| attempt_no_eventfd efd r1 r2 r3 :
    efd < 0 →
    irq_attempt (Ev SEventfd efd :: dealloc_effects page_size fd (partial_irq 0 (-1) NULL) r1 r2 r3)
      OCXL_INTERNAL_ERROR (released (partial_irq 0 (-1) NULL))
| attempt_no_irq efd rc junk r1 r2 r3 :
    0 <= efd → rc ≠ 0 →
    irq_attempt
      ([Ev SEventfd efd; Ev (SIoctlIrqAlloc fd) (rc, junk)] ++
       dealloc_effects page_size fd (partial_irq 0 efd NULL) r1 r2 r3)
      OCXL_INTERNAL_ERROR (released (partial_irq 0 efd NULL))
| attempt_no_fd efd offset rc r1 r2 r3 :
    0 <= efd → offset ≠ 0 → rc ≠ 0 →
    irq_attempt
      ([Ev SEventfd efd; Ev (SIoctlIrqAlloc fd) (0, offset); Ev (SIoctlIrqSetFd fd offset efd) rc] ++
       dealloc_effects page_size fd (partial_irq offset efd NULL) r1 r2 r3)
      OCXL_INTERNAL_ERROR (released (partial_irq offset efd NULL))
| attempt_no_page efd offset r1 r2 r3 :
    0 <= efd → offset ≠ 0 →
    irq_attempt
      ([Ev SEventfd efd; Ev (SIoctlIrqAlloc fd) (0, offset); Ev (SIoctlIrqSetFd fd offset efd) 0;
        Ev (SMmap page_size PROT_WRITE fd offset) MAP_FAILED] ++
       dealloc_effects page_size fd (partial_irq offset efd MAP_FAILED) r1 r2 r3)
      OCXL_INTERNAL_ERROR (released (partial_irq offset efd MAP_FAILED))
| attempt_no_epoll efd offset addr r1 r2 r3 :
    0 <= efd → offset ≠ 0 → addr ≠ NULL → addr ≠ MAP_FAILED →
    irq_attempt
      ([Ev SEventfd efd; Ev (SIoctlIrqAlloc fd) (0, offset); Ev (SIoctlIrqSetFd fd offset efd) 0;
        Ev (SMmap page_size PROT_WRITE fd offset) addr;
        Ev (SEpollCtlAdd epoll_fd efd (IrqFdInfo irq)) (-1)] ++
       dealloc_effects page_size fd (partial_irq offset efd addr) r1 r2 r3)
      OCXL_INTERNAL_ERROR (released (partial_irq offset efd addr))
| attempt_done efd offset addr rc :
    0 <= efd → offset ≠ 0 → addr ≠ NULL → addr ≠ MAP_FAILED → rc ≠ -1 →
    irq_attempt
      [Ev SEventfd efd; Ev (SIoctlIrqAlloc fd) (0, offset); Ev (SIoctlIrqSetFd fd offset efd) 0;
       Ev (SMmap page_size PROT_WRITE fd offset) addr;
       Ev (SEpollCtlAdd epoll_fd efd (IrqFdInfo irq)) rc]
      OCXL_OK (partial_irq offset efd addr).

(** A failed attempt gives back everything it acquired; a successful one
    holds what the IRQ records. *)
Lemma irq_attempt_balance es rc i r :
  irq_attempt es rc i →
  balance es r = if is_ok rc then held (irq_resources page_size fd i) r else 0.
Proof.
  assert (∀ efd, 0 <= efd → (0 <=? efd) = true) as Hle by (intros; by apply Z.leb_le).
  destruct 1; simpl is_ok; cbn [app balance foldr]; fold (balance);
    change (foldr (λ e n, delta e r + n) 0) with (λ es, balance es r); cbv beta;
    rewrite ?dealloc_balance; unfold irq_resources, partial_irq, delta, acquires, releases;
    cbn [irq_addr irq_offset irq_eventfd];
    repeat match goal with
    | H : 0 <= ?e |- _ => rewrite (Hle e H); clear H
    | H : ?e < 0 |- _ => rewrite (proj2 (Z.leb_gt 0 e) H); clear H
    | H : ?a ≠ ?b |- context [?a =? ?b] => rewrite (proj2 (Z.eqb_neq a b) H)
    end; simpl; rewrite ?one_if_None; unfold balance; simpl; lia.
Qed.
End attempt.

Section rules.
Context {K : Type} `{Platform K} `{Abi}.
Implicit Types (w : world K).

(** ** One element of an array, being worked on

    Between [w0] and [w] the element [irq] was set to [i], the operations
    [es] were asked of the kernel, and nothing else changed. *)
Record irq_wrote (irq : irq_ptr) (i : ocxl_irq) (es : list event) w0 w : Prop := {
  iw_heap : ∃ l, w_heap w0 !! irq_blk irq = Some (HIrqs l) ∧
     0 <= irq_idx irq < Z.of_nat (length l) ∧
     w_heap w = <[irq_blk irq := HIrqs (<[Z.to_nat (irq_idx irq) := Some i]> l)]> (w_heap w0);
  iw_next : w_next w = w_next w0;
  iw_glob : w_glob w = w_glob w0;
  iw_effects : effects w = effects w0 ++ es
}.

Lemma irq_wrote_mem irq i es es' w0 w w' :
  irq_wrote irq i es w0 w → same_mem w w' → effects w' = effects w0 ++ es' →
  irq_wrote irq i es' w0 w'.
Proof.
  intros [[l (Hl & Hr & E)] En Eg Ee] [E1 E2 E3] Ee'.
  split; [|congruence..|done]. exists l. by rewrite E1.
Qed.

Lemma irq_wrote_quiet irq i es w0 w w' :
  irq_wrote irq i es w0 w → quiet w w' → irq_wrote irq i es w0 w'.
Proof. intros Hi [Hm He _]. eapply irq_wrote_mem; [done|done|]. rewrite He. apply Hi. Qed.

Lemma irq_wrote_did {R : Set} (c : sys R) r irq i es w0 w w' :
  irq_wrote irq i es w0 w → did c r w w' → irq_wrote irq i (es ++ [Ev c r]) w0 w'.
Proof.
  intros Hi [Hm He _]. eapply irq_wrote_mem; [done|done|].
  rewrite He, (iw_effects _ _ _ _ _ Hi). by rewrite app_assoc.
Qed.

Lemma irq_wrote_other irq i es w0 w q :
  irq_wrote irq i es w0 w → q ≠ irq_blk irq → w_heap w !! q = w_heap w0 !! q.
Proof. intros [[l (_ & _ & E)] _ _ _] Hq. rewrite E. by apply lookup_insert_ne. Qed.

Lemma irq_wrote_obj irq i es w0 w q o :
  irq_wrote irq i es w0 w → w_heap w0 !! q = Some o → (∀ l, o ≠ HIrqs l) → w_heap w !! q = Some o.
Proof.
  intros Hi Hq Ho. rewrite (irq_wrote_other _ _ _ _ _ _ Hi); [done|]. intros ->.
  destruct (iw_heap _ _ _ _ _ Hi) as [l [Hl _]]. naive_solver.
Qed.

Lemma irq_wrote_afu irq i es w0 w p a :
  irq_wrote irq i es w0 w → afu_at w0 p a → afu_at w p a.
Proof.
  intros Hi [Hp [Hd|[s Hs]]]; (split; [by eapply irq_wrote_obj|]); [by left|right].
  exists s. by eapply irq_wrote_obj.
Qed.

(** Writing the element, reading it back, and updating it. *)
Lemma wp_write_irq irq i l w Q :
  w_heap w !! irq_blk irq = Some (HIrqs l) → 0 <= irq_idx irq < Z.of_nat (length l) →
  (∀ w', irq_wrote irq i [] w w' → Q tt w') →
  wp (write_elt (irq_blk irq) (irq_idx irq) i) Q w.
Proof.
  intros Hl Hr HQ. eapply (wp_write_elt (A := ocxl_irq)); [exact Hl|done|].
  apply HQ. split; [by exists l|done|done|]. by rewrite effects_upd_heap, app_nil_r.
Qed.

Lemma wp_get_irq irq i es w0 w Q :
  irq_wrote irq i es w0 w → Q i w → wp (get_irq irq) Q w.
Proof.
  intros [[l (_ & Hr & E)] _ _ _] HQ.
  eapply (wp_read_elt (A := ocxl_irq)); [rewrite E; apply lookup_insert_eq|lia| |done].
  apply list_lookup_insert_eq. lia.
Qed.

Lemma wp_set_irq irq f i es w0 w Q :
  irq_wrote irq i es w0 w → (∀ w', irq_wrote irq (f i) es w0 w' → Q tt w') →
  wp (set_irq irq f) Q w.
Proof.
  intros Hi HQ. apply wp_bind. eapply wp_get_irq; [done|].
  destruct Hi as [[l (Hl & Hr & E)] En Eg Ee].
  eapply (wp_write_elt (A := ocxl_irq)); [rewrite E; apply lookup_insert_eq|by rewrite length_insert|].
  apply HQ. split; [|done|done|by rewrite effects_upd_heap].
  exists l. split_and!; [done|lia|lia|]. simpl. rewrite E, insert_insert_eq.
  by rewrite list_insert_insert_eq.
Qed.

(** A call, and a message, while the element is being worked on. *)
Lemma wp_irq_call {R : Set} (c : sys R) irq i es w0 w Q :
  irq_wrote irq i es w0 w → silent c = false →
  (∀ r w', did c r w w' → irq_wrote irq i (es ++ [Ev c r]) w0 w' → Q r w') → wp (call c) Q w.
Proof.
  intros Hi Hc HQ. apply wp_call; [done|]. intros r w' Hd. apply HQ; [done|].
  by eapply irq_wrote_did.
Qed.

Lemma wp_irq_errmsg irq i es w0 w p a err fmt args Q :
  irq_wrote irq i es w0 w → afu_at w0 p a → conforms fmt args = true →
  (∀ w', irq_wrote irq i es w0 w' → Q tt w') → wp (errmsg p err fmt args) Q w.
Proof.
  intros Hi Ha Hc HQ. apply wp_errmsg; [right; exists a; by eapply irq_wrote_afu|done|].
  intros w' Hq. apply HQ. by eapply irq_wrote_quiet.
Qed.

Lemma wp_irq_errno irq i es w0 w Q :
  irq_wrote irq i es w0 w →
  (∀ e w', irq_wrote irq i es w0 w' → Q [AInt e; AStr (strerror e)] w') → wp errno_args Q w.
Proof.
  intros Hi HQ. apply wp_errno_args. intros e w' Hq. apply HQ. by eapply irq_wrote_quiet.
Qed.

Lemma wp_irq_get_afu irq i es w0 w p a Q :
  irq_wrote irq i es w0 w → afu_at w0 p a → Q a w → wp (get_afu p) Q w.
Proof. intros Hi Ha HQ. eapply wp_get_afu; [|done]. by eapply irq_wrote_afu. Qed.

(** A block of [irq_dealloc]: a guarded call to release something. *)
Lemma wp_dealloc_step irq i es w0 w b (m : M K unit) i' (es' : Z → list event) Q :
  irq_wrote irq i es w0 w →
  (b = true → ∀ Q', (∀ r w', irq_wrote irq i' (es ++ es' r) w0 w' → Q' tt w') → wp m Q' w) →
  (b = false → i' = i ∧ ∀ r, es' r = []) →
  (∀ r w', irq_wrote irq i' (es ++ es' r) w0 w' → Q tt w') →
  wp (when b m) Q w.
Proof.
  intros Hi Hm Hb HQ. apply wp_when; [intros E; by apply Hm|].
  intros E. destruct (Hb E) as [-> Hnil]. apply (HQ 0). by rewrite Hnil, app_nil_r.
Qed.

Lemma wp_irq_dealloc irq i es w0 w p a Q :
  irq_wrote irq i es w0 w → afu_at w0 p a →
  (∀ r1 r2 r3 w',
     irq_wrote irq (released i) (es ++ dealloc_effects (afu_page_size a) (afu_fd a) i r1 r2 r3) w0 w' →
     Q tt w') →
  wp (irq_dealloc p irq) Q w.
Proof.
  intros Hi Ha HQ. unfold irq_dealloc, dealloc_effects in *.
  apply wp_bind. eapply wp_get_irq; [done|].
  apply wp_bind. eapply (wp_dealloc_step irq i es w0 w _ _ (i <| irq_addr := NULL |>)
    (λ r, if irq_addr i =? NULL then [] else [Ev (SMunmap (irq_addr i) (afu_page_size a)) r])); [done|..].
  { intros Hb Q' HQ'. apply negb_true_iff in Hb. rewrite Hb in HQ'.
    apply wp_bind. eapply wp_irq_get_afu; [done|done|].
    apply wp_bind. eapply wp_irq_call; [done|done|]. intros rc w1 _ Hi1.
    assert (∀ w', irq_wrote irq i (es ++ [Ev (SMunmap (irq_addr i) (afu_page_size a)) rc]) w0 w' →
      wp (set_irq irq (λ i, i <| irq_addr := NULL |>)) Q' w') as Hset.
    { intros w' Hw'. eapply wp_set_irq; [done|]. intros w2. apply HQ'. }
    apply wp_bind, wp_when; intros _; [|by apply Hset].
    apply wp_bind. eapply wp_irq_errno; [done|]. intros e w2 Hi2.
    eapply wp_irq_errmsg; [done|done|done|]. apply Hset. }
  { intros Hb. apply negb_false_iff in Hb. rewrite Hb. apply Z.eqb_eq in Hb.
    split; [|done]. by destruct i; simpl in *; subst. }
  intros r1 w1 Hi1. set (es1 := es ++ _) in Hi1. set (i1 := i <| irq_addr := NULL |>) in Hi1.
  apply wp_bind. eapply wp_get_irq; [done|].
  apply wp_bind. eapply (wp_dealloc_step irq i1 es1 w0 w1 _ _ (i1 <| irq_offset := 0 |>)
    (λ r, if irq_offset i1 =? 0 then [] else [Ev (SIoctlIrqFree (afu_fd a) (irq_offset i1)) r])); [done|..].
  { intros Hb Q' HQ'. apply negb_true_iff in Hb. rewrite Hb in HQ'.
    apply wp_bind. eapply wp_irq_get_afu; [done|done|].
    apply wp_bind. eapply wp_irq_call; [done|done|]. intros rc w2 _ Hi2.
    assert (∀ w', irq_wrote irq i1 (es1 ++ [Ev (SIoctlIrqFree (afu_fd a) (irq_offset i1)) rc]) w0 w' →
      wp (set_irq irq (λ i, i <| irq_offset := 0 |>)) Q' w') as Hset.
    { intros w' Hw'. eapply wp_set_irq; [done|]. intros w3. apply HQ'. }
    apply wp_bind, wp_when; intros _; [|by apply Hset].
    eapply wp_irq_errmsg; [done|done|done|]. apply Hset. }
  { intros Hb. apply negb_false_iff in Hb. rewrite Hb. apply Z.eqb_eq in Hb.
    split; [|done]. unfold i1 in *. by destruct i; simpl in *; subst. }
  intros r2 w2 Hi2. set (es2 := es1 ++ _) in Hi2. set (i2 := i1 <| irq_offset := 0 |>) in Hi2.
  apply wp_bind. eapply wp_get_irq; [done|].
  apply wp_bind. eapply (wp_dealloc_step irq i2 es2 w0 w2 _ _
    (i2 <| irq_eventfd := if 0 <=? irq_eventfd i2 then -1 else irq_eventfd i2 |>)
    (λ r, if 0 <=? irq_eventfd i2 then [Ev (SClose (irq_eventfd i2)) r] else [])); [done|..].
  { intros Hb Q' HQ'. rewrite Hb in HQ'. apply wp_bind. eapply wp_irq_call; [done|done|].
    intros rc w3 _ Hi3. eapply wp_set_irq; [done|]. intros w4. apply HQ'. }
  { intros Hb. rewrite Hb. split; [|done]. unfold i2, i1. by destruct i. }
  intros r3 w3 Hi3. eapply wp_set_irq; [done|]. intros w4 Hi4. apply (HQ r1 r2 r3).
  unfold es2, es1 in Hi4. rewrite <-!app_assoc in Hi4. unfold i2, i1 in Hi4. by destruct i.
Qed.

(** The end of a failed allocation. *)
Lemma wp_irq_errend irq i es w0 w p a fmt args Q :
  irq_wrote irq i es w0 w → afu_at w0 p a →
  (∀ e, conforms fmt (args ++ [AInt e; AStr (strerror e)]) = true) →
  (∀ r1 r2 r3 w',
     irq_wrote irq (released i) (es ++ dealloc_effects (afu_page_size a) (afu_fd a) i r1 r2 r3) w0 w' →
     Q OCXL_INTERNAL_ERROR w') →
  wp (irq_errend p irq fmt args) Q w.
Proof.
  intros Hi Ha Hc HQ. apply wp_bind. eapply wp_irq_errno; [done|]. intros e w1 Hi1.
  apply wp_bind. eapply wp_irq_errmsg; [done|done|apply Hc|]. intros w2 Hi2.
  apply wp_bind. eapply wp_irq_dealloc; [done|done|]. intros r1 r2 r3 w3 Hi3.
  apply wp_ret. by eapply HQ.
Qed.

Context `{!NonZeroHandles K}.

Lemma wp_irq_allocate irq info l w p a Q :
  w_heap w !! irq_blk irq = Some (HIrqs l) → 0 <= irq_idx irq < Z.of_nat (length l) →
  afu_at w p a →
  (∀ es rc i w', irq_attempt (afu_page_size a) (afu_fd a) (afu_epoll_fd a) irq info es rc i →
     irq_wrote irq i es w w' → Q rc w') →
  wp (irq_allocate p irq info) Q w.
Proof.
  intros Hl Hr Ha HQ. unfold irq_allocate.
  apply wp_bind. eapply wp_write_irq; [done|done|]. intros w1 Hi1.
  apply wp_bind. eapply wp_irq_call; [done|done|]. intros efd w2 _ Hi2. simpl in Hi2.
  destruct (Z.ltb_spec efd 0) as [Hefd|Hefd].
  { eapply wp_irq_errend; [done|done|done|]. intros r1 r2 r3 w3 Hi3.
    eapply HQ; [by eapply (attempt_no_eventfd _ _ _ _ _ efd)|exact Hi3]. }
  apply wp_bind. eapply wp_set_irq; [done|]. clear w2 Hi2. intros w2 Hi2.
  apply wp_bind. eapply wp_irq_get_afu; [done|done|].
  apply wp_bind. eapply wp_irq_call; [done|done|]. intros [rc offset] w3 Hd3 Hi3. simpl in Hi3.
  unfold c_bool. destruct (Z.eqb_spec rc 0) as [->|Hrc]; simpl.
  2:{ eapply wp_irq_errend; [done|done|done|]. intros r1 r2 r3 w4 Hi4.
      eapply HQ; [by eapply (attempt_no_irq _ _ _ _ _ efd rc offset)|exact Hi4]. }
  assert (offset ≠ 0) as Hoff.
  { intros ->. apply (irq_offset_nonzero (afu_fd a) (w_os w2)). by rewrite (did_step _ _ _ _ Hd3). }
  apply wp_bind. eapply wp_set_irq; [done|]. clear w3 Hi3 Hd3. intros w3 Hi3.
  apply wp_bind. eapply wp_get_irq; [done|]. unfold field_upd in *. simpl in *.
  apply wp_bind. eapply wp_irq_call; [done|done|]. intros rc w4 _ Hi4. simpl in Hi4.
  destruct (Z.eqb_spec rc 0) as [->|Hrc]; simpl.
  2:{ eapply wp_irq_errend; [done|done|done|]. intros r1 r2 r3 w5 Hi5.
      eapply HQ; [by eapply (attempt_no_fd _ _ _ _ _ efd offset rc)|exact Hi5]. }
  apply wp_bind. eapply wp_irq_call; [done|done|]. intros addr w5 Hd5 Hi5. simpl in Hi5.
  assert (addr ≠ NULL) as Haddr.
  { intros ->. eapply (mmap_nonzero _ _ _ _ (w_os w4)). by rewrite (did_step _ _ _ _ Hd5). }
  apply wp_bind. eapply wp_set_irq; [done|]. clear w5 Hi5 Hd5. intros w5 Hi5.
  unfold field_upd in *. simpl in *.
  destruct (Z.eqb_spec addr MAP_FAILED) as [->|Hmap].
  { eapply wp_irq_errend; [done|done|done|]. intros r1 r2 r3 w6 Hi6.
    eapply HQ; [by eapply (attempt_no_page _ _ _ _ _ efd offset)|exact Hi6]. }
  apply wp_bind. eapply wp_irq_call; [done|done|]. intros rc w6 _ Hi6. simpl in Hi6.
  destruct (Z.eqb_spec rc (-1)) as [->|Hrc].
  { eapply wp_irq_errend; [done|done|done|]. intros r1 r2 r3 w7 Hi7.
    eapply HQ; [by eapply (attempt_no_epoll _ _ _ _ _ efd offset addr)|exact Hi7]. }
  apply wp_ret. eapply HQ; [by eapply (attempt_done _ _ _ _ _ efd offset addr rc)|exact Hi6].
Qed.
End rules.
