(* ===== verification/IrqTable.v ===== *)
(** * IrqTable: the invariant of the array of IRQs and [ocxl_irq_alloc] *)

From S2P Require Import Prelude Format Types World Logic Messages Buffer Ledger Irq IrqFacts.
Open Scope Z_scope.

(** A live IRQ: its number is its place in the array and it holds an
    eventfd, a kernel interrupt and a trigger page. *)
Definition irq_live (n : nat) (i : ocxl_irq) : Prop :=
  irq_number i = Z.of_nat n ∧ 0 <= irq_eventfd i ∧ irq_offset i ≠ 0 ∧
  irq_addr i ≠ NULL ∧ irq_addr i ≠ MAP_FAILED.

Section table.
Context {K : Type} `{Platform K} `{Abi}.
Implicit Types (w : world K).

Record irq_table w (a : ocxl_afu) (irqs : list ocxl_irq) : Prop := {
  it_buf : ∃ rest, buf_at w (afu_irqs a) ((Some <$> irqs) ++ rest) ∧
                   afu_irq_max_count a = Z.of_nat (length irqs + length rest);
  it_count : afu_irq_count a = Z.of_nat (length irqs);
  it_live : ∀ n i, irqs !! n = Some i → irq_live n i;
  it_bound : afu_irq_max_count a <= UINT16_MAX
}.

Record irq_inv w (p : ptr) (a : ocxl_afu) (irqs : list ocxl_irq) : Prop := {
  ii_heap : heap_wf w;
  ii_null : p ≠ NULL;
  ii_afu : afu_at w p a;
  ii_table : irq_table w a irqs
}.

(** What an operation on the array may change: the AFU's record (its IRQ
    fields) and the block of the array, old and new. *)
Record irq_frame w w' (p : ptr) (a a' : ocxl_afu) : Prop := {
  if_heap q : q ≠ p → q ≠ afu_irqs a → q ≠ afu_irqs a' → w_heap w' !! q = w_heap w !! q;
  if_new : afu_irqs a' = afu_irqs a ∨ w_heap w !! afu_irqs a' = None;
  if_old : afu_irqs a' = afu_irqs a ∨ w_heap w' !! afu_irqs a = None;
  if_max : afu_irqs a' = afu_irqs a → afu_irq_max_count a' = afu_irq_max_count a;
  if_glob : w_glob w' = w_glob w;
  if_afu : a' = a <| afu_irqs := afu_irqs a' |> <| afu_irq_count := afu_irq_count a' |>
                  <| afu_irq_max_count := afu_irq_max_count a' |>
}.

(** The array is replaced when it is full only; the first one has room for
    [INITIAL_IRQ_COUNT] IRQs. *)
Definition irq_room (a a' : ocxl_afu) : Prop :=
  (afu_irq_count a ≠ afu_irq_max_count a →
     afu_irqs a' = afu_irqs a ∧ afu_irq_max_count a' = afu_irq_max_count a) ∧
  (afu_irq_count a = 0 → afu_irq_max_count a = 0 → afu_irq_max_count a' = INITIAL_IRQ_COUNT).

Lemma irq_inv_same_mem w w' p a irqs : same_mem w w' → irq_inv w p a irqs → irq_inv w' p a irqs.
Proof.
  intros Hm [Hw Hn Ha [[rest [Hb Hl]] Hc Ho Hbd]]. split; [by eapply heap_wf_same_mem|done|
    by eapply afu_at_same_mem|]. split; [|done..]. exists rest.
  split; [by eapply buf_at_same_mem|done].
Qed.

Lemma irq_inv_lookup w p a irqs : irq_inv w p a irqs → w_heap w !! p = Some (HAfu a).
Proof. by intros [_ _ []]. Qed.

Lemma irq_inv_report w p a irqs : irq_inv w p a irqs → can_report w p.
Proof. intros []. right. eauto. Qed.

Lemma irq_frame_refl w p a w' : same_mem w w' → irq_frame w w' p a a.
Proof. intros [Eh _ Eg]. split; [by rewrite Eh|by left|by left|done|done|by destruct a]. Qed.

Lemma irq_frame_trans w1 w2 w3 p a1 a2 a3 :
  irq_frame w1 w2 p a1 a2 → irq_frame w2 w3 p a2 a3 → afu_irqs a3 = afu_irqs a2 →
  w_heap w2 !! p = Some (HAfu a2) → irq_frame w1 w3 p a1 a3.
Proof.
  intros [h1 n1 o1 m1 g1 f1] [h2 n2 o2 m2 g2 f2] E Hp. split.
  - intros q Hqp Hq1 Hq3. rewrite h2, h1 by congruence. done.
  - rewrite E. destruct n1 as [->|Hn]; [by left|by right].
  - rewrite E. destruct o1 as [->|Ho]; [by left|].
    destruct (decide (afu_irqs a2 = afu_irqs a1)) as [->|Hne]; [by left|right].
    rewrite h2; [done|congruence..].
  - intros E3. rewrite m2, m1 by congruence. done.
  - congruence.
  - rewrite f2, f1. by destruct a1.
Qed.

(** The array is not the block of the AFU, nor of a string. *)
Lemma irqs_apart w p a irqs q o :
  irq_inv w p a irqs → w_heap w !! q = Some o → (∀ l, o ≠ HIrqs l) → q ≠ afu_irqs a.
Proof.
  intros [Hw _ _ [[rest [Hb _]] _ _ _]] Hq Ho ->. destruct Hb as [[E _]|[_ E]].
  - rewrite E in Hq. by rewrite (heap_wf_null _ Hw) in Hq.
  - rewrite E in Hq. injection Hq as <-. by eapply Ho.
Qed.

Lemma wp_grow_irqs w p a irqs Q :
  irq_inv w p a irqs → afu_irq_count a = afu_irq_max_count a → Z.of_nat (length irqs) < 32768 →
  (∀ w', quiet w w' → Q OCXL_NO_MEM w') →
  (∀ w' a', irq_inv w' p a' irqs → irq_frame w w' p a a' → irq_room a a' → effects w' = effects w →
     afu_irq_count a' < afu_irq_max_count a' → Q OCXL_OK w') →
  wp (grow_irqs p) Q w.
Proof.
  intros Hi Hfull Hroom Hfail Hok. pose proof Hi as [Hw Hnull [_ Hd] [[rest [Hb Hmax]] Hcnt Ho Hbd]].
  assert (rest = []) as -> by (apply length_zero_iff_nil; lia). rewrite app_nil_r in Hb.
  pose proof (irq_inv_lookup _ _ _ _ Hi) as Hp. apply wp_bind. eapply wp_get_afu; [done|].
  assert (afu_irq_max_count a = Z.of_nat (length irqs)) as -> by lia. apply wp_bind.
  apply wp_grow_full; [done|by eapply irq_inv_report|exact Hb|done|done|..].
  { intros w' Hw'. apply wp_bind, wp_ret, wp_ret. by apply Hfail. }
  intros w1 buffer n rest Hg Hl Hnew Hn. pose proof Hg as [Hw1 (Eb & Hbn & Hbf) Hbuf Hold Hoth Eg Ee].
  assert (∀ q o, w_heap w !! q = Some o → (∀ l, o ≠ HIrqs l) →
    w_heap w1 !! q = Some o ∧ q ≠ afu_irqs a ∧ q ≠ buffer) as Hk.
  { intros q o Hq Ho1. eapply (array_grown_keeps (A := ocxl_irq) w w1); [done|exact Hb|exact Hg|done|exact Ho1]. }
  destruct (Hk _ _ Hp) as (Hp1 & Hpa & Hpb); [done|].
  apply wp_bind, wp_when; [intros _|done]. eapply wp_set_afu; [exact Hp1|]. apply wp_ret.
  set (a' := a <| afu_irqs := _ |> <| afu_irq_max_count := _ |>).
  assert (buffer ≠ afu_irqs a) as Hne by (destruct Hb as [[-> _]|[_ Hb]]; [done|congruence]).
  apply (Hok _ a'); [| | |done|simpl; lia].
  - split; [apply heap_wf_insert; eauto|done| |].
    + split; [apply heap_upd_eq|]. destruct Hd as [Hd|[s Hs]]; [by left|right; exists s].
      destruct (Hk _ _ Hs) as [Hs1 _]; [done|]. rewrite heap_upd_ne; [done|].
      change (afu_device_path a') with (afu_device_path a). intros E. rewrite <-E in Hs. congruence.
    + split; [|done|done|simpl; lia]. exists rest. split; [right; split; [done|]|done].
      rewrite heap_upd_ne by done. exact Hbuf.
  - split; [|by right| |by intros|done|by destruct a].
    + intros q Hq1 Hq2 Hq3. rewrite heap_upd_ne by done. by apply Hoth.
    + right. by rewrite heap_upd_ne.
  - split; [done|]. intros E0 _. simpl. rewrite Hnew. replace (Z.of_nat (length irqs)) with 0 by lia. done.
Qed.

(** ** Allocating an IRQ *)

(** The element behind the last IRQ. *)
Definition next_irq (a : ocxl_afu) : irq_ptr := mk_irq_ptr (afu_irqs a) (afu_irq_count a).

Lemma irq_inv_room w p a irqs :
  irq_inv w p a irqs → afu_irq_count a < afu_irq_max_count a →
  ∃ o rest, afu_irqs a ≠ NULL ∧
    w_heap w !! afu_irqs a = Some (HIrqs ((Some <$> irqs) ++ o :: rest)) ∧
    afu_irq_max_count a = Z.of_nat (length irqs + S (length rest)).
Proof.
  intros [_ _ _ [[rest [Hb Hmax]] Hc _ _]] Hlt.
  destruct rest as [|o rest]; [simpl in *; lia|]. exists o, rest.
  destruct Hb as [[_ Hnil]|[Hne Hb]]; [by apply app_eq_nil in Hnil as [_ ?]|done].
Qed.

(** Work on the element behind the last IRQ: the array is still the array,
    with the element in the place. *)
Lemma irq_wrote_next w p a irqs i es w' :
  irq_inv w p a irqs → irq_wrote (next_irq a) i es w w' →
  irq_inv w' p a irqs ∧ irq_frame w w' p a a ∧
  ∃ rest, afu_irqs a ≠ NULL ∧
    w_heap w' !! afu_irqs a = Some (HIrqs ((Some <$> irqs) ++ Some i :: rest)) ∧
    afu_irq_max_count a = Z.of_nat (length irqs + S (length rest)).
Proof.
  intros Hi Hw. pose proof Hw as [[l (Hl & Hr & E)] En Eg _]. simpl in Hl, Hr, E.
  pose proof Hi as [Hwf Hn Ha [[rest0 [Hb Hmax]] Hc Hlv Hbd]].
  destruct Hb as [[E0 _]|[Hne Hb]].
  { rewrite E0 in Hl. by rewrite (heap_wf_null _ Hwf) in Hl. }
  rewrite Hl in Hb. injection Hb as ->. rewrite length_app, length_fmap in Hr.
  destruct rest0 as [|o rest]; [simpl in *; lia|].
  rewrite Hc, Nat2Z.id in E. rewrite insert_app_r_alt in E by solve_length.
  rewrite length_fmap, Nat.sub_diag in E. simpl in E.
  assert (w_heap w' !! afu_irqs a = Some (HIrqs ((Some <$> irqs) ++ Some i :: rest))) as Hb'.
  { rewrite E. apply lookup_insert_eq. }
  split_and!; [|split|].
  - split; [|done|by eapply irq_wrote_afu|split; [|done..]].
    + destruct Hwf as [Hpos Hlt]. split; [by rewrite En|]. intros q Hq. rewrite En. apply Hlt.
      rewrite E in Hq. destruct (decide (afu_irqs a = q)) as [<-|Hqn]; [eauto|].
      by rewrite lookup_insert_ne in Hq.
    + exists (Some i :: rest). split; [by right|done].
  - intros q _ Hq _. rewrite E. by apply lookup_insert_ne.
  - by left.
  - by left.
  - done.
  - done.
  - by destruct a.
  - exists rest. done.
Qed.

(** Counting the element in. *)
Lemma irq_inv_count w p a irqs i rest n :
  irq_inv w p a irqs → afu_irqs a ≠ NULL →
  w_heap w !! afu_irqs a = Some (HIrqs ((Some <$> irqs) ++ Some i :: rest)) →
  afu_irq_max_count a = Z.of_nat (length irqs + S (length rest)) →
  irq_live (length irqs) i → n = Z.of_nat (S (length irqs)) →
  irq_inv (upd_heap <[p := HAfu (a <| afu_irq_count := n |>)]> w) p
    (a <| afu_irq_count := n |>) (irqs ++ [i]).
Proof.
  intros Hi Hne Hb Hmax Hl ->. pose proof (irq_inv_lookup _ _ _ _ Hi) as Hp.
  destruct Hi as [Hwf Hn [_ Hd] [_ Hc Hlv Hbd]].
  split; [apply heap_wf_insert; eauto|done| |split].
  - split; [apply heap_upd_eq|]. destruct Hd as [Hd|[s Hs]]; [by left|right; exists s].
    simpl. rewrite lookup_insert_ne; [done|]. congruence.
  - exists rest. split; [right; split; [done|]|].
    + simpl. rewrite lookup_insert_ne by congruence. rewrite Hb, fmap_app, <-app_assoc. done.
    + simpl. solve_length.
  - simpl. solve_length.
  - intros k j Hk. apply lookup_app_Some in Hk as [Hk|[Hk1 Hk2]]; [by apply Hlv|].
    apply list_lookup_singleton_Some in Hk2 as [Hk2 <-].
    by replace k with (length irqs) by lia.
  - done.
Qed.

(** The outcomes of [ocxl_irq_alloc]: no memory for the array; a step of the
    allocation failed, and the IRQs are what they were; or a new live IRQ
    stands behind the others and its number is returned. *)
Inductive irq_alloc_outcome w (p : ptr) (a : ocxl_afu) (irqs : list ocxl_irq) (info : Z) :
    ocxl_err * option Z → world K → Prop :=
| irq_alloc_no_room w' :
    afu_irq_count a = afu_irq_max_count a → quiet w w' →
    irq_alloc_outcome w p a irqs info (OCXL_NO_MEM, None) w'
| irq_alloc_failed a' es rc i w' :
    irq_attempt (afu_page_size a) (afu_fd a) (afu_epoll_fd a) (next_irq a') info es rc i →
    is_ok rc = false →
    irq_inv w' p a' irqs → irq_frame w w' p a a' →
    effects w' = effects w ++ es →
    irq_alloc_outcome w p a irqs info (rc, None) w'
| irq_alloc_done a' es i w' :
    irq_attempt (afu_page_size a) (afu_fd a) (afu_epoll_fd a)
      (mk_irq_ptr (afu_irqs a') (Z.of_nat (length irqs))) info es OCXL_OK i →
    irq_inv w' p a' (irqs ++ [i <| irq_number := Z.of_nat (length irqs) |>]) →
    irq_frame w w' p a a' → irq_room a a' →
    effects w' = effects w ++ es →
    irq_alloc_outcome w p a irqs info (OCXL_OK, Some (Z.of_nat (length irqs))) w'.

Lemma irq_attempt_live page fd epfd irq info es i n :
  irq_attempt page fd epfd irq info es OCXL_OK i →
  irq_live n (i <| irq_number := Z.of_nat n |>).
Proof. inversion 1; subst. by repeat split. Qed.

Context `{!NonZeroHandles K}.

(** The second half of [ocxl_irq_alloc], once the array has room. *)
Lemma wp_irq_fill w0 w p a0 a irqs info Q :
  irq_inv w p a irqs → afu_irq_count a < afu_irq_max_count a →
  irq_frame w0 w p a0 a → irq_room a0 a → effects w = effects w0 →
  (∀ res w', irq_alloc_outcome w0 p a0 irqs info res w' → Q res w') →
  wp (a ← get_afu p;
      let irq := mk_irq_ptr (afu_irqs a) (afu_irq_count a) in
      rc ← irq_allocate p irq info;
      if negb (is_ok rc) then
        errmsg p rc "Could not allocate IRQ" [] ;; mret (rc, None)
      else
        set_irq irq (λ i, i <| irq_number := afu_irq_count a |>) ;;
        set_afu p (λ a, a <| afu_irq_count := u16 (afu_irq_count a + 1) |>) ;;
        mret (OCXL_OK, Some (afu_irq_count a))) Q w.
Proof.
  intros Hi Hlt Hf Hroom He HQ. pose proof (irq_inv_lookup _ _ _ _ Hi) as Hp.
  apply wp_bind. eapply wp_get_afu; [done|]. cbv zeta. fold (next_irq a).
  destruct (irq_inv_room _ _ _ _ Hi Hlt) as (o & rest & Hne & Hb & Hmax).
  pose proof (it_count _ _ _ (ii_table _ _ _ _ Hi)) as Hc.
  apply wp_bind. eapply (wp_irq_allocate (next_irq a));
    [exact Hb|simpl; rewrite length_app, length_fmap; simpl; lia|apply Hi|].
  intros es rc i w1 Hat Hw1.
  assert (afu_page_size a = afu_page_size a0 ∧ afu_fd a = afu_fd a0 ∧ afu_epoll_fd a = afu_epoll_fd a0)
    as (Ep & Ef & Ee) by (rewrite (if_afu _ _ _ _ _ Hf); done).
  rewrite Ep, Ef, Ee in Hat.
  destruct (is_ok rc) eqn:Hrc; simpl.
  - assert (rc = OCXL_OK) as -> by (by destruct rc).
    apply wp_bind. eapply wp_set_irq; [exact Hw1|]. intros w2 Hw2.
    destruct (irq_wrote_next _ _ _ _ _ _ _ Hi Hw2) as (Hi2 & Hf2 & rest2 & _ & Hb2 & Hmax2).
    rewrite Hc in *. set (i2 := i <| irq_number := _ |>) in *.
    assert (u16 (Z.of_nat (length irqs) + 1) = Z.of_nat (S (length irqs))) as Hu.
    { pose proof (it_bound _ _ _ (ii_table _ _ _ _ Hi2)). unfold UINT16_MAX in *.
      unfold u16. rewrite uwrap_small; lia. }
    pose proof (irq_inv_lookup _ _ _ _ Hi2) as Hp2.
    apply wp_bind. eapply wp_set_afu; [exact Hp2|]. apply wp_ret. rewrite Hc, Hu.
    apply HQ. set (a' := a <| afu_irq_count := _ |>).
    assert (irq_frame w2 (upd_heap <[p := HAfu a']> w2) p a a') as Hf3.
    { split; [|by left|by left|done|done|by destruct a]. intros q Hq _ _. by apply heap_upd_ne. }
    eapply (irq_alloc_done _ _ _ _ _ a').
    + unfold next_irq in Hat. rewrite Hc in Hat. exact Hat.
    + eapply irq_inv_count; [exact Hi2|done|exact Hb2|done|by eapply irq_attempt_live|done].
    + eapply irq_frame_trans; [|exact Hf3|done|done]. by eapply irq_frame_trans.
    + exact Hroom.
    + rewrite effects_upd_heap, (iw_effects _ _ _ _ _ Hw2). by rewrite He.
  - destruct (irq_wrote_next _ _ _ _ _ _ _ Hi Hw1) as (Hi1 & Hf1 & _).
    apply wp_bind, wp_errmsg; [by eapply irq_inv_report|done|]. intros w2 Hq2. apply wp_ret, HQ.
    eapply irq_alloc_failed; [exact Hat|done|eapply irq_inv_same_mem; [apply Hq2|done]| |].
    + eapply irq_frame_trans; [|apply irq_frame_refl, Hq2|done|by eapply irq_inv_lookup].
      by eapply irq_frame_trans.
    + rewrite (quiet_effects _ _ Hq2), (iw_effects _ _ _ _ _ Hw1). by rewrite He.
Qed.

Lemma wp_irq_alloc w p a irqs info :
  irq_inv w p a irqs →
  (afu_irq_count a = afu_irq_max_count a → Z.of_nat (length irqs) < 32768) →
  wp (ocxl_irq_alloc p info) (irq_alloc_outcome w p a irqs info) w.
Proof.
  intros Hi Hroom. apply wp_bind. eapply wp_get_afu; [by eapply irq_inv_lookup|]. apply wp_bind.
  destruct (Z.eqb_spec (afu_irq_count a) (afu_irq_max_count a)) as [Hfull|Hfull].
  - eapply wp_grow_irqs; [done|done|by apply Hroom|..].
    + intros w' Hq. simpl. apply wp_bind, wp_errmsg; [|done|].
      { eapply can_report_quiet; [done|by eapply irq_inv_report]. }
      intros w2 Hq2. apply wp_ret. apply irq_alloc_no_room; [done|by etrans].
    + intros w' a' Hi' Hf' Hr' He Hlt. simpl. by eapply wp_irq_fill.
  - apply wp_ret. simpl.
    pose proof Hi as [_ _ _ [[rest [_ Hmax]] Hc _ _]].
    eapply wp_irq_fill; [done|lia|by apply irq_frame_refl| |done|done].
    split; [done|]. intros; lia.
Qed.

(** ** Looking an IRQ up *)

Lemma wp_irq_get w p a irqs n i Q :
  irq_inv w p a irqs → irqs !! n = Some i → Q i w →
  wp (get_irq (mk_irq_ptr (afu_irqs a) (Z.of_nat n))) Q w.
Proof.
  intros [_ _ _ [[rest [Hb _]] _ _ _]] Hn HQ.
  assert (((Some <$> irqs) ++ rest) !! n = Some (Some i)) as Hl.
  { apply lookup_app_l_Some. by rewrite list_lookup_fmap, Hn. }
  destruct Hb as [[_ Hnil]|[_ Hb]]; [by rewrite Hnil in Hl|].
  eapply (wp_read_elt (A := ocxl_irq)); [exact Hb|simpl; lia|simpl; by rewrite Nat2Z.id|done].
Qed.

End table.
