(* ===== verification/Event.v ===== *)
(** * Event: waiting for the events of an AFU (src/irq.c, second part)

    [epoll_wait] answers the addresses of the [fd_info]s whose descriptors
    are ready: the AFU's own (OpenCAPI events, read from the device until the
    kernel has no more of them) or an IRQ's (its eventfd is read).  The
    caller's array of events is a list of [event_count] entries; a store
    behind its end is undefined behaviour.  The loop that reads the device
    goes on for as long as the kernel has events, so it runs on fuel. *)

From S2P Require Import Prelude Format Types World Logic Messages Buffer Mmio Irq.
Open Scope Z_scope.

Section event.
Context {K : Type} `{Platform K} `{Abi}.
Implicit Types (w : world K).

Definition populate_xsl_fault_error (afu : ptr) (body : list Z) : M K ocxl_event :=
  TRACE afu "src/irq.c" 263 "populate_xsl_fault_error"
    "Translation fault error received, addr=%p, dsisr=%llx, count=%llu"
    [AInt (xsl_addr body); AInt (xsl_dsisr body); AInt (xsl_count body)] ;;
  mret (OCXL_EVENT_TRANSLATION_FAULT
          (mk_event_fault (xsl_addr body) (xsl_dsisr body) (xsl_count body))).

(** [read_afu_event(afu, event_api_version, &event, &last)]: the action, the
    event that was stored, if any, and [last]. *)
Definition read_afu_event (afu : ptr) (event_api_version : Z) :
    M K (ocxl_event_action * option ocxl_event * bool) :=
  if negb (event_api_version =? 0) then
    errmsg afu OCXL_INTERNAL_ERROR
      "Unsupported event API version %u, your libocxl library may be too old"
      [AInt event_api_version] ;;
    mret (OCXL_EVENT_ACTION_FAIL, None, false)
  else
  let event_size := sizeof_event_header + sizeof_xsl_fault_error in
  let max_supported_event := OCXL_AFU_EVENT_XSL_FAULT_ERROR in
  a ← get_afu afu;
  '(buf_used, buf) ← call (SRead (afu_fd a) event_size);
  if buf_used <? 0 then
    errno ← call SErrno;
    if (errno =? EAGAIN) || (errno =? EWOULDBLOCK) then
      mret (OCXL_EVENT_ACTION_NONE, None, true)
    else
      errmsg afu OCXL_INTERNAL_ERROR "read of event header from fd %d failed: %d: %s"
        [AInt (afu_fd a); AInt errno; AStr (strerror errno)] ;;
      mret (OCXL_EVENT_ACTION_FAIL, None, false)
  else if buf_used <? sizeof_event_header then
    errmsg afu OCXL_INTERNAL_ERROR "short read of event header from fd %d" [AInt (afu_fd a)] ;;
    mret (OCXL_EVENT_ACTION_FAIL, None, false)
  else
  let header := take (Z.to_nat sizeof_event_header) buf in
  let last := c_bool (Z.land (header_flags header) OCXL_KERNEL_EVENT_FLAG_LAST) in
  if max_supported_event <? header_type header then
    TRACE afu "src/irq.c" 343 "read_afu_event" "Unknown event received from kernel of type %u"
      [AInt (header_type header)] ;;
    mret (OCXL_EVENT_ACTION_IGNORE, None, last)
  else if header_type header =? OCXL_AFU_EVENT_XSL_FAULT_ERROR then
    if negb (buf_used =? sizeof_event_header + sizeof_xsl_fault_error) then
      errmsg afu OCXL_INTERNAL_ERROR
        "Incorrectly sized buffer received from kernel for XSL fault error, expected %d, got %d"
        [AInt (sizeof_event_header + sizeof_xsl_fault_error); AInt buf_used] ;;
      mret (OCXL_EVENT_ACTION_FAIL, None, false)
    else
      event ← populate_xsl_fault_error afu (drop (Z.to_nat sizeof_event_header) buf);
      mret (OCXL_EVENT_ACTION_SUCCESS, Some event, last)
  else
    errmsg afu OCXL_INTERNAL_ERROR "Unknown event %d, max_supported_event %d"
      [AInt (header_type header); AInt max_supported_event] ;;
    mret (OCXL_EVENT_ACTION_FAIL, None, false).

(** The caller's events: what was stored so far, [triggered] of them counted. *)
Record events_out : Type := mk_events {
  ev_events : list (option ocxl_event);
  ev_triggered : Z   (* uint16_t *)
}.

(** [events[triggered] = event; triggered++] *)
Definition push_event (out : events_out) (event : ocxl_event) : M K events_out :=
  if (ev_triggered out <? 0) || (Z.of_nat (length (ev_events out)) <=? ev_triggered out) then undefined
  else mret (mk_events (<[Z.to_nat (ev_triggered out) := Some event]> (ev_events out))
                       (u16 (ev_triggered out + 1))).

(** The [while] loop over [read_afu_event]; true when a read failed. *)
Fixpoint read_afu_events (fuel : nat) (afu : ptr) (event_api_version : Z) (out : events_out) :
    M K (bool * events_out) :=
  match fuel with
  | O => diverge
  | S fuel =>
      '(ret, event, last) ← read_afu_event afu event_api_version;
      match ret with
      | OCXL_EVENT_ACTION_SUCCESS =>
          match event with
          | Some event =>
              out ← push_event out event;
              if (last : bool) then mret (false, out) else read_afu_events fuel afu event_api_version out
          | None => undefined
          end
      | OCXL_EVENT_ACTION_IGNORE =>
          if last then mret (false, out) else read_afu_events fuel afu event_api_version out
      | OCXL_EVENT_ACTION_FAIL => mret (true, out)
      | OCXL_EVENT_ACTION_NONE => mret (false, out)
      end
  end.

(** [*info] *)
Definition get_fd_info (info : source_ptr) : M K epoll_fd_source :=
  match info with
  | AfuFdInfo afu => a ← get_afu afu; mret (afu_fd_info a)
  | IrqFdInfo irq => i ← get_irq irq; mret (irq_fd_info i)
  end.

(** The case [EPOLL_SOURCE_IRQ] *)
Definition read_irq_event (afu : ptr) (irq : irq_ptr) (out : events_out) : M K events_out :=
  i ← get_irq irq;
  '(buf_used, buf) ← call (SRead (irq_eventfd i) 8);
  if buf_used <? 0 then
    e ← errno_args;
    errmsg afu OCXL_INTERNAL_ERROR "read of eventfd %d IRQ %d failed: %d: %s"
      ([AInt (irq_eventfd i); AInt (irq_number i)] ++ e) ;;
    mret out
  else if negb (buf_used =? 8) then
    errmsg afu OCXL_INTERNAL_ERROR "short read of eventfd %d IRQ %d" [] ;;
    mret out
  else
    let count := of_native_bytes buf in
    out ← push_event out
      (OCXL_EVENT_IRQ (mk_event_irq (irq_number i) (irq_addr i) (irq_info i) count));
    TRACE afu "src/irq.c" 465 "ocxl_afu_event_check_versioned"
      "IRQ received, irq=%u id=%llx info=%p count=%llu"
      [AInt (irq_number i); AInt (irq_addr i); AInt (irq_info i); AInt count] ;;
    mret out.

(** The [for] loop over the descriptors [epoll_wait] reported; true when a
    read of the device failed. *)
Fixpoint check_sources (fuel : nat) (afu : ptr) (event_api_version : Z) (sources : list source_ptr)
    (out : events_out) : M K (bool * events_out) :=
  match sources with
  | [] => mret (false, out)
  | source :: sources =>
      info ← get_fd_info source;
      match source_type info with
      | EPOLL_SOURCE_OCXL =>
          '(failed, out) ← read_afu_events fuel afu event_api_version out;
          if (failed : bool) then mret (true, out)
          else check_sources fuel afu event_api_version sources out
      | EPOLL_SOURCE_IRQ =>
          match source_irq info with
          | Some irq =>
              out ← read_irq_event afu irq out;
              check_sources fuel afu event_api_version sources out
          | None => undefined
          end
      end
  end.

(** The buffer for [epoll_wait]: large enough already, or allocated anew. *)
Definition reserve_epoll_events (afu : ptr) (event_count : Z) : M K bool :=
  a ← get_afu afu;
  if event_count <=? afu_epoll_event_count a then mret true else
  free (afu_epoll_events a) ;;
  set_afu afu (λ a, a <| afu_epoll_events := NULL |> <| afu_epoll_event_count := 0 |>) ;;
  events ← malloc (event_count * sizeof_epoll_event) (HEpollEvents event_count);
  if events =? NULL then
    errmsg afu OCXL_NO_MEM "Could not allocate space for %d events" [AInt event_count] ;;
    mret false
  else
    set_afu afu (λ a, a <| afu_epoll_events := events |> <| afu_epoll_event_count := event_count |>) ;;
    mret true.

(** [epoll_wait] and what is done for the descriptors it reports.  The result
    is the count returned (or -1) and the array of events. *)
Definition wait_events (fuel : nat) (afu : ptr) (timeout event_count : Z) (event_api_version : Z) :
    M K (Z * list (option ocxl_event)) :=
  let events := replicate (Z.to_nat event_count) None in
  a ← get_afu afu;
  '(count, sources) ← call (SEpollWait (afu_epoll_fd a) event_count timeout);
  if count =? -1 then
    e ← errno_args;
    errmsg afu OCXL_INTERNAL_ERROR "epoll_wait failed waiting for AFU events: %d: '%s'" e ;;
    mret (-1, events)
  else if (Z.of_nat (length sources) <? count) || (afu_epoll_event_count a <? count) then undefined
  else
    '(failed, out) ← check_sources fuel afu event_api_version (take (Z.to_nat count) sources)
       (mk_events events 0);
    if (failed : bool) then mret (-1, ev_events out)
    else
      TRACE afu "src/irq.c" 472 "ocxl_afu_event_check_versioned" "%u events reported"
        [AInt (ev_triggered out)] ;;
      mret (ev_triggered out, ev_events out).

Definition ocxl_afu_event_check_versioned (fuel : nat) (afu : ptr) (timeout event_count : Z)
    (event_api_version : Z) : M K (Z * list (option ocxl_event)) :=
  TRACE afu "src/irq.c" 398 "ocxl_afu_event_check_versioned"
    "Waiting up to %dms for AFU events" [AInt timeout] ;;
  ok ← reserve_epoll_events afu event_count;
  if negb (ok : bool) then mret (-1, replicate (Z.to_nat event_count) None)
  else wait_events fuel afu timeout event_count event_api_version.

Definition ocxl_afu_event_check (fuel : nat) (afu : ptr) (timeout event_count : Z) :
    M K (Z * list (option ocxl_event)) :=
  ocxl_afu_event_check_versioned fuel afu timeout event_count 0.

Definition ocxl_afu_get_p9_thread_id (afu : ptr) : M K (ocxl_err * option Z) :=
  a ← get_afu afu;
  '(rc, flags0) ← call (SIoctlGetFeatures (afu_fd a));
  if c_bool rc then
    e ← errno_args;
    errmsg afu OCXL_NO_DEV "Could not identify platform: %d %s" e ;;
    mret (OCXL_NO_DEV, None)
  else if negb (c_bool (Z.land flags0 OCXL_IOCTL_FEATURES_FLAGS0_P9_WAIT)) then
    errmsg afu OCXL_NO_DEV "Power 9 wait is not available on this machine" [] ;;
    mret (OCXL_NO_DEV, None)
  else
    '(rc, thread_id) ← call (SIoctlEnableP9Wait (afu_fd a));
    if c_bool rc then
      e ← errno_args;
      errmsg afu OCXL_NO_DEV "Could not enable wait in kernel: %d %s" e ;;
      mret (OCXL_NO_DEV, None)
    else mret (OCXL_OK, Some thread_id).

(** The wait instruction. *)
Definition ocxl_wait : M K unit := call SWait.

End event.
