(* ===== verification/Names.v ===== *)
(** * Names: the parsing of device names (src/afu.c, [populate_metadata])

    A device is called [<AFU name>.<physical function>.<AFU index>]; the part
    behind the first dot is read with
    [sscanf(s, "%x:%hhu:%hhu.%hhu.%hhu", ...)].  This file models the
    conversions of [sscanf] the library uses. *)

From S2P Require Import Prelude Format.
Open Scope Z_scope.

(** [strchr(s, c)]: the characters before the first [c] and those from it on. *)
Fixpoint strchr (c : ascii) (s : string) : option (string * string) :=
  match s with
  | EmptyString => None
  | String d s' =>
      if Ascii.eqb d c then Some (EmptyString, s)
      else match strchr c s' with
           | Some (before, found) => Some (String d before, found)
           | None => None
           end
  end.

(** ** Conversions of [sscanf] *)

Definition is_space (c : ascii) : bool :=
  let n := nat_of_ascii c in ((9 <=? n) && (n <=? 13) || (n =? 32))%nat.

Fixpoint skip_space (s : string) : string :=
  match s with
  | String c s' => if is_space c then skip_space s' else s
  | EmptyString => s
  end.

(** The value of a digit of the base 10 or 16. *)
Definition digit_val (base : Z) (c : ascii) : option Z :=
  let n := Z.of_nat (nat_of_ascii c) in
  if (48 <=? n) && (n <=? 57) then Some (n - 48)
  else if (base =? 16) && (97 <=? n) && (n <=? 102) then Some (n - 87)
  else if (base =? 16) && (65 <=? n) && (n <=? 70) then Some (n - 55)
  else None.

Definition is_digit (base : Z) (c : ascii) : bool :=
  match digit_val base c with Some _ => true | None => false end.

Fixpoint scan_digits (base : Z) (s : string) (acc : Z) : Z * string :=
  match s with
  | String c s' =>
      match digit_val base c with
      | Some d => scan_digits base s' (base * acc + d)
      | None => (acc, s)
      end
  | EmptyString => (acc, s)
  end.

Definition scan_sign (s : string) : bool * string :=
  match s with
  | String c s' =>
      if Ascii.eqb c "-" then (true, s') else if Ascii.eqb c "+" then (false, s') else (false, s)
  | EmptyString => (false, s)
  end.

(** The prefix [0x] of a hexadecimal number. *)
Definition scan_prefix (base : Z) (s : string) : string :=
  match s with
  | String c (String x s') =>
      if (base =? 16) && Ascii.eqb c "0" && (Ascii.eqb x "x" || Ascii.eqb x "X") then s' else s
  | _ => s
  end.

(** [strtoul]: overflow saturates, a minus sign negates modulo 2^64. *)
Definition strtoul_value (neg : bool) (v : Z) : Z :=
  if 2 ^ 64 <=? v then 2 ^ 64 - 1 else if neg then u64 (- v) else v.

Inductive scan_dir : Set :=
| ScanNum (base width : Z)   (* %x: 16 32; %hhu: 10 8 *)
| ScanLit (c : ascii).

Definition scan_num (base width : Z) (s : string) : option (Z * string) :=
  let '(neg, s) := scan_sign (skip_space s) in
  match scan_prefix base s with
  | String c _ as s =>
      if is_digit base c then
        let '(v, s) := scan_digits base s 0 in Some (uwrap width (strtoul_value neg v), s)
      else None
  | EmptyString => None
  end.

(** The values stored, up to the first directive that does not match. *)
Fixpoint scan_all (dirs : list scan_dir) (s : string) : list Z :=
  match dirs with
  | [] => []
  | ScanLit c :: dirs =>
      match s with
      | String d s' => if Ascii.eqb d c then scan_all dirs s' else []
      | EmptyString => []
      end
  | ScanNum base width :: dirs =>
      match scan_num base width s with
      | Some (v, s') => v :: scan_all dirs s'
      | None => []
      end
  end.

(** [sscanf] returns EOF when the input ends before the first conversion. *)
Definition sscanf (dirs : list scan_dir) (s : string) : Z * list Z :=
  if (skip_space s =? "")%string then (-1, [])
  else let vs := scan_all dirs s in (Z.of_nat (length vs), vs).

(** ["%x:%hhu:%hhu.%hhu.%hhu"] *)
Definition physical_function_format : list scan_dir :=
  [ScanNum 16 32; ScanLit ":"; ScanNum 10 8; ScanLit ":"; ScanNum 10 8; ScanLit "."; ScanNum 10 8;
   ScanLit "."; ScanNum 10 8].

(** ** Strings of digits *)

Fixpoint all_digits (base : Z) (s : string) : bool :=
  match s with
  | EmptyString => true
  | String c s' => is_digit base c && all_digits base s'
  end.

(** The number a string of digits stands for, read after [acc]. *)
Fixpoint digits_value (base : Z) (acc : Z) (s : string) : Z :=
  match s with
  | EmptyString => acc
  | String c s' => digits_value base (base * acc + default 0 (digit_val base c)) s'
  end.

(** A number as [sscanf] reads it: digits, at least one. *)
Definition numeral (base : Z) (s : string) : Prop := s ≠ EmptyString ∧ all_digits base s = true.

(** The text behind a numeral ends it. *)
Definition ends_number (base : Z) (s : string) : Prop :=
  match s with EmptyString => True | String c _ => is_digit base c = false end.

Lemma scan_digits_numeral base s rest acc :
  all_digits base s = true → ends_number base rest →
  scan_digits base (s +:+ rest) acc = (digits_value base acc s, rest).
Proof.
  revert acc. induction s as [|c s IH]; intros acc Hd Hr; simpl.
  - destruct rest as [|c rest]; [done|]. simpl in *. unfold is_digit in Hr.
    by destruct (digit_val base c).
  - simpl in Hd. apply andb_true_iff in Hd as [Hc Hd]. unfold is_digit in Hc.
    destruct (digit_val base c); [|done]. by apply IH.
Qed.

(** A digit is not white space, a sign or the [x] of a prefix. *)
Lemma digit_plain base c :
  is_digit base c = true →
  is_space c = false ∧ Ascii.eqb c "-" = false ∧ Ascii.eqb c "+" = false ∧
  Ascii.eqb c "x" = false ∧ Ascii.eqb c "X" = false.
Proof.
  intros Hc. assert (is_digit 16 c = true) as H16.
  { revert Hc. unfold is_digit, digit_val. destruct ((48 <=? _) && _); [done|].
    by destruct (base =? 16). }
  clear Hc. revert H16. destruct c as [[] [] [] [] [] [] [] []]; vm_compute; by intros.
Qed.

(** A numeral is read whole, whatever its leading zeros. *)
Lemma scan_num_numeral base width s rest :
  numeral base s → ends_number base rest →
  (match rest with String x _ => Ascii.eqb x "x" || Ascii.eqb x "X" = false | _ => True end) →
  digits_value base 0 s < 2 ^ 64 →
  scan_num base width (s +:+ rest) = Some (uwrap width (digits_value base 0 s), rest).
Proof.
  intros [Hne Hd] Hr Hx Hv. destruct s as [|c s]; [done|].
  pose proof Hd as [Hc Hds]%andb_true_iff.
  destruct (digit_plain _ _ Hc) as (Hsp & Hm & Hp & _). unfold scan_num.
  assert (scan_sign (skip_space (String c s +:+ rest)) = (false, String c (s +:+ rest))) as ->.
  { simpl. rewrite Hsp. simpl. by rewrite Hm, Hp. }
  assert (scan_prefix base (String c (s +:+ rest)) = String c (s +:+ rest)) as ->.
  { destruct s as [|x s].
    - destruct rest as [|x rest]; [done|]. change ("" +:+ String x rest) with (String x rest). cbn [scan_prefix].
      by rewrite Hx, andb_false_r.
    - apply andb_true_iff in Hds as [Hxd _]. change (String x s +:+ rest) with (String x (s +:+ rest)).
      cbn [scan_prefix]. destruct (digit_plain _ _ Hxd) as (_ & _ & _ & -> & ->). by rewrite andb_false_r. }
  cbv beta iota. rewrite Hc. change (String c (s +:+ rest)) with (String c s +:+ rest).
  rewrite scan_digits_numeral by done. unfold strtoul_value.
  destruct (Z.leb_spec (2 ^ 64) (digits_value base 0 (String c s))); [lia|done].
Qed.

(** ** Numbers the library or the kernel prints are read back *)

Lemma digits_value_app base acc s t :
  digits_value base acc (s +:+ t) = digits_value base (digits_value base acc s) t.
Proof. revert acc. induction s as [|c s IH]; intros acc; [done|]. simpl. apply IH. Qed.

Lemma digit_val_char base d :
  base = 10 ∨ base = 16 → 0 <= d < base → digit_val base (digit_char d) = Some d.
Proof.
  intros Hb Hd. unfold digit_val, digit_char.
  rewrite nat_ascii_embedding by (destruct (d <? 10); lia).
  destruct (Z.ltb_spec d 10).
  - rewrite Z2Nat.id by lia.
    destruct (Z.leb_spec 48 (48 + d)), (Z.leb_spec (48 + d) 57); simpl; try lia. f_equal. lia.
  - destruct Hb as [->| ->]; [lia|]. rewrite Z2Nat.id by lia.
    destruct (Z.leb_spec 48 (87 + d)), (Z.leb_spec (87 + d) 57), (Z.leb_spec 97 (87 + d)),
      (Z.leb_spec (87 + d) 102); simpl; try lia. f_equal. lia.
Qed.

Lemma digits_read_back base fuel n acc :
  base = 10 ∨ base = 16 → 0 <= n < base ^ Z.of_nat fuel → (0 < fuel)%nat →
  ∃ k s, digits fuel base n acc = s +:+ acc ∧ numeral base s ∧
    ∀ v, digits_value base v s = v * base ^ Z.of_nat k + n.
Proof.
  intros Hb. revert n acc. induction fuel as [|fuel IH]; intros n acc Hn Hf; [lia|].
  assert (0 < base) as Hpos by lia.
  assert (digit_val base (digit_char (n mod base)) = Some (n mod base)) as Hdv.
  { apply digit_val_char; [done|]. by apply Z.mod_pos_bound. }
  assert (is_digit base (digit_char (n mod base)) = true) as Hid by (unfold is_digit; by rewrite Hdv).
  simpl. destruct (Z.eqb_spec (n / base) 0) as [E|E].
  - exists 1%nat, (String (digit_char (n mod base)) ""). split_and!; [done| |].
    + split; [done|]. simpl. by rewrite Hid.
    + intros v. simpl. rewrite Hdv. simpl. pose proof (Z.div_mod n base). lia.
  - destruct (IH (n / base) (String (digit_char (n mod base)) acc)) as (k & s & Hs & [Hne Hnd] & Hv).
    { rewrite Nat2Z.inj_succ, Z.pow_succ_r in Hn by lia. split; [apply Z.div_pos; lia|].
      apply Z.div_lt_upper_bound; lia. }
    { destruct fuel; [|lia]. simpl in Hn. rewrite Z.pow_1_r in Hn.
      rewrite Z.div_small in E by lia. done. }
    exists (S k), (s +:+ String (digit_char (n mod base)) ""). split_and!.
    + rewrite Hs, str_app_assoc. done.
    + split; [by destruct s|]. clear -Hnd Hid. induction s as [|c s IH]; simpl in *.
      { by rewrite Hid. } apply andb_true_iff in Hnd as [-> Hnd]. by rewrite IH.
    + intros v. rewrite digits_value_app, Hv. simpl digits_value. rewrite Hdv. simpl default.
      rewrite Nat2Z.inj_succ, Z.pow_succ_r by lia. pose proof (Z.div_mod n base). lia.
Qed.

(** What [print_nat] prints is a numeral for the number. *)
Lemma print_nat_numeral base n :
  base = 10 ∨ base = 16 → 0 <= n < 2 ^ 64 →
  numeral base (print_nat base n) ∧ digits_value base 0 (print_nat base n) = n.
Proof.
  intros Hb Hn. unfold print_nat.
  destruct (digits_read_back base 64 n "" Hb) as (k & s & -> & Hs & Hv); [|lia|].
  { split; [lia|]. eapply Z.lt_le_trans; [apply Hn|]. apply Z.pow_le_mono_l. lia. }
  rewrite str_app_nil_r.
  split; [done|]. rewrite Hv. lia.
Qed.

(** ** The physical function *)

(** The text of a physical function and an AFU index, from numerals. *)
Definition physical_function (domain bus device function index : string) : string :=
  domain +:+ ":" +:+ bus +:+ ":" +:+ device +:+ "." +:+ function +:+ "." +:+ index.

Lemma scan_numeral_then base width s c rest dirs :
  (base = 10 ∨ base = 16) → numeral base s → digits_value base 0 s < 2 ^ 64 →
  c = ":"%char ∨ c = "."%char →
  scan_all (ScanNum base width :: ScanLit c :: dirs) (s +:+ (String c "" +:+ rest)) =
  uwrap width (digits_value base 0 s) :: scan_all dirs rest.
Proof.
  intros Hb Hs Hv Hc. change (String c "" +:+ rest) with (String c rest). cbn [scan_all]. rewrite scan_num_numeral; [|done| |by destruct Hc as [->| ->]|done].
  - rewrite Ascii.eqb_refl. done.
  - destruct Hb as [->| ->], Hc as [->| ->]; done.
Qed.

Lemma scan_physical_function domain bus device function index :
  numeral 16 domain → numeral 10 bus → numeral 10 device → numeral 10 function → numeral 10 index →
  digits_value 16 0 domain < 2 ^ 64 → digits_value 10 0 bus < 2 ^ 64 →
  digits_value 10 0 device < 2 ^ 64 → digits_value 10 0 function < 2 ^ 64 →
  digits_value 10 0 index < 2 ^ 64 →
  sscanf physical_function_format (physical_function domain bus device function index) =
  (5, [u32 (digits_value 16 0 domain); u8 (digits_value 10 0 bus); u8 (digits_value 10 0 device);
       u8 (digits_value 10 0 function); u8 (digits_value 10 0 index)]).
Proof.
  intros H1 H2 H3 H4 H5 V1 V2 V3 V4 V5. unfold sscanf.
  assert ((skip_space (physical_function domain bus device function index) =? "")%string = false) as ->.
  { destruct H1 as [Hne Hd]. destruct domain as [|c d]; [done|]. simpl in Hd.
    apply andb_true_iff in Hd as [Hc _]. destruct (digit_plain _ _ Hc) as [Hs _].
    unfold physical_function. simpl. by rewrite Hs. }
  unfold physical_function, physical_function_format.
  rewrite scan_numeral_then by eauto. rewrite scan_numeral_then by eauto.
  rewrite scan_numeral_then by eauto. rewrite scan_numeral_then by eauto.
  cbn [scan_all].
  pose proof (scan_num_numeral 10 8 index "" H5 I I V5) as E. rewrite str_app_nil_r in E.
  by rewrite E.
Qed.

(** A bus number that is not all decimal digits stops the scan at the second
    component. *)
Lemma scan_bus_not_decimal domain d c rest :
  numeral 16 domain → numeral 10 d → is_digit 10 c = false → Ascii.eqb c ":" = false →
  Ascii.eqb c "x" || Ascii.eqb c "X" = false →
  digits_value 16 0 domain < 2 ^ 64 → digits_value 10 0 d < 2 ^ 64 →
  (sscanf physical_function_format (domain +:+ ":" +:+ d +:+ String c rest)).1 = 2.
Proof.
  intros H1 H2 Hc Hcc Hx V1 V2. unfold sscanf.
  assert ((skip_space (domain +:+ ":" +:+ d +:+ String c rest) =? "")%string = false) as ->.
  { destruct H1 as [Hne Hd]. destruct domain as [|c' d']; [done|]. simpl in Hd.
    apply andb_true_iff in Hd as [Hc' _]. destruct (digit_plain _ _ Hc') as [Hs _].
    simpl. by rewrite Hs. }
  unfold physical_function_format.
  rewrite scan_numeral_then by eauto. cbn [scan_all].
  rewrite scan_num_numeral by done. rewrite Hcc. done.
Qed.

(** ** The name of a device *)

Fixpoint no_char (c : ascii) (s : string) : bool :=
  match s with EmptyString => true | String d s' => negb (Ascii.eqb d c) && no_char c s' end.

Lemma strchr_app c s rest :
  no_char c s = true → strchr c (s +:+ String c rest) = Some (s, String c rest).
Proof.
  induction s as [|d s IH]; simpl; [by rewrite Ascii.eqb_refl|].
  intros [Hd Hs]%andb_true_iff. apply negb_true_iff in Hd. rewrite Hd. by rewrite IH.
Qed.

Lemma strchr_before c s before found :
  strchr c s = Some (before, found) → s = before +:+ found ∧ no_char c before = true.
Proof.
  revert before. induction s as [|d s IH]; intros before; simpl; [done|].
  destruct (Ascii.eqb d c) eqn:E; [by intros [= <- <-]|].
  destruct (strchr c s) as [[b f]|]; [|done]. intros [= <- <-].
  destruct (IH b eq_refl) as [-> Hb]. simpl. by rewrite E.
Qed.
