(* ===== verification/Afu.v ===== *)
(** * Afu: finding, opening, attaching and closing an AFU (src/afu.c) *)

From S2P Require Import Prelude Format Types World Logic Messages Buffer Mmio Irq Names.
Open Scope Z_scope.

Definition OCXL_INVALID_AFU : ptr := 0.

(** [major()] and [minor()] of <sys/sysmacros.h> *)
Definition major (dev : Z) : Z :=
  Z.lor (Z.land (Z.shiftr dev 8) 0xfff) (Z.land (Z.shiftr dev 32) (Z.lxor UINT32_MAX 0xfff)).
Definition minor (dev : Z) : Z :=
  Z.lor (Z.land dev 0xff) (Z.land (Z.shiftr dev 12) (Z.lxor UINT32_MAX 0xff)).

Section afu.
Context {K : Type} `{Platform K} `{Abi}.
Implicit Types (w : world K).

(** ** Getters *)

Definition ocxl_afu_get_pasid (afu : ptr) : M K Z := a ← get_afu afu; mret (afu_pasid a).

Definition ocxl_afu_get_identifier (afu : ptr) : M K (string * option Z) :=
  a ← get_afu afu; mret (afu_name a, afu_index a).

Definition ocxl_afu_get_sysfs_path (afu : ptr) : M K ptr :=
  a ← get_afu afu; mret (afu_sysfs_path a).

Definition ocxl_afu_get_version (afu : ptr) : M K (Z * Z) :=
  a ← get_afu afu; mret (afu_version_major a, afu_version_minor a).

(** ** Messages of an AFU *)

Definition ocxl_afu_enable_messages (afu : ptr) (sources : Z) : M K unit :=
  set_afu afu (λ a, a <| afu_verbose_errors := c_bool (Z.land sources OCXL_ERRORS) |>
                      <| afu_tracing := c_bool (Z.land sources OCXL_TRACING) |>).

Definition ocxl_afu_set_error_message_handler (afu : ptr) (h : handler) : M K unit :=
  set_afu afu (λ a, a <| afu_error_handler := h |>).

(** ** Allocation *)

(** An AFU structure as [afu_init] leaves it; what it does not write (the AFU
    index, the owner of the two areas) is indeterminate. *)
Definition initial_afu (page_size : Z) (verbose trace : bool) : ocxl_afu := {|
  afu_index := None;
  afu_name := "";
  afu_device_path := NULL;
  afu_sysfs_path := NULL;
  afu_version_major := 0;
  afu_version_minor := 0;
  afu_fd := -1;
  afu_fd_info := mk_fd_source EPOLL_SOURCE_OCXL None;
  afu_epoll_fd := -1;
  afu_epoll_events := NULL;
  afu_epoll_event_count := 0;
  afu_global_mmio_fd := -1;
  afu_global_mmio := mk_mmio_area NULL 0 OCXL_GLOBAL_MMIO None;
  afu_per_pasid_mmio := mk_mmio_area NULL 0 OCXL_PER_PASID_MMIO None;
  afu_page_size := page_size;
  afu_irqs := NULL;
  afu_irq_count := 0;
  afu_irq_max_count := 0;
  afu_mmios := NULL;
  afu_mmio_count := 0;
  afu_mmio_max_count := 0;
  afu_pasid := UINT32_MAX;
  afu_verbose_errors := verbose;
  afu_error_handler := DefaultHandler;
  afu_tracing := trace;
  afu_attached := false;
  afu_ppc64_amr := 0
|}.

Definition afu_init (afu : ptr) : M K unit :=
  page_size ← call SPagesize;
  g ← get_globals;
  set_afu afu (λ _, initial_afu page_size (g_verbose_errors_all g) (g_tracing_all g)).

(** The fresh structure has no meaning before [afu_init] has written it. *)
Definition afu_alloc : M K (ocxl_err * ptr) :=
  afu ← malloc sizeof_ocxl_afu (HAfu (initial_afu 0 false false));
  if afu =? NULL then
    errmsg NULL OCXL_NO_MEM "Could not allocate %d bytes for AFU" [AInt sizeof_ocxl_afu] ;;
    mret (OCXL_NO_MEM, NULL)
  else
    afu_init afu ;;
    mret (OCXL_OK, afu).

(** ** Identification *)

Definition device_matches (dir dev_name : string) (dev : Z) : M K bool :=
  st ← call (SFstatat dir dev_name);
  mret (match st with
        | None => false
        | Some (is_chr, st_rdev) => (is_chr : bool) && (dev =? st_rdev)
        end).

(** The loop over the entries of the device directory. *)
Fixpoint find_device (dir : string) (dev : Z) (entries : list string) : M K (option string) :=
  match entries with
  | [] => mret None
  | name :: entries =>
      matches ← device_matches dir name dev;
      if (matches : bool) then mret (Some name) else find_device dir dev entries
  end.

(** [malloc] and [snprintf(path, len, "%s/%s", base, name)] *)
Definition path_len (base name : string) : Z :=
  Z.of_nat (String.length base) + 1 + Z.of_nat (String.length name) + 1.

Definition populate_metadata (dev : Z) (afu : ptr) : M K bool :=
  g ← get_globals;
  dir ← call (SOpendir (DEVICE_PATH g));
  match dir with
  | None => mret false
  | Some entries =>
      found ← find_device (DEVICE_PATH g) dev entries;
      call (SClosedir (DEVICE_PATH g)) ;;
      match found with
      | None => mret false
      | Some d_name =>
          match strchr "." d_name with
          | None =>
              errmsg NULL OCXL_INTERNAL_ERROR
                "Could not extract physical function from device name '%s', missing initial '.'"
                [AStr d_name] ;;
              mret false
          | Some (name, rest) =>
              let afu_name_len := Z.of_nat (String.length name) in
              if AFU_NAME_MAX <? afu_name_len then
                errmsg NULL OCXL_INTERNAL_ERROR "AFU name '%-.*s' exceeds maximum length of %d"
                  [AInt afu_name_len; AStr d_name] ;;
                mret false
              else
              let physical_function := String.substring 1 (String.length rest) rest in
              let '(found, values) := sscanf physical_function_format physical_function in
              if negb (found =? 5) then
                errmsg NULL OCXL_INTERNAL_ERROR
                  "Could not parse physical function '%s', only got %d components"
                  [AStr physical_function; AInt found] ;;
                mret false
              else
              set_afu afu (λ a, a <| afu_index := values !! 4%nat |> <| afu_name := name |>) ;;
              device_path ← malloc (path_len (DEVICE_PATH g) d_name)
                                   (HStr (DEVICE_PATH g +:+ "/" +:+ d_name));
              set_afu afu (λ a, a <| afu_device_path := device_path |>) ;;
              if device_path =? NULL then
                errmsg NULL OCXL_INTERNAL_ERROR "Could not allocate %llu bytes for device path"
                  [AInt (path_len (DEVICE_PATH g) d_name)] ;;
                mret false
              else
              sysfs_path ← malloc (path_len (SYS_PATH g) d_name)
                                  (HStr (SYS_PATH g +:+ "/" +:+ d_name));
              set_afu afu (λ a, a <| afu_sysfs_path := sysfs_path |>) ;;
              if sysfs_path =? NULL then
                errmsg NULL OCXL_INTERNAL_ERROR "Could not allocate %llu bytes for sysfs path"
                  [AInt (path_len (SYS_PATH g) d_name)] ;;
                mret false
              else mret true
          end
      end
  end.

(** [TRACE_OPEN] of a string of the AFU: the string is only read if traced. *)
Definition trace_str (line : Z) (fmt : string) (s : ptr) : M K unit :=
  g ← get_globals;
  when (g_tracing g)
    (s ← get_str s; trace_message "Trace" "src/afu.c" line "trace_metadata" fmt [AStr s]).

Definition trace_index (a : ocxl_afu) : M K unit :=
  g ← get_globals;
  when (g_tracing g)
    (match afu_index a with
     | Some n => trace_message "Trace" "src/afu.c" 389 "trace_metadata" "AFU Index=%u" [AInt n]
     | None => undefined
     end).

Definition quoted (label : string) : string := label +:+ "=" +:+ String "034" "%s" +:+ String "034" "".

Definition trace_metadata (afu : ptr) : M K unit :=
  a ← get_afu afu;
  let TRACE_OPEN line fmt args := TRACE_OPEN "src/afu.c" line "trace_metadata" fmt args in
  trace_str 386 (quoted "device path") (afu_device_path a) ;;
  trace_str 387 (quoted "sysfs path") (afu_sysfs_path a) ;;
  TRACE_OPEN 388 (quoted "AFU Name") [AStr (afu_name a)] ;;
  trace_index a ;;
  TRACE_OPEN 390 "AFU Version=%u:%u" [AInt (afu_version_major a); AInt (afu_version_minor a)] ;;
  TRACE_OPEN 391 "Global MMIO size=%llu" [AInt (area_length (afu_global_mmio a))] ;;
  TRACE_OPEN 392 "Per PASID MMIO size=%llu" [AInt (area_length (afu_per_pasid_mmio a))] ;;
  TRACE_OPEN 393 "Page Size=%llu" [AInt (afu_page_size a)] ;;
  TRACE_OPEN 394 "PASID=%lu" [AInt (afu_pasid a)].

(** ** Opening *)

(** [errmsg(NULL, OCXL_NO_DEV, ..., errno, strerror(errno)); return OCXL_NO_DEV;] *)
Definition no_dev (fmt : string) (args : list arg) : M K ocxl_err :=
  e ← errno_args;
  errmsg NULL OCXL_NO_DEV fmt (args ++ e) ;;
  mret OCXL_NO_DEV.

Definition afu_open (afu : ptr) : M K ocxl_err :=
  a ← get_afu afu;
  if negb (afu_fd a =? -1) then mret OCXL_ALREADY_DONE else
  device_path ← get_str (afu_device_path a);
  fd ← call (SOpen device_path [O_RDWR; O_CLOEXEC; O_NONBLOCK]);
  if fd <? 0 then
    errno ← call SErrno;
    if errno =? ENOSPC then
      errmsg NULL OCXL_NO_MORE_CONTEXTS
        "Could not open AFU device '%s', the maximum number of contexts has been reached: Error %d: %s"
        [AStr device_path; AInt errno; AStr (strerror errno)] ;;
      mret OCXL_NO_MORE_CONTEXTS
    else
      errmsg NULL OCXL_NO_DEV "Could not open AFU device '%s': Error %d: %s"
        [AStr device_path; AInt errno; AStr (strerror errno)] ;;
      mret OCXL_NO_DEV
  else
  set_afu afu (λ a, a <| afu_fd := fd |>) ;;
  rc ← global_mmio_open afu;
  if negb (is_ok rc) then
    errmsg NULL rc "Could not open global MMIO descriptor" [] ;; mret rc
  else
  epoll_fd ← call SEpollCreate;
  if epoll_fd <? 0 then no_dev "Could not create epoll descriptor. Error %d: %s" [] else
  set_afu afu (λ a, a <| afu_epoll_fd := epoll_fd |>) ;;
  rc ← call (SEpollCtlAdd epoll_fd fd (AfuFdInfo afu));
  if rc =? -1 then
    no_dev "Could not add device fd %d to epoll fd %d: %d: '%s'" [AInt fd; AInt epoll_fd]
  else
  '(rc, metadata) ← call (SIoctlGetMetadata fd);
  if c_bool rc then no_dev "OCXL_IOCTL_GET_METADATA failed %d:%s" [] else
  set_afu afu (λ a,
    a <| afu_version_major := md_version_major metadata |>
      <| afu_version_minor := md_version_minor metadata |>
      <| afu_per_pasid_mmio := (afu_per_pasid_mmio a) <| area_length := md_pp_mmio_size metadata |> |>
      <| afu_global_mmio := (afu_global_mmio a) <| area_length := md_global_mmio_size metadata |> |>
      <| afu_pasid := md_pasid metadata |>) ;;
  trace_metadata afu ;;
  mret OCXL_OK.

Definition get_afu_by_path (path : string) : M K (ocxl_err * ptr) :=
  '(rc, afu_h) ← afu_alloc;
  if negb (is_ok rc) then mret (rc, OCXL_INVALID_AFU) else
  st ← call (SStat path);
  match st with
  | None =>
      e ← errno_args;
      errmsg NULL OCXL_NO_DEV "Could not start AFU device '%s': Error %d: %s" ([AStr path] ++ e) ;;
      free afu_h ;;
      mret (OCXL_NO_DEV, OCXL_INVALID_AFU)
  | Some st_rdev =>
      ok ← populate_metadata st_rdev afu_h;
      if negb (ok : bool) then
        g ← get_globals;
        errmsg NULL OCXL_NO_DEV
          "Could not find OCXL device for '%s', major=%d, minor=%d, device expected in '%s'"
          [AStr path; AInt (major st_rdev); AInt (minor st_rdev); AStr (DEVICE_PATH g)] ;;
        free afu_h ;;
        mret (OCXL_NO_DEV, OCXL_INVALID_AFU)
      else mret (OCXL_OK, afu_h)
  end.

(** ** Closing *)

(** The loop that unmaps the areas from [mmio_idx] on. *)
Fixpoint unmap_all (n : nat) (afu : ptr) (mmio_idx : Z) : M K unit :=
  match n with
  | O => mret tt
  | S n =>
      a ← get_afu afu;
      ocxl_mmio_unmap (mk_mmio_h (afu_mmios a) mmio_idx) ;;
      unmap_all n afu (mmio_idx + 1)
  end.

(** The loop that deallocates the IRQs from [irq] on. *)
Fixpoint dealloc_all (n : nat) (afu : ptr) (irq : Z) : M K unit :=
  match n with
  | O => mret tt
  | S n =>
      a ← get_afu afu;
      irq_dealloc afu (mk_irq_ptr (afu_irqs a) irq) ;;
      dealloc_all n afu (irq + 1)
  end.

Definition ocxl_afu_close (afu : ptr) : M K ocxl_err :=
  a ← get_afu afu;
  if afu_fd a <? 0 then mret OCXL_ALREADY_DONE else
  unmap_all (Z.to_nat (afu_mmio_count a)) afu 0 ;;
  a ← get_afu afu;
  when (negb (afu_global_mmio_fd a =? -1))
    (call (SClose (afu_global_mmio_fd a)) ;;
     set_afu afu (λ a, a <| afu_global_mmio_fd := -1 |>)) ;;
  a ← get_afu afu;
  when (negb (afu_irqs a =? NULL))
    (dealloc_all (Z.to_nat (afu_irq_count a)) afu 0 ;;
     free (afu_irqs a) ;;
     set_afu afu (λ a, a <| afu_irqs := NULL |> <| afu_irq_count := 0 |>
                         <| afu_irq_max_count := 0 |>)) ;;
  a ← get_afu afu;
  when (negb (afu_epoll_events a =? NULL))
    (free (afu_epoll_events a) ;;
     set_afu afu (λ a, a <| afu_epoll_event_count := 0 |>)) ;;
  a ← get_afu afu;
  call (SClose (afu_epoll_fd a)) ;;
  set_afu afu (λ a, a <| afu_epoll_fd := -1 |>) ;;
  a ← get_afu afu;
  call (SClose (afu_fd a)) ;;
  set_afu afu (λ a, a <| afu_fd := -1 |> <| afu_attached := false |>) ;;
  a ← get_afu afu;
  when (negb (afu_device_path a =? NULL))
    (free (afu_device_path a) ;;
     set_afu afu (λ a, a <| afu_device_path := NULL |>)) ;;
  a ← get_afu afu;
  when (negb (afu_sysfs_path a =? NULL))
    (free (afu_sysfs_path a) ;;
     set_afu afu (λ a, a <| afu_sysfs_path := NULL |>)) ;;
  free afu ;;
  mret OCXL_OK.

(** ** Opening by path and by name *)

Definition ocxl_afu_open_from_dev (path : string) : M K (ocxl_err * ptr) :=
  libocxl_init ;;
  '(rc, afu) ← get_afu_by_path path;
  if negb (is_ok rc) then mret (rc, OCXL_INVALID_AFU) else
  rc ← afu_open afu;
  if negb (is_ok rc) then
    ocxl_afu_close afu ;;
    mret (rc, OCXL_INVALID_AFU)
  else mret (OCXL_OK, afu).

(** The pattern of [ocxl_afu_open_specific], cut to its buffer. *)
Definition device_pattern (dir name : string) (physical_function : option string) (afu_index : Z) :
    string :=
  let prefix := dir +:+ "/" +:+ name +:+ "." +:+ default "*" physical_function +:+ "." in
  truncate (Z.to_nat PATH_MAX)
    (if afu_index =? -1 then prefix +:+ "*" else prefix +:+ print_int afu_index).

(** The loop over the matching devices, with [ret] the result so far. *)
Fixpoint open_first (paths : list string) (ret : ocxl_err) : M K (ocxl_err * ptr) :=
  match paths with
  | [] => mret (ret, OCXL_INVALID_AFU)
  | dev_path :: paths =>
      '(ret, afu) ← ocxl_afu_open_from_dev dev_path;
      match ret with
      | OCXL_NO_MORE_CONTEXTS => open_first paths ret
      | _ => mret (ret, afu)
      end
  end.

Definition ocxl_afu_open_specific (name : string) (physical_function : option string)
    (afu_index : Z) : M K (ocxl_err * ptr) :=
  libocxl_init ;;
  g ← get_globals;
  let pattern := device_pattern (DEVICE_PATH g) name physical_function afu_index in
  '(rc, gl_pathv) ← call (SGlob pattern);
  if rc =? 0 then open_first gl_pathv OCXL_INTERNAL_ERROR
  else if rc =? GLOB_NOSPACE then
    errmsg NULL OCXL_NO_MEM "No memory for glob while listing AFUs" [] ;;
    mret (OCXL_NO_MEM, OCXL_INVALID_AFU)
  else if rc =? GLOB_NOMATCH then
    errmsg NULL OCXL_NO_DEV "No OCXL devices found in '%s' with pattern '%s'"
      [AStr (DEVICE_PATH g); AStr pattern] ;;
    mret (OCXL_NO_DEV, OCXL_INVALID_AFU)
  else
    errmsg NULL OCXL_INTERNAL_ERROR "Glob error %d while listing AFUs" [AInt rc] ;;
    mret (OCXL_INTERNAL_ERROR, OCXL_INVALID_AFU).

Definition ocxl_afu_open (name : string) : M K (ocxl_err * ptr) :=
  ocxl_afu_open_specific name None (-1).

(** ** Attaching *)

Definition ocxl_afu_attach (afu : ptr) (flags : Z) : M K ocxl_err :=
  a ← get_afu afu;
  if afu_fd a =? -1 then
    errmsg afu OCXL_NO_CONTEXT "Attempted to attach a closed AFU context" [] ;;
    mret OCXL_NO_CONTEXT
  else
    rc ← call (SIoctlAttach (afu_fd a) (afu_ppc64_amr a));
    if c_bool rc then
      e ← errno_args;
      errmsg afu OCXL_INTERNAL_ERROR "OCXL_IOCTL_ATTACH failed %d:%s" e ;;
      mret OCXL_INTERNAL_ERROR
    else
      set_afu afu (λ a, a <| afu_attached := true |>) ;;
      mret OCXL_OK.

Definition ocxl_afu_set_ppc64_amr (afu : ptr) (amr : Z) : M K ocxl_err :=
  set_afu afu (λ a, a <| afu_ppc64_amr := amr |>) ;;
  mret OCXL_OK.

End afu.
