(* ===== verification/AfuInv.v ===== *)
(** * AfuInv: the invariant of an AFU handle

    Everything the library keeps for one AFU: its record, its two tables, its
    two paths and its epoll buffer are separate live blocks; and what it
    holds in the kernel ([afu_resources]). *)

From S2P Require Import Prelude Format Types World Logic Messages Buffer Ledger Mmio MmioFacts.
From S2P Require Import MmioAccess Irq IrqFacts IrqTable Event Names Afu.
Open Scope Z_scope.

(** ** What an AFU holds *)

Definition area_resources (x : ocxl_mmio_area) : list resource :=
  if area_start x =? NULL then [] else [RMap (area_start x) (area_length x)].

Definition fd_resource (fd : Z) : list resource := if 0 <=? fd then [RFd fd] else [].

Definition areas_resources (areas : list ocxl_mmio_area) : list resource :=
  mjoin (area_resources <$> areas).

Definition irqs_resources (page_size fd : Z) (irqs : list ocxl_irq) : list resource :=
  mjoin (irq_resources page_size fd <$> irqs).

Definition afu_resources (a : ocxl_afu) (areas : list ocxl_mmio_area) (irqs : list ocxl_irq) :
    list resource :=
  areas_resources areas ++ irqs_resources (afu_page_size a) (afu_fd a) irqs ++
  fd_resource (afu_global_mmio_fd a) ++ fd_resource (afu_epoll_fd a) ++ fd_resource (afu_fd a).

Lemma close_balance fd rc r : delta (Ev (SClose fd) rc) r = - held (fd_resource fd) r.
Proof. unfold delta, fd_resource; simpl. destruct (0 <=? fd); simpl; rewrite ?one_if_None; lia. Qed.

Lemma unmap_balance x rc r :
  area_start x ≠ NULL → area_start x ≠ MAP_FAILED →
  delta (Ev (SMunmap (area_start x) (area_length x)) rc) r = - held (area_resources x) r.
Proof.
  intros H1 H2. unfold delta, area_resources; simpl.
  rewrite (proj2 (Z.eqb_neq _ _) H1), (proj2 (Z.eqb_neq _ _) H2). simpl. rewrite one_if_None. lia.
Qed.

Section inv.
Context {K : Type} `{Platform K} `{Abi}.
Implicit Types (w : world K).

Definition path_at w (p : ptr) : Prop := p = NULL ∨ ∃ s, w_heap w !! p = Some (HStr s).

Definition epoll_at w (p : ptr) (n : Z) : Prop :=
  (p = NULL ∧ n = 0) ∨ (p ≠ NULL ∧ 0 <= n ∧ w_heap w !! p = Some (HEpollEvents n)).

Record afu_inv w (p : ptr) (a : ocxl_afu) (areas : list ocxl_mmio_area) (irqs : list ocxl_irq) :
    Prop := {
  ai_mmio : mmio_inv w p a areas;
  ai_irq : irq_table w a irqs;
  ai_sysfs : path_at w (afu_sysfs_path a);
  ai_paths : afu_device_path a = NULL ∨ afu_device_path a ≠ afu_sysfs_path a;
  ai_epoll : epoll_at w (afu_epoll_events a) (afu_epoll_event_count a);
  ai_mapped : Forall (λ x, area_start x ≠ MAP_FAILED) areas;
  ai_source : source_type (afu_fd_info a) = EPOLL_SOURCE_OCXL
}.

Lemma afu_inv_lookup w p a areas irqs : afu_inv w p a areas irqs → w_heap w !! p = Some (HAfu a).
Proof. intros []. by eapply mmio_inv_lookup. Qed.

Lemma afu_inv_report w p a areas irqs : afu_inv w p a areas irqs → can_report w p.
Proof. intros []. by eapply mmio_inv_report. Qed.

Lemma afu_inv_irq w p a areas irqs : afu_inv w p a areas irqs → irq_inv w p a irqs.
Proof. intros [[] ? _ _ _ _ _]. by split. Qed.

Lemma afu_inv_same_mem w w' p a areas irqs :
  same_mem w w' → afu_inv w p a areas irqs → afu_inv w' p a areas irqs.
Proof.
  intros Hm Hi. pose proof (irq_inv_same_mem _ _ _ _ _ Hm (afu_inv_irq _ _ _ _ _ Hi)) as [_ _ _ Ht].
  destruct Hi as [Hmm _ Hs Hp He Hf Hso]. pose proof (sm_heap _ _ Hm) as E.
  split; [by eapply mmio_inv_same_mem|done| |done| |done|done].
  - unfold path_at. by rewrite E.
  - unfold epoll_at. by rewrite E.
Qed.

(** The blocks of an AFU other than its two arrays are not those arrays. *)
Lemma mmios_apart w p a areas q o :
  mmio_inv w p a areas → w_heap w !! q = Some o → (∀ l, o ≠ HMmios l) → q ≠ afu_mmios a.
Proof.
  intros [Hw _ _ [[rest [Hb _]] _ _ _]] Hq Ho ->. destruct Hb as [[E _]|[_ E]].
  - rewrite E in Hq. by rewrite (heap_wf_null _ Hw) in Hq.
  - rewrite E in Hq. injection Hq as <-. by eapply Ho.
Qed.

(** A heap that agrees on the live blocks of the AFU other than its record
    and its array of areas keeps the rest of the invariant. *)
Lemma afu_inv_mmio_frame w w' p a a' areas areas' irqs :
  afu_inv w p a areas irqs → mmio_frame w w' p a a' → mmio_inv w' p a' areas' →
  Forall (λ x, area_start x ≠ MAP_FAILED) areas' → afu_inv w' p a' areas' irqs.
Proof.
  intros Hi Hf Hm' Hmf. pose proof (afu_inv_lookup _ _ _ _ _ Hi) as Hp.
  destruct Hi as [Hm [[rest [Hb Hmax]] Hc Hl Hbd] Hs Hpp He _ Hso].
  assert (∀ q o, w_heap w !! q = Some o → (∀ l, o ≠ HMmios l) → (∀ x, o ≠ HAfu x) →
            w_heap w' !! q = Some o) as Hkeep.
  { intros q o Hq Ho1 Ho2. rewrite (mf_heap _ _ _ _ _ Hf); [done| |by eapply mmios_apart|].
    { intros ->. rewrite Hp in Hq. injection Hq as <-. by eapply Ho2. }
    intros ->. destruct (mf_new _ _ _ _ _ Hf) as [E|E]; [|congruence].
    by eapply (mmios_apart w p a areas). }
  pose proof (mf_afu _ _ _ _ _ Hf) as E.
  assert (afu_irqs a' = afu_irqs a ∧ afu_irq_count a' = afu_irq_count a ∧
          afu_irq_max_count a' = afu_irq_max_count a ∧ afu_sysfs_path a' = afu_sysfs_path a ∧
          afu_device_path a' = afu_device_path a ∧ afu_epoll_events a' = afu_epoll_events a ∧
          afu_epoll_event_count a' = afu_epoll_event_count a ∧ afu_fd_info a' = afu_fd_info a)
    as (E1 & E2 & E3 & E4 & E5 & E6 & E7 & E8) by (rewrite E; done).
  split; [done| | | | |done|by rewrite E8]; rewrite ?E4, ?E5, ?E6, ?E7; [| |done|].
  - split; rewrite ?E1, ?E2, ?E3; [|done..]. exists rest. split; [|done].
    destruct Hb as [Hb|[Hne Hb]]; [by left|right]. split; [done|]. by apply Hkeep.
  - destruct Hs as [Hs|[s Hs]]; [by left|right]. exists s. by apply Hkeep.
  - destruct He as [He|(? & ? & He)]; [by left|right]. split_and!; [done..|]. by apply Hkeep.
Qed.

Lemma afu_inv_irq_frame w w' p a a' areas irqs irqs' :
  afu_inv w p a areas irqs → irq_frame w w' p a a' → irq_inv w' p a' irqs' →
  afu_inv w' p a' areas irqs'.
Proof.
  intros Hi Hf [Hw' Hn' Ha' Ht']. pose proof (afu_inv_lookup _ _ _ _ _ Hi) as Hp.
  pose proof (afu_inv_irq _ _ _ _ _ Hi) as Hirq.
  destruct Hi as [[_ _ _ [[rest [Hb Hmax]] Hc Hl Hbd]] _ Hs Hpp He Hmf Hso].
  assert (∀ q o, w_heap w !! q = Some o → (∀ l, o ≠ HIrqs l) → (∀ x, o ≠ HAfu x) →
            w_heap w' !! q = Some o) as Hkeep.
  { intros q o Hq Ho1 Ho2. rewrite (if_heap _ _ _ _ _ Hf); [done| |by eapply irqs_apart|].
    { intros ->. rewrite Hp in Hq. injection Hq as <-. by eapply Ho2. }
    intros ->. destruct (if_new _ _ _ _ _ Hf) as [E|E]; [|congruence].
    by eapply (irqs_apart w p a irqs). }
  pose proof (if_afu _ _ _ _ _ Hf) as E.
  assert (afu_mmios a' = afu_mmios a ∧ afu_mmio_count a' = afu_mmio_count a ∧
          afu_mmio_max_count a' = afu_mmio_max_count a ∧ afu_sysfs_path a' = afu_sysfs_path a ∧
          afu_device_path a' = afu_device_path a ∧ afu_epoll_events a' = afu_epoll_events a ∧
          afu_epoll_event_count a' = afu_epoll_event_count a ∧ afu_fd_info a' = afu_fd_info a)
    as (E1 & E2 & E3 & E4 & E5 & E6 & E7 & E8) by (rewrite E; done).
  split; [split; [done..|]|done| | | |done|by rewrite E8]; rewrite ?E4, ?E5, ?E6, ?E7; [| |done|].
  - split; rewrite ?E1, ?E2, ?E3; [|done..]. exists rest. split; [|done].
    destruct Hb as [Hb|[Hne Hb]]; [by left|right]. split; [done|]. by apply Hkeep.
  - destruct Hs as [Hs|[s Hs]]; [by left|right]. exists s. by apply Hkeep.
  - destruct He as [He|(? & ? & He)]; [by left|right]. split_and!; [done..|]. by apply Hkeep.
Qed.

(** ** Assignments to the other fields of the record *)

(** The fields that describe blocks of the AFU are the same. *)
Definition same_blocks (a a' : ocxl_afu) : Prop :=
  afu_device_path a' = afu_device_path a ∧ afu_sysfs_path a' = afu_sysfs_path a ∧
  afu_epoll_events a' = afu_epoll_events a ∧ afu_epoll_event_count a' = afu_epoll_event_count a ∧
  afu_irqs a' = afu_irqs a ∧ afu_irq_count a' = afu_irq_count a ∧
  afu_irq_max_count a' = afu_irq_max_count a ∧ afu_mmios a' = afu_mmios a ∧
  afu_mmio_count a' = afu_mmio_count a ∧ afu_mmio_max_count a' = afu_mmio_max_count a ∧
  afu_fd_info a' = afu_fd_info a.

Lemma afu_inv_set w p a a' areas irqs :
  afu_inv w p a areas irqs → same_blocks a a' →
  afu_inv (upd_heap <[p := HAfu a']> w) p a' areas irqs.
Proof.
  intros Hi (E1 & E2 & E3 & E4 & E5 & E6 & E7 & E8 & E9 & E10 & E11).
  pose proof (afu_inv_lookup _ _ _ _ _ Hi) as Hp.
  destruct Hi as [[Hw Hn [_ Hd] [[rest [Hb Hmax]] Hc Ho Hbd]] [[rest' [Hb' Hmax']] Hc' Hl' Hbd'] Hs Hpp He Hmf Hso].
  assert (∀ q o, w_heap w !! q = Some o → (∀ x, o ≠ HAfu x) →
            w_heap (upd_heap <[p := HAfu a']> w) !! q = Some o) as Hkeep.
  { intros q o Hq Hk. rewrite heap_upd_ne; [done|]. intros ->.
    rewrite Hp in Hq. injection Hq as <-. by eapply Hk. }
  split; [split; [apply heap_wf_insert; eauto|done| |]| | | | |done|by rewrite E11];
    rewrite ?E1, ?E2, ?E3, ?E4.
  - split; [apply heap_upd_eq|]. rewrite E1. destruct Hd as [Hd|[s Hd]]; [by left|right; eauto].
  - split; rewrite ?E8, ?E9, ?E10; [|done..]. exists rest. split; [|done].
    destruct Hb as [Hb|[Hne Hb]]; [by left|right]. split; [done|]. by apply Hkeep.
  - split; rewrite ?E5, ?E6, ?E7; [|done..]. exists rest'. split; [|done].
    destruct Hb' as [Hb'|[Hne Hb']]; [by left|right]. split; [done|]. by apply Hkeep.
  - destruct Hs as [Hs|[s Hs]]; [by left|right; eauto].
  - done.
  - destruct He as [He|(? & ? & He)]; [by left|right]. split_and!; [done..|]. by apply Hkeep.
Qed.

Lemma wp_set_afu_inv w p a areas irqs f Q :
  afu_inv w p a areas irqs → same_blocks a (f a) →
  (∀ w', afu_inv w' p (f a) areas irqs → effects w' = effects w → w_glob w' = w_glob w →
     (∀ q, q ≠ p → w_heap w' !! q = w_heap w !! q) → Q tt w') →
  wp (set_afu p f) Q w.
Proof.
  intros Hi Hs HQ. eapply wp_set_afu; [by eapply afu_inv_lookup|].
  apply HQ; [by eapply afu_inv_set|done|done|]. intros q Hq. by apply heap_upd_ne.
Qed.

End inv.

#[export] Hint Resolve afu_inv_lookup afu_inv_report afu_inv_irq : ocxl.
