(* ===== verification/Trace.v ===== *)
(** * Trace: the log is complete

    [issues P m]: whatever [m] does to the outside is in its log, and every
    effect of it satisfies [P].  The state of the outside after a run is the
    one the logged operations lead to, so a fact about the effects of a run is
    a fact about the kernel.  The property is closed under the constructions
    the library is written with, and every function of the library has it:
    for any [P] that admits the operations that leave descriptors alone, and,
    where the function registers or closes one, for any [P] that admits all. *)

From S2P Require Import Prelude Format Types World Logic Messages Buffer Mmio Irq Event Names Afu.
Open Scope Z_scope.

Create HintDb traced discriminated.

(** Operations that change what an epoll instance watches, or what a
    descriptor stands for. *)
Definition watch_op {R : Set} (c : sys R) : bool :=
  match c with SEpollCreate | SEpollCtlAdd _ _ _ | SClose _ => true | _ => false end.

Class Admits (P : event → Prop) : Prop :=
  admits : ∀ (R : Set) (c : sys R) r, watch_op c = false → P (Ev c r).
Class AdmitsAll (P : event → Prop) : Prop := admits_all : ∀ e, P e.

#[export] Instance admits_all_admits P : AdmitsAll P → Admits P.
Proof. intros HP R c r _. apply HP. Qed.

#[export] Instance admits_all_true : AdmitsAll (λ _, True).
Proof. done. Qed.

Section issues.
Context {K : Type} `{Platform K} (P : event → Prop).
Implicit Types (w : world K).

Definition issues {A} (m : M K A) : Prop :=
  ∀ w a w', m w = Ret a w' → ∃ es, ran es w w' ∧ Forall P es.

Lemma issues_ret {A} (a : A) : issues (mret a).
Proof. intros w x w' [= _ <-]. exists []. split; [apply ran_refl|done]. Qed.

Lemma issues_undefined {A} : issues (undefined : M K A).
Proof. by intros w x w'. Qed.

Lemma issues_diverge {A} : issues (diverge : M K A).
Proof. by intros w x w'. Qed.

Lemma issues_bind {A B} (m : M K A) (k : A → M K B) :
  issues m → (∀ a, issues (k a)) → issues (m ≫= k).
Proof.
  intros Hm Hk w b w' E. unfold mbind, M_bind in E. destruct (m w) as [a w1| |] eqn:Em; [|done..].
  destruct (Hm _ _ _ Em) as (es1 & H1 & P1), (Hk a _ _ _ E) as (es2 & H2 & P2).
  exists (es1 ++ es2). split; [by eapply ran_trans|by apply Forall_app].
Qed.

Lemma issues_call_if {R : Set} (c : sys R) : (∀ r, P (Ev c r)) → issues (call c).
Proof.
  intros HP w r w' E. destruct (silent c) eqn:Hc.
  - pose proof (wp_call_silent c (λ _ w', ran [] w w') w Hc (λ _ _, ran_quiet _ _)) as Hw.
    exists []. split; [exact (run_wp _ _ _ _ _ Hw E)|done].
  - pose proof (wp_call c (λ r w', ran [Ev c r] w w') w Hc (λ _ _, ran_did _ _ _ _)) as Hw.
    exists [Ev c r]. split; [exact (run_wp _ _ _ _ _ Hw E)|by repeat constructor].
Qed.

Lemma issues_call `{!Admits P} {R : Set} (c : sys R) : watch_op c = false → issues (call c).
Proof. intros Hc. apply issues_call_if. intros r. by apply admits. Qed.

(** Assignments to the memory of the process. *)
Lemma ran_memory w w' : w_os w' = w_os w → w_trace w' = w_trace w → ran [] w w'.
Proof. intros E1 E2. split; [unfold effects; by rewrite E2, app_nil_r|rewrite E1; constructor]. Qed.

Lemma issues_memory {A} (m : M K A) :
  (∀ w a w', m w = Ret a w' → w_os w' = w_os w ∧ w_trace w' = w_trace w) → issues m.
Proof. intros Hm w a w' E. destruct (Hm _ _ _ E). exists []. split; [by apply ran_memory|done]. Qed.

Lemma issues_get_globals : issues get_globals.
Proof. apply issues_memory. by intros w a w' [= <- <-]. Qed.

Lemma issues_set_globals g : issues (set_globals g).
Proof. apply issues_memory. by intros w a w' [= <- <-]. Qed.

Lemma issues_alloc o : issues (alloc o).
Proof. apply issues_memory. by intros w a w' [= <- <-]. Qed.

Lemma issues_free p : issues (free p).
Proof.
  apply issues_memory. intros w a w'. unfold free. destruct (p =? NULL); [by intros [= _ <-]|].
  destruct (_ !! _); [by intros [= _ <-]|done].
Qed.

Lemma issues_load_obj p : issues (load_obj p).
Proof. apply issues_memory. intros w a w'. unfold load_obj. destruct (_ !! _); [by intros [= _ <-]|done]. Qed.

Lemma issues_store_obj p o : issues (store_obj p o).
Proof. apply issues_memory. intros w a w'. unfold store_obj. destruct (_ !! _); [by intros [= _ <-]|done]. Qed.

Lemma issues_when b (m : M K unit) : issues m → issues (when b m).
Proof. intros Hm. destruct b; [done|apply issues_ret]. Qed.

End issues.

#[export] Hint Resolve issues_ret issues_undefined issues_diverge issues_get_globals
  issues_set_globals issues_alloc issues_free issues_load_obj issues_store_obj issues_when : traced.
#[export] Hint Extern 1 (issues _ (call _)) =>
  first [refine (issues_call _ _ _); reflexivity | apply issues_call_if; intros; apply admits_all] : traced.
#[export] Hint Extern 0 (Admits _) => typeclasses eauto : traced.
#[export] Hint Extern 0 (AdmitsAll _) => typeclasses eauto : traced.

(** Follow the structure of a computation. *)
Ltac traced :=
  repeat first
    [ progress (cbv zeta; cbn beta)
    | solve [auto with traced]
    | apply issues_bind; [|intros]
    | apply issues_when
    | match goal with |- issues _ (match ?x with _ => _ end) => destruct x end ].

(** The same, opening the definition at the head when nothing else is known
    of it. *)
Ltac head_of m := lazymatch m with ?f _ => head_of f | _ => m end.
Ltac traced_unfold :=
  match goal with |- issues _ ?m => let h := head_of m in unfold h end; traced.

Section library.
Context {K : Type} `{Platform K} `{Abi} (P : event → Prop) `{!Admits P}.

Lemma issues_malloc size o : issues P (malloc (K := K) size o).
Proof. traced_unfold. Qed.

Lemma issues_get_afu p : issues P (get_afu (K := K) p).
Proof. traced_unfold. Qed.

Lemma issues_get_str p : issues P (get_str (K := K) p).
Proof. traced_unfold. Qed.

Lemma issues_get_buf {A : Set} `{BufElt A} p : issues P (get_buf (K := K) (A := A) p).
Proof. traced_unfold. Qed.

#[local] Hint Resolve issues_malloc issues_get_afu issues_get_str issues_get_buf : traced.

Lemma issues_set_afu p f : issues P (set_afu (K := K) p f).
Proof. traced_unfold. Qed.

Lemma issues_read_elt {A : Set} `{BufElt A} p i : issues P (read_elt (K := K) (A := A) p i).
Proof. traced_unfold. Qed.

Lemma issues_write_elt {A : Set} `{BufElt A} p i x : issues P (write_elt (K := K) (A := A) p i x).
Proof. traced_unfold. Qed.

#[local] Hint Resolve issues_set_afu issues_read_elt issues_write_elt : traced.

(** ** Messages *)

Lemma issues_fprintf_stderr fmt args : issues (K := K) P (fprintf_stderr fmt args).
Proof. traced_unfold. Qed.

#[local] Hint Resolve issues_fprintf_stderr : traced.

Lemma issues_trace_message label file line fn fmt args :
  issues (K := K) P (trace_message label file line fn fmt args).
Proof. traced_unfold. Qed.

#[local] Hint Resolve issues_trace_message : traced.

Lemma issues_TRACE p file line fn fmt args : issues (K := K) P (TRACE p file line fn fmt args).
Proof. traced_unfold. Qed.

Lemma issues_TRACE_OPEN file line fn fmt args : issues (K := K) P (TRACE_OPEN file line fn fmt args).
Proof. traced_unfold. Qed.

Lemma issues_message_text fmt args : issues (K := K) P (message_text fmt args).
Proof. traced_unfold. Qed.

#[local] Hint Resolve issues_TRACE issues_TRACE_OPEN issues_message_text : traced.

Lemma issues_errmsg p err fmt args : issues (K := K) P (errmsg p err fmt args).
Proof.
  unfold errmsg, ocxl_default_error_handler, ocxl_default_afu_error_handler, ocxl_afu_get_device_path.
  traced.
Qed.

Lemma issues_errno_args : issues (K := K) P errno_args.
Proof. traced_unfold. Qed.

Lemma issues_libocxl_init : issues (K := K) P libocxl_init.
Proof. traced_unfold. Qed.

#[local] Hint Resolve issues_errmsg issues_errno_args issues_libocxl_init : traced.

(** ** Arrays, areas and IRQs *)

Lemma issues_grow_buffer {A : Set} `{BufElt A} afu buffer count size initial_count :
  issues (K := K) P (grow_buffer (A := A) afu buffer count size initial_count).
Proof. unfold grow_buffer, realloc_buf. traced. Qed.

#[local] Hint Resolve issues_grow_buffer : traced.

Lemma issues_find_unmapped n mmios i : issues (K := K) P (find_unmapped n mmios i).
Proof. revert i. induction n as [|n IH]; intros i; simpl; traced. Qed.

#[local] Hint Resolve issues_find_unmapped : traced.

Lemma issues_register_mmio afu addr size type : issues (K := K) P (register_mmio afu addr size type).
Proof. unfold register_mmio, new_slot, grow_mmios. traced. Qed.

#[local] Hint Resolve issues_register_mmio : traced.

Lemma issues_mmio_map_advanced afu type size prot flags offset :
  issues (K := K) P (ocxl_mmio_map_advanced afu type size prot flags offset).
Proof. unfold ocxl_mmio_map_advanced, mmio_map, global_mmio_map. traced. Qed.

Lemma issues_get_area h : issues (K := K) P (get_area h).
Proof. traced_unfold. Qed.

Lemma issues_area_owner x : issues (K := K) P (area_owner x).
Proof. traced_unfold. Qed.

#[local] Hint Resolve issues_get_area issues_area_owner : traced.

Lemma issues_mmio_unmap h : issues (K := K) P (ocxl_mmio_unmap h).
Proof. traced_unfold. Qed.

Lemma issues_mmio_check h offset size : issues (K := K) P (mmio_check h offset size).
Proof. traced_unfold. Qed.

#[local] Hint Resolve issues_mmio_unmap issues_mmio_check : traced.

Lemma issues_mmio_read32 h offset endian : issues (K := K) P (ocxl_mmio_read32 h offset endian).
Proof. unfold ocxl_mmio_read32, mmio_read32_native, load_native. traced. Qed.

Lemma issues_mmio_read64 h offset endian : issues (K := K) P (ocxl_mmio_read64 h offset endian).
Proof. unfold ocxl_mmio_read64, mmio_read64_native, load_native. traced. Qed.

Lemma issues_mmio_write32 h offset endian v : issues (K := K) P (ocxl_mmio_write32 h offset endian v).
Proof. unfold ocxl_mmio_write32, mmio_write32_native, store_native. traced. Qed.

Lemma issues_mmio_write64 h offset endian v : issues (K := K) P (ocxl_mmio_write64 h offset endian v).
Proof. unfold ocxl_mmio_write64, mmio_write64_native, store_native. traced. Qed.

Lemma issues_get_irq irq : issues (K := K) P (get_irq irq).
Proof. traced_unfold. Qed.

#[local] Hint Resolve issues_get_irq : traced.

Lemma issues_set_irq irq f : issues (K := K) P (set_irq irq f).
Proof. traced_unfold. Qed.

#[local] Hint Resolve issues_set_irq : traced.

Lemma issues_irq_get_handle afu irq : issues (K := K) P (ocxl_irq_get_handle afu irq).
Proof. traced_unfold. Qed.

(** ** Events *)

Lemma issues_read_afu_event afu version : issues (K := K) P (read_afu_event afu version).
Proof. unfold read_afu_event, populate_xsl_fault_error. traced. Qed.

Lemma issues_push_event out e : issues (K := K) P (push_event out e).
Proof. traced_unfold. Qed.

#[local] Hint Resolve issues_read_afu_event issues_push_event : traced.

Lemma issues_read_afu_events fuel afu version out : issues (K := K) P (read_afu_events fuel afu version out).
Proof. revert out. induction fuel as [|fuel IH]; intros out; simpl; traced. Qed.

Lemma issues_read_irq_event afu irq out : issues (K := K) P (read_irq_event afu irq out).
Proof. traced_unfold. Qed.

#[local] Hint Resolve issues_read_afu_events issues_read_irq_event : traced.

Lemma issues_check_sources fuel afu version sources out :
  issues (K := K) P (check_sources fuel afu version sources out).
Proof.
  revert out. induction sources as [|s sources IH]; intros out; simpl; unfold get_fd_info; traced.
Qed.

#[local] Hint Resolve issues_check_sources : traced.

Lemma issues_event_check_versioned fuel afu timeout n version :
  issues (K := K) P (ocxl_afu_event_check_versioned fuel afu timeout n version).
Proof. unfold ocxl_afu_event_check_versioned, reserve_epoll_events, wait_events. traced. Qed.

Lemma issues_p9_thread_id afu : issues (K := K) P (ocxl_afu_get_p9_thread_id afu).
Proof. traced_unfold. Qed.

(** ** AFUs *)

Lemma issues_afu_alloc : issues (K := K) P afu_alloc.
Proof. unfold afu_alloc, afu_init. traced. Qed.

Lemma issues_find_device dir dev entries : issues (K := K) P (find_device dir dev entries).
Proof. induction entries; simpl; unfold device_matches; traced. Qed.

#[local] Hint Resolve issues_afu_alloc issues_find_device : traced.

Lemma issues_populate_metadata dev afu : issues (K := K) P (populate_metadata dev afu).
Proof. traced_unfold. Qed.

Lemma issues_trace_str line fmt s : issues (K := K) P (trace_str line fmt s).
Proof. traced_unfold. Qed.

Lemma issues_trace_index a : issues (K := K) P (trace_index a).
Proof. traced_unfold. Qed.

#[local] Hint Resolve issues_populate_metadata issues_trace_str issues_trace_index : traced.

Lemma issues_trace_metadata afu : issues (K := K) P (trace_metadata afu).
Proof. traced_unfold. Qed.

Lemma issues_global_mmio_open afu : issues (K := K) P (global_mmio_open afu).
Proof. traced_unfold. Qed.

Lemma issues_no_dev fmt args : issues (K := K) P (no_dev fmt args).
Proof. traced_unfold. Qed.

#[local] Hint Resolve issues_trace_metadata issues_global_mmio_open issues_no_dev : traced.

Lemma issues_get_afu_by_path path : issues (K := K) P (get_afu_by_path path).
Proof. traced_unfold. Qed.

Lemma issues_unmap_all n afu i : issues (K := K) P (unmap_all n afu i).
Proof. revert i. induction n; intros i; simpl; traced. Qed.

#[local] Hint Resolve issues_get_afu_by_path issues_unmap_all : traced.

Lemma issues_attach afu flags : issues (K := K) P (ocxl_afu_attach afu flags).
Proof. traced_unfold. Qed.

End library.

#[export] Hint Resolve issues_get_afu issues_set_afu issues_get_str issues_fprintf_stderr issues_errmsg
  issues_errno_args issues_libocxl_init issues_grow_buffer issues_read_elt issues_write_elt
  issues_mmio_map_advanced issues_mmio_unmap issues_mmio_read32 issues_mmio_read64
  issues_mmio_write32 issues_mmio_write64 issues_get_irq issues_set_irq
  issues_irq_get_handle issues_event_check_versioned issues_p9_thread_id issues_unmap_all
  issues_attach issues_get_afu_by_path issues_global_mmio_open issues_no_dev issues_trace_metadata : traced.

(** Opening an AFU and allocating an IRQ have epoll watch a descriptor;
    closing one closes its own. *)
Section watching.
Context {K : Type} `{Platform K} `{Abi} (P : event → Prop) `{!AdmitsAll P}.

Lemma issues_irq_dealloc afu irq : issues (K := K) P (irq_dealloc afu irq).
Proof. traced_unfold. Qed.

#[local] Hint Resolve issues_irq_dealloc : traced.

Lemma issues_irq_errend afu irq fmt args : issues (K := K) P (irq_errend afu irq fmt args).
Proof. traced_unfold. Qed.

#[local] Hint Resolve issues_irq_errend : traced.

Lemma issues_dealloc_all n afu i : issues (K := K) P (dealloc_all n afu i).
Proof. revert i. induction n; intros i; simpl; traced. Qed.

#[local] Hint Resolve issues_unmap_all issues_dealloc_all : traced.

Lemma issues_afu_close afu : issues (K := K) P (ocxl_afu_close afu).
Proof. traced_unfold. Qed.

#[local] Hint Resolve issues_afu_close : traced.

Lemma issues_irq_allocate afu irq info : issues (K := K) P (irq_allocate afu irq info).
Proof. traced_unfold. Qed.

#[local] Hint Resolve issues_irq_allocate : traced.

Lemma issues_irq_alloc afu info : issues (K := K) P (ocxl_irq_alloc afu info).
Proof. unfold ocxl_irq_alloc, grow_irqs. traced. Qed.

Lemma issues_afu_open afu : issues (K := K) P (afu_open afu).
Proof. traced_unfold. Qed.

#[local] Hint Resolve issues_afu_open : traced.

Lemma issues_open_from_dev path : issues (K := K) P (ocxl_afu_open_from_dev path).
Proof. traced_unfold. Qed.

#[local] Hint Resolve issues_open_from_dev : traced.

Lemma issues_open_first paths ret : issues (K := K) P (open_first paths ret).
Proof. revert ret. induction paths; intros ret; simpl; traced. Qed.

#[local] Hint Resolve issues_open_first : traced.

Lemma issues_open_specific name pf idx : issues (K := K) P (ocxl_afu_open_specific name pf idx).
Proof. traced_unfold. Qed.

End watching.

#[export] Hint Resolve issues_irq_alloc issues_afu_close issues_open_from_dev
  issues_open_specific : traced.

(** The operations of a run, when its effects are known. *)
Lemma issues_ran {K} `{Platform K} {A} P (m : M K A) w a w' es :
  issues P m → m w = Ret a w' → effects w' = effects w ++ es → ran es w w'.
Proof.
  intros Hm E Ee. destruct (Hm _ _ _ E) as (es' & [Ee' Hp] & _). rewrite Ee in Ee'.
  apply app_inv_head in Ee' as ->. by split.
Qed.

Lemma wp_issues {K} `{Platform K} {A} P (m : M K A) (Q : A → world K → Prop) w :
  issues P m → wp m (λ a w', ∀ es, ran es w w' → Forall P es → Q a w') w → wp m Q w.
Proof.
  intros Hm Hw. unfold wp in *. destruct (m w) as [a w'| |] eqn:E; [|done..].
  destruct (Hm _ _ _ E) as (es & Hr & HP). by eapply Hw.
Qed.
