(* ===== verification/Fuel.v ===== *)
(** * Fuel: loops with more fuel

    The loops of the development run on fuel and answer [Diverge] when it
    runs out.  [approx m m'] says that [m'] does what [m] does unless [m] runs
    out of fuel; every function with fuel is monotone for it, so fuel changes
    no outcome: it only decides whether there is one.  [terminates m Q w] says
    that [m], from some amount of fuel on, returns from [w] with [Q]: the code
    terminates.  Where a section has an [Excuse], [m] may instead have
    undefined behaviour, and only if that proposition holds. *)

From S2P Require Import Prelude Format Types World Logic Messages Buffer Mmio Irq Event Names Afu.
Open Scope Z_scope.

Create HintDb fuel discriminated.

Section approx.
Context {K : Type}.
Implicit Types (w : world K).

Definition approx {A} (m m' : M K A) : Prop := ∀ w, m w ≠ Diverge → m' w = m w.

Definition grows {A} (m : nat → M K A) : Prop := ∀ n n', (n <= n')%nat → approx (m n) (m n').

Lemma approx_refl {A} (m : M K A) : approx m m.
Proof. by intros w. Qed.

Lemma approx_diverge {A} (m : M K A) : approx diverge m.
Proof. by intros w. Qed.

Lemma approx_bind {A B} (m m' : M K A) (k k' : A → M K B) :
  approx m m' → (∀ a, approx (k a) (k' a)) → approx (m ≫= k) (m' ≫= k').
Proof.
  intros Hm Hk w. unfold mbind, M_bind. pose proof (Hm w) as Ew. destruct (m w) as [a w1| |]; [| |done];
    rewrite Ew by done; [apply Hk|done].
Qed.

End approx.

(** ** Termination *)

(** What may make code go wrong: nothing, where nothing is said. *)
Class Excuse : Type := excuse : Prop.
#[export] Instance no_excuse : Excuse | 100 := False.

Abbreviation wpe := (wpx excuse False).

(** From some amount of fuel on, [m] always has the same outcome from [w]: it
    returns with [Q], or it has undefined behaviour, and then [U] holds. *)
Definition settles {K A} (U : Prop) (m : nat → M K A) (Q : A → world K → Prop) (w : world K) : Prop :=
  ∃ n, (∃ a w', Q a w' ∧ ∀ fuel, (n <= fuel)%nat → m fuel w = Ret a w') ∨
       (U ∧ ∀ fuel, (n <= fuel)%nat → m fuel w = UB).

Section terminates.
Context {K : Type} {E : Excuse}.
Implicit Types (w : world K).

Definition terminates {A} (m : nat → M K A) (Q : A → world K → Prop) w : Prop :=
  ∃ n, ∀ fuel, (n <= fuel)%nat → wpe (m fuel) Q w.

Lemma terminates_wpe {A} (m : M K A) (Q : A → world K → Prop) w : wpe m Q w → terminates (λ _, m) Q w.
Proof. intros Hw. by exists O. Qed.

Lemma terminates_wp {A} (m : M K A) (Q : A → world K → Prop) w : wp m Q w → terminates (λ _, m) Q w.
Proof. intros Hw. by apply terminates_wpe, wp_wpx. Qed.

Lemma terminates_mono {A} (m : nat → M K A) (Q Q' : A → world K → Prop) w :
  (∀ a w', Q a w' → Q' a w') → terminates m Q w → terminates m Q' w.
Proof. intros HQ [n Hn]. exists n. intros fuel Hf. eapply wpx_mono; [done|done|exact HQ|by apply Hn]. Qed.

Lemma terminates_from {A} (m : nat → M K A) (Q : A → world K → Prop) w n :
  (∀ fuel, (n <= fuel)%nat → wp (m fuel) Q w) → terminates m Q w.
Proof. intros Hn. exists n. intros fuel Hf. by apply wp_wpx, Hn. Qed.

Lemma terminates_outcome {A} (m : nat → M K A) (Q : A → world K → Prop) w :
  grows m → terminates m Q w → settles excuse m Q w.
Proof.
  intros Hg [n Hn]. exists n. pose proof (Hn n (le_n n)) as Hw. unfold wpx in Hw.
  assert (m n w ≠ Diverge) as Hd by (by destruct (m n w)).
  pose proof (λ fuel Hf, Hg n fuel Hf w Hd) as He.
  destruct (m n w) as [a w'| |]; [left; by exists a, w'|by right|done].
Qed.

Lemma terminates_bind {A B} (m : nat → M K A) (k : nat → A → M K B) (Q : B → world K → Prop) w :
  grows m → terminates m (λ a w', terminates (λ fuel, k fuel a) Q w') w → terminates (λ fuel, m fuel ≫= k fuel) Q w.
Proof.
  intros Hg Hm. destruct (terminates_outcome m _ w Hg Hm) as [n [(a & w' & [n' Hn'] & Ha)|[He Hu]]].
  - exists (n `max` n')%nat. intros fuel Hf. apply wpx_bind. unfold wpx at 1. rewrite Ha by lia. apply Hn'. lia.
  - exists n. intros fuel Hf. apply wpx_bind. unfold wpx at 1. by rewrite Hu.
Qed.

(** The first part needs no fuel. *)
Lemma terminates_bind_wpe {A B} (m : M K A) (k : nat → A → M K B) (Q : B → world K → Prop) w :
  wpe m (λ a w', terminates (λ fuel, k fuel a) Q w') w → terminates (λ fuel, m ≫= k fuel) Q w.
Proof. intros Hw. apply (terminates_bind (λ _, m)); [intros n n' _; apply approx_refl|by apply terminates_wpe]. Qed.

Lemma terminates_bind_wp {A B} (m : M K A) (k : nat → A → M K B) (Q : B → world K → Prop) w :
  wp m (λ a w', terminates (λ fuel, k fuel a) Q w') w → terminates (λ fuel, m ≫= k fuel) Q w.
Proof. intros Hw. by apply terminates_bind_wpe, wp_wpx. Qed.

End terminates.

Section no_excuse.
Context {K : Type}.
Implicit Types (w : world K).

Lemma wp_terminates {A} (m : M K A) (Q : A → world K → Prop) w : terminates (λ _, m) Q w → wp m Q w.
Proof. intros [n Hn]. exact (Hn n (le_n n)). Qed.

Lemma terminates_run {A} (m : nat → M K A) (Q : A → world K → Prop) w :
  grows m → terminates m Q w → ∃ n a w', Q a w' ∧ ∀ fuel, (n <= fuel)%nat → m fuel w = Ret a w'.
Proof.
  intros Hg Hm. destruct (terminates_outcome m Q w Hg Hm) as [n [(a & w' & HQ & Ha)|[[] _]]]. by exists n, a, w'.
Qed.

End no_excuse.

(** One step of a monotonicity proof: both sides have the same shape. *)
Ltac approx_step :=
  match goal with
  | |- approx ?m ?m => apply approx_refl
  | |- approx (_ ≫= _) (_ ≫= _) => apply approx_bind; [|intros ?]
  | |- approx (match ?x with _ => _ end) _ => destruct x
  | |- approx (match ?x with _ => _ end _) _ => destruct x
  | |- _ => solve [auto with fuel]
  end.
Ltac approximate := repeat (cbv zeta; approx_step).

(** ** The library *)

Section library.
Context {K : Type} `{Platform K} `{Abi}.

Lemma approx_read_afu_events n n' afu version out :
  (n <= n')%nat → approx (K := K) (read_afu_events n afu version out) (read_afu_events n' afu version out).
Proof.
  revert n' out. induction n as [|n IH]; intros [|n'] out Hn; [apply approx_diverge..|lia|].
  assert (n <= n')%nat by lia. simpl. approximate.
Qed.

#[local] Hint Resolve approx_read_afu_events : fuel.

Lemma approx_check_sources n n' afu version sources out :
  (n <= n')%nat →
  approx (K := K) (check_sources n afu version sources out) (check_sources n' afu version sources out).
Proof.
  intros Hn. revert out. induction sources as [|source sources IH]; intros out; simpl; approximate.
Qed.

#[local] Hint Resolve approx_check_sources : fuel.

(** A check for events that returns does not depend on its fuel. *)
Lemma approx_event_check n n' afu timeout event_count :
  (n <= n')%nat →
  approx (K := K) (ocxl_afu_event_check n afu timeout event_count) (ocxl_afu_event_check n' afu timeout event_count).
Proof.
  intros Hn. unfold ocxl_afu_event_check, ocxl_afu_event_check_versioned, wait_events. approximate.
Qed.

End library.

#[export] Hint Resolve approx_event_check : fuel.
