(* ===== verification/EventFacts.v ===== *)
(** * EventFacts: waiting for events, source by source

    [epoll_wait] hands back addresses the library registered earlier, so what
    [ocxl_afu_event_check_versioned] does is decided by the kernel: the
    record [event_kernel] states what the code relies on (the sources are
    current, an eventfd is read in full or not at all).  [reported] relates
    the sources to the reads that were issued and to the events the caller
    gets.  Two things are left to the device: the caller's array is full and
    it hands out one more event ([overflows]), or it hands out events without
    ever marking one as the last ([starves]). *)

From S2P Require Import Prelude Format Types World Logic Messages Buffer Ledger Mmio MmioFacts.
From S2P Require Import MmioAccess Irq IrqFacts IrqTable Event AfuInv.
Open Scope Z_scope.

Section event.
Context {K : Type} `{Platform K} `{Abi}.
Implicit Types (w : world K).

(** ** What one read reports *)

Definition event_size : Z := sizeof_event_header + sizeof_xsl_fault_error.

Definition event_header (buf : list Z) : list Z := take (Z.to_nat sizeof_event_header) buf.
Definition event_body (buf : list Z) : list Z := drop (Z.to_nat sizeof_event_header) buf.

Definition last_event (buf : list Z) : bool :=
  c_bool (Z.land (header_flags (event_header buf)) OCXL_KERNEL_EVENT_FLAG_LAST).

(** A read of the device: a translation fault, when it is whole and of that type. *)
Definition afu_report (r : Z * list Z) : option ocxl_event :=
  if (0 <=? r.1) && (sizeof_event_header <=? r.1) && (r.1 =? event_size) &&
     (header_type (event_header r.2) =? OCXL_AFU_EVENT_XSL_FAULT_ERROR)
  then Some (OCXL_EVENT_TRANSLATION_FAULT (mk_event_fault (xsl_addr (event_body r.2))
               (xsl_dsisr (event_body r.2)) (xsl_count (event_body r.2))))
  else None.

(** A read of an eventfd: the IRQ and the number of times it was triggered. *)
Definition irq_report (i : ocxl_irq) (r : Z * list Z) : option ocxl_event :=
  if r.1 =? 8 then Some (OCXL_EVENT_IRQ (mk_event_irq (irq_number i) (irq_addr i) (irq_info i)
                           (of_native_bytes r.2)))
  else None.

(** An answer that is an event: one of a type that is newer than the library,
    or a whole translation fault. *)
Definition event_ok (r : Z * list Z) : bool :=
  (0 <=? r.1) && (sizeof_event_header <=? r.1) &&
  ((OCXL_AFU_EVENT_XSL_FAULT_ERROR <? header_type (event_header r.2)) ||
   (header_type (event_header r.2) =? OCXL_AFU_EVENT_XSL_FAULT_ERROR) && (r.1 =? event_size)).

Lemma afu_report_ok r e : afu_report r = Some e → event_ok r = true.
Proof.
  unfold afu_report, event_ok. destruct (0 <=? _), (_ <=? _), (_ =? event_size), (_ =? _);
    simpl; try done. by rewrite orb_true_r.
Qed.

(** The verdict of [read_afu_event] on an answer of the kernel. *)
Inductive read_verdict (r : Z * list Z) : ocxl_event_action * option ocxl_event * bool → Prop :=
| verdict_fail : event_ok r = false → read_verdict r (OCXL_EVENT_ACTION_FAIL, None, false)
| verdict_none : r.1 < 0 → read_verdict r (OCXL_EVENT_ACTION_NONE, None, true)
| verdict_ignore : event_ok r = true → afu_report r = None →
    read_verdict r (OCXL_EVENT_ACTION_IGNORE, None, last_event r.2)
| verdict_success e : event_ok r = true → afu_report r = Some e →
    read_verdict r (OCXL_EVENT_ACTION_SUCCESS, Some e, last_event r.2).

Lemma wp_read_afu_event w p a Q :
  w_heap w !! p = Some (HAfu a) → can_report w p →
  (∀ r res w1 w', did (SRead (afu_fd a) event_size) r w w1 → quiet w1 w' → read_verdict r res → Q res w') →
  wp (read_afu_event p 0) Q w.
Proof.
  intros Ha Hr HQ. unfold read_afu_event. simpl. apply wp_bind. eapply wp_get_afu; [done|].
  apply wp_bind, wp_call; [done|]. intros [n buf] w1 Hd.
  specialize (λ res w', HQ (n, buf) res w1 w' Hd).
  assert (∀ err fmt args res, conforms fmt args = true → read_verdict (n, buf) res →
    ∀ w2, quiet w1 w2 → wp (errmsg p err fmt args ;; mret res) Q w2) as Hfail.
  { intros err fmt args res Hc Hv w2 Hq. apply wp_bind, wp_errmsg; [|done|].
    { eapply can_report_quiet; [done|]. eapply can_report_same_mem; [apply Hd|done]. }
    intros w3 Hq3. apply wp_ret. apply HQ; [by etrans|done]. }
  destruct (Z.ltb_spec n 0) as [Hn|Hn].
  { apply wp_bind, wp_report; [done|]. intros e w2 Hq2.
    assert (event_ok (n, buf) = false) as Hok by (unfold event_ok; simpl; by rewrite (proj2 (Z.leb_gt 0 n) Hn)).
    destruct (_ || _); [|apply Hfail; [done|by constructor|done]].
    apply wp_ret, HQ; [done|by constructor]. }
  destruct (Z.ltb_spec n sizeof_event_header) as [Hh|Hh].
  { apply Hfail; [done| |done]. constructor. unfold event_ok; simpl.
    by rewrite (proj2 (Z.leb_gt _ n) Hh), andb_false_r. }
  fold (event_header buf). fold (event_body buf). fold (last_event buf). fold event_size.
  assert (event_ok (n, buf) = (OCXL_AFU_EVENT_XSL_FAULT_ERROR <? header_type (event_header buf)) ||
    (header_type (event_header buf) =? OCXL_AFU_EVENT_XSL_FAULT_ERROR) && (n =? event_size)) as Hok.
  { unfold event_ok; simpl. by rewrite (proj2 (Z.leb_le 0 n)), (proj2 (Z.leb_le _ n)). }
  assert (afu_report (n, buf) =
    if (n =? event_size) && (header_type (event_header buf) =? OCXL_AFU_EVENT_XSL_FAULT_ERROR)
    then Some (OCXL_EVENT_TRANSLATION_FAULT (mk_event_fault (xsl_addr (event_body buf))
               (xsl_dsisr (event_body buf)) (xsl_count (event_body buf)))) else None) as Hrep.
  { unfold afu_report; simpl. by rewrite (proj2 (Z.leb_le 0 n)), (proj2 (Z.leb_le _ n)). }
  assert (w_heap w1 !! p = Some (HAfu a)) as Ha1 by (by rewrite (sm_heap _ _ (did_mem _ _ _ _ Hd))).
  destruct (Z.ltb_spec OCXL_AFU_EVENT_XSL_FAULT_ERROR (header_type (event_header buf))) as [Ht|Ht].
  { apply wp_bind. eapply wp_TRACE; [done|done|]. intros w2 Hq2. apply wp_ret, HQ; [done|].
    apply verdict_ignore; [done|]. rewrite Hrep, (proj2 (Z.eqb_neq (header_type _) _)), andb_false_r by lia. done. }
  destruct (Z.eqb_spec (header_type (event_header buf)) OCXL_AFU_EVENT_XSL_FAULT_ERROR) as [Ex|Ex].
  2: { apply Hfail; [done| |done]. by constructor. }
  destruct (Z.eqb_spec n event_size) as [Es|Es]; simpl.
  2: { apply Hfail; [done| |done]. by constructor. }
  do 2 apply wp_bind. eapply wp_TRACE; [done|done|]. intros w2 Hq2. do 2 apply wp_ret.
  apply HQ; [done|]. by apply verdict_success.
Qed.

(** ** The sources *)

(** [&afu->irqs[n]] *)
Definition irq_at (a : ocxl_afu) (n : nat) : irq_ptr := mk_irq_ptr (afu_irqs a) (Z.of_nat n).

(** A source the library registered for the AFU and that still has its
    address: the AFU itself, or an IRQ allocated in the array as it is now. *)
Inductive current (p : ptr) (a : ocxl_afu) (irqs : list ocxl_irq) : source_ptr → Prop :=
| current_afu : current p a irqs (AfuFdInfo p)
| current_irq n i :
    irqs !! n = Some i → irq_fd_info i = mk_fd_source EPOLL_SOURCE_IRQ (Some (irq_at a n)) →
    current p a irqs (IrqFdInfo (irq_at a n)).

(** What the code relies on, in the states of the kernel that satisfy [I]. *)
Record event_kernel (I : K → Prop) (p : ptr) (a : ocxl_afu) (irqs : list ocxl_irq) : Prop := {
  ek_silent (R : Set) (c : sys R) k : silent c = true → I k → I (os_step R c k).2;
  ek_read fd size k : I k → I (os_step _ (SRead fd size) k).2;
  ek_wait n timeout k count sources k' :
    0 <= n → I k → os_step _ (SEpollWait (afu_epoll_fd a) n timeout) k = ((count, sources), k') →
    I k' ∧ (count = -1 ∨
      0 <= count <= n ∧ count <= Z.of_nat (length sources) ∧
      Forall (current p a irqs) (take (Z.to_nat count) sources));
  ek_eventfd m i k n buf k' :
    irqs !! m = Some i → I k → os_step _ (SRead (irq_eventfd i) 8) k = ((n, buf), k') → n < 0 ∨ n = 8
}.

(** The reads of the device: the loop goes on after an event that is not
    marked as the last one, and ends after one that is, or when there is none. *)
Definition afu_reads (a : ocxl_afu) (rs : list (Z * list Z)) : list event :=
  (λ r, Ev (SRead (afu_fd a) event_size) r) <$> rs.

Definition going (r : Z * list Z) : Prop := event_ok r = true ∧ last_event r.2 = false.
Definition ended (r : Z * list Z) : Prop := r.1 < 0 ∨ event_ok r = true ∧ last_event r.2 = true.

(** The reads issued for the sources, with their answers, and the events
    they amount to. *)
Inductive reported (p : ptr) (a : ocxl_afu) (irqs : list ocxl_irq) :
    list source_ptr → list event → list ocxl_event → Prop :=
| reported_nil : reported p a irqs [] [] []
| reported_afu rs r sources es evs :
    Forall going rs → ended r → reported p a irqs sources es evs →
    reported p a irqs (AfuFdInfo p :: sources) (afu_reads a (rs ++ [r]) ++ es)
      (omap afu_report (rs ++ [r]) ++ evs)
| reported_irq n i r sources es evs :
    irqs !! n = Some i → reported p a irqs sources es evs →
    reported p a irqs (IrqFdInfo (irq_at a n) :: sources) (Ev (SRead (irq_eventfd i) 8) r :: es)
      (option_list (irq_report i r) ++ evs).

Lemma length_option_list {A} (o : option A) : (length (option_list o) <= 1)%nat.
Proof. destruct o; simpl; lia. Qed.

Lemma reported_app p a irqs s1 s2 es1 es2 evs1 evs2 :
  reported p a irqs s1 es1 evs1 → reported p a irqs s2 es2 evs2 →
  reported p a irqs (s1 ++ s2) (es1 ++ es2) (evs1 ++ evs2).
Proof.
  intros H1 H2. induction H1; simpl; rewrite <-?app_assoc; by try constructor.
Qed.

Lemma reported_snoc_afu p a irqs pre es evs rs r :
  Forall going rs → ended r → reported p a irqs pre es evs →
  reported p a irqs (pre ++ [AfuFdInfo p]) (es ++ afu_reads a (rs ++ [r]))
    (evs ++ omap afu_report (rs ++ [r])).
Proof.
  intros Hg He Hr. apply reported_app; [done|].
  rewrite <-(app_nil_r (afu_reads _ _)), <-(app_nil_r (omap _ _)). by apply reported_afu; [..|constructor].
Qed.

Lemma reported_snoc_irq p a irqs pre es evs n i r :
  irqs !! n = Some i → reported p a irqs pre es evs →
  reported p a irqs (pre ++ [IrqFdInfo (irq_at a n)]) (es ++ [Ev (SRead (irq_eventfd i) 8) r])
    (evs ++ option_list (irq_report i r)).
Proof.
  intros Hn Hr. apply reported_app; [done|]. rewrite <-(app_nil_r (option_list _)). by repeat constructor.
Qed.

(** The AFU is being read, after the sources before it: [rs] so far. *)
Definition afu_reading (p : ptr) (a : ocxl_afu) (irqs : list ocxl_irq) (sources : list source_ptr)
    (rs : list (Z * list Z)) (es : list event) (evs : list ocxl_event) : Prop :=
  Forall going rs ∧ ∃ pre rest es' evs', sources = pre ++ AfuFdInfo p :: rest ∧
    reported p a irqs pre es' evs' ∧ es = es' ++ afu_reads a rs ∧ evs = evs' ++ omap afu_report rs.

(** It was read, and the answer is no event. *)
Definition device_failed (p : ptr) (a : ocxl_afu) (irqs : list ocxl_irq) (sources : list source_ptr)
    (es : list event) (evs : list ocxl_event) : Prop :=
  ∃ rs r es', afu_reading p a irqs sources rs es' evs ∧ event_ok r = false ∧ es = es' ++ afu_reads a [r].

(** The array of [n] entries is full, and one more event was read. *)
Inductive overflowed (p : ptr) (a : ocxl_afu) (irqs : list ocxl_irq) (n : nat) (sources : list source_ptr) :
    list event → Prop :=
| overflowed_afu rs r e es evs :
    afu_reading p a irqs sources rs es evs → length evs = n → afu_report r = Some e →
    overflowed p a irqs n sources (es ++ afu_reads a [r])
| overflowed_irq pre rest m i r e es evs :
    sources = pre ++ IrqFdInfo (irq_at a m) :: rest → irqs !! m = Some i →
    reported p a irqs pre es evs → length evs = n → irq_report i r = Some e →
    overflowed p a irqs n sources (es ++ [Ev (SRead (irq_eventfd i) 8) r]).

(** The device handed out [fuel] events in a row, none of them the last. *)
Definition starved (p : ptr) (a : ocxl_afu) (irqs : list ocxl_irq) (fuel : nat) (sources : list source_ptr)
    (es : list event) : Prop :=
  ∃ rs evs, afu_reading p a irqs sources rs es evs ∧ length rs = fuel.

(** The caller's array of [n] entries with the events [evs] stored. *)
Definition filled (n : nat) (evs : list ocxl_event) : events_out :=
  mk_events ((Some <$> evs) ++ replicate (n - length evs) None) (Z.of_nat (length evs)).

Lemma wpx_push_event U D n evs e Q w :
  (length evs <= n)%nat → Z.of_nat n <= UINT16_MAX → (length evs = n → U) →
  ((length evs < n)%nat → Q (filled n (evs ++ [e])) w) →
  wpx U D (push_event (filled n evs) e) Q w.
Proof.
  intros Hl Hn HU HQ. unfold push_event, filled. simpl.
  rewrite length_app, length_fmap, length_replicate.
  destruct (Z.ltb_spec (Z.of_nat (length evs)) 0); [lia|]. simpl.
  destruct (Z.leb_spec (Z.of_nat (length evs + (n - length evs))) (Z.of_nat (length evs)));
    [apply HU; lia|].
  apply wpx_ret. specialize (HQ ltac:(lia)).
  unfold filled in HQ. rewrite length_app, fmap_app in HQ. simpl in HQ.
  rewrite Nat2Z.id, insert_app_r_alt, length_fmap, Nat.sub_diag by (by rewrite length_fmap).
  assert (u16 (Z.of_nat (length evs) + 1) = Z.of_nat (length evs) + 1) as ->
    by (apply uwrap_small; unfold UINT16_MAX in *; lia).
  replace (n - length evs)%nat with (S (n - (length evs + 1))) by lia. simpl.
  rewrite <-app_assoc in HQ. replace (Z.of_nat (length evs) + 1) with (Z.of_nat (length evs + 1)) by lia.
  exact HQ.
Qed.

Section kernel.
Context (I : K → Prop) (p : ptr) (a : ocxl_afu) (areas : list ocxl_mmio_area) (irqs : list ocxl_irq).
Context (HI : event_kernel I p a irqs).

Lemma kernel_silent k k' : rtc silent_step k k' → I k → I k'.
Proof.
  induction 1 as [|k1 k2 k3 Hs _ IH]; [done|].
  intros H1. apply IH. destruct Hs. by apply (ek_silent _ _ _ _ HI).
Qed.

Lemma kernel_quiet w w' : quiet w w' → I (w_os w) → I (w_os w').
Proof. intros Hq. apply kernel_silent, Hq. Qed.

Lemma kernel_read fd size r w w' : did (SRead fd size) r w w' → I (w_os w) → I (w_os w').
Proof. intros Hd Hk. pose proof (ek_read _ _ _ _ HI fd size _ Hk) as Hr. by rewrite (did_step _ _ _ _ Hd) in Hr. Qed.

(** Progress of the loop over the sources: the reads issued since [w0]. *)
Record reading w0 w (es : list event) : Prop := {
  rd_mem : same_mem w0 w;
  rd_kernel : I (w_os w);
  rd_effects : effects w = effects w0 ++ es;
  rd_os : os_path es (w_os w0) (w_os w)
}.

Lemma reading_step w0 w es fd size r w1 w2 :
  reading w0 w es → did (SRead fd size) r w w1 → quiet w1 w2 →
  reading w0 w2 (es ++ [Ev (SRead fd size) r]).
Proof.
  intros [Hm Hk He Hp] Hd Hq. split.
  - etrans; [exact Hm|]. etrans; [apply Hd|apply Hq].
  - eapply kernel_quiet; [done|]. by eapply kernel_read.
  - rewrite (quiet_effects _ _ Hq), (did_effects _ _ _ _ Hd), He. by rewrite app_assoc.
  - eapply os_path_app; [exact Hp|]. rewrite <-(app_nil_r [_]).
    eapply os_path_app; [apply (ran_os _ _ _ (ran_did _ _ _ _ Hd))|apply (ran_os _ _ _ (ran_quiet _ _ Hq))].
Qed.

Lemma reading_ran w0 w es : reading w0 w es → ran es w0 w.
Proof. by intros [_ _ ? ?]. Qed.

Lemma afu_reads_snoc rs r : afu_reads a (rs ++ [r]) = afu_reads a rs ++ [Ev (SRead (afu_fd a) event_size) r].
Proof. unfold afu_reads. by rewrite fmap_app. Qed.

Lemma reports_snoc evs rs r :
  evs ++ omap afu_report (rs ++ [r]) = (evs ++ omap afu_report rs) ++ option_list (afu_report r).
Proof. rewrite omap_app, app_assoc. simpl. by destruct (afu_report r). Qed.

(** The reads of the device for one source: [rs] so far. *)
Lemma wpx_read_afu_events (U D : Prop) n evs w0 es Q :
  afu_inv w0 p a areas irqs → Z.of_nat n <= UINT16_MAX →
  (∀ rs r e k, Forall going rs → os_path (es ++ afu_reads a (rs ++ [r])) (w_os w0) k →
     length (evs ++ omap afu_report rs) = n → afu_report r = Some e → U) →
  (∀ rs r w', Forall going rs → event_ok r = false → reading w0 w' (es ++ afu_reads a (rs ++ [r])) →
     (length (evs ++ omap afu_report rs) <= n)%nat → Q (true, filled n (evs ++ omap afu_report rs)) w') →
  (∀ rs r w', Forall going rs → ended r → reading w0 w' (es ++ afu_reads a (rs ++ [r])) →
     (length (evs ++ omap afu_report (rs ++ [r])) <= n)%nat →
     Q (false, filled n (evs ++ omap afu_report (rs ++ [r]))) w') →
  ∀ fuel rs w, Forall going rs → reading w0 w (es ++ afu_reads a rs) →
    (length (evs ++ omap afu_report rs) <= n)%nat →
    (∀ rs' k, Forall going rs' → length rs' = (length rs + fuel)%nat →
       os_path (es ++ afu_reads a rs') (w_os w0) k → D) →
    wpx U D (read_afu_events fuel p 0 (filled n (evs ++ omap afu_report rs))) Q w.
Proof.
  intros Hi Hn HU Hfail Hdone. induction fuel as [|fuel IH]; intros rs w Hg Hr Hl HD.
  { apply (HD rs (w_os w)); [done|lia|apply Hr]. }
  assert (afu_inv w p a areas irqs) as Hi' by (eapply afu_inv_same_mem; [apply Hr|done]).
  simpl read_afu_events. apply wpx_bind_wp. eapply wp_read_afu_event; [eauto with ocxl|by eapply afu_inv_report|].
  intros r res w1 w' Hd Hq Hv. pose proof (reading_step _ _ _ _ _ _ _ _ Hr Hd Hq) as Hr'.
  rewrite <-app_assoc, <-afu_reads_snoc in Hr'. pose proof (reports_snoc evs rs r) as Hsn.
  assert (∀ b, event_ok r = true → last_event r.2 = b →
    (length (evs ++ omap afu_report (rs ++ [r])) <= n)%nat →
    wpx U D (if b then mret (false, filled n (evs ++ omap afu_report (rs ++ [r])))
             else read_afu_events fuel p 0 (filled n (evs ++ omap afu_report (rs ++ [r])))) Q w') as Hnext.
  { intros [] Hok Hlast Hl'; [apply wpx_ret, Hdone; [done|by right|done..]|].
    apply IH; [apply Forall_app; by repeat constructor|done|done|]. intros rs' k Hg' Hlen.
    apply HD; [done|]. rewrite Hlen, length_app. simpl. lia. }
  inversion Hv as [E|E|E E'|e E E']; subst.
  - apply wpx_ret. by eapply Hfail.
  - assert (afu_report r = None) as E'.
    { destruct (afu_report r) eqn:E'; [|done]. apply afu_report_ok in E'. unfold event_ok in E'.
      by rewrite (proj2 (Z.leb_gt 0 r.1) E) in E'. }
    apply wpx_ret. rewrite E' in Hsn. simpl in Hsn. rewrite app_nil_r in Hsn. rewrite <-Hsn.
    apply Hdone; [done|by left|done|by rewrite Hsn].
  - rewrite E' in Hsn. simpl in Hsn. rewrite app_nil_r in Hsn. rewrite <-Hsn. apply Hnext; [done..|by rewrite Hsn].
  - rewrite E' in Hsn. simpl in Hsn. apply wpx_bind, wpx_push_event; [done|done| |].
    + intros Hfull. eapply HU; [exact Hg|apply Hr'|done|done].
    + intros Hlt. rewrite <-Hsn. apply Hnext; [done|done|]. rewrite Hsn, length_app. simpl. lia.
Qed.

(** One eventfd. *)
Lemma wpx_read_irq_event (U D : Prop) n evs m i w Q :
  afu_inv w p a areas irqs → I (w_os w) → irqs !! m = Some i →
  (length evs <= n)%nat → Z.of_nat n <= UINT16_MAX →
  (∀ r e w1, did (SRead (irq_eventfd i) 8) r w w1 → length evs = n → irq_report i r = Some e → U) →
  (∀ r w1 w', did (SRead (irq_eventfd i) 8) r w w1 → quiet w1 w' →
     (length (evs ++ option_list (irq_report i r)) <= n)%nat →
     Q (filled n (evs ++ option_list (irq_report i r))) w') →
  wpx U D (read_irq_event p (irq_at a m) (filled n evs)) Q w.
Proof.
  intros Hi Hk Hm Hl Hn HU HQ. apply wpx_bind_wp.
  eapply wp_irq_get; [eauto with ocxl|done|]. apply wpx_bind_wp, wp_call; [done|].
  intros [l buf] w1 Hd. specialize (λ w', HQ _ _ w' Hd). specialize (HU _ (OCXL_EVENT_IRQ
    (mk_event_irq (irq_number i) (irq_addr i) (irq_info i) (of_native_bytes buf))) _ Hd).
  unfold irq_report in HQ, HU. simpl in HQ, HU.
  assert (afu_inv w1 p a areas irqs) as Hi1 by (eapply afu_inv_same_mem; [apply Hd|done]).
  destruct (ek_eventfd _ _ _ _ HI _ _ _ _ _ _ Hm Hk (did_step _ _ _ _ Hd)) as [Hneg| ->].
  - rewrite (proj2 (Z.ltb_lt l 0) Hneg). rewrite (proj2 (Z.eqb_neq l 8)) in HQ by lia.
    apply wp_wpx, wp_bind, wp_errno_args. intros e w2 Hq2.
    apply wp_bind, wp_errmsg; [eapply can_report_quiet; [done|by eapply afu_inv_report]|done|].
    intros w3 Hq3. apply wp_ret. simpl in HQ. rewrite app_nil_r in HQ. apply HQ; [by etrans|done].
  - simpl. apply wpx_bind, wpx_push_event; [done|done|by intros Hf; apply HU|].
    intros Hlt. apply wp_wpx, wp_bind. eapply wp_TRACE; [eauto with ocxl|done|].
    intros w2 Hq2. apply wp_ret, HQ; [done|]. rewrite length_app. simpl. lia.
Qed.

(** The loop over the sources: [pre] were read before. *)
Lemma wpx_check_sources (U D : Prop) fuel n all w0 Q :
  afu_inv w0 p a areas irqs → Z.of_nat n <= UINT16_MAX →
  (∀ es k, os_path es (w_os w0) k → overflowed p a irqs n all es → U) →
  (∀ es k, os_path es (w_os w0) k → starved p a irqs fuel all es → D) →
  (∀ es evs w', reading w0 w' es → device_failed p a irqs all es evs → (length evs <= n)%nat →
     Q (true, filled n evs) w') →
  (∀ es evs w', reading w0 w' es → reported p a irqs all es evs → (length evs <= n)%nat →
     Q (false, filled n evs) w') →
  ∀ sources pre w es evs, all = pre ++ sources → reading w0 w es → reported p a irqs pre es evs →
    Forall (current p a irqs) sources → (length evs <= n)%nat →
    wpx U D (check_sources fuel p 0 sources (filled n evs)) Q w.
Proof.
  intros Hi Hn HU HD Hf Hok.
  induction sources as [|s sources IH]; intros pre w es evs -> Hr Hrep Hs Hl.
  { rewrite app_nil_r in Hok. apply wpx_ret. by eapply Hok. }
  apply Forall_cons_1 in Hs as [Hs Hss].
  assert (afu_inv w p a areas irqs) as Hi' by (eapply afu_inv_same_mem; [apply Hr|done]).
  simpl check_sources. apply wpx_bind_wp. destruct Hs as [|m i Hm Hfd]; simpl get_fd_info.
  - apply wp_bind. eapply wp_get_afu; [eauto with ocxl|]. apply wp_ret.
    rewrite (ai_source _ _ _ _ _ Hi'). apply wpx_bind.
    assert (∀ rs, Forall going rs → afu_reading p a irqs (pre ++ AfuFdInfo p :: sources) rs
      (es ++ afu_reads a rs) (evs ++ omap afu_report rs)) as Hrd.
    { intros rs Hg. split; [done|]. by exists pre, sources, es, evs. }
    rewrite <-(app_nil_r evs) at 1. change (evs ++ []) with (evs ++ omap afu_report []).
    eapply (wpx_read_afu_events U D n evs w0 es _ Hi Hn).
    + intros rs r e k Hg Hp Hfull He. eapply HU; [exact Hp|]. rewrite afu_reads_snoc, app_assoc.
      by eapply overflowed_afu; [apply Hrd|..].
    + intros rs r w' Hg He Hr' Hl'. apply wpx_ret. eapply Hf; [exact Hr'| |done].
      exists rs, r, (es ++ afu_reads a rs). rewrite afu_reads_snoc, app_assoc. auto.
    + intros rs r w' Hg He Hr' Hl'. eapply (IH (pre ++ [AfuFdInfo p])); [by rewrite <-app_assoc|exact Hr'| |done|done].
      by apply reported_snoc_afu.
    + constructor.
    + simpl. by rewrite app_nil_r.
    + simpl. by rewrite app_nil_r.
    + intros rs k Hg Hlen Hp. eapply HD; [exact Hp|]. exists rs, (evs ++ omap afu_report rs). auto.
  - apply wp_bind. eapply wp_irq_get; [eauto with ocxl|done|]. apply wp_ret.
    rewrite Hfd. simpl. apply wpx_bind, wpx_read_irq_event with (i := i); [done|apply Hr|done|done|done|..].
    + intros r e w1 Hd Hfull He. eapply HU; [|by eapply overflowed_irq].
      apply (reading_step _ _ _ _ _ _ _ _ Hr Hd ltac:(reflexivity)).
    + intros r w1 w' Hd Hq Hl'. pose proof (reading_step _ _ _ _ _ _ _ _ Hr Hd Hq) as Hr'.
      eapply (IH (pre ++ [IrqFdInfo (irq_at a m)])); [by rewrite <-app_assoc|exact Hr'| |done|done].
      by apply reported_snoc_irq.
Qed.

End kernel.

(** The effects and the answer of a check for up to [n] events. *)
Inductive check_outcome (p : ptr) (a : ocxl_afu) (irqs : list ocxl_irq) (n timeout : Z) :
    list event → Z → list (option ocxl_event) → Prop :=
| check_no_memory : check_outcome p a irqs n timeout [] (-1) (replicate (Z.to_nat n) None)
| check_wait_failed sources :
    check_outcome p a irqs n timeout
      [Ev (SEpollWait (afu_epoll_fd a) n timeout) (-1, sources)] (-1) (replicate (Z.to_nat n) None)
| check_read_failed count sources es evs :
    device_failed p a irqs (take (Z.to_nat count) sources) es evs →
    check_outcome p a irqs n timeout
      (Ev (SEpollWait (afu_epoll_fd a) n timeout) (count, sources) :: es) (-1)
      (ev_events (filled (Z.to_nat n) evs))
| check_done count sources es evs :
    reported p a irqs (take (Z.to_nat count) sources) es evs → 0 <= count <= n →
    Z.of_nat (length evs) <= n →
    check_outcome p a irqs n timeout
      (Ev (SEpollWait (afu_epoll_fd a) n timeout) (count, sources) :: es)
      (Z.of_nat (length evs)) (ev_events (filled (Z.to_nat n) evs)).

(** From the state [k], the kernel hands out one event more than there is room
    for, or [fuel] events of the device in a row of which none is the last. *)
Definition overflows (p : ptr) (a : ocxl_afu) (irqs : list ocxl_irq) (n timeout : Z) (k : K) : Prop :=
  ∃ count sources es k',
    os_path (Ev (SEpollWait (afu_epoll_fd a) n timeout) (count, sources) :: es) k k' ∧
    overflowed p a irqs (Z.to_nat n) (take (Z.to_nat count) sources) es.

Definition starves (p : ptr) (a : ocxl_afu) (irqs : list ocxl_irq) (n timeout : Z) (fuel : nat) (k : K) : Prop :=
  ∃ count sources es k',
    os_path (Ev (SEpollWait (afu_epoll_fd a) n timeout) (count, sources) :: es) k k' ∧
    starved p a irqs fuel (take (Z.to_nat count) sources) es.

Lemma wpx_wait_events I fuel w p a areas irqs timeout n Q :
  event_kernel I p a irqs → I (w_os w) → afu_inv w p a areas irqs → 0 <= n <= UINT16_MAX →
  n <= afu_epoll_event_count a →
  (∀ rc evs es w', same_mem w w' → ran es w w' → I (w_os w') →
     check_outcome p a irqs n timeout es rc evs → Q (rc, evs) w') →
  wpx (overflows p a irqs n timeout (w_os w)) (starves p a irqs n timeout fuel (w_os w))
    (wait_events fuel p timeout n 0) Q w.
Proof.
  intros HI Hk Hi Hn Hc HQ. apply wpx_bind_wp. eapply wp_get_afu; [eauto with ocxl|].
  apply wpx_bind_wp, wp_call; [done|]. intros [count sources] w1 Hd.
  assert (afu_inv w1 p a areas irqs) as Hi1 by (eapply afu_inv_same_mem; [apply Hd|done]).
  destruct (ek_wait _ _ _ _ HI _ _ _ _ _ _ (proj1 Hn) Hk (did_step _ _ _ _ Hd)) as [Hk1 Hw].
  destruct (Z.eqb_spec count (-1)) as [->|Hne].
  { apply wp_wpx, wp_bind, wp_errno_args. intros e w2 Hq2.
    apply wp_bind, wp_errmsg; [eapply can_report_quiet; [done|by eapply afu_inv_report]|done|].
    intros w3 Hq3. apply wp_ret. assert (quiet w1 w3) as Hq by (by etrans).
    eapply HQ; [etrans; [apply Hd|apply Hq]| |by eapply kernel_quiet|apply check_wait_failed].
    eapply ran_cons; [done|by apply ran_quiet]. }
  destruct Hw as [?|(Hc1 & Hc2 & Hs)]; [done|].
  destruct (Z.ltb_spec (Z.of_nat (length sources)) count); [lia|].
  destruct (Z.ltb_spec (afu_epoll_event_count a) count); [lia|]. simpl.
  assert (mk_events (replicate (Z.to_nat n) None) 0 = filled (Z.to_nat n) []) as ->
    by (unfold filled; by rewrite Nat.sub_0_r).
  apply wpx_bind. eapply (wpx_check_sources I p a areas irqs HI _ _ fuel (Z.to_nat n)
    (take (Z.to_nat count) sources) w1 _ Hi1); [lia|..|exact (eq_sym (app_nil_l _))| |constructor|done|simpl; lia].
  - intros es k Hp Ho. exists count, sources, es, k. split; [|done].
    eapply path_effect; [apply (did_step _ _ _ _ Hd)|done].
  - intros es k Hp Ho. exists count, sources, es, k. split; [|done].
    eapply path_effect; [apply (did_step _ _ _ _ Hd)|done].
  - intros es evs w2 Hr Hfail Hl. apply wpx_ret. eapply HQ; [etrans; [apply Hd|apply Hr]| |apply Hr|].
    + eapply ran_cons; [done|by eapply reading_ran].
    + by apply check_read_failed.
  - intros es evs w2 Hr Hrep Hl. simpl.
    assert (afu_inv w2 p a areas irqs) as Hi2 by (eapply afu_inv_same_mem; [apply Hr|done]).
    apply wp_wpx, wp_bind. eapply wp_TRACE; [eauto with ocxl|done|]. intros w3 Hq3. apply wp_ret.
    eapply HQ; [etrans; [apply Hd|etrans; [apply Hr|apply Hq3]]| |eapply kernel_quiet; [done..|apply Hr]|].
    + eapply ran_cons; [done|]. eapply ran_quiet_r; [by eapply reading_ran|done].
    + apply check_done; [done|done|lia].
  - split; [done|done|by rewrite app_nil_r|constructor].
Qed.

(** ** The buffer for [epoll_wait] *)

(** The record with another buffer. *)
Definition with_epoll (a : ocxl_afu) (events : ptr) (n : Z) : ocxl_afu :=
  a <| afu_epoll_events := events |> <| afu_epoll_event_count := n |>.

Record epoll_frame w w' (p : ptr) (a : ocxl_afu) (events : ptr) (n : Z) : Prop := {
  ef_heap q : q ≠ p → q ≠ afu_epoll_events a → q ≠ events → w_heap w' !! q = w_heap w !! q;
  ef_new : events = NULL ∨ events = afu_epoll_events a ∨ w_heap w !! events = None;
  ef_next : w_next w <= w_next w';
  ef_effects : effects w' = effects w;
  ef_os : rtc silent_step (w_os w) (w_os w')
}.

(** The invariant of an AFU with another buffer. *)
Lemma afu_inv_epoll w w' p a areas irqs events n :
  afu_inv w p a areas irqs → heap_wf w' → w_heap w' !! p = Some (HAfu (with_epoll a events n)) →
  epoll_at w' events n →
  (∀ q o, w_heap w !! q = Some o → (∀ x, o ≠ HAfu x) → (∀ m, o ≠ HEpollEvents m) →
     w_heap w' !! q = Some o) →
  afu_inv w' p (with_epoll a events n) areas irqs.
Proof.
  intros Hi Hw' Hp He Hkeep.
  destruct Hi as [[_ Hn [_ Hd] [[rest [Hb Hmax]] Hc Hl Hbd]] [[rest' [Hb' Hmax']] Hc' Hl' Hbd'] Hs Hpp _ Hmf Hso].
  split; [split; [done|done| |]| | |done|done|done|done].
  - split; [done|]. destruct Hd as [?|[s Hd]]; [by left|right; exists s; by apply Hkeep].
  - split; [|done..]. exists rest. split; [|done]. destruct Hb as [?|[? Hb]]; [by left|right].
    split; [done|by apply Hkeep].
  - split; [|done..]. exists rest'. split; [|done]. destruct Hb' as [?|[? Hb']]; [by left|right].
    split; [done|by apply Hkeep].
  - destruct Hs as [?|[s Hs]]; [by left|right; exists s; by apply Hkeep].
Qed.

(** The state once the old buffer is given back. *)
Lemma wp_drop_epoll {A} (m : M K A) w p a areas irqs Q :
  afu_inv w p a areas irqs →
  (∀ w', afu_inv w' p (with_epoll a NULL 0) areas irqs → epoll_frame w w' p a NULL 0 → wp m Q w') →
  wp (free (afu_epoll_events a) ;;
      set_afu p (λ a, a <| afu_epoll_events := NULL |> <| afu_epoll_event_count := 0 |>) ;; m) Q w.
Proof.
  intros Hi HQ. pose proof (afu_inv_lookup _ _ _ _ _ Hi) as Hp.
  pose proof (mi_heap _ _ _ _ (ai_mmio _ _ _ _ _ Hi)) as Hw.
  set (h := if afu_epoll_events a =? NULL then w else upd_heap (delete (afu_epoll_events a)) w).
  assert (∀ q, q ≠ afu_epoll_events a → w_heap h !! q = w_heap w !! q) as Hh.
  { intros q Hq. subst h. destruct (_ =? _); [done|]. by apply lookup_delete_ne. }
  assert (p ≠ afu_epoll_events a) as Hpe.
  { intros E. destruct (ai_epoll _ _ _ _ _ Hi) as [[Hn _]|(_ & _ & Ho)]; [|congruence].
    by apply (mi_null _ _ _ _ (ai_mmio _ _ _ _ _ Hi)); rewrite E. }
  apply wp_bind, wp_free.
  { destruct (ai_epoll _ _ _ _ _ Hi) as [[? _]|(_ & _ & ?)]; [by left|right; eauto]. }
  fold h. apply wp_bind. eapply wp_set_afu; [rewrite Hh; done|]. apply HQ.
  - eapply afu_inv_epoll; [exact Hi| |apply heap_upd_eq|by left|].
    + apply heap_wf_insert; [rewrite Hh by done; eauto|]. subst h.
      destruct (_ =? _); [done|by apply heap_wf_delete].
    + intros q o Hq Ho1 Ho2. rewrite heap_upd_ne by (intros ->; naive_solver). rewrite Hh; [done|].
      intros ->. destruct (ai_epoll _ _ _ _ _ Hi) as [[E _]|(_ & _ & Ho)].
      * by rewrite E, (heap_wf_null _ Hw) in Hq.
      * rewrite Ho in Hq. injection Hq as <-. by eapply Ho2.
  - split; [|by left|subst h; by destruct (_ =? _)..].
    intros q Hq1 Hq2 _. rewrite heap_upd_ne by done. by apply Hh.
Qed.

Lemma epoll_frame_quiet w1 w2 w3 p a events n :
  epoll_frame w1 w2 p a events n → quiet w2 w3 → epoll_frame w1 w3 p a events n.
Proof.
  intros [Hh Hn Hx He Ho] [[Eh En _] Ee Eo]. split; [by rewrite Eh|done|lia|by rewrite Ee|by etrans].
Qed.

Lemma wp_reserve_epoll_events w p a areas irqs n Q :
  afu_inv w p a areas irqs → 0 <= n →
  (∀ w', afu_inv w' p (with_epoll a NULL 0) areas irqs → epoll_frame w w' p a NULL 0 → Q false w') →
  (∀ events m w', afu_inv w' p (with_epoll a events m) areas irqs → n <= m →
     epoll_frame w w' p a events m → Q true w') →
  wp (reserve_epoll_events p n) Q w.
Proof.
  intros Hi Hn Hf Hok. pose proof (mi_heap _ _ _ _ (ai_mmio _ _ _ _ _ Hi)) as Hw.
  apply wp_bind. eapply wp_get_afu; [eauto with ocxl|].
  destruct (Z.leb_spec n (afu_epoll_event_count a)) as [Hle|Hlt].
  { apply wp_ret. assert (with_epoll a (afu_epoll_events a) (afu_epoll_event_count a) = a) as E
      by (by destruct a).
    apply (Hok (afu_epoll_events a) (afu_epoll_event_count a) w); [by rewrite E|done|].
    split; [done|by right; left|done..]. }
  eapply wp_drop_epoll; [done|]. intros w1 Hi1 Hf1.
  pose proof (mi_heap _ _ _ _ (ai_mmio _ _ _ _ _ Hi1)) as Hw1.
  apply wp_bind, wp_malloc; intros w2 Hq; pose proof (epoll_frame_quiet _ _ _ _ _ _ _ Hf1 Hq) as Hf2;
    pose proof (afu_inv_same_mem _ _ _ _ _ _ (quiet_mem _ _ Hq) Hi1) as Hi2.
  - simpl. apply wp_bind, wp_errmsg; [eauto with ocxl|done|]. intros w3 Hq3. apply wp_ret, Hf.
    + by eapply afu_inv_same_mem; [apply Hq3|].
    + by eapply epoll_frame_quiet.
  - pose proof (sm_next _ _ (quiet_mem _ _ Hq)) as En. rewrite <-En.
    pose proof (mi_heap _ _ _ _ (ai_mmio _ _ _ _ _ Hi2)) as Hw2.
    pose proof (heap_wf_fresh _ Hw2) as Hfr. pose proof (afu_inv_lookup _ _ _ _ _ Hi2) as Hp2.
    assert (w_next w2 ≠ NULL) as Hnn by (destruct Hw2; unfold NULL; lia).
    assert (p ≠ w_next w2) as Hpn by (intros E; rewrite <-E in Hfr; congruence).
    rewrite (proj2 (Z.eqb_neq _ _) Hnn). apply wp_bind.
    eapply wp_set_afu; [simpl; rewrite lookup_insert_ne; [exact Hp2|congruence]|]. apply wp_ret.
    apply (Hok (w_next w2) n); [|done|].
    + eapply (afu_inv_epoll w2 _ p (with_epoll a NULL 0)); [exact Hi2| |apply heap_upd_eq| |].
      * apply heap_wf_insert; [simpl; rewrite lookup_insert_ne by congruence; eauto|].
        by apply heap_wf_alloc.
      * right. split_and!; [done|done|]. rewrite heap_upd_ne by exact Hpn. apply lookup_insert_eq.
      * intros q o Hq1 Ho1 Ho2. rewrite heap_upd_ne by (intros ->; naive_solver).
        simpl. rewrite lookup_insert_ne by congruence. done.
    + split.
      * intros q Hq1 Hq2 Hq3. rewrite heap_upd_ne by done. simpl. rewrite lookup_insert_ne by done.
        destruct (decide (q = NULL)) as [->|Hq0]; [|by apply (ef_heap _ _ _ _ _ _ Hf2)].
        by rewrite (heap_wf_null _ Hw), (heap_wf_null _ Hw2).
      * right. right. destruct (w_heap w !! w_next w2) eqn:E; [|done].
        destruct Hw as [_ Hlt']. destruct (Hlt' (w_next w2)); [eauto|].
        pose proof (ef_next _ _ _ _ _ _ Hf2). lia.
      * pose proof (ef_next _ _ _ _ _ _ Hf2). simpl. lia.
      * apply (ef_effects _ _ _ _ _ _ Hf2).
      * apply (ef_os _ _ _ _ _ _ Hf2).
Qed.

(** ** The whole check *)

(** The buffer for [epoll_wait] plays no part in what is reported. *)
Lemma current_epoll p a irqs events n s : current p a irqs s → current p (with_epoll a events n) irqs s.
Proof. destruct 1 as [|m i Hm Hf]; [constructor|]. by apply (current_irq p (with_epoll a events n) irqs m i). Qed.

Lemma event_kernel_epoll I p a irqs events n :
  event_kernel I p a irqs → event_kernel I p (with_epoll a events n) irqs.
Proof.
  intros [H1 H2 H3 H4]. split; [done|done| |done].
  intros m timeout k count sources k' Hm Hk E. destruct (H3 _ _ _ _ _ _ Hm Hk E) as [Hk' [?|(? & ? & Hf)]];
    split; auto. right. split_and!; [lia..|]. eapply Forall_impl; [|exact Hf]. intros s. apply current_epoll.
Qed.

Lemma reported_epoll p a irqs events n sources es evs :
  reported p (with_epoll a events n) irqs sources es evs → reported p a irqs sources es evs.
Proof.
  induction 1; [constructor|by apply (reported_afu p a irqs rs r)|by apply (reported_irq p a irqs n0)].
Qed.

Lemma afu_reading_epoll p a irqs events n sources rs es evs :
  afu_reading p (with_epoll a events n) irqs sources rs es evs → afu_reading p a irqs sources rs es evs.
Proof.
  intros (Hg & pre & rest & es' & evs' & -> & Hr & E). split; [done|]. exists pre, rest, es', evs'.
  split_and!; [done|by eapply reported_epoll|apply E..].
Qed.

Lemma check_outcome_epoll p a irqs events m n timeout es rc evs :
  check_outcome p (with_epoll a events m) irqs n timeout es rc evs →
  check_outcome p a irqs n timeout es rc evs.
Proof.
  destruct 1 as [| |count sources es evs Hf|count sources es evs Hr Hl].
  - constructor.
  - apply (check_wait_failed p a).
  - apply (check_read_failed p a). destruct Hf as (rs & r & es' & Hr & E). exists rs, r, es'.
    split; [by eapply afu_reading_epoll|exact E].
  - by apply (check_done p a); [eapply reported_epoll|..].
Qed.

Lemma overflows_epoll p a irqs events m n timeout k :
  overflows p (with_epoll a events m) irqs n timeout k → overflows p a irqs n timeout k.
Proof.
  intros (count & sources & es & k' & Hp & Ho). exists count, sources, es, k'. split; [exact Hp|].
  destruct Ho as [rs r e es evs Hr|pre rest l i r e es evs Hs Hi Hr].
  - by apply (overflowed_afu p a irqs _ _ rs r e _ evs); [eapply afu_reading_epoll|..].
  - by apply (overflowed_irq p a irqs _ _ pre rest l i r e _ evs); [..|eapply reported_epoll| |].
Qed.

Lemma starves_epoll p a irqs events m n timeout fuel k :
  starves p (with_epoll a events m) irqs n timeout fuel k → starves p a irqs n timeout fuel k.
Proof.
  intros (count & sources & es & k' & Hp & rs & evs & Hr & Hl). exists count, sources, es, k'.
  split; [exact Hp|]. exists rs, evs. split; [by eapply afu_reading_epoll|done].
Qed.

(** What silent operations before the wait lead to. *)
Lemma overflows_silent p a irqs n timeout k k' :
  rtc silent_step k k' → overflows p a irqs n timeout k' → overflows p a irqs n timeout k.
Proof.
  intros Hs (count & sources & es & k2 & Hp & Ho). exists count, sources, es, k2. split; [|done].
  by eapply (os_path_app []); [apply os_path_silent|].
Qed.

Lemma starves_silent p a irqs n timeout fuel k k' :
  rtc silent_step k k' → starves p a irqs n timeout fuel k' → starves p a irqs n timeout fuel k.
Proof.
  intros Hs (count & sources & es & k2 & Hp & Ho). exists count, sources, es, k2. split; [|done].
  by eapply (os_path_app []); [apply os_path_silent|].
Qed.

Lemma wpx_event_check I fuel w p a areas irqs timeout n Q :
  event_kernel I p a irqs → I (w_os w) → afu_inv w p a areas irqs → 0 <= n <= UINT16_MAX →
  (∀ rc evs es events m w', afu_inv w' p (with_epoll a events m) areas irqs →
     (∀ q, q ≠ p → q ≠ afu_epoll_events a → q ≠ events → w_heap w' !! q = w_heap w !! q) →
     (events = NULL ∨ events = afu_epoll_events a ∨ w_heap w !! events = None) →
     ran es w w' → I (w_os w') → check_outcome p a irqs n timeout es rc evs → Q (rc, evs) w') →
  wpx (overflows p a irqs n timeout (w_os w)) (starves p a irqs n timeout fuel (w_os w))
    (ocxl_afu_event_check_versioned fuel p timeout n 0) Q w.
Proof.
  intros HI Hk Hi Hn HQ. apply wpx_bind_wp. eapply wp_TRACE; [eauto with ocxl|done|]. intros w1 Hq1.
  assert (afu_inv w1 p a areas irqs) as Hi1 by (eapply afu_inv_same_mem; [apply Hq1|done]).
  pose proof (sm_heap _ _ (quiet_mem _ _ Hq1)) as Eh. pose proof (quiet_effects _ _ Hq1) as Ee.
  assert (∀ es rc evs events m w2 w3, epoll_frame w1 w2 p a events m → same_mem w2 w3 →
    afu_inv w3 p (with_epoll a events m) areas irqs → ran es w2 w3 → I (w_os w3) →
    check_outcome p a irqs n timeout es rc evs → Q (rc, evs) w3) as Hdone.
  { intros es rc evs events m w2 w3 Hf Hm Hi3 E3 Hk3 Hc. eapply HQ; [exact Hi3| | | |exact Hk3|exact Hc].
    - intros q ???. rewrite (sm_heap _ _ Hm), (ef_heap _ _ _ _ _ _ Hf) by done. by rewrite Eh.
    - destruct (ef_new _ _ _ _ _ _ Hf) as [?|[?|?]]; [by left|by right; left|right; right; by rewrite <-Eh].
    - eapply ran_quiet_l; [done|]. apply (ran_trans [] es _ w2); [|done].
      split; [by rewrite app_nil_r; apply Hf|apply os_path_silent, Hf]. }
  apply wpx_bind_wp. eapply wp_reserve_epoll_events; [exact Hi1|lia|..].
  { intros w2 Hi2 Hf2. apply wpx_ret. eapply (Hdone []); [done|done|done|apply ran_refl| |constructor].
    eapply kernel_silent; [exact HI|apply (ef_os _ _ _ _ _ _ Hf2)|]. by eapply kernel_quiet. }
  intros events m w2 Hi2 Hm Hf2. simpl negb. cbn iota.
  assert (rtc silent_step (w_os w) (w_os w2)) as Hsil by (etrans; [apply Hq1|apply Hf2]).
  eapply wpx_mono; [intros Ho; eapply overflows_silent; [exact Hsil|by eapply (overflows_epoll _ _ _ events m)]
                   |intros Ho; eapply starves_silent; [exact Hsil|by eapply (starves_epoll _ _ _ events m)]
                   |intros r w' HQ'; exact HQ'|].
  eapply (wpx_wait_events I); [by apply event_kernel_epoll| |exact Hi2|done|done|].
  { by eapply kernel_silent. }
  intros rc evs es w3 Hm3 E3 Hk3 Hc. eapply Hdone; [done|done| |done|done|by eapply check_outcome_epoll].
  by eapply afu_inv_same_mem.
Qed.

(** A check that neither overflows nor starves returns. *)
Lemma wp_event_check I fuel w p a areas irqs timeout n Q :
  event_kernel I p a irqs → I (w_os w) → afu_inv w p a areas irqs → 0 <= n <= UINT16_MAX →
  ¬ overflows p a irqs n timeout (w_os w) → ¬ starves p a irqs n timeout fuel (w_os w) →
  (∀ rc evs es events m w', afu_inv w' p (with_epoll a events m) areas irqs →
     (∀ q, q ≠ p → q ≠ afu_epoll_events a → q ≠ events → w_heap w' !! q = w_heap w !! q) →
     (events = NULL ∨ events = afu_epoll_events a ∨ w_heap w !! events = None) →
     ran es w w' → I (w_os w') → check_outcome p a irqs n timeout es rc evs → Q (rc, evs) w') →
  wp (ocxl_afu_event_check_versioned fuel p timeout n 0) Q w.
Proof.
  intros HI Hk Hi Hn Ho Hs HQ. apply wpx_wp.
  eapply wpx_mono; [exact Ho|exact Hs|intros r w' HQ'; exact HQ'|]. by eapply wpx_event_check.
Qed.

(** A read of the device that makes the loop go on.  A kernel in which a rank
    falls with each of them does not starve a check with more fuel than that. *)
Definition going_read (a : ocxl_afu) (e : event) : bool :=
  match e with
  | Ev c r =>
      match c in sys R return R → bool with
      | SRead fd size => λ r, (fd =? afu_fd a) && (size =? event_size) && event_ok r && negb (last_event r.2)
      | _ => λ _, false
      end r
  end.

Lemma going_hits a rs : Forall going rs → hits (going_read a) (afu_reads a rs) = length rs.
Proof.
  unfold hits. induction 1 as [|r rs [E1 E2] _ IH]; [done|]. simpl.
  rewrite !Z.eqb_refl, E1, E2. simpl. by rewrite <-IH.
Qed.

Lemma ranked_no_starve rank p a irqs n timeout fuel k `{!Ranked rank (going_read a)} :
  (rank k < fuel)%nat → ¬ starves p a irqs n timeout fuel k.
Proof.
  intros Hlt (count & sources & es & k' & Hp & rs & evs & (Hg & pre & rest & es' & evs' & _ & _ & -> & _) & Hl).
  apply (rank_path rank (going_read a)) in Hp. rewrite app_comm_cons, hits_app, going_hits in Hp by done. lia.
Qed.

(** ** Kernels that hand out one event at a time

    When every event of the device is marked as the last one, each source is
    read once: the array cannot overflow and one step of fuel is enough. *)
Section single.
Context (I : K → Prop) (p : ptr) (a : ocxl_afu) (irqs : list ocxl_irq).
Context (HI : event_kernel I p a irqs).
Context (Hlast : ∀ k r k', I k → os_step _ (SRead (afu_fd a) event_size) k = (r, k') → ¬ going r).

(** The operations of a check, and what is known of their answers. *)
Definition check_op (e : event) : Prop :=
  let 'Ev c _ := e in
  match c with SRead _ _ => True | SEpollWait fd n _ => fd = afu_epoll_fd a ∧ 0 <= n | _ => False end.

Definition single_answer (e : event) : Prop :=
  match e with
  | Ev c r =>
      match c in sys R return R → Prop with
      | SRead fd size => λ r, fd = afu_fd a → size = event_size → ¬ going r
      | SEpollWait _ n _ => λ r, r.1 <= n
      | _ => λ _, True
      end r
  end.

Lemma single_path es k k' :
  os_path es k k' → I k → Forall check_op es → I k' ∧ Forall single_answer es.
Proof.
  induction 1 as [|k k1 k' es Hs _ IH|R c r k k1 k' es E _ IH]; intros Hk Hes; [done|..].
  { apply IH; [|done]. destruct Hs. by apply (ek_silent _ _ _ _ HI). }
  apply Forall_cons_1 in Hes as [He Hes].
  assert (I k1 ∧ single_answer (Ev c r)) as [Hk1 Ha]; [|by destruct (IH Hk1 Hes); auto].
  destruct c; try done.
  - split; [pose proof (ek_read _ _ _ _ HI fd size _ Hk) as Hr; by rewrite E in Hr|].
    intros -> ->. by eapply Hlast.
  - destruct He as [-> Hn]. destruct r as [count sources].
    destruct (ek_wait _ _ _ _ HI _ _ _ _ _ _ Hn Hk E) as [Hk1 [->|(? & _)]]; split; simpl; auto; lia.
Qed.

Lemma reads_check_op rs : Forall check_op (afu_reads a rs).
Proof. apply Forall_fmap. by apply Forall_true. Qed.

Lemma reported_check_op sources es evs : reported p a irqs sources es evs → Forall check_op es.
Proof.
  induction 1; [constructor|apply Forall_app; split; [apply reads_check_op|done]|by constructor].
Qed.

Lemma single_going rs : Forall going rs → Forall single_answer (afu_reads a rs) → rs = [].
Proof.
  intros Hg Hs. destruct rs as [|r rs]; [done|]. apply Forall_cons_1 in Hg as [Hg _].
  apply Forall_cons_1 in Hs as [Hs _]. by destruct (Hs eq_refl eq_refl).
Qed.

Lemma reported_length sources es evs :
  reported p a irqs sources es evs → Forall single_answer es → (length evs <= length sources)%nat.
Proof.
  induction 1 as [|rs r sources es evs Hg He _ IH|n i r sources es evs _ _ IH]; intros Hs; [simpl; lia|..].
  - apply Forall_app in Hs as [Hs1 Hs2]. unfold afu_reads in Hs1. rewrite fmap_app in Hs1.
    apply Forall_app in Hs1 as [Hs1 _]. rewrite (single_going rs Hg Hs1). specialize (IH Hs2).
    rewrite length_app. simpl. destruct (afu_report r); simpl; lia.
  - apply Forall_cons_1 in Hs as [_ Hs]. specialize (IH Hs). rewrite length_app.
    pose proof (length_option_list (irq_report i r)). simpl. lia.
Qed.

Lemma single_wait n timeout r es k k' :
  0 <= n → I k → os_path (Ev (SEpollWait (afu_epoll_fd a) n timeout) r :: es) k k' →
  Forall check_op es → r.1 <= n ∧ Forall single_answer es.
Proof.
  intros Hn Hk Hp Hes. destruct (single_path _ _ _ Hp Hk) as [_ Hs]; [by constructor|].
  by apply Forall_cons_1 in Hs.
Qed.

Lemma afu_reading_single sources rs es evs :
  afu_reading p a irqs sources rs es evs → Forall single_answer es →
  rs = [] ∧ (length evs < length sources)%nat.
Proof.
  intros (Hg & pre & rest & es' & evs' & -> & Hr & -> & ->) Hs. apply Forall_app in Hs as [Hs1 Hs2].
  rewrite (single_going rs Hg Hs2). apply reported_length in Hr; [|done].
  split; [done|]. simpl. rewrite app_nil_r, length_app. simpl. lia.
Qed.

Lemma single_no_overflow n timeout k : 0 <= n → I k → ¬ overflows p a irqs n timeout k.
Proof.
  intros Hn Hk (count & sources & es & k' & Hp & Ho).
  assert (length (take (Z.to_nat count) sources) <= Z.to_nat count)%nat as Hlen
    by (rewrite length_take; lia).
  destruct Ho as [rs r e es evs Hr Hl _|pre rest m i r e es evs Es Hm Hr Hl _].
  - destruct (single_wait _ _ _ _ _ _ Hn Hk Hp) as [Hc Hs].
    { destruct Hr as (_ & pre & rest & es' & evs' & _ & Hr & -> & _).
      repeat apply Forall_app_2; [by eapply reported_check_op|apply reads_check_op..]. }
    apply Forall_app in Hs as [Hs _]. apply afu_reading_single in Hr as [_ Hr]; [|done]. simpl in Hc. lia.
  - destruct (single_wait _ _ _ _ _ _ Hn Hk Hp) as [Hc Hs].
    { apply Forall_app_2; [by eapply reported_check_op|by repeat constructor]. }
    apply Forall_app in Hs as [Hs _]. apply reported_length in Hr; [|done]. simpl in Hc.
    rewrite Es, length_app in Hlen. simpl in Hlen. lia.
Qed.

Lemma single_no_starve n timeout fuel k : 0 <= n → I k → ¬ starves p a irqs n timeout (S fuel) k.
Proof.
  intros Hn Hk (count & sources & es & k' & Hp & rs & evs & Hr & Hl).
  destruct (single_wait _ _ _ _ _ _ Hn Hk Hp) as [_ Hs].
  { destruct Hr as (_ & pre & rest & es' & evs' & _ & Hr & -> & _).
    apply Forall_app_2; [by eapply reported_check_op|apply reads_check_op]. }
  apply afu_reading_single in Hr as [-> _]; done.
Qed.

End single.

End event.
