(* ===== verification/AfuClose.v ===== *)
(** * AfuClose: closing an AFU gives everything back

    The two loops of [ocxl_afu_close] and what is left of the AFU, in the
    kernel and on the heap, when it returns. *)

From S2P Require Import Prelude Format Types World Logic Messages Buffer Ledger Mmio MmioFacts.
From S2P Require Import MmioAccess Irq IrqFacts IrqTable Event Names Afu AfuInv.
Open Scope Z_scope.

Section close.
Context {K : Type} `{Platform K} `{Abi}.
Implicit Types (w : world K).

(** Only the block [b] of the heap changed. *)
Record only_block (b : ptr) w w' : Prop := {
  ob_heap q : q ≠ b → w_heap w' !! q = w_heap w !! q;
  ob_glob : w_glob w' = w_glob w
}.

#[export] Instance only_block_preorder b : PreOrder (only_block b).
Proof.
  split; [done|]. intros w1 w2 w3 [h1 g1] [h2 g2]. split; [|congruence].
  intros q Hq. by rewrite h2, h1.
Qed.

(** The run gave the resources [rs] back. *)
Definition gave_back (rs : list resource) w w' : Prop :=
  ∀ r, balance (effects w') r = balance (effects w) r - held rs r.

Lemma gave_back_nil w w' : effects w' = effects w → gave_back [] w w'.
Proof. intros E r. rewrite E. simpl. lia. Qed.

Lemma gave_back_app rs rs' w1 w2 w3 :
  gave_back rs w1 w2 → gave_back rs' w2 w3 → gave_back (rs ++ rs') w1 w3.
Proof. intros H1 H2 r. rewrite H2, H1, held_app. lia. Qed.

Lemma gave_back_close fd rc w w' : did (SClose fd) rc w w' → gave_back (fd_resource fd) w w'.
Proof. intros Hd r. rewrite (balance_did _ _ _ _ _ Hd), close_balance. lia. Qed.

(** ** The MMIO areas *)

Lemma wp_unmap_all n idx w p a areas Q :
  mmio_inv w p a areas → Forall (λ x, area_start x ≠ MAP_FAILED) areas →
  (idx + n = length areas)%nat →
  (∀ w' areas', mmio_inv w' p a areas' → only_block (afu_mmios a) w w' →
     gave_back (areas_resources (drop idx areas)) w w' → Q tt w') →
  wp (unmap_all n p (Z.of_nat idx)) Q w.
Proof.
  revert idx w areas. induction n as [|n IH]; intros idx w areas Hi Hf Hn HQ; simpl.
  { apply wp_ret. apply (HQ w areas); [done|done|]. rewrite drop_ge by lia. by apply gave_back_nil. }
  destruct (lookup_lt_is_Some_2 areas idx) as [x Hx]; [lia|].
  pose proof (Forall_lookup_1 _ _ _ _ Hf Hx) as Hxf. simpl in Hxf.
  apply wp_bind. eapply wp_get_afu; [by eapply mmio_inv_lookup|].
  apply wp_bind. eapply (wp_mmio_unmap w p a areas idx x); [done|done|]. intros w1 Hr.
  replace (Z.of_nat idx + 1) with (Z.of_nat (S idx)) by lia.
  rewrite (drop_S _ _ _ Hx) in HQ. unfold areas_resources in HQ; cbn [fmap list_fmap mjoin list_join] in HQ.
  unfold unmap_result in Hr. destruct (Z.eqb_spec (area_start x) NULL) as [E|E].
  - subst w1. unfold area_resources at 1 in HQ. rewrite E in HQ. by apply (IH (S idx) w areas); [..|lia|].
  - destruct Hr as (rc & w0 & Hd & Hi1 & Hf1).
    apply (IH (S idx) w1 (unmapped areas idx x)); [done| |unfold unmapped; solve_length|].
    { by apply Forall_insert. }
    intros w' areas' Hi' Ho Hg. apply (HQ w' areas' Hi').
    + transitivity w1; [|done]. destruct (did_mem _ _ _ _ Hd) as [Eh En Eg]. split.
      * intros q Hq. destruct (decide (q = p)) as [->|Hqp].
        { rewrite (mmio_inv_lookup _ _ _ _ Hi1). by rewrite (mmio_inv_lookup _ _ _ _ Hi). }
        rewrite (mf_heap _ _ _ _ _ Hf1) by done. by rewrite Eh.
      * rewrite (mf_glob _ _ _ _ _ Hf1). done.
    + unfold unmapped in Hg. rewrite drop_insert_lt in Hg by lia.
      eapply gave_back_app; [|exact Hg]. intros r. rewrite (mf_effects _ _ _ _ _ Hf1).
      rewrite (balance_did _ _ _ _ _ Hd), unmap_balance by done. lia.
Qed.

(** ** The IRQs *)

Lemma irq_wrote_refl irq i l w :
  w_heap w !! irq_blk irq = Some (HIrqs l) → 0 <= irq_idx irq →
  l !! Z.to_nat (irq_idx irq) = Some (Some i) → irq_wrote irq i [] w w.
Proof.
  intros Hl Hp Hi. pose proof (lookup_lt_Some _ _ _ Hi).
  split; [|done|done|by rewrite app_nil_r]. exists l. split_and!; [done|done|lia|].
  rewrite list_insert_id by done. by rewrite insert_id.
Qed.

Lemma irq_wrote_only irq i es w w' : irq_wrote irq i es w w' → only_block (irq_blk irq) w w'.
Proof. intros Hw. split; [intros q Hq; by eapply irq_wrote_other|apply Hw]. Qed.

Lemma irq_wrote_heap_wf irq i es w w' : irq_wrote irq i es w w' → heap_wf w → heap_wf w'.
Proof.
  intros [[l (Hl & _ & E)] En _ _] [Hpos Hlt]. split; [by rewrite En|].
  intros q Hq. rewrite En. apply Hlt. rewrite E in Hq.
  destruct (decide (irq_blk irq = q)) as [<-|Hne]; [eauto|]. by rewrite lookup_insert_ne in Hq.
Qed.

Lemma wp_dealloc_all irqs pre rest w p a Q :
  heap_wf w → afu_at w p a →
  w_heap w !! afu_irqs a = Some (HIrqs (pre ++ (Some <$> irqs) ++ rest)) →
  (∀ w' l, heap_wf w' → w_heap w' !! afu_irqs a = Some (HIrqs l) → only_block (afu_irqs a) w w' →
     gave_back (irqs_resources (afu_page_size a) (afu_fd a) irqs) w w' → Q tt w') →
  wp (dealloc_all (length irqs) p (Z.of_nat (length pre))) Q w.
Proof.
  revert pre w. induction irqs as [|i irqs IH]; intros pre w Hw Ha Hb HQ; simpl.
  { apply wp_ret. eapply HQ; [done|exact Hb|done|]. by apply gave_back_nil. }
  apply wp_bind. eapply wp_get_afu; [apply Ha|].
  set (irq := mk_irq_ptr (afu_irqs a) (Z.of_nat (length pre))).
  assert (irq_wrote irq i [] w w) as Hw0.
  { eapply irq_wrote_refl; [exact Hb|simpl; lia|]. simpl. rewrite Nat2Z.id.
    rewrite lookup_app_r, Nat.sub_diag by lia. done. }
  apply wp_bind. eapply wp_irq_dealloc; [exact Hw0|exact Ha|]. intros r1 r2 r3 w1 Hw1. simpl in Hw1.
  assert (w_heap w1 !! afu_irqs a =
          Some (HIrqs ((pre ++ [Some (released i)]) ++ (Some <$> irqs) ++ rest))) as Hb1.
  { destruct (iw_heap _ _ _ _ _ Hw1) as (l & Hl & _ & E). simpl in Hl, E. rewrite Hb in Hl.
    injection Hl as <-. rewrite E, lookup_insert_eq, Nat2Z.id. simpl.
    rewrite insert_app_r_alt, Nat.sub_diag by lia. by rewrite <-app_assoc. }
  replace (Z.of_nat (length pre) + 1) with (Z.of_nat (length (pre ++ [Some (released i)])))
    by (rewrite length_app; simpl; lia).
  eapply IH; [by eapply irq_wrote_heap_wf|by eapply irq_wrote_afu|exact Hb1|].
  intros w' l Hwf' Hl' Ho Hg. eapply HQ; [done|exact Hl'| |].
  - transitivity w1; [|done]. exact (irq_wrote_only _ _ _ _ _ Hw1).
  - unfold irqs_resources. simpl. eapply gave_back_app; [|exact Hg]. intros r.
    rewrite (iw_effects _ _ _ _ _ Hw1), balance_app, dealloc_balance. lia.
Qed.

(** ** The rest of the AFU

    [closing w0 w p a m dead rs]: closing has come from [w0] to [w]; the
    record is now [a], the blocks [dead] are freed, the block [m] was written
    and the resources [rs] were given back. *)
Record closing w0 w (p : ptr) (a : ocxl_afu) (m : ptr) (dead : list ptr) (rs : list resource) : Prop := {
  cl_wf : heap_wf w;
  cl_afu : w_heap w !! p = Some (HAfu a);
  cl_live : (p ∉ dead) ∧ (m ∉ dead);
  cl_kept : p ≠ m ∧ (is_Some (w_heap w !! m) ↔ is_Some (w_heap w0 !! m));
  cl_dead q : q ∈ dead → w_heap w !! q = None;
  cl_rest q : q ≠ p → q ≠ m → q ∉ dead → w_heap w !! q = w_heap w0 !! q;
  cl_glob : w_glob w = w_glob w0;
  cl_gave : gave_back rs w0 w
}.

Lemma wp_closing_set w0 w p a m dead rs f Q :
  closing w0 w p a m dead rs → (∀ w', closing w0 w' p (f a) m dead rs → Q tt w') →
  wp (set_afu p f) Q w.
Proof.
  intros [Hw Ha Hl [Hpm Hk] Hd Hr Hg Hb] HQ. eapply wp_set_afu; [exact Ha|]. apply HQ.
  split; [apply heap_wf_insert; eauto|apply heap_upd_eq|done|by rewrite heap_upd_ne| | |done|done].
  - intros q Hq. rewrite heap_upd_ne; [by apply Hd|]. intros ->. by destruct Hl.
  - intros q Hq Hm Hnd. rewrite heap_upd_ne by done. by apply Hr.
Qed.

Lemma wp_closing_free w0 w p a m dead rs q Q :
  closing w0 w p a m dead rs → q = NULL ∨ is_Some (w_heap w !! q) → q ≠ p → q ≠ m ∨ q = NULL →
  (∀ w', closing w0 w' p a m (if decide (q = NULL) then dead else q :: dead) rs → Q tt w') →
  wp (free q) Q w.
Proof.
  intros [Hw Ha [Hl Hlm] [Hpm Hk] Hd Hr Hg Hb] Hq Hqp Hqm HQ. apply wp_free; [done|]. apply HQ.
  destruct (decide (q = NULL)) as [->|Hn]; [by split|].
  destruct (Z.eqb_spec q NULL); [done|]. destruct Hqm as [Hqm|?]; [|done].
  split; [by apply heap_wf_delete| | | | | |done|done]; simpl.
  - by rewrite lookup_delete_ne.
  - split; apply not_elem_of_cons; auto.
  - by rewrite lookup_delete_ne.
  - intros q' [->|Hq']%elem_of_cons; [apply lookup_delete_eq|].
    destruct (decide (q = q')) as [->|]; [apply lookup_delete_eq|].
    rewrite lookup_delete_ne by done. by apply Hd.
  - intros q' Hp' Hm' [Hne Hnd]%not_elem_of_cons. rewrite lookup_delete_ne by done. by apply Hr.
Qed.

Lemma wp_closing_close w0 w p a m dead rs fd Q :
  closing w0 w p a m dead rs →
  (∀ rc w', closing w0 w' p a m dead (rs ++ fd_resource fd) → Q rc w') → wp (call (SClose fd)) Q w.
Proof.
  intros [Hw Ha Hl Hk Hd Hr Hg Hb] HQ. apply wp_call; [done|]. intros rc w' Hc.
  apply (HQ rc). pose proof (did_mem _ _ _ _ Hc) as Hm. destruct (Hm) as [Eh _ Eg].
  split; rewrite ?Eh; [by eapply heap_wf_same_mem|done|done|done|done|done|congruence|].
  eapply gave_back_app; [done|by eapply gave_back_close].
Qed.

Lemma wp_closing_get w0 w p a m dead rs Q :
  closing w0 w p a m dead rs → Q a w → wp (get_afu p) Q w.
Proof. intros [] HQ. by eapply wp_get_afu. Qed.

(** Freeing one of the blocks the AFU points at, if it has it. *)
Lemma wp_closing_block w0 w p a m dead rs q f Q :
  closing w0 w p a m dead rs → q = NULL ∨ is_Some (w_heap w !! q) → q ≠ p → q ≠ m ∨ q = NULL →
  (q = NULL → f a = a) →
  (∀ w', closing w0 w' p (f a) m (if decide (q = NULL) then dead else q :: dead) rs → Q tt w') →
  wp (when (negb (q =? NULL)) (free q ;; set_afu p f)) Q w.
Proof.
  intros Hc Hq Hqp Hqm Hf HQ. destruct (Z.eqb_spec q NULL) as [->|Hn]; simpl.
  - apply wp_ret, HQ. rewrite Hf by done. by rewrite decide_True.
  - apply wp_bind. eapply wp_closing_free; [done|done|done|done|]. intros w1 Hc1.
    eapply wp_closing_set; [done|]. intros w2 Hc2. by apply HQ.
Qed.

(** The stage that releases the IRQs and their array. *)
Lemma wp_closing_irqs w0 w p a irqs dead rs Q :
  closing w0 w p a (afu_mmios a) dead rs → afu_at w p a → irq_table w a irqs →
  afu_irqs a ≠ p → afu_irqs a ≠ afu_mmios a ∨ afu_irqs a = NULL →
  (∀ w' a', a' = a <| afu_irqs := afu_irqs a' |> <| afu_irq_count := afu_irq_count a' |>
                   <| afu_irq_max_count := afu_irq_max_count a' |> →
     closing w0 w' p a' (afu_mmios a) (if decide (afu_irqs a = NULL) then dead else afu_irqs a :: dead)
       (rs ++ irqs_resources (afu_page_size a) (afu_fd a) irqs) → Q tt w') →
  wp (when (negb (afu_irqs a =? NULL))
       (dealloc_all (Z.to_nat (afu_irq_count a)) p 0 ;;
        free (afu_irqs a) ;;
        set_afu p (λ a, a <| afu_irqs := NULL |> <| afu_irq_count := 0 |>
                          <| afu_irq_max_count := 0 |>))) Q w.
Proof.
  intros Hc Ha [[rest [Hb Hmax]] Hcnt Hlv Hbd] Hp Hm HQ.
  destruct (Z.eqb_spec (afu_irqs a) NULL) as [E|E]; simpl.
  - apply wp_ret. apply (HQ w a); [by destruct a|]. rewrite decide_True by done.
    destruct Hb as [[_ Hnil]|[? _]]; [|done]. apply app_eq_nil in Hnil as [Hnil _].
    apply fmap_nil_inv in Hnil as ->. unfold irqs_resources. simpl. by rewrite app_nil_r.
  - destruct Hb as [[? _]|[_ Hb]]; [done|]. destruct Hm as [Hm|?]; [|done].
    rewrite decide_False in HQ by done. rewrite Hcnt, Nat2Z.id.
    pose proof Hc as [Hw Haf Hl [Hpm Hk] Hd Hr Hg Hbk].
    apply wp_bind. apply (wp_dealloc_all irqs [] rest w p a); [done|done|done|].
    intros w1 l Hw1 Hl1 Ho Hg1.
    assert (afu_irqs a ∉ dead) as Hnd by (intros Hin; specialize (Hd _ Hin); congruence).
    apply wp_bind, wp_free; [right; eauto|]. destruct (Z.eqb_spec (afu_irqs a) NULL); [done|].
    set (w2 := upd_heap (delete (afu_irqs a)) w1).
    assert (closing w0 w2 p a (afu_mmios a) (afu_irqs a :: dead)
              (rs ++ irqs_resources (afu_page_size a) (afu_fd a) irqs)) as Hc2.
    { split; [by apply heap_wf_delete| | | | | | |]; simpl.
      - rewrite lookup_delete_ne by done. by rewrite (ob_heap _ _ _ Ho).
      - destruct Hl. split; apply not_elem_of_cons; auto.
      - rewrite lookup_delete_ne by done. by rewrite (ob_heap _ _ _ Ho).
      - intros q [->|Hq]%elem_of_cons; [apply lookup_delete_eq|].
        destruct (decide (afu_irqs a = q)) as [->|]; [apply lookup_delete_eq|].
        rewrite lookup_delete_ne, (ob_heap _ _ _ Ho) by done. by apply Hd.
      - intros q Hq1 Hq2 [Hq3 Hq4]%not_elem_of_cons.
        rewrite lookup_delete_ne, (ob_heap _ _ _ Ho) by done. by apply Hr.
      - by rewrite (ob_glob _ _ _ Ho).
      - by eapply gave_back_app. }
    eapply wp_closing_set; [exact Hc2|]. intros w3 Hc3. eapply HQ; [|exact Hc3]. by destruct a.
Qed.

(** ** The whole of [ocxl_afu_close] *)

(** The blocks an AFU owns, but for its array of areas. *)
Definition afu_blocks (p : ptr) (a : ocxl_afu) : list ptr :=
  [p; afu_irqs a; afu_epoll_events a; afu_device_path a; afu_sysfs_path a].

Record afu_closed w (p : ptr) (a : ocxl_afu) (areas : list ocxl_mmio_area) (irqs : list ocxl_irq) w' :
    Prop := {
  ac_heap : heap_wf w';
  ac_gave : gave_back (afu_resources a areas irqs) w w';
  ac_freed q : q ∈ afu_blocks p a → w_heap w' !! q = None;
  ac_rest q : q ∉ afu_blocks p a → q ≠ afu_mmios a → w_heap w' !! q = w_heap w !! q;
  ac_mmios : is_Some (w_heap w' !! afu_mmios a) ↔ is_Some (w_heap w !! afu_mmios a);
  ac_glob : w_glob w' = w_glob w
}.

(** [q] is absent, or a block of its own. *)
Definition own_block w (p m q : ptr) : Prop :=
  q = NULL ∨ (is_Some (w_heap w !! q) ∧ q ≠ p ∧ q ≠ m).

Lemma afu_inv_own w p a areas irqs :
  afu_inv w p a areas irqs →
  (∀ q, q ∈ [afu_irqs a; afu_epoll_events a; afu_device_path a; afu_sysfs_path a] →
        own_block w p (afu_mmios a) q) ∧
  (afu_epoll_events a ≠ NULL → afu_epoll_events a ≠ afu_irqs a) ∧
  (afu_device_path a ≠ NULL →
     afu_device_path a ≠ afu_irqs a ∧ afu_device_path a ≠ afu_epoll_events a) ∧
  (afu_sysfs_path a ≠ NULL →
     afu_sysfs_path a ≠ afu_irqs a ∧ afu_sysfs_path a ≠ afu_epoll_events a ∧
     afu_sysfs_path a ≠ afu_device_path a).
Proof.
  intros Hi. pose proof (afu_inv_lookup _ _ _ _ _ Hi) as Hp.
  destruct Hi as [Hm [[rest [Hb _]] _ _ _] Hs Hpp He _ _].
  pose proof Hm as [Hw Hn [_ Hd] Ht].
  assert (∀ q o, w_heap w !! q = Some o → (∀ l, o ≠ HMmios l) → (∀ x, o ≠ HAfu x) →
            own_block w p (afu_mmios a) q) as Hown.
  { intros q o Hq H1 H2. right. split_and!; [eauto| |].
    - intros ->. rewrite Hp in Hq. injection Hq as <-. by eapply H2.
    - by eapply mmios_apart. }
  split.
  - intros q Hq. rewrite !elem_of_cons, elem_of_nil in Hq.
    destruct Hq as [->|[->|[->|[->|[]]]]].
    + destruct Hb as [[? _]|[_ Hb]]; [by left|by eapply Hown].
    + destruct He as [[? _]|(_ & _ & He)]; [by left|by eapply Hown].
    + destruct Hd as [?|[s Hd]]; [by left|by eapply Hown].
    + destruct Hs as [?|[s Hs]]; [by left|by eapply Hown].
  - pose proof (heap_wf_null _ Hw) as H0w.
    destruct Hb as [[Hb _]|[_ Hb]], He as [[He _]|(_ & _ & He)], Hd as [Hd|[s1 Hd]],
      Hs as [Hs|[s2 Hs]]; split_and!; intros Hq; split_and?; intros E;
      simpl buf_obj in *; try congruence; destruct Hpp; congruence.
Qed.

(** Freeing a block of the AFU that nothing has touched yet. *)
Lemma wp_closing_own w0 w p a m dead rs q f Q :
  closing w0 w p a m dead rs → own_block w0 p m q → (q ≠ NULL → q ∉ dead) →
  p ≠ NULL → (q = NULL → f a = a) →
  (∀ w', closing w0 w' p (f a) m (if decide (q = NULL) then dead else q :: dead) rs → Q tt w') →
  wp (when (negb (q =? NULL)) (free q ;; set_afu p f)) Q w.
Proof.
  intros Hc Ho Hd Hp Hf HQ. destruct Ho as [->|(Hs & Hqp & Hqm)].
  - by eapply wp_closing_block; eauto.
  - eapply wp_closing_block; [exact Hc| |done|by left|done|done].
    destruct (decide (q = NULL)) as [|Hn]; [by left|right].
    rewrite (cl_rest _ _ _ _ _ _ _ Hc) by auto. done.
Qed.

Lemma closing_start w w1 p a m rs :
  heap_wf w1 → w_heap w !! p = Some (HAfu a) → p ≠ m →
  (is_Some (w_heap w1 !! m) ↔ is_Some (w_heap w !! m)) →
  only_block m w w1 → gave_back rs w w1 → closing w w1 p a m [] rs.
Proof.
  intros Hw Hp Hm Hk [Ho Hg] Hb.
  split; [done|by rewrite Ho|split; apply not_elem_of_nil|done| | |done|done].
  - intros q Hq. by apply not_elem_of_nil in Hq.
  - intros q _ Hq _. by apply Ho.
Qed.

Lemma closing_irq_table w0 w p a a' m irqs rs :
  closing w0 w p a' m [] rs → irq_table w0 a irqs → own_block w0 p m (afu_irqs a) →
  afu_irqs a' = afu_irqs a → afu_irq_count a' = afu_irq_count a →
  afu_irq_max_count a' = afu_irq_max_count a → irq_table w a' irqs.
Proof.
  intros Hc [[rest [Hb Hmax]] Hcn Hl Hbd] Ho E1 E2 E3. split; rewrite ?E1, ?E2, ?E3; [|done..].
  exists rest. split; [|done]. destruct Hb as [Hb|[Hn Hb]]; [by left|right]. split; [done|].
  destruct Ho as [?|(_ & H1 & H2)]; [done|].
  rewrite (cl_rest _ _ _ _ _ _ _ Hc) by (try done; apply not_elem_of_nil). done.
Qed.

Lemma closing_afu_at w0 w p a a' m rs :
  closing w0 w p a' m [] rs → path_at w0 (afu_device_path a) →
  own_block w0 p m (afu_device_path a) → afu_device_path a' = afu_device_path a → afu_at w p a'.
Proof.
  intros Hc Hd Ho E. split; [apply Hc|]. rewrite E. destruct Hd as [Hd|[s Hd]]; [by left|].
  destruct Ho as [?|(_ & H1 & H2)]; [by left|right; exists s].
  rewrite (cl_rest _ _ _ _ _ _ _ Hc) by (try done; apply not_elem_of_nil). done.
Qed.

Definition add_block (q : ptr) (dead : list ptr) : list ptr :=
  if decide (q = NULL) then dead else q :: dead.

Lemma elem_of_add_block q q' dead : q' ∈ add_block q dead → q' = q ∨ q' ∈ dead.
Proof. unfold add_block. case_decide; [by right|]. by rewrite elem_of_cons. Qed.

Lemma add_block_elem q q' dead : q' ≠ NULL → q' = q ∨ q' ∈ dead → q' ∈ add_block q dead.
Proof. unfold add_block. intros Hn [->|Hq]; case_decide; rewrite ?elem_of_cons; naive_solver. Qed.

(** The last steps: what is left is the record itself. *)
Lemma closing_done w0 w p a a0 rs areas irqs dead :
  closing w0 w p a (afu_mmios a0) dead rs → heap_wf w0 →
  (∀ q, q ∈ dead → q ∈ afu_blocks p a0) →
  (∀ q, q ∈ afu_blocks p a0 → q = p ∨ q = NULL ∨ q ∈ dead) → 
  (∀ r, held rs r = held (afu_resources a0 areas irqs) r) →
  afu_closed w0 p a0 areas irqs (upd_heap (delete p) w).
Proof.
  intros [Hw Ha Hl [Hpm Hk] Hd Hr Hg Hb] Hw0 Hin Hout Hrs. split; simpl.
  - by apply heap_wf_delete.
  - intros r. change (effects (upd_heap (delete p) w)) with (effects w). rewrite Hb, Hrs. done.
  - intros q Hq. destruct (Hout q Hq) as [->|[->|Hqd]]; [apply lookup_delete_eq|..].
    + destruct (decide (p = NULL)) as [->|]; [apply lookup_delete_eq|].
      rewrite lookup_delete_ne by done. by apply heap_wf_null.
    + destruct (decide (p = q)) as [->|]; [apply lookup_delete_eq|].
      rewrite lookup_delete_ne by done. by apply Hd.
  - intros q Hq Hqm. rewrite lookup_delete_ne; [|intros ->; apply Hq; by left].
    apply Hr; [intros ->; apply Hq; by left|done|]. intros Hqd. by apply Hq, Hin.
  - by rewrite lookup_delete_ne.
  - done.
Qed.

(** The end of [ocxl_afu_close], from the epoll buffer on. *)
Lemma wp_close_tail w w3 p a a3 areas irqs rs Q :
  afu_inv w p a areas irqs →
  closing w w3 p a3 (afu_mmios a) (add_block (afu_irqs a) []) rs →
  a3 = a <| afu_global_mmio_fd := afu_global_mmio_fd a3 |> <| afu_irqs := afu_irqs a3 |>
         <| afu_irq_count := afu_irq_count a3 |> <| afu_irq_max_count := afu_irq_max_count a3 |> →
  (∀ r, held rs r + held (fd_resource (afu_epoll_fd a)) r + held (fd_resource (afu_fd a)) r =
        held (afu_resources a areas irqs) r) →
  (∀ w', afu_closed w p a areas irqs w' → Q OCXL_OK w') →
  wp (a ← get_afu p;
      when (negb (afu_epoll_events a =? NULL))
        (free (afu_epoll_events a) ;;
         set_afu p (λ a, a <| afu_epoll_event_count := 0 |>)) ;;
      a ← get_afu p;
      call (SClose (afu_epoll_fd a)) ;;
      set_afu p (λ a, a <| afu_epoll_fd := -1 |>) ;;
      a ← get_afu p;
      call (SClose (afu_fd a)) ;;
      set_afu p (λ a, a <| afu_fd := -1 |> <| afu_attached := false |>) ;;
      a ← get_afu p;
      when (negb (afu_device_path a =? NULL))
        (free (afu_device_path a) ;;
         set_afu p (λ a, a <| afu_device_path := NULL |>)) ;;
      a ← get_afu p;
      when (negb (afu_sysfs_path a =? NULL))
        (free (afu_sysfs_path a) ;;
         set_afu p (λ a, a <| afu_sysfs_path := NULL |>)) ;;
      free p ;;
      mret OCXL_OK) Q w3.
Proof.
  intros Hi Hc Ea Hrs HQ. pose proof (afu_inv_own _ _ _ _ _ Hi) as (Hown & Hd1 & Hd2 & Hd3).
  pose proof Hi as [[Hw Hn _ _] _ _ _ He _ _].
  assert (afu_epoll_events a3 = afu_epoll_events a ∧ afu_epoll_fd a3 = afu_epoll_fd a ∧
    afu_epoll_event_count a3 = afu_epoll_event_count a ∧ afu_fd a3 = afu_fd a ∧
    afu_device_path a3 = afu_device_path a ∧ afu_sysfs_path a3 = afu_sysfs_path a)
    as (F1 & F2 & F3 & F4 & F5 & F6) by (rewrite Ea; done). clear Ea.
  assert (∀ q, q ∉ ([] : list ptr)) as Hnil by (intros q; apply not_elem_of_nil).
  apply wp_bind. eapply wp_closing_get; [done|]. rewrite F1.
  apply wp_bind. eapply wp_closing_own; [exact Hc|apply Hown; rewrite !elem_of_cons; auto| |done| |].
  { intros Hq [E|E]%elem_of_add_block; [by apply Hd1|by eapply Hnil]. }
  { intros E. destruct He as [[_ E0]|[? _]]; [|done]. rewrite E0 in F3.
    clear -F3. destruct a3; simpl in *. by subst. }
  fold (add_block (afu_epoll_events a) (add_block (afu_irqs a) [])). clear Hc. intros w4 Hc.
  apply wp_bind. eapply wp_closing_get; [done|]. unfold field_upd in *; simpl in *. rewrite F2.
  apply wp_bind. eapply wp_closing_close; [done|]. clear Hc. intros rc w5 Hc.
  apply wp_bind. eapply wp_closing_set; [done|]. clear Hc. intros w6 Hc.
  apply wp_bind. eapply wp_closing_get; [done|]. unfold field_upd in *; simpl in *. rewrite F4.
  apply wp_bind. eapply wp_closing_close; [done|]. clear Hc. intros rc' w7 Hc.
  apply wp_bind. eapply wp_closing_set; [done|]. clear Hc. intros w8 Hc.
  apply wp_bind. eapply wp_closing_get; [done|]. unfold field_upd in *; simpl in *. rewrite F5.
  apply wp_bind. eapply wp_closing_own; [exact Hc|apply Hown; rewrite !elem_of_cons; auto| |done| |].
  { intros Hq [E|[E|E]%elem_of_add_block]%elem_of_add_block;
      [by destruct (Hd2 Hq)|by destruct (Hd2 Hq)|by eapply Hnil]. }
  { intros E. rewrite E in F5. clear -F5. destruct a3; simpl in *. by subst. }
  match goal with |- context [if decide (?x = NULL) then ?d else _] => fold (add_block x d) end.
  clear Hc. intros w9 Hc.
  apply wp_bind. eapply wp_closing_get; [done|]. unfold field_upd in *; simpl in *. rewrite F6.
  apply wp_bind. eapply wp_closing_own; [exact Hc|apply Hown; rewrite !elem_of_cons; auto| |done| |].
  { intros Hq [E|[E|[E|E]%elem_of_add_block]%elem_of_add_block]%elem_of_add_block;
      [by destruct (Hd3 Hq) as (?&?&?)|by destruct (Hd3 Hq) as (?&?&?)|by destruct (Hd3 Hq) as (?&?&?)|by eapply Hnil]. }
  { intros E. rewrite E in F6. clear -F6. destruct a3; simpl in *. by subst. }
  match goal with |- context [if decide (?x = NULL) then ?d else _] => fold (add_block x d) end.
  clear Hc. intros w10 Hc.
  apply wp_bind, wp_free; [right; rewrite (cl_afu _ _ _ _ _ _ _ Hc); eauto|].
  destruct (Z.eqb_spec p NULL); [done|]. apply wp_ret, HQ.
  eapply closing_done; [exact Hc|done| | |].
  - intros q Hq. apply elem_of_add_block in Hq as [->|Hq]; [unfold afu_blocks; rewrite !elem_of_cons; tauto|].
    apply elem_of_add_block in Hq as [->|Hq]; [unfold afu_blocks; rewrite !elem_of_cons; tauto|].
    apply elem_of_add_block in Hq as [->|Hq]; [unfold afu_blocks; rewrite !elem_of_cons; tauto|].
    apply elem_of_add_block in Hq as [->|Hq]; [unfold afu_blocks; rewrite !elem_of_cons; tauto|]. by apply Hnil in Hq.
  - intros q Hq. destruct (decide (q = NULL)) as [|Hq0]; [by right; left|].
    unfold afu_blocks in Hq. rewrite !elem_of_cons, elem_of_nil in Hq.
    destruct Hq as [->|[->|[->|[->|[->|[]]]]]]; [by left|right; right..];
      repeat (apply add_block_elem; [done|]; first [by left|right]).
  - intros r. rewrite !held_app. specialize (Hrs r). lia.
Qed.

Lemma wp_afu_close w p a areas irqs Q :
  afu_inv w p a areas irqs → 0 <= afu_fd a →
  (∀ w', afu_closed w p a areas irqs w' → Q OCXL_OK w') →
  wp (ocxl_afu_close p) Q w.
Proof.
  intros Hi Hfd HQ. pose proof (afu_inv_lookup _ _ _ _ _ Hi) as Hp.
  pose proof (afu_inv_own _ _ _ _ _ Hi) as [Hown _].
  pose proof Hi as [Hm Hirq _ _ _ Hmf _]. pose proof Hm as [Hw Hn [_ Hd] [Hbuf Hcnt _ _]].
  assert (p ≠ afu_mmios a) as Hpm by (by eapply mmios_apart).
  apply wp_bind. eapply wp_get_afu; [done|]. destruct (Z.ltb_spec (afu_fd a) 0); [lia|].
  apply wp_bind. apply (wp_unmap_all _ 0 w p a areas); [done|done|lia|]. intros w1 areas' Hm1 Ho1 Hg1.
  rewrite drop_0 in Hg1.
  assert (closing w w1 p a (afu_mmios a) [] (areas_resources areas)) as Hc.
  { apply closing_start; [apply Hm1|done|done| |done|done].
    destruct Hm1 as [Hw1 _ _ [[rest1 [Hb1 _]] _ _ _]], Hbuf as [rest [Hb _]].
    destruct Hb as [[E _]|[E Hb]]; destruct Hb1 as [[E1 _]|[E1 Hb1]].
    - rewrite E. by rewrite (heap_wf_null _ Hw1), (heap_wf_null _ Hw).
    - done.
    - done.
    - split; intros _; eauto. }
  clear Hm1 Ho1 Hg1 areas'.
  apply wp_bind. eapply wp_closing_get; [done|].
  apply wp_bind.
  eapply (wp_mono _ (λ _ w', closing w w' p (a <| afu_global_mmio_fd := -1 |>) (afu_mmios a) []
    (areas_resources areas ++ fd_resource (afu_global_mmio_fd a)))).
  2:{ apply wp_when; intros Hb; [|apply negb_false_iff, Z.eqb_eq in Hb].
      - apply wp_bind. eapply wp_closing_close; [done|]. intros rc w2 Hc2.
        eapply wp_closing_set; [done|]. done.
      - rewrite Hb, app_nil_r. by destruct a; simpl in *; subst. }
  intros [] w2 Hc2. set (a2 := a <| afu_global_mmio_fd := -1 |>) in *.
  apply wp_bind. eapply wp_closing_get; [done|].
  assert (own_block w p (afu_mmios a) (afu_irqs a)) as Hoi by (apply Hown; by left).
  apply wp_bind. eapply (wp_closing_irqs w w2 p a2 irqs); [exact Hc2| | | | |].
  { eapply (closing_afu_at w w2 p a a2); [exact Hc2|exact Hd| |done]. apply Hown. rewrite !elem_of_cons. auto. }
  { by eapply (closing_irq_table w w2 p a a2). }
  { change (afu_irqs a2) with (afu_irqs a). destruct Hoi as [->|(_ & ? & _)]; [congruence|done]. }
  { change (afu_irqs a2) with (afu_irqs a). destruct Hoi as [->|(_ & _ & ?)]; auto. }
  change (afu_irqs a2) with (afu_irqs a). change (afu_page_size a2) with (afu_page_size a).
  change (afu_fd a2) with (afu_fd a). change (afu_mmios a2) with (afu_mmios a).
  fold (add_block (afu_irqs a) []). clear Hc Hc2 w1 w2.
  intros w3 a3 E3 Hc3.
  eapply wp_close_tail; [exact Hi|exact Hc3| | |exact HQ].
  - rewrite E3. by destruct a.
  - intros r. unfold afu_resources. rewrite !held_app. lia.
Qed.

End close.
