(* ===== verification/AfuOpen.v ===== *)
(** * AfuOpen: opening an AFU

    A handle that [ocxl_afu_open_from_dev] returns satisfies the invariant of
    AfuInv.v and holds three descriptors; an open that fails leaves nothing
    behind in the kernel. *)

From S2P Require Import Prelude Format Types World Logic Messages Buffer Ledger Mmio MmioFacts.
From S2P Require Import MmioAccess Irq IrqFacts IrqTable Event Names Afu AfuInv Trace AfuClose.
Open Scope Z_scope.

(** What the library relies on: the kernel limits the names of AFUs. *)
Definition short_name (d_name : string) : Prop :=
  ∀ name rest, strchr "." d_name = Some (name, rest) → Z.of_nat (String.length name) <= AFU_NAME_MAX.

Class ShortNames (K : Type) `{Platform K} : Prop :=
  short_names : ∀ dir (k : K) names,
    (os_step _ (SOpendir dir) k).1 = Some names → Forall short_name names.

(** The tables of the record are empty. *)
Definition no_tables (a : ocxl_afu) : Prop :=
  afu_mmios a = NULL ∧ afu_mmio_count a = 0 ∧ afu_mmio_max_count a = 0 ∧
  afu_irqs a = NULL ∧ afu_irq_count a = 0 ∧ afu_irq_max_count a = 0 ∧
  afu_epoll_events a = NULL ∧ afu_epoll_event_count a = 0 ∧
  source_type (afu_fd_info a) = EPOLL_SOURCE_OCXL.

(** The record has no descriptor. *)
Definition no_fds (a : ocxl_afu) : Prop :=
  afu_fd a = -1 ∧ afu_epoll_fd a = -1 ∧ afu_global_mmio_fd a = -1.

Section open.
Context {K : Type} `{Platform K} `{Abi}.
Implicit Types (w : world K).

Lemma afu_inv_fresh w p a :
  heap_wf w → p ≠ NULL → w_heap w !! p = Some (HAfu a) → no_tables a →
  path_at w (afu_device_path a) → path_at w (afu_sysfs_path a) →
  afu_device_path a = NULL ∨ afu_device_path a ≠ afu_sysfs_path a →
  afu_inv w p a [] [].
Proof.
  intros Hw Hn Hp (E1 & E2 & E3 & E4 & E5 & E6 & E7 & E8 & E9) Hd Hs Hne.
  assert (UINT16_MAX = 65535) as EU by done.
  split; [split; [done..|]| |done|done| |by constructor|done].
  - split; [|done|by constructor|lia]. exists []. rewrite E1, E3. split; [by left|done].
  - split; [|done|by intros|lia]. exists []. rewrite E4, E6. split; [by left|done].
  - left. by rewrite E7, E8.
Qed.

(** Work on the record [p] that allocates and asks, but acquires nothing. *)
Record ext (p : ptr) w w' : Prop := {
  ext_wf : heap_wf w';
  ext_heap q o : q ≠ p → w_heap w !! q = Some o → w_heap w' !! q = Some o;
  ext_balance r : balance (effects w') r = balance (effects w) r;
  ext_glob : w_glob w' = w_glob w
}.

Lemma ext_refl p w : heap_wf w → ext p w w.
Proof. by split. Qed.

Lemma ext_trans p w1 w2 w3 : ext p w1 w2 → ext p w2 w3 → ext p w1 w3.
Proof.
  intros [a1 b1 c1 d1] [a2 b2 c2 d2]. split; [done|by eauto| |congruence].
  intros r. by rewrite c2.
Qed.

Lemma ext_quiet p w w' : heap_wf w → quiet w w' → ext p w w'.
Proof.
  intros Hw Hq. pose proof (quiet_mem _ _ Hq) as Hm. split; [by eapply heap_wf_same_mem| | |].
  - intros q o _. by rewrite (sm_heap _ _ Hm).
  - intros r. by apply balance_quiet.
  - by destruct Hm.
Qed.

Lemma ext_did {R : Set} (c : sys R) a p w w' :
  heap_wf w → did c a w w' → acquires c a = None → releases c = None → ext p w w'.
Proof.
  intros Hw Hd Ha Hr. pose proof (did_mem _ _ _ _ Hd) as Hm. split; [by eapply heap_wf_same_mem| | |].
  - intros q o _. by rewrite (sm_heap _ _ Hm).
  - intros r. rewrite (balance_did _ _ _ _ _ Hd). unfold delta. rewrite Ha, Hr, !one_if_None. lia.
  - by destruct Hm.
Qed.

Lemma ext_set p w o : heap_wf w → is_Some (w_heap w !! p) → ext p w (upd_heap <[p := o]> w).
Proof.
  intros Hw Hp. split; [by apply heap_wf_insert| |done|done].
  intros q o' Hq. by rewrite heap_upd_ne.
Qed.

Lemma ext_alloc p w w1 o :
  heap_wf w → quiet w w1 →
  ext p w (upd_heap <[w_next w := o]> w1 <| w_next := w_next w + 1 |>).
Proof.
  intros Hw Hq. pose proof (quiet_mem _ _ Hq) as [E1 E2 E3].
  pose proof (heap_wf_same_mem _ _ (quiet_mem _ _ Hq) Hw) as Hw1. split.
  - rewrite <-E2. by apply heap_wf_alloc.
  - intros q o' _ Hq'. simpl. rewrite lookup_insert_ne; [by rewrite E1|].
    intros <-. by rewrite (heap_wf_fresh _ Hw) in Hq'.
  - intros r. by rewrite <-(balance_quiet _ _ r Hq).
  - done.
Qed.

(** ** The device directory *)

Lemma wp_find_device p dir dev entries w Q :
  heap_wf w →
  (∀ r w', ext p w w' → same_mem w w' → (∀ d, r = Some d → d ∈ entries) → Q r w') →
  wp (find_device dir dev entries) Q w.
Proof.
  revert w. induction entries as [|name entries IH]; intros w Hw HQ; simpl.
  { apply wp_ret, HQ; [by apply ext_refl|done|done]. }
  do 2 apply wp_bind. apply wp_call; [done|]. intros st w1 Hd. apply wp_ret.
  assert (ext p w w1) as He by (by eapply ext_did).
  pose proof (did_mem _ _ _ _ Hd) as Hm.
  destruct (match st with None => false | Some _ => _ end).
  - apply wp_ret, HQ; [done|done|]. intros d [= <-]. by left.
  - apply IH; [by eapply ext_wf|]. intros r w2 He2 Hm2 Hr. apply HQ; [by eapply ext_trans|by etrans|].
    intros d Hd'. right. by apply Hr.
Qed.

Lemma wp_ext_errmsg p w0 w err fmt args Q :
  ext p w0 w → conforms fmt args = true →
  (∀ w', ext p w0 w' → w_heap w' = w_heap w → Q tt w') → wp (errmsg NULL err fmt args) Q w.
Proof.
  intros He Hc HQ. apply wp_errmsg; [by left|done|]. intros w' Hq. apply HQ.
  - eapply ext_trans; [done|]. apply ext_quiet; [by eapply ext_wf|done].
  - apply Hq.
Qed.

(** Reporting that the device is refused. *)
Lemma wp_ext_refuse p w0 w err fmt args Q :
  (∀ w', ext p w0 w' → is_Some (w_heap w' !! p) → Q false w') →
  ext p w0 w → is_Some (w_heap w !! p) → conforms fmt args = true →
  wp (errmsg NULL err fmt args ;; mret false) Q w.
Proof.
  intros HQ He Hs Hc. apply wp_bind. eapply wp_ext_errmsg; [exact He|done|].
  intros w' He' E. apply wp_ret, HQ; [done|]. by rewrite E.
Qed.

(** The record after a device called [d_name] was found. *)
Definition identified (g : lib_globals) (d_name : string) (a a' : ocxl_afu) w' : Prop :=
  ∃ name rest values dev sys,
    strchr "." d_name = Some (name, rest) ∧
    sscanf physical_function_format (String.substring 1 (String.length rest) rest) = (5, values) ∧
    a' = a <| afu_index := values !! 4%nat |> <| afu_name := name |>
           <| afu_device_path := dev |> <| afu_sysfs_path := sys |> ∧
    dev ≠ NULL ∧ sys ≠ NULL ∧ dev ≠ sys ∧
    w_heap w' !! dev = Some (HStr (DEVICE_PATH g +:+ "/" +:+ d_name)) ∧
    w_heap w' !! sys = Some (HStr (SYS_PATH g +:+ "/" +:+ d_name)).

Lemma sscanf_length dirs s n values : sscanf dirs s = (n, values) → n ≠ -1 → n = Z.of_nat (length values).
Proof. unfold sscanf. destruct (_ =? _)%string; intros [= <- <-]; done. Qed.

Lemma heap_wf_lookup_ne w p : heap_wf w → is_Some (w_heap w !! p) → p ≠ NULL ∧ p ≠ w_next w.
Proof. intros [Hpos Hlt] Hp. specialize (Hlt p Hp). unfold NULL. lia. Qed.

(** [path = malloc(...); snprintf(path, ...)] stored into the record. *)
Lemma wp_alloc_path w0 w p a size str f Q :
  ext p w0 w → w_heap w !! p = Some (HAfu a) →
  (∀ w', ext p w0 w' → w_heap w' !! p = Some (HAfu (f NULL a)) → Q NULL w') →
  (∀ q w', ext p w0 w' → ext p w w' → w_heap w' !! p = Some (HAfu (f q a)) → q ≠ NULL → q ≠ p →
     w_heap w !! q = None → w_heap w' !! q = Some (HStr str) → Q q w') →
  wp (q ← malloc size (HStr str); set_afu p (f q) ;; mret q) Q w.
Proof.
  intros He Hp Hfail Hok. pose proof (ext_wf _ _ _ He) as Hw.
  destruct (heap_wf_lookup_ne _ p Hw) as [Hpn Hpf]; [eauto|].
  apply wp_bind, wp_malloc; intros w1 Hq; pose proof (quiet_mem _ _ Hq) as Hm.
  - assert (w_heap w1 !! p = Some (HAfu a)) as Hp1 by (by rewrite (sm_heap _ _ Hm)).
    apply wp_bind. eapply wp_set_afu; [exact Hp1|]. apply wp_ret, Hfail; [|apply heap_upd_eq].
    eapply ext_trans; [exact He|]. eapply ext_trans; [by apply ext_quiet|].
    apply ext_set; [by eapply heap_wf_same_mem|eauto].
  - set (w2 := upd_heap _ _).
    assert (ext p w w2) as He2 by (by apply ext_alloc).
    assert (w_heap w2 !! p = Some (HAfu a)) as Hp2.
    { simpl. rewrite lookup_insert_ne by done. by rewrite (sm_heap _ _ Hm). }
    apply wp_bind. eapply wp_set_afu; [exact Hp2|]. apply wp_ret.
    assert (ext p w (upd_heap <[p := HAfu (f (w_next w) a)]> w2)) as He3.
    { eapply ext_trans; [exact He2|]. apply ext_set; [by eapply ext_wf|eauto]. }
    apply Hok; [by eapply ext_trans|exact He3|apply heap_upd_eq| |done|by apply heap_wf_fresh|].
    + destruct Hw. unfold NULL. lia.
    + rewrite heap_upd_ne by done. simpl. by rewrite lookup_insert_eq.
Qed.

(** A path that was just stored, and what follows the test for [NULL]. *)
Lemma wp_path_step {A} w0 w p a size str f (k : ptr → M K A) Q :
  ext p w0 w → w_heap w !! p = Some (HAfu a) →
  (∀ w', ext p w0 w' → w_heap w' !! p = Some (HAfu (f NULL a)) → wp (k NULL) Q w') →
  (∀ q w', ext p w0 w' → ext p w w' → w_heap w' !! p = Some (HAfu (f q a)) → q ≠ NULL → q ≠ p →
     w_heap w !! q = None → w_heap w' !! q = Some (HStr str) → wp (k q) Q w') →
  wp (q ← malloc size (HStr str); set_afu p (f q) ;; k q) Q w.
Proof.
  intros He Hp Hfail Hok.
  pose proof (wp_alloc_path w0 w p a size str f (λ q, wp (k q) Q) He Hp Hfail Hok) as Hs.
  revert Hs. unfold wp, mbind, M_bind, mret, M_ret.
  destruct (malloc size (HStr str) w) as [q w1| |]; [|done..].
  by destruct (set_afu p (f q) w1) as [[] w2| |].
Qed.

(** The paths of the record are blocks that did not exist in [w]. *)
Definition fresh_paths w (a : ocxl_afu) : Prop :=
  w_heap w !! afu_device_path a = None ∧ w_heap w !! afu_sysfs_path a = None.

Lemma ext_fresh p w w' q : ext p w w' → q ≠ p → w_heap w' !! q = None → w_heap w !! q = None.
Proof.
  intros He Hq Hn. destruct (w_heap w !! q) as [o|] eqn:E; [|done].
  by rewrite (ext_heap _ _ _ He _ _ Hq E) in Hn.
Qed.

Context `{!ShortNames K}.

Lemma wp_populate_metadata dev p a w Q :
  heap_wf w → w_heap w !! p = Some (HAfu a) →
  (∀ w', ext p w w' → is_Some (w_heap w' !! p) → Q false w') →
  (∀ d_name a' w', ext p w w' → w_heap w' !! p = Some (HAfu a') →
     identified (w_glob w) d_name a a' w' → fresh_paths w a' → Q true w') →
  wp (populate_metadata dev p) Q w.
Proof.
  intros Hw Hp Hfail Hok. apply wp_bind, wp_get_globals. set (g := w_glob w).
  apply wp_bind, wp_call; [done|]. intros dir w1 Hd1.
  assert (ext p w w1) as He1 by (by eapply ext_did).
  assert (w_heap w1 !! p = Some (HAfu a)) as Hp1 by (by rewrite (sm_heap _ _ (did_mem _ _ _ _ Hd1))).
  destruct dir as [entries|]; [|apply wp_ret, Hfail; eauto].
  assert (Forall short_name entries) as Hshort.
  { eapply short_names. by rewrite (did_step _ _ _ _ Hd1). }
  apply wp_bind, (wp_find_device p); [by eapply ext_wf|]. intros found w2 He2 Hm2 Hf.
  apply wp_bind, wp_call; [done|]. intros [] w3 Hd3.
  assert (ext p w w3) as He3.
  { eapply ext_trans; [exact He1|]. eapply ext_trans; [exact He2|].
    eapply ext_did; [by eapply ext_wf|exact Hd3|done|done]. }
  assert (w_heap w3 !! p = Some (HAfu a)) as Hp3.
  { by rewrite (sm_heap _ _ (did_mem _ _ _ _ Hd3)), (sm_heap _ _ Hm2). }
  pose proof (λ w' err fmt args, wp_ext_refuse p w w' err fmt args Q Hfail) as Hrep.
  destruct found as [d_name|]; [|apply wp_ret, Hfail; eauto].
  destruct (strchr "." d_name) as [[name rest]|] eqn:Es; [|by apply Hrep; eauto].
  assert (Z.of_nat (String.length name) <= AFU_NAME_MAX) as Hlen.
  { pose proof (proj1 (list.Forall_forall _ _) Hshort d_name (Hf _ eq_refl)) as Hsn. by eapply Hsn. }
  cbv zeta. destruct (Z.ltb_spec AFU_NAME_MAX (Z.of_nat (String.length name))); [lia|].
  destruct (sscanf _ _) as [n values] eqn:Esc.
  destruct (Z.eqb_spec n 5) as [->|]; simpl; [|by apply Hrep; eauto].
  apply wp_bind. eapply wp_set_afu; [exact Hp3|].
  set (a1 := a <| afu_index := _ |> <| afu_name := _ |>).
  set (w4 := upd_heap _ w3).
  assert (ext p w w4) as He4.
  { eapply ext_trans; [exact He3|]. apply ext_set; [by eapply ext_wf|eauto]. }
  apply (wp_path_step w w4 p a1 _ _ (λ q a, a <| afu_device_path := q |>)); [exact He4|apply heap_upd_eq| |].
  { intros w5 He5 Hp5. simpl. by apply Hrep. }
  intros q5 w5 He5 He45 Hp5 Hn5 Hqp5 Hfr5 Hstr5. destruct (Z.eqb_spec q5 NULL); [done|].
  eapply (wp_path_step w w5 p _ _ _ (λ q a, a <| afu_sysfs_path := q |>)); [exact He5|exact Hp5| |].
  { intros w6 He6 Hp6. simpl. by apply Hrep. }
  intros q6 w6 He6 He56 Hp6 Hn6 Hqp6 Hfr6 Hstr6. destruct (Z.eqb_spec q6 NULL); [done|].
  apply wp_ret. eapply (Hok d_name); [exact He6|exact Hp6| |].
  2:{ split; simpl; [by eapply (ext_fresh p w w4)|by eapply (ext_fresh p w w5)]. }
  exists name, rest, values, q5, q6. split_and!; [done|done|by destruct a|done|done|congruence| |done].
  by apply (ext_heap _ _ _ He56).
Qed.

(** ** Opening the context *)

(** Opening has come from [w0] to [w]: the record [a] is now [a'], with the
    same blocks, and it holds what was acquired. *)
Record opening w0 w (p : ptr) (a a' : ocxl_afu) : Prop := {
  op_inv : afu_inv w p a' [] [];
  op_heap q : q ≠ p → w_heap w !! q = w_heap w0 !! q;
  op_glob : w_glob w = w_glob w0;
  op_balance r : balance (effects w) r = balance (effects w0) r + held (afu_resources a' [] []) r;
  op_same : same_blocks a a' ∧ afu_name a' = afu_name a ∧ afu_index a' = afu_index a
}.

Lemma opening_same_mem w0 w w' p a a' :
  opening w0 w p a a' → same_mem w w' → (∀ r, balance (effects w') r = balance (effects w) r) →
  opening w0 w' p a a'.
Proof.
  intros [H1 H2 H3 H4 H5] Hm Hb. destruct (Hm) as [Eh _ Eg]. split; rewrite ?Eh, ?Eg; auto.
  - by eapply afu_inv_same_mem.
  - intros r. by rewrite Hb.
Qed.

Lemma opening_quiet w0 w w' p a a' : opening w0 w p a a' → quiet w w' → opening w0 w' p a a'.
Proof.
  intros Ho Hq. eapply opening_same_mem; [done|apply Hq|]. intros r. by apply balance_quiet.
Qed.

Lemma opening_did {R : Set} (c : sys R) r w0 w w' p a a' :
  opening w0 w p a a' → did c r w w' → acquires c r = None → releases c = None →
  opening w0 w' p a a'.
Proof.
  intros Ho Hd Ha Hr. eapply opening_same_mem; [done|apply Hd|]. intros x.
  rewrite (balance_did _ _ _ _ _ Hd). unfold delta. rewrite Ha, Hr, !one_if_None. lia.
Qed.

(** Storing a descriptor that was just acquired. *)
Lemma wp_opening_fd {R : Set} (c : sys R) r fd w0 w w1 p a a' f Q :
  opening w0 w p a a' → did c r w w1 → acquires c r = Some (RFd fd) → releases c = None →
  same_blocks a' (f a') → afu_name (f a') = afu_name a' → afu_index (f a') = afu_index a' →
  (∀ x, held (afu_resources (f a') [] []) x =
        held (afu_resources a' [] []) x + one_if x (Some (RFd fd))) →
  (∀ w2, opening w0 w2 p a (f a') → effects w2 = effects w1 → Q tt w2) → wp (set_afu p f) Q w1.
Proof.
  intros [H1 H2 H3 H4 (H5 & H6 & H7)] Hd Ha Hr Hs Hn Hx Hh HQ. pose proof (did_mem _ _ _ _ Hd) as Hm.
  pose proof (sm_heap _ _ Hm) as Eh.
  eapply wp_set_afu_inv; [by eapply afu_inv_same_mem|done|]. intros w2 Hi2 Ee Eg Eo. apply HQ; [|done].
  split; [done| | | |].
  - intros q Hq. by rewrite Eo, Eh, H2.
  - by rewrite Eg, (sm_glob _ _ Hm).
  - intros x. rewrite Ee, (balance_did _ _ _ _ _ Hd), H4, Hh. unfold delta.
    rewrite Ha, Hr, one_if_None. lia.
  - split; [|split; congruence]. unfold same_blocks in *. intuition congruence.
Qed.

Lemma wp_opening_errmsg w0 w p a a' q err fmt args Q :
  opening w0 w p a a' → q = NULL ∨ q = p → conforms fmt args = true →
  (∀ w', opening w0 w' p a a' → Q tt w') → wp (errmsg q err fmt args) Q w.
Proof.
  intros Ho Hq Hc HQ. apply wp_errmsg; [|done|].
  - destruct Hq as [->| ->]; [by left|]. eapply afu_inv_report, Ho.
  - intros w' Hw'. apply HQ. by eapply opening_quiet.
Qed.

Lemma wp_opening_errno w0 w p a a' Q :
  opening w0 w p a a' →
  (∀ e w', opening w0 w' p a a' → Q [AInt e; AStr (strerror e)] w') → wp errno_args Q w.
Proof. intros Ho HQ. apply wp_errno_args. intros e w' Hw'. apply HQ. by eapply opening_quiet. Qed.

Lemma wp_no_dev w0 w p a a' fmt args Q :
  opening w0 w p a a' → (∀ e, conforms fmt (args ++ [AInt e; AStr (strerror e)]) = true) →
  (∀ w', opening w0 w' p a a' → Q OCXL_NO_DEV w') → wp (no_dev fmt args) Q w.
Proof.
  intros Ho Hc HQ. apply wp_bind. eapply wp_opening_errno; [done|]. intros e w1 Ho1.
  apply wp_bind. eapply wp_opening_errmsg; [done|by left|done|]. intros w2 Ho2. by apply wp_ret, HQ.
Qed.

Lemma wp_opening_get w0 w p a a' Q : opening w0 w p a a' → Q a' w → wp (get_afu p) Q w.
Proof. intros [] HQ. by eapply wp_get_afu; [eapply afu_inv_lookup|]. Qed.

Lemma fd_acquired fd : 0 <= fd → (if 0 <=? fd then Some (RFd fd) else None) = Some (RFd fd).
Proof. intros Hf. by rewrite (proj2 (Z.leb_le 0 fd) Hf). Qed.

Lemma fd_not_acquired fd : fd < 0 → (if 0 <=? fd then Some (RFd fd) else None) = None.
Proof. intros Hf. by rewrite (proj2 (Z.leb_gt 0 fd) Hf). Qed.

Lemma held_fd fd x : 0 <= fd → held (fd_resource fd) x = one_if x (Some (RFd fd)).
Proof. intros Hf. unfold fd_resource. rewrite (proj2 (Z.leb_le 0 fd) Hf). simpl. lia. Qed.

Lemma wp_global_mmio_open w0 w p a a' s Q :
  opening w0 w p a a' → afu_global_mmio_fd a' = -1 →
  w_heap w !! afu_sysfs_path a' = Some (HStr s) →
  (∀ w', opening w0 w' p a a' → Q OCXL_NO_DEV w') →
  (∀ fd w', 0 <= fd → opening w0 w' p a (a' <| afu_global_mmio_fd := fd |>) → Q OCXL_OK w') →
  wp (global_mmio_open p) Q w.
Proof.
  intros Ho Hg Hs Hfail Hok. apply wp_bind. eapply wp_opening_get; [done|].
  apply wp_bind. eapply wp_get_str; [done|]. cbv zeta. destruct (PATH_MAX + 1 <=? _).
  { apply wp_bind. eapply wp_opening_errmsg; [done|by right|done|]. intros w1 Ho1. by apply wp_ret, Hfail. }
  apply wp_bind, wp_call; [done|]. intros fd w1 Hd. destruct (Z.ltb_spec fd 0) as [Hf|Hf].
  - assert (opening w0 w1 p a a') as Ho1 by (eapply opening_did; [done|done|by apply fd_not_acquired|done]).
    apply wp_bind. eapply wp_opening_errno; [done|]. intros e w2 Ho2.
    apply wp_bind. eapply wp_opening_errmsg; [done|by right|done|]. intros w3 Ho3. by apply wp_ret, Hfail.
  - apply wp_bind. eapply wp_opening_fd; [done|done|by apply fd_acquired|done|done|done|done| |].
    + intros x. unfold afu_resources, field_upd. simpl. rewrite !held_app, Hg, (held_fd fd) by done.
      simpl. lia.
    + intros w2 Ho2 _. by eapply wp_ret, Hok.
Qed.

Lemma wp_trace_str line fmt q s w Q :
  w_heap w !! q = Some (HStr s) → conforms fmt [AStr s] = true →
  (∀ w', quiet w w' → Q tt w') → wp (trace_str line fmt q) Q w.
Proof.
  intros Hq Hc HQ. apply wp_bind, wp_get_globals. apply wp_when; [|intros; by apply HQ]. intros _.
  apply wp_bind. eapply wp_get_str; [done|]. by apply wp_trace_message.
Qed.

Lemma wp_trace_metadata p a s1 s2 n w Q :
  w_heap w !! p = Some (HAfu a) → w_heap w !! afu_device_path a = Some (HStr s1) →
  w_heap w !! afu_sysfs_path a = Some (HStr s2) → afu_index a = Some n →
  (∀ w', quiet w w' → Q tt w') → wp (trace_metadata p) Q w.
Proof.
  intros Hp Hs1 Hs2 Hn HQ. apply wp_bind. eapply wp_get_afu; [done|]. cbv zeta.
  apply wp_quiet_seq; [intros; by eapply wp_trace_str| |exact HQ].
  intros w1 Hq1 Q1 HQ1. pose proof (sm_heap _ _ (quiet_mem _ _ Hq1)) as E1.
  apply wp_quiet_seq; [intros; eapply wp_trace_str; [by rewrite E1|done|done]| |exact HQ1].
  intros w2 _ Q2 HQ2. apply wp_quiet_seq; [intros; by apply wp_TRACE_OPEN| |exact HQ2].
  intros w3 _ Q3 HQ3. apply wp_quiet_seq; [| |exact HQ3].
  { intros Q' HQ'. apply wp_bind, wp_get_globals. apply wp_when; [|intros; by apply HQ'].
    intros _. rewrite Hn. by apply wp_trace_message. }
  intros w4 _ Q4 HQ4. apply wp_quiet_seq; [intros; by apply wp_TRACE_OPEN| |exact HQ4].
  intros w5 _ Q5 HQ5. apply wp_quiet_seq; [intros; by apply wp_TRACE_OPEN| |exact HQ5].
  intros w6 _ Q6 HQ6. apply wp_quiet_seq; [intros; by apply wp_TRACE_OPEN| |exact HQ6].
  intros w7 _ Q7 HQ7. apply wp_quiet_seq; [intros; by apply wp_TRACE_OPEN| |exact HQ7].
  intros w8 _ Q8 HQ8. by apply wp_TRACE_OPEN.
Qed.

(** The record of an open AFU: its descriptors, and the metadata the kernel
    reported for it. *)
Definition opened (a : ocxl_afu) (fd gfd efd : Z) (md : ocxl_ioctl_metadata) : ocxl_afu :=
  a <| afu_fd := fd |> <| afu_global_mmio_fd := gfd |> <| afu_epoll_fd := efd |>
    <| afu_version_major := md_version_major md |>
    <| afu_version_minor := md_version_minor md |>
    <| afu_per_pasid_mmio := (afu_per_pasid_mmio a) <| area_length := md_pp_mmio_size md |> |>
    <| afu_global_mmio := (afu_global_mmio a) <| area_length := md_global_mmio_size md |> |>
    <| afu_pasid := md_pasid md |>.

(** The last effects of a successful open: the epoll instance, the device
    watched by it under the address of the AFU, and the metadata. *)
Definition open_effects (p : ptr) (fd efd rc : Z) (md : ocxl_ioctl_metadata) : list event :=
  [Ev SEpollCreate efd; Ev (SEpollCtlAdd efd fd (AfuFdInfo p)) rc; Ev (SIoctlGetMetadata fd) (0, md)].

Lemma opening_start w p a : afu_inv w p a [] [] → no_fds a → opening w w p a a.
Proof.
  intros Hi (F1 & F2 & F3). split; [done|done|done| |by repeat split].
  intros r. unfold afu_resources. rewrite F1, F2, F3. simpl. lia.
Qed.

(** The strings of the AFU are where they were. *)
Lemma opening_paths w w' p a a' s1 s2 n :
  afu_inv w p a [] [] → w_heap w !! afu_device_path a = Some (HStr s1) →
  w_heap w !! afu_sysfs_path a = Some (HStr s2) → afu_index a = Some n → opening w w' p a a' →
  w_heap w' !! afu_device_path a' = Some (HStr s1) ∧
  w_heap w' !! afu_sysfs_path a' = Some (HStr s2) ∧ afu_index a' = Some n.
Proof.
  intros Hi Hs1 Hs2 Hn [Hi' Hh _ _ ((E1 & E2 & _) & _ & E3)]. rewrite E1, E2, E3.
  pose proof (afu_inv_lookup _ _ _ _ _ Hi) as Hp. rewrite !Hh; [done|congruence..].
Qed.

(** Recording what the kernel reported. *)
Lemma wp_opening_metadata w0 w p a a' md Q :
  opening w0 w p a a' →
  (∀ w', opening w0 w' p a (opened a' (afu_fd a') (afu_global_mmio_fd a') (afu_epoll_fd a') md) →
     effects w' = effects w → Q tt w') →
  wp (set_afu p (λ a,
    a <| afu_version_major := md_version_major md |>
      <| afu_version_minor := md_version_minor md |>
      <| afu_per_pasid_mmio := (afu_per_pasid_mmio a) <| area_length := md_pp_mmio_size md |> |>
      <| afu_global_mmio := (afu_global_mmio a) <| area_length := md_global_mmio_size md |> |>
      <| afu_pasid := md_pasid md |>)) Q w.
Proof.
  intros [Hi Hh Hg Hb Hs] HQ. eapply wp_set_afu_inv; [exact Hi|by repeat split|].
  intros w' Hi' Ee Eg Eo. apply HQ; [|done]. split; [exact Hi'| |congruence| |exact Hs].
  - intros q Hq. by rewrite Eo, Hh.
  - intros r. rewrite Ee, Hb. done.
Qed.

Lemma wp_afu_open w p a s1 s2 n Q :
  afu_inv w p a [] [] → no_fds a →
  w_heap w !! afu_device_path a = Some (HStr s1) → w_heap w !! afu_sysfs_path a = Some (HStr s2) →
  afu_index a = Some n →
  (∀ rc a' w', rc = OCXL_NO_DEV ∨ rc = OCXL_NO_MORE_CONTEXTS → opening w w' p a a' →
     (afu_fd a' = -1 ∧ a' = a) ∨ (0 <= afu_fd a' ∧ rc = OCXL_NO_DEV) → Q rc w') →
  (∀ fd gfd efd md w' es, 0 <= fd → 0 <= gfd → 0 <= efd → opening w w' p a (opened a fd gfd efd md) →
     (∃ rc w1, ran (open_effects p fd efd rc md) w1 w' ∧ effects w1 = es) → Q OCXL_OK w') →
  wp (afu_open p) Q w.
Proof.
  intros Hi (F1 & F2 & F3) Hs1 Hs2 Hn Hfail Hok.
  pose proof (opening_start w p a Hi (conj F1 (conj F2 F3))) as Ho.
  apply wp_bind. eapply wp_opening_get; [done|]. rewrite F1. simpl.
  apply wp_bind. eapply wp_get_str; [done|]. apply wp_bind, wp_call; [done|]. intros fd w1 Hd1.
  destruct (Z.ltb_spec fd 0) as [Hf|Hf].
  { assert (opening w w1 p a a) as Ho1 by (eapply opening_did; [done|done|by apply fd_not_acquired|done]).
    apply wp_bind, wp_call_silent; [done|]. intros errno w2 Hq2.
    assert (opening w w2 p a a) as Ho2 by (by eapply opening_quiet).
    destruct (errno =? ENOSPC);
      (apply wp_bind; eapply wp_opening_errmsg; [exact Ho2|by left|done|]; intros w3 Ho3);
      apply wp_ret; eapply Hfail; eauto. }
  apply wp_bind. eapply wp_opening_fd; [exact Ho|done|by apply fd_acquired|done|done|done|done| |].
  { intros x. unfold afu_resources, field_upd. simpl. rewrite !held_app, F1, (held_fd fd) by done.
    simpl. lia. }
  clear Ho. intros w1' Ho _. clear Hd1 w1. rename w1' into w1. set (a1 := a <| afu_fd := fd |>) in Ho.
  pose proof (λ w' a', opening_paths w w' p a a' s1 s2 n Hi Hs1 Hs2 Hn) as Hpaths.
  destruct (Hpaths _ _ Ho) as (Hs1' & Hs2' & _).
  apply wp_bind. eapply wp_global_mmio_open; [exact Ho|exact F3|exact Hs2'| |].
  { clear Ho. intros w2 Ho. simpl. apply wp_bind. eapply wp_opening_errmsg; [done|by left|done|].
    intros w3 Ho3. apply wp_ret. eapply Hfail; [by left|exact Ho3|by right; split]. }
  clear Ho Hs1' Hs2'. intros gfd w2 Hg Ho. simpl. set (a2 := a1 <| afu_global_mmio_fd := gfd |>) in Ho.
  apply wp_bind, wp_call; [done|]. intros efd w3 Hd3. destruct (Z.ltb_spec efd 0) as [He|He].
  { assert (opening w w3 p a a2) as Ho3 by (eapply opening_did; [done|done|by apply fd_not_acquired|done]).
    eapply wp_no_dev; [exact Ho3|done|]. intros w4 Ho4. eapply Hfail; [by left|exact Ho4|by right; split]. }
  apply wp_bind. eapply (wp_issues (λ _, True)); [auto with traced|].
  eapply wp_opening_fd; [exact Ho|exact Hd3|by apply fd_acquired|done|done|done|done| |].
  { intros x. unfold a2, a1, afu_resources, field_upd. simpl. rewrite !held_app, F2, (held_fd efd) by done.
    simpl. lia. }
  clear Ho. intros w3' Ho E3 es3 Hr3 _. set (a3 := a2 <| afu_epoll_fd := efd |>) in Ho.
  apply wp_bind, wp_call; [done|]. intros rc w4 Hd4.
  assert (opening w w4 p a a3) as Ho4 by (by eapply opening_did). clear Ho.
  destruct (rc =? -1).
  { eapply wp_no_dev; [exact Ho4|done|]. intros w5 Ho5. eapply Hfail; [by left|exact Ho5|by right; split]. }
  apply wp_bind, wp_call; [done|]. intros [rc' md] w5 Hd5.
  assert (opening w w5 p a a3) as Ho5 by (by eapply opening_did). clear Ho4.
  unfold c_bool. destruct (Z.eqb_spec rc' 0) as [->|]; simpl.
  2:{ eapply wp_no_dev; [exact Ho5|done|]. intros w6 Ho6. eapply Hfail; [by left|exact Ho6|by right; split]. }
  apply wp_bind. eapply (wp_issues (λ _, True)); [auto with traced|].
  eapply (wp_opening_metadata w w5 p a a3); [exact Ho5|]. intros w6 Ho6 Ee es6 Hr6 _.
  change (opening w w6 p a (opened a fd gfd efd md)) in Ho6.
  destruct (Hpaths _ _ Ho6) as (Hs1' & Hs2' & Hn').
  apply wp_bind. eapply wp_trace_metadata;
    [eapply afu_inv_lookup, Ho6|exact Hs1'|exact Hs2'|exact Hn'|].
  intros w7 Hq7. apply wp_ret. apply (Hok fd gfd efd md w7 (effects w2)); [done..|by eapply opening_quiet|].
  exists rc, w2. split; [|done]. pose proof (ran_memory_only _ _ _ Hr3 E3) as Hm3.
  pose proof (ran_memory_only _ _ _ Hr6 Ee) as Hm6.
  eapply ran_cons; [exact Hd3|]. eapply (ran_trans []); [exact Hm3|]. eapply ran_cons; [exact Hd4|].
  eapply ran_cons; [exact Hd5|]. eapply ran_quiet_r; [exact Hm6|exact Hq7].
Qed.

(** ** Initialisation and allocation *)

(** Every block of [w] is still there, and nothing was acquired or released. *)
Record kept w w' : Prop := {
  kept_wf : heap_wf w';
  kept_heap q o : w_heap w !! q = Some o → w_heap w' !! q = Some o;
  kept_balance r : balance (effects w') r = balance (effects w) r
}.

Lemma kept_refl w : heap_wf w → kept w w.
Proof. by split. Qed.

Lemma kept_trans w1 w2 w3 : kept w1 w2 → kept w2 w3 → kept w1 w3.
Proof. intros [a1 b1 c1] [a2 b2 c2]. split; [done|by eauto|]. intros r. by rewrite c2. Qed.

Lemma kept_ext p w w' : w_heap w !! p = None → ext p w w' → kept w w'.
Proof. intros Hp [a b c _]. split; [done| |done]. intros q o Hq. apply b; [congruence|done]. Qed.

Lemma kept_mem w w' :
  heap_wf w → w_heap w' = w_heap w → w_next w' = w_next w →
  (∀ r, balance (effects w') r = balance (effects w) r) → kept w w'.
Proof. intros Hw E1 E2 Hb. split; [unfold heap_wf; by rewrite E1, E2|by rewrite E1|done]. Qed.

Lemma wp_kept_globals w0 w (b : bool) g Q :
  kept w0 w → (∀ w', kept w0 w' → Q tt w') → wp (when b (set_globals g)) Q w.
Proof.
  intros Hk HQ. apply wp_when; intros _; [|by apply HQ]. apply wp_set_globals, HQ.
  eapply kept_trans; [done|]. by apply kept_mem; [eapply kept_wf|..].
Qed.

Lemma wp_kept_call {R : Set} (c : sys R) w0 w Q :
  kept w0 w → (∀ r, acquires c r = None) → releases c = None →
  (∀ r w', kept w0 w' → w_glob w' = w_glob w → Q r w') → wp (call c) Q w.
Proof.
  intros Hk Ha Hr HQ. pose proof (kept_wf _ _ Hk) as Hw. destruct (silent c) eqn:Hs.
  - apply wp_call_silent; [done|]. intros r w' Hq. destruct (quiet_mem _ _ Hq). apply HQ; [|done].
    eapply kept_trans; [done|]. apply kept_mem; [done..|]. intros x. by apply balance_quiet.
  - apply wp_call; [done|]. intros r w' Hd. destruct (did_mem _ _ _ _ Hd). apply HQ; [|done].
    eapply kept_trans; [done|]. apply kept_mem; [done..|]. intros x.
    rewrite (balance_did _ _ _ _ _ Hd). unfold delta. rewrite Ha, Hr, !one_if_None. lia.
Qed.

Lemma wp_libocxl_init w Q :
  heap_wf w → (∀ w', kept w w' → g_libocxl_inited (w_glob w') = true → Q tt w') →
  wp libocxl_init Q w.
Proof.
  intros Hw HQ. apply wp_bind. eapply wp_kept_call; [by apply kept_refl|done|done|].
  intros _ w1 Hk Eg. apply wp_bind, wp_get_globals.
  destruct (g_libocxl_inited (w_glob w1)) eqn:E.
  { eapply wp_kept_call; [done|done|done|]. intros [] w2 Hk2 Eg2. apply HQ; congruence. }
  apply wp_bind. eapply wp_kept_call; [exact Hk|done|done|]. intros v2 w2 Hk2 _.
  apply wp_bind. apply (wp_mono _ (λ _ w', kept w w')).
  2:{ apply wp_when; intros _; [|done]. eapply wp_kept_call; [exact Hk2|done|done|]. by intros. }
  intros _ w3 Hk3. apply wp_bind. eapply wp_kept_call; [exact Hk3|done|done|]. intros v4 w4 Hk4 _.
  apply wp_bind, wp_get_globals. apply wp_bind. eapply wp_kept_globals; [exact Hk4|]. intros w5 Hk5.
  apply wp_bind. eapply wp_kept_call; [exact Hk5|done|done|]. intros v6 w6 Hk6 _.
  apply wp_bind, wp_get_globals. apply wp_bind. eapply wp_kept_globals; [exact Hk6|]. intros w7 Hk7.
  apply wp_bind. eapply wp_kept_call; [exact Hk7|done|done|]. intros v8 w8 Hk8 _.
  apply wp_bind, wp_get_globals. apply wp_bind. apply (wp_mono _ (λ _ w', kept w w')).
  2:{ destruct v8 as [v|]; [|by apply wp_ret].
      apply (wp_kept_globals w w8 true); [exact Hk8|]. by intros. }
  intros _ w9 Hk9. apply wp_bind, wp_get_globals. apply wp_bind, wp_set_globals.
  set (w10 := w9 <| w_glob := _ |>).
  assert (kept w w10) as Hk10.
  { eapply kept_trans; [exact Hk9|]. by apply kept_mem; [eapply kept_wf|..]. }
  eapply wp_kept_call; [exact Hk10|done|done|]. intros [] w11 Hk11 Eg11. apply HQ; [done|].
  rewrite Eg11. done.
Qed.

Lemma wp_afu_alloc w Q :
  heap_wf w →
  (∀ w', kept w w' → Q (OCXL_NO_MEM, NULL) w') →
  (∀ p a w', kept w w' → w_heap w !! p = None → p ≠ NULL → w_heap w' !! p = Some (HAfu a) →
     w_glob w' = w_glob w →
     a = initial_afu (afu_page_size a) (g_verbose_errors_all (w_glob w)) (g_tracing_all (w_glob w)) →
     Q (OCXL_OK, p) w') →
  wp afu_alloc Q w.
Proof.
  intros Hw Hfail Hok. apply wp_bind, wp_malloc; intros w1 Hq.
  - apply wp_bind, wp_errmsg; [by left|done|]. intros w2 Hq2. apply wp_ret, Hfail.
    eapply kept_ext; [by apply heap_wf_null|]. apply ext_quiet; [done|by etrans].
  - set (w2 := upd_heap _ _). set (p := w_next w).
    assert (ext p w w2) as He by (by apply ext_alloc).
    assert (w_heap w !! p = None) as Hfr by (by apply heap_wf_fresh).
    destruct (Z.eqb_spec p NULL) as [Hp|Hp]; [destruct Hw; unfold p, NULL in *; lia|].
    apply wp_bind, wp_bind, wp_call; [done|]. intros ps w3 Hd.
    assert (ext p w w3) as He3.
    { eapply ext_trans; [exact He|]. eapply ext_did; [by eapply ext_wf|exact Hd|done|done]. }
    apply wp_bind, wp_get_globals.
    assert (w_heap w3 !! p = w_heap w2 !! p) as E3 by (by rewrite (sm_heap _ _ (did_mem _ _ _ _ Hd))).
    assert (w_heap w2 !! p = Some (HAfu (initial_afu 0 false false))) as E2 by apply heap_upd_eq.
    eapply wp_set_afu; [by rewrite E3|]. apply wp_ret.
    rewrite (ext_glob _ _ _ He3). eapply Hok; [|done|done|apply heap_upd_eq|apply He3|done].
    eapply kept_ext; [exact Hfr|]. eapply ext_trans; [exact He3|].
    apply ext_set; [by eapply ext_wf|rewrite E3; eauto].
Qed.

(** ** By path *)

(** [free] of a record that did not exist in [w0]. *)
Lemma wp_kept_free w0 w p Q :
  kept w0 w → w_heap w0 !! p = None → p ≠ NULL → is_Some (w_heap w !! p) →
  (∀ w', kept w0 w' → Q tt w') → wp (free p) Q w.
Proof.
  intros [Hw Hh Hb] Hp Hn Hs HQ. apply wp_free; [by right|]. destruct (Z.eqb_spec p NULL); [done|].
  apply HQ. split; [by apply heap_wf_delete| |done]. intros q o Hq. simpl.
  rewrite lookup_delete_ne; [by apply Hh|congruence].
Qed.

(** The record [a] at [p] is a new AFU, identified as [d_name]. *)
Definition new_afu w w' (p : ptr) (a : ocxl_afu) (d_name : string) : Prop :=
  w_heap w !! p = None ∧ p ≠ NULL ∧ w_heap w' !! p = Some (HAfu a) ∧ fresh_paths w a ∧
  ∃ a0, a0 = initial_afu (afu_page_size a0) (g_verbose_errors_all (w_glob w)) (g_tracing_all (w_glob w)) ∧
        identified (w_glob w) d_name a0 a w'.

Lemma wp_get_afu_by_path path w Q :
  heap_wf w →
  (∀ rc w', rc = OCXL_NO_MEM ∨ rc = OCXL_NO_DEV → kept w w' → Q (rc, OCXL_INVALID_AFU) w') →
  (∀ p a d_name w', kept w w' → w_glob w' = w_glob w → new_afu w w' p a d_name → Q (OCXL_OK, p) w') →
  wp (get_afu_by_path path) Q w.
Proof.
  intros Hw Hfail Hok. apply wp_bind, wp_afu_alloc; [done|..].
  { intros w1 Hk1. simpl. apply wp_ret. by apply Hfail; [left|]. }
  intros p a w1 Hk1 Hfr Hn Hp Eg Ha. simpl. pose proof (kept_wf _ _ Hk1) as Hw1.
  apply wp_bind, wp_call; [done|]. intros st w2 Hd.
  assert (ext p w1 w2) as He2 by (by eapply ext_did).
  assert (w_heap w2 !! p = Some (HAfu a)) as Hp2 by (by rewrite (sm_heap _ _ (did_mem _ _ _ _ Hd))).
  assert (∀ w', ext p w1 w' → kept w w') as Hkept.
  { intros w' [a1 b1 c1 d1]. split; [done| |].
    - intros q o Hq. apply b1; [congruence|]. by apply Hk1.
    - intros r. rewrite c1. by apply Hk1. }
  destruct st as [st_rdev|].
  2:{ apply wp_bind, wp_errno_args. intros e w3 Hq3. apply wp_bind, wp_errmsg; [by left|done|].
      intros w4 Hq4. assert (quiet w2 w4) as Hq by (by etrans).
      assert (ext p w1 w4) as He4.
      { eapply ext_trans; [done|]. apply ext_quiet; [by eapply ext_wf|done]. }
      apply wp_bind. eapply (wp_kept_free w); [by apply Hkept|done|done| |].
      { rewrite (sm_heap _ _ (quiet_mem _ _ Hq)). eauto. }
      intros w5 Hk5. apply wp_ret. by apply Hfail; [right|]. }
  apply wp_bind. eapply wp_populate_metadata; [by eapply ext_wf|exact Hp2| |].
  - intros w3 He3 Hs3. simpl. apply wp_bind, wp_get_globals. apply wp_bind, wp_errmsg; [by left|done|].
    intros w4 Hq4. assert (ext p w1 w4) as He4.
    { eapply ext_trans; [exact He2|]. eapply ext_trans; [exact He3|].
      apply ext_quiet; [by eapply ext_wf|done]. }
    apply wp_bind. eapply (wp_kept_free w); [by apply Hkept|done|done| |].
    { by rewrite (sm_heap _ _ (quiet_mem _ _ Hq4)). }
    intros w5 Hk5. apply wp_ret. by apply Hfail; [right|].
  - intros d_name a' w3 He3 Hp3 Hid [Hf1 Hf2]. simpl. apply wp_ret.
    assert (ext p w1 w3) as He13 by (by eapply ext_trans).
    assert (∀ q, w_heap w2 !! q = None → w_heap w !! q = None) as Hfresh.
    { intros q Hq. destruct (w_heap w !! q) as [o|] eqn:E; [|done].
      by rewrite (kept_heap _ _ (Hkept _ He2) _ _ E) in Hq. }
    eapply Hok; [by apply Hkept| |].
    + by rewrite (ext_glob _ _ _ He13).
    + split_and!; [done..|by split; apply Hfresh|]. exists a. split; [done|].
      by rewrite (ext_glob _ _ _ He2), Eg in Hid.
Qed.

(** What a handle returned by an open is. *)
Record open_handle w w' (p : ptr) (a : ocxl_afu) (d_name : string) : Prop := {
  oh_new : w_heap w !! p = None;
  oh_inv : afu_inv w' p a [] [];
  oh_fds : 0 <= afu_fd a ∧ 0 <= afu_global_mmio_fd a ∧ 0 <= afu_epoll_fd a;
  oh_balance r : balance (effects w') r = balance (effects w) r + held (afu_resources a [] []) r;
  oh_heap q o : w_heap w !! q = Some o → w_heap w' !! q = Some o;
  oh_fresh q o : w_heap w !! q = Some o → (q ∉ afu_blocks p a) ∧ q ≠ afu_mmios a;
  oh_device : w_heap w' !! afu_device_path a = Some (HStr (DEVICE_PATH (w_glob w') +:+ "/" +:+ d_name));
  oh_sysfs : w_heap w' !! afu_sysfs_path a = Some (HStr (SYS_PATH (w_glob w') +:+ "/" +:+ d_name));
  oh_detached : afu_attached a = false;
  oh_tables : no_tables a;
  oh_metadata : ∃ w1 rc md, ran (open_effects p (afu_fd a) (afu_epoll_fd a) rc md) w1 w' ∧
     afu_version_major a = md_version_major md ∧ afu_version_minor a = md_version_minor md ∧
     area_length (afu_per_pasid_mmio a) = md_pp_mmio_size md ∧
     area_length (afu_global_mmio a) = md_global_mmio_size md ∧ afu_pasid a = md_pasid md
}.

Lemma identified_index g d_name a a' w : identified g d_name a a' w → ∃ n, afu_index a' = Some n.
Proof.
  intros (name & rest & values & dev & sys & _ & Hs & -> & _).
  pose proof (sscanf_length _ _ _ _ Hs) as Hl.
  destruct (lookup_lt_is_Some_2 values 4%nat) as [n Hn]; [lia|]. by exists n.
Qed.

(** The invariant of a record that was just identified. *)
Lemma new_afu_inv w w' p a d_name :
  heap_wf w' → new_afu w w' p a d_name → 
  afu_inv w' p a [] [] ∧ no_fds a ∧ no_tables a ∧ afu_attached a = false.
Proof.
  intros Hw (_ & Hn & Hp & _ & a0 & Ha0 & name & rest & values & dev & sys & _ & _ & Ea & H1 & H2 & H3 & H4 & H5).
  rewrite Ha0 in Ea. rewrite Ea in Hp |- *. split; [|done].
  apply afu_inv_fresh; [done|done|done|done|right; eauto|right; eauto|by right].
Qed.

(** The blocks of a new AFU are none of those there before. *)
Lemma new_blocks_apart w p a a' q o :
  heap_wf w → w_heap w !! p = None → fresh_paths w a → no_tables a → same_blocks a a' →
  w_heap w !! q = Some o → (q ∉ afu_blocks p a') ∧ q ≠ afu_mmios a'.
Proof.
  intros Hw Hp [Hf1 Hf2] (T1 & _ & _ & T4 & _ & _ & T7 & _) (E1 & E2 & E3 & _ & E5 & _ & _ & E8 & _) Hq.
  pose proof (heap_wf_null _ Hw) as Hnull.
  unfold afu_blocks. rewrite !not_elem_of_cons, E1, E2, E3, E5, E8, T1, T4, T7.
  split_and!; try congruence. apply not_elem_of_nil.
Qed.

(** What a failed open leaves allocated when the device has no context left:
    the record of the AFU and its two paths. *)
Definition left_behind w w' : Prop :=
  ∃ p a d_name, w_heap w !! p = None ∧ fresh_paths w a ∧
    w_heap w' !! p = Some (HAfu a) ∧ afu_fd a = -1 ∧ afu_device_path a ≠ afu_sysfs_path a ∧
    w_heap w' !! afu_device_path a = Some (HStr (DEVICE_PATH (w_glob w') +:+ "/" +:+ d_name)) ∧
    w_heap w' !! afu_sysfs_path a = Some (HStr (SYS_PATH (w_glob w') +:+ "/" +:+ d_name)).

Lemma wp_open_from_dev_left path w Q :
  heap_wf w →
  (∀ rc w', rc = OCXL_NO_MEM ∨ rc = OCXL_NO_DEV ∨ rc = OCXL_NO_MORE_CONTEXTS → kept w w' →
     (rc = OCXL_NO_MORE_CONTEXTS → left_behind w w') → Q (rc, OCXL_INVALID_AFU) w') →
  (∀ p a d_name w', open_handle w w' p a d_name → Q (OCXL_OK, p) w') →
  wp (ocxl_afu_open_from_dev path) Q w.
Proof.
  intros Hw Hfail Hok. apply wp_bind, wp_libocxl_init; [done|]. intros w1 Hk1 _.
  apply wp_bind, wp_get_afu_by_path; [by eapply kept_wf|..].
  { intros rc w2 Hrc Hk2. assert (negb (is_ok rc) = true) as -> by (by destruct Hrc as [->| ->]).
    apply wp_ret, Hfail; [tauto|by eapply kept_trans|by destruct Hrc as [->| ->]]. }
  intros p a d_name w2 Hk2 Eg2 Hnew. simpl.
  destruct (new_afu_inv _ _ _ _ _ (kept_wf _ _ Hk2) Hnew) as (Hi2 & Hfds & Htab & Hatt).
  pose proof (kept_trans _ _ _ Hk1 Hk2) as Hk.
  destruct Hnew as (Hfr & Hn & Hp2 & [Hf1 Hf2] & a0 & _ & Hid). destruct (identified_index _ _ _ _ _ Hid) as [n Hidx].
  destruct Hid as (name & rest & values & dev & sys & _ & _ & Ea & H1 & H2 & H3 & Hdev & Hsys).
  assert (afu_device_path a = dev ∧ afu_sysfs_path a = sys) as [Ed Es] by (by rewrite Ea).
  rewrite <-Ed in Hdev. rewrite <-Es in Hsys.
  assert (w_heap w !! p = None) as Hfr0.
  { destruct (w_heap w !! p) eqn:E; [|done]. by rewrite (kept_heap _ _ Hk1 _ _ E) in Hfr. }
  assert (∀ q o, w_heap w !! q = Some o → q ≠ p) as Hqp by (intros q o Hq ->; congruence).
  assert (∀ a' q o, same_blocks a a' ∧ afu_name a' = afu_name a ∧ afu_index a' = afu_index a →
            w_heap w !! q = Some o → (q ∉ afu_blocks p a') ∧ q ≠ afu_mmios a') as Hblocks.
  { intros a' q o [Hsb _] Hq. eapply (new_blocks_apart w1 p a a' q o); [apply Hk1|done..|by apply Hk1]. }
  apply wp_bind. eapply wp_afu_open; [exact Hi2|exact Hfds|exact Hdev|exact Hsys|exact Hidx| |].
  - intros rc a' w3 Hrc [Hi3 Hh3 Hg3 Hb3 Hs3] Hfd.
    assert (negb (is_ok rc) = true) as -> by (by destruct Hrc as [->| ->]).
    assert (∀ w4, kept w w4 → (rc = OCXL_NO_MORE_CONTEXTS → left_behind w w4) → Q (rc, OCXL_INVALID_AFU) w4) as Hf.
    { intros w4 Hk4 Hl4. apply Hfail; [destruct Hrc; auto|done|done]. }
    apply wp_bind. destruct Hfd as [[Hfd ->]|[Hfd Hnd]].
    + apply wp_bind. eapply wp_get_afu; [by eapply afu_inv_lookup|]. rewrite Hfd. simpl.
      apply wp_ret, wp_ret, Hf; [split; [apply Hi3| |]|].
      * intros q o Hq. rewrite Hh3 by by eapply Hqp. by apply Hk.
      * intros r. rewrite Hb3, (kept_balance _ _ Hk). destruct Hfds as (F1 & F2 & F3).
        unfold afu_resources. rewrite F1, F2, F3. simpl. lia.
      * intros _. exists p, a, d_name.
        split_and!; [done| |by eapply afu_inv_lookup|done|congruence|..].
        -- destruct Hk1 as [_ Hh1 _]. split; apply eq_None_not_Some; intros [o Ho]; apply Hh1 in Ho; congruence.
        -- rewrite Hh3, Hg3, Eg2; [done|congruence].
        -- rewrite Hh3, Hg3, Eg2; [done|congruence].
    + eapply wp_afu_close; [exact Hi3|done|]. intros w4 Hc. apply wp_ret, Hf; [|by rewrite Hnd].
      split; [apply Hc| |].
      * intros q o Hq. pose proof (Hqp _ _ Hq) as Hne. pose proof (kept_heap _ _ Hk _ _ Hq) as Hq2.
        destruct (Hblocks a' q o Hs3 Hq) as [Hb1 Hb2].
        rewrite (ac_rest _ _ _ _ _ _ Hc) by done. by rewrite Hh3.
      * intros r. rewrite (ac_gave _ _ _ _ _ _ Hc r), Hb3, (kept_balance _ _ Hk). lia.
  - intros fd gfd efd md w3 es Hfd Hgfd Hefd [Hi3 Hh3 Hg3 Hb3 Hs3] (rc & w3' & Hes & _). simpl. apply wp_ret.
    eapply (Hok p _ d_name). split; [done|exact Hi3|done| | | | | | | |].
    + intros r. by rewrite Hb3, (kept_balance _ _ Hk).
    + intros q o Hq. rewrite Hh3 by by eapply Hqp. by apply Hk.
    + intros q o Hq. by eapply Hblocks.
    + simpl. rewrite Hh3, Hg3, Eg2; [done|congruence].
    + simpl. rewrite Hh3, Hg3, Eg2; [done|congruence].
    + exact Hatt.
    + exact Htab.
    + exists w3', rc, md. done.
Qed.

Lemma wp_open_from_dev path w Q :
  heap_wf w →
  (∀ rc w', rc = OCXL_NO_MEM ∨ rc = OCXL_NO_DEV ∨ rc = OCXL_NO_MORE_CONTEXTS → kept w w' →
     Q (rc, OCXL_INVALID_AFU) w') →
  (∀ p a d_name w', open_handle w w' p a d_name → Q (OCXL_OK, p) w') →
  wp (ocxl_afu_open_from_dev path) Q w.
Proof. intros Hw Hfail Hok. apply wp_open_from_dev_left; [done|by intros; apply Hfail|done]. Qed.

(** ** By name *)

Lemma open_handle_kept w w1 w' p a d_name :
  kept w w1 → open_handle w1 w' p a d_name → open_handle w w' p a d_name.
Proof.
  intros Hk [H1 H2 H3 H4 H5 H6 H7 H8 H9 H10 H11]. split; [|done|done| | | |done..].
  - destruct (w_heap w !! p) as [o|] eqn:E; [|done]. by rewrite (kept_heap _ _ Hk _ _ E) in H1.
  - intros r. by rewrite H4, (kept_balance _ _ Hk).
  - intros q o Hq. by apply H5, Hk.
  - intros q o Hq. eapply H6. by apply Hk.
Qed.

(** The result of an open: a handle, or an error and nothing left behind. *)
Definition open_result w (res : ocxl_err * ptr) w' : Prop :=
  match res with
  | (OCXL_OK, p) => ∃ a d_name, open_handle w w' p a d_name
  | (_, p) => p = OCXL_INVALID_AFU ∧ kept w w'
  end.

Lemma open_result_failed w rc w' :
  is_ok rc = false → kept w w' → open_result w (rc, OCXL_INVALID_AFU) w'.
Proof. by destruct rc. Qed.

Lemma wp_open_first paths ret w0 w :
  kept w0 w → is_ok ret = false → wp (open_first paths ret) (open_result w0) w.
Proof.
  revert ret w. induction paths as [|path paths IH]; intros ret w Hk Hret; simpl.
  { by apply wp_ret, open_result_failed. }
  apply wp_bind, wp_open_from_dev; [by eapply kept_wf|..].
  - intros rc w1 Hrc Hk1. assert (kept w0 w1) as Hk' by (by eapply kept_trans).
    destruct Hrc as [->|[->| ->]]; [by apply wp_ret|by apply wp_ret|]. by apply IH.
  - intros p a d_name w1 Ho. simpl. apply wp_ret. exists a, d_name. by eapply open_handle_kept.
Qed.

Lemma wp_open_specific name pf idx w :
  heap_wf w → wp (ocxl_afu_open_specific name pf idx) (open_result w) w.
Proof.
  intros Hw. apply wp_bind, wp_libocxl_init; [done|]. intros w1 Hk1 _.
  apply wp_bind, wp_get_globals. cbv zeta. apply wp_bind.
  eapply wp_kept_call; [exact Hk1|done|done|]. intros [rc paths] w2 Hk2 _.
  destruct (rc =? 0); [by apply wp_open_first|].
  assert (∀ err fmt args, is_ok err = false → conforms fmt args = true →
    wp (errmsg NULL err fmt args ;; mret (err, OCXL_INVALID_AFU)) (open_result w) w2) as Hrep.
  { intros err fmt args He Hc. apply wp_bind, wp_errmsg; [by left|done|]. intros w3 Hq.
    apply wp_ret, open_result_failed; [done|]. eapply kept_trans; [done|].
    eapply kept_ext; [by eapply heap_wf_null, kept_wf|]. apply ext_quiet; [by eapply kept_wf|done]. }
  destruct (rc =? GLOB_NOSPACE); [by apply Hrep|].
  destruct (rc =? GLOB_NOMATCH); by apply Hrep.
Qed.

(** ** The devices that are tried

    Which of the devices [glob] lists decides the result. *)
Inductive passed_over : list string → relation (world K) :=
| passed_nil w : passed_over [] w w
| passed_cons path paths w w1 w' :
    ocxl_afu_open_from_dev path w = Ret (OCXL_NO_MORE_CONTEXTS, OCXL_INVALID_AFU) w1 →
    passed_over paths w1 w' → passed_over (path :: paths) w w'.

(** The first device that is not out of contexts, or none of them. *)
Definition first_free_device (paths : list string) w (res : ocxl_err * ptr) w' : Prop :=
  (∃ passed path rest w1, paths = passed ++ path :: rest ∧ passed_over passed w w1 ∧
     ocxl_afu_open_from_dev path w1 = Ret res w' ∧ res.1 ≠ OCXL_NO_MORE_CONTEXTS) ∨
  (paths ≠ [] ∧ passed_over paths w w' ∧ res = (OCXL_NO_MORE_CONTEXTS, OCXL_INVALID_AFU)).

Lemma wp_run_eq {A} (m : M K A) (Q : A → world K → Prop) w :
  wp m Q w → wp m (λ a w', m w = Ret a w' ∧ Q a w') w.
Proof. unfold wp. by destruct (m w). Qed.

Lemma wp_and {A} (m : M K A) (P Q : A → world K → Prop) w :
  wp m P w → wp m Q w → wp m (λ a w', P a w' ∧ Q a w') w.
Proof. unfold wp. by destruct (m w). Qed.

Lemma open_from_dev_outcome path w :
  heap_wf w → wp (ocxl_afu_open_from_dev path) (λ res w',
    ocxl_afu_open_from_dev path w = Ret res w' ∧ heap_wf w' ∧
    (is_ok res.1 = false → res.2 = OCXL_INVALID_AFU)) w.
Proof.
  intros Hw. apply wp_run_eq, wp_open_from_dev; [done|..].
  - intros rc w' _ Hk. split; [by eapply kept_wf|done].
  - intros p a d_name w' Ho. split; [apply (oh_inv _ _ _ _ _ Ho)|done].
Qed.

Lemma wp_open_first_tried paths ret w :
  heap_wf w →
  wp (open_first paths ret) (λ res w', first_free_device paths w res w' ∨
    paths = [] ∧ w' = w ∧ res = (ret, OCXL_INVALID_AFU)) w.
Proof.
  revert ret w. induction paths as [|path paths IH]; intros ret w Hw; simpl; [apply wp_ret; auto|].
  apply wp_bind. eapply wp_mono; [|by apply open_from_dev_outcome]. intros [rc p] w1 (E & Hw1 & Hp).
  assert (rc ≠ OCXL_NO_MORE_CONTEXTS → first_free_device (path :: paths) w (rc, p) w1) as Hend.
  { intros Hne. left. exists [], path, paths, w. split_and!; [done|constructor|done|done]. }
  destruct rc; try (apply wp_ret; left; by apply Hend).
  assert (p = OCXL_INVALID_AFU) as -> by (by apply Hp).
  eapply wp_mono; [|by apply IH]. intros res w' [[Hf|(Hne & Hpo & ->)]|(-> & -> & ->)]; left.
  - destruct Hf as (passed & path' & rest & w2 & -> & Hpo & E' & Hne). left.
    exists (path :: passed), path', rest, w2. split_and!; [done|by econstructor|done|done].
  - right. split_and!; [done|by econstructor|done].
  - right. split_and!; [done|econstructor; [exact E|constructor]|done].
Qed.

End open.
