(* ===== verification/Api.v ===== *)
(** * Api: programs that use the library

    The state machine of an application that calls the library: a process
    and the set of handles it holds.  [api_step] has one rule per state
    changing call; the invariant [sys_inv] says that every handle is a
    well-formed AFU, that the AFUs share no memory, and that the kernel
    objects held are exactly those the AFUs record. *)

From S2P Require Import Prelude Format Types World Logic Messages Buffer Ledger Mmio MmioFacts.
From S2P Require Import MmioAccess Irq IrqFacts IrqTable Event Names Afu AfuInv EventFacts.
From S2P Require Import AfuClose AfuOpen Trace.
Open Scope Z_scope.

(** ** Footprints *)

Definition footprint (p : ptr) (a : ocxl_afu) : list ptr := afu_mmios a :: afu_blocks p a.

(** An AFU with its tables. *)
Record afu_view : Type := mk_view {
  v_afu : ocxl_afu;
  v_areas : list ocxl_mmio_area;
  v_irqs_of : list ocxl_irq
}.

Definition view_resources (x : afu_view) : list resource :=
  afu_resources (v_afu x) (v_areas x) (v_irqs_of x).

(** What a collection of AFUs holds. *)
Definition total (live : gmap ptr afu_view) (r : resource) : Z :=
  map_fold (λ _ x n, held (view_resources x) r + n) 0 live.

Lemma total_empty r : total ∅ r = 0.
Proof. apply map_fold_empty. Qed.

Lemma total_insert live p x r :
  live !! p = None → total (<[p := x]> live) r = held (view_resources x) r + total live r.
Proof. intros Hp. unfold total. rewrite map_fold_insert_L; [done| |done]. intros. lia. Qed.

Lemma total_lookup live p x r :
  live !! p = Some x → total live r = held (view_resources x) r + total (delete p live) r.
Proof.
  intros Hp. rewrite <-(insert_delete_id live p x Hp) at 1. apply total_insert, lookup_delete_eq.
Qed.

Section api.
Context {K : Type} `{Platform K} `{Abi}.
Implicit Types (w : world K).

Definition view_inv w (p : ptr) (x : afu_view) : Prop :=
  afu_inv w p (v_afu x) (v_areas x) (v_irqs_of x) ∧ 0 <= afu_fd (v_afu x).

(** Every block of the footprint is absent or live. *)
Lemma footprint_live w p x q :
  view_inv w p x → q ∈ footprint p (v_afu x) → q = NULL ∨ is_Some (w_heap w !! q).
Proof.
  intros [Hi _] Hq. pose proof (afu_inv_own _ _ _ _ _ Hi) as [Hown _].
  pose proof (afu_inv_lookup _ _ _ _ _ Hi) as Hp.
  apply elem_of_cons in Hq as [->|Hq].
  - destruct Hi as [[_ _ _ [[rest [Hb _]] _ _ _]] _ _ _ _ _ _].
    destruct Hb as [[E _]|[_ Hb]]; [by left|right; eauto].
  - apply elem_of_cons in Hq as [->|Hq]; [right; eauto|].
    destruct (Hown q Hq) as [?|[? _]]; [by left|by right].
Qed.

(** The invariant depends on the blocks of the footprint only. *)
Lemma view_inv_transfer w w' p x :
  view_inv w p x → heap_wf w' →
  (∀ q o, q ∈ footprint p (v_afu x) → w_heap w !! q = Some o → w_heap w' !! q = Some o) →
  view_inv w' p x.
Proof.
  intros [Hi Hfd] Hw' Hk. split; [|done]. destruct x as [a areas irqs]; simpl in *.
  pose proof (afu_inv_lookup _ _ _ _ _ Hi) as Hp.
  destruct Hi as [[Hw Hn [_ Hd] [[rest [Hb Hmax]] Hc Ho Hbd]] [[rest' [Hb' Hmax']] Hc' Hl' Hbd'] Hs Hpp He Hmf Hso].
  unfold footprint, afu_blocks in Hk.
  assert (∀ l, buf_at w (afu_mmios a) l → buf_at w' (afu_mmios a) l) as Hbm.
  { intros l [?|[? Hl]]; [by left|right]. split; [done|]. apply Hk; [|done]. rewrite !elem_of_cons; tauto. }
  split; [split; [done|done| |]| | |done| |done|done].
  - split; [apply Hk; [rewrite !elem_of_cons; tauto|done]|].
    destruct Hd as [?|[s Hd]]; [by left|right; exists s]. apply Hk; [rewrite !elem_of_cons; tauto|done].
  - split; [|done..]. exists rest. auto.
  - split; [|done..]. exists rest'. split; [|done]. destruct Hb' as [?|[? Hb']]; [by left|right].
    split; [done|]. apply Hk; [rewrite !elem_of_cons; tauto|done].
  - destruct Hs as [?|[s Hs]]; [by left|right; exists s]. apply Hk; [rewrite !elem_of_cons; tauto|done].
  - destruct He as [?|(? & ? & He)]; [by left|right]. split_and!; [done..|].
    apply Hk; [rewrite !elem_of_cons; tauto|done].
Qed.

(** ** The invariant of the whole process *)

Definition apart (p : ptr) (x : afu_view) (p' : ptr) (x' : afu_view) : Prop :=
  ∀ q, q ≠ NULL → q ∈ footprint p (v_afu x) → q ∈ footprint p' (v_afu x') → False.

Record sys_inv w (live : gmap ptr afu_view) : Prop := {
  si_heap : heap_wf w;
  si_views p x : live !! p = Some x → view_inv w p x;
  si_apart p x p' x' : live !! p = Some x → live !! p' = Some x' → p ≠ p' → apart p x p' x';
  si_balance r : balance (effects w) r = total live r
}.

(** An operation on the AFU [p] changes no block outside its footprint, and
    the blocks it adds to it are new. *)
Record local_to w w' (p : ptr) (x x' : afu_view) : Prop := {
  lt_heap q o : q ∉ footprint p (v_afu x) → w_heap w !! q = Some o → w_heap w' !! q = Some o;
  lt_new q : q ∈ footprint p (v_afu x') → q = NULL ∨ q ∈ footprint p (v_afu x) ∨ w_heap w !! q = None;
  lt_balance r : balance (effects w') r =
    balance (effects w) r - held (view_resources x) r + held (view_resources x') r
}.

Lemma sys_inv_step w w' live p x x' :
  sys_inv w live → live !! p = Some x → local_to w w' p x x' → view_inv w' p x' →
  sys_inv w' (<[p := x']> live).
Proof.
  intros [Hw Hv Ha Hb] Hp [Hh Hn Hbal] Hv'.
  assert (∀ p2 x2, live !! p2 = Some x2 → p2 ≠ p → view_inv w' p2 x2) as Hothers.
  { intros p2 x2 H2 Hne. eapply view_inv_transfer; [by apply Hv|apply Hv'|]. intros q o Hq Ho.
    apply Hh; [|done]. intros Hq'. destruct (Ha p2 x2 p x H2 Hp Hne q); [|done..].
    intros ->. by rewrite (heap_wf_null _ Hw) in Ho. }
  assert (∀ p2 x2, live !! p2 = Some x2 → p2 ≠ p → apart p x' p2 x2) as Hap.
  { intros p2 x2 H2 Hne q Hq0 Hq1 Hq2. destruct (Hn q Hq1) as [?|[Hq|Hq]]; [done| |].
    - by eapply (Ha p x p2 x2).
    - destruct (footprint_live _ _ _ _ (Hv _ _ H2) Hq2) as [?|[o Ho]]; [done|congruence]. }
  split; [apply Hv'| | |].
  - intros p2 x2. rewrite lookup_insert_Some. intros [[<- <-]|[Hne H2]]; [done|by apply Hothers].
  - intros p1 x1 p2 x2. rewrite !lookup_insert_Some.
    intros [[<- <-]|[Hne1 H1]] [[<- <-]|[Hne2 H2]] Hne; [done|by apply Hap| |by eapply Ha].
    intros q Hq0 Hq1 Hq2. by eapply (Hap p1 x1).
  - intros r. rewrite Hbal, Hb, (total_lookup _ _ _ r Hp), <-insert_delete_eq.
    rewrite total_insert by apply lookup_delete_eq. lia.
Qed.

(** Nothing happened to the AFUs. *)
Lemma sys_inv_kept w w' live : sys_inv w live → kept w w' → sys_inv w' live.
Proof.
  intros [Hw Hv Ha Hb] [Hw' Hh Hb']. split; [done| |done|].
  - intros p x Hp. eapply view_inv_transfer; [by apply Hv|done|]. intros q o _. apply Hh.
  - intros r. by rewrite Hb'.
Qed.

Lemma sys_inv_quiet w w' live : sys_inv w live → quiet w w' → sys_inv w' live.
Proof.
  intros Hs Hq. eapply sys_inv_kept; [done|]. pose proof (si_heap _ _ Hs) as Hw.
  eapply kept_ext; [by apply heap_wf_null|by apply ext_quiet].
Qed.

(** A new AFU. *)
Lemma sys_inv_open w w' live p a d_name :
  sys_inv w live → open_handle w w' p a d_name →
  live !! p = None ∧ sys_inv w' (<[p := mk_view a [] []]> live).
Proof.
  intros [Hw Hv Ha Hb] Ho. pose proof (oh_inv _ _ _ _ _ Ho) as Hi.
  assert (live !! p = None) as Hp.
  { destruct (live !! p) as [x|] eqn:E; [|done]. destruct (Hv p x E) as [Hx _].
    pose proof (afu_inv_lookup _ _ _ _ _ Hx). by rewrite (oh_new _ _ _ _ _ Ho) in *. }
  split; [done|].
  assert (∀ p2 x2, live !! p2 = Some x2 → apart p (mk_view a [] []) p2 x2) as Hap.
  { intros p2 x2 H2 q Hq0 Hq1 Hq2. simpl in Hq1.
    destruct (footprint_live _ _ _ _ (Hv _ _ H2) Hq2) as [?|[o Hq]]; [done|].
    destruct (oh_fresh _ _ _ _ _ Ho _ _ Hq). by apply elem_of_cons in Hq1 as [?|?]. }
  split; [apply Hi| | |].
  - intros p2 x2. rewrite lookup_insert_Some. intros [[<- <-]|[Hne H2]].
    + split; [done|]. apply Ho.
    + eapply view_inv_transfer; [by apply Hv|apply Hi|]. intros q o _. apply (oh_heap _ _ _ _ _ Ho).
  - intros p1 x1 p2 x2. rewrite !lookup_insert_Some.
    intros [[<- <-]|[Hne1 H1]] [[<- <-]|[Hne2 H2]] Hne; [done|by apply Hap| |by eapply Ha].
    intros q Hq0 Hq1 Hq2. by eapply (Hap p1 x1).
  - intros r. rewrite (oh_balance _ _ _ _ _ Ho), Hb, total_insert by done. unfold view_resources.
    simpl. lia.
Qed.

(** An AFU is closed. *)
Lemma sys_inv_close w w' live p x :
  sys_inv w live → live !! p = Some x →
  afu_closed w p (v_afu x) (v_areas x) (v_irqs_of x) w' → sys_inv w' (delete p live).
Proof.
  intros [Hw Hv Ha Hb] Hp [Hw' Hg Hf Hr _ _]. split; [done| | |].
  - intros p2 x2 [Hne H2]%lookup_delete_Some. eapply view_inv_transfer; [by apply Hv|done|].
    intros q o Hq Ho. assert (q ≠ NULL) as Hq0 by (intros ->; by rewrite (heap_wf_null _ Hw) in Ho).
    rewrite Hr; [done| |]; intros Hq'.
    + eapply (Ha p x p2 x2); [done|done|congruence|done|by right|done].
    + eapply (Ha p x p2 x2 Hp H2 Hne q Hq0); [rewrite Hq'; by left|done].
  - intros p1 x1 p2 x2 [_ H1]%lookup_delete_Some [_ H2]%lookup_delete_Some. by apply Ha.
  - intros r. rewrite (Hg r), Hb, (total_lookup _ _ _ r Hp). unfold view_resources. lia.
Qed.

(** ** The operations, on one AFU *)

Lemma held_areas_cons x areas r :
  held (areas_resources (x :: areas)) r = held (area_resources x) r + held (areas_resources areas) r.
Proof. unfold areas_resources. simpl. apply held_app. Qed.

Lemma held_areas_app l1 l2 r :
  held (areas_resources (l1 ++ l2)) r = held (areas_resources l1) r + held (areas_resources l2) r.
Proof.
  induction l1 as [|x l1 IH]; [done|]. simpl app. rewrite !held_areas_cons, IH. lia.
Qed.

Lemma held_areas_insert areas i x y r :
  areas !! i = Some x →
  held (areas_resources (<[i := y]> areas)) r =
  held (areas_resources areas) r - held (area_resources x) r + held (area_resources y) r.
Proof.
  revert i. induction areas as [|z areas IH]; intros i Hi; [done|]. destruct i as [|i]; simpl in *.
  - injection Hi as ->. rewrite !held_areas_cons. lia.
  - rewrite !held_areas_cons, (IH i Hi). lia.
Qed.

Lemma area_free_resources x : area_start x = NULL → area_resources x = [].
Proof. intros E. unfold area_resources. by rewrite E. Qed.

Lemma held_place areas x r :
  held (areas_resources (place areas x).2) r =
  held (areas_resources areas) r + held (area_resources x) r.
Proof.
  unfold place. destruct (first_free areas) as [i|] eqn:E; simpl.
  - destruct (first_free_Some _ _ E) as [[y [Hy Hy0]] _].
    rewrite (held_areas_insert _ _ _ _ _ Hy), (area_free_resources y Hy0). simpl. lia.
  - rewrite held_areas_app. unfold areas_resources at 2. simpl. rewrite app_nil_r. done.
Qed.

(** The frames of the table operations are local. *)
Lemma local_mmio_frame w w1 w' p a a' areas areas' irqs :
  afu_inv w p a areas irqs → same_mem w w1 → mmio_frame w1 w' p a a' →
  (∀ r, balance (effects w') r = balance (effects w) r - held (areas_resources areas) r +
          held (areas_resources areas') r) →
  local_to w w' p (mk_view a areas irqs) (mk_view a' areas' irqs).
Proof.
  intros Hi Hm Hf Hb. pose proof (sm_heap _ _ Hm) as Eh. pose proof (mf_afu _ _ _ _ _ Hf) as Ea.
  split; simpl.
  - intros q o Hq Ho. unfold footprint, afu_blocks in Hq. rewrite !not_elem_of_cons in Hq.
    destruct (decide (q = afu_mmios a')) as [->|Hne].
    + destruct (mf_new _ _ _ _ _ Hf) as [E|E]; [tauto|]. by rewrite Eh, Ho in E.
    + rewrite (mf_heap _ _ _ _ _ Hf) by tauto. by rewrite Eh.
  - intros q Hq. apply elem_of_cons in Hq as [->|Hq].
    + destruct (mf_new _ _ _ _ _ Hf) as [->|E]; [right; left; by left|right; right]. by rewrite <-Eh.
    + right; left; right. rewrite Ea in Hq. exact Hq.
  - intros r. rewrite Hb. unfold view_resources, afu_resources. simpl. rewrite !held_app.
    assert (afu_page_size a' = afu_page_size a ∧ afu_fd a' = afu_fd a ∧
            afu_epoll_fd a' = afu_epoll_fd a ∧ afu_global_mmio_fd a' = afu_global_mmio_fd a)
      as (E1 & E2 & E3 & E4) by (rewrite Ea; done).
    rewrite E1, E2, E3, E4. lia.
Qed.

Lemma local_irq_frame w w' p a a' areas irqs irqs' :
  afu_inv w p a areas irqs → irq_frame w w' p a a' →
  (∀ r, balance (effects w') r =
     balance (effects w) r - held (irqs_resources (afu_page_size a) (afu_fd a) irqs) r +
     held (irqs_resources (afu_page_size a) (afu_fd a) irqs') r) →
  local_to w w' p (mk_view a areas irqs) (mk_view a' areas irqs').
Proof.
  intros Hi Hf Hb. pose proof (if_afu _ _ _ _ _ Hf) as Ea.
  split; simpl.
  - intros q o Hq Ho. unfold footprint, afu_blocks in Hq. rewrite !not_elem_of_cons in Hq.
    destruct (decide (q = afu_irqs a')) as [->|Hne].
    + destruct (if_new _ _ _ _ _ Hf) as [E|E]; [tauto|]. by rewrite Ho in E.
    + by rewrite (if_heap _ _ _ _ _ Hf) by tauto.
  - assert (afu_mmios a' = afu_mmios a ∧ afu_epoll_events a' = afu_epoll_events a ∧
            afu_device_path a' = afu_device_path a ∧ afu_sysfs_path a' = afu_sysfs_path a)
      as (E1 & E2 & E3 & E4) by (rewrite Ea; done).
    intros q Hq. unfold footprint, afu_blocks in *. rewrite E1, E2, E3, E4 in Hq.
    rewrite !elem_of_cons, elem_of_nil in Hq |- *.
    destruct (if_new _ _ _ _ _ Hf) as [E|E]; [rewrite E in Hq; tauto|].
    destruct Hq as [?|[?|[->|?]]]; [tauto|tauto| |tauto]. tauto.
  - intros r. rewrite Hb. unfold view_resources, afu_resources. simpl. rewrite !held_app.
    assert (afu_page_size a' = afu_page_size a ∧ afu_fd a' = afu_fd a ∧
            afu_epoll_fd a' = afu_epoll_fd a ∧ afu_global_mmio_fd a' = afu_global_mmio_fd a)
      as (E1 & E2 & E3 & E4) by (rewrite Ea; done).
    rewrite E1, E2, E3, E4. lia.
Qed.

(** ** One call of the application *)

(** The process is well-formed and its handles are [hs]. *)
Definition process_ok w (hs : gset ptr) : Prop := ∃ live, dom live = hs ∧ sys_inv w live.

Lemma process_insert w' live p x x' :
  live !! p = Some x → sys_inv w' (<[p := x']> live) → process_ok w' (dom live).
Proof.
  intros Hp Hs. exists (<[p := x']> live). split; [|done].
  rewrite dom_insert_L. apply subseteq_union_1_L, singleton_subseteq_l. by eapply elem_of_dom_2.
Qed.

(** The computations an application with the handles [hs] may run in [w]; each
    answers the handles it has afterwards.  An MMIO handle must point into
    the array as it is now, and the sources of events must be current.  The
    last argument is what the library does not protect the application from:
    an access at a negative offset, and a device with more events than there
    is room for, or with no last event. *)
Inductive allowed w (hs : gset ptr) : M K (gset ptr) → Prop → Prop :=
| allow_open_from_dev path :
    allowed w hs ('(rc, p) ← ocxl_afu_open_from_dev path;
                 mret (if is_ok rc then {[ p ]} ∪ hs else hs)) False
| allow_open_specific name pf idx :
    allowed w hs ('(rc, p) ← ocxl_afu_open_specific name pf idx;
                 mret (if is_ok rc then {[ p ]} ∪ hs else hs)) False
| allow_close p :
    p ∈ hs → allowed w hs (ocxl_afu_close p ;; mret (hs ∖ {[ p ]})) False
| allow_attach p flags :
    p ∈ hs → allowed w hs (ocxl_afu_attach p flags ;; mret hs) False
| allow_map p a type size prot flags offset :
    p ∈ hs → w_heap w !! p = Some (HAfu a) → afu_mmio_count a < 32768 →
    allowed w hs (ocxl_mmio_map_advanced p type size prot flags offset ;; mret hs) False
| allow_unmap p a i :
    p ∈ hs → w_heap w !! p = Some (HAfu a) → Z.of_nat i < afu_mmio_count a →
    allowed w hs (ocxl_mmio_unmap (handle_of a i) ;; mret hs) False
| allow_read32 p a i offset endian :
    p ∈ hs → w_heap w !! p = Some (HAfu a) → Z.of_nat i < afu_mmio_count a →
    allowed w hs (ocxl_mmio_read32 (handle_of a i) offset endian ;; mret hs) (offset < 0)
| allow_read64 p a i offset endian :
    p ∈ hs → w_heap w !! p = Some (HAfu a) → Z.of_nat i < afu_mmio_count a →
    allowed w hs (ocxl_mmio_read64 (handle_of a i) offset endian ;; mret hs) (offset < 0)
| allow_write32 p a i offset endian value :
    p ∈ hs → w_heap w !! p = Some (HAfu a) → Z.of_nat i < afu_mmio_count a →
    allowed w hs (ocxl_mmio_write32 (handle_of a i) offset endian value ;; mret hs) (offset < 0)
| allow_write64 p a i offset endian value :
    p ∈ hs → w_heap w !! p = Some (HAfu a) → Z.of_nat i < afu_mmio_count a →
    allowed w hs (ocxl_mmio_write64 (handle_of a i) offset endian value ;; mret hs) (offset < 0)
| allow_irq_alloc p a info :
    p ∈ hs → w_heap w !! p = Some (HAfu a) → afu_irq_count a < 32768 →
    allowed w hs (ocxl_irq_alloc p info ;; mret hs) False
| allow_event_check (I : K → Prop) fuel p a irqs timeout n :
    p ∈ hs → w_heap w !! p = Some (HAfu a) → irq_table w a irqs →
    event_kernel I p a irqs → I (w_os w) → 0 <= n <= UINT16_MAX →
    allowed w hs (ocxl_afu_event_check fuel p timeout n ;; mret hs)
      (overflows p a irqs n timeout (w_os w) ∨ starves p a irqs n timeout fuel (w_os w))
| allow_p9_thread_id p :
    p ∈ hs → allowed w hs (ocxl_afu_get_p9_thread_id p ;; mret hs) False
| allow_afu_messages p sources :
    p ∈ hs → allowed w hs (ocxl_afu_enable_messages p sources ;; mret hs) False
| allow_afu_handler p h :
    p ∈ hs → allowed w hs (ocxl_afu_set_error_message_handler p h ;; mret hs) False
| allow_amr p amr :
    p ∈ hs → allowed w hs (ocxl_afu_set_ppc64_amr p amr ;; mret hs) False
| allow_messages sources :
    allowed w hs (ocxl_enable_messages sources ;; mret hs) False
| allow_handler h :
    allowed w hs (ocxl_set_error_message_handler h ;; mret hs) False.

Inductive api_step : relation (world K * gset ptr) :=
| api_step_intro w hs m hazard w' hs' :
    allowed w hs m hazard → m w = Ret hs' w' → api_step (w, hs) (w', hs').

(** The states a program can reach. *)
Definition reachable (k : K) (s : world K * gset ptr) : Prop :=
  rtc api_step (initial_world k, ∅) s.

(** Running a call and returning the same handles. *)
Lemma wpx_then_same {A} U D (m : M K A) (hs : gset ptr) (Q : gset ptr → world K → Prop) w :
  wpx U D m (λ _ w', Q hs w') w → wpx U D (m ;; mret hs) Q w.
Proof. intros Hm. by apply wpx_bind. Qed.

Lemma sys_inv_same_mem w w' live :
  sys_inv w live → same_mem w w' → (∀ r, balance (effects w') r = balance (effects w) r) →
  sys_inv w' live.
Proof.
  intros Hs [E1 E2 _] Hb. eapply sys_inv_kept; [done|]. apply kept_mem; [apply Hs|done..].
Qed.

Lemma sys_inv_did {R : Set} (c : sys R) r w w' live :
  sys_inv w live → did c r w w' → acquires c r = None → releases c = None → sys_inv w' live.
Proof.
  intros Hs Hd Ha Hr. eapply sys_inv_same_mem; [done|apply Hd|]. intros x.
  rewrite (balance_did _ _ _ _ _ Hd). unfold delta. rewrite Ha, Hr, !one_if_None. lia.
Qed.

Lemma sys_inv_accessed {R : Set} (c : sys R) r w w' live :
  sys_inv w live → accessed c r w w' → acquires c r = None → releases c = None → sys_inv w' live.
Proof.
  intros Hs (w1 & w2 & w3 & w4 & H1 & H2 & H3 & H4 & H5) Ha Hr.
  eapply sys_inv_quiet; [|exact H5]. eapply sys_inv_did; [|exact H4|done|done].
  eapply sys_inv_did; [|exact H3|done|done]. eapply sys_inv_did; [|exact H2|done|done].
  by eapply sys_inv_quiet.
Qed.

(** The AFU behind a handle. *)
Lemma sys_inv_view w live p :
  sys_inv w live → p ∈ dom live → ∃ x, live !! p = Some x ∧ view_inv w p x.
Proof. intros Hs Hp. apply elem_of_dom in Hp as [x Hx]. exists x. split; [done|]. by eapply si_views. Qed.

(** Assignments to a record that leave its blocks and descriptors alone. *)
Definition keeps_objects (f : ocxl_afu → ocxl_afu) : Prop :=
  ∀ a, same_blocks a (f a) ∧ afu_page_size (f a) = afu_page_size a ∧ afu_fd (f a) = afu_fd a ∧
       afu_epoll_fd (f a) = afu_epoll_fd a ∧ afu_global_mmio_fd (f a) = afu_global_mmio_fd a.

Lemma wp_sys_set w live p a areas irqs f Q :
  sys_inv w live → live !! p = Some (mk_view a areas irqs) → keeps_objects f →
  (∀ w', sys_inv w' (<[p := mk_view (f a) areas irqs]> live) → Q tt w') → wp (set_afu p f) Q w.
Proof.
  intros Hs Hx Hf HQ. destruct (si_views _ _ Hs _ _ Hx) as [Hi Hfd].
  destruct (Hf a) as (Hb & E1 & E2 & E3 & E4). simpl in *.
  eapply wp_set_afu_inv; [exact Hi|exact Hb|]. intros w' Hi' Ee Eg Eo. apply HQ.
  eapply sys_inv_step; [done|exact Hx| |].
  - split; simpl.
    + intros q o Hq Ho. rewrite Eo; [done|]. intros ->. apply Hq. right; by left.
    + intros q Hq. right; left. destruct Hb as (B1 & B2 & B3 & _ & B5 & _ & _ & B8 & _).
      unfold footprint, afu_blocks in *. by rewrite B1, B2, B3, B5, B8 in Hq.
    + intros r. rewrite Ee. unfold view_resources, afu_resources. simpl. rewrite E1, E2, E3, E4. lia.
  - split; [done|]. simpl. by rewrite E2.
Qed.

Lemma wp_api_set w live p f :
  sys_inv w live → p ∈ dom live → keeps_objects f →
  wp (set_afu p f) (λ _ w', process_ok w' (dom live)) w.
Proof.
  intros Hs Hp Hf. destruct (sys_inv_view _ _ _ Hs Hp) as ([a areas irqs] & Hx & _).
  eapply wp_sys_set; [done|exact Hx|done|]. intros w' Hs'. by eapply process_insert.
Qed.

Lemma process_same w live : sys_inv w live → process_ok w (dom live).
Proof. intros Hs. by exists live. Qed.

Lemma wp_api_open w live res w' :
  sys_inv w live → open_result w res w' →
  process_ok w' (if is_ok res.1 then {[ res.2 ]} ∪ dom live else dom live).
Proof.
  intros Hs Hr. destruct res as [rc p]. destruct rc; simpl in *;
    [|apply process_same; eapply sys_inv_kept; [exact Hs|apply Hr]..].
  destruct Hr as (a & d_name & Ho). destruct (sys_inv_open _ _ _ _ _ _ Hs Ho) as [_ Hs'].
  eexists. split; [|exact Hs']. apply dom_insert_L.
Qed.

Lemma wp_api_close w live p :
  sys_inv w live → p ∈ dom live →
  wp (ocxl_afu_close p) (λ _ w', process_ok w' (dom live ∖ {[ p ]})) w.
Proof.
  intros Hs Hp. destruct (sys_inv_view _ _ _ Hs Hp) as (x & Hx & Hi & Hfd).
  eapply wp_afu_close; [exact Hi|done|]. intros w' Hc.
  exists (delete p live). split; [apply dom_delete_L|by eapply sys_inv_close].
Qed.

Lemma wp_sys_attach w live p a areas irqs flags Q :
  sys_inv w live → live !! p = Some (mk_view a areas irqs) →
  (∀ err w', is_ok err = false → sys_inv w' live → Q err w') →
  (∀ w', sys_inv w' (<[p := mk_view (a <| afu_attached := true |>) areas irqs]> live) → Q OCXL_OK w') →
  wp (ocxl_afu_attach p flags) Q w.
Proof.
  intros Hs Hx Hfail Hok. destruct (si_views _ _ Hs _ _ Hx) as [Hi Hfd]. simpl in Hi, Hfd.
  apply wp_bind. eapply wp_get_afu; [eauto with ocxl|].
  destruct (Z.eqb_spec (afu_fd a) (-1)); [lia|].
  apply wp_bind, wp_call; [done|]. intros rc w1 Hd.
  assert (sys_inv w1 live) as Hs1 by (by eapply sys_inv_did).
  destruct (si_views _ _ Hs1 _ _ Hx) as [Hi1 _]. simpl in Hi1.
  destruct (c_bool rc).
  - apply wp_bind, wp_errno_args. intros e w2 Hq2. apply wp_bind, wp_errmsg; [|done|].
    { eapply can_report_quiet; [done|by eapply afu_inv_report]. }
    intros w3 Hq3. apply wp_ret, Hfail; [done|]. eapply sys_inv_quiet; [exact Hs1|by etrans].
  - apply wp_bind. eapply wp_sys_set; [exact Hs1|exact Hx|by intros ?; repeat split|].
    intros w2 Hs2. by apply wp_ret, Hok.
Qed.

Lemma wp_api_attach w live p flags :
  sys_inv w live → p ∈ dom live →
  wp (ocxl_afu_attach p flags) (λ _ w', process_ok w' (dom live)) w.
Proof.
  intros Hs Hp. destruct (sys_inv_view _ _ _ Hs Hp) as ([a areas irqs] & Hx & _).
  eapply wp_sys_attach; [done|exact Hx|..].
  - intros err w' _ Hs'. by apply process_same.
  - intros w' Hs'. by eapply process_insert.
Qed.

(** An access to an area: nothing of the process changes. *)
Lemma wpx_api_access {A} (m : M K A) w live p a i offset n (Q : ocxl_mmio_area → A → world K → Prop) :
  sys_inv w live → p ∈ dom live → w_heap w !! p = Some (HAfu a) → Z.of_nat i < afu_mmio_count a →
  (∀ areas x, mmio_inv w p a areas → areas !! i = Some x → ¬ underruns x offset n → wp m (Q x) w) →
  (∀ areas x, mmio_inv w p a areas → areas !! i = Some x → underruns x offset n → goes_wrong m w) →
  (∀ x r w', Q x r w' → sys_inv w' live) →
  wpx (offset < 0) (offset < 0) m (λ _ w', process_ok w' (dom live)) w.
Proof.
  intros Hs Hp Ha Hi Hm Hub HQ. destruct (sys_inv_view _ _ _ Hs Hp) as ([a' areas irqs] & Hx & Hinv & _).
  simpl in Hinv. pose proof (afu_inv_lookup _ _ _ _ _ Hinv) as Hp'. rewrite Ha in Hp'.
  injection Hp' as <-. pose proof (ai_mmio _ _ _ _ _ Hinv) as Hmm.
  destruct (lookup_lt_is_Some_2 areas i) as [y Hy].
  { pose proof (mt_count _ _ _ _ (mi_table _ _ _ _ Hmm)). lia. }
  apply (wpx_underruns m y offset n); [|by eapply Hub].
  intros Hu. eapply wp_mono; [|by eapply Hm]. intros r w' Hr. apply process_same. by eapply HQ.
Qed.

Lemma read_result_sys n x offset endian w r w' live :
  sys_inv w live → read_result n x offset endian w r w' → sys_inv w' live.
Proof.
  intros Hs. unfold read_result. destruct (access_verdict _ _ _);
    try (intros [_ Hq]; by eapply sys_inv_quiet).
  intros (bs & Hacc & _). by eapply sys_inv_accessed.
Qed.

Lemma write_result_sys n x offset endian v w r w' live :
  sys_inv w live → write_result n x offset endian v w r w' → sys_inv w' live.
Proof.
  intros Hs. unfold write_result. destruct (access_verdict _ _ _);
    try (intros [_ Hq]; by eapply sys_inv_quiet).
  intros [Hacc _]. by eapply sys_inv_accessed.
Qed.

Lemma wp_sys_unmap w live p a areas irqs i y Q :
  sys_inv w live → live !! p = Some (mk_view a areas irqs) → areas !! i = Some y →
  (∀ areas' w', sys_inv w' (<[p := mk_view a areas' irqs]> live) → Q tt w') →
  wp (ocxl_mmio_unmap (handle_of a i)) Q w.
Proof.
  intros Hs Hx Hy HQ. destruct (si_views _ _ Hs _ _ Hx) as [Hinv Hfd]. simpl in Hinv, Hfd.
  pose proof (ai_mmio _ _ _ _ _ Hinv) as Hmm.
  pose proof (Forall_lookup_1 _ _ _ _ (ai_mapped _ _ _ _ _ Hinv) Hy) as Hyf. simpl in Hyf.
  eapply wp_mmio_unmap; [exact Hmm|exact Hy|]. intros w' Hr. unfold unmap_result in Hr.
  destruct (Z.eqb_spec (area_start y) NULL) as [E|E]; [subst w'; apply (HQ areas); by rewrite insert_id|].
  destruct Hr as (rc & w1 & Hd & Hm' & Hf). pose proof (did_mem _ _ _ _ Hd) as Hsm.
  assert (afu_inv w1 p a areas irqs) as Hinv1 by (by eapply afu_inv_same_mem).
  apply (HQ (unmapped areas i y)). eapply sys_inv_step; [exact Hs|exact Hx| |].
  - eapply local_mmio_frame; [exact Hinv|exact Hsm|exact Hf|]. intros r.
    rewrite (mf_effects _ _ _ _ _ Hf), (balance_did _ _ _ _ _ Hd), unmap_balance by done.
    unfold unmapped. rewrite (held_areas_insert _ _ _ _ _ Hy). simpl. lia.
  - split; [|done]. simpl. eapply afu_inv_mmio_frame; [exact Hinv1|exact Hf|exact Hm'|].
    apply Forall_insert; [apply Hinv|]. done.
Qed.

Lemma wp_api_unmap w live p a i :
  sys_inv w live → p ∈ dom live → w_heap w !! p = Some (HAfu a) → Z.of_nat i < afu_mmio_count a →
  wp (ocxl_mmio_unmap (handle_of a i)) (λ _ w', process_ok w' (dom live)) w.
Proof.
  intros Hs Hp Ha Hi. destruct (sys_inv_view _ _ _ Hs Hp) as ([a' areas irqs] & Hx & Hinv & Hfd).
  simpl in Hinv, Hfd. pose proof (afu_inv_lookup _ _ _ _ _ Hinv) as Hp'. rewrite Ha in Hp'. injection Hp' as <-.
  destruct (lookup_lt_is_Some_2 areas i) as [y Hy].
  { pose proof (mt_count _ _ _ _ (mi_table _ _ _ _ (ai_mmio _ _ _ _ _ Hinv))). lia. }
  eapply wp_sys_unmap; [exact Hs|exact Hx|exact Hy|]. intros areas' w' Hs'. by eapply process_insert.
Qed.

(** Waiting for events acquires and releases nothing. *)
Lemma afu_reads_balance a rs r : balance (afu_reads a rs) r = 0.
Proof. induction rs as [|x rs IH]; simpl; [done|]. rewrite IH, !one_if_None. lia. Qed.

Lemma reported_balance p a irqs sources es evs r :
  reported p a irqs sources es evs → balance es r = 0.
Proof.
  induction 1 as [|rs x sources es evs _ _ _ IH|n i x sources es evs _ _ IH]; [done|..].
  - by rewrite balance_app, afu_reads_balance, IH.
  - simpl. rewrite !one_if_None. lia.
Qed.

Lemma check_outcome_balance p a irqs n timeout es rc evs r :
  check_outcome p a irqs n timeout es rc evs → balance es r = 0.
Proof.
  destruct 1 as [| |count sources es evs (rs & x & es' & Hr & _ & ->)|count sources es evs Hr _];
    simpl; rewrite ?one_if_None; [done|done| |].
  - destruct Hr as (_ & pre & rest & es'' & evs' & _ & Hr & -> & _).
    rewrite !balance_app, afu_reads_balance, (reported_balance _ _ _ _ _ _ r Hr). simpl. rewrite !one_if_None. lia.
  - rewrite (reported_balance _ _ _ _ _ _ r Hr). lia.
Qed.

Lemma irq_table_unique w a irqs irqs' : irq_table w a irqs → irq_table w a irqs' → irqs = irqs'.
Proof.
  intros [[rest [Hb _]] Hc _ _] [[rest' [Hb' _]] Hc' _ _].
  assert (length irqs = length irqs') as Hl by lia.
  assert ((Some <$> irqs) ++ rest = (Some <$> irqs') ++ rest') as E.
  { destruct Hb as [[E1 E2]|[N1 Hb]], Hb' as [[E1' E2']|[N1' Hb']]; [congruence..|].
    rewrite Hb in Hb'. by injection Hb'. }
  apply app_inj_1 in E as [E _]; [|by rewrite !length_fmap]. by apply (inj (fmap Some)) in E.
Qed.

Lemma wpx_sys_event_check I fuel w live p a areas irqs timeout n Q :
  sys_inv w live → live !! p = Some (mk_view a areas irqs) →
  event_kernel I p a irqs → I (w_os w) → 0 <= n <= UINT16_MAX →
  (∀ rc evs es events m w', sys_inv w' (<[p := mk_view (with_epoll a events m) areas irqs]> live) →
     ran es w w' → I (w_os w') → check_outcome p a irqs n timeout es rc evs → Q (rc, evs) w') →
  wpx (overflows p a irqs n timeout (w_os w)) (starves p a irqs n timeout fuel (w_os w))
    (ocxl_afu_event_check fuel p timeout n) Q w.
Proof.
  intros Hs Hx HI Hk Hn HQ. destruct (si_views _ _ Hs _ _ Hx) as [Hinv Hfd]. simpl in Hinv, Hfd.
  eapply wpx_event_check; [exact HI|exact Hk|exact Hinv|exact Hn|].
  intros rc evs es events m w' Hi' Hh Hnew He Hk' Hc.
  apply (HQ rc evs es events m w'); [|exact He|exact Hk'|exact Hc]. eapply sys_inv_step; [exact Hs|exact Hx| |].
  - split; simpl.
    + intros q o Hq Ho. unfold footprint, afu_blocks in Hq. rewrite !not_elem_of_cons in Hq.
      assert (q ≠ NULL) as Hq0 by (intros ->; by rewrite (heap_wf_null _ (si_heap _ _ Hs)) in Ho).
      rewrite Hh; [done|tauto|tauto|]. intros ->. destruct Hnew as [?|[?|?]]; [done|tauto|congruence].
    + intros q Hq. unfold footprint, afu_blocks in *. rewrite !elem_of_cons, elem_of_nil in Hq |- *.
      simpl in Hq. clear - Hq Hnew. intuition (subst; tauto).
    + intros r. rewrite (ran_effects _ _ _ He), balance_app, (check_outcome_balance _ _ _ _ _ _ _ _ r Hc).
      unfold view_resources, afu_resources. simpl. lia.
  - split; [exact Hi'|exact Hfd].
Qed.

(** The view of the AFU behind a handle. *)
Lemma sys_inv_afu w live p a :
  sys_inv w live → p ∈ dom live → w_heap w !! p = Some (HAfu a) →
  ∃ areas irqs, live !! p = Some (mk_view a areas irqs) ∧ afu_inv w p a areas irqs.
Proof.
  intros Hs Hp Ha. destruct (sys_inv_view _ _ _ Hs Hp) as ([a' areas irqs] & Hx & Hinv & _).
  simpl in Hinv. pose proof (afu_inv_lookup _ _ _ _ _ Hinv) as Hp'. rewrite Ha in Hp'.
  injection Hp' as <-. by exists areas, irqs.
Qed.

Lemma wpx_api_event_check I fuel w live p a irqs timeout n :
  sys_inv w live → p ∈ dom live → w_heap w !! p = Some (HAfu a) → irq_table w a irqs →
  event_kernel I p a irqs → I (w_os w) → 0 <= n <= UINT16_MAX →
  wpx (overflows p a irqs n timeout (w_os w)) (starves p a irqs n timeout fuel (w_os w))
    (ocxl_afu_event_check fuel p timeout n) (λ _ w', process_ok w' (dom live)) w.
Proof.
  intros Hs Hp Ha Ht HI Hk Hn. destruct (sys_inv_afu _ _ _ _ Hs Hp Ha) as (areas & irqs' & Hx & Hinv).
  pose proof (irq_table_unique _ _ _ _ Ht (ai_irq _ _ _ _ _ Hinv)) as <-.
  eapply wpx_sys_event_check; [exact Hs|exact Hx|exact HI|exact Hk|exact Hn|].
  intros. by eapply process_insert.
Qed.

(** A call that only asks the kernel. *)
Lemma wp_sys_p9_thread_id w live p Q :
  sys_inv w live → p ∈ dom live →
  (∀ err w', is_ok err = false → sys_inv w' live → Q (err, None) w') →
  (∀ tid w', sys_inv w' live → Q (OCXL_OK, Some tid) w') →
  wp (ocxl_afu_get_p9_thread_id p) Q w.
Proof.
  intros Hs Hp Hfail Hok. destruct (sys_inv_view _ _ _ Hs Hp) as (x & Hx & Hi & Hfd).
  assert (∀ w1, sys_inv w1 live → ∀ w2, quiet w1 w2 → can_report w2 p) as Hrep.
  { intros w1 Hs1 w2 Hq. destruct (sys_inv_view _ _ _ Hs1 Hp) as (x1 & _ & Hi1 & _).
    eapply can_report_quiet; [done|by eapply afu_inv_report]. }
  apply wp_bind. eapply wp_get_afu; [eauto with ocxl|].
  apply wp_bind, wp_call; [done|]. intros [r flags] w1 Hd1.
  assert (sys_inv w1 live) as Hs1 by (by eapply sys_inv_did).
  destruct (c_bool r).
  { apply wp_bind, wp_errno_args. intros e w2 Hq2. apply wp_bind, wp_errmsg; [by eapply Hrep|done|].
    intros w3 Hq3. apply wp_ret, Hfail; [done|]. eapply sys_inv_quiet; [exact Hs1|by etrans]. }
  destruct (negb _).
  { apply wp_bind, wp_errmsg; [by eapply Hrep|done|]. intros w3 Hq3. apply wp_ret, Hfail; [done|].
    by eapply sys_inv_quiet. }
  apply wp_bind, wp_call; [done|]. intros [r' t] w2 Hd2.
  assert (sys_inv w2 live) as Hs2 by (by eapply sys_inv_did).
  destruct (c_bool r'); [|by apply wp_ret, Hok].
  apply wp_bind, wp_errno_args. intros e w3 Hq3. apply wp_bind, wp_errmsg; [by eapply Hrep|done|].
  intros w4 Hq4. apply wp_ret, Hfail; [done|]. eapply sys_inv_quiet; [exact Hs2|by etrans].
Qed.

Lemma wp_api_p9_thread_id w live p :
  sys_inv w live → p ∈ dom live →
  wp (ocxl_afu_get_p9_thread_id p) (λ _ w', process_ok w' (dom live)) w.
Proof. intros Hs Hp. eapply wp_sys_p9_thread_id; [done|done|..]; intros; by apply process_same. Qed.

Context `{!NonZeroHandles K}.

(** The entry of a mapping the kernel granted. *)
Definition mapped_at (a : ocxl_afu) (type : ocxl_mmio_type) (size prot flags offset : Z) (k : K)
    (x : ocxl_mmio_area) : Prop :=
  ∃ fd n, map_request a type size flags offset = inr (fd, n) ∧ area_length x = n ∧
    area_start x ≠ MAP_FAILED ∧ (os_step _ (SMmap n prot fd offset) k).1 = area_start x.

Lemma wp_sys_map_at w live p a areas irqs type size prot flags offset Q :
  sys_inv w live → live !! p = Some (mk_view a areas irqs) → afu_mmio_count a < 32768 →
  (∀ err w', is_ok err = false → sys_inv w' live → Q (err, None) w') →
  (∀ a' i x areas' w', sys_inv w' (<[p := mk_view a' areas' irqs]> live) → areas' !! i = Some x →
     mapped_at a type size prot flags offset (w_os w) x →
     a' = a <| afu_mmios := afu_mmios a' |> <| afu_mmio_count := afu_mmio_count a' |>
            <| afu_mmio_max_count := afu_mmio_max_count a' |> →
     afu_mmio_count a' <= afu_mmio_count a + 1 → Q (OCXL_OK, Some (handle_of a' i)) w') →
  wp (ocxl_mmio_map_advanced p type size prot flags offset) Q w.
Proof.
  intros Hs Hx Hc Hfail Hok. destruct (si_views _ _ Hs _ _ Hx) as [Hinv Hfd]. simpl in Hinv, Hfd.
  pose proof (ai_mmio _ _ _ _ _ Hinv) as Hmm. pose proof (mt_count _ _ _ _ (mi_table _ _ _ _ Hmm)) as Ec.
  eapply wp_mono; [|eapply wp_mmio_map_advanced; [exact Hmm|]]; [|lia].
  intros res w' Hr. unfold map_result in Hr.
  destruct (map_request a type size flags offset) as [err|[fd n]] eqn:Em.
  { destruct Hr as [-> Hq]. apply Hfail; [by eapply map_request_err|]. by eapply sys_inv_quiet. }
  destruct Hr as [w1 w' Hd Hq|addr rc w1 w2 w' Hne _ Hd Hq Hd2|a' addr i areas' w1 w' Hne Hd Hpl Hm' Hf _].
  - apply Hfail; [done|]. eapply sys_inv_quiet; [|exact Hq]. eapply sys_inv_did; [done|exact Hd|done|done].
  - apply Hfail; [done|]. eapply sys_inv_same_mem; [exact Hs| |].
    + etrans; [apply Hd|]. etrans; [apply Hq|apply Hd2].
    + intros r. rewrite (balance_did _ _ _ _ _ Hd2), (balance_quiet _ _ _ Hq), (balance_did _ _ _ _ _ Hd).
      unfold delta; simpl. rewrite (proj2 (Z.eqb_neq _ _) Hne). rewrite !one_if_None. lia.
  - assert (addr ≠ NULL) as Hnn.
    { intros ->. eapply (mmap_nonzero _ _ _ _ (w_os w)). by rewrite (did_step _ _ _ _ Hd). }
    pose proof (did_mem _ _ _ _ Hd) as Hsm. set (x := mk_mmio_area addr n type (Some p)) in *.
    pose proof (place_same areas x) as Hlk. pose proof (length_place areas x) as Hlen.
    assert (length (place areas x).2 <= S (length areas))%nat by (destruct (first_free areas); lia).
    rewrite Hpl in Hlk. simpl in Hlk.
    assert (areas' = (place areas x).2) as -> by (by rewrite Hpl).
    assert (area_resources x = [RMap addr n]) as Hres.
    { unfold area_resources. simpl. by rewrite (proj2 (Z.eqb_neq _ _) Hnn). }
    pose proof (mt_count _ _ _ _ (mi_table _ _ _ _ Hm')) as Ec'.
    eapply (Hok a' i x (place areas x).2 w'); [|done| |exact (mf_afu _ _ _ _ _ Hf)|lia].
    2: { exists fd, n. split_and!; [done..|by rewrite (did_step _ _ _ _ Hd)]. }
    eapply sys_inv_step; [done|exact Hx| |].
    + eapply local_mmio_frame; [exact Hinv|exact Hsm|exact Hf|]. intros r.
      rewrite (mf_effects _ _ _ _ _ Hf), (balance_did _ _ _ _ _ Hd), held_place, Hres.
      unfold delta; simpl. rewrite (proj2 (Z.eqb_neq _ _) Hne), one_if_None. lia.
    + split.
      * simpl. eapply afu_inv_mmio_frame; [by eapply afu_inv_same_mem|exact Hf|exact Hm'|].
        by apply place_Forall; [apply Hinv|].
      * simpl. rewrite (mf_afu _ _ _ _ _ Hf). done.
Qed.

Lemma wp_sys_map w live p a areas irqs type size prot flags offset Q :
  sys_inv w live → live !! p = Some (mk_view a areas irqs) → afu_mmio_count a < 32768 →
  (∀ err w', is_ok err = false → sys_inv w' live → Q (err, None) w') →
  (∀ a' i x areas' w', sys_inv w' (<[p := mk_view a' areas' irqs]> live) → areas' !! i = Some x →
     a' = a <| afu_mmios := afu_mmios a' |> <| afu_mmio_count := afu_mmio_count a' |>
            <| afu_mmio_max_count := afu_mmio_max_count a' |> →
     afu_mmio_count a' <= afu_mmio_count a + 1 → Q (OCXL_OK, Some (handle_of a' i)) w') →
  wp (ocxl_mmio_map_advanced p type size prot flags offset) Q w.
Proof. intros Hs Hx Hc Hfail Hok. eapply wp_sys_map_at; eauto. Qed.

Lemma wp_api_map w live p a type size prot flags offset :
  sys_inv w live → p ∈ dom live → w_heap w !! p = Some (HAfu a) → afu_mmio_count a < 32768 →
  wp (ocxl_mmio_map_advanced p type size prot flags offset) (λ _ w', process_ok w' (dom live)) w.
Proof.
  intros Hs Hp Ha Hc. destruct (sys_inv_afu _ _ _ _ Hs Hp Ha) as (areas & irqs & Hx & _).
  eapply wp_sys_map; [exact Hs|exact Hx|exact Hc|..].
  - intros err w' _ Hs'. by apply process_same.
  - intros a' i x areas' w' Hs' _ _ _. by eapply process_insert.
Qed.

Lemma held_irqs_app page fd l1 l2 r :
  held (irqs_resources page fd (l1 ++ l2)) r =
  held (irqs_resources page fd l1) r + held (irqs_resources page fd l2) r.
Proof. unfold irqs_resources. by rewrite fmap_app, join_app, held_app. Qed.

Lemma held_irqs_one page fd i r :
  held (irqs_resources page fd [i]) r = held (irq_resources page fd i) r.
Proof. unfold irqs_resources. simpl. by rewrite app_nil_r. Qed.

Lemma renumbered_resources page fd i n :
  irq_resources page fd (i <| irq_number := n |>) = irq_resources page fd i.
Proof. done. Qed.

(** An IRQ was added behind the others; the array moved if it was full. *)
Record irq_added w w' (p : ptr) (a a' : ocxl_afu) (irqs : list ocxl_irq) (i : ocxl_irq) : Prop := {
  ia_info : irq_fd_info i = mk_fd_source EPOLL_SOURCE_IRQ (Some (irq_at a' (length irqs)));
  ia_room : irq_room a a';
  ia_afu : a' = a <| afu_irqs := afu_irqs a' |> <| afu_irq_count := afu_irq_count a' |>
                  <| afu_irq_max_count := afu_irq_max_count a' |>;
  ia_effects : ∃ es efd rc, effects w' = effects w ++ es ++
     [Ev (SEpollCtlAdd (afu_epoll_fd a) efd (IrqFdInfo (irq_at a' (length irqs)))) rc] ∧
     0 <= irq_eventfd i ∧ Ev SEventfd (irq_eventfd i) ∈ es ∧ Forall (λ e, let 'Ev c _ := e in watch_op c = false) es
}.

Lemma wp_sys_irq_alloc w live p a areas irqs info Q :
  sys_inv w live → live !! p = Some (mk_view a areas irqs) → afu_irq_count a < 32768 →
  (∀ err a' w', is_ok err = false → sys_inv w' (<[p := mk_view a' areas irqs]> live) → Q (err, None) w') →
  (∀ a' i w', sys_inv w' (<[p := mk_view a' areas (irqs ++ [i])]> live) → irq_added w w' p a a' irqs i →
     Q (OCXL_OK, Some (Z.of_nat (length irqs))) w') →
  wp (ocxl_irq_alloc p info) Q w.
Proof.
  intros Hs Hx Hc Hfail Hok. destruct (si_views _ _ Hs _ _ Hx) as [Hinv Hfd]. simpl in Hinv, Hfd.
  pose proof (afu_inv_irq _ _ _ _ _ Hinv) as Hii.
  eapply wp_mono; [|eapply wp_irq_alloc; [exact Hii|]].
  2:{ pose proof (it_count _ _ _ (ai_irq _ _ _ _ _ Hinv)). lia. }
  intros res w' [w'' _ Hq|a' es rc i w'' Hat Hrc Hi' Hf He|a' es i w'' Hat Hi' Hf Hroom He].
  - apply (Hfail _ a); [done|]. rewrite insert_id by done. by eapply sys_inv_quiet.
  - apply (Hfail _ a'); [done|]. eapply sys_inv_step; [done|exact Hx| |].
    + eapply local_irq_frame; [exact Hinv|exact Hf|]. intros r.
      rewrite He, balance_app, (irq_attempt_balance _ _ _ _ _ _ _ _ r Hat), Hrc. lia.
    + split; [by eapply afu_inv_irq_frame|]. simpl. by rewrite (if_afu _ _ _ _ _ Hf).
  - apply (Hok a' (i <| irq_number := Z.of_nat (length irqs) |>)).
    + eapply sys_inv_step; [done|exact Hx| |].
      * eapply local_irq_frame; [exact Hinv|exact Hf|]. intros r.
        rewrite He, balance_app, (irq_attempt_balance _ _ _ _ _ _ _ _ r Hat), held_irqs_app.
        rewrite held_irqs_one, renumbered_resources. simpl is_ok. cbv iota. lia.
      * split; [by eapply afu_inv_irq_frame|]. simpl. by rewrite (if_afu _ _ _ _ _ Hf).
    + inversion Hat; subst. split; [done|done|exact (if_afu _ _ _ _ _ Hf)|].
      eexists [_; _; _; _], efd, rc. split_and!; [exact He|done|by left|by repeat constructor].
Qed.

Lemma wp_api_irq_alloc w live p a info :
  sys_inv w live → p ∈ dom live → w_heap w !! p = Some (HAfu a) → afu_irq_count a < 32768 →
  wp (ocxl_irq_alloc p info) (λ _ w', process_ok w' (dom live)) w.
Proof.
  intros Hs Hp Ha Hc. destruct (sys_inv_afu _ _ _ _ Hs Hp Ha) as (areas & irqs & Hx & _).
  eapply wp_sys_irq_alloc; [exact Hs|exact Hx|exact Hc|..].
  - intros err a' w' _ Hs'. by eapply process_insert.
  - intros a' i w' Hs' _. by eapply process_insert.
Qed.

Context `{!ShortNames K} `{!ByteLoads K}.

(** Every call an application may make leaves the process well-formed, and it
    returns unless the hazard of the call is met. *)
Lemma wpx_allowed w hs m hazard :
  process_ok w hs → allowed w hs m hazard → wpx hazard hazard m (λ hs' w', process_ok w' hs') w.
Proof.
  intros (live & <- & Hs) Hm. pose proof (si_heap _ _ Hs) as Hw.
  destruct Hm; try (apply wpx_then_same).
  - apply wp_wpx, wp_bind, wp_open_from_dev; [done|..].
    + intros rc w' Hrc Hk. apply wp_ret.
      apply (wp_api_open w live (rc, OCXL_INVALID_AFU) w'); [done|].
      apply open_result_failed; [by destruct Hrc as [->|[->| ->]]|done].
    + intros p a d_name w' Ho. apply wp_ret. apply (wp_api_open w live (OCXL_OK, p) w'); [done|].
      by exists a, d_name.
  - apply wp_wpx, wp_bind. eapply wp_mono; [|by apply wp_open_specific]. intros [rc p] w' Hr.
    apply wp_ret. by apply (wp_api_open w live (rc, p) w').
  - by apply wp_wpx, wp_api_close.
  - by apply wp_wpx, wp_api_attach.
  - by eapply wp_wpx, wp_api_map.
  - by eapply wp_wpx, wp_api_unmap.
  - eapply (wpx_api_access _ _ _ _ _ _ offset 4 (λ x, read_result 4 x offset endian w)); [done..| | |].
    + intros areas x. apply wp_mmio_read32.
    + intros areas x. apply mmio_read32_underrun.
    + intros x r w'. by apply read_result_sys.
  - eapply (wpx_api_access _ _ _ _ _ _ offset 8 (λ x, read_result 8 x offset endian w)); [done..| | |].
    + intros areas x. apply wp_mmio_read64.
    + intros areas x. apply mmio_read64_underrun.
    + intros x r w'. by apply read_result_sys.
  - eapply (wpx_api_access _ _ _ _ _ _ offset 4 (λ x, write_result 4 x offset endian value w)); [done..| | |].
    + intros areas x. apply wp_mmio_write32.
    + intros areas x. apply mmio_write32_underrun.
    + intros x r w'. by apply write_result_sys.
  - eapply (wpx_api_access _ _ _ _ _ _ offset 8 (λ x, write_result 8 x offset endian value w)); [done..| | |].
    + intros areas x. apply wp_mmio_write64.
    + intros areas x. apply mmio_write64_underrun.
    + intros x r w'. by apply write_result_sys.
  - by eapply wp_wpx, wp_api_irq_alloc.
  - eapply wpx_mono; [intros Ho; by left|intros Hd; by right|intros r w' Hr; exact Hr|].
    by eapply wpx_api_event_check.
  - by apply wp_wpx, wp_api_p9_thread_id.
  - apply wp_wpx, wp_api_set; [done|done|]. intros a. by repeat split.
  - apply wp_wpx, wp_api_set; [done|done|]. intros a. by repeat split.
  - apply wp_wpx, wp_bind. eapply wp_mono; [|eapply (wp_api_set w); [done|done|by intros a; repeat split]].
    intros [] w' Hw'. by apply wp_ret.
  - apply wp_wpx, wp_bind, wp_get_globals, wp_set_globals, process_same.
    eapply sys_inv_kept; [exact Hs|]. by apply kept_mem.
  - apply wp_wpx, wp_bind, wp_get_globals, wp_set_globals, process_same.
    eapply sys_inv_kept; [exact Hs|]. by apply kept_mem.
Qed.

Lemma sys_inv_initial (k : K) : sys_inv (initial_world k) ∅.
Proof.
  split.
  - split; [done|]. intros p [o Hp]. simpl in Hp. by apply lookup_empty_Some in Hp.
  - intros p x Hp. by apply lookup_empty_Some in Hp.
  - intros p x p' x' Hp. by apply lookup_empty_Some in Hp.
  - intros r. by rewrite total_empty.
Qed.

Lemma process_initial (k : K) : process_ok (initial_world k) ∅.
Proof. exists ∅. split; [apply dom_empty_L|apply sys_inv_initial]. Qed.

Lemma reachable_ok k w hs : reachable k (w, hs) → process_ok w hs.
Proof.
  apply (rtc_ind_r (λ s, process_ok s.1 s.2)); simpl; [apply process_initial|].
  intros s1 s2 _ Hstep IH. destruct Hstep as [w1 hs1 m hazard w2 hs2 Ha Hm]. simpl in *.
  exact (run_wpx _ _ _ _ _ _ _ (wpx_allowed w1 hs1 m hazard IH Ha) Hm).
Qed.

End api.
