(* ===== verification/Client.v ===== *)
(** * Client: rules for an application that drives one AFU

    The invariant of Api.v says that the process is well-formed; an
    application that waits for events relies besides on epoll handing back
    addresses that are still valid.  [EventLaws] states what the kernel does
    for that: epoll reports data that was registered with it, and an eventfd is
    read whole.  [SingleEvents] says besides that a context has one event
    pending at a time, which the driver marks as the last one (a context that
    has more of them is what [EventFacts.overflows] and [EventFacts.starves]
    are about); only the programs that check for events need it.  [client] is
    the state of an application that holds an AFU whose registered addresses
    are current; there is one rule per call of the library. *)

From S2P Require Import Prelude Format Types World Logic Messages Buffer Ledger Mmio MmioFacts.
From S2P Require Import MmioAccess Irq IrqFacts IrqTable Event Names Afu AfuInv EventFacts.
From S2P Require Import AfuClose AfuOpen Trace Api.
Open Scope Z_scope.

(** ** What epoll watches *)

(** The data registered with the epoll instance [fd], after one operation. *)
Definition watch_after (fd : Z) (l : list source_ptr) (e : event) : list source_ptr :=
  match e with
  | Ev c r =>
      match c in sys R return R → list source_ptr with
      | SEpollCreate => λ efd, if efd =? fd then [] else l
      | SEpollCtlAdd efd _ s => λ rc, if (efd =? fd) && negb (rc =? -1) then l ++ [s] else l
      | _ => λ _, l
      end r
  end.

(** What a descriptor stands for: an OpenCAPI context, an eventfd. *)
Inductive fd_kind : Set := FdContext | FdEventfd | FdOther.

Definition closes {R : Set} (c : sys R) (fd : Z) : bool :=
  match c with SClose fd' => fd' =? fd | _ => false end.

Class EventLaws (K : Type) `{Platform K} `{Abi} := {
  watched : K → Z → list source_ptr;
  kind : K → Z → option fd_kind;
  watched_step (R : Set) (c : sys R) k fd :
    watched (os_step R c k).2 fd ⊆ watch_after fd (watched k fd) (Ev c (os_step R c k).1);
  epoll_answer fd n timeout k count sources k' :
    0 <= n → os_step _ (SEpollWait fd n timeout) k = ((count, sources), k') →
    count = -1 ∨ (0 <= count <= n ∧ count <= Z.of_nat (length sources) ∧
                  take (Z.to_nat count) sources ⊆ watched k fd);
  kind_step (R : Set) (c : sys R) k fd x :
    closes c fd = false → kind k fd = Some x → kind (os_step R c k).2 fd = Some x;
  context_kind fd (k : K) md k' :
    os_step _ (SIoctlGetMetadata fd) k = ((0, md), k') → kind k' fd = Some FdContext;
  eventfd_kind (k : K) fd k' :
    os_step _ SEventfd k = (fd, k') → 0 <= fd → kind k' fd = Some FdEventfd;
  eventfd_whole fd (k : K) n buf k' :
    kind k fd = Some FdEventfd → os_step _ (SRead fd 8) k = ((n, buf), k') → n < 0 ∨ n = 8
}.

Class SingleEvents (K : Type) `{Platform K} `{Abi} `{!EventLaws K} :=
  context_last fd (k : K) n buf k' :
    kind k fd = Some FdContext → os_step _ (SRead fd event_size) k = ((n, buf), k') →
    sizeof_event_header <= n → last_event buf = true.

(** Effects that leave every instance and every descriptor alone. *)
Definition calm (e : event) : Prop := let 'Ev c _ := e in watch_op c = false.

#[export] Instance calm_admits : Admits calm.
Proof. by intros R c r. Qed.

Lemma watch_calm fd l e : calm e → watch_after fd l e = l.
Proof. by destruct e as [R []]. Qed.

Lemma silent_calm {R : Set} (c : sys R) r : silent c = true → calm (Ev c r).
Proof. by destruct c. Qed.

Lemma watch_after_mono fd l l' e : l ⊆ l' → watch_after fd l e ⊆ watch_after fd l' e.
Proof.
  intros Hl. destruct e as [R c r]. destruct c; simpl; try done.
  - by destruct (_ =? _).
  - destruct (_ && _); [|done]. intros s. rewrite !elem_of_app. intros [?|?]; [left; by apply Hl|by right].
Qed.

Lemma watch_all_mono fd l l' es :
  l ⊆ l' → foldl (watch_after fd) l es ⊆ foldl (watch_after fd) l' es.
Proof. revert l l'. induction es as [|e es IH]; intros l l' Hl; simpl; [done|]. by apply IH, watch_after_mono. Qed.

Section watching.
Context {K : Type} `{Platform K} `{Abi} `{!EventLaws K}.

Lemma watched_calm_step (R : Set) (c : sys R) (k : K) fd :
  watch_op c = false → watched (os_step R c k).2 fd ⊆ watched k fd.
Proof. intros Hc. etrans; [apply watched_step|]. by rewrite watch_calm. Qed.

Lemma watched_path es (k k' : K) fd :
  os_path es k k' → watched k' fd ⊆ foldl (watch_after fd) (watched k fd) es.
Proof.
  induction 1 as [k|k k1 k' es [R c k0 Hc] _ IH|R c r k k1 k' es E _ IH]; simpl; [done|..].
  - etrans; [apply IH|]. apply watch_all_mono, watched_calm_step. by destruct c.
  - etrans; [apply IH|]. apply watch_all_mono. pose proof (watched_step R c k fd) as Hw. by rewrite E in Hw.
Qed.

Lemma watched_calm es (w w' : world K) fd :
  ran es w w' → Forall calm es → watched (w_os w') fd ⊆ watched (w_os w) fd.
Proof.
  intros [_ Hp] Hc. etrans; [by apply watched_path|]. generalize (watched (w_os w) fd).
  clear Hp. induction Hc as [|e es He _ IH]; intros l; simpl; [done|]. rewrite watch_calm by done. apply IH.
Qed.

Lemma kind_path es (k k' : K) fd x :
  os_path es k k' → Forall (λ e, let 'Ev c _ := e in closes c fd = false) es →
  kind k fd = Some x → kind k' fd = Some x.
Proof.
  induction 1 as [k|k k1 k' es [R c k0 Hc] _ IH|R c r k k1 k' es E _ IH]; intros He Hk; [done|..].
  - apply IH; [done|]. apply kind_step; [by destruct c|done].
  - apply Forall_cons_1 in He as [He1 He2]. apply IH; [done|].
    pose proof (kind_step R c k fd x He1 Hk) as Hs. by rewrite E in Hs.
Qed.

Lemma calm_closes fd es : Forall calm es → Forall (λ e, let 'Ev c _ := e in closes c fd = false) es.
Proof. apply Forall_impl. intros [R [] r]; done. Qed.

(** What an operation of the log tells about a descriptor still holds at the
    end. *)
Definition tells (e : event) : option (Z * fd_kind) :=
  match e with
  | Ev c r =>
      match c in sys R return R → option (Z * fd_kind) with
      | SEventfd => λ fd, if 0 <=? fd then Some (fd, FdEventfd) else None
      | SIoctlGetMetadata fd => λ res, if res.1 =? 0 then Some (fd, FdContext) else None
      | _ => λ _, None
      end r
  end.

Lemma kind_told (R : Set) (c : sys R) r (k k' : K) fd x :
  os_step R c k = (r, k') → tells (Ev c r) = Some (fd, x) → kind k' fd = Some x.
Proof.
  destruct c; try done; simpl.
  - destruct (Z.leb_spec 0 r); [|done]. intros E [= <- <-]. by eapply eventfd_kind.
  - destruct r as [rc md]. simpl. destruct (Z.eqb_spec rc 0) as [->|]; [|done].
    intros E [= <- <-]. by eapply context_kind.
Qed.

Lemma kind_logged e es (k k' : K) fd x :
  e ∈ es → tells e = Some (fd, x) → os_path es k k' →
  Forall (λ e, let 'Ev c _ := e in closes c fd = false) es → kind k' fd = Some x.
Proof.
  intros Hin He Hp Hc. induction Hp as [k|k k1 k' es Hs Hp IH|R c r k k1 k' es E Hp IH].
  - by apply not_elem_of_nil in Hin.
  - by apply IH.
  - apply Forall_cons_1 in Hc as [_ Hc]. apply elem_of_cons in Hin as [->|Hin]; [|by apply IH].
    apply (kind_path _ _ _ _ x Hp Hc). by eapply kind_told.
Qed.

End watching.

(** ** The state of the application *)

Section client.
Context {K : Type} `{Platform K} `{Abi} `{!EventLaws K}.
Implicit Types (w : world K).

(** The kernel's side of an AFU: its epoll instance knows current addresses,
    its descriptors are what they were opened as. *)
Record watch_ok (p : ptr) (a : ocxl_afu) (irqs : list ocxl_irq) (k : K) : Prop := {
  wk_current s : s ∈ watched k (afu_epoll_fd a) → current p a irqs s;
  wk_context : kind k (afu_fd a) = Some FdContext;
  wk_eventfds : Forall (λ i, kind k (irq_eventfd i) = Some FdEventfd) irqs
}.

(** A step of the kernel that leaves descriptors alone. *)
Lemma watch_ok_step p a irqs (R : Set) (c : sys R) k :
  watch_op c = false → watch_ok p a irqs k → watch_ok p a irqs (os_step R c k).2.
Proof.
  intros Hc [H1 H2 H3]. assert (∀ fd, closes c fd = false) as Hcl by (intros fd; by destruct c).
  split.
  - intros s Hs. apply H1. by apply (watched_calm_step R c k).
  - by apply kind_step.
  - eapply Forall_impl; [|exact H3]. intros i. by apply kind_step.
Qed.

Lemma laws_event_kernel p a irqs : event_kernel (watch_ok p a irqs) p a irqs.
Proof.
  split.
  - intros R c k Hc. apply watch_ok_step. by destruct c.
  - intros fd size k. by apply watch_ok_step.
  - intros n timeout k count sources k' Hn Hk E. split.
    + pose proof (watch_ok_step p a irqs _ (SEpollWait (afu_epoll_fd a) n timeout) k eq_refl Hk) as Hw.
      by rewrite E in Hw.
    + destruct (epoll_answer _ _ _ _ _ _ _ Hn E) as [?|(H1 & H2 & H3)]; [by left|right].
      split_and!; [lia..|]. apply list.Forall_forall. intros s Hs. apply Hk. by apply H3.
  - intros m i k n buf k' Hm Hk. apply eventfd_whole. exact (Forall_lookup_1 _ _ _ _ (wk_eventfds _ _ _ _ Hk) Hm).
Qed.

(** Each event of the device is its last. *)
Lemma laws_single `{!SingleEvents K} p a irqs k r k' :
  watch_ok p a irqs k → os_step _ (SRead (afu_fd a) event_size) k = (r, k') → ¬ going r.
Proof.
  intros Hk E [Hok Hl]. destruct r as [n buf]. unfold event_ok in Hok. simpl in *.
  rewrite !andb_true_iff, !Z.leb_le in Hok. destruct Hok as [[_ Hn] _].
  by rewrite (context_last _ _ _ _ _ (wk_context _ _ _ _ Hk) E Hn) in Hl.
Qed.

(** The AFU [p], with its tables, next to [others]. *)
Record client w (others : gmap ptr afu_view) (p : ptr) (a : ocxl_afu) (areas : list ocxl_mmio_area)
    (irqs : list ocxl_irq) : Prop := {
  cl_sys : sys_inv w (<[p := mk_view a areas irqs]> others);
  cl_watch : watch_ok p a irqs (w_os w)
}.

Lemma client_view w others p a areas irqs :
  client w others p a areas irqs → afu_inv w p a areas irqs ∧ 0 <= afu_fd a.
Proof. intros [Hs _]. apply (si_views _ _ Hs p (mk_view a areas irqs)), lookup_insert_eq. Qed.

(** A step that leaves the IRQs and the epoll instance alone. *)
Lemma client_step w w' others p a a' areas areas' irqs es :
  client w others p a areas irqs → sys_inv w' (<[p := mk_view a' areas' irqs]> others) →
  afu_irqs a' = afu_irqs a → afu_epoll_fd a' = afu_epoll_fd a → afu_fd a' = afu_fd a →
  ran es w w' → Forall calm es → client w' others p a' areas' irqs.
Proof.
  intros [_ [Hw Hf He]] Hs E1 E2 E0 Hr Hc. split; [done|].
  assert (∀ fd x, kind (w_os w) fd = Some x → kind (w_os w') fd = Some x) as Hk.
  { intros fd x. eapply kind_path; [apply Hr|by apply calm_closes]. }
  split; [|rewrite E0; by apply Hk|eapply Forall_impl; [|exact He]; auto].
  intros s Hs'. rewrite E2 in Hs'.
  assert (∀ n, irq_at a' n = irq_at a n) as E3 by (intros n; unfold irq_at; by rewrite E1).
  destruct (Hw s (watched_calm _ _ _ _ Hr Hc _ Hs')) as [|n i Hn Hi]; [constructor|].
  rewrite <-E3. apply (current_irq _ _ _ n i); [done|]. by rewrite E3.
Qed.

Lemma client_same w w' others p a areas irqs es :
  client w others p a areas irqs → same_mem w w' → ran es w w' → Forall calm es →
  (∀ r, balance es r = 0) → client w' others p a areas irqs.
Proof.
  intros Hcl Hm Hr Hc Hb. eapply client_step; [exact Hcl| |done|done|done|exact Hr|exact Hc].
  eapply sys_inv_same_mem; [apply Hcl|done|]. intros r. rewrite (ran_effects _ _ _ Hr), balance_app, Hb. lia.
Qed.

Lemma client_quiet w w' others p a areas irqs :
  client w others p a areas irqs → quiet w w' → client w' others p a areas irqs.
Proof. intros Hcl Hq. eapply (client_same w w' _ _ _ _ _ []); [done|apply Hq|by apply ran_quiet|done|done]. Qed.

(** An operation that acquires and releases nothing. *)
Lemma wp_client_call {R : Set} (c : sys R) w others p a areas irqs Q :
  client w others p a areas irqs → silent c = false → watch_op c = false →
  (∀ r, acquires c r = None) → releases c = None →
  (∀ r w', client w' others p a areas irqs → did c r w w' → Q r w') → wp (call c) Q w.
Proof.
  intros Hcl Hs Hw Ha Hr HQ. apply wp_call; [done|]. intros r w' Hd. apply HQ; [|done].
  eapply (client_same w w' _ _ _ _ _ [Ev c r]); [done|apply Hd|by apply ran_did|by repeat constructor|].
  intros x. simpl. rewrite Ha, Hr, !one_if_None. lia.
Qed.

(** ** Registers *)

Definition access_effects {R : Set} (x : ocxl_mmio_area) (offset size : Z) (c : sys R) (r : R) : list event :=
  if is_ok (access_verdict x offset size) then [Ev SSync tt; Ev c r; Ev SSync tt] else [].

Lemma accessed_ran {R : Set} (c : sys R) r w w' :
  accessed c r w w' → ran [Ev SSync tt; Ev c r; Ev SSync tt] w w'.
Proof.
  intros (w1 & w2 & w3 & w4 & H1 & H2 & H3 & H4 & H5). eapply ran_quiet_l; [done|].
  eapply ran_cons; [done|]. eapply ran_cons; [done|]. eapply ran_cons; [done|by apply ran_quiet].
Qed.

Lemma access_calm {R : Set} x offset size (c : sys R) r :
  watch_op c = false → Forall calm (access_effects x offset size c r).
Proof. intros Hc. unfold access_effects. destruct (is_ok _); by repeat constructor. Qed.

Lemma access_balance {R : Set} x offset size (c : sys R) r y :
  acquires c r = None → releases c = None → balance (access_effects x offset size c r) y = 0.
Proof.
  intros Ha Hr. unfold access_effects. destruct (is_ok _); [|done]. simpl. rewrite Ha, Hr, !one_if_None. lia.
Qed.

Lemma wp_client_write64 w others p a areas irqs i x offset endian v Q :
  client w others p a areas irqs → areas !! i = Some x → 0 <= offset →
  (∀ w', client w' others p a areas irqs →
     ran (access_effects x offset 8 (SStore (u64 (area_start x + offset)) (encode endian 8 v)) tt) w w' →
     Q (access_verdict x offset 8) w') →
  wp (ocxl_mmio_write64 (handle_of a i) offset endian v) Q w.
Proof.
  intros Hcl Hx Ho HQ. destruct (client_view _ _ _ _ _ _ Hcl) as [Hi _].
  eapply wp_mono; [|eapply wp_mmio_write64; [apply Hi|exact Hx|by apply not_underruns]]. intros rc w' Hr.
  assert (same_mem w w' ∧ rc = access_verdict x offset 8 ∧
    ran (access_effects x offset 8 (SStore (u64 (area_start x + offset)) (encode endian 8 v)) tt) w w')
    as (Hm & -> & Hran).
  { unfold write_result, access_effects in *. change (Z.of_nat 8) with 8 in Hr. clear HQ. destruct (access_verdict x offset 8); simpl;
      try (destruct Hr as [-> Hq]; split_and!; [apply Hq|done|by apply ran_quiet]).
    destruct Hr as [Hacc ->]. split_and!; [by eapply accessed_mem|done|by apply accessed_ran]. }
  apply HQ; [|done]. eapply client_same; [done|done|exact Hran|by apply access_calm|].
  intros y. by apply access_balance.
Qed.

Lemma wp_client_read64 `{!ByteLoads K} w others p a areas irqs i x offset endian Q :
  client w others p a areas irqs → areas !! i = Some x → 0 <= offset →
  (∀ bs w', client w' others p a areas irqs →
     ran (access_effects x offset 8 (SLoad (u64 (area_start x + offset)) 8) bs) w w' →
     Q (access_verdict x offset 8,
        if is_ok (access_verdict x offset 8) then Some (decode endian bs) else None) w') →
  wp (ocxl_mmio_read64 (handle_of a i) offset endian) Q w.
Proof.
  intros Hcl Hx Ho HQ. destruct (client_view _ _ _ _ _ _ Hcl) as [Hi _].
  eapply wp_mono; [|eapply wp_mmio_read64; [apply Hi|exact Hx|by apply not_underruns]]. intros rc w' Hr.
  assert (∃ bs, same_mem w w' ∧ rc = (access_verdict x offset 8,
        if is_ok (access_verdict x offset 8) then Some (decode endian bs) else None) ∧
    ran (access_effects x offset 8 (SLoad (u64 (area_start x + offset)) 8) bs) w w')
    as (bs & Hm & -> & Hran).
  { unfold read_result, access_effects in *. change (Z.of_nat 8) with 8 in Hr. clear HQ. destruct (access_verdict x offset 8); simpl;
      try (destruct Hr as [-> Hq]; exists []; split_and!; [apply Hq|done|by apply ran_quiet]).
    destruct Hr as (bs & Hacc & ->). exists bs. split_and!; [by eapply accessed_mem|done|by apply accessed_ran]. }
  apply HQ; [|done]. eapply client_same; [done|done|exact Hran|by apply access_calm|].
  intros y. by apply access_balance.
Qed.

(** ** The calls *)

Lemma client_dom w others p a areas irqs :
  client w others p a areas irqs → p ∈ dom (<[p := mk_view a areas irqs]> others).
Proof. intros _. rewrite dom_insert. set_solver. Qed.

Lemma wp_client_set w others p a areas irqs f Q :
  client w others p a areas irqs → keeps_objects f →
  (∀ w', client w' others p (f a) areas irqs → Q tt w') → wp (set_afu p f) Q w.
Proof.
  intros Hcl Hf HQ. eapply (wp_issues calm); [auto with traced|].
  eapply wp_sys_set; [apply Hcl|apply lookup_insert_eq|done|]. intros w' Hs es Hr Hc.
  rewrite insert_insert_eq in Hs. destruct (Hf a) as ((_ & _ & _ & _ & E1 & _) & _ & E0 & E2 & _).
  apply HQ. by eapply client_step.
Qed.

Lemma wp_client_attach w others p a areas irqs flags Q :
  client w others p a areas irqs →
  (∀ err w', is_ok err = false → client w' others p a areas irqs → Q err w') →
  (∀ w', client w' others p (a <| afu_attached := true |>) areas irqs → Q OCXL_OK w') →
  wp (ocxl_afu_attach p flags) Q w.
Proof.
  intros Hcl Hfail Hok. eapply (wp_issues calm); [auto with traced|].
  eapply wp_sys_attach; [apply Hcl|apply lookup_insert_eq|..].
  - intros err w' He Hs es Hr Hc. apply Hfail; [done|]. by eapply client_step.
  - intros w' Hs es Hr Hc. rewrite insert_insert_eq in Hs. apply Hok. by eapply client_step.
Qed.

Lemma wp_client_p9_thread_id w others p a areas irqs Q :
  client w others p a areas irqs →
  (∀ err w', is_ok err = false → client w' others p a areas irqs → Q (err, None) w') →
  (∀ tid w', client w' others p a areas irqs → Q (OCXL_OK, Some tid) w') →
  wp (ocxl_afu_get_p9_thread_id p) Q w.
Proof.
  intros Hcl Hfail Hok. eapply (wp_issues calm); [auto with traced|].
  eapply wp_sys_p9_thread_id; [apply Hcl|by eapply client_dom|..].
  - intros err w' He Hs es Hr Hc. apply Hfail; [done|]. by eapply client_step.
  - intros tid w' Hs es Hr Hc. apply Hok. by eapply client_step.
Qed.

(** A check for events, with what it reports; the ranks of the outside follow
    from the effects. *)
Lemma wp_client_event_check `{!SingleEvents K} fuel w others p a areas irqs timeout n Q :
  client w others p a areas irqs → 0 <= n <= UINT16_MAX →
  (∀ rc evs es events m w', client w' others p (with_epoll a events m) areas irqs →
     ran es w w' → check_outcome p a irqs n timeout es rc evs → Q (rc, evs) w') →
  wp (ocxl_afu_event_check (S fuel) p timeout n) Q w.
Proof.
  intros Hcl Hn HQ. pose proof (laws_event_kernel p a irqs) as HI. apply wpx_wp.
  pose proof (laws_single p a irqs) as Hl. pose proof (cl_watch _ _ _ _ _ _ Hcl) as Hw.
  eapply wpx_mono; [exact (single_no_overflow _ _ _ _ HI Hl n timeout _ (proj1 Hn) Hw)
                   |exact (single_no_starve _ _ _ _ HI Hl n timeout fuel _ (proj1 Hn) Hw)
                   |intros r w' HQ'; exact HQ'|].
  eapply (wpx_sys_event_check (watch_ok p a irqs));
    [apply Hcl|apply lookup_insert_eq|apply laws_event_kernel|apply Hcl|done|].
  intros rc evs es events m w' Hs Hr Hk Hc. rewrite insert_insert_eq in Hs.
  eapply HQ; [|exact Hr|exact Hc]. split; [exact Hs|].
  destruct Hk as [Hk1 Hk2 Hk3]. split; [|exact Hk2|exact Hk3]. intros s Hs'. by apply current_epoll, Hk1.
Qed.

Context `{!NonZeroHandles K}.

Lemma wp_client_map w others p a areas irqs type Q :
  client w others p a areas irqs → afu_mmio_count a < 32768 →
  (∀ err w', is_ok err = false → client w' others p a areas irqs → Q (err, None) w') →
  (∀ a' i x areas' w', client w' others p a' areas' irqs → areas' !! i = Some x →
     afu_mmio_count a' <= afu_mmio_count a + 1 → afu_irq_count a' = afu_irq_count a →
     afu_irq_max_count a' = afu_irq_max_count a → Q (OCXL_OK, Some (handle_of a' i)) w') →
  wp (ocxl_mmio_map p type) Q w.
Proof.
  intros Hcl Hc0 Hfail Hok. unfold ocxl_mmio_map. eapply (wp_issues calm); [auto with traced|].
  eapply wp_sys_map; [apply Hcl|apply lookup_insert_eq|done|..].
  - intros err w' He Hs es Hr Hc. apply Hfail; [done|]. by eapply client_step.
  - intros a' i x areas' w' Hs Hx Ea Hle es Hr Hc. rewrite insert_insert_eq in Hs.
    eapply (Hok a' i x areas'); [|done|done|by rewrite Ea|by rewrite Ea].
    eapply client_step; [exact Hcl|exact Hs|by rewrite Ea|by rewrite Ea|by rewrite Ea|exact Hr|exact Hc].
Qed.

(** There is room for [n] more IRQs in the array, or it is still to be
    allocated: no address that was registered goes stale. *)
Definition irq_space (n : Z) (a : ocxl_afu) : Prop :=
  (afu_irq_count a = 0 ∧ afu_irq_max_count a = 0 ∧ n <= INITIAL_IRQ_COUNT) ∨
  afu_irq_count a + n <= afu_irq_max_count a.

Lemma irq_space_room n a a' (irqs : list ocxl_irq) : 1 <= n →
  irq_space n a → irq_room a a' → afu_irq_count a = Z.of_nat (length irqs) →
  irqs = [] ∨ afu_irqs a' = afu_irqs a.
Proof.
  intros Hn [(E1 & _)|Hle] [Hroom _] Hc.
  - left. apply length_zero_iff_nil. lia.
  - right. apply Hroom. lia.
Qed.

Lemma irq_space_next n a a' : 1 <= n →
  irq_space n a → irq_room a a' → afu_irq_count a' = afu_irq_count a + 1 → irq_space (n - 1) a'.
Proof.
  intros Hn [(E1 & E2 & H3)|Hle] [Hroom Hinit] Hc; right.
  - rewrite (Hinit E1 E2). lia.
  - destruct Hroom as [_ ->]; lia.
Qed.

Lemma watch_all_calm fd l es : Forall calm es → foldl (watch_after fd) l es = l.
Proof.
  intros Hc. revert l. induction Hc as [|e es He _ IH]; intros l; simpl; [done|]. by rewrite watch_calm.
Qed.

(** The IRQ behind the others was registered with epoll. *)
Lemma watch_ok_irq p a a' irqs i es efd rc k k' :
  watch_ok p a irqs k →
  os_path (es ++ [Ev (SEpollCtlAdd (afu_epoll_fd a) efd (IrqFdInfo (irq_at a' (length irqs)))) rc]) k k' →
  Forall calm es → 0 <= irq_eventfd i → Ev SEventfd (irq_eventfd i) ∈ es →
  irq_fd_info i = mk_fd_source EPOLL_SOURCE_IRQ (Some (irq_at a' (length irqs))) →
  afu_epoll_fd a' = afu_epoll_fd a → afu_fd a' = afu_fd a → irqs = [] ∨ afu_irqs a' = afu_irqs a →
  watch_ok p a' (irqs ++ [i]) k'.
Proof.
  intros [Hw Hf He] Hp Hc Hefd Hin Hinfo E1 E2 Hroom.
  set (es' := es ++ _) in Hp.
  assert (∀ fd, Forall (λ e, let 'Ev c _ := e in closes c fd = false) es') as Hcl.
  { intros fd. apply Forall_app. split; [by apply calm_closes|by repeat constructor]. }
  split.
  - intros s Hs. rewrite E1 in Hs. apply (watched_path _ _ _ _ Hp) in Hs.
    unfold es' in Hs. rewrite foldl_app, (watch_all_calm _ _ es) in Hs by done. simpl in Hs.
    assert (s ∈ watched k (afu_epoll_fd a) ∨ s = IrqFdInfo (irq_at a' (length irqs))) as [Hold| ->].
    { destruct (_ && _); [|by left]. apply elem_of_app in Hs as [?|?%list_elem_of_singleton]; auto. }
    + destruct (Hw s Hold) as [|m j Hj Hm]; [constructor|]. destruct Hroom as [->|E3]; [done|].
      assert (irq_at a m = irq_at a' m) as E4 by (unfold irq_at; by rewrite E3). rewrite E4 in Hm |- *.
      apply (current_irq _ _ _ m j); [by apply lookup_app_l_Some|done].
    + apply (current_irq _ _ _ (length irqs) i); [|done]. by rewrite lookup_app_r, Nat.sub_diag by lia.
  - rewrite E2. by eapply kind_path.
  - apply Forall_app. split; [|repeat constructor].
    + eapply Forall_impl; [|exact He]. intros j. by eapply kind_path.
    + eapply (kind_logged (Ev SEventfd (irq_eventfd i))); [|simpl|exact Hp|apply Hcl].
      * apply elem_of_app. by left.
      * by rewrite (proj2 (Z.leb_le _ _) Hefd).
Qed.

Lemma wp_client_irq_alloc w others p a areas irqs n info Q :
  client w others p a areas irqs → 1 <= n → irq_space n a → afu_irq_count a < 32768 →
  (∀ err a' w', is_ok err = false → sys_inv w' (<[p := mk_view a' areas irqs]> others) → Q (err, None) w') →
  (∀ a' i w', client w' others p a' areas (irqs ++ [i]) → irq_space (n - 1) a' → afu_mmios a' = afu_mmios a →
     afu_irq_count a' = afu_irq_count a + 1 → Q (OCXL_OK, Some (Z.of_nat (length irqs))) w') →
  wp (ocxl_irq_alloc p info) Q w.
Proof.
  intros Hcl Hn Hsp Hlt Hfail Hok. destruct (client_view _ _ _ _ _ _ Hcl) as [Hinv _].
  pose proof (it_count _ _ _ (ai_irq _ _ _ _ _ Hinv)) as Hc.
  eapply (wp_issues (λ _, True)); [auto with traced|].
  eapply wp_sys_irq_alloc; [apply Hcl|apply lookup_insert_eq|done|..].
  - intros err a' w' He Hs es _ _. rewrite insert_insert_eq in Hs. by eapply Hfail.
  - intros a' i w' Hs [Hinfo Hroom Ea (es0 & efd & rc & Ee & Hefd & Hin & Hcalm)] es Hr _.
    rewrite insert_insert_eq in Hs.
    assert (afu_irq_count a' = afu_irq_count a + 1) as Hc'.
    { destruct (si_views _ _ Hs p _ (lookup_insert_eq _ _ _)) as [Hi' _]. simpl in Hi'.
      pose proof (it_count _ _ _ (ai_irq _ _ _ _ _ Hi')) as E. rewrite length_app in E. simpl in E. lia. }
    eapply Hok; [|by eapply irq_space_next|by rewrite Ea|done]. split; [exact Hs|].
    assert (es = es0 ++ [Ev (SEpollCtlAdd (afu_epoll_fd a) efd (IrqFdInfo (irq_at a' (length irqs)))) rc]) as ->.
    { rewrite (ran_effects _ _ _ Hr) in Ee. by apply app_inv_head in Ee. }
    eapply watch_ok_irq; [apply Hcl|apply Hr|exact Hcalm|exact Hefd|exact Hin|exact Hinfo|..];
      [by rewrite Ea|by rewrite Ea|]. by eapply irq_space_room.
Qed.

Lemma wp_client_irq_get_handle w others p a areas irqs n i Q :
  client w others p a areas irqs → irqs !! n = Some i → Q (irq_addr i) w →
  wp (ocxl_irq_get_handle p (Z.of_nat n)) Q w.
Proof.
  intros Hcl Hn HQ. destruct (client_view _ _ _ _ _ _ Hcl) as [Hinv _].
  apply wp_bind. eapply wp_get_afu; [eauto with ocxl|].
  pose proof (it_count _ _ _ (ai_irq _ _ _ _ _ Hinv)). pose proof (lookup_lt_Some _ _ _ Hn).
  destruct (Z.ltb_spec (afu_irq_count a) (Z.of_nat n)); [lia|].
  apply wp_bind. eapply wp_irq_get; [eauto with ocxl|done|]. by apply wp_ret.
Qed.

(** ** Opening and closing *)

(** The descriptors of an AFU that was just opened. *)
Lemma watch_ok_open p a rc md k k' :
  os_path (open_effects p (afu_fd a) (afu_epoll_fd a) rc md) k k' → watch_ok p a [] k'.
Proof.
  intros Hp. split; [| |constructor].
  - intros s Hs. apply (watched_path _ _ _ _ Hp) in Hs. simpl in Hs.
    rewrite Z.eqb_refl in Hs. simpl in Hs. destruct (rc =? -1); simpl in Hs.
    + by apply not_elem_of_nil in Hs.
    + apply list_elem_of_singleton in Hs as ->. constructor.
  - unfold open_effects in Hp.
    eapply (kind_logged (Ev (SIoctlGetMetadata (afu_fd a)) (0, md))); [|done|exact Hp|by repeat constructor].
    do 2 right. by left.
Qed.

Lemma wp_client_opened w others (m : M K (ocxl_err * ptr)) Q :
  sys_inv w others → wp m (open_result w) w →
  (∀ err w', is_ok err = false → sys_inv w' others → Q (err, OCXL_INVALID_AFU) w') →
  (∀ p a w', client w' others p a [] [] → others !! p = None → no_tables a → Q (OCXL_OK, p) w') → wp m Q w.
Proof.
  intros Hs Hm Hfail Hok. eapply wp_mono; [|exact Hm]. intros [err p] w' Hres.
  assert (is_ok err = false → p = OCXL_INVALID_AFU → kept w w' → Q (err, p) w') as Hbad.
  { intros He -> Hk. apply Hfail; [done|]. by eapply sys_inv_kept. }
  destruct err; simpl in Hres; try (destruct Hres; by apply Hbad).
  destruct Hres as (a & d_name & Ho). destruct (sys_inv_open _ _ _ _ _ _ Hs Ho) as [Hn Hs'].
  eapply Hok; [|exact Hn|apply Ho]. split; [exact Hs'|].
  destruct (oh_metadata _ _ _ _ _ Ho) as (w1 & rc & md & Hran & _).
  eapply watch_ok_open, ran_os, Hran.
Qed.

Lemma wp_client_open `{!ShortNames K} w others name Q :
  sys_inv w others →
  (∀ err w', is_ok err = false → sys_inv w' others → Q (err, OCXL_INVALID_AFU) w') →
  (∀ p a w', client w' others p a [] [] → others !! p = None → no_tables a → Q (OCXL_OK, p) w') →
  wp (ocxl_afu_open name) Q w.
Proof. intros Hs. apply wp_client_opened; [done|]. apply wp_open_specific, Hs. Qed.

Lemma wp_client_open_from_dev `{!ShortNames K} w others path Q :
  sys_inv w others →
  (∀ err w', is_ok err = false → sys_inv w' others → Q (err, OCXL_INVALID_AFU) w') →
  (∀ p a w', client w' others p a [] [] → others !! p = None → no_tables a → Q (OCXL_OK, p) w') →
  wp (ocxl_afu_open_from_dev path) Q w.
Proof.
  intros Hs. apply wp_client_opened; [done|]. apply wp_open_from_dev; [apply Hs|..].
  - intros rc w' Hrc Hk. apply open_result_failed; [|done]. by destruct Hrc as [->|[->| ->]].
  - intros p a d_name w' Ho. by exists a, d_name.
Qed.

Lemma wp_client_close w others p a areas irqs Q :
  client w others p a areas irqs → others !! p = None →
  (∀ w', sys_inv w' others → Q OCXL_OK w') → wp (ocxl_afu_close p) Q w.
Proof.
  intros Hcl Hp HQ. destruct (client_view _ _ _ _ _ _ Hcl) as [Hi Hfd].
  eapply wp_afu_close; [exact Hi|done|]. intros w' Hc. apply HQ.
  pose proof (sys_inv_close _ w' _ p _ (cl_sys _ _ _ _ _ _ Hcl) (lookup_insert_eq _ _ _) Hc) as Hs.
  by rewrite delete_insert_id in Hs.
Qed.

End client.

Section running.
Context {K : Type} `{Platform K} `{Abi}.
Implicit Types (w : world K).

(** ** Running on *)

(** The world [w'] is a later one. *)
Definition since w w' : Prop := ∃ es, ran es w w'.

#[export] Instance since_preorder : PreOrder since.
Proof.
  split; [intros w; exists []; apply ran_refl|].
  intros w1 w2 w3 [es H1] [es' H2]. exists (es ++ es'). by eapply ran_trans.
Qed.

Lemma since_quiet w w' : quiet w w' → since w w'.
Proof. intros Hq. exists []. by apply ran_quiet. Qed.

Lemma since_did {R : Set} (c : sys R) r w w' : did c r w w' → since w w'.
Proof. intros D. exact (ex_intro _ _ (ran_did _ _ _ _ D)). Qed.

Lemma wp_since {A} (m : M K A) (Q : A → world K → Prop) w :
  issues (λ _, True) m → wp m (λ a w', since w w' → Q a w') w → wp m Q w.
Proof.
  intros Hi Hw. eapply wp_issues; [exact Hi|]. eapply wp_mono; [|exact Hw]. intros a w' HQ es Hr _.
  apply HQ. by exists es.
Qed.

(** An operation of a process that holds no more than [live]. *)
Lemma wp_sys_call {R : Set} (c : sys R) w live Q :
  sys_inv w live → silent c = false → (∀ r, acquires c r = None) → releases c = None →
  (∀ r w', sys_inv w' live → did c r w w' → Q r w') → wp (call c) Q w.
Proof.
  intros Hs Hsi Ha Hr HQ. apply wp_call; [done|]. intros r w' Hd. apply HQ; [|done]. by eapply sys_inv_did.
Qed.

Context `{!EventLaws K} `{!ShortNames K}.

Lemma client_no_areas w others p a irqs : client w others p a [] irqs → afu_mmio_count a = 0.
Proof.
  intros Hcl. destruct (client_view _ _ _ _ _ _ Hcl) as [Hi _].
  apply (mt_count _ _ _ _ (mi_table _ _ _ _ (ai_mmio _ _ _ _ _ Hi))).
Qed.

(** A device that was named, or the first one of its kind. *)
Lemma wp_client_open_by (device : option string) name w others Q :
  sys_inv w others →
  (∀ err w', is_ok err = false → sys_inv w' others → Q (err, OCXL_INVALID_AFU) w') →
  (∀ p a w', client w' others p a [] [] → others !! p = None → no_tables a → since w w' → Q (OCXL_OK, p) w') →
  wp (match device with Some path => ocxl_afu_open_from_dev path | None => ocxl_afu_open name end) Q w.
Proof.
  intros Hs Hfail Hok. apply wp_since; [unfold ocxl_afu_open; traced|].
  destruct device as [path|]; [eapply wp_client_open_from_dev|eapply wp_client_open]; try exact Hs;
    [intros err w' He Hs' _; by apply Hfail|intros p a w' Hcl Hp Ht T; by eapply Hok|
     intros err w' He Hs' _; by apply Hfail|intros p a w' Hcl Hp Ht T; by eapply Hok].
Qed.

End running.
