(* ===== verification/VirtAfu.v ===== *)
(** * VirtAfu: the virtual device of the unit tests (unittests/virtocxl.c)

    The device is a character device in user space: a thread of the test
    program answers the requests of the kernel (open, read, ioctl, poll)
    through libfuse.  A handler is a function of the variables of virtocxl.c
    to the replies it sends for its request, in order, and the variables
    afterwards; it is [None] where the C code has undefined behaviour.  The
    rest of the file is code of the test program's main thread: it creates the
    files and the thread of the device, forces faults and takes the device
    down.  The two share the variables, which live behind the platform
    ([Device]). *)

From S2P Require Import Prelude Format Types World Logic Messages.
Open Scope Z_scope.

Definition EINVAL : Z := 22.

(** ** The kernel's structures *)

(** [struct ocxl_kernel_event_xsl_fault_error] *)
Record xsl_fault : Set := mk_fault { xf_addr : Z; xf_dsisr : Z; xf_count : Z }.

#[export] Instance eta_fault : Eta xsl_fault := fun f => mk_fault (xf_addr f) (xf_dsisr f) (xf_count f).

(** The kernel's event record, as bytes: a header of type, flags and a
    reserved word, then address, DSISR and count. *)
Definition event_bytes (type flags : Z) (f : xsl_fault) : list Z :=
  le_bytes 2 type ++ le_bytes 2 flags ++ le_bytes 4 0 ++
  le_bytes 8 (xf_addr f) ++ le_bytes 8 (xf_dsisr f) ++ le_bytes 8 (xf_count f).

#[export] Instance virt_abi : Abi := {|
  strerror e := "Error " +:+ print_int e;
  host_little_endian := true;
  libocxl_info := "libocxl";
  sizeof_ocxl_afu := 400;
  sizeof_ocxl_irq := 64;
  sizeof_epoll_event := 16;
  sizeof_event_header := 8;
  sizeof_xsl_fault_error := 24;
  OCXL_AFU_EVENT_XSL_FAULT_ERROR := 0;
  OCXL_KERNEL_EVENT_FLAG_LAST := 1;
  OCXL_IOCTL_FEATURES_FLAGS0_P9_WAIT := 1;
  header_type bs := of_le_bytes (take 2 bs);
  header_flags bs := of_le_bytes (take 2 (drop 2 bs));
  xsl_addr bs := of_le_bytes (take 8 bs);
  xsl_dsisr bs := of_le_bytes (take 8 (drop 8 bs));
  xsl_count bs := of_le_bytes (take 8 (drop 16 bs))
|}.

Definition KERNEL_EVENT_SIZE : Z := sizeof_event_header + sizeof_xsl_fault_error.

(** ** The variables of virtocxl.c *)

Record virt_dev : Set := mk_dev {
  translation_fault : xsl_fault;
  vd_afu_attached : bool;
  version_major : Z;             (* uint8_t *)
  version_minor : Z;             (* uint8_t *)
  _global_mmio_size : Z;
  _pp_mmio_size : Z;
  device_name : string;          (* afu_info.device_name *)
  afu_session : Z                (* NULL or a FUSE session *)
}.

#[export] Instance eta_dev : Eta virt_dev := fun d =>
  mk_dev (translation_fault d) (vd_afu_attached d) (version_major d) (version_minor d)
    (_global_mmio_size d) (_pp_mmio_size d) (device_name d) (afu_session d).

Definition initial_dev : virt_dev := mk_dev (mk_fault 0 0 0) false 5 10 0 0 "" NULL.

(** ** The handlers *)

(** [fuse_reply_open], [fuse_reply_err], [fuse_reply_buf], [fuse_reply_ioctl]
    and [fuse_reply_poll] *)
Inductive fuse_reply : Set :=
| reply_open
| reply_err (err : Z)
| reply_buf (buf : list Z)
| reply_ioctl (result : Z) (out : option ocxl_ioctl_metadata)
| reply_poll (revents : Z).

Definition POLLIN : Z := 1.
Definition POLLERR : Z := 8.
Definition POLLRDNORM : Z := 64.

(** The requests of an ioctl: [OCXL_IOCTL_ATTACH], [OCXL_IOCTL_GET_METADATA],
    and the others. *)
Inductive ioctl_cmd : Set := OCXL_IOCTL_ATTACH | OCXL_IOCTL_GET_METADATA | ioctl_other.

Definition virt_afu_open (d : virt_dev) : list fuse_reply * virt_dev :=
  ([reply_open], d <| vd_afu_attached := false |>).

(** The reply has [size] bytes, whatever the size of the buffer they come
    from. *)
Definition afu_read (size off : Z) (d : virt_dev) : option (list fuse_reply * virt_dev) :=
  if negb (0 =? off) then Some ([reply_err EINVAL], d)
  else if xf_addr (translation_fault d) =? 0 then Some ([reply_err EAGAIN], d)
  else if size <? KERNEL_EVENT_SIZE then Some ([reply_buf []], d)
  else if KERNEL_EVENT_SIZE <? size then None
  else
    let buf := event_bytes OCXL_AFU_EVENT_XSL_FAULT_ERROR OCXL_KERNEL_EVENT_FLAG_LAST
                 (translation_fault d) in
    Some ([reply_buf buf],
          d <| translation_fault := (translation_fault d) <| xf_addr := 0 |> |>).

Definition afu_ioctl (cmd : ioctl_cmd) (d : virt_dev) : list fuse_reply * virt_dev :=
  match cmd with
  | OCXL_IOCTL_ATTACH => ([reply_ioctl 0 None], d <| vd_afu_attached := true |>)
  | OCXL_IOCTL_GET_METADATA =>
      let ret := mk_metadata (version_major d) (version_minor d) 1234 (_pp_mmio_size d)
                   (_global_mmio_size d) in
      ([reply_ioctl 0 (Some ret)], d)
  | ioctl_other => ([reply_err EINVAL], d)
  end.

(** There is no [return] behind the first replies. *)
Definition afu_poll (d : virt_dev) : list fuse_reply :=
  (if negb (xf_addr (translation_fault d) =? 0) then [reply_poll (Z.lor POLLIN POLLRDNORM)]
   else if negb (vd_afu_attached d) then [reply_poll POLLERR]
   else []) ++ [reply_poll 0].

Definition force_translation_fault (addr dsisr count : Z) (d : virt_dev) : virt_dev :=
  d <| translation_fault := mk_fault addr dsisr count |>.

(** ** The thread *)

(** The arguments of [cuse_lowlevel_setup]: the description of the device and
    the command line. *)
Record cuse_setup : Set := mk_cuse {
  cuse_dev_major : Z;
  cuse_dev_minor : Z;
  cuse_dev_info_argv : list string;
  cuse_flags : Z;
  cuse_argv : list string
}.

(** [strncat(dst, src, n)] *)
Definition strncat (dst src : string) (n : nat) : string := dst +:+ String.substring 0 n src.

Definition start_afu_thread (info_device_name : string) : cuse_setup :=
  let dev_name := strncat "DEVNAME=" info_device_name (Z.to_nat PATH_MAX) in
  mk_cuse 0 0 [dev_name] 0 ["testobj/unittests"; "-f"]%string.

(** ** The main thread's side *)

(** A platform with the virtual device: its variables, which the thread of
    the device reads and writes while it answers the kernel. *)
Class Device (K : Type) `{Platform K} := {
  get_dev : K → virt_dev;
  set_dev : virt_dev → K → K;
  get_set_dev d k : get_dev (set_dev d k) = d
}.

Definition DEVICE_NAME_MAX : nat := 64.
Definition BUF_SIZE : Z := 1024.

Section device.
Context {K : Type} `{Platform K} `{Abi} `{!Device K}.

(** An access to the variables of virtocxl.c. *)
Definition read_dev {A} (f : virt_dev → A) : M K A := λ w, Ret (f (get_dev (w_os w))) w.
Definition modify_dev (f : virt_dev → virt_dev) : M K unit := λ w,
  Ret tt (w <| w_os := set_dev (f (get_dev (w_os w))) (w_os w) |>).

Definition stop_afu : M K unit :=
  session ← read_dev afu_session;
  call (SSessionExit session).

Definition term_afu : M K unit :=
  session ← read_dev afu_session;
  when (c_bool session)
    (call (SSessionDestroy session) ;;
     modify_dev (λ d, d <| afu_session := NULL |>)).

Definition afu_is_attached : M K bool := read_dev vd_afu_attached.

(** [fprintf(stderr, fmt, path, errno, strerror(errno))] *)
Definition report_errno (fmt path : string) : M K unit :=
  e ← errno_args;
  fprintf_stderr (fmt +:+ newline) (AStr path :: e).

(** [if (stat(path, &st)) { if (mkdir(path, 0775)) { ... } }] *)
Definition ensure_dir (path : string) : M K unit :=
  st ← call (SStat path);
  match st with
  | Some _ => mret tt
  | None =>
      rc ← call (SMkdir path (8 * (8 * 7 + 7) + 5));
      when (c_bool rc) (report_errno "Could not mkdir '%s': %d: %s" path)
  end.

(** The loop that fills the file; false when a write failed. *)
Fixpoint fill_file (fuel : nat) (fd : Z) (tmp : string) (global_mmio_size offset : Z) : M K bool :=
  match fuel with
  | O => diverge
  | S fuel =>
      if offset <? global_mmio_size then
        written ← call (SWrite fd (replicate (Z.to_nat BUF_SIZE) 0));
        if written <? 0 then
          report_errno "Could not write global_mmio_area file '%s': %d: %s" tmp ;;
          mret false
        else fill_file fuel fd tmp global_mmio_size (u64 (offset + BUF_SIZE))
      else mret true
  end.

(** The name of the device's directory and file. *)
Definition afu_instance (afu_name : string) : string := afu_name +:+ ".0001:00:00.1.0".

Definition create_ocxl_device (fuel : nat) (afu_name : string)
    (global_mmio_size per_pasid_mmio_size : Z) : M K Z :=
  modify_dev (λ d, d <| _global_mmio_size := global_mmio_size |>
                     <| _pp_mmio_size := per_pasid_mmio_size |>
                     <| device_name := truncate DEVICE_NAME_MAX ("ocxl-test/" +:+ afu_instance afu_name) |>) ;;
  g ← get_globals;
  let sysfs_base := truncate (Z.to_nat (PATH_MAX - 20)) (SYS_PATH g +:+ "/" +:+ afu_instance afu_name) in
  ensure_dir sysfs_base ;;
  let tmp := truncate (Z.to_nat PATH_MAX) (sysfs_base +:+ "/global_mmio_area") in
  fd ← call (SCreat tmp (8 * (8 * 6 + 4) + 4));
  if fd <? 0 then
    report_errno "Could not create global_mmio_area file '%s': %d: %s" tmp ;; mret 0
  else
  ok ← fill_file fuel fd tmp global_mmio_size 0;
  if negb (ok : bool) then mret 0 else
  call (SClose fd) ;;
  name ← read_dev device_name;
  '(rc, afu_thread) ← call (SThreadCreate name);
  if c_bool rc then fprintf_stderr ("Could not create AFU thread" +:+ newline) [] ;; mret 0
  else mret afu_thread.

End device.
