(* ===== verification/VirtAfuFacts.v ===== *)
(** * VirtAfuFacts: rules for the virtual device

    What the handlers answer, and the creation of the device: the operations
    [create_ocxl_device] issues on every path. *)

From S2P Require Import Prelude Format Types World Logic Messages VirtAfu.
Open Scope Z_scope.

(** ** The handlers *)

(** The events [poll] announces. *)
Definition readable (replies : list fuse_reply) : bool :=
  match replies with reply_poll revents :: _ => c_bool (Z.land revents POLLIN) | _ => false end.

Definition gives_event (r : option (list fuse_reply * virt_dev)) : bool :=
  match r with Some (reply_buf (_ :: _) :: _, _) => true | _ => false end.

(** A poll announces an event exactly when a read of an event gives one. *)
Lemma poll_read d : readable (afu_poll d) = gives_event (afu_read KERNEL_EVENT_SIZE 0 d).
Proof.
  unfold afu_poll, afu_read. change (negb (0 =? 0)) with false. cbv iota. rewrite Z.ltb_irrefl.
  destruct (Z.eqb_spec (xf_addr (translation_fault d)) 0); simpl; [|done].
  by destruct (vd_afu_attached d).
Qed.

(** [afu_poll] replies twice to its request, unless the AFU is attached and
    has no fault. *)
Lemma poll_twice d :
  (1 < length (afu_poll d))%nat ↔ xf_addr (translation_fault d) ≠ 0 ∨ vd_afu_attached d = false.
Proof.
  unfold afu_poll. destruct (Z.eqb_spec (xf_addr (translation_fault d)) 0), (vd_afu_attached d); simpl;
    split; try lia; try tauto; intros [?|?]; done.
Qed.

(** ** The log of a run *)

Section logs.
Context {K : Type} `{Platform K} `{Abi} `{!Device K}.
Implicit Types (w : world K).

Record logs (es : list event) w w' : Prop := mk_logs {
  lg_mem : same_mem w w';
  lg_effects : effects w' = effects w ++ es
}.

Lemma logs_quiet w w' : quiet w w' → logs [] w w'.
Proof. intros [? E _]. split; [done|by rewrite app_nil_r]. Qed.

Lemma logs_did {R : Set} (c : sys R) r w w' : did c r w w' → logs [Ev c r] w w'.
Proof. by intros [? E _]. Qed.

Lemma logs_trans es es' w w1 w' : logs es w w1 → logs es' w1 w' → logs (es ++ es') w w'.
Proof. intros [M1 E1] [M2 E2]. split; [by etrans|by rewrite E2, E1, app_assoc]. Qed.

Lemma logs_cons {R : Set} (c : sys R) r es w w1 w' : did c r w w1 → logs es w1 w' → logs (Ev c r :: es) w w'.
Proof. intros Hd. apply (logs_trans [_]). by apply logs_did. Qed.

Lemma wp_modify_dev f Q w : (∀ w', logs [] w w' → Q tt w') → wp (K := K) (modify_dev f) Q w.
Proof. intros HQ. apply HQ. split; [done|by rewrite app_nil_r]. Qed.

Lemma wp_report_errno fmt path Q w :
  (∀ e, conforms (fmt +:+ newline) [AStr path; AInt e; AStr (strerror e)] = true) →
  (∀ w', quiet w w' → Q tt w') → wp (K := K) (report_errno fmt path) Q w.
Proof.
  intros Hc HQ. apply wp_bind, wp_errno_args. intros e w1 H1. apply wp_fprintf_stderr; [apply Hc|].
  intros w2 H2. apply HQ. by etrans.
Qed.

(** ** Creation *)

(** The writes that fill a file of [size] bytes. *)
Definition chunks (size : Z) : nat := Z.to_nat ((size + BUF_SIZE - 1) / BUF_SIZE).

Definition zeros : list Z := replicate (Z.to_nat BUF_SIZE) 0.

Definition write_events (fd : Z) (answers : list Z) : list event := (λ r, Ev (SWrite fd zeros) r) <$> answers.

Lemma chunks_step size : 0 < size → chunks size = S (chunks (size - BUF_SIZE)).
Proof.
  intros Hs. unfold chunks, BUF_SIZE.
  replace (size - 1024 + 1024 - 1) with (size + 1024 - 1 + (-1) * 1024) by lia.
  rewrite Z.div_add by lia. pose proof (Z.div_le_lower_bound (size + 1024 - 1) 1024 1 ltac:(lia) ltac:(lia)).
  lia.
Qed.

Lemma chunks_done size : size <= 0 → chunks size = 0%nat.
Proof. intros Hs. unfold chunks, BUF_SIZE. pose proof (Z.div_lt_upper_bound (size + 1024 - 1) 1024 1 ltac:(lia) ltac:(lia)). lia. Qed.

(** What filling a file may issue: the writes all succeed, or the last one
    fails. *)
Definition filled (fd : Z) (n : nat) (ok : bool) (es : list event) : Prop :=
  if ok then ∃ rs, es = write_events fd rs ∧ length rs = n ∧ Forall (λ r, 0 <= r) rs
  else ∃ rs r, es = write_events fd (rs ++ [r]) ∧ (length rs < n)%nat ∧ Forall (λ r, 0 <= r) rs ∧ r < 0.

Lemma filled_cons fd n ok r es :
  0 <= r → filled fd n ok es → filled fd (S n) ok (Ev (SWrite fd zeros) r :: es).
Proof.
  intros Hr. destruct ok; simpl.
  - intros (rs & -> & Hl & Hf). exists (r :: rs). split_and!; [done|simpl; by rewrite Hl|by constructor].
  - intros (rs & r' & -> & Hl & Hf & Hr'). exists (r :: rs), r'.
    split_and!; [done|simpl; lia|by constructor|done].
Qed.

Lemma wp_fill_file fuel fd tmp size offset Q w :
  0 <= offset → offset <= size + BUF_SIZE → size + BUF_SIZE < 2 ^ 64 → (chunks (size - offset) < fuel)%nat →
  (∀ ok es w', logs es w w' → filled fd (chunks (size - offset)) ok es → Q ok w') →
  wp (K := K) (fill_file fuel fd tmp size offset) Q w.
Proof.
  revert offset w. induction fuel as [|fuel IH]; intros offset w H1 H2 H3 Hn HQ; [lia|]. simpl.
  destruct (Z.ltb_spec offset size) as [Hlt|Hge].
  - rewrite chunks_step in * by lia. apply wp_bind, wp_call; [done|]. intros r w1 D.
    destruct (Z.ltb_spec r 0) as [Hr|Hr].
    + apply wp_bind, wp_report_errno; [done|]. intros w2 Hq. apply wp_ret.
      apply (HQ _ [Ev (SWrite fd zeros) r]).
      * eapply logs_cons; [exact D|by apply logs_quiet].
      * exists [], r. split_and!; [done|simpl; lia|done|done].
    + unfold u64. rewrite uwrap_small by (unfold BUF_SIZE in *; lia).
      replace (size - offset - BUF_SIZE) with (size - (offset + BUF_SIZE)) in * by lia.
      apply IH; [unfold BUF_SIZE in *; lia..|]. intros ok es w' L F.
      apply (HQ ok (Ev (SWrite fd zeros) r :: es)); [by eapply logs_cons|by apply filled_cons].
  - rewrite chunks_done in HQ by lia. apply wp_ret, (HQ true []); [by apply logs_quiet|]. by exists [].
Qed.

(** The texts of [create_ocxl_device]. *)
Definition sysfs_base (sys_path afu_name : string) : string :=
  truncate (Z.to_nat (PATH_MAX - 20)) (sys_path +:+ "/" +:+ afu_instance afu_name).
Definition mmio_file (sys_path afu_name : string) : string :=
  truncate (Z.to_nat PATH_MAX) (sysfs_base sys_path afu_name +:+ "/global_mmio_area").

(** The directory of the device: it is made when it is not there. *)
Definition made_dir (path : string) (es : list event) : Prop :=
  (∃ dev, es = [Ev (SStat path) (Some dev)]) ∨
  (∃ rc, es = [Ev (SStat path) None; Ev (SMkdir path 509) rc]).

(** The result and the log of the creation of a device whose file is
    [file], of [n] chunks. *)
Inductive created (file : string) (n : nat) : Z → list event → Prop :=
| created_no_file fd : fd < 0 → created file n 0 [Ev (SCreat file 420) fd]
| created_no_room fd es :
    0 <= fd → filled fd n false es → created file n 0 (Ev (SCreat file 420) fd :: es)
| created_no_thread fd es rc close name thread :
    0 <= fd → filled fd n true es → rc ≠ 0 →
    created file n 0 (Ev (SCreat file 420) fd :: es ++
      [Ev (SClose fd) close; Ev (SThreadCreate name) (rc, thread)])
| created_ok fd es close name thread :
    0 <= fd → filled fd n true es →
    created file n thread (Ev (SCreat file 420) fd :: es ++
      [Ev (SClose fd) close; Ev (SThreadCreate name) (0, thread)]).

Lemma wp_ensure_dir path Q w :
  (∀ ds w', logs ds w w' → made_dir path ds → Q tt w') → wp (K := K) (ensure_dir path) Q w.
Proof.
  intros HQ. apply wp_bind, wp_call; [done|]. intros [dev|] w1 D1.
  - apply wp_ret, (HQ _ _ (logs_did _ _ _ _ D1)). left. by exists dev.
  - apply wp_bind, wp_call; [done|]. intros rc w2 D2.
    assert (∀ w', quiet w2 w' → Q tt w') as Hend.
    { intros w' Hq. apply (HQ [Ev (SStat path) None; Ev (SMkdir path 509) rc]); [|right; by exists rc].
      eapply logs_cons; [exact D1|]. eapply logs_cons; [exact D2|by apply logs_quiet]. }
    apply wp_when; [|by intros _; apply Hend]. intros _. by apply wp_report_errno.
Qed.

(** Behind the directory. *)
Lemma wp_create_files fuel tmp size Q w :
  0 <= size → size + BUF_SIZE < 2 ^ 64 → (chunks size < fuel)%nat →
  (∀ r es w', logs es w w' → created tmp (chunks size) r es → Q r w') →
  wp (K := K) (fd ← call (SCreat tmp 420);
      if fd <? 0 then
        report_errno "Could not create global_mmio_area file '%s': %d: %s" tmp ;; mret 0
      else
      ok ← fill_file fuel fd tmp size 0;
      if negb (ok : bool) then mret 0 else
      call (SClose fd) ;;
      name ← read_dev device_name;
      '(rc, afu_thread) ← call (SThreadCreate name);
      if c_bool rc then fprintf_stderr ("Could not create AFU thread" +:+ newline) [] ;; mret 0
      else mret afu_thread) Q w.
Proof.
  intros H1 H2 Hn HQ. apply wp_bind, wp_call; [done|]. intros fd w1 D1. destruct (Z.ltb_spec fd 0) as [Hf|Hf].
  { apply wp_bind, wp_report_errno; [done|]. intros w2 Hq. apply wp_ret. eapply HQ; [|by apply created_no_file].
    eapply logs_cons; [exact D1|by apply logs_quiet]. }
  apply wp_bind, wp_fill_file; [lia|unfold BUF_SIZE; lia|done|by rewrite Z.sub_0_r|].
  rewrite Z.sub_0_r. intros [] es w2 L2 F; simpl.
  2: { apply wp_ret. eapply HQ; [|by apply created_no_room]. by eapply logs_cons. }
  apply wp_bind, wp_call; [done|]. intros close w3 D3. apply wp_bind. unfold wp at 1, read_dev.
  set (name := device_name _). apply wp_bind, wp_call; [done|]. intros [rc thread] w4 D4.
  assert (∀ w', quiet w4 w' → logs (Ev (SCreat tmp 420) fd :: es ++
    [Ev (SClose fd) close; Ev (SThreadCreate name) (rc, thread)]) w w') as Hlog.
  { intros w' Hq. eapply logs_cons; [exact D1|]. eapply logs_trans; [exact L2|].
    eapply logs_cons; [exact D3|]. eapply logs_cons; [exact D4|by apply logs_quiet]. }
  unfold c_bool. destruct (Z.eqb_spec rc 0) as [->|Hrc]; simpl.
  - apply wp_ret. eapply HQ; [by apply Hlog|by apply created_ok].
  - apply wp_bind, wp_fprintf_stderr; [done|]. intros w5 Hq. apply wp_ret.
    eapply HQ; [by apply Hlog|by apply created_no_thread].
Qed.

Lemma wp_create_ocxl_device fuel name size pp Q w :
  0 <= size → size + BUF_SIZE < 2 ^ 64 → (chunks size < fuel)%nat →
  (∀ r ds es w', logs (ds ++ es) w w' → made_dir (sysfs_base (SYS_PATH (w_glob w)) name) ds →
     created (mmio_file (SYS_PATH (w_glob w)) name) (chunks size) r es → Q r w') →
  wp (K := K) (create_ocxl_device fuel name size pp) Q w.
Proof.
  intros H1 H2 Hn HQ. set (g := w_glob w) in HQ.
  apply wp_bind, wp_modify_dev. intros w1 L1. apply wp_bind, wp_get_globals.
  replace (w_glob w1) with g by (symmetry; apply L1).
  apply wp_bind, wp_ensure_dir. intros ds w2 L2 Hd.
  apply wp_create_files; [done..|]. intros r es w3 L3 Hc. eapply HQ; [|exact Hd|exact Hc].
  apply (logs_trans [] _ _ _ _ L1). by eapply logs_trans.
Qed.

End logs.
