(* ===== verification/VirtOcxl.v ===== *)
(** * VirtOcxl: a virtual kernel with the virtual AFU of the unit tests

    A concrete [Platform]: the CUSE device of VirtAfu.v behind an idealised
    kernel (files, descriptors, mappings, eventfds and epoll).  The
    theorems of the development hold for every platform; this one is where
    they are tried on concrete runs, and it shows that their hypotheses on
    the outside can hold.  The device of virtocxl.c answers [EINVAL] to the
    interrupt requests; [v_irqs] adds a kernel that can serve them. *)

From S2P Require Import Prelude Format Types World Logic MmioAccess IrqFacts Names Event Trace.
From S2P Require Import AfuOpen EventFacts Client VirtAfu.
Open Scope Z_scope.

Definition ENOENT : Z := 2.
Definition EEXIST : Z := 17.
Definition EIO : Z := 5.
Definition ENOMEM : Z := 12.

Record virt : Type := mk_virt {
  v_dev : virt_dev;                        (* the variables of virtocxl.c *)
  v_devices : list (string * string * Z);  (* directory, entry, device number *)
  v_dirs : list string;                    (* directories *)
  v_files : list (string * Z);             (* regular files and their sizes *)
  v_links : list (string * string);        (* symbolic links and their targets *)
  v_contexts : Z;                          (* contexts the device has left *)
  v_mallocs : Z;                           (* allocations before memory runs out *)
  v_fds : list (Z * fd_kind);              (* descriptors *)
  v_writing : list (Z * string);           (* descriptors of files *)
  v_next_map : Z;
  v_irqs : bool;                           (* the kernel has interrupts *)
  v_next_irq : Z;
  v_pending : list (Z * Z);                (* eventfd, count *)
  v_epoll : list (Z * (Z * source_ptr));   (* instance, descriptor, data *)
  v_mem : gmap Z Z;
  v_errno : Z;
  v_stderr : string;
  v_stdout : string;
  v_clock : Z;                             (* microseconds *)
  v_break : Z                              (* where the next aligned block goes *)
}.

#[export] Instance eta_virt : Eta virt := fun v =>
  mk_virt (v_dev v) (v_devices v) (v_dirs v) (v_files v) (v_links v) (v_contexts v)
    (v_mallocs v) (v_fds v) (v_writing v) (v_next_map v) (v_irqs v) (v_next_irq v)
    (v_pending v) (v_epoll v) (v_mem v) (v_errno v) (v_stderr v) (v_stdout v)
    (v_clock v) (v_break v).

Definition v_translation_fault (v : virt) : xsl_fault := translation_fault (v_dev v).

(** ** Requests to the device

    The kernel takes the first reply of a handler as its answer; what a
    second one does is up to libfuse, and here it is lost.  A handler that
    goes wrong is an I/O error. *)

Definition virt_device_open (v : virt) : virt := v <| v_dev := (virt_afu_open (v_dev v)).2 |>.

Definition virt_afu_read (size : Z) (v : virt) : (Z * list Z) * virt :=
  match afu_read size 0 (v_dev v) with
  | Some (reply_buf buf :: _, d) => ((Z.of_nat (length buf), buf), v <| v_dev := d |>)
  | Some (reply_err err :: _, d) => ((-1, []), v <| v_dev := d |> <| v_errno := err |>)
  | _ => ((-1, []), v <| v_errno := EIO |>)
  end.

(** The result of an ioctl, the metadata it gives, and the state. *)
Definition virt_afu_ioctl (cmd : ioctl_cmd) (v : virt) : (Z * ocxl_ioctl_metadata) * virt :=
  let none := mk_metadata 0 0 0 0 0 in
  match afu_ioctl cmd (v_dev v) with
  | (reply_ioctl result out :: _, d) => ((result, default none out), v <| v_dev := d |>)
  | (reply_err err :: _, d) => ((-1, none), v <| v_dev := d |> <| v_errno := err |>)
  | _ => ((-1, none), v <| v_errno := EIO |>)
  end.

Definition virt_afu_ioctl_attach (v : virt) : Z * virt :=
  let '((rc, _), v) := virt_afu_ioctl OCXL_IOCTL_ATTACH v in (rc, v).
Definition virt_afu_ioctl_metadata (v : virt) : (Z * ocxl_ioctl_metadata) * virt :=
  virt_afu_ioctl OCXL_IOCTL_GET_METADATA v.
Definition virt_afu_ioctl_other (v : virt) : Z * virt :=
  let '((rc, _), v) := virt_afu_ioctl ioctl_other v in (rc, v).

Definition virt_afu_poll (v : virt) : bool :=
  match afu_poll (v_dev v) with
  | reply_poll revents :: _ => negb (revents =? 0)
  | _ => false
  end.

(** ** The kernel around it *)

(** The kernel limits the names of AFUs. *)
Definition short_nameb (d_name : string) : bool :=
  match strchr "." d_name with
  | Some (name, _) => Z.of_nat (String.length name) <=? AFU_NAME_MAX
  | None => true
  end.

Definition virt_init : virt := {|
  v_dev := initial_dev; v_devices := []; v_dirs := []; v_files := []; v_links := [];
  v_contexts := 1000; v_mallocs := 1000;
  v_fds := []; v_writing := []; v_next_map := 0x10000; v_irqs := false; v_next_irq := 0x1000;
  v_pending := []; v_epoll := []; v_mem := ∅; v_errno := 0; v_stderr := "";
  v_stdout := ""; v_clock := 1000000000; v_break := 0x7f0000000000
|}.

(** The device of the name [afu_name] in place, with its file. *)
Definition plug_in (dev_path sys_path afu_name : string) (global_mmio_size per_pasid_mmio_size : Z)
    (v : virt) : virt :=
  v <| v_devices := (v_devices v ++ [(dev_path, afu_instance afu_name, 0xf00)]) |>
    <| v_files := ((sys_path +:+ "/" +:+ afu_instance afu_name +:+ "/global_mmio_area",
                    global_mmio_size) :: v_files v) |>
    <| v_dev := ((v_dev v) <| _global_mmio_size := global_mmio_size |>
                           <| _pp_mmio_size := per_pasid_mmio_size |>) |>.

(** The bytes of memory. *)
Definition peek (v : virt) (addr : Z) : Z := default 0 (v_mem v !! addr) mod 256.

Fixpoint poke (addr : Z) (bs : list Z) (m : gmap Z Z) : gmap Z Z :=
  match bs with
  | [] => m
  | b :: bs => <[addr := b]> (poke (addr + 1) bs m)
  end.

(** [n] bytes set to [c]; a byte that is not recorded is 0. *)
Definition clear (addr c n : Z) (m : gmap Z Z) : gmap Z Z :=
  if c mod 256 =? 0 then filter (λ x, negb ((addr <=? x.1) && (x.1 <? addr + n))) m
  else poke addr (replicate (Z.to_nat n) (c mod 256)) m.

Definition align_up (addr alignment : Z) : Z := (addr + (alignment - 1)) / alignment * alignment.

(** File name patterns with stars. *)
Fixpoint glob_match (fuel : nat) (pat s : string) : bool :=
  match fuel with
  | O => false
  | S fuel =>
      match pat, s with
      | EmptyString, EmptyString => true
      | String c pat', _ =>
          if Ascii.eqb c "*" then
            glob_match fuel pat' s || match s with String _ s' => glob_match fuel pat s' | _ => false end
          else match s with
               | String d s' => Ascii.eqb c d && glob_match fuel pat' s'
               | EmptyString => false
               end
      | EmptyString, String _ _ => false
      end
  end.

Definition full_path (d : string * string * Z) : string := d.1.1 +:+ "/" +:+ d.1.2.

(** A path with a link followed. *)
Definition follow (path : string) (v : virt) : string :=
  default path (snd <$> find (λ l, String.eqb l.1 path) (v_links v)).

Definition find_path (path : string) (v : virt) : option Z :=
  snd <$> find (λ d, String.eqb (full_path d) (follow path v)) (v_devices v).

Definition virt_stat (path : string) (v : virt) : option Z :=
  match find_path path v with
  | Some dev => Some dev
  | None => if existsb (String.eqb path) (v_dirs v) then Some 0 else None
  end.

(** A path split behind its last slash. *)
Fixpoint split_path (path : string) : option (string * string) :=
  match path with
  | EmptyString => None
  | String c path' =>
      match split_path path' with
      | Some (dir, name) => Some (String c dir, name)
      | None => if Ascii.eqb c "/" then Some (""%string, path') else None
      end
  end.

(** The node of a CUSE device, from the text DEVNAME=name. *)
Definition cuse_node (info : string) (v : virt) : virt :=
  match split_path ("/dev/" +:+ String.substring 8 (String.length info) info) with
  | Some (dir, name) => v <| v_devices := (v_devices v ++ [(dir, name, 0xf00)]) |>
  | None => v
  end.

(** The thread sets up its session and serves the device. *)
Definition virt_thread (device_name : string) (v : virt) : (Z * Z) * virt :=
  let setup := start_afu_thread device_name in
  ((0, 1), (foldr cuse_node v (cuse_dev_info_argv setup))
             <| v_dev := (v_dev v) <| afu_session := 1 |> |>).

Definition virt_write (fd n : Z) (v : virt) : Z * virt :=
  match find (λ x, x.1 =? fd) (v_writing v) with
  | Some (_, path) =>
      (n, v <| v_files := ((λ x, if String.eqb x.1 path then (path, x.2 + n) else x) <$> v_files v) |>)
  | None => (-1, v <| v_errno := EINVAL |>)
  end.

Definition max_fd (v : virt) : Z := foldr (λ x, Z.max x.1) 2 (v_fds v).

Definition new_fd (x : fd_kind) (v : virt) : Z * virt :=
  let fd := 1 + max_fd v in (fd, v <| v_fds := ((fd, x) :: v_fds v) |>).

Definition fd_kind_of (v : virt) (fd : Z) : option fd_kind := snd <$> find (λ x, x.1 =? fd) (v_fds v).

Definition is_context (v : virt) (fd : Z) : bool :=
  match fd_kind_of v fd with Some FdContext => true | _ => false end.

Definition is_file (path : string) (v : virt) : bool := existsb (λ x, String.eqb x.1 path) (v_files v).

Definition virt_creat (path : string) (v : virt) : Z * virt :=
  let '(fd, v) := new_fd FdOther v in
  (fd, v <| v_files := ((path, 0) :: List.filter (λ x, negb (String.eqb x.1 path)) (v_files v)) |>
         <| v_writing := ((fd, path) :: v_writing v) |>).

Definition virt_open (path : string) (v : virt) : Z * virt :=
  if is_file path v then new_fd FdOther v else
  match find_path path v with
  | None => (-1, v <| v_errno := ENOENT |>)
  | Some _ =>
      if v_contexts v <=? 0 then (-1, v <| v_errno := ENOSPC |>)
      else let '(fd, v) := new_fd FdContext v in
           (fd, virt_device_open (v <| v_contexts := v_contexts v - 1 |>))
  end.

Definition virt_read (fd size : Z) (v : virt) : (Z * list Z) * virt :=
  if is_context v fd then virt_afu_read size v else
  match find (λ x, x.1 =? fd) (v_pending v) with
  | Some (_, n) => ((8, le_bytes 8 n),
                    v <| v_pending := List.filter (λ x, negb (x.1 =? fd)) (v_pending v) |>)
  | None => ((-1, []), v <| v_errno := EAGAIN |>)
  end.

Definition virt_ready (v : virt) (x : Z * source_ptr) : bool :=
  if is_context v x.1 then virt_afu_poll v
  else existsb (λ y, y.1 =? x.1) (v_pending v).

(** What an epoll instance watches. *)
Definition virt_interest (v : virt) (epfd : Z) : list (Z * source_ptr) :=
  snd <$> List.filter (λ x, x.1 =? epfd) (v_epoll v).

(** Trigger an interrupt bound to an eventfd. *)
Definition trigger_irq (eventfd count : Z) (v : virt) : virt :=
  v <| v_pending := (v_pending v ++ [(eventfd, count)]) |>.

(** Force a translation fault. *)
Definition inject_fault (addr dsisr count : Z) (v : virt) : virt :=
  v <| v_dev := force_translation_fault addr dsisr count (v_dev v) |>.

(** Memory for the application. *)
Definition virt_alloc (alignment size : Z) (v : virt) : Z * virt :=
  let addr := Z.max 4096 (align_up (v_break v) alignment) in (addr, v <| v_break := addr + Z.max 0 size |>).

Definition virt_memalign (alignment size : Z) (v : virt) : (Z * Z) * virt :=
  let addr := align_up (Z.max 4096 (v_break v)) alignment in
  let ok := (0 <? addr) && (addr <? 2 ^ 63) in
  ((if ok then 0 else ENOMEM, if ok then addr else 0), v <| v_break := if ok then addr + Z.max 0 size else v_break v |>).

Definition virt_step (R : Set) (c : sys R) : virt → R * virt :=
  match c in sys R return virt → R * virt with
  | SGetenv _ => λ v, (None, v)
  | SPagesize => λ v, (4096, v)
  | SMalloc _ => λ v,
      if v_mallocs v <=? 0 then (false, v <| v_errno := ENOMEM |>)
      else (true, v <| v_mallocs := v_mallocs v - 1 |>)
  | SErrno => λ v, (v_errno v, v)
  | SLock _ => λ v, (tt, v)
  | SUnlock _ => λ v, (tt, v)
  | SStderr s => λ v, (tt, v <| v_stderr := v_stderr v +:+ s |>)
  | SCallback _ _ _ s => λ v, (tt, v <| v_stderr := v_stderr v +:+ s |>)
  | SSync => λ v, (tt, v)
  | SStdout s => λ v, (tt, v <| v_stdout := v_stdout v +:+ s |>)
  | SGettimeofday => λ v, ((v_clock v / 1000000, v_clock v mod 1000000), v <| v_clock := v_clock v + 1 |>)
  | SWait => λ v, (tt, v)
  | SAlignedAlloc alignment size => virt_alloc alignment size
  | SMemset addr c n => λ v, (tt, v <| v_mem := clear addr c n (v_mem v) |>)
  | SGetpid => λ v, (1000, v)
  | SFork => λ v, (1001, v)
  | SWaitChild => λ v, ((1001, 0), v)
  | SShmget _ => λ v, (7, v)
  | SShmat _ => virt_alloc 4096 4096
  | SShmdt _ => λ v, (0, v)
  | SShmRemove _ => λ v, (0, v)
  | SMmapAnon length => virt_alloc 4096 length
  | SMunmapAnon _ _ => λ v, (0, v)
  | SMemalign alignment size => virt_memalign alignment size
  | SSleep usecs => λ v, (tt, v <| v_clock := v_clock v + Z.max 0 usecs |>)
  | STimebase => λ v, (v_clock v, v <| v_clock := v_clock v + 1 |>)
  | SNoGather => λ v, (tt, v)
  | SSignal _ => λ v, (true, v)
  | SPendingSignal => λ v, (None, v)
  | SMkdir path _ => λ v, (0, v <| v_dirs := (path :: v_dirs v) |>)
  | SCreat path _ => virt_creat path
  | SWrite fd bytes => virt_write fd (Z.of_nat (length bytes))
  | SSymlink target path => λ v,
      match virt_stat path v with
      | Some _ => (-1, v <| v_errno := EEXIST |>)
      | None => (0, v <| v_links := ((path, target) :: v_links v) |>)
      end
  | SUnlink path => λ v, (0, v <| v_links := List.filter (λ l, negb (String.eqb l.1 path)) (v_links v) |>)
  | SThreadCreate device_name => virt_thread device_name
  | SThreadKill _ _ => λ v, (0, v)
  | SThreadJoin _ => λ v, (0, v)
  | SSessionExit _ => λ v, (tt, v)
  | SSessionDestroy _ => λ v, (tt, v)
  | SStat path => λ v, (virt_stat path v, v <| v_errno := ENOENT |>)
  | SOpendir dir => λ v,
      (Some (List.filter short_nameb ("." :: ".." ::
               List.map (λ d, d.1.2) (List.filter (λ d, String.eqb d.1.1 dir) (v_devices v)))), v)
  | SClosedir _ => λ v, (tt, v)
  | SFstatat dir name => λ v, ((λ dev, (true, dev)) <$> find_path (dir +:+ "/" +:+ name) v, v)
  | SGlob pattern => λ v,
      let paths := List.filter (λ p, glob_match 500 pattern p) (full_path <$> v_devices v) in
      ((if bool_decide (paths = []) then GLOB_NOMATCH else 0, paths), v)
  | SOpen path _ => virt_open path
  | SClose _ => λ v, (0, v)
  | SRead fd size => virt_read fd size
  | SMmap length _ _ _ => λ v,
      let addr := Z.max 0x10000 (v_next_map v) in
      if (length <=? 0) || (2 ^ 47 <? addr + length) then (MAP_FAILED, v <| v_errno := ENOMEM |>)
      else (addr, v <| v_next_map := addr + 0x10000 * (1 + Z.max 0 length / 0x10000) |>)
  | SMunmap _ _ => λ v, (0, v)
  | SLoad addr n => λ v, ((λ i, peek v (addr + Z.of_nat i)) <$> seq 0 n, v)
  | SStore addr bs => λ v, (tt, v <| v_mem := poke addr bs (v_mem v) |>)
  | SEventfd => new_fd FdEventfd
  | SEpollCreate => λ v, let '(fd, v) := new_fd FdOther v in
      (fd, v <| v_epoll := List.filter (λ x, negb (x.1 =? fd)) (v_epoll v) |>)
  | SEpollCtlAdd epfd fd data => λ v, (0, v <| v_epoll := (v_epoll v ++ [(epfd, (fd, data))]) |>)
  | SEpollWait epfd n _ => λ v,
      let ready := take (Z.to_nat n) (snd <$> List.filter (virt_ready v) (virt_interest v epfd)) in
      ((Z.of_nat (length ready), ready), v)
  | SIoctlAttach _ _ => virt_afu_ioctl_attach
  | SIoctlGetMetadata fd => λ v,
      if is_context v fd then virt_afu_ioctl_metadata v
      else let '(rc, v) := virt_afu_ioctl_other v in ((rc, mk_metadata 0 0 0 0 0), v)
  | SIoctlIrqAlloc _ => λ v,
      if v_irqs v then ((0, Z.max 0x1000 (v_next_irq v)), v <| v_next_irq := v_next_irq v + 0x1000 |>)
      else let '(rc, v) := virt_afu_ioctl_other v in ((rc, 0), v)
  | SIoctlIrqSetFd _ _ _ => λ v, if v_irqs v then (0, v) else virt_afu_ioctl_other v
  | SIoctlIrqFree _ _ => λ v, if v_irqs v then (0, v) else virt_afu_ioctl_other v
  | SIoctlGetFeatures _ => λ v, let '(rc, v) := virt_afu_ioctl_other v in ((rc, 0), v)
  | SIoctlEnableP9Wait _ => λ v, let '(rc, v) := virt_afu_ioctl_other v in ((rc, 0), v)
  end.

#[export] Instance virt_platform : Platform virt := virt_step.

#[export, refine] Instance virt_has_device : Device virt :=
  {| get_dev := v_dev; set_dev d v := v <| v_dev := d |> |}.
Proof. done. Defined.

(** ** The laws *)

#[export] Instance virt_nonzero : NonZeroHandles virt.
Proof.
  split.
  - intros fd k. unfold os_step, virt_platform, virt_step. destruct (v_irqs k); simpl; [|done].
    intros [= E]. lia.
  - intros n prot fd offset k. unfold os_step, virt_platform, virt_step, NULL, MAP_FAILED.
    destruct (_ || _); simpl; lia.
Qed.

#[export] Instance virt_short_names : ShortNames virt.
Proof.
  intros dir k names E. assert (names = List.filter short_nameb ("." :: ".." ::
    List.map (λ d, d.1.2) (List.filter (λ d, String.eqb d.1.1 dir) (v_devices k)))) as ->
    by (by injection E).
  apply list.Forall_forall. intros d Hd. apply list_elem_of_In, filter_In in Hd as [_ Hd].
  intros name rest Hs. unfold short_nameb in Hd. rewrite Hs in Hd. by apply Z.leb_le.
Qed.

Lemma lookup_poke addr bs m q :
  poke addr bs m !! q =
  if addr <=? q then match bs !! Z.to_nat (q - addr) with Some b => Some b | None => m !! q end
  else m !! q.
Proof.
  revert addr. induction bs as [|b bs IH]; intros addr; simpl poke.
  { rewrite lookup_nil. by destruct (addr <=? q). }
  destruct (decide (addr = q)) as [->|Hne].
  - rewrite lookup_insert_eq, Z.leb_refl, Z.sub_diag. done.
  - rewrite lookup_insert_ne, IH by done.
    destruct (Z.leb_spec addr q), (Z.leb_spec (addr + 1) q); try lia; [|done].
    replace (Z.to_nat (q - addr)) with (S (Z.to_nat (q - (addr + 1)))) by lia. done.
Qed.

#[export, refine] Instance virt_registers : RegisterMemory virt := {| reg_byte := peek |}.
Proof.
  - intros k q. apply Z.mod_pos_bound. lia.
  - done.
  - done.
  - intros addr bs k q Hb. unfold os_step, virt_platform, virt_step, peek, field_upd. simpl.
    rewrite lookup_poke. destruct (addr <=? q); [|done].
    destruct (bs !! Z.to_nat (q - addr)) as [b|] eqn:E; [|done]. simpl.
    apply Z.mod_small. exact (Forall_lookup_1 _ _ _ _ Hb E).
  - done.
  - intros R c k q Hc. destruct c; try done. unfold os_step, virt_platform, virt_step.
    by destruct (v_mallocs k <=? 0).
Defined.

(** ** Events *)

Lemma max_fd_le v x : x ∈ v_fds v → x.1 <= max_fd v.
Proof.
  unfold max_fd. induction (v_fds v) as [|y l IH]; intros Hx; [by apply not_elem_of_nil in Hx|].
  simpl. apply elem_of_cons in Hx as [->|Hx]; [lia|]. specialize (IH Hx). lia.
Qed.

Lemma new_fd_kind x v fd v' :
  new_fd x v = (fd, v') →
  fd_kind_of v' fd = Some x ∧ (∀ fd' y, fd_kind_of v fd' = Some y → fd_kind_of v' fd' = Some y) ∧
  v_epoll v' = v_epoll v.
Proof.
  intros [= <- <-]. unfold fd_kind_of. split_and!; [|intros fd' y|done].
  - simpl. by rewrite Z.eqb_refl.
  - destruct (find _ (v_fds v)) as [z|] eqn:E; [|done]. pose proof E as Hin.
    apply find_some in Hin as [Hin Hz%Z.eqb_eq]. apply list_elem_of_In, max_fd_le in Hin.
    intros Hy. change (snd <$> find (λ x, x.1 =? fd') ((1 + max_fd v, x) :: v_fds v) = Some y). simpl.
    destruct (Z.eqb_spec (1 + max_fd v) fd'); [lia|]. by rewrite E.
Qed.

(** What the operations on the device and on files leave alone. *)
Lemma cuse_nodes_frame v l :
  v_epoll (foldr cuse_node v l) = v_epoll v ∧ v_fds (foldr cuse_node v l) = v_fds v ∧
  v_pending (foldr cuse_node v l) = v_pending v ∧ v_clock (foldr cuse_node v l) = v_clock v.
Proof.
  induction l as [|x l IH]; simpl; [done|]. unfold cuse_node at 1 3 5 7.
  destruct (split_path _) as [[dir name]|]; exact IH.
Qed.

Lemma virt_afu_read_frame size v :
  v_epoll (virt_afu_read size v).2 = v_epoll v ∧ v_fds (virt_afu_read size v).2 = v_fds v ∧
  v_pending (virt_afu_read size v).2 = v_pending v ∧ v_clock (virt_afu_read size v).2 = v_clock v.
Proof. unfold virt_afu_read. destruct (afu_read _ _ _) as [[[|[] l] d]|]; done. Qed.

(** Operations other than those of epoll leave the interest lists alone, and
    no operation takes a descriptor away. *)
Lemma virt_epoll_step (R : Set) (c : sys R) (v : virt) :
  watch_op c = false → v_epoll (os_step R c v).2 = v_epoll v.
Proof.
  destruct c; try done; intros _.
  all: try exact (proj1 (cuse_nodes_frame _ _)).
  all: unfold os_step, virt_platform, virt_step, virt_open, virt_read, virt_write, new_fd;
    repeat (case_match; try done; try apply virt_afu_read_frame).
Qed.

Lemma virt_kind_step (R : Set) (c : sys R) (v : virt) fd x :
  fd_kind_of v fd = Some x → fd_kind_of (os_step R c v).2 fd = Some x.
Proof.
  intros Hx. assert (∀ y, fd_kind_of (new_fd y v).2 fd = Some x) as Hnew.
  { intros y. destruct (new_fd y v) as [fd' v'] eqn:E. by apply (new_fd_kind y v fd' v'). }
  destruct c; try exact Hx; try exact (Hnew _).
  all: unfold os_step, virt_platform, virt_step, virt_open, virt_read, virt_write;
    repeat (case_match; try exact Hx; try exact (Hnew _)).
  - unfold virt_thread, fd_kind_of. change (v_fds (_, ?x).2) with (v_fds x).
    change (v_fds (?x <| v_dev := _ |>)) with (v_fds x).
    rewrite (proj1 (proj2 (cuse_nodes_frame _ _))). exact Hx.
  - unfold fd_kind_of. rewrite (proj1 (proj2 (virt_afu_read_frame _ _))). exact Hx.
Qed.

Lemma elem_of_interest v epfd s :
  s ∈ snd <$> virt_interest v epfd ↔ ∃ fd, (epfd, (fd, s)) ∈ v_epoll v.
Proof.
  unfold virt_interest. rewrite list_elem_of_fmap. split.
  - intros (x & -> & Hx). apply list_elem_of_fmap in Hx as ([e y] & -> & Hy).
    apply list_elem_of_In, filter_In in Hy as [Hy He%Z.eqb_eq]. simpl in *. subst e. exists y.1.
    apply list_elem_of_In. by destruct y.
  - intros [fd Hs]. exists (fd, s). split; [done|]. apply list_elem_of_fmap. exists (epfd, (fd, s)).
    split; [done|]. apply list_elem_of_In, filter_In. split; [by apply list_elem_of_In|apply Z.eqb_refl].
Qed.

Lemma virt_watched_step (R : Set) (c : sys R) (v : virt) fd :
  snd <$> virt_interest (os_step R c v).2 fd ⊆
  watch_after fd (snd <$> virt_interest v fd) (Ev c (os_step R c v).1).
Proof.
  destruct (watch_op c) eqn:Hc.
  2: { unfold virt_interest. rewrite (virt_epoll_step R c v Hc). by destruct c. }
  intros s Hs. apply elem_of_interest in Hs as [fd' Hs]. destruct c; try done.
  - apply elem_of_interest. by exists fd'.
  - unfold os_step, virt_platform in Hs. simpl in Hs. apply list_elem_of_In, filter_In in Hs as [Hs Hn].
    simpl in Hn. unfold watch_after, os_step, virt_platform. simpl.
    rewrite Z.eqb_sym. destruct (fd =? 1 + max_fd v); [done|]. apply elem_of_interest. exists fd'.
    by apply list_elem_of_In.
  - unfold watch_after, os_step, virt_platform. simpl. rewrite andb_true_r.
    unfold os_step, virt_platform in Hs. simpl in Hs. apply elem_of_app in Hs as [Hs|Hs].
    + assert (s ∈ snd <$> virt_interest v fd) by (apply elem_of_interest; eauto).
      destruct (_ =? _); [|done]. apply elem_of_app. by left.
    + apply list_elem_of_singleton in Hs as [= <- <- <-]. rewrite Z.eqb_refl. apply elem_of_app. right. by left.
Qed.

#[export, refine] Instance virt_event_laws : EventLaws virt := {|
  watched v epfd := snd <$> virt_interest v epfd;
  kind := fd_kind_of
|}.
Proof.
  - intros R c k fd. apply virt_watched_step.
  - intros fd n timeout k count sources k' Hn [= <- <- <-]. right. rewrite length_take.
    split_and!; [lia|lia|lia|]. intros s Hs. rewrite take_take in Hs.
    apply elem_of_take in Hs as (i & Hi & _). apply list_elem_of_lookup_2, list_elem_of_fmap in Hi as (x & -> & Hx).
    apply list_elem_of_fmap_2. apply list_elem_of_In, filter_In in Hx as [Hx _]. by apply list_elem_of_In.
  - intros R c k fd x _. apply virt_kind_step.
  - intros fd k md k' E. unfold os_step, virt_platform in E. simpl in E. unfold is_context in E.
    destruct (fd_kind_of k fd) as [[]|] eqn:Ek; try discriminate E. by injection E as _ <-.
  - intros k fd k' E _. exact (proj1 (new_fd_kind _ _ _ _ E)).
  - intros fd k n buf k' Hk E. unfold os_step, virt_platform in E. simpl in E.
    unfold virt_read, is_context in E. rewrite Hk in E.
    destruct (find _ _) as [[]|]; injection E as <- _ _; [by right|by left].
Defined.

#[export] Instance virt_single_events : SingleEvents virt.
Proof.
  intros fd k n buf k' Hk E Hl. unfold os_step, virt_platform in E. simpl in E.
    unfold virt_read, is_context in E. rewrite (Hk : fd_kind_of k fd = _) in E. unfold virt_afu_read, afu_read in E. simpl in E.
    destruct (xf_addr (translation_fault (v_dev k)) =? 0); injection E as <- <- _; [done|]. vm_compute. reflexivity.
Qed.
