(* ===== verification/Demo.v ===== *)
(** * Demo: concrete runs on the virtual device

    States of a process that opened, attached and used the virtual AFU of the
    unit tests; the theorems of the development are instantiated on them.
    The examples are the checks of unittests/unittests.c that concern the
    functions modelled here. *)

From S2P Require Import Prelude Format Types World Logic Messages Buffer Ledger Mmio MmioFacts.
From S2P Require Import MmioAccess Irq IrqFacts IrqTable Event Names Afu AfuInv AfuClose.
From S2P Require Import AfuOpen Api VirtAfu VirtOcxl.
Open Scope Z_scope.

(** The state after a run, and its result. *)
Definition after {A} (m : M virt A) (w : world virt) : world virt :=
  match m w with Ret _ w' => w' | _ => w end.

Definition result {A} (m : M virt A) (w : world virt) : option A :=
  match m w with Ret a _ => Some a | _ => None end.

(** ** Checking the invariants of a concrete state *)

Definition heap_wfb (w : world virt) : bool :=
  (0 <? w_next w) &&
  forallb (λ x, (0 <? x.1) && (x.1 <? w_next w)) (map_to_list (w_heap w)).

Lemma heap_wfb_ok w : heap_wfb w = true → heap_wf w.
Proof.
  intros [H1 H2]%andb_true_iff. split; [by apply Z.ltb_lt|]. intros p [o Hp].
  rewrite forallb_forall in H2. apply elem_of_map_to_list, list_elem_of_In, H2 in Hp. simpl in Hp.
  apply andb_true_iff in Hp as [?%Z.ltb_lt ?%Z.ltb_lt]. lia.
Qed.

Definition is_string (o : option hobj) : bool :=
  match o with Some (HStr _) => true | _ => false end.

Lemma is_string_ok w p : is_string (w_heap w !! p) = true → path_at (K := virt) w p.
Proof. destruct (w_heap w !! p) as [[]|] eqn:E; simpl; try done. intros _. right. eauto. Qed.

(** ** A device with interrupts *)

Definition demo_kernel : virt :=
  plug_in "/dev/ocxl" "/sys/class/ocxl" "IBM,Dummy" 4096 16384 (virt_init <| v_irqs := true |>).

Definition world0 : world virt := initial_world demo_kernel.

(** Opened and attached; the handle is block 1. *)
Definition demo_afu : ptr := 1.
Definition world_open : world virt :=
  Eval vm_compute in after (ocxl_afu_open "IBM,Dummy" ;; ocxl_afu_attach demo_afu 0) world0.

Definition afu_of (w : world virt) : ocxl_afu :=
  match w_heap w !! demo_afu with Some (HAfu a) => a | _ => initial_afu 0 false false end.

Definition afu_opened : ocxl_afu := Eval vm_compute in afu_of world_open.

(** With the per-PASID area mapped. *)
Definition world_mapped : world virt :=
  Eval vm_compute in after (ocxl_mmio_map demo_afu OCXL_PER_PASID_MMIO) world_open.
Definition afu_mapped : ocxl_afu := Eval vm_compute in afu_of world_mapped.
Definition area_mapped : ocxl_mmio_area := mk_mmio_area 65536 16384 OCXL_PER_PASID_MMIO (Some demo_afu).

(** With an IRQ. *)
Definition world_irq : world virt :=
  Eval vm_compute in after (ocxl_irq_alloc demo_afu 77) world_mapped.
Definition afu_irq : ocxl_afu := Eval vm_compute in afu_of world_irq.

Definition irqs_of (w : world virt) : list ocxl_irq :=
  match w_heap w !! afu_irqs (afu_of w) with
  | Some (HIrqs l) => take (Z.to_nat (afu_irq_count (afu_of w))) (omap id l)
  | _ => []
  end.
Definition irqs_irq : list ocxl_irq := Eval vm_compute in irqs_of world_irq.

(** Four areas mapped: the array is full. *)
Definition map4 : M virt unit :=
  ocxl_mmio_map demo_afu OCXL_PER_PASID_MMIO ;; ocxl_mmio_map demo_afu OCXL_GLOBAL_MMIO ;;
  ocxl_mmio_map demo_afu OCXL_PER_PASID_MMIO ;; ocxl_mmio_map demo_afu OCXL_GLOBAL_MMIO ;; mret tt.
Definition world_full : world virt := Eval vm_compute in after map4 world_open.
Definition afu_full : ocxl_afu := Eval vm_compute in afu_of world_full.
Definition areas_of (w : world virt) : list ocxl_mmio_area :=
  match w_heap w !! afu_mmios (afu_of w) with
  | Some (HMmios l) => take (Z.to_nat (afu_mmio_count (afu_of w))) (omap id l)
  | _ => []
  end.
Definition areas_full : list ocxl_mmio_area := Eval vm_compute in areas_of world_full.

(** ** Their invariants *)

Lemma heap_wf_open : heap_wf world_open.
Proof. apply heap_wfb_ok. vm_compute. reflexivity. Qed.

Lemma afu_inv_open : afu_inv world_open demo_afu afu_opened [] [].
Proof.
  apply afu_inv_fresh; [exact heap_wf_open|done|vm_compute; reflexivity|by repeat split| | |].
  - apply is_string_ok. vm_compute. reflexivity.
  - apply is_string_ok. vm_compute. reflexivity.
  - right. vm_compute. discriminate.
Qed.

(** The invariant of a state with tables, field by field. *)
Lemma demo_inv w a areas irqs rest1 rest2 :
  heap_wfb w = true → w_heap w !! demo_afu = Some (HAfu a) →
  is_string (w_heap w !! afu_device_path a) = true → is_string (w_heap w !! afu_sysfs_path a) = true →
  afu_device_path a ≠ afu_sysfs_path a →
  buf_at w (afu_mmios a) ((Some <$> areas) ++ rest1) →
  afu_mmio_max_count a = Z.of_nat (length areas + length rest1) →
  afu_mmio_count a = Z.of_nat (length areas) → Forall (λ x, area_afu x = Some demo_afu) areas →
  afu_mmio_max_count a <= UINT16_MAX →
  buf_at w (afu_irqs a) ((Some <$> irqs) ++ rest2) →
  afu_irq_max_count a = Z.of_nat (length irqs + length rest2) →
  afu_irq_count a = Z.of_nat (length irqs) → (∀ n i, irqs !! n = Some i → irq_live n i) →
  afu_irq_max_count a <= UINT16_MAX →
  afu_epoll_events a = NULL → afu_epoll_event_count a = 0 →
  Forall (λ x, area_start x ≠ MAP_FAILED) areas → source_type (afu_fd_info a) = EPOLL_SOURCE_OCXL →
  afu_inv w demo_afu a areas irqs.
Proof.
  intros Hw Hp Hd Hs Hne Hm1 Hm2 Hm3 Hm4 Hm5 Hi1 Hi2 Hi3 Hi4 Hi5 He1 He2 Hf Hso.
  split; [split; [by apply heap_wfb_ok|done|split; [done|by apply is_string_ok]|]| |
    by apply is_string_ok|by right|by left|done|done].
  - split; [by exists rest1|done..].
  - split; [by exists rest2|done..].
Qed.

Ltac demo_buf := right; split; [vm_compute; discriminate|vm_compute; reflexivity].

Lemma afu_inv_mapped : afu_inv world_mapped demo_afu afu_mapped [area_mapped] [].
Proof.
  apply (demo_inv _ _ _ _ [None; None; None] []); try (vm_compute; reflexivity);
    try (vm_compute; discriminate); try done.
  - demo_buf.
  - repeat constructor.
  - by left.
  - repeat constructor; vm_compute; discriminate.
Qed.

Lemma afu_inv_full : afu_inv world_full demo_afu afu_full areas_full [].
Proof.
  apply (demo_inv _ _ _ _ [] []); try (vm_compute; reflexivity);
    try (vm_compute; discriminate); try done.
  - demo_buf.
  - repeat constructor.
  - by left.
  - repeat constructor; vm_compute; discriminate.
Qed.

Lemma afu_inv_with_irq : afu_inv world_irq demo_afu afu_irq [area_mapped] irqs_irq.
Proof.
  apply (demo_inv _ _ _ _ [None; None; None] (replicate 63 None)); try (vm_compute; reflexivity);
    try (vm_compute; discriminate); try done.
  - demo_buf.
  - repeat constructor.
  - demo_buf.
  - intros [|n] i Hi; [|done]. vm_compute in Hi. injection Hi as <-.
    repeat split; vm_compute; discriminate.
  - repeat constructor; vm_compute; discriminate.
Qed.
