(* ===== verification/MmioSpec.v ===== *)
(** * MmioSpec: what the MMIO functions promise

    The theorems about src/mmio.c, for every kernel and device, with an
    instance of each on the virtual device. *)

From S2P Require Import Prelude Format Types World Logic Messages Buffer Ledger Mmio MmioFacts.
From S2P Require Import MmioAccess Irq IrqFacts IrqTable Event Names Afu AfuInv AfuClose.
From S2P Require Import AfuOpen Api VirtAfu VirtOcxl Demo.
Open Scope Z_scope.

(** A refused request is an error. *)
Lemma map_size_bound length size offset :
  0 <= size < 2 ^ 63 → 0 <= offset < 2 ^ 63 → 0 <= length < 2 ^ 63 → (size = 0 → offset <= length) →
  map_exceeds length (map_size length size offset) offset = false →
  offset + map_size length size offset <= length.
Proof.
  intros Hs Ho Hl Hz. unfold map_exceeds, map_size. intros E%Z.ltb_ge.
  destruct (Z.eqb_spec size 0) as [->|]; [specialize (Hz eq_refl)|]; solve_width.
Qed.

Section spec.
Context {K : Type} `{Platform K} `{Abi}.
Implicit Types (w : world K).

(** C23: [ocxl_mmio_map_advanced] on every branch.  A request that the library
    itself refuses (unknown type, out of range, no area, flags, context not
    open or not attached) returns its error and does nothing; otherwise the
    kernel is asked for exactly one mapping of the computed length, and
    either it refused (OCXL_NO_MEM), or there was no memory for the handle and
    the mapping was undone (OCXL_NO_MEM), or the handle of the first free
    entry is returned with the mapping recorded there and every other entry
    unchanged. *)
Theorem mmio_map_advanced_spec w p a areas type size prot flags offset :
  mmio_inv w p a areas →
  (first_free areas = None → Z.of_nat (length areas) < 32768) →
  wp (ocxl_mmio_map_advanced p type size prot flags offset)
     (map_result w p a areas type size prot flags offset) w.
Proof. apply wp_mmio_map_advanced. Qed.

(** Mapping keeps the handles that point into an array with room: after
    [ocxl_mmio_map] succeeded, an area that was mapped is still found, with
    the same contents, through its old handle, and [ocxl_mmio_get_info] of
    the new handle gives the address the kernel mapped. *)
Theorem mmio_map_keeps_handles w p a areas type res w' j y :
  mmio_inv w p a areas → (first_free areas = None → Z.of_nat (length areas) < 32768) →
  table_full a areas = false →
  ocxl_mmio_map p type w = Ret (OCXL_OK, res) w' →
  areas !! j = Some y → area_start y ≠ NULL →
  wp (get_area (handle_of a j)) (λ y' _, y' = y) w' ∧
  (∃ h addr n, res = Some h ∧ h ≠ handle_of a j ∧
     (addr ≠ NULL → wp (ocxl_mmio_get_info h) (λ r _, r = (OCXL_OK, Some (addr, n))) w')).
Proof.
  intros Hi Hroom Hfull Hrun Hj Hy.
  pose proof (wp_mmio_map_advanced w p a areas type 0 (Z.lor PROT_READ PROT_WRITE) 0 0 Hi Hroom) as Hwp.
  pose proof (run_wp _ _ _ _ _ Hwp Hrun) as Hr. unfold map_result in Hr.
  destruct (map_request a type 0 0 0) as [err|[fd n]] eqn:Erq.
  { destruct Hr as [[= <- ->] _]. by apply map_request_err in Erq. }
  inversion Hr as [| |a' addr i areas' w1 w2 Hne Hd Hpl Hi' Hf Hm]; subst.
  rewrite Hfull in Hm. assert (areas' = (place areas (mk_mmio_area addr n type (Some p))).2) as Ea
    by (by rewrite Hpl). assert (i = (place areas (mk_mmio_area addr n type (Some p))).1) as Ei
    by (by rewrite Hpl).
  assert (handle_of a j = handle_of a' j) as Eh by (unfold handle_of; by rewrite Hm).
  split.
  - rewrite Eh. eapply wp_get_area; [exact Hi'| |done]. rewrite Ea. by apply place_other.
  - exists (handle_of a' i), addr, n. split_and!; [done| |].
    + intros E. rewrite Eh in E. injection E as E. apply Nat2Z.inj in E. subst i.
      rewrite <-E in Hj. apply place_fresh in Hj. done.
    + intros Hnn. eapply wp_mmio_get_info; [exact Hi'|rewrite Ea, Ei; apply place_same|].
      intros w3 _. simpl. destruct (Z.eqb_spec addr NULL); [done|done].
Qed.

(** What a mapping asks of the kernel. *)
Lemma map_result_effects w p a areas type size prot flags offset res w' :
  map_result w p a areas type size prot flags offset res w' →
  match map_request a type size flags offset with
  | inl _ => effects w' = effects w
  | inr (fd, n) => ∃ addr es, effects w' = effects w ++ Ev (SMmap n prot fd offset) addr :: es ∧
      (es = [] ∨ ∃ rc, es = [Ev (SMunmap addr n) rc])
  end.
Proof.
  unfold map_result. destruct (map_request _ _ _ _ _) as [err|[fd n]]; [intros [_ Hq]; apply Hq|].
  intros [w1 w2 Hd Hq|addr rc w1 w2 w3 _ _ Hd Hq Hd2|a' addr i areas' w1 w2 _ Hd _ _ Hf _].
  - exists MAP_FAILED, []. rewrite (quiet_effects _ _ Hq), (did_effects _ _ _ _ Hd). auto.
  - exists addr, [Ev (SMunmap addr n) rc].
    rewrite (did_effects _ _ _ _ Hd2), (quiet_effects _ _ Hq), (did_effects _ _ _ _ Hd), <-app_assoc. eauto.
  - exists addr, []. rewrite (mf_effects _ _ _ _ _ Hf), (did_effects _ _ _ _ Hd). auto.
Qed.

(** A request to the kernel for [n] bytes at the offset of the area of the
    AFU that was asked for, through its descriptor, all inside the area; the
    per-PASID area only once the AFU is attached. *)
Definition mmap_within (a : ocxl_afu) (type : ocxl_mmio_type) (prot offset : Z) (e : event) : Prop :=
  let 'Ev c _ := e in
  match c with
  | SMmap n prot' fd offset' =>
      prot' = prot ∧ offset' = offset ∧
      match type with
      | OCXL_GLOBAL_MMIO => fd = afu_global_mmio_fd a ∧ offset + n <= area_length (afu_global_mmio a)
      | OCXL_PER_PASID_MMIO =>
          fd = afu_fd a ∧ afu_attached a = true ∧ offset + n <= area_length (afu_per_pasid_mmio a)
      | ocxl_mmio_type_other _ => False
      end
  | _ => True
  end.

(** C28: [ocxl_mmio_map_advanced] asks the kernel for nothing outside of the
    area of the AFU: for sizes and offsets that do not wrap around (and, for a
    request of size 0, an offset that is not behind the end), every mapping it
    requests is of the area that was named, at the offset given, and ends
    within the length of the area. *)
Theorem mmio_map_in_bounds w p a areas type size prot flags offset :
  mmio_inv w p a areas → (first_free areas = None → Z.of_nat (length areas) < 32768) →
  0 <= size < 2 ^ 63 → 0 <= offset < 2 ^ 63 →
  0 <= area_length (afu_global_mmio a) < 2 ^ 63 → 0 <= area_length (afu_per_pasid_mmio a) < 2 ^ 63 →
  (size = 0 → match type with
              | OCXL_GLOBAL_MMIO => offset <= area_length (afu_global_mmio a)
              | _ => offset <= area_length (afu_per_pasid_mmio a)
              end) →
  wp (ocxl_mmio_map_advanced p type size prot flags offset) (λ _ w', ∃ es,
    effects w' = effects w ++ es ∧ Forall (mmap_within a type prot offset) es) w.
Proof.
  intros Hi Hroom Hs Ho Hg Hp Hz. eapply wp_mono; [|by apply wp_mmio_map_advanced].
  intros res w' Hr%map_result_effects.
  destruct (map_request a type size flags offset) as [err|[fd n]] eqn:Erq.
  { exists []. by rewrite Hr, app_nil_r. }
  destruct Hr as (addr & es & He & Hes). exists (Ev (SMmap n prot fd offset) addr :: es).
  split; [done|]. constructor; [|by destruct Hes as [->|[rc ->]]; repeat constructor].
  split; [done|]. split; [done|]. unfold map_request in Erq. destruct type; [| |done]; cbv zeta in Erq.
  - destruct (map_exceeds _ _ _) eqn:E1; [done|]. destruct (_ =? 0); [done|].
    destruct (negb _); [done|]. injection Erq as <- <-. split; [done|]. by apply map_size_bound.
  - destruct (map_exceeds _ _ _) eqn:E1; [done|]. destruct (negb (flags =? 0)); [done|].
    destruct (_ || _) eqn:E2; [done|]. apply orb_false_iff in E2 as [_ E2%negb_false_iff].
    injection Erq as <- <-. split_and!; [done..|]. by apply map_size_bound.
Qed.

(** A request for the whole rest of the area (size 0) at an offset behind
    its end is passed to the kernel, with the length wrapped around: the check
    in [ocxl_mmio_map_advanced] does not catch it. *)
Theorem mmio_map_offset_behind_end w p a areas prot offset :
  mmio_inv w p a areas → (first_free areas = None → Z.of_nat (length areas) < 32768) →
  0 < area_length (afu_global_mmio a) < offset → offset < 2 ^ 63 →
  wp (ocxl_mmio_map_advanced p OCXL_GLOBAL_MMIO 0 prot 0 offset) (λ _ w', ∃ addr es,
    effects w' = effects w ++
      Ev (SMmap (2 ^ 64 + area_length (afu_global_mmio a) - offset) prot (afu_global_mmio_fd a) offset) addr :: es) w.
Proof.
  intros Hi Hroom Hl Ho. eapply wp_mono; [|by apply wp_mmio_map_advanced].
  intros res w' Hr%map_result_effects. revert Hr. unfold map_request, map_size. rewrite Z.eqb_refl.
  assert (u64 (area_length (afu_global_mmio a) - offset) = 2 ^ 64 + area_length (afu_global_mmio a) - offset)
    as E by solve_width.
  rewrite E. unfold map_exceeds.
  replace (u64 (offset + _)) with (area_length (afu_global_mmio a)) by solve_width.
  rewrite Z.ltb_irrefl, (proj2 (Z.eqb_neq (area_length _) 0)) by lia. simpl.
  intros (addr & es & Hr & _). by exists addr, es.
Qed.

(** C27: The bounds check of an access is exact.  For a handle of an entry of
    the table, [mmio_check] answers OCXL_INVALID_ARGS when the entry has been
    unmapped, and otherwise OCXL_OK if and only if all [size] bytes at
    [offset] lie inside the area, OCXL_OUT_OF_BOUNDS if not; it changes
    nothing. *)
Theorem mmio_check_exact w p a areas i x offset size :
  mmio_inv w p a areas → areas !! i = Some x →
  0 <= area_length x < 2 ^ 63 → 0 <= offset < 2 ^ 63 → 1 <= size <= 8 →
  wp (mmio_check (handle_of a i) offset size)
     (λ rc w', quiet w w' ∧
        rc = if area_start x =? NULL then OCXL_INVALID_ARGS
             else if offset + size <=? area_length x then OCXL_OK else OCXL_OUT_OF_BOUNDS) w.
Proof.
  intros Hi Hx Hl Ho Hs. eapply wp_mmio_check; [done|done|]. intros w' Hq. split; [done|].
  unfold access_verdict. rewrite out_of_bounds_exact by lia.
  by destruct (area_start x =? NULL), (offset + size <=? area_length x).
Qed.

(** A negative offset passes the check of any mapped area that is long
    enough for the access, since the offset is compared with the end only; the
    access is then made before the start of the mapping. *)
Theorem mmio_check_negative_offset w p a areas i x offset endian v :
  mmio_inv w p a areas → areas !! i = Some x → area_start x ≠ NULL →
  8 <= area_length x < 2 ^ 63 → - 2 ^ 63 <= offset < 0 →
  wp (mmio_check (handle_of a i) offset 8) (λ rc _, rc = OCXL_OK) w ∧
  goes_wrong (ocxl_mmio_write64 (handle_of a i) offset endian v) w.
Proof.
  intros Hi Hx Hn Hl Ho.
  assert (access_verdict x offset 8 = OCXL_OK) as Hv.
  { unfold access_verdict. rewrite (proj2 (Z.eqb_neq _ _) Hn). unfold out_of_bounds, u64, s64.
    rewrite (uwrap_small 64 (8 - 1)), (uwrap_small 64), swrap_small by lia.
    destruct (Z.leb_spec (area_length x - (8 - 1)) offset); [lia|done]. }
  split; [eapply wp_mmio_check; [done|done|]; by intros w' _|].
  eapply mmio_write64_underrun; [done|done|]. split; [done|lia].
Qed.

(** C24: [ocxl_mmio_write32] and [ocxl_mmio_write64], on every branch: an
    unmapped or out of range access is refused with its error and no effect;
    otherwise the device sees exactly one store of 4 (8) bytes at the start
    of the area plus the offset, between two barriers, and the bytes are
    those of the value in the requested byte order, on a host of either byte
    order.  The one exception is a negative offset that the check lets through:
    the store is before the mapping, which is undefined behaviour. *)
Theorem mmio_write_spec w p a areas i x offset endian v :
  mmio_inv w p a areas → areas !! i = Some x →
  (¬ underruns x offset 4 →
   wp (ocxl_mmio_write32 (handle_of a i) offset endian v) (write_result 4 x offset endian v w) w) ∧
  (underruns x offset 4 → goes_wrong (ocxl_mmio_write32 (handle_of a i) offset endian v) w) ∧
  (¬ underruns x offset 8 →
   wp (ocxl_mmio_write64 (handle_of a i) offset endian v) (write_result 8 x offset endian v w) w) ∧
  (underruns x offset 8 → goes_wrong (ocxl_mmio_write64 (handle_of a i) offset endian v) w).
Proof.
  intros Hi Hx. split_and!; intros Hu.
  - by eapply wp_mmio_write32.
  - by eapply mmio_write32_underrun.
  - by eapply wp_mmio_write64.
  - by eapply mmio_write64_underrun.
Qed.

(** C25: [ocxl_mmio_read32] and [ocxl_mmio_read64], on every branch: as for
    writes, with one load, whose bytes are decoded in the requested order; a
    negative offset that the check lets through is undefined behaviour. *)
Theorem mmio_read_spec `{!ByteLoads K} w p a areas i x offset endian :
  mmio_inv w p a areas → areas !! i = Some x →
  (¬ underruns x offset 4 →
   wp (ocxl_mmio_read32 (handle_of a i) offset endian) (read_result 4 x offset endian w) w) ∧
  (underruns x offset 4 → goes_wrong (ocxl_mmio_read32 (handle_of a i) offset endian) w) ∧
  (¬ underruns x offset 8 →
   wp (ocxl_mmio_read64 (handle_of a i) offset endian) (read_result 8 x offset endian w) w) ∧
  (underruns x offset 8 → goes_wrong (ocxl_mmio_read64 (handle_of a i) offset endian) w).
Proof.
  intros Hi Hx. split_and!; intros Hu.
  - by eapply wp_mmio_read32.
  - by eapply mmio_read32_underrun.
  - by eapply wp_mmio_read64.
  - by eapply mmio_read64_underrun.
Qed.

(** C29: Unmapping: the mapping of a live entry is released, with its own
    address and length, exactly once; afterwards the entry is free, reads
    and writes through the handle are refused as OCXL_INVALID_ARGS without
    touching the device, and unmapping it again does nothing. *)
Theorem mmio_unmap_once `{!ByteLoads K} w p a areas i x :
  mmio_inv w p a areas → areas !! i = Some x → area_start x ≠ NULL →
  wp (ocxl_mmio_unmap (handle_of a i)) (λ _ w',
    (∃ rc, effects w' = effects w ++ [Ev (SMunmap (area_start x) (area_length x)) rc]) ∧
    mmio_inv w' p a (unmapped areas i x) ∧
    (∀ offset endian, wp (ocxl_mmio_read64 (handle_of a i) offset endian)
       (λ r w'', r = (OCXL_INVALID_ARGS, None) ∧ quiet w' w'') w') ∧
    (∀ offset endian v, wp (ocxl_mmio_write64 (handle_of a i) offset endian v)
       (λ r w'', r = OCXL_INVALID_ARGS ∧ quiet w' w'') w') ∧
    wp (ocxl_mmio_unmap (handle_of a i)) (λ _ w'', w'' = w') w') w.
Proof.
  intros Hi Hx Hn. eapply wp_mmio_unmap; [done|done|]. intros w' Hr. unfold unmap_result in Hr.
  rewrite (proj2 (Z.eqb_neq _ _) Hn) in Hr. destruct Hr as (rc & w1 & Hd & Hi' & Hf).
  assert (unmapped areas i x !! i = Some (x <| area_start := NULL |>)) as Hx'.
  { apply list_lookup_insert_eq. by eapply lookup_lt_Some. }
  split_and!; [exists rc; by rewrite (mf_effects _ _ _ _ _ Hf), (did_effects _ _ _ _ Hd)|done|..].
  - intros offset endian. eapply wp_mono; [|eapply wp_mmio_read64; [exact Hi'|exact Hx'|by apply unmapped_not_underruns]]. by intros r w'' Hr.
  - intros offset endian v. eapply wp_mono; [|eapply wp_mmio_write64; [exact Hi'|exact Hx'|by apply unmapped_not_underruns]]. by intros r w'' Hr.
  - eapply wp_mmio_unmap; [exact Hi'|exact Hx'|]. by intros w'' Hr.
Qed.

(** C37: The handles of an AFU dangle once its array has been moved: when a
    mapping needed a larger array, a read through any handle obtained before
    is an access to freed memory. *)
Theorem mmio_handles_dangle w p a areas type res w' j offset endian :
  mmio_inv w p a areas → Z.of_nat (length areas) < 32768 → table_full a areas = true →
  afu_mmios a ≠ NULL →
  ocxl_mmio_map p type w = Ret (OCXL_OK, res) w' →
  goes_wrong (ocxl_mmio_read64 (handle_of a j) offset endian) w'.
Proof.
  intros Hi Hroom Hfull Hn Hrun.
  pose proof (wp_mmio_map_advanced w p a areas type 0 (Z.lor PROT_READ PROT_WRITE) 0 0 Hi (λ _, Hroom)) as Hwp.
  pose proof (run_wp _ _ _ _ _ Hwp Hrun) as Hr. unfold map_result in Hr.
  destruct (map_request a type 0 0 0) as [err|[fd n]] eqn:Erq.
  { destruct Hr as [[= <- ->] _]. by apply map_request_err in Erq. }
  inversion Hr as [| |a' addr i areas' w1 w2 Hne Hd Hpl Hi' Hf Hm]; subst.
  assert (w_heap w' !! afu_mmios a = None) as Hgone.
  { destruct (mf_old _ _ _ _ _ Hf) as [E|E]; [|done]. rewrite Hfull in Hm.
    destruct Hi as [Hw _ _ [[rest [Hb _]] _ _ _]]. destruct Hb as [[? _]|[_ Hb]]; [done|].
    rewrite <-E, Hm in Hb. by rewrite (heap_wf_fresh _ Hw) in Hb. }
  unfold goes_wrong, ocxl_mmio_read64, mmio_read64_native, mbind, M_bind.
  by rewrite stale_mmio_check.
Qed.

Context `{!RegisterMemory K}.

(** A write that is let through, as an access to the registers. *)
Lemma write_registers n x offset endian v w r w' :
  access_verdict x offset (Z.of_nat n) = OCXL_OK → 0 <= area_start x + offset < 2 ^ 64 →
  write_result n x offset endian v w r w' →
  accessed (SStore (area_start x + offset) (encode endian n v)) tt w w'.
Proof.
  intros Hv Ha. unfold write_result. rewrite Hv. intros [Hacc _].
  unfold u64 in Hacc. by rewrite uwrap_small in Hacc by lia.
Qed.

Lemma read_registers n x offset endian w r w' :
  access_verdict x offset (Z.of_nat n) = OCXL_OK → 0 <= area_start x + offset < 2 ^ 64 →
  read_result n x offset endian w r w' →
  r = (OCXL_OK, Some (decode endian (reg_bytes w (area_start x + offset) n))).
Proof.
  intros Hv Ha. unfold read_result. rewrite Hv. intros (bs & Hacc & ->).
  unfold u64 in Hacc. rewrite uwrap_small in Hacc by lia. by destruct (reg_load_access _ _ _ _ _ Hacc) as [-> _].
Qed.

(** C26: What is written is read back: on a device whose registers behave
    like memory, reading a register that was written in the same byte order
    and width returns the value, truncated to the width. *)
Theorem mmio_write_read w p a areas i x offset endian v :
  mmio_inv w p a areas → areas !! i = Some x →
  access_verdict x offset 4 = OCXL_OK → access_verdict x offset 8 = OCXL_OK →
  0 <= offset → 0 <= area_start x + offset < 2 ^ 64 →
  wp (ocxl_mmio_write32 (handle_of a i) offset endian v ;;
      ocxl_mmio_read32 (handle_of a i) offset endian) (λ r _, r = (OCXL_OK, Some (u32 v))) w ∧
  wp (ocxl_mmio_write64 (handle_of a i) offset endian v ;;
      ocxl_mmio_read64 (handle_of a i) offset endian) (λ r _, r = (OCXL_OK, Some (u64 v))) w.
Proof.
  intros Hi Hx H4 H8 Ho Ha. pose proof (λ n, not_underruns x offset n Ho) as Hu. split; apply wp_bind.
  - eapply wp_mono; [|by eapply wp_mmio_write32]. intros rc w1 Hw.
    apply (write_registers 4) in Hw; [|done|done].
    eapply wp_mono; [|eapply wp_mmio_read32; [|exact Hx|done]].
    2:{ eapply mmio_inv_same_mem; [by eapply accessed_mem|done]. }
    intros r w2 Hr. rewrite (read_registers 4 _ _ _ _ _ _ H4 Ha Hr).
    rewrite <-(length_encode endian 4 v) at 1.
    rewrite (reg_bytes_stored _ _ _ _ Hw) by apply encode_are_bytes. by rewrite decode_encode.
  - eapply wp_mono; [|by eapply wp_mmio_write64]. intros rc w1 Hw.
    apply (write_registers 8) in Hw; [|done|done].
    eapply wp_mono; [|eapply wp_mmio_read64; [|exact Hx|done]].
    2:{ eapply mmio_inv_same_mem; [by eapply accessed_mem|done]. }
    intros r w2 Hr. rewrite (read_registers 8 _ _ _ _ _ _ H8 Ha Hr).
    rewrite <-(length_encode endian 8 v) at 1.
    rewrite (reg_bytes_stored _ _ _ _ Hw) by apply encode_are_bytes. by rewrite decode_encode.
Qed.

(** A write does not disturb its neighbours: on such a device, a 64-bit
    read at an offset that does not overlap the register written returns the
    same before and after the write. *)
Theorem mmio_write_elsewhere w p a areas i x offset offset' endian endian' v :
  mmio_inv w p a areas → areas !! i = Some x →
  access_verdict x offset 8 = OCXL_OK → access_verdict x offset' 8 = OCXL_OK →
  0 <= offset → 0 <= offset' → 0 <= area_start x + offset < 2 ^ 64 → 0 <= area_start x + offset' < 2 ^ 64 →
  offset' + 8 <= offset ∨ offset + 8 <= offset' →
  wp (before ← ocxl_mmio_read64 (handle_of a i) offset' endian';
      ocxl_mmio_write64 (handle_of a i) offset endian v ;;
      later ← ocxl_mmio_read64 (handle_of a i) offset' endian';
      mret (before, later)) (λ r _, r.1 = r.2 ∧ is_ok r.1.1 = true) w.
Proof.
  intros Hi Hx H8 H8' Ho Ho' Ha Ha' Hd. pose proof (not_underruns x offset 8 Ho) as Hu.
  pose proof (not_underruns x offset' 8 Ho') as Hu'. apply wp_bind.
  eapply wp_mono; [|by eapply wp_mmio_read64]. intros r1 w1 Hr1.
  assert (same_mem w w1 ∧ ∀ q, reg_byte (w_os w1) q = reg_byte (w_os w) q) as [Hm1 Hs1].
  { unfold read_result in Hr1. change (Z.of_nat 8) with 8 in Hr1. rewrite H8' in Hr1. destruct Hr1 as (bs & Hacc & _).
    split; [by eapply accessed_mem|]. by destruct (reg_load_access _ _ _ _ _ Hacc). }
  rewrite (read_registers 8 _ _ _ _ _ _ H8' Ha' Hr1).
  assert (mmio_inv w1 p a areas) as Hi1 by (by eapply mmio_inv_same_mem).
  apply wp_bind. eapply wp_mono; [|by eapply wp_mmio_write64]. intros rc w2 Hw.
  apply (write_registers 8) in Hw; [|done|done].
  assert (mmio_inv w2 p a areas) as Hi2.
  { eapply mmio_inv_same_mem; [by eapply accessed_mem|done]. }
  apply wp_bind. eapply wp_mono; [|by eapply wp_mmio_read64]. intros r3 w3 Hr3. apply wp_ret.
  rewrite (read_registers 8 _ _ _ _ _ _ H8' Ha' Hr3). simpl. split; [|done].
  rewrite (reg_bytes_elsewhere _ _ _ _ _ _ Hw (encode_are_bytes _ _ _)) by (rewrite length_encode; lia).
  assert (reg_bytes w1 (area_start x + offset') 8 = reg_bytes w (area_start x + offset') 8) as ->; [|done].
  apply list_fmap_ext. intros k y _. by rewrite Hs1.
Qed.

End spec.

(** ** Instances on the virtual device *)

Lemma mmio_map_advanced_spec_witness :
  wp (ocxl_mmio_map_advanced demo_afu OCXL_PER_PASID_MMIO 0 3 0 0)
     (map_result world_open demo_afu afu_opened [] OCXL_PER_PASID_MMIO 0 3 0 0) world_open.
Proof. apply mmio_map_advanced_spec; [apply afu_inv_open|intros _; vm_compute; reflexivity]. Defined.

Lemma mmio_map_keeps_handles_witness :
  wp (get_area (handle_of afu_mapped 0)) (λ y _, y = area_mapped)
     (after (ocxl_mmio_map demo_afu OCXL_GLOBAL_MMIO) world_mapped).
Proof.
  eapply (mmio_map_keeps_handles world_mapped demo_afu afu_mapped [area_mapped] OCXL_GLOBAL_MMIO
    (Some (mk_mmio_h 4 1)) _ 0 area_mapped);
    [apply afu_inv_mapped|intros _; vm_compute; reflexivity|vm_compute; reflexivity
    |vm_compute; reflexivity|reflexivity|vm_compute; discriminate].
Defined.

Lemma mmio_map_in_bounds_witness :
  wp (ocxl_mmio_map_advanced demo_afu OCXL_PER_PASID_MMIO 100 3 0 4096) (λ _ w', ∃ es,
    effects w' = effects world_open ++ es ∧ Forall (mmap_within afu_opened OCXL_PER_PASID_MMIO 3 4096) es)
    world_open.
Proof.
  apply (mmio_map_in_bounds world_open demo_afu afu_opened []);
    [apply afu_inv_open|intros _; vm_compute; reflexivity|lia|lia
    |vm_compute; split; [discriminate|reflexivity]|vm_compute; split; [discriminate|reflexivity]|discriminate].
Defined.

Lemma mmio_map_offset_behind_end_witness :
  wp (ocxl_mmio_map_advanced demo_afu OCXL_GLOBAL_MMIO 0 3 0 8192) (λ _ w', ∃ addr es,
    effects w' = effects world_open ++
      Ev (SMmap (2 ^ 64 + area_length (afu_global_mmio afu_opened) - 8192) 3
            (afu_global_mmio_fd afu_opened) 8192) addr :: es) world_open.
Proof.
  apply (mmio_map_offset_behind_end world_open demo_afu afu_opened []);
    [apply afu_inv_open|intros _; vm_compute; reflexivity|vm_compute; split; reflexivity|lia].
Defined.

Lemma mmio_check_exact_witness :
  wp (mmio_check (handle_of afu_mapped 0) 16380 8)
     (λ rc w', quiet world_mapped w' ∧ rc = OCXL_OUT_OF_BOUNDS) world_mapped.
Proof.
  exact (mmio_check_exact world_mapped demo_afu afu_mapped [area_mapped] 0 area_mapped 16380 8
    (ai_mmio _ _ _ _ _ afu_inv_mapped) eq_refl
    ltac:(simpl; lia) ltac:(lia) ltac:(lia)).
Defined.

Lemma mmio_check_negative_offset_witness :
  goes_wrong (ocxl_mmio_write64 (handle_of afu_mapped 0) (-16) OCXL_MMIO_HOST_ENDIAN 1) world_mapped.
Proof.
  eapply (mmio_check_negative_offset world_mapped demo_afu afu_mapped [area_mapped] 0 area_mapped);
    [apply afu_inv_mapped|reflexivity|vm_compute; discriminate|simpl; lia|lia].
Defined.

Lemma mmio_write_spec_witness :
  wp (ocxl_mmio_write64 (handle_of afu_mapped 0) 8 OCXL_MMIO_BIG_ENDIAN 1)
     (write_result 8 area_mapped 8 OCXL_MMIO_BIG_ENDIAN 1 world_mapped) world_mapped ∧
  goes_wrong (ocxl_mmio_write32 (handle_of afu_mapped 0) (-4) OCXL_MMIO_BIG_ENDIAN 1) world_mapped.
Proof.
  split.
  - destruct (mmio_write_spec world_mapped demo_afu afu_mapped [area_mapped] 0 area_mapped 8
      OCXL_MMIO_BIG_ENDIAN 1 (ai_mmio _ _ _ _ _ afu_inv_mapped) eq_refl) as (_ & _ & Hw & _). apply Hw, not_underruns. lia.
  - destruct (mmio_write_spec world_mapped demo_afu afu_mapped [area_mapped] 0 area_mapped (-4)
      OCXL_MMIO_BIG_ENDIAN 1 (ai_mmio _ _ _ _ _ afu_inv_mapped) eq_refl) as (_ & Hw & _). apply Hw. split; [vm_compute; reflexivity|lia].
Defined.

Lemma mmio_read_spec_witness :
  wp (ocxl_mmio_read32 (handle_of afu_mapped 0) 8 OCXL_MMIO_LITTLE_ENDIAN)
     (read_result 4 area_mapped 8 OCXL_MMIO_LITTLE_ENDIAN world_mapped) world_mapped ∧
  goes_wrong (ocxl_mmio_read64 (handle_of afu_mapped 0) (-8) OCXL_MMIO_BIG_ENDIAN) world_mapped.
Proof.
  split.
  - destruct (mmio_read_spec world_mapped demo_afu afu_mapped [area_mapped] 0 area_mapped 8
      OCXL_MMIO_LITTLE_ENDIAN (ai_mmio _ _ _ _ _ afu_inv_mapped) eq_refl) as [Hr _]. apply Hr, not_underruns. lia.
  - destruct (mmio_read_spec world_mapped demo_afu afu_mapped [area_mapped] 0 area_mapped (-8)
      OCXL_MMIO_BIG_ENDIAN (ai_mmio _ _ _ _ _ afu_inv_mapped) eq_refl) as (_ & _ & _ & Hr). apply Hr. split; [vm_compute; reflexivity|lia].
Defined.

Lemma mmio_unmap_once_witness :
  wp (ocxl_mmio_unmap (handle_of afu_mapped 0)) (λ _ w', ∃ rc,
    effects w' = effects world_mapped ++ [Ev (SMunmap 65536 16384) rc]) world_mapped.
Proof.
  eapply wp_mono; [|apply (mmio_unmap_once world_mapped demo_afu afu_mapped [area_mapped] 0 area_mapped);
    [apply afu_inv_mapped|reflexivity|vm_compute; discriminate]].
  intros [] w' [Hrc _]. exact Hrc.
Defined.

Lemma mmio_handles_dangle_witness :
  goes_wrong (ocxl_mmio_read64 (handle_of afu_full 0) 0 OCXL_MMIO_HOST_ENDIAN)
    (after (ocxl_mmio_map demo_afu OCXL_GLOBAL_MMIO) world_full).
Proof.
  eapply (mmio_handles_dangle world_full demo_afu afu_full areas_full OCXL_GLOBAL_MMIO
    (Some (mk_mmio_h 5 4)));
    [apply afu_inv_full|vm_compute; reflexivity|vm_compute; reflexivity|vm_compute; discriminate
    |vm_compute; reflexivity].
Defined.

Lemma mmio_write_read_witness :
  wp (ocxl_mmio_write64 (handle_of afu_mapped 0) 16 OCXL_MMIO_BIG_ENDIAN 0x1122334455667788 ;;
      ocxl_mmio_read64 (handle_of afu_mapped 0) 16 OCXL_MMIO_BIG_ENDIAN)
     (λ r _, r = (OCXL_OK, Some (u64 0x1122334455667788))) world_mapped.
Proof.
  refine (proj2 (mmio_write_read world_mapped demo_afu afu_mapped [area_mapped] 0 area_mapped 16
    OCXL_MMIO_BIG_ENDIAN 0x1122334455667788 (ai_mmio _ _ _ _ _ afu_inv_mapped) eq_refl _ _ _ _));
    [vm_compute; reflexivity|vm_compute; reflexivity|lia|simpl; lia].
Defined.

Lemma mmio_write_elsewhere_witness :
  wp (before ← ocxl_mmio_read64 (handle_of afu_mapped 0) 24 OCXL_MMIO_LITTLE_ENDIAN;
      ocxl_mmio_write64 (handle_of afu_mapped 0) 16 OCXL_MMIO_BIG_ENDIAN (-1) ;;
      later ← ocxl_mmio_read64 (handle_of afu_mapped 0) 24 OCXL_MMIO_LITTLE_ENDIAN;
      mret (before, later)) (λ r _, r.1 = r.2 ∧ is_ok r.1.1 = true) world_mapped.
Proof.
  apply (mmio_write_elsewhere world_mapped demo_afu afu_mapped [area_mapped] 0 area_mapped);
    [apply afu_inv_mapped|reflexivity|vm_compute; reflexivity|vm_compute; reflexivity
    |lia|lia|simpl; lia|simpl; lia|lia].
Defined.
