(* ===== verification/IrqSpec.v ===== *)
(** * IrqSpec: what the IRQ functions and the growable arrays promise

    The theorems about the allocation of IRQs in src/irq.c and about
    [grow_buffer] of src/internal.c, with instances on the virtual device. *)

From S2P Require Import Prelude Format Types World Logic Messages Buffer Ledger Mmio MmioFacts.
From S2P Require Import MmioAccess Irq IrqFacts IrqTable Event Names Afu AfuInv AfuClose.
From S2P Require Import AfuOpen Api VirtAfu VirtOcxl Demo.
Open Scope Z_scope.

(** A mapping that failed, and an attempt to unmap the failure value. *)
Definition mmap_failed (e : event) : bool :=
  let 'Ev c r := e in
  match c in sys R return R → bool with
  | SMmap _ _ _ _ => λ addr, addr =? MAP_FAILED
  | _ => λ _, false
  end r.

Definition unmaps_failure (e : event) : bool :=
  let 'Ev c _ := e in match c with SMunmap addr _ => addr =? MAP_FAILED | _ => false end.

Section spec.
Context {K : Type} `{Platform K} `{Abi}.
Implicit Types (w : world K).

Section alloc.
Context `{!NonZeroHandles K}.

(** C30: [ocxl_irq_alloc] on every branch: with no memory for a larger array
    nothing changes; when a step of the allocation fails, the steps done so
    far are undone in the kernel and the IRQs of the AFU are what they were;
    otherwise the number returned is the number of IRQs so far, and the new
    IRQ, live and with the caller's [info], stands behind the others. *)
Theorem irq_alloc_spec w p a irqs info :
  irq_inv w p a irqs →
  (afu_irq_count a = afu_irq_max_count a → Z.of_nat (length irqs) < 32768) →
  wp (ocxl_irq_alloc p info) (irq_alloc_outcome w p a irqs info) w.
Proof. apply wp_irq_alloc. Qed.

(** C31: No kernel object leaks from [ocxl_irq_alloc]: if it fails, every
    eventfd, interrupt and mapping it acquired has been released again; if it
    succeeds, it holds exactly one of each, those of the new IRQ. *)
Theorem irq_alloc_no_leak w p a irqs info :
  irq_inv w p a irqs →
  (afu_irq_count a = afu_irq_max_count a → Z.of_nat (length irqs) < 32768) →
  wp (ocxl_irq_alloc p info) (λ res w',
    if is_ok res.1
    then ∃ i, irq_live (length irqs) i ∧ irq_info i = info ∧ ∀ r,
         balance (effects w') r =
         balance (effects w) r + held (irq_resources (afu_page_size a) (afu_fd a) i) r
    else ∀ r, balance (effects w') r = balance (effects w) r) w.
Proof.
  intros Hi Hroom. eapply wp_mono; [|by apply wp_irq_alloc].
  intros res w' [w'' _ Hq|a' es rc i w'' Hat Hrc _ _ He|a' es i w'' Hat _ _ _ He]; cbn [fst is_ok].
  - intros r. by apply balance_quiet.
  - rewrite Hrc. intros r. rewrite He, balance_app, (irq_attempt_balance _ _ _ _ _ _ _ _ r Hat), Hrc. lia.
  - exists (i <| irq_number := Z.of_nat (length irqs) |>). split_and!.
    + by eapply irq_attempt_live.
    + inversion Hat; subst. done.
    + intros r. rewrite He, balance_app, (irq_attempt_balance _ _ _ _ _ _ _ _ r Hat). done.
Qed.

(** When the trigger page of an IRQ cannot be mapped, the cleanup unmaps
    the value [MAP_FAILED]: [irq_allocate] stores the result of [mmap] before
    it checks it, and [irq_dealloc] only tests it against [NULL]. *)
Theorem irq_alloc_unmaps_failure w p a irq info l :
  w_heap w !! irq_blk irq = Some (HIrqs l) → 0 <= irq_idx irq < Z.of_nat (length l) → afu_at w p a →
  wp (irq_allocate p irq info) (λ _ w', ∃ es, effects w' = effects w ++ es ∧
    (existsb mmap_failed es = true → existsb unmaps_failure es = true)) w.
Proof.
  intros Hl Hr Ha. eapply wp_irq_allocate; [done|done|done|]. intros es rc i w' Hat Hw.
  exists es. split; [apply Hw|].
  assert (∀ page fd j r1 r2 r3, existsb mmap_failed (dealloc_effects page fd j r1 r2 r3) = false) as Hd.
  { intros page fd j r1 r2 r3. unfold dealloc_effects. rewrite !existsb_app.
    by destruct (_ =? NULL), (_ =? 0), (0 <=? _). }
  destruct Hat; rewrite ?existsb_app; simpl; rewrite ?Hd; try done.
  - intros E. apply orb_true_iff in E as [E|E]; [|done]. apply orb_true_iff in E as [E|E]; [|done].
    by apply Z.eqb_eq in E.
  - intros E. apply orb_true_iff in E as [E|E]; [|done]. by apply Z.eqb_eq in E.
Qed.
End alloc.

(** [ocxl_irq_get_handle] and [ocxl_irq_get_fd] of an allocated IRQ give
    its trigger page and its eventfd; for a number greater than the number of
    IRQs they answer 0 and -1.  Nothing changes. *)
Theorem irq_lookup w p a irqs n i m :
  irq_inv w p a irqs → irqs !! n = Some i → afu_irq_count a < m →
  wp (ocxl_irq_get_handle p (Z.of_nat n)) (λ r w', r = irq_addr i ∧ w' = w) w ∧
  wp (ocxl_irq_get_fd p (Z.of_nat n)) (λ r w', r = irq_eventfd i ∧ w' = w) w ∧
  wp (ocxl_irq_get_handle p m) (λ r w', r = 0 ∧ w' = w) w ∧
  wp (ocxl_irq_get_fd p m) (λ r w', r = -1 ∧ w' = w) w.
Proof.
  intros Hi Hn Hm. pose proof (irq_inv_lookup _ _ _ _ Hi) as Hp.
  pose proof (lookup_lt_Some _ _ _ Hn) as Hlt. pose proof (it_count _ _ _ (ii_table _ _ _ _ Hi)) as Hc.
  split_and!; (apply wp_bind; eapply wp_get_afu; [done|]).
  - destruct (Z.ltb_spec (afu_irq_count a) (Z.of_nat n)); [lia|]. apply wp_bind. by eapply wp_irq_get.
  - destruct (Z.ltb_spec (afu_irq_count a) (Z.of_nat n)); [lia|]. apply wp_bind. by eapply wp_irq_get.
  - by rewrite (proj2 (Z.ltb_lt _ _) Hm).
  - by rewrite (proj2 (Z.ltb_lt _ _) Hm).
Qed.

(** The bound of [ocxl_irq_get_handle] and [ocxl_irq_get_fd] is off by
    one: the number of IRQs itself is let through, and reading that element
    is undefined when the array is full (or does not exist). *)
Theorem irq_lookup_off_by_one w p a irqs :
  irq_inv w p a irqs → afu_irq_count a = afu_irq_max_count a →
  goes_wrong (ocxl_irq_get_handle p (afu_irq_count a)) w ∧
  goes_wrong (ocxl_irq_get_fd p (afu_irq_count a)) w.
Proof.
  intros Hi Hfull. pose proof (irq_inv_lookup _ _ _ _ Hi) as Hp.
  pose proof Hi as [Hw _ _ [[rest [Hb Hmax]] Hc _ _]].
  assert (rest = []) as -> by (apply length_zero_iff_nil; lia).
  assert (get_irq (mk_irq_ptr (afu_irqs a) (afu_irq_count a)) w = UB) as Hub.
  { unfold get_irq, read_elt, get_buf, load_obj, mbind, M_bind. simpl.
    destruct Hb as [[-> _]|[_ ->]]; [by rewrite (heap_wf_null _ Hw)|].
    simpl. unfold mret, M_ret. destruct (Z.ltb_spec (afu_irq_count a) 0); [done|].
    rewrite lookup_ge_None_2; [done|]. rewrite app_nil_r, length_fmap. lia. }
  unfold goes_wrong, ocxl_irq_get_handle, ocxl_irq_get_fd, get_afu, load_obj, mbind, M_bind.
  rewrite Hp. unfold mret, M_ret. rewrite Z.ltb_irrefl. by rewrite Hub.
Qed.

(** [irq_dealloc] releases exactly what an IRQ holds, once: the balance
    goes down by its mapping, its interrupt and its eventfd, and a second
    deallocation asks nothing of the kernel. *)
Theorem irq_dealloc_once w p a irqs n i :
  irq_inv w p a irqs → irqs !! n = Some i →
  let irq := mk_irq_ptr (afu_irqs a) (Z.of_nat n) in
  wp (irq_dealloc p irq) (λ _ w',
    gave_back (irq_resources (afu_page_size a) (afu_fd a) i) w w' ∧
    wp (irq_dealloc p irq) (λ _ w'', effects w'' = effects w') w') w.
Proof.
  intros Hi Hn irq. pose proof Hi as [Hw _ Ha [[rest [Hb _]] _ _ _]].
  assert (((Some <$> irqs) ++ rest) !! n = Some (Some i)) as Hl.
  { apply lookup_app_l_Some. by rewrite list_lookup_fmap, Hn. }
  destruct Hb as [[_ Hnil]|[_ Hb]]; [by rewrite Hnil in Hl|].
  assert (irq_wrote irq i [] w w) as Hw0.
  { eapply irq_wrote_refl; [exact Hb|simpl; lia|]. simpl. by rewrite Nat2Z.id. }
  eapply wp_irq_dealloc; [exact Hw0|exact Ha|]. intros r1 r2 r3 w' Hw'. split.
  - intros r. rewrite (iw_effects _ _ _ _ _ Hw'). simpl app. rewrite balance_app, dealloc_balance. lia.
  - eapply wp_irq_dealloc; [exact Hw'|exact Ha|]. intros r1' r2' r3' w'' Hw''.
    rewrite (iw_effects _ _ _ _ _ Hw''), (iw_effects _ _ _ _ _ Hw').
    unfold dealloc_effects at 2. simpl. destruct (0 <=? irq_eventfd i) eqn:E; simpl;
      rewrite ?E; simpl; by rewrite app_nil_r.
Qed.

(** ** The growable arrays *)

Section buffer.
Context {A : Set} `{BufElt A}.

(** [grow_buffer] either fails with OCXL_NO_MEM and leaves buffer, count
    and memory as they were, or moves the elements, all of them with their
    contents, to a new block of twice the size (the initial size for an empty
    buffer), frees the old block, and touches nothing else; up to 32767
    elements the count it returns is the number of elements of the block. *)
Theorem grow_buffer_spec w afu buffer size initial (xs : list A) :
  let count := Z.of_nat (length xs) in
  heap_wf w → can_report w afu → buf_at w buffer (Some <$> xs) → 0 < initial <= UINT16_MAX →
  count < 32768 →
  wp (grow_buffer (A := A) afu buffer count size initial) (λ '(rc, buffer', count') w',
    (rc = OCXL_NO_MEM ∧ buffer' = buffer ∧ count' = count ∧ quiet w w') ∨
    (rc = OCXL_OK ∧ effects w' = effects w ∧ w_heap w !! buffer' = None ∧
     (buffer ≠ NULL → w_heap w' !! buffer = None) ∧
     (∀ q, q ≠ buffer → q ≠ buffer' → w_heap w' !! q = w_heap w !! q) ∧
     count' = (if 0 <? count then 2 * count else initial) ∧
     ∃ rest, w_heap w' !! buffer' = Some (buf_obj ((Some <$> xs) ++ rest)) ∧
             count' = Z.of_nat (length xs + length rest))) w.
Proof.
  intros count Hw Hr Hb Hinit Hc. apply wp_grow_full; [done|done|exact Hb|exact Hc|exact Hinit|by left|].
  intros w' buffer' n rest Hg Hl Hn _. right.
  split_and!; [done|apply Hg|apply Hg|intros _; apply Hg|apply Hg|exact Hn|].
  exists rest. split; [apply Hg|exact Hl].
Qed.

(** The 16-bit count wraps around: a buffer of 32768 elements that is
    grown successfully is recorded as having none. *)
Theorem grow_buffer_count_wraps w afu buffer size initial (l : list (option A)) :
  heap_wf w → can_report w afu → buf_at w buffer l →
  wp (grow_buffer (A := A) afu buffer 32768 size initial)
     (λ '(rc, _, count'), λ _, rc = OCXL_OK → count' = 0) w.
Proof. intros Hw Hr Hb. eapply wp_grow_buffer; [done|done|exact Hb|done|done|done]. Qed.

(** [memset] in [grow_buffer] is given a number of elements where it
    needs a number of bytes: with elements larger than the number of elements
    added, no element that is added is cleared. *)
Theorem grow_buffer_not_cleared count size initial (l : list (option A)) i :
  0 <= count → Z.of_nat (length l) = count → 0 < new_count count initial - count < size →
  size < 2 ^ 63 → count <= Z.of_nat i < new_count count initial →
  grown count size initial l !! i = Some None.
Proof.
  intros Hc Hl Hn Hs Hi. unfold grown, memset_elts. rewrite list_lookup_imap.
  assert (u64 (new_count count initial - count) = new_count count initial - count) as ->
    by (apply uwrap_small; lia).
  rewrite resize_elts_new by lia. simpl.
  destruct (Z.leb_spec count (Z.of_nat i)); [|lia].
  destruct (Z.leb_spec ((Z.of_nat i - count + 1) * size) (new_count count initial - count)); [nia|].
  simpl. by destruct (_ <? _).
Qed.
End buffer.

End spec.

(** ** Instances on the virtual device *)

Lemma irq_alloc_spec_witness :
  wp (ocxl_irq_alloc demo_afu 5) (irq_alloc_outcome world_mapped demo_afu afu_mapped [] 5) world_mapped.
Proof.
  apply irq_alloc_spec; [exact (afu_inv_irq _ _ _ _ _ afu_inv_mapped)|intros _; vm_compute; reflexivity].
Defined.

Lemma irq_alloc_no_leak_witness :
  wp (ocxl_irq_alloc demo_afu 5) (λ res w',
    if is_ok res.1
    then ∃ i, irq_live 0 i ∧ irq_info i = 5 ∧ ∀ r,
         balance (effects w') r = balance (effects world_mapped) r + held (irq_resources 4096 3 i) r
    else ∀ r, balance (effects w') r = balance (effects world_mapped) r) world_mapped.
Proof.
  exact (irq_alloc_no_leak world_mapped demo_afu afu_mapped [] 5
    (afu_inv_irq _ _ _ _ _ afu_inv_mapped) (λ _, eq_refl)).
Defined.

Lemma irq_alloc_unmaps_failure_witness :
  wp (irq_allocate demo_afu (mk_irq_ptr (afu_irqs afu_irq) 1) 5) (λ _ w', ∃ es,
    effects w' = effects world_irq ++ es ∧
    (existsb mmap_failed es = true → existsb unmaps_failure es = true)) world_irq.
Proof.
  eapply irq_alloc_unmaps_failure;
    [vm_compute; reflexivity|simpl; lia|exact (mi_afu _ _ _ _ (ai_mmio _ _ _ _ _ afu_inv_with_irq))].
Defined.

Lemma irq_lookup_witness :
  wp (ocxl_irq_get_handle demo_afu 0) (λ r w', r = 131072 ∧ w' = world_irq) world_irq.
Proof.
  exact (proj1 (irq_lookup world_irq demo_afu afu_irq irqs_irq 0 _ 2
    (afu_inv_irq _ _ _ _ _ afu_inv_with_irq) eq_refl eq_refl)).
Defined.

Lemma irq_lookup_off_by_one_witness : goes_wrong (ocxl_irq_get_handle demo_afu 0) world_open.
Proof.
  exact (proj1 (irq_lookup_off_by_one world_open demo_afu afu_opened []
    (afu_inv_irq _ _ _ _ _ afu_inv_open) eq_refl)).
Defined.

Lemma irq_dealloc_once_witness :
  let irq := mk_irq_ptr (afu_irqs afu_irq) 0 in
  wp (irq_dealloc demo_afu irq) (λ _ w',
    gave_back [RMap 131072 4096; RIrq 3 4096; RFd 6] world_irq w' ∧
    wp (irq_dealloc demo_afu irq) (λ _ w'', effects w'' = effects w') w') world_irq.
Proof.
  exact (irq_dealloc_once world_irq demo_afu afu_irq irqs_irq 0 _
    (afu_inv_irq _ _ _ _ _ afu_inv_with_irq) eq_refl).
Defined.

Lemma grow_buffer_spec_witness :
  wp (grow_buffer (A := ocxl_mmio_area) demo_afu (afu_mmios afu_full) 4 32 4)
     (λ '(rc, _, count'), λ w', rc = OCXL_OK → count' = 8) world_full.
Proof.
  eapply wp_mono; [|eapply (grow_buffer_spec world_full demo_afu (afu_mmios afu_full) 32 4 areas_full);
    [exact (mi_heap _ _ _ _ (ai_mmio _ _ _ _ _ afu_inv_full))
    |exact (afu_inv_report _ _ _ _ _ afu_inv_full)
    |right; split; [vm_compute; discriminate|vm_compute; reflexivity]
    |unfold UINT16_MAX; lia|vm_compute; reflexivity]].
  intros [[rc b] c] w' [(-> & _)|(_ & _ & _ & _ & _ & -> & _)]; [discriminate|reflexivity].
Defined.

Lemma grow_buffer_count_wraps_witness :
  wp (grow_buffer (A := ocxl_mmio_area) demo_afu NULL 32768 32 4)
     (λ '(rc, _, count'), λ _, rc = OCXL_OK → count' = 0) world_open.
Proof.
  apply (grow_buffer_count_wraps world_open demo_afu NULL 32 4 []);
    [exact heap_wf_open|exact (afu_inv_report _ _ _ _ _ afu_inv_open)|by left].
Defined.

Lemma grow_buffer_not_cleared_witness :
  grown (A := ocxl_mmio_area) 4 sizeof_ocxl_mmio_area 4 (Some <$> areas_full) !! 5%nat = Some None.
Proof.
  apply grow_buffer_not_cleared; [lia|reflexivity|vm_compute; split; reflexivity|vm_compute; reflexivity
    |vm_compute; split; [discriminate|reflexivity]].
Defined.
