(* ===== verification/AfuSpec.v ===== *)
(** * AfuSpec: what opening, attaching and closing an AFU promise

    The theorems about src/afu.c, about messages (src/setup.c,
    src/internal.c) and about whole programs, with instances on the virtual
    device. *)

From S2P Require Import Prelude Format Types World Logic Messages Buffer Ledger Mmio MmioFacts.
From S2P Require Import MmioAccess Irq IrqFacts IrqTable Event Names Afu AfuInv AfuClose.
From S2P Require Import AfuOpen Api VirtAfu VirtOcxl Demo.
Open Scope Z_scope.

Section spec.
Context {K : Type} `{Platform K} `{Abi}.
Implicit Types (w : world K).

(** ** Opening *)

Section opening.
Context `{!ShortNames K}.

(** C21: [ocxl_afu_open_from_dev] either returns OCXL_OK and a new handle:
    a well-formed AFU, not attached, with no MMIO area and no IRQ, that holds
    exactly its three descriptors, has its device and sysfs paths, and
    records the version, the MMIO sizes and the PASID the kernel reported; or
    it returns an error (OCXL_NO_MEM, OCXL_NO_DEV, OCXL_NO_MORE_CONTEXTS), no
    handle, and holds nothing in the kernel.  Memory that was there is
    untouched in both cases. *)
Theorem afu_open_from_dev_spec w path :
  heap_wf w →
  wp (ocxl_afu_open_from_dev path) (λ res w',
    (∃ p a d_name, res = (OCXL_OK, p) ∧ open_handle w w' p a d_name) ∨
    (∃ rc, res = (rc, OCXL_INVALID_AFU) ∧
       (rc = OCXL_NO_MEM ∨ rc = OCXL_NO_DEV ∨ rc = OCXL_NO_MORE_CONTEXTS) ∧ kept w w')) w.
Proof.
  intros Hw. apply wp_open_from_dev; [done|..].
  - intros rc w' Hrc Hk. right. eauto.
  - intros p a d_name w' Ho. left. eauto 6.
Qed.

Lemma device_pattern_spelled dir name pf idx :
  device_pattern dir name pf idx =
  truncate 4096 (dir +:+ "/" +:+ name +:+ "." +:+ match pf with Some s => s | None => "*"%string end +:+
    "." +:+ (if idx =? -1 then "*"%string else print_int idx)).
Proof.
  unfold device_pattern. change (Z.to_nat PATH_MAX) with 4096%nat. f_equal.
  destruct (idx =? -1), pf; simpl default; by rewrite !str_app_assoc.
Qed.

(** C22: [ocxl_afu_open_specific] (and so [ocxl_afu_open]) asks [glob], once,
    for the names in the device directory that consist of the AFU name, the
    physical function (any when none is given) and the index (any when it is
    -1), cut to a buffer of 4096 bytes.  When [glob] answers with devices, they
    are opened in its order; one that has no context left
    (OCXL_NO_MORE_CONTEXTS) is passed over, and the first other outcome, a
    handle or an error, is the result; when all of them are out of contexts,
    that is the result, and OCXL_INTERNAL_ERROR for an empty list.  When
    [glob] fails the result is OCXL_NO_MEM, OCXL_NO_DEV (no match) or
    OCXL_INTERNAL_ERROR, and no device is touched.  A handle is a new
    well-formed AFU; with an error nothing is held in the kernel. *)
Theorem afu_open_specific_spec w name pf idx :
  heap_wf w →
  wp (ocxl_afu_open_specific name pf idx) (λ res w', open_result w res w' ∧
    ∃ w1 w2 rc paths, libocxl_init w = Ret tt w1 ∧
      did (SGlob (truncate 4096 (DEVICE_PATH (w_glob w1) +:+ "/" +:+ name +:+ "." +:+
             match pf with Some s => s | None => "*"%string end +:+ "." +:+
             (if idx =? -1 then "*"%string else print_int idx)))) (rc, paths) w1 w2 ∧
      if rc =? 0 then
        first_free_device paths w2 res w' ∨
        paths = [] ∧ w' = w2 ∧ res = (OCXL_INTERNAL_ERROR, OCXL_INVALID_AFU)
      else
        quiet w2 w' ∧
        res = (if rc =? GLOB_NOSPACE then OCXL_NO_MEM else if rc =? GLOB_NOMATCH then OCXL_NO_DEV
               else OCXL_INTERNAL_ERROR, OCXL_INVALID_AFU)) w.
Proof.
  intros Hw. apply wp_and; [by apply wp_open_specific|].
  apply wp_bind. eapply wp_mono; [|apply wp_run_eq, (wp_libocxl_init w (λ _, kept w)); [exact Hw|auto]].
  intros [] w1 [Ei Hk1]. apply wp_bind, wp_get_globals. cbv zeta.
  apply wp_bind, wp_call; [done|]. intros [rc paths] w2 Hd.
  assert (heap_wf w2) as Hw2.
  { eapply ext_wf, (ext_did _ _ NULL w1); [by eapply kept_wf|exact Hd|done|done]. }
  rewrite device_pattern_spelled in Hd.
  match goal with |- wp ?m _ _ => enough (wp m (λ res w',
    if rc =? 0 then first_free_device paths w2 res w' ∨
      paths = [] ∧ w' = w2 ∧ res = (OCXL_INTERNAL_ERROR, OCXL_INVALID_AFU)
    else quiet w2 w' ∧
      res = (if rc =? GLOB_NOSPACE then OCXL_NO_MEM else if rc =? GLOB_NOMATCH then OCXL_NO_DEV
             else OCXL_INTERNAL_ERROR, OCXL_INVALID_AFU)) w2) as Hm end.
  { eapply wp_mono; [|exact Hm]. intros res w' Hr. by exists w1, w2, rc, paths. }
  destruct (rc =? 0); [by apply wp_open_first_tried|].
  destruct (rc =? GLOB_NOSPACE); [|destruct (rc =? GLOB_NOMATCH)];
    (apply wp_bind, wp_errmsg; [by left|done|]; intros w3 Hq; by apply wp_ret).
Qed.

(** C40: A device that has no context left leaks an AFU: when
    [ocxl_afu_open_from_dev] fails with OCXL_NO_MORE_CONTEXTS, the record it
    allocated and the strings of its device and sysfs paths are still
    allocated, and no handle to them is returned, since [ocxl_afu_close]
    returns at once for an AFU with no descriptor. *)
Theorem afu_open_leaks_record w path h w' :
  heap_wf w → ocxl_afu_open_from_dev path w = Ret (OCXL_NO_MORE_CONTEXTS, h) w' →
  h = OCXL_INVALID_AFU ∧ left_behind w w'.
Proof.
  intros Hw Hrun.
  assert (wp (ocxl_afu_open_from_dev path) (λ res w', res.1 = OCXL_NO_MORE_CONTEXTS →
    res.2 = OCXL_INVALID_AFU ∧ left_behind w w') w) as Hm.
  { apply wp_open_from_dev_left; [done|auto|done]. }
  exact (run_wp _ _ _ _ _ Hm Hrun eq_refl).
Qed.

End opening.

(** The name of a device is taken apart as documented: for an AFU name
    without a dot and a physical function written in decimal digits (domain
    in hexadecimal), leading zeros included, the name is what stands before
    the first dot and the index is the last number, modulo 256; an index the
    kernel prints in decimal is read back. *)
Theorem device_name_parsed name domain bus device function idx :
  no_char "." name = true →
  numeral 16 domain → numeral 10 bus → numeral 10 device → numeral 10 function →
  digits_value 16 0 domain < 2 ^ 64 → digits_value 10 0 bus < 2 ^ 64 →
  digits_value 10 0 device < 2 ^ 64 → digits_value 10 0 function < 2 ^ 64 →
  0 <= idx < 256 →
  let pf := physical_function domain bus device function (print_nat 10 idx) in
  strchr "." (name +:+ "." +:+ pf) = Some (name, "." +:+ pf) ∧
  (sscanf physical_function_format pf).1 = 5 ∧
  (sscanf physical_function_format pf).2 !! 4%nat = Some idx.
Proof.
  intros Hn H1 H2 H3 H4 V1 V2 V3 V4 Hi pf. split; [by apply strchr_app|].
  destruct (print_nat_numeral 10 idx) as [Hp Hv]; [by left|lia|].
  unfold pf. rewrite scan_physical_function by (rewrite ?Hv; auto; lia). simpl. rewrite Hv.
  split; [done|]. f_equal. apply uwrap_small. lia.
Qed.

(** A bus number that is not written in decimal digits only (the kernel
    writes it in hexadecimal) is not parsed: the scan stops after two
    components, and [populate_metadata] rejects the device. *)
Theorem device_name_hex_bus domain d c rest :
  numeral 16 domain → numeral 10 d → digits_value 16 0 domain < 2 ^ 64 →
  digits_value 10 0 d < 2 ^ 64 →
  is_digit 16 c = true → is_digit 10 c = false →
  (sscanf physical_function_format (domain +:+ ":" +:+ d +:+ String c rest)).1 = 2.
Proof.
  intros H1 H2 V1 V2 Hh Hd. destruct (digit_plain _ _ Hh) as (_ & _ & _ & Hx & HX).
  apply scan_bus_not_decimal; [done|done|done| |by rewrite Hx, HX|done|done].
  destruct (Ascii.eqb_spec c ":"); [by subst|done].
Qed.

(** ** Attaching *)

(** [ocxl_afu_attach] of a context that is not open reports
    OCXL_NO_CONTEXT and asks nothing of the kernel; otherwise it issues
    exactly one attach request, with the AMR of the AFU, and the AFU is
    attached afterwards if and only if the kernel accepted it (or it was
    attached before), which is also what the result says. *)
Theorem afu_attach_spec w p a areas irqs flags :
  afu_inv w p a areas irqs →
  wp (ocxl_afu_attach p flags) (λ rc w',
    if afu_fd a =? -1 then rc = OCXL_NO_CONTEXT ∧ quiet w w'
    else ∃ r a', effects w' = effects w ++ [Ev (SIoctlAttach (afu_fd a) (afu_ppc64_amr a)) r] ∧
      afu_inv w' p a' areas irqs ∧ a' = a <| afu_attached := afu_attached a || (r =? 0) |> ∧
      rc = if r =? 0 then OCXL_OK else OCXL_INTERNAL_ERROR) w.
Proof.
  intros Hi. apply wp_bind. eapply wp_get_afu; [eauto with ocxl|].
  destruct (afu_fd a =? -1).
  { apply wp_bind, wp_errmsg; [eauto with ocxl|done|]. intros w' Hq. by apply wp_ret. }
  apply wp_bind, wp_call; [done|]. intros r w1 Hd.
  assert (afu_inv w1 p a areas irqs) as Hi1 by (eapply afu_inv_same_mem; [apply Hd|done]).
  unfold c_bool. destruct (Z.eqb_spec r 0) as [->|Hr]; simpl.
  - apply wp_bind. eapply wp_set_afu_inv; [exact Hi1|by repeat split|]. intros w2 Hi2 Ee _ _. apply wp_ret.
    exists 0, (a <| afu_attached := true |>). rewrite orb_true_r, Ee.
    split_and!; [apply (did_effects _ _ _ _ Hd)|done|done|done].
  - apply wp_bind, wp_errno_args. intros e w2 Hq2. apply wp_bind, wp_errmsg; [|done|].
    { eapply can_report_quiet; [done|by eapply afu_inv_report]. }
    intros w3 Hq3. apply wp_ret. assert (quiet w1 w3) as Hq by (by etrans).
    exists r, a. rewrite (proj2 (Z.eqb_neq r 0) Hr), orb_false_r.
    split_and!; [|eapply afu_inv_same_mem; [apply Hq|done]|by destruct a|done].
    rewrite (quiet_effects _ _ Hq). apply (did_effects _ _ _ _ Hd).
Qed.

(** ** Closing *)

(** C20: [ocxl_afu_close] of an open AFU gives back everything the AFU holds
    in the kernel, each exactly once: the mappings of its areas, the
    interrupts, eventfds and trigger pages of its IRQs, and its three
    descriptors; it frees its record, its paths, its IRQs and its epoll
    buffer, and touches no other memory but the array of its areas. *)
Theorem afu_close_spec w p a areas irqs :
  afu_inv w p a areas irqs → 0 <= afu_fd a →
  wp (ocxl_afu_close p) (λ rc w', rc = OCXL_OK ∧ afu_closed w p a areas irqs w') w.
Proof. intros Hi Hfd. by eapply wp_afu_close. Qed.

(** [ocxl_afu_close] does not free the array of MMIO areas: it is still
    allocated afterwards, and nothing points at it any more. *)
Theorem afu_close_leaks_mmios w p a areas irqs :
  afu_inv w p a areas irqs → 0 <= afu_fd a → afu_mmios a ≠ NULL →
  wp (ocxl_afu_close p) (λ _ w',
    w_heap w' !! p = None ∧ is_Some (w_heap w' !! afu_mmios a)) w.
Proof.
  intros Hi Hfd Hn. eapply wp_afu_close; [done|done|]. intros w' Hc. split.
  - apply (ac_freed _ _ _ _ _ _ Hc). by left.
  - apply (ac_mmios _ _ _ _ _ _ Hc). destruct Hi as [[_ _ _ [[rest [Hb _]] _ _ _]] _ _ _ _ _ _].
    destruct Hb as [[? _]|[_ Hb]]; [done|eauto].
Qed.

(** ** Messages *)

(** C34: Reporting an error never changes what it reports about: [errmsg]
    with a well-formed format leaves the memory and the kernel objects alone,
    and does nothing at all when messages are off; with an application
    handler it calls it once, with the error and the text cut to what
    fits a buffer of 255 characters with its terminator. *)
Theorem errmsg_spec w p a err fmt args text :
  afu_at w p a → p ≠ NULL → vformat fmt args = Some text →
  wp (errmsg p err fmt args) (λ _ w', quiet w w' ∧
    (afu_verbose_errors a = false → w' = w) ∧
    (∀ f, afu_verbose_errors a = true → afu_error_handler a = UserHandler f →
       w_trace w' = w_trace w ++
         [Ev (SCallback f p (ocxl_err_code err) (truncate MAX_MESSAGE_LENGTH text)) tt] ∧
       (String.length (truncate MAX_MESSAGE_LENGTH text) <= 254)%nat)) w.
Proof.
  intros Ha Hn Ht. unfold errmsg. rewrite (proj2 (Z.eqb_neq _ _) Hn). simpl.
  apply wp_bind. eapply wp_get_afu; [apply Ha|].
  apply wp_when; intros Hv; [|split_and!; [done|done|congruence]].
  apply wp_bind. unfold message_text. rewrite Ht. apply wp_ret.
  destruct (afu_error_handler a) as [|g] eqn:Eh.
  - eapply wp_default_afu_error_handler; [done|]. intros w' Hq. split_and!; [done|congruence|].
    intros f _ Hf. congruence.
  - unfold wp, call. destruct (os_step unit _ (w_os w)) as [[] k] eqn:Ek.
    pose proof (wp_call_silent (SCallback g p (ocxl_err_code err) (truncate MAX_MESSAGE_LENGTH text))
      (λ _ w', quiet w w') w eq_refl (λ _ _ Hq, Hq)) as Hq.
    unfold wp, call in Hq. rewrite Ek in Hq. split_and!; [exact Hq|congruence|].
    intros f _ [= <-]. split; [done|].
    pose proof (length_truncate MAX_MESSAGE_LENGTH text). unfold MAX_MESSAGE_LENGTH in *. lia.
Qed.

(** Initialisation happens once: after [libocxl_init] has run, running it
    again reads no environment variable and changes nothing. *)
Theorem libocxl_init_once w :
  heap_wf w →
  wp libocxl_init (λ _ w', g_libocxl_inited (w_glob w') = true ∧
    wp libocxl_init (λ _ w'', quiet w' w'') w') w.
Proof.
  intros Hw. apply wp_libocxl_init; [done|]. intros w1 _ Hi. split; [done|].
  apply wp_bind, wp_report_unit; [done|]. intros w2 Hq2. apply wp_bind, wp_get_globals.
  rewrite (sm_glob _ _ (quiet_mem _ _ Hq2)), Hi. apply wp_report_unit; [done|].
  intros w3 Hq3. by etrans.
Qed.

End spec.

(** [ocxl_err_to_string] gives each error a text of its own, but for
    OCXL_NO_DEV, which it does not know. *)
Theorem err_to_string_no_dev :
  (∀ e, ocxl_err_to_string (ocxl_err_code e) = "Unknown error"%string ↔ e = OCXL_NO_DEV) ∧
  (∀ e e', ocxl_err_to_string (ocxl_err_code e) = ocxl_err_to_string (ocxl_err_code e') → e = e').
Proof. split; [intros []; simpl; split; done|intros [] []; simpl; done]. Qed.

(** ** Whole programs *)

Section programs.
Context {K : Type} `{Platform K} `{Abi} `{!NonZeroHandles K} `{!ShortNames K} `{!ByteLoads K}.

(** C2: The invariant of a program: in every state that a program reaches
    through calls of the library (opening, closing, attaching, mapping,
    unmapping, reading and writing registers, allocating IRQs, waiting for
    events, configuring messages), every open handle is a well-formed AFU, the AFUs share no
    memory, and the kernel objects held are those the AFUs record. *)
Theorem api_invariant (k : K) w hs :
  reachable k (w, hs) → ∃ live, dom live = hs ∧ sys_inv w live.
Proof. apply reachable_ok. Qed.

(** C3: A program that uses current handles never gets stuck but for the
    hazards the library leaves to it: in every reachable state, each allowed
    call returns, without undefined behaviour, unless it is a register access
    at a negative offset, or an event check during which the device hands out
    more events than the caller has room for, or goes on for as many events as
    there is fuel without marking one as the last. *)
Theorem api_progress (k : K) w hs m hazard :
  reachable k (w, hs) → allowed w hs m hazard → ¬ hazard →
  ∃ hs' w', m w = Ret hs' w' ∧ api_step (w, hs) (w', hs').
Proof.
  intros Hr Ha Hh. pose proof (wpx_allowed w hs m hazard (reachable_ok k w hs Hr) Ha) as Hw.
  unfold wpx in Hw. destruct (m w) as [hs' w'| |] eqn:E; [|done..].
  exists hs', w'. split; [done|]. by econstructor.
Qed.

(** C1: No program leaks kernel objects: when it has closed all its handles,
    every descriptor, interrupt and mapping the library ever acquired for it
    has been released, and none twice. *)
Theorem api_no_leak (k : K) w r :
  reachable k (w, ∅) → balance (effects w) r = 0.
Proof.
  intros Hr. destruct (reachable_ok k w ∅ Hr) as (live & Hd & Hs).
  apply dom_empty_inv_L in Hd as ->. by rewrite (si_balance _ _ Hs), total_empty.
Qed.

End programs.

(** ** Instances on the virtual device *)

Lemma afu_open_from_dev_spec_witness :
  wp (ocxl_afu_open_from_dev "/dev/ocxl/IBM,Dummy.0001:00:00.1.0") (λ res w',
    (∃ p a d_name, res = (OCXL_OK, p) ∧ open_handle world0 w' p a d_name) ∨
    (∃ rc, res = (rc, OCXL_INVALID_AFU) ∧
       (rc = OCXL_NO_MEM ∨ rc = OCXL_NO_DEV ∨ rc = OCXL_NO_MORE_CONTEXTS) ∧ kept world0 w')) world0.
Proof. apply afu_open_from_dev_spec, heap_wfb_ok. reflexivity. Defined.

Lemma afu_open_specific_spec_witness :
  wp (ocxl_afu_open_specific "IBM,Dummy" None (-1)) (λ res w', ∃ w1 w2 paths,
    libocxl_init world0 = Ret tt w1 ∧
    did (SGlob "/dev/ocxl/IBM,Dummy.*.*") (0, paths) w1 w2 ∧
    first_free_device paths w2 res w') world0.
Proof.
  eapply wp_mono; [|apply (afu_open_specific_spec world0 "IBM,Dummy" None (-1)), heap_wfb_ok; reflexivity].
  intros res w' (_ & w1 & w2 & rc & paths & Ei & Hd & Hr). revert Hd Hr.
  assert (w1 = after libocxl_init world0) as -> by (unfold after; by rewrite Ei). intros Hd Hr.
  pose proof (did_step _ _ _ _ Hd) as Hs. vm_compute in Hs. injection Hs as <- <- _.
  destruct Hr as [Hr|(E & _)]; [|discriminate].
  exists (after libocxl_init world0), w2. eexists. split_and!; [exact Ei|exact Hd|exact Hr].
Defined.

(** A kernel whose device has no context left. *)
Definition kernel_no_contexts : virt := demo_kernel <| v_contexts := 0 |>.
Definition world_left : world virt :=
  Eval vm_compute in after (ocxl_afu_open_from_dev "/dev/ocxl/IBM,Dummy.0001:00:00.1.0")
    (initial_world kernel_no_contexts).

Lemma afu_open_leaks_record_witness :
  left_behind (initial_world kernel_no_contexts) world_left.
Proof.
  eapply (afu_open_leaks_record (initial_world kernel_no_contexts) "/dev/ocxl/IBM,Dummy.0001:00:00.1.0");
    [apply heap_wfb_ok; reflexivity|vm_compute; reflexivity].
Defined.

(** The same through [ocxl_afu_open]. *)
Example open_leaks_three_blocks :
  let w := initial_world kernel_no_contexts in
  result (ocxl_afu_open "IBM,Dummy") w = Some (OCXL_NO_MORE_CONTEXTS, OCXL_INVALID_AFU) ∧
  map_to_list (w_heap w) = [] ∧
  size (w_heap (after (ocxl_afu_open "IBM,Dummy") w)) = 3%nat.
Proof. split_and!; vm_compute; reflexivity. Qed.

Lemma device_name_parsed_witness :
  let pf := "0001:00:00.1.7"%string in
  strchr "." ("IBM,Dummy." +:+ pf) = Some ("IBM,Dummy"%string, "." +:+ pf) ∧
  (sscanf physical_function_format pf).1 = 5 ∧
  (sscanf physical_function_format pf).2 !! 4%nat = Some 7.
Proof.
  apply (device_name_parsed "IBM,Dummy" "0001" "00" "00" "1" 7);
    [reflexivity|by repeat split..|vm_compute; reflexivity|vm_compute; reflexivity
    |vm_compute; reflexivity|vm_compute; reflexivity|lia].
Defined.

Lemma device_name_hex_bus_witness :
  (sscanf physical_function_format "0001:0a:00.1.0").1 = 2.
Proof.
  apply (device_name_hex_bus "0001" "0" "a" ":00.1.0");
    [by repeat split..|vm_compute; reflexivity|vm_compute; reflexivity|reflexivity|reflexivity].
Defined.

Lemma afu_attach_spec_witness :
  wp (ocxl_afu_attach demo_afu 0) (λ rc w', ∃ r a',
    effects w' = effects world_open ++ [Ev (SIoctlAttach 3 0) r] ∧
    afu_inv w' demo_afu a' [] [] ∧ a' = afu_opened <| afu_attached := true || (r =? 0) |> ∧
    rc = if r =? 0 then OCXL_OK else OCXL_INTERNAL_ERROR) world_open.
Proof. exact (afu_attach_spec world_open demo_afu afu_opened [] [] 0 afu_inv_open). Defined.

Lemma afu_close_spec_witness :
  wp (ocxl_afu_close demo_afu) (λ rc w', rc = OCXL_OK ∧
    afu_closed world_irq demo_afu afu_irq [area_mapped] irqs_irq w') world_irq.
Proof.
  refine (afu_close_spec world_irq demo_afu afu_irq [area_mapped] irqs_irq afu_inv_with_irq _).
  vm_compute. discriminate.
Defined.

Lemma afu_close_leaks_mmios_witness :
  wp (ocxl_afu_close demo_afu) (λ _ w',
    w_heap w' !! demo_afu = None ∧ is_Some (w_heap w' !! afu_mmios afu_mapped)) world_mapped.
Proof.
  refine (afu_close_leaks_mmios world_mapped demo_afu afu_mapped [area_mapped] [] afu_inv_mapped _ _);
    vm_compute; discriminate.
Defined.

Lemma errmsg_spec_witness :
  wp (errmsg demo_afu OCXL_NO_MEM "%d bytes" [AInt 12]) (λ _ w', quiet world_open w') world_open.
Proof.
  eapply wp_mono; [|refine (errmsg_spec world_open demo_afu afu_opened OCXL_NO_MEM "%d bytes" [AInt 12]
    "12 bytes" (mi_afu _ _ _ _ (ai_mmio _ _ _ _ _ afu_inv_open)) _ _); [discriminate|reflexivity]].
  intros [] w' Hw'. apply Hw'.
Defined.

Lemma libocxl_init_once_witness :
  wp libocxl_init (λ _ w', g_libocxl_inited (w_glob w') = true ∧
    wp libocxl_init (λ _ w'', quiet w' w'') w') world0.
Proof. apply libocxl_init_once, heap_wfb_ok. reflexivity. Defined.

(** A program: open a context, close it. *)
Definition handles_of (p : ptr) : gset ptr := {[ p ]} ∪ ∅.
Definition open_call : M virt (gset ptr) :=
  '(rc, p) ← ocxl_afu_open_specific "IBM,Dummy" None (-1);
  mret (if is_ok rc then {[ p ]} ∪ ∅ else ∅).
Definition world1 : world virt := Eval vm_compute in after open_call world0.
Definition close_call : M virt (gset ptr) :=
  ocxl_afu_close demo_afu ;; mret (handles_of demo_afu ∖ {[ demo_afu ]}).
Definition world2 : world virt := Eval vm_compute in after close_call world1.

Lemma run_open_call : open_call world0 = Ret (handles_of demo_afu) world1.
Proof. vm_compute. reflexivity. Qed.

Lemma run_close_call : close_call world1 = Ret ∅ world2.
Proof. vm_compute. reflexivity. Qed.

Lemma allowed_open_call : allowed world0 ∅ open_call False.
Proof. unfold open_call. apply allow_open_specific. Qed.

Lemma reachable_world1 : reachable demo_kernel (world1, handles_of demo_afu).
Proof. exact (rtc_once _ _ (api_step_intro _ _ _ _ _ _ allowed_open_call run_open_call)). Qed.

Lemma demo_handle : demo_afu ∈ handles_of demo_afu.
Proof. unfold handles_of. set_solver. Qed.

Lemma allowed_close_call : allowed world1 (handles_of demo_afu) close_call False.
Proof. unfold close_call. apply allow_close, demo_handle. Qed.

Lemma reachable_world2 : reachable demo_kernel (world2, ∅).
Proof.
  exact (rtc_r _ _ _ reachable_world1
    (api_step_intro _ _ _ _ _ _ allowed_close_call run_close_call)).
Qed.

Lemma api_invariant_witness :
  ∃ live, dom live = handles_of demo_afu ∧ sys_inv world1 live.
Proof. exact (api_invariant demo_kernel world1 _ reachable_world1). Defined.

Lemma api_progress_witness :
  ∃ hs' w', (ocxl_afu_attach demo_afu 0 ;; mret (handles_of demo_afu)) world1 = Ret hs' w' ∧
    api_step (world1, handles_of demo_afu) (w', hs').
Proof.
  refine (api_progress demo_kernel world1 _ _ _ reachable_world1 _ _).
  - exact (allow_attach world1 _ _ _ demo_handle).
  - exact id.
Defined.

Lemma api_no_leak_witness : balance (effects world2) (RFd 3) = 0.
Proof. exact (api_no_leak demo_kernel world2 (RFd 3) reachable_world2). Defined.
