(* ===== verification/EventSpec.v ===== *)
(** * EventSpec: what waiting for events promises

    The theorems about the second part of src/irq.c: the events reported for
    an AFU, where they come from, and where the code depends on the kernel
    or on the application for its safety; with instances on the virtual
    device. *)

From S2P Require Import Prelude Format Types World Logic Messages Buffer Ledger Mmio MmioFacts.
From S2P Require Import MmioAccess Irq IrqFacts IrqTable Event Names Afu AfuInv EventFacts.
From S2P Require Import AfuClose AfuOpen Api Client VirtAfu VirtOcxl Demo.
Open Scope Z_scope.

Section spec.
Context {K : Type} `{Platform K} `{Abi}.
Implicit Types (w : world K).

(** C32: [ocxl_afu_event_check], for any fuel and every number of events the
    caller has room for.  It waits once; then each source that is ready is
    read, in the order [epoll_wait] gave: an eventfd once, the device until it
    has no event or one marked as the last.  When it returns, the events are
    the translation faults and IRQs those reads amount to, in that order, in
    the first entries of the array, the result is their number, never more
    than there is room for, and the other entries are untouched; or it is -1:
    there was no memory, the wait failed, or the device answered something
    that is no event.  The AFU is well-formed afterwards and no memory but its
    record and its epoll buffer changed.  It has undefined behaviour only when
    the array is full and one more event is read, and it runs out of fuel only
    when the device handed out that many events in a row without marking one
    as the last; so with more fuel than the events a kernel can hand out that
    way, it does not. *)
Theorem event_check_spec (I : K → Prop) fuel w p a areas irqs timeout n :
  event_kernel I p a irqs → I (w_os w) → afu_inv w p a areas irqs → 0 <= n <= UINT16_MAX →
  wpx (overflows p a irqs n timeout (w_os w)) (starves p a irqs n timeout fuel (w_os w))
    (ocxl_afu_event_check fuel p timeout n) (λ '(rc, evs) w', ∃ es events m,
      effects w' = effects w ++ es ∧ check_outcome p a irqs n timeout es rc evs ∧
      afu_inv w' p (with_epoll a events m) areas irqs ∧
      ∀ q, q ≠ p → q ≠ afu_epoll_events a → q ≠ events → w_heap w' !! q = w_heap w !! q) w ∧
  (∀ rank, Ranked rank (going_read a) → (rank (w_os w) < fuel)%nat →
     ocxl_afu_event_check fuel p timeout n w ≠ Diverge).
Proof.
  intros HI Hk Hi Hn. split.
  - eapply wpx_event_check; [exact HI|exact Hk|exact Hi|exact Hn|].
    intros rc evs es events m w' Hi' Hh _ [He _] _ Hc. by exists es, events, m.
  - intros rank Hrank Hlt E.
    pose proof (wpx_event_check I fuel w p a areas irqs timeout n (λ _ _, True) HI Hk Hi Hn
      ltac:(done)) as Hw.
    unfold wpx in Hw. unfold ocxl_afu_event_check in E. rewrite E in Hw.
    by eapply (ranked_no_starve rank).
Qed.

(** C33: Where the device hands out one event at a time, marked as the last one,
    any positive fuel is enough and the array cannot overflow. *)
Theorem event_check_single (I : K → Prop) fuel w p a areas irqs timeout n :
  event_kernel I p a irqs → I (w_os w) → afu_inv w p a areas irqs → 0 <= n <= UINT16_MAX →
  (∀ k r k', I k → os_step _ (SRead (afu_fd a) event_size) k = (r, k') → ¬ going r) →
  wp (ocxl_afu_event_check (S fuel) p timeout n) (λ '(rc, evs) w', ∃ es,
    effects w' = effects w ++ es ∧ check_outcome p a irqs n timeout es rc evs) w.
Proof.
  intros HI Hk Hi Hn Hl. apply (wp_event_check I _ w p a areas irqs); [done|done|done|done|..].
  - eapply single_no_overflow; [exact HI|exact Hl|lia|done].
  - eapply single_no_starve; [exact HI|exact Hl|lia|done].
  - intros rc evs es events m w' _ _ _ [He _] _ Hc. by exists es.
Qed.

(** C39: The caller's array is not protected against a device that has more
    events than it has room for: once the array is full, the next
    translation fault is stored behind its end. *)
Theorem event_check_overflow fuel w p a r k out e :
  afu_at w p a → os_step _ (SRead (afu_fd a) event_size) (w_os w) = (r, k) →
  afu_report r = Some e → ev_triggered out = Z.of_nat (length (ev_events out)) →
  goes_wrong (read_afu_events (S fuel) p 0 out) w.
Proof.
  intros Ha Hr He Hfull. apply goes_wrong_bind.
  eapply wp_read_afu_event; [apply Ha|right; eauto|]. intros r' res w1 w' Hd Hq Hv.
  rewrite (did_step _ _ _ _ Hd) in Hr. injection Hr as -> _.
  pose proof (afu_report_ok _ _ He) as Hok.
  inversion Hv as [E|E|_ E|e' _ E]; subst; [congruence| |congruence|].
  { unfold event_ok in Hok. by rewrite (proj2 (Z.leb_gt 0 r.1) E) in Hok. }
  apply goes_wrong_bind_l. unfold goes_wrong, push_event. rewrite Hfull, Z.leb_refl, orb_true_r. done.
Qed.

(** A short read of an eventfd is reported with two arguments missing:
    when the AFU reports errors, that is undefined behaviour. *)
Theorem event_short_read w p a areas irqs n i l buf k out :
  afu_inv w p a areas irqs → irqs !! n = Some i → afu_verbose_errors a = true →
  os_step _ (SRead (irq_eventfd i) 8) (w_os w) = ((l, buf), k) → 0 <= l → l ≠ 8 →
  goes_wrong (read_irq_event p (irq_at a n) out) w.
Proof.
  intros Hi Hn Hv Hr Hl Hl8. apply goes_wrong_bind. eapply wp_irq_get; [eauto with ocxl|done|].
  apply goes_wrong_bind, wp_call; [done|]. intros [l' buf'] w1 Hd.
  rewrite (did_step _ _ _ _ Hd) in Hr. injection Hr as -> -> _.
  rewrite (proj2 (Z.ltb_ge l 0) Hl), (proj2 (Z.eqb_neq l 8) Hl8). cbn [negb].
  apply goes_wrong_bind_l. unfold errmsg.
  rewrite (proj2 (Z.eqb_neq p NULL) (mi_null _ _ _ _ (ai_mmio _ _ _ _ _ Hi))). cbn [negb].
  apply goes_wrong_bind. eapply wp_get_afu.
  { rewrite (sm_heap _ _ (did_mem _ _ _ _ Hd)). by eapply afu_inv_lookup. }
  rewrite Hv. by apply goes_wrong_bind_l.
Qed.

(** C38: The addresses given to [epoll_ctl] dangle once the array of IRQs has
    been moved: when an allocation needed a larger array, looking at the
    source of any IRQ allocated before is an access to freed memory. *)
Theorem irq_sources_dangle `{!NonZeroHandles K} w p a irqs info res w' n fuel sources out :
  irq_inv w p a irqs → Z.of_nat (length irqs) < 32768 → (n < length irqs)%nat →
  afu_irq_count a = afu_irq_max_count a →
  ocxl_irq_alloc p info w = Ret (OCXL_OK, res) w' →
  goes_wrong (check_sources fuel p 0 (IrqFdInfo (irq_at a n) :: sources) out) w'.
Proof.
  intros Hi Hroom Hn Hfull Hrun.
  pose proof (run_wp _ _ _ _ _ (wp_irq_alloc w p a irqs info Hi (λ _, Hroom)) Hrun) as Ho.
  inversion Ho as [| |a' es i w1 Hat Hi' Hf He]; subst; [done|].
  assert (w_heap w' !! afu_irqs a = None) as Hgone.
  { destruct (if_old _ _ _ _ _ Hf) as [E|E]; [exfalso|done]. pose proof (if_max _ _ _ _ _ Hf E) as Em.
    destruct Hi as [_ _ _ [_ Hc _ _]]. destruct Hi' as [_ _ _ [[rest [_ Hm]] _ _ _]].
    rewrite length_app in Hm. simpl in Hm. lia. }
  cbn [check_sources get_fd_info]. do 2 apply goes_wrong_bind_l.
  apply goes_wrong_bind_l, goes_wrong_bind_l. unfold goes_wrong, load_obj. simpl. by rewrite Hgone.
Qed.

(** [ocxl_afu_get_p9_thread_id] enables the wait only on a platform that
    has it, and returns a thread id exactly when the kernel gave one. *)
Theorem p9_thread_id_spec w p a :
  afu_at w p a →
  wp (ocxl_afu_get_p9_thread_id p) (λ '(rc, tid) w', ∃ r flags,
    let features := Ev (SIoctlGetFeatures (afu_fd a)) (r, flags) in
    if (r =? 0) && c_bool (Z.land flags OCXL_IOCTL_FEATURES_FLAGS0_P9_WAIT) then
      ∃ r' t, effects w' = effects w ++ [features; Ev (SIoctlEnableP9Wait (afu_fd a)) (r', t)] ∧
        (rc, tid) = if r' =? 0 then (OCXL_OK, Some t) else (OCXL_NO_DEV, None)
    else effects w' = effects w ++ [features] ∧ (rc, tid) = (OCXL_NO_DEV, None)) w.
Proof.
  intros Ha. apply wp_bind. eapply wp_get_afu; [apply Ha|].
  assert (∀ w1 w2, same_mem w w1 → quiet w1 w2 → can_report w2 p) as Hrep.
  { intros w1 w2 Hm Hq. eapply can_report_quiet, can_report_same_mem; [done|done|right; eauto]. }
  apply wp_bind, wp_call; [done|]. intros [r flags] w1 Hd1. pose proof (did_effects _ _ _ _ Hd1) as E1.
  unfold c_bool at 1. destruct (Z.eqb_spec r 0) as [->|Hr]; cbn [negb].
  2: { apply wp_bind, wp_errno_args. intros e w2 Hq2. apply wp_bind, wp_errmsg; [|done|].
       { by eapply Hrep; [apply Hd1|]. }
       intros w3 Hq3. apply wp_ret. exists r, flags. rewrite (proj2 (Z.eqb_neq r 0) Hr). cbn [andb].
       by rewrite (quiet_effects _ _ Hq3), (quiet_effects _ _ Hq2). }
  destruct (c_bool (Z.land flags _)) eqn:Ef; cbn [negb].
  2: { apply wp_bind, wp_errmsg; [by eapply Hrep; [apply Hd1|]|done|]. intros w3 Hq3. apply wp_ret.
       exists 0, flags. rewrite Ef. cbn. by rewrite (quiet_effects _ _ Hq3). }
  apply wp_bind, wp_call; [done|]. intros [r' t] w2 Hd2. pose proof (did_effects _ _ _ _ Hd2) as E2.
  rewrite E1, <-app_assoc in E2. unfold c_bool at 1. destruct (Z.eqb_spec r' 0) as [->|Hr']; cbn [negb].
  - apply wp_ret. exists 0, flags. rewrite Ef. cbn. by exists 0, t.
  - apply wp_bind, wp_errno_args. intros e w3 Hq3. apply wp_bind, wp_errmsg; [|done|].
    { eapply Hrep; [|exact Hq3]. etrans; [apply Hd1|apply Hd2]. }
    intros w4 Hq4. apply wp_ret. exists 0, flags. rewrite Ef. cbn. exists r', t.
    rewrite (proj2 (Z.eqb_neq r' 0) Hr'). by rewrite (quiet_effects _ _ Hq4), (quiet_effects _ _ Hq3).
Qed.

End spec.

(** ** Instances on the virtual device *)

(** The IRQ of [world_irq] was triggered five times and a fault is pending. *)
Definition kernel_events : virt :=
  inject_fault 0xdead 2 1 (trigger_irq 6 5 (w_os world_irq)).
Definition world_events : world virt := world_irq <| w_os := kernel_events |>.

(** Both are reported, in the order of the sources. *)
Example check_demo_events :
  result (ocxl_afu_event_check 1 demo_afu 0 4) world_events =
  Some (2, [Some (OCXL_EVENT_TRANSLATION_FAULT (mk_event_fault 0xdead 2 1));
            Some (OCXL_EVENT_IRQ (mk_event_irq 0 131072 77 5)); None; None]).
Proof. vm_compute. reflexivity. Qed.

(** What the code relies on holds there. *)
Lemma demo_watch_ok : watch_ok demo_afu afu_irq irqs_irq kernel_events.
Proof.
  split; [|vm_compute; reflexivity|].
  - intros s Hs. change (s ∈ [AfuFdInfo demo_afu; IrqFdInfo (irq_at afu_irq 0)]) in Hs.
    apply elem_of_cons in Hs as [->|Hs]; [constructor|]. apply list_elem_of_singleton in Hs as ->.
    apply (current_irq _ _ _ 0%nat (default zero_elt (irqs_irq !! 0%nat))); vm_compute; reflexivity.
  - apply Forall_cons_2; [vm_compute; reflexivity|constructor].
Qed.

Lemma afu_inv_events : afu_inv world_events demo_afu afu_irq [area_mapped] irqs_irq.
Proof. eapply afu_inv_same_mem; [|exact afu_inv_with_irq]. by split. Qed.

Lemma event_check_spec_witness :
  wp (ocxl_afu_event_check 1 demo_afu 0 4) (λ '(rc, evs) w', ∃ es events m,
    effects w' = effects world_events ++ es ∧ check_outcome demo_afu afu_irq irqs_irq 4 0 es rc evs ∧
    afu_inv w' demo_afu (with_epoll afu_irq events m) [area_mapped] irqs_irq ∧
    ∀ q, q ≠ demo_afu → q ≠ afu_epoll_events afu_irq → q ≠ events →
      w_heap w' !! q = w_heap world_events !! q) world_events.
Proof.
  assert (0 <= 4 <= UINT16_MAX) as Hn by (unfold UINT16_MAX; lia).
  destruct (event_check_spec _ 1 world_events demo_afu afu_irq [area_mapped] irqs_irq 0 4
    (laws_event_kernel _ _ _) demo_watch_ok afu_inv_events Hn) as [Hw _].
  apply wpx_wp. eapply wpx_mono; [| |intros r w' Hr; exact Hr|exact Hw].
  - exact (single_no_overflow _ _ _ _ (laws_event_kernel _ _ _) (laws_single _ _ _) 4 0 _ ltac:(lia) demo_watch_ok).
  - exact (single_no_starve _ _ _ _ (laws_event_kernel _ _ _) (laws_single _ _ _) 4 0 0 _ ltac:(lia) demo_watch_ok).
Defined.

Lemma event_check_single_witness :
  wp (ocxl_afu_event_check 1 demo_afu 0 4) (λ '(rc, evs) w', ∃ es,
    effects w' = effects world_events ++ es ∧ check_outcome demo_afu afu_irq irqs_irq 4 0 es rc evs) world_events.
Proof.
  refine (event_check_single _ 0 world_events demo_afu afu_irq [area_mapped] irqs_irq 0 4
    (laws_event_kernel _ _ _) demo_watch_ok afu_inv_events _ (laws_single _ _ _)). unfold UINT16_MAX. lia.
Defined.

Lemma event_check_overflow_witness :
  goes_wrong (read_afu_events 1 demo_afu 0 (mk_events [None] 1)) world_events.
Proof.
  refine (event_check_overflow 0 world_events demo_afu afu_irq _ _ (mk_events [None] 1) _
    (mi_afu _ _ _ _ (ai_mmio _ _ _ _ _ afu_inv_events)) eq_refl eq_refl eq_refl).
Defined.

(** An AFU that reports errors, on a kernel whose eventfd answers no bytes. *)
Definition afu_verbose : ocxl_afu := afu_irq <| afu_verbose_errors := true |>.
Definition world_short : world virt :=
  upd_heap <[demo_afu := HAfu afu_verbose]> world_irq <| w_os := (kernel_events <| v_fds := [(6, FdContext)] |>) |>.

Lemma afu_inv_short : afu_inv world_short demo_afu afu_verbose [area_mapped] irqs_irq.
Proof.
  eapply (afu_inv_same_mem (upd_heap <[demo_afu := HAfu afu_verbose]> world_irq)); [by split|].
  apply (afu_inv_set _ _ afu_irq); [exact afu_inv_with_irq|by repeat split].
Qed.

Lemma event_short_read_witness :
  goes_wrong (read_irq_event demo_afu (irq_at afu_verbose 0) (mk_events [None] 0)) world_short.
Proof.
  refine (event_short_read world_short demo_afu afu_verbose [area_mapped] irqs_irq 0 _ 0 [] _ _
    afu_inv_short eq_refl eq_refl eq_refl _ _); lia.
Defined.

(** An AFU whose array of 64 IRQs is full. *)
Fixpoint alloc_irqs (n : nat) : M virt unit :=
  match n with O => mret tt | S n => ocxl_irq_alloc demo_afu 0 ;; alloc_irqs n end.
Definition world_irqs64 : world virt := Eval vm_compute in after (alloc_irqs 64) world_open.
Definition afu_irqs64 : ocxl_afu := Eval vm_compute in afu_of world_irqs64.
Definition irqs64 : list ocxl_irq := Eval vm_compute in irqs_of world_irqs64.

Definition irq_liveb (n : nat) (i : ocxl_irq) : bool :=
  (irq_number i =? Z.of_nat n) && (0 <=? irq_eventfd i) && negb (irq_offset i =? 0) &&
  negb (irq_addr i =? NULL) && negb (irq_addr i =? MAP_FAILED).

Lemma irq_liveb_ok irqs :
  forallb id (imap irq_liveb irqs) = true → ∀ n i, irqs !! n = Some i → irq_live n i.
Proof.
  rewrite forallb_forall. intros Hall n i Hn.
  assert (irq_liveb n i = true) as Hl.
  { apply (Hall (irq_liveb n i)). apply list_elem_of_In, list_elem_of_lookup. exists n.
    by rewrite list_lookup_imap, Hn. }
  unfold irq_liveb in Hl. rewrite !andb_true_iff, !negb_true_iff, !Z.eqb_neq, Z.eqb_eq, Z.leb_le in Hl.
  unfold irq_live. tauto.
Qed.

Lemma afu_inv_irqs64 : afu_inv world_irqs64 demo_afu afu_irqs64 [] irqs64.
Proof.
  apply (demo_inv _ _ _ _ [] []); try (vm_compute; reflexivity); try (vm_compute; discriminate); try done.
  - by left.
  - demo_buf.
  - apply irq_liveb_ok. vm_compute. reflexivity.
Qed.

Lemma irq_sources_dangle_witness :
  goes_wrong (check_sources 1 demo_afu 0 [IrqFdInfo (irq_at afu_irqs64 3)] (mk_events [None] 0))
    (after (ocxl_irq_alloc demo_afu 0) world_irqs64).
Proof.
  eapply (irq_sources_dangle world_irqs64 demo_afu afu_irqs64 irqs64 0 (Some 64));
    [exact (afu_inv_irq _ _ _ _ _ afu_inv_irqs64)|vm_compute; reflexivity|simpl; lia|reflexivity
    |vm_compute; reflexivity].
Defined.

Lemma p9_thread_id_spec_witness :
  wp (ocxl_afu_get_p9_thread_id demo_afu) (λ '(rc, tid) w', ∃ r flags,
    let features := Ev (SIoctlGetFeatures 3) (r, flags) in
    if (r =? 0) && c_bool (Z.land flags 1) then
      ∃ r' t, effects w' = effects world_open ++ [features; Ev (SIoctlEnableP9Wait 3) (r', t)] ∧
        (rc, tid) = if r' =? 0 then (OCXL_OK, Some t) else (OCXL_NO_DEV, None)
    else effects w' = effects world_open ++ [features] ∧ (rc, tid) = (OCXL_NO_DEV, None)) world_open.
Proof.
  exact (p9_thread_id_spec world_open demo_afu afu_opened
    (mi_afu _ _ _ _ (ai_mmio _ _ _ _ _ afu_inv_open))).
Defined.
