(* ===== verification/Memcpy.v ===== *)
(** * Memcpy: the work element queue of samples/memcpy/memcpy.c

    The sample drives an AFU through a ring of work elements in memory.  The
    producer marks each element with a wrap bit that changes every time it
    comes around, so that the device can tell an element that was just added
    from the one that stood in its place before.  The queue is a list of
    elements and the pointers into it are indices; a store outside the ring
    has no result. *)

From S2P Require Import Prelude.
Open Scope Z_scope.

(** ** The encodings *)

Definition CACHELINESIZE : Z := 128.
Definition QUEUE_SIZE : Z := 4095 * CACHELINESIZE.

Definition MEMCPY_WED (queue depth : Z) : Z :=
  Z.lor (Z.land (u64 queue) 0xfffffffffffff000) (Z.land (u64 depth) 0xfff).

Definition MEMCPY_WE_CMD (valid cmd : Z) : Z :=
  Z.lor (Z.land valid 0x1) (Z.shiftl (Z.land cmd 0x3f) 2).

Definition MEMCPY_WE_CMD_VALID : Z := Z.shiftl 0x1 0.
Definition MEMCPY_WE_CMD_WRAP : Z := Z.shiftl 0x1 1.
Definition MEMCPY_WE_CMD_COPY : Z := 0.
Definition MEMCPY_WE_CMD_IRQ : Z := 1.
Definition MEMCPY_WE_CMD_STOP : Z := 2.
Definition MEMCPY_WE_CMD_WAKE_HOST_THREAD : Z := 3.

(** ** Work elements and the queue *)

Record memcpy_work_element : Set := mk_we {
  we_cmd : Z;        (* uint8_t: valid, wrap, cmd *)
  we_status : Z;     (* uint8_t *)
  we_length : Z;     (* uint16_t, also the thread id *)
  we_cmd_extra : Z;  (* uint8_t *)
  we_reserved : list Z;
  we_atomic_op : Z;
  we_src : Z;
  we_dst : Z
}.

(** [sizeof(struct memcpy_work_element)] *)
Definition sizeof_work_element : Z := 32.

Definition zero_we : memcpy_work_element := mk_we 0 0 0 0 [0; 0; 0] 0 0 0.

Record memcpy_weq : Set := mk_weq {
  weq_queue : list memcpy_work_element;
  weq_next : Z;
  weq_last : Z;
  weq_wrap : Z;   (* int *)
  weq_count : Z   (* int *)
}.

#[export] Instance eta_weq : Eta memcpy_weq := fun q =>
  mk_weq (weq_queue q) (weq_next q) (weq_last q) (weq_wrap q) (weq_count q).

(** The quotient, as an [int]. *)
Definition memcpy3_queue_length (queue_size : Z) : Z := s32 (queue_size / sizeof_work_element).

(** The queue once [aligned_alloc] has given it its memory. *)
Definition memcpy3_init_weq (queue_size : Z) : memcpy_weq :=
  mk_weq (replicate (Z.to_nat (memcpy3_queue_length queue_size)) zero_we)
    0 (memcpy3_queue_length queue_size - 1) 0 0.

(** The fields that are copied into the element [old] of the queue. *)
Definition store_we (wrap : Z) (we old : memcpy_work_element) : memcpy_work_element :=
  mk_we (u8 (Z.lor (Z.land (we_cmd we) (Z.lnot MEMCPY_WE_CMD_WRAP)) wrap))
    (we_status we) (we_length we) (we_cmd_extra we) (we_reserved old)
    (we_atomic_op we) (we_src we) (we_dst we).

(** [memcpy3_add_we(weq, we)]: the queue, and the index of the element *)
Definition memcpy3_add_we (weq : memcpy_weq) (we : memcpy_work_element) : option (memcpy_weq * Z) :=
  let new_we := weq_next weq in
  if new_we <? 0 then None else
  match weq_queue weq !! Z.to_nat new_we with
  | None => None
  | Some old =>
      let queue := <[Z.to_nat new_we := store_we (weq_wrap weq) we old]> (weq_queue weq) in
      let next := new_we + 1 in
      if weq_last weq <? next
      then Some (weq <| weq_queue := queue |> <| weq_wrap := Z.lxor (weq_wrap weq) MEMCPY_WE_CMD_WRAP |>
                     <| weq_next := 0 |>, new_we)
      else Some (weq <| weq_queue := queue |> <| weq_next := next |>, new_we)
  end.

(** Adding elements one after the other. *)
Fixpoint add_all (weq : memcpy_weq) (wes : list memcpy_work_element) : option memcpy_weq :=
  match wes with
  | [] => Some weq
  | we :: wes => '(weq, _) ← memcpy3_add_we weq we; add_all weq wes
  end.

(** [fill_buffer]: the contents of the buffer *)
Definition fill_buffer (size : nat) : list Z := (λ i, Z.land (Z.of_nat i) 0xff) <$> seq 0 size.

(** ** Bits of a command *)

Lemma valid_bit z : Z.land z MEMCPY_WE_CMD_VALID = Z.b2z (Z.testbit z 0).
Proof. change MEMCPY_WE_CMD_VALID with (Z.ones 1). rewrite Z.land_ones, <-Z.bit0_mod by lia. done. Qed.

Lemma testbit_u8 z n : 0 <= n < 8 → Z.testbit (u8 z) n = Z.testbit z n.
Proof. intros. unfold u8, uwrap. apply Z.mod_pow2_bits_low. lia. Qed.

Lemma wrap_bit n : 0 <= n → Z.testbit MEMCPY_WE_CMD_WRAP n = (n =? 1).
Proof.
  intros. change MEMCPY_WE_CMD_WRAP with (2 ^ 1). rewrite Z.pow2_bits_eqb by lia. apply Z.eqb_sym.
Qed.

Definition wrap_of (g : bool) : Z := if g then MEMCPY_WE_CMD_WRAP else 0.

Lemma testbit_wrap_of g n : 0 <= n → Z.testbit (wrap_of g) n = g && (n =? 1).
Proof. intros. destruct g; simpl; [by apply wrap_bit|apply Z.testbit_0_l]. Qed.

Lemma testbit_store_we g we old n :
  0 <= n < 8 →
  Z.testbit (we_cmd (store_we (wrap_of g) we old)) n = if n =? 1 then g else Z.testbit (we_cmd we) n.
Proof.
  intros Hn. simpl. rewrite testbit_u8, Z.lor_spec, Z.land_spec, Z.lnot_spec, wrap_bit, testbit_wrap_of by lia.
  destruct (n =? 1), (Z.testbit (we_cmd we) n), g; done.
Qed.

Lemma wrap_of_flip g : Z.lxor (wrap_of g) MEMCPY_WE_CMD_WRAP = wrap_of (negb g).
Proof. by destruct g. Qed.

(** ** The ring, abstractly

    After the elements [ws] have been added to a ring of [n], element [k] of
    them stands in slot [k mod n], unless it has been overwritten, and its
    wrap bit is the parity of the number of times the producer had come
    around. *)

Definition generation (n k : nat) : bool := Nat.odd (k / n).

Definition stored (n k : nat) (we : memcpy_work_element) : memcpy_work_element :=
  store_we (wrap_of (generation n k)) we zero_we.

Record weq_holds (n : nat) (weq : memcpy_weq) (ws : list memcpy_work_element) : Prop := {
  wh_length : length (weq_queue weq) = n;
  wh_last : weq_last weq = Z.of_nat n - 1;
  wh_next : weq_next weq = Z.of_nat (length ws mod n);
  wh_wrap : weq_wrap weq = wrap_of (generation n (length ws));
  wh_new i : (length ws <= i < n)%nat → weq_queue weq !! i = Some zero_we;
  wh_slot k we : ws !! k = Some we → (length ws <= k + n)%nat →
    weq_queue weq !! (k mod n)%nat = Some (stored n k we)
}.

(** The slot after the last one, and the parity. *)
Lemma step_inside n k : (0 < n)%nat → (k mod n + 1 < n)%nat →
  (S k mod n = k mod n + 1)%nat ∧ (S k / n = k / n)%nat.
Proof.
  intros Hn Hk. pose proof (Nat.div_mod_eq k n). split.
  - symmetry. apply (Nat.mod_unique _ _ (k / n)); lia.
  - symmetry. apply (Nat.div_unique _ _ _ (k mod n + 1)); lia.
Qed.

Lemma step_around n k : (0 < n)%nat → (k mod n + 1 = n)%nat →
  (S k mod n = 0)%nat ∧ (S k / n = S (k / n))%nat.
Proof.
  intros Hn Hk. pose proof (Nat.div_mod_eq k n). split.
  - symmetry. apply (Nat.mod_unique _ _ (S (k / n))); lia.
  - symmetry. apply (Nat.div_unique _ _ _ 0); lia.
Qed.

Lemma same_slot n k j : (k < j)%nat → (j < k + n)%nat → (k mod n ≠ j mod n)%nat.
Proof.
  intros H1 H2 E. pose proof (Nat.div_mod_eq k n). pose proof (Nat.div_mod_eq j n).
  assert (k / n < j / n)%nat by nia. nia.
Qed.

Lemma weq_holds_init n queue_size :
  memcpy3_queue_length queue_size = Z.of_nat n → (0 < n)%nat →
  weq_holds n (memcpy3_init_weq queue_size) [].
Proof.
  intros Hl Hn. unfold memcpy3_init_weq. rewrite Hl, Nat2Z.id. split; simpl.
  - apply length_replicate.
  - done.
  - by rewrite Nat.Div0.mod_0_l.
  - unfold generation. by rewrite Nat.Div0.div_0_l.
  - intros i Hi. apply lookup_replicate_2. lia.
  - intros k we Hk. by rewrite lookup_nil in Hk.
Qed.

(** What stands in the next slot: nothing yet, or the element [n] before. *)
Lemma weq_holds_old n weq ws :
  (0 < n)%nat → weq_holds n weq ws →
  weq_queue weq !! (length ws mod n)%nat =
    Some match ws !! (length ws - n)%nat with
         | Some we => if (n <=? length ws)%nat then stored n (length ws - n) we else zero_we
         | None => zero_we
         end.
Proof.
  intros Hn [Hl _ _ _ Hnew Hslot]. destruct (Nat.leb_spec n (length ws)) as [Hle|Hlt].
  - destruct (lookup_lt_is_Some_2 ws (length ws - n)) as [we Hwe]; [lia|]. rewrite Hwe.
    rewrite <-(Hslot _ _ Hwe) by lia. f_equal.
    replace (length ws) with ((length ws - n) + 1 * n)%nat at 1 by lia. by rewrite Nat.Div0.mod_add.
  - rewrite Nat.mod_small, (Hnew (length ws)) by lia. by destruct (ws !! _).
Qed.

Lemma weq_holds_add n weq ws we :
  (0 < n)%nat → weq_holds n weq ws →
  ∃ weq', memcpy3_add_we weq we = Some (weq', Z.of_nat (length ws mod n)) ∧ weq_holds n weq' (ws ++ [we]).
Proof.
  intros Hn Hh. pose proof (weq_holds_old _ _ _ Hn Hh) as Hold. set (old := match _ with Some _ => _ | None => _ end) in Hold.
  assert (we_reserved old = [0; 0; 0]) as Hres by (subst old; by repeat case_match).
  destruct Hh as [Hl Hlast Hnext Hwrap Hnew Hslot].
  set (len := length ws) in *. set (i := (len mod n)%nat) in *.
  assert (i < n)%nat as Hi by (apply Nat.mod_upper_bound; lia).
  unfold memcpy3_add_we. rewrite Hnext, Nat2Z.id, Hold. destruct (Z.ltb_spec (Z.of_nat i) 0); [lia|].
  assert (store_we (weq_wrap weq) we old = stored n len we) as Est.
  { unfold stored, store_we. by rewrite Hwrap, Hres. }
  rewrite Est. set (queue := <[i := stored n len we]> (weq_queue weq)).
  assert (length queue = n) as Hq by (unfold queue; by rewrite length_insert).
  assert (∀ j, (length (ws ++ [we]) <= j < n)%nat → queue !! j = Some zero_we) as Hnew'.
  { rewrite length_app. simpl. fold len. intros j Hj. unfold queue. rewrite list_lookup_insert_ne; [apply Hnew; lia|].
    unfold i. rewrite Nat.mod_small by lia. lia. }
  assert (∀ k x, (ws ++ [we]) !! k = Some x → (length (ws ++ [we]) <= k + n)%nat →
            queue !! (k mod n)%nat = Some (stored n k x)) as Hslot'.
  { rewrite length_app. simpl. fold len. intros k x Hk Hkn.
    apply lookup_app_Some in Hk as [Hk|[Hk1 Hk2]].
    - pose proof (lookup_lt_Some _ _ _ Hk). unfold queue. rewrite list_lookup_insert_ne; [apply Hslot; [done|lia]|].
      apply not_eq_sym, same_slot; lia.
    - apply list_lookup_singleton_Some in Hk2 as [Hk2 <-]. assert (k = len) as -> by lia.
      unfold queue. apply list_lookup_insert_eq. lia. }
  assert (length (ws ++ [we]) = S len) as El by (rewrite length_app; simpl; lia).
  destruct (Z.ltb_spec (weq_last weq) (Z.of_nat i + 1)) as [Hw|Hw]; eexists; (split; [reflexivity|]).
  - destruct (step_around n len) as [E1 E2]; [done|lia|].
    split; simpl; [done|done|by rewrite El, E1| |done|done].
    rewrite Hwrap, wrap_of_flip, El. unfold generation. rewrite E2. f_equal. by rewrite Nat.odd_succ, <-Nat.negb_odd.
  - destruct (step_inside n len) as [E1 E2]; [done|lia|].
    split; simpl; [done|done|rewrite El, E1; lia| |done|done].
    rewrite Hwrap, El. unfold generation. by rewrite E2.
Qed.

Lemma add_all_holds n weq ws wes :
  (0 < n)%nat → weq_holds n weq ws → ∃ weq', add_all weq wes = Some weq' ∧ weq_holds n weq' (ws ++ wes).
Proof.
  intros Hn. revert weq ws. induction wes as [|we wes IH]; intros weq ws Hh; simpl.
  - exists weq. by rewrite app_nil_r.
  - destruct (weq_holds_add n weq ws we Hn Hh) as (weq1 & -> & H1). simpl.
    destruct (IH weq1 (ws ++ [we]) H1) as (weq2 & E & H2). exists weq2. by rewrite <-app_assoc in H2.
Qed.

(** What a device that has consumed [k] elements looks for. *)
Definition fresh (n : nat) (weq : memcpy_weq) (k : nat) : bool :=
  match weq_queue weq !! (k mod n)%nat with
  | Some e => Z.testbit (we_cmd e) 0 && eqb (Z.testbit (we_cmd e) 1) (generation n k)
  | None => false
  end.

Lemma stored_bits n k we :
  Z.testbit (we_cmd (stored n k we)) 1 = generation n k ∧
  Z.testbit (we_cmd (stored n k we)) 0 = Z.testbit (we_cmd we) 0.
Proof. unfold stored. by rewrite !testbit_store_we by lia. Qed.

Lemma generation_next n k : (0 < n)%nat → generation n (k + n) = negb (generation n k).
Proof.
  intros Hn. unfold generation. replace (k + n)%nat with (k + 1 * n)%nat by lia.
  rewrite Nat.div_add, Nat.add_1_r, Nat.odd_succ by lia. by rewrite <-Nat.negb_odd.
Qed.

Lemma testbit_we_cmd valid cmd n :
  0 <= n → Z.testbit (MEMCPY_WE_CMD valid cmd) n =
    if n =? 0 then Z.testbit valid 0 else (2 <=? n) && (n <? 8) && Z.testbit cmd (n - 2).
Proof.
  intros Hn. unfold MEMCPY_WE_CMD. rewrite Z.lor_spec, Z.shiftl_spec, Z.land_spec by lia.
  change 0x1 with (Z.ones 1). change 0x3f with (Z.ones 6). rewrite Z.testbit_ones_nonneg by lia.
  destruct (Z.eqb_spec n 0) as [->|Hn0]; [by rewrite andb_true_r, orb_false_r|].
  rewrite (proj2 (Z.ltb_ge n 1)), andb_false_r by lia. simpl.
  destruct (Z.leb_spec 2 n); [|by rewrite Z.testbit_neg_r by lia].
  rewrite Z.land_spec, Z.testbit_ones_nonneg, andb_comm by lia. simpl. f_equal.
  destruct (Z.ltb_spec (n - 2) 6), (Z.ltb_spec n 8); lia.
Qed.

(** The bits of the command byte of an element in the queue. *)
Lemma testbit_we_byte g valid cmd rest1 rest2 rest3 rest4 rest5 rest6 rest7 old n :
  0 <= n → Z.testbit (we_cmd (store_we (wrap_of g)
      (mk_we (MEMCPY_WE_CMD valid cmd) rest1 rest2 rest3 rest4 rest5 rest6 rest7) old)) n =
    if n =? 1 then g else if n =? 0 then Z.testbit valid 0
    else (2 <=? n) && (n <? 8) && Z.testbit cmd (n - 2).
Proof.
  intros Hn. destruct (Z.lt_ge_cases n 8) as [H8|H8].
  - rewrite testbit_store_we by lia. destruct (n =? 1); [done|]. by apply testbit_we_cmd.
  - simpl. unfold u8, uwrap. rewrite Z.mod_pow2_bits_high by lia.
    rewrite (proj2 (Z.eqb_neq n 1)), (proj2 (Z.eqb_neq n 0)), (proj2 (Z.ltb_ge n 8)), andb_false_r by lia.
    done.
Qed.

Lemma queue_length_pos queue_size :
  sizeof_work_element <= queue_size < 2 ^ 36 → 1 <= memcpy3_queue_length queue_size.
Proof.
  unfold memcpy3_queue_length, sizeof_work_element, s32. intros Hs.
  rewrite swrap_small; [apply Z.div_le_lower_bound; lia|lia|].
  split; [|apply Z.div_lt_upper_bound; lia]. pose proof (Z.div_pos queue_size 32). lia.
Qed.

(** ** Theorems *)

(** C35: The ring refines an unbounded queue: every sequence of elements can
    be added to a queue of at least one element, and afterwards each of the
    last [n] of them stands in its slot with all its fields, its wrap bit
    being the parity of its round. *)
Theorem weq_refines queue_size wes :
  let n := Z.to_nat (memcpy3_queue_length queue_size) in
  sizeof_work_element <= queue_size < 2 ^ 36 →
  ∃ weq, add_all (memcpy3_init_weq queue_size) wes = Some weq ∧ length (weq_queue weq) = n ∧
    ∀ k we, wes !! k = Some we → (length wes <= k + n)%nat →
      weq_queue weq !! (k mod n)%nat = Some (stored n k we).
Proof.
  intros n Hs. pose proof (queue_length_pos queue_size Hs) as Hq.
  destruct (add_all_holds n (memcpy3_init_weq queue_size) [] wes) as (weq & E & Hh);
    [lia|apply weq_holds_init; lia|].
  exists weq. split_and!; [done|apply Hh|]. apply (wh_slot _ _ _ Hh).
Qed.

(** C36: The wrap bit tells new elements from old ones: after valid elements
    have been added, a device that consumed the first [k] of them, and is not
    overtaken, finds the next one fresh exactly if it has been added. *)
Theorem weq_wrap_detects queue_size wes weq k :
  let n := Z.to_nat (memcpy3_queue_length queue_size) in
  sizeof_work_element <= queue_size < 2 ^ 36 →
  Forall (λ we, Z.testbit (we_cmd we) 0 = true) wes →
  add_all (memcpy3_init_weq queue_size) wes = Some weq →
  (length wes <= k + n)%nat → (k <= length wes)%nat →
  fresh n weq k = true ↔ (k < length wes)%nat.
Proof.
  intros n Hs Hv E Hk Hle. pose proof (queue_length_pos queue_size Hs) as Hq.
  assert (0 < n)%nat as Hn by lia.
  destruct (add_all_holds n (memcpy3_init_weq queue_size) [] wes Hn) as (weq' & E' & Hh);
    [apply weq_holds_init; lia|]. rewrite E in E'. injection E' as <-. simpl in Hh.
  unfold fresh. destruct (decide (k < length wes)%nat) as [Hlt|Hge].
  - destruct (lookup_lt_is_Some_2 wes k Hlt) as [we Hwe].
    rewrite (wh_slot _ _ _ Hh k we Hwe Hk). destruct (stored_bits n k we) as [-> ->].
    rewrite eqb_reflx, (Forall_lookup_1 _ _ _ _ Hv Hwe). done.
  - assert (k = length wes) as -> by lia. rewrite (weq_holds_old _ _ _ Hn Hh).
    split; [|lia]. destruct (wes !! _) as [we|]; [|done].
    destruct (Nat.leb_spec n (length wes)) as [Hnl|]; [|done].
    destruct (stored_bits n (length wes - n) we) as [-> ->].
    replace (length wes) with ((length wes - n) + n)%nat at 2 by lia. rewrite generation_next by done.
    destruct (generation n (length wes - n)); rewrite andb_false_r; done.
Qed.

(** The work element descriptor holds the queue and its depth: for a page
    aligned queue, both are read back from it, the depth modulo 4096. *)
Theorem memcpy_wed_fields queue depth :
  0 <= queue < 2 ^ 64 → queue mod 4096 = 0 → 0 <= depth < 2 ^ 64 →
  Z.land (MEMCPY_WED queue depth) 0xfffffffffffff000 = queue ∧
  Z.land (MEMCPY_WED queue depth) 0xfff = depth mod 4096.
Proof.
  intros Hq Ha Hd. unfold MEMCPY_WED, u64. rewrite !uwrap_small by lia.
  assert (∀ z, Z.land z 0xfff = z mod 4096) as Hlow by (intros z; exact (Z.land_ones z 12 ltac:(lia))).
  assert (Z.land queue 0xfffffffffffff000 = queue) as Hhigh.
  { change 0xfffffffffffff000 with (Z.ldiff (Z.ones 64) (Z.ones 12)).
    apply Z.bits_inj'. intros n Hn. rewrite Z.land_spec, Z.ldiff_spec, !Z.testbit_ones_nonneg by lia.
    destruct (Z.ltb_spec n 64) as [H64|H64]; simpl.
    - destruct (Z.ltb_spec n 12) as [H12|H12]; simpl; [|by rewrite andb_true_r].
      rewrite andb_false_r, <-(Z.mod_pow2_bits_low queue 12) by lia.
      change (2 ^ 12) with 4096. by rewrite Ha, Z.testbit_0_l.
    - rewrite andb_false_r. symmetry. apply (Z.bits_above_log2 queue n); [lia|].
      destruct (decide (queue = 0)) as [->|]; [simpl; lia|]. apply Z.log2_lt_pow2; [lia|].
      eapply Z.lt_le_trans; [apply Hq|]. apply Z.pow_le_mono_r; lia. }
  rewrite Hhigh, !Z.land_lor_distr_l, <-!Z.land_assoc, Hhigh. split.
  - change (Z.land 4095 18446744073709547520) with 0. by rewrite Z.land_0_r, Z.lor_0_r.
  - rewrite Z.land_diag, Hlow, Ha, Z.lor_0_l. apply Hlow.
Qed.

(** The command byte of an element that was added: the valid bit and the
    command are those the caller encoded, and the wrap bit is the queue's. *)
Theorem we_cmd_fields g valid cmd status length extra reserved op src dst old :
  let we := mk_we (MEMCPY_WE_CMD valid cmd) status length extra reserved op src dst in
  let byte := we_cmd (store_we (wrap_of g) we old) in
  Z.land byte MEMCPY_WE_CMD_VALID = valid mod 2 ∧
  Z.shiftr byte 2 = cmd mod 64 ∧
  Z.land byte MEMCPY_WE_CMD_WRAP = wrap_of g.
Proof.
  intros we byte. pose proof (testbit_we_byte g valid cmd status length extra reserved op src dst old) as Hb.
  fold we in Hb. fold byte in Hb. split_and!.
  - rewrite valid_bit, Hb by lia. apply (Z.bit0_mod valid).
  - apply Z.bits_inj'. intros n Hn. rewrite Z.shiftr_spec, Hb by lia.
    rewrite (proj2 (Z.eqb_neq (n + 2) 1)), (proj2 (Z.eqb_neq (n + 2) 0)), (proj2 (Z.leb_le 2 (n + 2))) by lia.
    rewrite Z.add_simpl_r. simpl. destruct (Z.ltb_spec (n + 2) 8).
    + symmetry. apply (Z.mod_pow2_bits_low cmd 6). lia.
    + symmetry. apply (Z.mod_pow2_bits_high cmd 6). lia.
  - apply Z.bits_inj'. intros n Hn. rewrite Z.land_spec, Hb, wrap_bit, testbit_wrap_of by lia.
    by destruct (Z.eqb_spec n 1); rewrite ?andb_true_r, ?andb_false_r.
Qed.

(** ** Instances *)

Definition demo_we (src : Z) : memcpy_work_element :=
  mk_we (MEMCPY_WE_CMD 1 MEMCPY_WE_CMD_COPY) 0 2048 0 [0; 0; 0] 0 src 0.

Lemma weq_refines_witness :
  ∃ weq, add_all (memcpy3_init_weq 100) [demo_we 1; demo_we 2; demo_we 3; demo_we 4] = Some weq ∧
    weq_queue weq !! 0%nat = Some (stored 3 3 (demo_we 4)).
Proof.
  destruct (weq_refines 100 [demo_we 1; demo_we 2; demo_we 3; demo_we 4]) as (weq & E & _ & Hs);
    [unfold sizeof_work_element; lia|].
  exists weq. split; [exact E|]. apply (Hs 3%nat (demo_we 4)); vm_compute; [reflexivity|lia].
Defined.

Lemma weq_wrap_detects_witness :
  ∃ weq, add_all (memcpy3_init_weq 100) [demo_we 1; demo_we 2; demo_we 3; demo_we 4] = Some weq ∧
    (fresh 3 weq 4 = true ↔ (4 < 4)%nat).
Proof.
  eexists. split; [vm_compute; reflexivity|].
  apply (weq_wrap_detects 100 [demo_we 1; demo_we 2; demo_we 3; demo_we 4]);
    [unfold sizeof_work_element; lia|repeat constructor|vm_compute; reflexivity|simpl; lia|simpl; lia].
Defined.

Lemma memcpy_wed_fields_witness :
  Z.land (MEMCPY_WED 0x7f0000001000 (QUEUE_SIZE / CACHELINESIZE)) 0xfffffffffffff000 = 0x7f0000001000 ∧
  Z.land (MEMCPY_WED 0x7f0000001000 (QUEUE_SIZE / CACHELINESIZE)) 0xfff = 4095.
Proof.
  apply (memcpy_wed_fields 0x7f0000001000 (QUEUE_SIZE / CACHELINESIZE));
    [lia|vm_compute; reflexivity|vm_compute; split; [discriminate|reflexivity]].
Defined.
