(* ===== verification/Getopt.v ===== *)
(** * Getopt: what the applications use of the C library

    [getopt] with a short option string that starts with [+] (the first
    argument that is no option ends the options), [atoi], [struct timeval]
    with [timeradd] and [timercmp], and [printf].  The applications are
    samples/memcpy and the programs of afutests. *)

From S2P Require Import Prelude Format Types World Logic Messages Names.
Open Scope Z_scope.

(** ** getopt *)

(** One result of [getopt]: the option, its argument, and the diagnostic the
    library prints when it answers [?]. *)
Record opt : Type := mk_opt { opt_char : ascii; opt_arg : option string; opt_diag : option string }.

(** Does the option string know [c], and does the option take an argument? *)
Fixpoint opt_kind (optstring : string) (c : ascii) : option bool :=
  match optstring with
  | EmptyString => None
  | String d rest =>
      if Ascii.eqb c d && negb (Ascii.eqb c ":") && negb (Ascii.eqb c "+")
      then Some (match rest with String e _ => Ascii.eqb e ":" | EmptyString => false end)
      else opt_kind rest c
  end.

Definition bad_option (name : string) (c : ascii) : opt :=
  mk_opt "?" None (Some (name +:+ ": invalid option -- '" +:+ String c "'" +:+ newline)).

Definition missing_argument (name : string) (c : ascii) : opt :=
  mk_opt "?" None (Some (name +:+ ": option requires an argument -- '" +:+ String c "'" +:+ newline)).

(** The letters of one argument, and the last one when it still wants its
    argument, which is then the next element of [argv]. *)
Fixpoint opt_letters (name optstring letters : string) : list opt * option ascii :=
  match letters with
  | EmptyString => ([], None)
  | String c rest =>
      match opt_kind optstring c with
      | None => let '(os, want) := opt_letters name optstring rest in (bad_option name c :: os, want)
      | Some false => let '(os, want) := opt_letters name optstring rest in (mk_opt c None None :: os, want)
      | Some true =>
          match rest with
          | EmptyString => ([], Some c)
          | _ => ([mk_opt c (Some rest) None], None)
          end
      end
  end.

(** The options of [argv[1..]], and the arguments from [argv[optind]] on.
    [want] is an option that waits for its argument. *)
Fixpoint getopt_from (name optstring : string) (want : option ascii) (args : list string) :
    list opt * list string :=
  match want, args with
  | Some c, [] => ([missing_argument name c], [])
  | Some c, a :: args =>
      let '(os, rest) := getopt_from name optstring None args in (mk_opt c (Some a) None :: os, rest)
  | None, [] => ([], [])
  | None, a :: args' =>
      match a with
      | String "-" (String c letters) =>
          if String.eqb a "--" then ([], args') else
          let '(os, want) := opt_letters name optstring (String c letters) in
          let '(os', rest) := getopt_from name optstring want args' in (os ++ os', rest)
      | _ => ([], args)
      end
  end.

Definition getopt (name optstring : string) (args : list string) : list opt * list string :=
  getopt_from name optstring None args.

Example getopt_cluster :
  getopt "memcpy" "+hs:it:v" ["-iv"; "-t"; "5"; "x"; "-h"] =
  ([mk_opt "i" None None; mk_opt "v" None None; mk_opt "t" (Some "5") None], ["x"; "-h"]).
Proof. reflexivity. Qed.

(** ** atoi *)

(** [(int) strtol(s, NULL, 10)]; [strtol] saturates. *)
Definition atoi (s : string) : Z :=
  let '(negative, s) := scan_sign (skip_space s) in
  let value := (if negative then Z.opp else id) (scan_digits 10 s 0).1 in
  s32 (Z.max (- 2 ^ 63) (Z.min (2 ^ 63 - 1) value)).

Example atoi_sign : atoi " -12x" = -12. Proof. reflexivity. Qed.

(** ** struct timeval *)

Definition timeval : Set := Z * Z.   (* tv_sec, tv_usec *)

Definition timeradd (a b : timeval) : timeval :=
  let usec := a.2 + b.2 in
  if 1000000 <=? usec then (a.1 + b.1 + 1, usec - 1000000) else (a.1 + b.1, usec).

(** [timercmp(a, b, >)] *)
Definition timer_gt (a b : timeval) : bool := if a.1 =? b.1 then b.2 <? a.2 else b.1 <? a.1.

(** A well-formed [struct timeval] as a number of microseconds. *)
Definition usecs (a : timeval) : Z := 1000000 * a.1 + a.2.
Definition timeval_wf (a : timeval) : Prop := 0 <= a.2 < 1000000.

Lemma timer_gt_usecs a b : timeval_wf a → timeval_wf b → timer_gt a b = (usecs b <? usecs a).
Proof.
  unfold timer_gt, usecs, timeval_wf. intros Ha Hb. destruct (Z.eqb_spec a.1 b.1);
    [destruct (Z.ltb_spec b.2 a.2)|destruct (Z.ltb_spec b.1 a.1)];
    destruct (Z.ltb_spec (1000000 * b.1 + b.2) (1000000 * a.1 + a.2)); lia.
Qed.

Lemma timeradd_usecs a b : usecs (timeradd a b) = usecs a + usecs b.
Proof. unfold timeradd, usecs. destruct (Z.leb_spec 1000000 (a.2 + b.2)); simpl; lia. Qed.

Lemma timeradd_wf a b : timeval_wf a → timeval_wf b → timeval_wf (timeradd a b).
Proof. unfold timeradd, timeval_wf. destruct (Z.leb_spec 1000000 (a.2 + b.2)); simpl; lia. Qed.

(** ** Integers and output *)

Section libc.
Context {K : Type} `{Platform K} `{Abi}.
Implicit Types (w : world K).

(** [a * b] on [int]: an overflow is undefined. *)
Definition int_mul (a b : Z) : M K Z :=
  let z := a * b in if (- 2 ^ 31 <=? z) && (z <? 2 ^ 31) then mret z else undefined.

(** [printf(fmt, ...)] *)
Definition printf (fmt : string) (args : list arg) : M K unit :=
  match vformat fmt args with Some text => call (SStdout text) | None => undefined end.

(** [perror(what)] *)
Definition perror (what : string) : M K unit :=
  e ← call SErrno; call (SStderr (what +:+ ": " +:+ strerror e +:+ newline)).

Lemma wp_int_mul a b (Q : Z → world K → Prop) w :
  - 2 ^ 31 <= a * b < 2 ^ 31 → Q (a * b) w → wp (int_mul a b) Q w.
Proof.
  intros [H1 H2] HQ. unfold int_mul.
  by rewrite (proj2 (Z.leb_le _ _) H1), (proj2 (Z.ltb_lt _ _) H2).
Qed.

Lemma wp_printf fmt args (Q : unit → world K → Prop) w :
  conforms fmt args = true → (∀ w', quiet w w' → Q tt w') → wp (printf fmt args) Q w.
Proof.
  intros Hc HQ. apply vformat_conforms in Hc as [text Ht]. unfold printf. rewrite Ht.
  apply wp_call_silent; [done|]. intros []. apply HQ.
Qed.

Lemma wp_perror what w (Q : unit → world K → Prop) : (∀ w', quiet w w' → Q tt w') → wp (perror what) Q w.
Proof.
  intros HQ. apply wp_bind, wp_call_silent; [done|]. intros e w1 H1. apply wp_call_silent; [done|].
  intros [] w2 H2. apply HQ. by etrans.
Qed.

End libc.
