(* ===== verification/MemcpySample.v ===== *)
(** * MemcpySample: samples/memcpy/memcpy.c

    The sample program that has the memcpy AFU copy a buffer: it opens the
    AFU, attaches to it, maps its registers, allocates interrupts, fills a
    queue of work elements in its own memory, sets the valid bit of the first
    one and waits for the AFU to be done.  The queue and the buffers are
    memory the AFU reads and writes at any time, so every access is an
    operation of the outside; pointers are addresses.  The loops that wait
    run on fuel: how much is enough is the subject of MemcpyWait. *)

From S2P Require Import Prelude Format Types World Logic Messages Buffer Mmio Irq Event Afu.
From S2P Require Import Getopt Memcpy.
Open Scope Z_scope.

Definition AFU_NAME : string := "IBM,MEMCPY3".
Definition MEMCPY_SIZE : Z := 2048.

(** global mmio registers *)
Definition MEMCPY_AFU_GLOBAL_CFG : Z := 0.
Definition MEMCPY_AFU_GLOBAL_TRACE : Z := 0x20.

(** per-process mmio registers *)
Definition MEMCPY_AFU_PP_WED : Z := 0.
Definition MEMCPY_AFU_PP_STATUS : Z := 0x10.
Definition MEMCPY_AFU_PP_CTRL : Z := 0x18.
Definition MEMCPY_AFU_PP_CTRL_Restart : Z := Z.shiftl 0x1 0.
Definition MEMCPY_AFU_PP_IRQ : Z := 0x28.

(** The null MMIO handle. *)
Definition no_mmio : ocxl_mmio_h := mk_mmio_h NULL 0.

(** [struct memcpy_weq], its elements in memory: addresses *)
Record weq_mem : Set := mk_weq_mem {
  wm_queue : Z;
  wm_next : Z;
  wm_last : Z;
  wm_wrap : Z;
  wm_count : Z
}.

#[export] Instance eta_weq_mem : Eta weq_mem := fun q =>
  mk_weq_mem (wm_queue q) (wm_next q) (wm_last q) (wm_wrap q) (wm_count q).

(** The work elements of one copy. *)
Record elements : Set := mk_elements {
  el_memcpy : Z;
  el_irq : Z;
  el_wake : Z;
  el_stop : Z;
  el_irq_handle : Z
}.

Record memcpy_test_args : Set := mk_args {
  completion : Z;
  verbose : bool;
  completion_timeout : Z
}.

#[export] Instance eta_args : Eta memcpy_test_args := fun a =>
  mk_args (completion a) (verbose a) (completion_timeout a).

(** How the program ended: [exit(status)] or [return status]. *)
Inductive ended : Set := Exited (status : Z) | Returned (status : Z).

Section sample.
Context {K : Type} `{Platform K} `{Abi}.
Implicit Types (w : world K).

Definition LOG_ERR (fmt : string) (args : list arg) : M K unit := fprintf_stderr (fmt +:+ newline) args.
Definition LOG_INF (fmt : string) (args : list arg) : M K unit := printf (fmt +:+ newline) args.

Definition htole16 (v : Z) : Z := if host_little_endian then v else bswap 2 v.

(** ** Memory of the process *)

(** A volatile access of [n] bytes through a pointer. *)
Definition load_mem (p : Z) (offset : Z) (n : nat) : M K Z :=
  if p =? NULL then undefined else
  bs ← call (SLoad (p + offset) n); mret (of_native_bytes bs).

Definition store_mem (p : Z) (offset : Z) (n : nat) (v : Z) : M K unit :=
  if p =? NULL then undefined else call (SStore (p + offset) (native_bytes n v)).

Definition memset (p c n : Z) : M K unit :=
  if p =? NULL then undefined else call (SMemset p c n).

Definition aligned_alloc (alignment size : Z) : M K Z := call (SAlignedAlloc alignment size).

(** Offsets of the fields of [struct memcpy_work_element] *)
Definition we_cmd_at : Z := 0.
Definition we_status_at : Z := 1.
Definition we_length_at : Z := 2.
Definition we_cmd_extra_at : Z := 4.
Definition we_atomic_op_at : Z := 8.
Definition we_src_at : Z := 16.
Definition we_dst_at : Z := 24.

Definition init_weq (queue_size : Z) : M K weq_mem :=
  page ← call SPagesize;
  queue ← aligned_alloc page queue_size;
  memset queue 0 queue_size ;;
  mret (mk_weq_mem queue queue
          (queue + sizeof_work_element * (memcpy3_queue_length queue_size - 1)) 0 0).

(** A store outside the ring is undefined. *)
Definition add_we (weq : weq_mem) (we : memcpy_work_element) : M K (weq_mem * Z) :=
  let new_we := wm_next weq in
  if (new_we <? wm_queue weq) || (wm_last weq <? new_we) then undefined else
  store_mem new_we we_status_at 1 (we_status we) ;;
  store_mem new_we we_length_at 2 (we_length we) ;;
  store_mem new_we we_cmd_extra_at 1 (we_cmd_extra we) ;;
  store_mem new_we we_atomic_op_at 8 (we_atomic_op we) ;;
  store_mem new_we we_src_at 8 (we_src we) ;;
  store_mem new_we we_dst_at 8 (we_dst we) ;;
  call SSync ;;
  store_mem new_we we_cmd_at 1
    (u8 (Z.lor (Z.land (we_cmd we) (Z.lnot MEMCPY_WE_CMD_WRAP)) (wm_wrap weq))) ;;
  let next := new_we + sizeof_work_element in
  mret (if wm_last weq <? next
        then weq <| wm_wrap := Z.lxor (wm_wrap weq) MEMCPY_WE_CMD_WRAP |> <| wm_next := wm_queue weq |>
        else weq <| wm_next := next |>, new_we).

(** [work_element->status] *)
Definition load_status (we : Z) : M K Z := load_mem we we_status_at 1.

(** ** The AFU *)

(** A local variable a function was to store its result in: reading it when
    nothing was stored is undefined. *)
Definition stored_in {A} (x : option A) : M K A :=
  match x with Some a => mret a | None => undefined end.

Definition global_setup (afu : ptr) : M K bool :=
  '(err, global) ← ocxl_mmio_map afu OCXL_GLOBAL_MMIO;
  if negb (is_ok err) then mret true else
  global ← stored_in global;
  '(err, cfg) ← ocxl_mmio_read64 global MEMCPY_AFU_GLOBAL_CFG OCXL_MMIO_LITTLE_ENDIAN;
  if negb (is_ok err) then
    LOG_ERR "Reading global config register failed" [] ;;
    mret true
  else
  cfg ← stored_in cfg;
  LOG_INF "AFU config = 0x%lx" [AInt cfg] ;;
  let reg := 0x8008008000000000 in
  err ← ocxl_mmio_write64 global MEMCPY_AFU_GLOBAL_TRACE OCXL_MMIO_LITTLE_ENDIAN reg;
  if negb (is_ok err) then
    LOG_ERR "Writing trace register failed" [] ;;
    mret true
  else
  LOG_INF "traces reset and rearmed" [] ;;
  mret false.

Definition restart_afu_if_stopped (pp_mmio : ocxl_mmio_h) : M K bool :=
  err ← ocxl_mmio_write64 pp_mmio MEMCPY_AFU_PP_CTRL OCXL_MMIO_LITTLE_ENDIAN MEMCPY_AFU_PP_CTRL_Restart;
  if negb (is_ok err) then
    LOG_ERR "couldn't restart memcpy after interrupt" [] ;;
    mret true
  else mret false.

(** [event], once [ocxl_afu_event_check] has answered that there is one *)
Definition the_event (events : list (option ocxl_event)) : M K ocxl_event :=
  match events with Some e :: _ => mret e | _ => undefined end.

(** The [do] loop of [wait_for_irq]. *)
Fixpoint wait_for_irq_loop (fuel : nat) (timeout : Z) (afu : ptr) (pp_mmio : ocxl_mmio_h)
    (irq_ea err_ea : Z) (check_timeout ret : Z) : M K Z :=
  match fuel with
  | O => diverge
  | S fuel' =>
      '(event_count, events) ← ocxl_afu_event_check fuel afu check_timeout 1;
      if event_count <? 0 then mret 0x04
      else if event_count =? 0 then
        if c_bool timeout then
          LOG_ERR "Timeout waiting for interrupt" [] ;;
          mret (Z.lor ret 0x08)
        else mret ret
      else
      let again ret :=
        if event_count =? 1 then wait_for_irq_loop fuel' timeout afu pp_mmio irq_ea err_ea 0 ret
        else mret ret in
      event ← the_event events;
      match event with
      | OCXL_EVENT_IRQ e =>
          if c_bool irq_ea && (ev_handle e =? irq_ea) then
            LOG_INF "AFU completion interrupt received" [] ;;
            restart_afu_if_stopped pp_mmio ;;
            mret 0
          else if ev_handle e =? err_ea then
            LOG_ERR "AFU error interrupt received" [] ;;
            again (Z.lor ret 0x01)
          else again ret
      | OCXL_EVENT_TRANSLATION_FAULT e =>
          LOG_ERR "Translation fault detected, addr=%p count=%lu" [AInt (ev_addr e); AInt (ev_fault_count e)] ;;
          again (Z.lor ret 0x02)
      end
  end.

Definition wait_for_irq (fuel : nat) (timeout : Z) (afu : ptr) (pp_mmio : ocxl_mmio_h)
    (irq_ea err_ea : Z) : M K Z :=
  check_timeout ← int_mul timeout 1000;
  wait_for_irq_loop fuel timeout afu pp_mmio irq_ea err_ea check_timeout 0.

Definition gettimeofday : M K timeval := call SGettimeofday.

(** The [for] loop of [wait_for_status]. *)
Fixpoint wait_for_status_loop (fuel : nat) (afu : ptr) (work_element err_ea : Z)
    (test_timeout temp : timeval) : M K Z :=
  match fuel with
  | O => diverge
  | S fuel' =>
      if timer_gt temp test_timeout then
        LOG_ERR "timeout polling for completion" [] ;;
        mret 0x08
      else
      ret ← wait_for_irq fuel 0 afu no_mmio 0 err_ea;
      if c_bool ret then mret ret else
      status ← load_status work_element;
      if c_bool status then mret 0 else
      temp ← gettimeofday;
      wait_for_status_loop fuel' afu work_element err_ea test_timeout temp
  end.

Definition wait_for_status (fuel : nat) (timeout : Z) (afu : ptr) (work_element err_ea : Z) : M K Z :=
  let temp := (timeout, 0) in
  now ← gettimeofday;
  wait_for_status_loop fuel afu work_element err_ea (timeradd now temp) temp.

(** The [for] loop of [wait_for_wake_host_thread]: the status was set, or it
    is too late. *)
Fixpoint wake_loop (fuel : nat) (work_element : Z) (test_timeout : timeval) : M K bool :=
  match fuel with
  | O => diverge
  | S fuel =>
      ocxl_wait ;;
      status ← load_status work_element;
      if c_bool status then mret true else
      temp ← gettimeofday;
      if timer_gt temp test_timeout then
        LOG_ERR "timeout waiting for wake_host_thread" [] ;;
        mret false
      else wake_loop fuel work_element test_timeout
  end.

Definition wait_for_wake_host_thread (fuel : nat) (timeout : Z) (afu : ptr) (pp_mmio : ocxl_mmio_h)
    (work_element irq_ea err_ea : Z) : M K Z :=
  now ← gettimeofday;
  woken ← wake_loop fuel work_element (timeradd now (timeout, 0));
  if (woken : bool) then mret 0 else
  ret ← wait_for_irq fuel 0 afu pp_mmio irq_ea err_ea;
  if c_bool ret then mret ret else mret 8.

Definition display_afu_status (pp_mmio : ocxl_mmio_h) : M K unit :=
  '(_, status) ← ocxl_mmio_read64 pp_mmio MEMCPY_AFU_PP_STATUS OCXL_MMIO_LITTLE_ENDIAN;
  let status := default 0 status in
  when (c_bool status) (LOG_INF "AFU Status register is %lx" [AInt status]).

(** ** [afu_memcpy]

    A step that can [goto err] answers [None] there. *)

(** [memset(&we, 0, sizeof(we))] and the assignments that follow *)
Definition copy_we (size src dst : Z) : memcpy_work_element :=
  mk_we (MEMCPY_WE_CMD 0 MEMCPY_WE_CMD_COPY) 0 (htole16 (u16 size)) 0 [0; 0; 0] 0 (htole64 src) (htole64 dst).

Definition irq_we (handle : Z) : memcpy_work_element :=
  mk_we (MEMCPY_WE_CMD 1 MEMCPY_WE_CMD_IRQ) 0 0 0 [0; 0; 0] 0 (htole64 handle) 0.

Definition wake_we (handle tid : Z) : memcpy_work_element :=
  mk_we (MEMCPY_WE_CMD 1 MEMCPY_WE_CMD_WAKE_HOST_THREAD) 0 (htole16 tid) 0x01 [0; 0; 0] 0 (htole64 handle) 0.

Definition stop_we : memcpy_work_element :=
  mk_we (MEMCPY_WE_CMD 1 MEMCPY_WE_CMD_STOP) 0 0 0 [0; 0; 0] 0 0 0.

(** [ocxl_irq_alloc] and [ocxl_irq_get_handle] *)
Definition alloc_irq (afu : ptr) : M K (option Z) :=
  '(err, irq) ← ocxl_irq_alloc afu NULL;
  if negb (is_ok err) then mret None else
  irq ← stored_in irq;
  handle ← ocxl_irq_get_handle afu irq;
  mret (Some handle).

(** Attach, map the per-PASID area, tell the AFU the error IRQ and the WED:
    the area and the handle of the error IRQ. *)
Definition setup_afu (afu : ptr) (wed : Z) : M K (option (ocxl_mmio_h * Z)) :=
  err ← ocxl_afu_attach afu OCXL_ATTACH_FLAGS_NONE;
  if negb (is_ok err) then mret None else
  '(err, pp_mmio) ← ocxl_mmio_map afu OCXL_PER_PASID_MMIO;
  if negb (is_ok err) then mret None else
  pp_mmio ← stored_in pp_mmio;
  err_irq ← alloc_irq afu;
  match err_irq with
  | None => mret None
  | Some err_irq_handle =>
      err ← ocxl_mmio_write64 pp_mmio MEMCPY_AFU_PP_IRQ OCXL_MMIO_LITTLE_ENDIAN err_irq_handle;
      if negb (is_ok err) then mret None else
      err ← ocxl_mmio_write64 pp_mmio MEMCPY_AFU_PP_WED OCXL_MMIO_LITTLE_ENDIAN wed;
      if negb (is_ok err) then mret None else
      mret (Some (pp_mmio, err_irq_handle))
  end.

(** The element that signals completion: the queue, [irq_element],
    [wake_element] and [afu_irq_handle]. *)
Definition completion_we (ppc64 : bool) (completion : Z) (afu : ptr) (weq : weq_mem) :
    M K (option (weq_mem * Z * Z * Z)) :=
  if completion =? 1 then
    handle ← alloc_irq afu;
    match handle with
    | None => mret None
    | Some handle =>
        LOG_INF "irq EA = %lx" [AInt handle] ;;
        '(weq, irq_element) ← add_we weq (irq_we handle);
        mret (Some (weq, irq_element, NULL, handle))
    end
  else if ppc64 && (completion =? 2) then
    handle ← alloc_irq afu;
    match handle with
    | None => mret None
    | Some handle =>
        '(err, tid) ← ocxl_afu_get_p9_thread_id afu;
        if negb (is_ok err) then mret None else
        tid ← stored_in tid;
        LOG_INF "TID for wake_host_thread/wait = 0x%x" [AInt tid] ;;
        '(weq, wake_element) ← add_we weq (wake_we handle tid);
        mret (Some (weq, NULL, wake_element, handle))
    end
  else mret (Some (weq, NULL, NULL, 0)).

(** [element->cmd |= MEMCPY_WE_CMD_VALID] *)
Definition set_valid (element : Z) : M K unit :=
  cmd ← load_mem element we_cmd_at 1;
  store_mem element we_cmd_at 1 (Z.lor cmd MEMCPY_WE_CMD_VALID).

(** Everything up to the start of the copy. *)
Definition afu_memcpy_start (ppc64 : bool) (afu : ptr) (src dst size completion : Z) :
    M K (option (ocxl_mmio_h * Z * elements)) :=
  weq ← init_weq QUEUE_SIZE;
  let wed := MEMCPY_WED (wm_queue weq) (QUEUE_SIZE / CACHELINESIZE) in
  let memcpy_we := copy_we size src dst in
  LOG_INF "WED=0x%lx  src=%p  dst=%p size=%u" [AInt wed; AInt src; AInt dst; AInt MEMCPY_SIZE] ;;
  ready ← setup_afu afu wed;
  match ready with
  | None => mret None
  | Some (pp_mmio, err_irq_handle) =>
      '(weq, memcpy_element) ← add_we weq memcpy_we;
      signal ← completion_we ppc64 completion afu weq;
      match signal with
      | None => mret None
      | Some (weq, irq_element, wake_element, afu_irq_handle) =>
          '(weq, stop_element) ← add_we weq stop_we;
          call SSync ;;
          set_valid memcpy_element ;;
          mret (Some (pp_mmio, err_irq_handle,
                      mk_elements memcpy_element irq_element wake_element stop_element afu_irq_handle))
      end
  end.

(** [err_status: display_afu_status(pp_mmio); goto err;] *)
Definition err_status (pp_mmio : ocxl_mmio_h) : M K bool := display_afu_status pp_mmio ;; mret true.

(** [if (element->status != 1) { LOG_ERR(...); goto err_status; }] *)
Definition expect_done (pp_mmio : ocxl_mmio_h) (element : Z) (what : string) (k : M K bool) : M K bool :=
  status ← load_status element;
  if status =? 1 then k else
  status ← load_status element;
  LOG_ERR ("unexpected status 0x%x for " +:+ what) [AInt status] ;;
  err_status pp_mmio.

(** Waiting for the end of the copy. *)
Definition afu_memcpy_finish (fuel : nat) (ppc64 : bool) (afu : ptr) (completion timeout : Z)
    (pp_mmio : ocxl_mmio_h) (err_irq_handle : Z) (el : elements) : M K bool :=
  rc ← (if completion =? 1 then
          wait_for_irq fuel timeout afu pp_mmio (el_irq_handle el) err_irq_handle
        else if ppc64 && (completion =? 2) then
          wait_for_wake_host_thread fuel timeout afu pp_mmio (el_wake el) (el_irq_handle el) err_irq_handle
        else wait_for_status fuel timeout afu (el_memcpy el) err_irq_handle);
  if c_bool rc then err_status pp_mmio else
  expect_done pp_mmio (el_memcpy el) "copy"
    ((if completion =? 1 then expect_done pp_mmio (el_irq el) "IRQ" else id)
      ((if completion =? 2 then expect_done pp_mmio (el_wake el) "wake" else id)
        (wait_for_status fuel timeout afu (el_stop el) err_irq_handle ;;
         expect_done pp_mmio (el_stop el) "stop" (mret false)))).

(** false on success *)
Definition afu_memcpy (fuel : nat) (ppc64 : bool) (afu : ptr) (src dst size completion timeout : Z) : M K bool :=
  started ← afu_memcpy_start ppc64 afu src dst size completion;
  match started with
  | None => mret true
  | Some (pp_mmio, err_irq_handle, el) =>
      afu_memcpy_finish fuel ppc64 afu completion timeout pp_mmio err_irq_handle el
  end.

(** ** [main] *)

Definition usage_text (ppc64 : bool) (name : string) : list string :=
  ["Usage: " +:+ name +:+ " [ options ]"; "Options:";
   tab +:+ "-i" +:+ tab +:+ tab +:+ "Use interrupts to indicate completion"] ++
  (if ppc64 then [tab +:+ "-w" +:+ tab +:+ tab +:+ "Use wake_host_thread/wait to indicate completion"] else []) ++
  [tab +:+ "-t <timeout>" +:+ tab +:+ "Seconds to wait for the AFU to signal completion";
   tab +:+ "-v" +:+ tab +:+ tab +:+ "Show interactions with the AFU"].

Fixpoint print_lines (lines : list string) : M K unit :=
  match lines with
  | [] => mret tt
  | line :: lines => call (SStderr (line +:+ newline)) ;; print_lines lines
  end.

Definition usage (ppc64 : bool) (name : string) : M K ended :=
  print_lines (usage_text ppc64 name) ;; mret (Exited 1).

Definition optstring (ppc64 : bool) : string := "+hs:it:v" +:+ (if ppc64 then "w" else "").

(** The [while (1)] loop over the options; [None] when [usage] ended the
    program. *)
Fixpoint parse_opts (ppc64 : bool) (name : string) (os : list opt) (args : memcpy_test_args) :
    M K (option memcpy_test_args) :=
  match os with
  | [] => mret (Some args)
  | o :: os =>
      (match opt_diag o with Some text => call (SStderr text) | None => mret tt end) ;;
      let c := opt_char o in
      if Ascii.eqb c "?" || Ascii.eqb c "h" then usage ppc64 name ;; mret None
      else parse_opts ppc64 name os
        (if Ascii.eqb c "i" then args <| completion := 1 |>
         else if ppc64 && Ascii.eqb c "w" then args <| completion := 2 |>
         else if Ascii.eqb c "t" then args <| completion_timeout := atoi (default "" (opt_arg o)) |>
         else if Ascii.eqb c "v" then args <| verbose := true |>
         else args)
  end.

Definition messages_of (args : memcpy_test_args) : Z :=
  if verbose args then Z.lor OCXL_ERRORS OCXL_TRACING else OCXL_ERRORS.

(** The loop of [fill_buffer], from [i] on *)
Fixpoint fill_from (buf : Z) (i : Z) (n : nat) : M K unit :=
  match n with
  | O => mret tt
  | S n => store_mem buf i 1 (Z.land i 0xff) ;; fill_from buf (i + 1) n
  end.

Definition memcmp (a b : Z) (n : nat) : M K bool :=
  if (a =? NULL) || (b =? NULL) then undefined else
  xs ← call (SLoad a n); ys ← call (SLoad b n); mret (negb (bool_decide (xs = ys))).

(** The program once its AFU is open. *)
Definition run_copy (fuel : nat) (ppc64 : bool) (args : memcpy_test_args) (afu : ptr) : M K ended :=
  ocxl_afu_enable_messages afu (messages_of args) ;;
  failed ← global_setup afu;
  if (failed : bool) then mret (Exited 1) else
  src ← aligned_alloc 64 MEMCPY_SIZE;
  dst ← aligned_alloc 64 MEMCPY_SIZE;
  fill_from src 0 (Z.to_nat MEMCPY_SIZE) ;;
  memset dst 0 MEMCPY_SIZE ;;
  failed ← afu_memcpy fuel ppc64 afu src dst MEMCPY_SIZE (completion args) (completion_timeout args);
  if (failed : bool) then
    ocxl_afu_close afu ;;
    LOG_ERR "memcpy failed" [] ;;
    mret (Returned 1)
  else
  differ ← memcmp dst src (Z.to_nat MEMCPY_SIZE);
  (if (differ : bool) then LOG_ERR "Memory contents do not match" []
   else LOG_INF "Memory contents match" []) ;;
  ocxl_afu_close afu ;;
  mret (Returned 0).

Definition main (fuel : nat) (ppc64 : bool) (name : string) (argv : list string) : M K ended :=
  let '(os, rest) := getopt name (optstring ppc64) argv in
  parsed ← parse_opts ppc64 name os (mk_args 0 false (-1));
  match parsed with
  | None => mret (Exited 1)
  | Some args =>
      let args := if completion_timeout args =? -1 then args <| completion_timeout := 10 |> else args in
      match rest with
      | arg :: _ =>
          fprintf_stderr ("Error: Unexpected argument '%s'" +:+ newline) [AStr arg] ;;
          usage ppc64 name
      | [] =>
          ocxl_enable_messages (messages_of args) ;;
          '(err, afu) ← ocxl_afu_open AFU_NAME;
          if negb (is_ok err) then
            LOG_ERR "Could not open AFU '%s'" [AStr AFU_NAME] ;;
            mret (Exited 1)
          else run_copy fuel ppc64 args afu
      end
  end.

End sample.
