(* ===== verification/MemcpyQueue.v ===== *)
(** * MemcpyQueue: the queue in memory is the ring

    samples/memcpy/memcpy.c fills its queue with stores to memory
    ([MemcpySample.add_we]); Memcpy.v proves what a ring of work elements does
    as a data structure ([memcpy3_add_we]).  On a machine whose memory
    remembers what is stored, the two agree: the memory of the queue always
    decodes to the ring. *)

From S2P Require Import Prelude Format Types World Logic Messages Buffer Mmio MmioAccess Irq Event Afu.
From S2P Require Import Memcpy Getopt MemcpySample.
Open Scope Z_scope.

(** ** Memory as a function *)

Section memory.
Context `{Abi}.
Implicit Types (f g : Z → Z).

Definition put (addr : Z) (bs : list Z) f : Z → Z :=
  λ q, if addr <=? q then default (f q) (bs !! Z.to_nat (q - addr)) else f q.

Definition bytes_of f (addr : Z) (n : nat) : list Z := (λ i, f (addr + Z.of_nat i)) <$> seq 0 n.

Definition field_of f (addr : Z) (n : nat) : Z := of_native_bytes (bytes_of f addr n).

Lemma bytes_of_ext f g addr n : (∀ q, f q = g q) → bytes_of f addr n = bytes_of g addr n.
Proof. intros E. apply list_fmap_ext. intros i x _. apply E. Qed.

Lemma length_native_bytes n v : length (native_bytes n v) = n.
Proof. unfold native_bytes, be_bytes. destruct host_little_endian; [|rewrite length_reverse]; apply length_le_bytes. Qed.

Lemma native_bytes_are_bytes n v : Forall is_byte (native_bytes n v).
Proof.
  unfold native_bytes, be_bytes. destruct host_little_endian; [|apply Forall_reverse]; apply le_bytes_are_bytes.
Qed.

Lemma of_native_native_bytes n v : 0 <= v < 256 ^ Z.of_nat n → of_native_bytes (native_bytes n v) = v.
Proof.
  intros Hv. unfold of_native_bytes, native_bytes, of_be_bytes, be_bytes.
  destruct host_little_endian; rewrite ?reverse_involutive, of_le_le_bytes; by apply Z.mod_small.
Qed.

Lemma bytes_put_same addr bs f n : length bs = n → bytes_of (put addr bs f) addr n = bs.
Proof.
  intros <-. apply list_eq. intros i. unfold bytes_of. rewrite list_lookup_fmap.
  destruct (decide (i < length bs)%nat) as [Hi|Hi].
  - rewrite lookup_seq_lt by done. simpl. unfold put.
    destruct (Z.leb_spec addr (addr + Z.of_nat i)); [|lia].
    replace (Z.to_nat (addr + Z.of_nat i - addr)) with i by lia.
    destruct (lookup_lt_is_Some_2 bs i Hi) as [b ->]. done.
  - rewrite lookup_seq_ge, lookup_ge_None_2 by lia. done.
Qed.

Lemma bytes_put_other addr bs f addr' n :
  addr' + Z.of_nat n <= addr ∨ addr + Z.of_nat (length bs) <= addr' →
  bytes_of (put addr bs f) addr' n = bytes_of f addr' n.
Proof.
  intros Ho. apply list_fmap_ext. intros j i Hj. apply lookup_seq in Hj as [-> Hj]. unfold put.
  destruct (Z.leb_spec addr (addr' + Z.of_nat (0 + j))); [|done].
  rewrite lookup_ge_None_2 by lia. done.
Qed.

Lemma field_put_same addr n v f : 0 <= v < 256 ^ Z.of_nat n → field_of (put addr (native_bytes n v) f) addr n = v.
Proof. intros Hv. unfold field_of. rewrite bytes_put_same by apply length_native_bytes. by apply of_native_native_bytes. Qed.

Lemma field_put_other addr n v f addr' n' :
  addr' + Z.of_nat n' <= addr ∨ addr + Z.of_nat n <= addr' →
  field_of (put addr (native_bytes n v) f) addr' n' = field_of f addr' n'.
Proof. intros Ho. unfold field_of. rewrite bytes_put_other; [done|]. by rewrite length_native_bytes. Qed.

(** ** Work elements *)

(** The element at [addr]. *)
Definition we_of f (addr : Z) : memcpy_work_element :=
  mk_we (field_of f (addr + we_cmd_at) 1) (field_of f (addr + we_status_at) 1) (field_of f (addr + we_length_at) 2)
    (field_of f (addr + we_cmd_extra_at) 1) (bytes_of f (addr + 5) 3) (field_of f (addr + we_atomic_op_at) 8)
    (field_of f (addr + we_src_at) 8) (field_of f (addr + we_dst_at) 8).

(** The fields fit their widths. *)
Record we_fits (we : memcpy_work_element) : Prop := {
  wf_status : 0 <= we_status we < 256;
  wf_length : 0 <= we_length we < 65536;
  wf_cmd_extra : 0 <= we_cmd_extra we < 256;
  wf_atomic_op : 0 <= we_atomic_op we < 2 ^ 64;
  wf_src : 0 <= we_src we < 2 ^ 64;
  wf_dst : 0 <= we_dst we < 2 ^ 64
}.

Definition put_we (addr wrap : Z) (we : memcpy_work_element) f : Z → Z :=
  put (addr + we_cmd_at) (native_bytes 1 (u8 (Z.lor (Z.land (we_cmd we) (Z.lnot MEMCPY_WE_CMD_WRAP)) wrap)))
    (put (addr + we_dst_at) (native_bytes 8 (we_dst we))
      (put (addr + we_src_at) (native_bytes 8 (we_src we))
        (put (addr + we_atomic_op_at) (native_bytes 8 (we_atomic_op we))
          (put (addr + we_cmd_extra_at) (native_bytes 1 (we_cmd_extra we))
            (put (addr + we_length_at) (native_bytes 2 (we_length we))
              (put (addr + we_status_at) (native_bytes 1 (we_status we)) f)))))).

Ltac field_offsets :=
  unfold we_cmd_at, we_status_at, we_length_at, we_cmd_extra_at, we_atomic_op_at, we_src_at, we_dst_at.

Ltac field_step :=
  first [rewrite field_put_same by (simpl; lia)
        | rewrite field_put_other by (simpl; lia)
        | rewrite bytes_put_other by (rewrite length_native_bytes; simpl; lia)].

Lemma we_of_put_same addr wrap we f :
  we_fits we → we_of (put_we addr wrap we f) addr = store_we wrap we (we_of f addr).
Proof.
  intros [H1 H2 H3 H4 H5 H6]. unfold we_of, put_we, store_we. cbn [we_reserved]. field_offsets.
  assert (0 <= u8 (Z.lor (Z.land (we_cmd we) (Z.lnot MEMCPY_WE_CMD_WRAP)) wrap) < 256)
    by (apply Z.mod_pos_bound; lia).
  f_equal; repeat field_step; done.
Qed.

Lemma we_of_put_other addr wrap we f addr' :
  addr' + sizeof_work_element <= addr ∨ addr + sizeof_work_element <= addr' →
  we_of (put_we addr wrap we f) addr' = we_of f addr'.
Proof.
  unfold sizeof_work_element. intros Ho. unfold we_of, put_we. field_offsets. f_equal; repeat field_step; done.
Qed.

Lemma we_of_ext f g addr : (∀ q, f q = g q) → we_of f addr = we_of g addr.
Proof. intros E. unfold we_of, field_of. by rewrite !(bytes_of_ext f g) by done. Qed.

End memory.

(** ** The ring *)

(** The queue [weq], in the memory [f], is the ring [q]. *)
Record ring_at `{Abi} (f : Z → Z) (weq : weq_mem) (q : memcpy_weq) : Prop := {
  ra_next : wm_next weq = wm_queue weq + sizeof_work_element * weq_next q;
  ra_last : wm_last weq = wm_queue weq + sizeof_work_element * weq_last q;
  ra_length : weq_last q = Z.of_nat (length (weq_queue q)) - 1;
  ra_wrap : wm_wrap weq = weq_wrap q;
  ra_count : wm_count weq = weq_count q;
  ra_elements i we : weq_queue q !! i = Some we → we_of f (wm_queue weq + sizeof_work_element * Z.of_nat i) = we
}.

(** What memory does besides remembering stores: [memset], and nothing when
    memory is allocated. *)
Class SetMemory (K : Type) `{Platform K} `{!RegisterMemory K} : Prop := {
  reg_memset addr c n (k : K) q :
    reg_byte (os_step _ (SMemset addr c n) k).2 q =
    if (addr <=? q) && (q <? addr + n) then c mod 256 else reg_byte k q
}.

(** [aligned_alloc] answers an address, or NULL when memory is exhausted. *)
Class AllocatedMemory (K : Type) `{Platform K} : Prop :=
  allocated_address alignment size (k : K) : 0 <= (os_step _ (SAlignedAlloc alignment size) k).1.

(** Memory is exhausted: after some of the operations from [w] on, an
    allocation is answered with NULL.  The programs do not check. *)
Definition out_of_memory {K} `{Platform K} (w : world K) : Prop :=
  ∃ es w' alignment size, ran es w w' ∧ (os_step _ (SAlignedAlloc alignment size) (w_os w')).1 = NULL.

Lemma out_of_memory_ran {K} `{Platform K} es (w w' : world K) :
  ran es w w' → out_of_memory w' → out_of_memory w.
Proof.
  intros Hr (es' & w2 & alignment & size & Hr' & E). exists (es ++ es'), w2, alignment, size.
  split; [by eapply ran_trans|done].
Qed.

Lemma wp_aligned_alloc {K} `{Platform K} `{!AllocatedMemory K} alignment size (w : world K) Q :
  (∀ addr w', did (SAlignedAlloc alignment size) addr w w' → 0 < addr ∨ addr = NULL ∧ out_of_memory w → Q addr w') →
  wp (aligned_alloc alignment size) Q w.
Proof.
  intros HQ. apply wp_call; [done|]. intros addr w' D. apply HQ; [done|].
  pose proof (allocated_address alignment size (w_os w)) as Ha. rewrite (did_step _ _ _ _ D) in Ha. simpl in Ha.
  destruct (decide (addr = NULL)) as [->|Hne]; [right; split; [done|]|left; unfold NULL in *; lia].
  exists [], w, alignment, size. split; [apply ran_refl|]. by rewrite (did_step _ _ _ _ D).
Qed.

Section ring.
Context {K : Type} `{Platform K} `{Abi} `{!RegisterMemory K}.
Implicit Types (w : world K).

Lemma wp_store_put w f addr offset n v Q :
  addr ≠ NULL → (∀ q, reg_byte (w_os w) q = f q) →
  (∀ w', same_mem w w' → (∀ q, reg_byte (w_os w') q = put (addr + offset) (native_bytes n v) f q) → Q tt w') →
  wp (store_mem addr offset n v) Q w.
Proof.
  intros Ha Hf HQ. unfold store_mem. destruct (Z.eqb_spec addr NULL); [done|].
  apply wp_call; [done|]. intros [] w' Hd. apply HQ; [apply Hd|]. intros q.
  rewrite (reg_did _ _ _ _ q Hd), reg_store by apply native_bytes_are_bytes. unfold put. by rewrite Hf.
Qed.

(** The stores of [add_we]. *)
Lemma wp_add_we_put w weq we Q :
  0 < wm_queue weq → wm_queue weq <= wm_next weq <= wm_last weq →
  (∀ w', same_mem w w' →
     (∀ q, reg_byte (w_os w') q = put_we (wm_next weq) (wm_wrap weq) we (reg_byte (w_os w)) q) →
     Q (if wm_last weq <? wm_next weq + sizeof_work_element
        then weq <| wm_wrap := Z.lxor (wm_wrap weq) MEMCPY_WE_CMD_WRAP |> <| wm_next := wm_queue weq |>
        else weq <| wm_next := wm_next weq + sizeof_work_element |>, wm_next weq) w') →
  wp (add_we weq we) Q w.
Proof.
  intros Hq Hn HQ. assert (wm_next weq ≠ NULL) as Hnn by (unfold NULL; lia).
  unfold add_we. destruct (Z.ltb_spec (wm_next weq) (wm_queue weq)); [lia|].
  destruct (Z.ltb_spec (wm_last weq) (wm_next weq)); [lia|]. cbn [orb].
  apply wp_bind. eapply wp_store_put; [done|done|]. intros w1 M1 F1.
  apply wp_bind. eapply wp_store_put; [done|exact F1|]. intros w2 M2 F2.
  apply wp_bind. eapply wp_store_put; [done|exact F2|]. intros w3 M3 F3.
  apply wp_bind. eapply wp_store_put; [done|exact F3|]. intros w4 M4 F4.
  apply wp_bind. eapply wp_store_put; [done|exact F4|]. intros w5 M5 F5.
  apply wp_bind. eapply wp_store_put; [done|exact F5|]. intros w6 M6 F6.
  apply wp_bind, wp_call; [done|]. intros [] w7 D7.
  apply wp_bind. eapply (wp_store_put w7); [done|intros q; by rewrite (reg_did _ _ _ _ q D7), reg_sync, F6|].
  intros w8 M8 F8. apply wp_ret, HQ; [|exact F8].
  do 6 (etrans; [eassumption|]). etrans; [apply D7|exact M8].
Qed.

Lemma ring_at_same f g weq q : (∀ x, f x = g x) → ring_at f weq q → ring_at g weq q.
Proof. intros E [R1 R2 R3 R4 R5 R6]. split; try done. intros i we Hi. rewrite <-(we_of_ext f g) by done. by apply R6. Qed.

(** The elements after one of them was stored. *)
Lemma ring_elements_put f weq q we old n :
  we_fits we → ring_at f weq q → weq_queue q !! n = Some old → weq_next q = Z.of_nat n →
  ∀ i we', <[n := store_we (weq_wrap q) we old]> (weq_queue q) !! i = Some we' →
    we_of (put_we (wm_next weq) (wm_wrap weq) we f) (wm_queue weq + sizeof_work_element * Z.of_nat i) = we'.
Proof.
  intros Hfit [R1 R2 R3 R4 R5 R6] Hn En i we' Hi. rewrite R1, R4, En.
  destruct (decide (i = n)) as [->|Hne].
  - rewrite list_lookup_insert_eq in Hi by (by eapply lookup_lt_Some). injection Hi as <-.
    rewrite we_of_put_same by done. by rewrite (R6 n old Hn).
  - rewrite list_lookup_insert_ne in Hi by done. rewrite we_of_put_other; [by apply R6|].
    unfold sizeof_work_element. lia.
Qed.

(** C19: [memcpy3_add_we] on the queue in memory does what it does on the
    abstract ring: the same element, stored in the same slot with the same
    wrap bit, the same next slot; and where the ring has no such slot, the
    code stores outside the queue. *)
Theorem add_we_equiv w weq q we :
  0 < wm_queue weq → we_fits we → ring_at (reg_byte (w_os w)) weq q →
  match memcpy3_add_we q we with
  | Some (q', i) =>
      wp (add_we weq we) (λ '(weq', addr) w',
        addr = wm_queue weq + sizeof_work_element * i ∧ wm_queue weq' = wm_queue weq ∧
        ring_at (reg_byte (w_os w')) weq' q' ∧ same_mem w w') w
  | None => goes_wrong (add_we weq we) w
  end.
Proof.
  intros Hq Hfit Hring. pose proof Hring as [R1 R2 R3 R4 R5 R6]. unfold memcpy3_add_we.
  destruct (Z.ltb_spec (weq_next q) 0) as [Hneg|Hpos].
  { unfold goes_wrong, add_we. destruct (Z.ltb_spec (wm_next weq) (wm_queue weq)); [done|].
    unfold sizeof_work_element in *. lia. }
  destruct (weq_queue q !! Z.to_nat (weq_next q)) as [old|] eqn:Ho.
  2: { apply lookup_ge_None in Ho. unfold goes_wrong, add_we.
       destruct (Z.ltb_spec (wm_last weq) (wm_next weq)); [by rewrite orb_true_r|].
       unfold sizeof_work_element in *. lia. }
  pose proof (lookup_lt_Some _ _ _ Ho) as Hlt.
  assert (weq_next q = Z.of_nat (Z.to_nat (weq_next q))) as En by lia.
  pose proof (ring_elements_put _ _ _ we _ _ Hfit Hring Ho En) as Hel.
  assert ((wm_last weq <? wm_next weq + sizeof_work_element) = (weq_last q <? weq_next q + 1)) as Elast.
  { rewrite R1, R2. unfold sizeof_work_element.
    destruct (Z.ltb_spec (weq_last q) (weq_next q + 1)); [apply Z.ltb_lt|apply Z.ltb_ge]; lia. }
  assert (∀ w', (∀ x, reg_byte (w_os w') x = put_we (wm_next weq) (wm_wrap weq) we (reg_byte (w_os w)) x) →
    ∀ i we', <[Z.to_nat (weq_next q) := store_we (weq_wrap q) we old]> (weq_queue q) !! i = Some we' →
      we_of (reg_byte (w_os w')) (wm_queue weq + sizeof_work_element * Z.of_nat i) = we') as Hels.
  { intros w' Hf i we' Hi. rewrite (we_of_ext _ _ _ Hf). by apply Hel. }
  destruct (weq_last q <? weq_next q + 1);
    (apply wp_add_we_put; [done|unfold sizeof_work_element in *; lia|]; intros w' Hm Hf; rewrite Elast;
     split_and!; [by rewrite R1|done| |done]; split; simpl; try done; try (exact (Hels w' Hf));
     rewrite ?length_insert, ?R1; unfold sizeof_work_element in *; try lia).
  by rewrite R4.
Qed.

(** Cleared memory holds cleared elements. *)
Lemma bytes_of_zero f addr n :
  (∀ q, addr <= q < addr + Z.of_nat n → f q = 0) → bytes_of f addr n = replicate n 0.
Proof.
  intros Hz. apply list_eq. intros i. unfold bytes_of. rewrite list_lookup_fmap.
  destruct (decide (i < n)%nat) as [Hi|Hi].
  - rewrite lookup_seq_lt, lookup_replicate_2 by done. simpl. rewrite Hz; [done|lia].
  - rewrite lookup_seq_ge, (lookup_ge_None_2 (replicate n 0)); [done|rewrite length_replicate; lia|lia].
Qed.

Lemma we_of_zero f addr :
  (∀ q, addr <= q < addr + sizeof_work_element → f q = 0) → we_of f addr = zero_we.
Proof.
  unfold sizeof_work_element. intros Hz. unfold we_of, field_of.
  rewrite !bytes_of_zero by (intros; apply Hz; unfold we_cmd_at, we_status_at, we_length_at,
    we_cmd_extra_at, we_atomic_op_at, we_src_at, we_dst_at in *; lia).
  unfold of_native_bytes. by destruct host_little_endian.
Qed.

(** a queue that was just set up is the empty ring of 16380 elements; setting
    it up goes wrong only when memory is exhausted. *)
Theorem init_weq_equiv `{!SetMemory K} `{!AllocatedMemory K} w :
  wpx (out_of_memory w) False (init_weq QUEUE_SIZE) (λ weq w', 0 < wm_queue weq ∧
    ring_at (reg_byte (w_os w')) weq (memcpy3_init_weq QUEUE_SIZE)) w.
Proof.
  apply wpx_bind_wp, wp_call; [done|]. intros page w1 D1. apply wpx_bind_wp, wp_aligned_alloc. intros addr w2 D2 Ha.
  destruct Ha as [Ha|[-> Hoom]]; [|exact (out_of_memory_ran _ _ _ (ran_did _ _ _ _ D1) Hoom)].
  apply wpx_bind_wp. unfold memset. destruct (Z.eqb_spec addr NULL); [unfold NULL in *; lia|].
  apply wp_call; [done|]. intros [] w3 D3. apply wpx_ret. split; [done|].
  unfold memcpy3_init_weq. change (memcpy3_queue_length QUEUE_SIZE) with 16380.
  split; cbn [wm_queue wm_next wm_last wm_wrap wm_count weq_queue weq_next weq_last weq_wrap weq_count];
    [unfold sizeof_work_element; lia|done|by rewrite length_replicate|done|done|].
  intros i we [-> Hi]%lookup_replicate. apply we_of_zero. intros q Hr.
  rewrite (reg_did _ _ _ _ q D3), reg_memset. unfold sizeof_work_element in Hr.
  change QUEUE_SIZE with 524160.
  destruct (Z.leb_spec addr q), (Z.ltb_spec q (addr + 524160)); simpl; try lia. done.
Qed.

(** without memory for it, setting up a queue is a store through NULL. *)
Theorem init_weq_no_memory w size :
  (∀ alignment (k : K), (os_step _ (SAlignedAlloc alignment size) k).1 = NULL) → goes_wrong (init_weq (K := K) size) w.
Proof.
  intros Hnull. apply goes_wrong_bind, wp_call; [done|]. intros page w1 _.
  apply goes_wrong_bind, wp_call; [done|]. intros addr w2 D2.
  pose proof (Hnull page (w_os w1)) as E. rewrite (did_step _ _ _ _ D2) in E. simpl in E. subst addr.
  by apply goes_wrong_bind_l.
Qed.

End ring.
