(* ===== verification/MemcpyWait.v ===== *)
(** * MemcpyWait: how the sample waits for the AFU

    The three ways samples/memcpy/memcpy.c waits: for an interrupt, for the
    status byte of a work element, for wake_host_thread.  [polled] describes
    a sequence of checks for events, [irq_verdict] what the code makes of it.
    A loop that takes events returns because the device has finitely many to
    deliver ([Ranked] with [delivered]), a loop that polls memory because
    finitely many readings of the clock come before a deadline ([Clock]). *)

From S2P Require Import Prelude Format Types World Logic Messages Buffer Ledger Mmio MmioFacts.
From S2P Require Import MmioAccess Irq IrqFacts IrqTable Event Names Afu AfuInv EventFacts Fuel.
From S2P Require Import AfuClose AfuOpen Trace Api Client Memcpy Getopt MemcpySample.
Open Scope Z_scope.

(** ** Time and events run out *)

(** A read that delivers an event: a context's record or an eventfd's counter. *)
Definition delivered `{Abi} (e : event) : bool :=
  match e with
  | Ev c r =>
      match c in sys R return R → bool with
      | SRead _ _ => λ res, (res.1 =? 8) || (res.1 =? event_size)
      | _ => λ _, false
      end r
  end.

(** A reading of the clock that is not after [deadline]. *)
Definition early (deadline : timeval) (e : event) : bool :=
  match e with
  | Ev c r =>
      match c in sys R return R → bool with
      | SGettimeofday => λ now, negb (timer_gt now deadline)
      | _ => λ _, false
      end r
  end.

(** The events the device will deliver, and the readings of the clock up to a
    deadline: bounds the outside keeps. *)
Class Finite (K : Type) `{Platform K} `{Abi} := {
  budget : K → nat;
  readings : timeval → K → nat;
  budget_ranked :: Ranked budget delivered;
  readings_ranked deadline :: Ranked (readings deadline) (early deadline)
}.

(** ** What the answers of the checks amount to *)

Definition is_completion (irq_ea : Z) (e : ocxl_event) : bool :=
  match e with
  | OCXL_EVENT_IRQ e => c_bool irq_ea && (ev_handle e =? irq_ea)
  | OCXL_EVENT_TRANSLATION_FAULT _ => false
  end.

(** The issue an event stands for: an AFU error, a translation fault. *)
Definition issue_of (err_ea : Z) (e : ocxl_event) : Z :=
  match e with
  | OCXL_EVENT_IRQ e => if ev_handle e =? err_ea then 0x01 else 0
  | OCXL_EVENT_TRANSLATION_FAULT _ => 0x02
  end.

Definition all_issues (err_ea : Z) (evs : list ocxl_event) : Z :=
  foldr (λ e, Z.lor (issue_of err_ea e)) 0 evs.

(** The verdict on the events [evs] that were taken, when the last check
    answered [rc] (1: with the completion interrupt). *)
Definition irq_verdict (timeout err_ea : Z) (evs : list ocxl_event) (rc : Z) : Z :=
  if rc <? 0 then 0x04
  else if rc =? 1 then 0
  else Z.lor (all_issues err_ea evs) (if c_bool timeout then 0x08 else 0).

Section waiting.
Context {K : Type} `{Platform K} `{Abi} `{!EventLaws K} `{!SingleEvents K} `{!Finite K}.
Implicit Types (w : world K).

(** Checks for one event each, with their effects, the events they delivered
    and the answer of the last one; only the first of them waits. *)
Inductive polled (p : ptr) (a : ocxl_afu) (irqs : list ocxl_irq) (irq_ea : Z) :
    Z → list event → list ocxl_event → Z → Prop :=
| polled_end t es rc evs :
    check_outcome p a irqs 1 t es rc evs → rc <= 0 → polled p a irqs irq_ea t es [] rc
| polled_completion t es e :
    check_outcome p a irqs 1 t es 1 [Some e] → is_completion irq_ea e = true →
    polled p a irqs irq_ea t es [e] 1
| polled_event t es e es' evs rc :
    check_outcome p a irqs 1 t es 1 [Some e] → is_completion irq_ea e = false →
    polled p a irqs irq_ea 0 es' evs rc → polled p a irqs irq_ea t (es ++ es') (e :: evs) rc.

(** Each event that is reported was delivered by a read. *)
Lemma afu_reads_delivered a rs : (length (omap afu_report rs) <= hits delivered (afu_reads a rs))%nat.
Proof.
  unfold hits, afu_reads in *. induction rs as [|r rs IH]; [done|]. cbn -[delivered].
  destruct (afu_report r) as [e|] eqn:Er.
  - unfold afu_report in Er. simpl delivered.
    destruct (r.1 =? event_size); [rewrite orb_true_r; simpl in *; lia|].
    by rewrite andb_false_r, andb_false_l in Er.
  - destruct (delivered _); simpl in *; lia.
Qed.

Lemma reported_delivered p a irqs sources es evs :
  reported p a irqs sources es evs → (length evs <= hits delivered es)%nat.
Proof.
  induction 1 as [|rs r sources es evs _ _ _ IH|n i r sources es evs _ _ IH]; [done|..].
  - rewrite length_app, hits_app. pose proof (afu_reads_delivered a (rs ++ [r])). lia.
  - rewrite length_app. unfold hits, irq_report in *. simpl.
    destruct (r.1 =? 8); simpl; [lia|]. destruct (_ =? _); simpl; lia.
Qed.

(** A check for one event. *)
Lemma check_outcome_one p a irqs t es rc evs :
  check_outcome p a irqs 1 t es rc evs →
  rc <= 0 ∨ ∃ e, rc = 1 ∧ evs = [Some e] ∧ (1 <= hits delivered es)%nat.
Proof.
  destruct 1 as [| | |count sources es evs Hr _ Hl]; [left; lia..|].
  destruct evs as [|e [|e' evs]]; [left; simpl; lia| |simpl in Hl; lia]. right. exists e.
  apply reported_delivered in Hr. done.
Qed.

(** ** Messages and memory *)

Lemma wp_LOG_ERR fmt args w (Q : unit → world K → Prop) :
  conforms (fmt +:+ newline) args = true → (∀ w', quiet w w' → Q tt w') → wp (LOG_ERR fmt args) Q w.
Proof. apply wp_fprintf_stderr. Qed.

Lemma wp_LOG_INF fmt args w (Q : unit → world K → Prop) :
  conforms (fmt +:+ newline) args = true → (∀ w', quiet w w' → Q tt w') → wp (LOG_INF fmt args) Q w.
Proof. apply wp_printf. Qed.

(** ** [wait_for_irq] *)

Lemma with_epoll_twice a events m events' m' :
  with_epoll (with_epoll a events m) events' m' = with_epoll a events' m'.
Proof. by destruct a. Qed.

Lemma polled_epoll p a irqs irq_ea events m t es evs rc :
  polled p (with_epoll a events m) irqs irq_ea t es evs rc → polled p a irqs irq_ea t es evs rc.
Proof.
  induction 1; [eapply polled_end|eapply polled_completion|eapply polled_event];
    eauto using check_outcome_epoll.
Qed.

(** The area of the restart register, when a completion interrupt is used. *)
Definition restarts (irq_ea : Z) (pp : ocxl_mmio_h) (a : ocxl_afu) (areas : list ocxl_mmio_area)
    (x : ocxl_mmio_area) : Prop :=
  irq_ea = 0 ∨ ∃ i, pp = handle_of a i ∧ areas !! i = Some x.

(** The write that restarts the AFU, after the completion interrupt. *)
Definition restart_effects (x : ocxl_mmio_area) (rc : Z) : list event :=
  if rc =? 1 then
    access_effects x MEMCPY_AFU_PP_CTRL 8 (SStore (u64 (area_start x + MEMCPY_AFU_PP_CTRL))
      (encode OCXL_MMIO_LITTLE_ENDIAN 8 MEMCPY_AFU_PP_CTRL_Restart)) tt
  else [].

Lemma wp_restart w others p a areas irqs i x Q :
  client w others p a areas irqs → areas !! i = Some x →
  (∀ b w', client w' others p a areas irqs → ran (restart_effects x 1) w w' → Q b w') →
  wp (restart_afu_if_stopped (handle_of a i)) Q w.
Proof.
  intros Hcl Hx HQ. apply wp_bind. eapply wp_client_write64; [exact Hcl|exact Hx|by vm_compute|].
  intros w' Hcl' Hr. destruct (negb _); [|by apply wp_ret, HQ].
  apply wp_bind, wp_LOG_ERR; [done|]. intros w2 Hq. apply wp_ret, HQ.
  - by eapply client_quiet.
  - by eapply ran_quiet_r.
Qed.

Lemma all_issues_cons err_ea e evs :
  all_issues err_ea (e :: evs) = Z.lor (issue_of err_ea e) (all_issues err_ea evs).
Proof. done. Qed.

(** The result of the loop when the issues of [ret] were seen before. *)
Definition loop_verdict (timeout err_ea ret : Z) (evs : list ocxl_event) (rc : Z) : Z :=
  if rc <? 0 then 0x04
  else if rc =? 1 then 0
  else Z.lor (Z.lor ret (all_issues err_ea evs)) (if c_bool timeout then 0x08 else 0).

Lemma loop_verdict_cons timeout err_ea ret e evs rc :
  loop_verdict timeout err_ea (Z.lor ret (issue_of err_ea e)) evs rc =
  loop_verdict timeout err_ea ret (e :: evs) rc.
Proof. unfold loop_verdict. by rewrite all_issues_cons, Z.lor_assoc. Qed.

Lemma wp_wait_for_irq_loop fuel w others p a areas irqs timeout pp irq_ea err_ea t ret x Q :
  client w others p a areas irqs → restarts irq_ea pp a areas x → (budget (w_os w) < fuel)%nat →
  (∀ events m es evs rc w', client w' others p (with_epoll a events m) areas irqs →
     ran (es ++ restart_effects x rc) w w' → polled p a irqs irq_ea t es evs rc →
     Q (loop_verdict timeout err_ea ret evs rc) w') →
  wp (wait_for_irq_loop fuel timeout p pp irq_ea err_ea t ret) Q w.
Proof.
  revert w a t ret Q. induction fuel as [|fuel IH]; intros w a t ret Q Hcl Hpp Hfuel HQ; [lia|].
  cbn [wait_for_irq_loop]. apply wp_bind. eapply wp_client_event_check; [exact Hcl|unfold UINT16_MAX; lia|].
  intros rc evs es events m w1 Hcl1 Hr1 Hc. set (a1 := with_epoll a events m) in Hcl1.
  pose proof (rank_ran budget delivered _ _ _ Hr1) as Hrank.
  destruct (check_outcome_one _ _ _ _ _ _ _ Hc) as [Hle|(e & -> & -> & Hhit)].
  - assert (∀ w2, quiet w1 w2 → Q (loop_verdict timeout err_ea ret [] rc) w2) as Hend.
    { intros w2 Hq. eapply (HQ events m es); [by eapply client_quiet| |by eapply polled_end].
      unfold restart_effects. destruct (Z.eqb_spec rc 1); [lia|]. rewrite app_nil_r. by eapply ran_quiet_r. }
    unfold loop_verdict in Hend. destruct (Z.ltb_spec rc 0); [by apply wp_ret, Hend|].
    destruct (Z.eqb_spec rc 1); [lia|]. destruct (Z.eqb_spec rc 0); [|lia].
    simpl in Hend. rewrite Z.lor_0_r in Hend. destruct (c_bool timeout).
    + apply wp_bind, wp_LOG_ERR; [done|]. intros w2 Hq2. by apply wp_ret, Hend.
    + rewrite Z.lor_0_r in Hend. by apply wp_ret, Hend.
  - cbn beta iota zeta. change (1 <? 0) with false. change (1 =? 0) with false. change (1 =? 1) with true.
    cbv iota. apply wp_bind. cbn [the_event]. apply wp_ret.
    assert (∀ w2, quiet w1 w2 → is_completion irq_ea e = false →
      wp (wait_for_irq_loop fuel timeout p pp irq_ea err_ea 0 (Z.lor ret (issue_of err_ea e))) Q w2) as Hnext.
    { intros w2 Hq He. eapply IH; [eapply client_quiet; [exact Hcl1|exact Hq]|exact Hpp| |].
      - pose proof (rank_ran budget delivered _ _ _ (ran_quiet _ _ Hq)). lia.
      - intros events' m' es' evs' rc' w' Hcl' Hr' Hp'. rewrite loop_verdict_cons.
        unfold a1 in Hcl'. rewrite with_epoll_twice in Hcl'. eapply (HQ events' m' (es ++ es')); [exact Hcl'| |].
        + rewrite <-app_assoc. eapply ran_trans; [exact Hr1|]. by eapply ran_quiet_l.
        + eapply polled_event; [exact Hc|exact He|]. by eapply polled_epoll. }
    destruct e as [i|f]; simpl in Hnext.
    + destruct (c_bool irq_ea && (ev_handle i =? irq_ea)) eqn:Ei.
      * apply wp_bind, wp_LOG_INF; [done|]. intros w2 Hq2.
        destruct Hpp as [->|(j & -> & Hj)]; [done|]. apply wp_bind.
        eapply (wp_restart w2 others p a1); [by eapply client_quiet|exact Hj|].
        intros b w3 Hcl3 Hr3. apply wp_ret. apply (HQ events m es [OCXL_EVENT_IRQ i] 1 w3); [exact Hcl3| |].
        -- eapply ran_trans; [exact Hr1|]. by eapply ran_quiet_l.
        -- by eapply polled_completion.
      * destruct (ev_handle i =? err_ea).
        -- apply wp_bind, wp_LOG_ERR; [done|]. intros w2 Hq2. by apply Hnext.
        -- rewrite Z.lor_0_r in Hnext. by apply Hnext.
    + apply wp_bind, wp_LOG_ERR; [done|]. intros w2 Hq2. by apply Hnext.
Qed.

Lemma wp_wait_for_irq fuel w others p a areas irqs timeout pp irq_ea err_ea x Q :
  client w others p a areas irqs → restarts irq_ea pp a areas x → (budget (w_os w) < fuel)%nat →
  - 2 ^ 31 <= timeout * 1000 < 2 ^ 31 →
  (∀ events m es evs rc w', client w' others p (with_epoll a events m) areas irqs →
     ran (es ++ restart_effects x rc) w w' → polled p a irqs irq_ea (timeout * 1000) es evs rc →
     Q (irq_verdict timeout err_ea evs rc) w') →
  wp (wait_for_irq fuel timeout p pp irq_ea err_ea) Q w.
Proof.
  intros Hcl Hpp Hfuel Ht HQ. apply wp_bind, wp_int_mul; [done|].
  eapply wp_wait_for_irq_loop; [done..|]. intros events m es evs rc w' Hcl' Hr Hp.
  unfold loop_verdict. rewrite Z.lor_0_l. by eapply HQ.
Qed.

(** ** [wait_for_status] *)

(** The load of a status byte. *)
Definition status_read (we : Z) (bs : list Z) : event := Ev (SLoad (we + we_status_at) 1) bs.

Lemma wp_client_load_status w others p a areas irqs we Q :
  client w others p a areas irqs → we ≠ NULL →
  (∀ bs w', client w' others p a areas irqs → did (SLoad (we + we_status_at) 1) bs w w' →
     Q (of_native_bytes bs) w') →
  wp (load_status we) Q w.
Proof.
  intros Hcl Hwe HQ. unfold load_status, load_mem. destruct (Z.eqb_spec we NULL); [done|].
  apply wp_bind. eapply wp_client_call; [exact Hcl|done|done|done|done|].
  intros bs w' Hcl' Hd. by apply wp_ret, HQ.
Qed.

Lemma wp_client_gettimeofday w others p a areas irqs Q :
  client w others p a areas irqs →
  (∀ now w', client w' others p a areas irqs → did SGettimeofday now w w' → Q now w') →
  wp gettimeofday Q w.
Proof. intros Hcl HQ. eapply wp_client_call; [exact Hcl|done|done|done|done|exact HQ]. Qed.

(** What the loop does from a reading [now] of the clock on, and its result. *)
Inductive status_outcome (p : ptr) (a : ocxl_afu) (irqs : list ocxl_irq) (we err_ea : Z)
    (deadline : timeval) : timeval → list event → Z → Prop :=
| status_late now : timer_gt now deadline = true → status_outcome p a irqs we err_ea deadline now [] 0x08
| status_issue now es evs rc :
    timer_gt now deadline = false → polled p a irqs 0 0 es evs rc → irq_verdict 0 err_ea evs rc ≠ 0 →
    status_outcome p a irqs we err_ea deadline now es (irq_verdict 0 err_ea evs rc)
| status_set now es evs rc bs :
    timer_gt now deadline = false → polled p a irqs 0 0 es evs rc → irq_verdict 0 err_ea evs rc = 0 →
    of_native_bytes bs ≠ 0 →
    status_outcome p a irqs we err_ea deadline now (es ++ [status_read we bs]) 0
| status_again now es evs rc bs now' es' ret :
    timer_gt now deadline = false → polled p a irqs 0 0 es evs rc → irq_verdict 0 err_ea evs rc = 0 →
    of_native_bytes bs = 0 → status_outcome p a irqs we err_ea deadline now' es' ret →
    status_outcome p a irqs we err_ea deadline now
      (es ++ [status_read we bs; Ev SGettimeofday now'] ++ es') ret.

Lemma status_outcome_epoll p a irqs we err_ea deadline events m now es ret :
  status_outcome p (with_epoll a events m) irqs we err_ea deadline now es ret →
  status_outcome p a irqs we err_ea deadline now es ret.
Proof.
  induction 1; [eapply status_late|eapply status_issue|eapply status_set|eapply status_again];
    eauto using polled_epoll.
Qed.

(** No completion interrupt is awaited there: none is found. *)
Lemma polled_no_completion p a irqs t es evs rc : polled p a irqs 0 t es evs rc → rc <= 0.
Proof. induction 1 as [|t es e Hc He|]; [done|by destruct e|done]. Qed.

Lemma restart_none x rc : rc <= 0 → restart_effects x rc = [].
Proof. intros Hrc. unfold restart_effects. by destruct (Z.eqb_spec rc 1); [lia|]. Qed.

(** A check for the error interrupt alone. *)
Lemma wp_wait_for_error fuel w others p a areas irqs pp err_ea Q :
  client w others p a areas irqs → (budget (w_os w) < fuel)%nat →
  (∀ events m es evs rc w', client w' others p (with_epoll a events m) areas irqs →
     ran es w w' → polled p a irqs 0 0 es evs rc → Q (irq_verdict 0 err_ea evs rc) w') →
  wp (wait_for_irq fuel 0 p pp 0 err_ea) Q w.
Proof.
  intros Hcl Hfuel HQ. eapply (wp_wait_for_irq _ _ _ _ _ _ _ _ _ _ _ (mk_mmio_area 0 0 OCXL_GLOBAL_MMIO None));
    [exact Hcl|by left|done|lia|].
  intros events m es evs rc w' Hcl' Hr Hp. rewrite restart_none, app_nil_r in Hr by by eapply polled_no_completion.
  by eapply HQ.
Qed.

Lemma early_reading deadline now : timer_gt now deadline = false → early deadline (Ev SGettimeofday now) = true.
Proof. simpl. by intros ->. Qed.

Lemma budget_ran es w w' : ran es w w' → (budget (w_os w') <= budget (w_os w))%nat.
Proof. intros Hr. pose proof (rank_ran budget delivered _ _ _ Hr). lia. Qed.

Lemma readings_ran deadline es w w' :
  ran es w w' → (readings deadline (w_os w') + hits (early deadline) es <= readings deadline (w_os w))%nat.
Proof. apply rank_ran, readings_ranked. Qed.

Lemma wp_wait_for_status_loop fuel w others p a areas irqs we err_ea deadline now Q :
  client w others p a areas irqs → we ≠ NULL →
  (timer_gt now deadline = true ∧ 0 < fuel ∨
   budget (w_os w) + readings deadline (w_os w) + 1 < fuel)%nat →
  (∀ events m es ret w', client w' others p (with_epoll a events m) areas irqs → ran es w w' →
     status_outcome p a irqs we err_ea deadline now es ret → Q ret w') →
  wp (wait_for_status_loop fuel p we err_ea deadline now) Q w.
Proof.
  revert w a now Q. induction fuel as [|fuel IH]; intros w a now Q Hcl Hwe Hfuel HQ; [lia|].
  cbn [wait_for_status_loop]. destruct (timer_gt now deadline) eqn:Et.
  { apply wp_bind, wp_LOG_ERR; [done|]. intros w1 Hq. apply wp_ret.
    eapply (HQ (afu_epoll_events a) (afu_epoll_event_count a)); [|by apply ran_quiet|by apply status_late].
    assert (with_epoll a (afu_epoll_events a) (afu_epoll_event_count a) = a) as -> by (by destruct a).
    by eapply client_quiet. }
  destruct Hfuel as [[? _]|Hfuel]; [done|].
  apply wp_bind. eapply wp_wait_for_error; [exact Hcl|lia|]. intros events m es evs rc w1 Hcl1 Hr1 Hp.
  pose proof (budget_ran _ _ _ Hr1) as Hb1. pose proof (readings_ran deadline _ _ _ Hr1) as Ht1.
  unfold c_bool. destruct (Z.eqb_spec (irq_verdict 0 err_ea evs rc) 0) as [Hv|Hv]; simpl.
  2: { apply wp_ret. eapply HQ; [exact Hcl1|exact Hr1|by eapply status_issue]. }
  apply wp_bind. eapply wp_client_load_status; [exact Hcl1|done|]. intros bs w2 Hcl2 Hd2.
  pose proof (ran_trans _ _ _ _ _ Hr1 (ran_did _ _ _ _ Hd2)) as Hr2.
  destruct (Z.eqb_spec (of_native_bytes bs) 0) as [Hs|Hs]; simpl.
  2: { apply wp_ret. eapply HQ; [exact Hcl2|exact Hr2|by eapply status_set]. }
  apply wp_bind. eapply wp_client_gettimeofday; [exact Hcl2|]. intros now' w3 Hcl3 Hd3.
  pose proof (ran_trans _ _ _ _ _ Hr2 (ran_did _ _ _ _ Hd3)) as Hr3.
  pose proof (budget_ran _ _ _ Hr3) as Hb3. pose proof (readings_ran deadline _ _ _ (ran_did _ _ _ _ Hd3)) as Ht3.
  pose proof (readings_ran deadline _ _ _ (ran_did _ _ _ _ Hd2)) as Ht2.
  eapply IH; [exact Hcl3|done| |].
  - destruct (timer_gt now' deadline) eqn:Et'; [left; split; [done|lia]|right].
    unfold hits in Ht3. cbn [List.filter] in Ht3. rewrite early_reading in Ht3 by done. simpl in Ht3. lia.
  - intros events' m' es' ret w' Hcl' Hr' Ho. rewrite with_epoll_twice in Hcl'.
    eapply HQ; [exact Hcl'| |eapply status_again; eauto using status_outcome_epoll].
    rewrite <-app_assoc in Hr3. rewrite (app_assoc es). eapply ran_trans; [|exact Hr']. exact Hr3.
Qed.

(** The deadline of a wait of [timeout] seconds that starts in the state [k]. *)
Definition deadline_from (k : K) (timeout : Z) : timeval :=
  timeradd (os_step _ SGettimeofday k).1 (timeout, 0).

Lemma wp_wait_for_status fuel w others p a areas irqs timeout we err_ea Q :
  client w others p a areas irqs → we ≠ NULL →
  let deadline := deadline_from (w_os w) timeout in
  (budget (w_os w) + readings deadline (w_os w) + 1 < fuel)%nat →
  (∀ events m now es ret w', client w' others p (with_epoll a events m) areas irqs →
     ran (Ev SGettimeofday now :: es) w w' →
     status_outcome p a irqs we err_ea deadline (timeout, 0) es ret → Q ret w') →
  wp (wait_for_status fuel timeout p we err_ea) Q w.
Proof.
  intros Hcl Hwe deadline Hfuel HQ. apply wp_bind. eapply wp_client_gettimeofday; [exact Hcl|].
  intros now w1 Hcl1 Hd. assert (timeradd now (timeout, 0) = deadline) as ->.
  { unfold deadline, deadline_from. by rewrite (did_step _ _ _ _ Hd). }
  pose proof (budget_ran _ _ _ (ran_did _ _ _ _ Hd)).
  pose proof (readings_ran deadline _ _ _ (ran_did _ _ _ _ Hd)).
  eapply wp_wait_for_status_loop; [exact Hcl1|done|right; lia|].
  intros events m es ret w' Hcl' Hr Ho. eapply HQ; [exact Hcl'|by eapply ran_cons|exact Ho].
Qed.

(** A wait that succeeds has seen the status set, and no issue. *)
Lemma status_outcome_done p a irqs we err_ea deadline now es :
  status_outcome p a irqs we err_ea deadline now es 0 →
  ∃ es' bs, es = es' ++ [status_read we bs] ∧ of_native_bytes bs ≠ 0.
Proof.
  intros Ho. remember 0 as ret eqn:Hret.
  induction Ho as [| |now es evs rc bs _ _ _ Hb|now es evs rc bs now' es' ret _ _ _ _ _ IH]; [done|done|by eauto|].
  destruct (IH Hret) as (es'' & bs' & -> & Hb). exists (es ++ [status_read we bs; Ev SGettimeofday now'] ++ es''), bs'.
  by rewrite <-!app_assoc.
Qed.

(** ** [wait_for_wake_host_thread] *)

Inductive wake_outcome (we : Z) (deadline : timeval) : list event → bool → Prop :=
| wake_set bs : of_native_bytes bs ≠ 0 → wake_outcome we deadline [Ev SWait tt; status_read we bs] true
| wake_late bs now : of_native_bytes bs = 0 → timer_gt now deadline = true →
    wake_outcome we deadline [Ev SWait tt; status_read we bs; Ev SGettimeofday now] false
| wake_again bs now es woken : of_native_bytes bs = 0 → timer_gt now deadline = false →
    wake_outcome we deadline es woken →
    wake_outcome we deadline ([Ev SWait tt; status_read we bs; Ev SGettimeofday now] ++ es) woken.

Lemma wp_wake_loop fuel w others p a areas irqs we deadline Q :
  client w others p a areas irqs → we ≠ NULL → (readings deadline (w_os w) < fuel)%nat →
  (∀ es woken w', client w' others p a areas irqs → ran es w w' → wake_outcome we deadline es woken →
     Q woken w') →
  wp (wake_loop fuel we deadline) Q w.
Proof.
  revert w Q. induction fuel as [|fuel IH]; intros w Q Hcl Hwe Hfuel HQ; [lia|].
  cbn [wake_loop]. apply wp_bind. eapply wp_client_call; [exact Hcl|done|done|done|done|].
  intros [] w1 Hcl1 Hd1. apply wp_bind. eapply wp_client_load_status; [exact Hcl1|done|].
  intros bs w2 Hcl2 Hd2. pose proof (ran_cons _ _ _ _ _ _ Hd1 (ran_did _ _ _ _ Hd2)) as Hr2.
  unfold c_bool. destruct (Z.eqb_spec (of_native_bytes bs) 0) as [Hs|Hs]; simpl.
  2: { apply wp_ret. eapply HQ; [exact Hcl2|exact Hr2|by apply wake_set]. }
  apply wp_bind. eapply wp_client_gettimeofday; [exact Hcl2|]. intros now w3 Hcl3 Hd3.
  pose proof (ran_trans _ _ _ _ _ Hr2 (ran_did _ _ _ _ Hd3)) as Hr3. simpl in Hr3.
  destruct (timer_gt now deadline) eqn:Et.
  - apply wp_bind, wp_LOG_ERR; [done|]. intros w4 Hq. apply wp_ret.
    eapply HQ; [by eapply client_quiet|by eapply ran_quiet_r|by apply wake_late].
  - pose proof (readings_ran deadline _ _ _ Hr3) as Hrank. unfold hits in Hrank. simpl in Hrank.
    rewrite Et in Hrank. simpl in Hrank. eapply IH; [exact Hcl3|done|lia|].
    intros es woken w' Hcl' Hr' Ho. eapply HQ; [exact Hcl'| |by apply wake_again].
    by eapply ran_trans.
Qed.

Lemma wake_outcome_set we deadline es :
  wake_outcome we deadline es true → ∃ es' bs, es = es' ++ [status_read we bs] ∧ of_native_bytes bs ≠ 0.
Proof.
  intros Ho. remember true as woken eqn:Hw. induction Ho as [bs Hb| |bs now es woken _ _ _ IH]; [|done|].
  - by exists [Ev SWait tt], bs.
  - destruct (IH Hw) as (es' & bs' & -> & Hb). eexists (_ ++ es'), bs'. split; [apply app_assoc|done].
Qed.

(** The result, 0 only when the status was seen set. *)
Lemma wp_wait_for_wake fuel w others p a areas irqs timeout pp we irq_ea err_ea x Q :
  client w others p a areas irqs → restarts irq_ea pp a areas x → we ≠ NULL →
  let deadline := deadline_from (w_os w) timeout in
  (budget (w_os w) + readings deadline (w_os w) < fuel)%nat →
  (∀ events m es ret w', client w' others p (with_epoll a events m) areas irqs → ran es w w' →
     (ret = 0 → ∃ es' bs, es = es' ++ [status_read we bs] ∧ of_native_bytes bs ≠ 0) → Q ret w') →
  wp (wait_for_wake_host_thread fuel timeout p pp we irq_ea err_ea) Q w.
Proof.
  intros Hcl Hpp Hwe deadline Hfuel HQ. apply wp_bind. eapply wp_client_gettimeofday; [exact Hcl|].
  intros now w1 Hcl1 Hd. assert (timeradd now (timeout, 0) = deadline) as ->.
  { unfold deadline, deadline_from. by rewrite (did_step _ _ _ _ Hd). }
  pose proof (budget_ran _ _ _ (ran_did _ _ _ _ Hd)) as Hb1.
  pose proof (readings_ran deadline _ _ _ (ran_did _ _ _ _ Hd)).
  apply wp_bind. eapply wp_wake_loop; [exact Hcl1|done|lia|]. intros es woken w2 Hcl2 Hr2 Ho.
  pose proof (ran_cons _ _ _ _ _ _ Hd Hr2) as Hr. pose proof (budget_ran _ _ _ Hr2). destruct woken.
  - apply wp_ret. eapply (HQ (afu_epoll_events a) (afu_epoll_event_count a)); [|exact Hr|].
    + assert (with_epoll a (afu_epoll_events a) (afu_epoll_event_count a) = a) as -> by (by destruct a). done.
    + intros _. destruct (wake_outcome_set _ _ _ Ho) as (es' & bs & -> & Hb). by exists (Ev SGettimeofday now :: es'), bs.
  - apply wp_bind. eapply wp_wait_for_irq; [exact Hcl2|exact Hpp|lia|lia|].
    intros events m es2 evs rc w3 Hcl3 Hr3 _. pose proof (ran_trans _ _ _ _ _ Hr Hr3).
    unfold c_bool. destruct (Z.eqb_spec (irq_verdict 0 err_ea evs rc) 0); simpl; apply wp_ret; by eapply HQ.
Qed.

End waiting.

(** ** Fuel changes no result *)

Section fuel.
Context {K : Type} `{Platform K} `{Abi}.

Lemma approx_wait_for_irq_loop n n' timeout afu pp irq_ea err_ea t ret :
  (n <= n')%nat →
  approx (K := K) (wait_for_irq_loop n timeout afu pp irq_ea err_ea t ret)
    (wait_for_irq_loop n' timeout afu pp irq_ea err_ea t ret).
Proof.
  revert n' t ret. induction n as [|n IH]; intros [|n'] t ret Hn; [apply approx_diverge..|lia|].
  assert (n <= n')%nat by lia. simpl. approximate.
Qed.

#[local] Hint Resolve approx_wait_for_irq_loop : fuel.

Lemma approx_wait_for_irq n n' timeout afu pp irq_ea err_ea :
  (n <= n')%nat →
  approx (K := K) (wait_for_irq n timeout afu pp irq_ea err_ea) (wait_for_irq n' timeout afu pp irq_ea err_ea).
Proof. intros Hn. unfold wait_for_irq. approximate. Qed.

#[local] Hint Resolve approx_wait_for_irq : fuel.

Lemma approx_wait_for_status_loop n n' afu we err_ea deadline temp :
  (n <= n')%nat →
  approx (K := K) (wait_for_status_loop n afu we err_ea deadline temp)
    (wait_for_status_loop n' afu we err_ea deadline temp).
Proof.
  revert n' temp. induction n as [|n IH]; intros [|n'] temp Hn; [apply approx_diverge..|lia|].
  assert (n <= n')%nat by lia. cbn [wait_for_status_loop]. approximate.
Qed.

Lemma approx_wake_loop n n' we deadline :
  (n <= n')%nat → approx (K := K) (wake_loop n we deadline) (wake_loop n' we deadline).
Proof.
  revert n'. induction n as [|n IH]; intros [|n'] Hn; [apply approx_diverge..|lia|].
  assert (n <= n')%nat by lia. simpl. approximate.
Qed.

#[local] Hint Resolve approx_wait_for_status_loop approx_wake_loop : fuel.

Lemma approx_wait_for_status n n' timeout afu we err_ea :
  (n <= n')%nat →
  approx (K := K) (wait_for_status n timeout afu we err_ea) (wait_for_status n' timeout afu we err_ea).
Proof. intros Hn. unfold wait_for_status. approximate. Qed.

Lemma approx_wait_for_wake n n' timeout afu pp we irq_ea err_ea :
  (n <= n')%nat →
  approx (K := K) (wait_for_wake_host_thread n timeout afu pp we irq_ea err_ea)
    (wait_for_wake_host_thread n' timeout afu pp we irq_ea err_ea).
Proof. intros Hn. unfold wait_for_wake_host_thread. approximate. Qed.

End fuel.

#[export] Hint Resolve approx_wait_for_irq approx_wait_for_status approx_wait_for_wake : fuel.
