(* ===== verification/MemcpyRun.v ===== *)
(** * MemcpyRun: the sample program as a whole

    samples/memcpy/memcpy.c from the queue to [main].  Starting a copy: the
    AFU learns of the error interrupt and of the queue before the queue has
    an element, every element is in memory behind a barrier before the first
    one becomes valid.  Running it: every path returns, nothing goes wrong,
    and when [main] returns every kernel object of the AFU was given back. *)

From S2P Require Import Prelude Format Types World Logic Messages Buffer Ledger Mmio MmioFacts.
From S2P Require Import MmioAccess Irq IrqFacts IrqTable Event Names Afu AfuInv EventFacts Fuel.
From S2P Require Import AfuClose AfuOpen Trace Api Client Memcpy Getopt MemcpySample MemcpyQueue.
From S2P Require Import MemcpyWait.
Open Scope Z_scope.

Section run.
Context {K : Type} `{Platform K} `{Abi} `{!EventLaws K} `{!SingleEvents K} `{!Finite K} `{!AllocatedMemory K}.
Context {may : Excuse}.
Context `{!NonZeroHandles K} `{!ByteLoads K} `{!ShortNames K}.
Implicit Types (w : world K).

(** ** The queue *)

(** The stores that put [we] at [addr]: the command last, behind a barrier. *)
Definition add_effects (addr wrap : Z) (we : memcpy_work_element) : list event :=
  [Ev (SStore (addr + we_status_at) (native_bytes 1 (we_status we))) tt;
   Ev (SStore (addr + we_length_at) (native_bytes 2 (we_length we))) tt;
   Ev (SStore (addr + we_cmd_extra_at) (native_bytes 1 (we_cmd_extra we))) tt;
   Ev (SStore (addr + we_atomic_op_at) (native_bytes 8 (we_atomic_op we))) tt;
   Ev (SStore (addr + we_src_at) (native_bytes 8 (we_src we))) tt;
   Ev (SStore (addr + we_dst_at) (native_bytes 8 (we_dst we))) tt;
   Ev SSync tt;
   Ev (SStore (addr + we_cmd_at) (native_bytes 1
     (u8 (Z.lor (Z.land (we_cmd we) (Z.lnot MEMCPY_WE_CMD_WRAP)) wrap)))) tt].

(** The next element is one of the ring. *)
Record ring_ok (weq : weq_mem) : Prop := {
  ro_queue : 0 < wm_queue weq;
  ro_next : wm_queue weq <= wm_next weq <= wm_last weq
}.

Lemma ring_ok_next weq : ring_ok weq → wm_next weq ≠ NULL.
Proof. intros [H1 H2]. unfold NULL. lia. Qed.

Lemma wp_client_store w others p a areas irqs addr offset n v Q :
  client w others p a areas irqs → addr ≠ NULL →
  (∀ w', client w' others p a areas irqs → did (SStore (addr + offset) (native_bytes n v)) tt w w' → Q tt w') →
  wp (store_mem addr offset n v) Q w.
Proof.
  intros Hcl Ha HQ. unfold store_mem. destruct (Z.eqb_spec addr NULL); [done|].
  eapply wp_client_call; [exact Hcl|done|done|done|done|]. intros []. apply HQ.
Qed.

Lemma wp_add_we w others p a areas irqs weq we Q :
  client w others p a areas irqs → ring_ok weq →
  (∀ weq' w', client w' others p a areas irqs → ring_ok weq' →
     ran (add_effects (wm_next weq) (wm_wrap weq) we) w w' → Q (weq', wm_next weq) w') →
  wp (add_we weq we) Q w.
Proof.
  intros Hcl Hring HQ. pose proof (ring_ok_next _ Hring) as Hn. destruct Hring as [Hq [Hlo Hhi]].
  unfold add_we. destruct (Z.ltb_spec (wm_next weq) (wm_queue weq)); [lia|].
  destruct (Z.ltb_spec (wm_last weq) (wm_next weq)); [lia|]. cbn [orb].
  apply wp_bind. eapply wp_client_store; [exact Hcl|done|]. clear dependent Hcl. intros w1 Hcl D1.
  apply wp_bind. eapply wp_client_store; [exact Hcl|done|]. clear Hcl. intros w2 Hcl D2.
  apply wp_bind. eapply wp_client_store; [exact Hcl|done|]. clear Hcl. intros w3 Hcl D3.
  apply wp_bind. eapply wp_client_store; [exact Hcl|done|]. clear Hcl. intros w4 Hcl D4.
  apply wp_bind. eapply wp_client_store; [exact Hcl|done|]. clear Hcl. intros w5 Hcl D5.
  apply wp_bind. eapply wp_client_store; [exact Hcl|done|]. clear Hcl. intros w6 Hcl D6.
  apply wp_bind. eapply wp_client_call; [exact Hcl|done|done|done|done|]. clear Hcl. intros [] w7 Hcl D7.
  apply wp_bind. eapply wp_client_store; [exact Hcl|done|]. clear Hcl. intros w8 Hcl D8.
  apply wp_ret, HQ; [exact Hcl| |].
  - destruct (Z.ltb_spec (wm_last weq) (wm_next weq + sizeof_work_element)); split; simpl;
      unfold sizeof_work_element in *; lia.
  - unfold add_effects. eapply ran_cons; [exact D1|]. eapply ran_cons; [exact D2|]. eapply ran_cons; [exact D3|].
    eapply ran_cons; [exact D4|]. eapply ran_cons; [exact D5|]. eapply ran_cons; [exact D6|].
    eapply ran_cons; [exact D7|]. by apply ran_did.
Qed.

Lemma wp_client_aligned_alloc w others p a areas irqs alignment size Q :
  client w others p a areas irqs →
  (∀ addr w', client w' others p a areas irqs → 0 < addr ∨ addr = NULL ∧ out_of_memory w →
     did (SAlignedAlloc alignment size) addr w w' → Q addr w') →
  wp (aligned_alloc alignment size) Q w.
Proof.
  intros Hcl HQ. eapply wp_mono; [|apply wp_and; [by eapply (wp_client_call (SAlignedAlloc alignment size) _ _ _ _ _ _
    (λ _ w', client w' others p a areas irqs))|apply (wp_aligned_alloc _ _ _ (λ addr w',
      did (SAlignedAlloc alignment size) addr w w' ∧ (0 < addr ∨ addr = NULL ∧ out_of_memory w))); by intros]].
  intros addr w' [Hcl' [D Ha]]. by apply HQ.
Qed.

Lemma wp_client_memset w others p a areas irqs addr c n Q :
  client w others p a areas irqs → addr ≠ NULL →
  (∀ w', client w' others p a areas irqs → did (SMemset addr c n) tt w w' → Q tt w') →
  wp (memset addr c n) Q w.
Proof.
  intros Hcl Ha HQ. unfold memset. destruct (Z.eqb_spec addr NULL); [done|].
  eapply wp_client_call; [exact Hcl|done|done|done|done|]. intros []. apply HQ.
Qed.

Lemma wpe_init_weq w others p a areas irqs Q :
  client w others p a areas irqs → (out_of_memory w → excuse) →
  (∀ weq es w', client w' others p a areas irqs → ring_ok weq → wm_next weq = wm_queue weq →
     wm_wrap weq = 0 → ran es w w' → Q weq w') →
  wpe (init_weq QUEUE_SIZE) Q w.
Proof.
  intros Hcl He HQ. apply wpx_bind_wp. eapply wp_client_call; [exact Hcl|done|done|done|done|]. intros page w1 Hcl1 D1.
  apply wpx_bind_wp. eapply wp_client_aligned_alloc; [exact Hcl1|]. intros addr w2 Hcl2 [Haddr|[-> Hoom]] D2.
  2: { apply He. exact (out_of_memory_ran _ _ _ (ran_did _ _ _ _ D1) Hoom). }
  apply wpx_bind_wp. eapply wp_client_memset; [exact Hcl2|unfold NULL; lia|]. intros w3 Hcl3 D3.
  apply wpx_ret. eapply HQ; [exact Hcl3| |reflexivity|reflexivity|
    eapply ran_cons; [exact D1|]; eapply ran_cons; [exact D2|exact (ran_did _ _ _ _ D3)]]. split; [done|]. simpl.
  change (memcpy3_queue_length QUEUE_SIZE) with 16380. unfold sizeof_work_element. lia.
Qed.

(** ** Setting up the AFU *)

(** What is left when a step failed: a handle that can be closed. *)
Definition closable w (others : gmap ptr afu_view) (p : ptr) : Prop :=
  ∃ v, sys_inv w (<[p := v]> others).

Lemma client_closable w others p a areas irqs : client w others p a areas irqs → closable w others p.
Proof. intros Hcl. eexists. apply Hcl. Qed.

Lemma wp_alloc_irq w others p a areas irqs n Q :
  client w others p a areas irqs → 1 <= n → irq_space n a → afu_irq_count a < 32768 →
  (∀ w', closable w' others p → Q None w') →
  (∀ a' i es w', client w' others p a' areas (irqs ++ [i]) → ran es w w' → irq_space (n - 1) a' →
     afu_mmios a' = afu_mmios a → afu_irq_count a' = afu_irq_count a + 1 → Q (Some (irq_addr i)) w') →
  wp (alloc_irq p) Q w.
Proof.
  intros Hcl Hn Hsp Hlt Hfail Hok. apply wp_bind. eapply (wp_issues (λ _, True)); [auto with traced|].
  eapply wp_client_irq_alloc; [exact Hcl|exact Hn|done|done|..].
  - intros err a' w' He Hs es _ _. rewrite He. apply wp_ret, Hfail. by eexists.
  - intros a' i w' Hcl' Hsp' Hm Hc es Hr _. simpl. apply wp_bind, wp_ret. apply wp_bind.
    eapply wp_client_irq_get_handle; [exact Hcl'|by rewrite lookup_app_r, Nat.sub_diag by lia|].
    by eapply wp_ret, Hok.
Qed.

(** A write to a register that was done: between two barriers. *)
Definition reg_write (x : ocxl_mmio_area) (offset v : Z) : list event :=
  [Ev SSync tt; Ev (SStore (u64 (area_start x + offset)) (encode OCXL_MMIO_LITTLE_ENDIAN 8 v)) tt; Ev SSync tt].

Lemma access_effects_ok x offset v rc :
  access_verdict x offset 8 = rc → is_ok rc = true →
  access_effects x offset 8 (SStore (u64 (area_start x + offset)) (encode OCXL_MMIO_LITTLE_ENDIAN 8 v)) tt =
  reg_write x offset v.
Proof. intros E1 E2. unfold access_effects. by rewrite E1, E2. Qed.

(** Room for [n] interrupts and for an area. *)
Definition roomy (n : Z) (a : ocxl_afu) : Prop :=
  irq_space n a ∧ afu_irq_count a < 32768 - n ∧ afu_mmio_count a < 32768.

Lemma wp_setup_afu w others p a areas irqs n wed Q :
  client w others p a areas irqs → 1 <= n → roomy n a →
  (∀ w', closable w' others p → Q None w') →
  (∀ a' areas' irqs' i x handle es w', client w' others p a' areas' irqs' → areas' !! i = Some x →
     irq_space (n - 1) a' → afu_irq_count a' < 32768 →
     ran (es ++ reg_write x MEMCPY_AFU_PP_IRQ handle ++ reg_write x MEMCPY_AFU_PP_WED wed) w w' →
     Q (Some (handle_of a' i, handle)) w') →
  wp (setup_afu p wed) Q w.
Proof.
  intros Hcl Hn (Hsp & Hc & Hm) Hfail Hok. apply wp_bind.
  eapply (wp_issues (λ _, True)); [auto with traced|]. eapply wp_client_attach; [exact Hcl|..].
  { intros err w1 He Hcl1 _ _ _. rewrite He. by eapply wp_ret, Hfail, client_closable. }
  intros w1 Hcl1 es1 Hr1 _. simpl. apply wp_bind.
  eapply (wp_issues (λ _, True)); [unfold ocxl_mmio_map; auto with traced|].
  eapply wp_client_map; [exact Hcl1|done|..].
  { intros err w2 He Hcl2 _ _ _. rewrite He. by eapply wp_ret, Hfail, client_closable. }
  intros a2 i x areas2 w2 Hcl2 Hx _ Ec2 Em2 es2 Hr2 _. simpl in Ec2, Em2 |- *. apply wp_bind, wp_ret.
  assert (irq_space n a2) as Hsp2 by (unfold irq_space in *; rewrite Ec2, Em2; exact Hsp).
  apply wp_bind. eapply wp_alloc_irq; [exact Hcl2|exact Hn|exact Hsp2|lia|..].
  { intros w3 Hcl3. by apply wp_ret, Hfail. }
  intros a3 irq es3 w3 Hcl3 Hr3 Hsp3 Emm3 Ec3. cbv iota.
  assert (handle_of a2 i = handle_of a3 i) as -> by (unfold handle_of; by rewrite Emm3).
  apply wp_bind. eapply wp_client_write64; [exact Hcl3|exact Hx|by vm_compute|]. intros w4 Hcl4 Hr4.
  destruct (is_ok (access_verdict x MEMCPY_AFU_PP_IRQ 8)) eqn:Ev4; simpl; [|by eapply wp_ret, Hfail, client_closable].
  rewrite (access_effects_ok _ _ _ _ eq_refl Ev4) in Hr4.
  apply wp_bind. eapply wp_client_write64; [exact Hcl4|exact Hx|by vm_compute|]. intros w5 Hcl5 Hr5.
  destruct (is_ok (access_verdict x MEMCPY_AFU_PP_WED 8)) eqn:Ev5; simpl; [|by eapply wp_ret, Hfail, client_closable].
  rewrite (access_effects_ok _ _ _ _ eq_refl Ev5) in Hr5. apply wp_ret.
  eapply (Hok a3 areas2 _ i x _ (es1 ++ es2 ++ es3)); [exact Hcl5|exact Hx|exact Hsp3|lia|].
  rewrite <-!app_assoc. eapply ran_trans; [exact Hr1|]. eapply ran_trans; [exact Hr2|].
  eapply ran_trans; [exact Hr3|]. by eapply ran_trans.
Qed.

(** ** Starting a copy *)

(** Elements the code may dereference for this way of signalling. *)
Record signals (ppc64 : bool) (completion irq_el wake_el : Z) : Prop := {
  sg_irq : completion = 1 → irq_el ≠ NULL;
  sg_wake : ppc64 = true → completion = 2 → wake_el ≠ NULL
}.

Lemma wp_completion_we ppc64 completion w others p a areas irqs n weq Q :
  client w others p a areas irqs → ring_ok weq → 1 <= n → irq_space n a → afu_irq_count a < 32768 →
  (∀ w', closable w' others p → Q None w') →
  (∀ a' irqs' weq' irq_el wake_el handle es w', client w' others p a' areas irqs' → ring_ok weq' →
     signals ppc64 completion irq_el wake_el → afu_mmios a' = afu_mmios a → ran es w w' →
     Q (Some (weq', irq_el, wake_el, handle)) w') →
  wp (completion_we ppc64 completion p weq) Q w.
Proof.
  intros Hcl Hring Hn Hsp Hc Hfail Hok. unfold completion_we. destruct (Z.eqb_spec completion 1) as [->|Hc1].
  - apply wp_bind. eapply wp_alloc_irq; [exact Hcl|exact Hn|done|done|intros; by apply wp_ret, Hfail|].
    intros a1 i es w1 Hcl1 Hr1 _ Em _. cbv iota. apply wp_bind, wp_LOG_INF; [done|]. intros w2 Hq2.
    apply wp_bind. eapply wp_add_we; [by eapply client_quiet|exact Hring|]. intros weq' w3 Hcl3 Hring' Hr3.
    eapply wp_ret, Hok; [exact Hcl3|exact Hring'| |exact Em|eapply ran_trans; [exact Hr1|by eapply ran_quiet_l]].
    split; [intros _; by apply ring_ok_next|lia].
  - destruct (ppc64 && (completion =? 2)) eqn:E2.
    + apply wp_bind. eapply wp_alloc_irq; [exact Hcl|exact Hn|done|done|intros; by apply wp_ret, Hfail|].
      intros a1 i es w1 Hcl1 Hr1 _ Em _. cbv iota. apply wp_bind.
      eapply (wp_issues (λ _, True)); [auto with traced|]. eapply wp_client_p9_thread_id; [exact Hcl1|..].
      { intros err w2 He Hcl2 _ _ _. rewrite He. by eapply wp_ret, Hfail, client_closable. }
      intros tid w2 Hcl2 es2 Hr2 _. simpl. apply wp_bind, wp_ret. apply wp_bind, wp_LOG_INF; [done|].
      intros w3 Hq3. apply wp_bind. eapply wp_add_we; [by eapply client_quiet|exact Hring|].
      intros weq' w4 Hcl4 Hring' Hr4. eapply wp_ret, Hok; [exact Hcl4|exact Hring'| |exact Em|].
      * split; [done|intros _ _; by apply ring_ok_next].
      * eapply ran_trans; [exact Hr1|]. eapply ran_trans; [exact Hr2|]. by eapply ran_quiet_l.
    + eapply wp_ret, (Hok a irqs weq NULL NULL 0 []); [done|done| |done|apply ran_refl].
      split; [done|]. intros -> ->. done.
Qed.

(** The order of a start: the registers are told of the error interrupt and
    of the queue, the elements are stored, and behind a barrier the first of
    them, at the start of the queue, gets its valid bit. *)
Definition start_order (memcpy_we : memcpy_work_element) (addr : Z) (es : list event) : Prop :=
  ∃ es1 x handle es2 stop wrap bs,
    es = es1 ++ reg_write x MEMCPY_AFU_PP_IRQ handle ++
         reg_write x MEMCPY_AFU_PP_WED (MEMCPY_WED addr (QUEUE_SIZE / CACHELINESIZE)) ++
         add_effects addr 0 memcpy_we ++ es2 ++ add_effects stop wrap stop_we ++
         [Ev SSync tt; Ev (SLoad (addr + we_cmd_at) 1) bs;
          Ev (SStore (addr + we_cmd_at) (native_bytes 1 (Z.lor (of_native_bytes bs) MEMCPY_WE_CMD_VALID))) tt].

Lemma wp_set_valid w others p a areas irqs element Q :
  client w others p a areas irqs → element ≠ NULL →
  (∀ bs w', client w' others p a areas irqs →
     ran [Ev (SLoad (element + we_cmd_at) 1) bs;
          Ev (SStore (element + we_cmd_at) (native_bytes 1 (Z.lor (of_native_bytes bs) MEMCPY_WE_CMD_VALID))) tt]
       w w' → Q tt w') →
  wp (set_valid element) Q w.
Proof.
  intros Hcl He HQ. apply wp_bind. unfold load_mem. destruct (Z.eqb_spec element NULL); [done|].
  apply wp_bind. eapply wp_client_call; [exact Hcl|done|done|done|done|]. intros bs w1 Hcl1 D1.
  apply wp_ret. eapply wp_client_store; [exact Hcl1|done|]. intros w2 Hcl2 D2.
  apply (HQ bs); [exact Hcl2|]. eapply ran_cons; [exact D1|by apply ran_did].
Qed.

(** A copy that was started. *)
Record started w (others : gmap ptr afu_view) (p : ptr) (ppc64 : bool) (completion : Z)
    (a : ocxl_afu) (areas : list ocxl_mmio_area) (irqs : list ocxl_irq)
    (pp : ocxl_mmio_h) (x : ocxl_mmio_area) (el : elements) : Prop := {
  st_client : client w others p a areas irqs;
  st_area : ∃ i, pp = handle_of a i ∧ areas !! i = Some x;
  st_memcpy : el_memcpy el ≠ NULL;
  st_stop : el_stop el ≠ NULL;
  st_signals : signals ppc64 completion (el_irq el) (el_wake el)
}.

Lemma wpe_afu_memcpy_start ppc64 w others p a areas irqs src dst size completion Q :
  client w others p a areas irqs → roomy 2 a → (out_of_memory w → excuse) →
  (∀ w', closable w' others p → Q None w') →
  (∀ a' areas' irqs' pp x handle el es w', started w' others p ppc64 completion a' areas' irqs' pp x el →
     ran es w w' → start_order (copy_we size src dst) (el_memcpy el) es → Q (Some (pp, handle, el)) w') →
  wpe (afu_memcpy_start ppc64 p src dst size completion) Q w.
Proof.
  intros Hcl Hroom He Hfail Hok. apply wpx_bind.
  eapply wpe_init_weq; [exact Hcl|exact He|]. intros weq es1 w1 Hcl1 Hring Enext Ewrap Hr1. cbv zeta.
  apply wpx_bind_wp, wp_LOG_INF; [done|]. intros w2 Hq2. apply wpx_bind_wp.
  eapply wp_setup_afu; [eapply client_quiet; [exact Hcl1|exact Hq2]| |exact Hroom|..]; [lia|..].
  { intros w3 Hs. by apply wpx_ret, Hfail. }
  intros a3 areas3 irqs3 i x handle es3 w3 Hcl3 Hx Hsp3 Hc3 Hr3. cbv iota.
  apply wpx_bind_wp. eapply wp_add_we; [exact Hcl3|exact Hring|]. intros weq4 w4 Hcl4 Hring4 Hr4.
  apply wpx_bind_wp. eapply (wp_completion_we ppc64 completion w4); [exact Hcl4|exact Hring4| |exact Hsp3|exact Hc3|..]; [lia|..].
  { intros w5 Hs. by apply wpx_ret, Hfail. }
  intros a5 irqs5 weq5 irq_el wake_el afu_handle es5 w5 Hcl5 Hring5 Hsig Em5 Hr5. cbv iota.
  apply wpx_bind_wp. eapply wp_add_we; [exact Hcl5|exact Hring5|]. intros weq6 w6 Hcl6 _ Hr6.
  apply wpx_bind_wp. eapply wp_client_call; [exact Hcl6|done|done|done|done|]. intros [] w7 Hcl7 D7.
  apply wpx_bind_wp. eapply wp_set_valid; [exact Hcl7|by apply ring_ok_next|]. intros bs w8 Hcl8 Hr8.
  apply wpx_ret. eapply Hok.
  - split; simpl; [exact Hcl8| |by apply ring_ok_next|by apply ring_ok_next|exact Hsig].
    exists i. split; [unfold handle_of; by rewrite Em5|exact Hx].
  - eapply ran_trans; [exact Hr1|]. eapply ran_quiet_l; [exact Hq2|]. eapply ran_trans; [exact Hr3|].
    eapply ran_trans; [exact Hr4|]. eapply ran_trans; [exact Hr5|]. eapply ran_trans; [exact Hr6|].
    eapply ran_cons; [exact D7|exact Hr8].
  - simpl. exists (es1 ++ es3), x, handle, es5, (wm_next weq5), (wm_wrap weq5), bs.
    rewrite Enext, Ewrap, <-!app_assoc. reflexivity.
Qed.

(** ** Waiting for its end *)

Lemma wp_display_afu_status w others p a areas irqs i x Q :
  client w others p a areas irqs → areas !! i = Some x →
  (∀ w', client w' others p a areas irqs → Q tt w') →
  wp (display_afu_status (handle_of a i)) Q w.
Proof.
  intros Hcl Hx HQ. apply wp_bind. eapply wp_client_read64; [exact Hcl|exact Hx|by vm_compute|]. intros bs w1 Hcl1 _.
  cbv zeta. apply wp_when; intros _; [|by apply HQ]. apply wp_LOG_INF; [done|].
  intros w2 Hq. by eapply HQ, client_quiet.
Qed.

Lemma wp_err_status w others p a areas irqs i x Q :
  client w others p a areas irqs → areas !! i = Some x →
  (∀ w', closable w' others p → Q true w') → wp (err_status (handle_of a i)) Q w.
Proof.
  intros Hcl Hx HQ. apply wp_bind. eapply wp_display_afu_status; [exact Hcl|exact Hx|].
  intros w' Hcl'. by eapply wp_ret, HQ, client_closable.
Qed.

(** The status of [element] was read as 1. *)
Definition seen_done (element : Z) (es : list event) : Prop :=
  ∃ bs, status_read element bs ∈ es ∧ of_native_bytes bs = 1.

Lemma seen_done_l element es es' : seen_done element es → seen_done element (es ++ es').
Proof. intros (bs & Hin & Hb). exists bs. split; [by apply elem_of_app; left|done]. Qed.

Lemma seen_done_r element es es' : seen_done element es' → seen_done element (es ++ es').
Proof. intros (bs & Hin & Hb). exists bs. split; [by apply elem_of_app; right|done]. Qed.

Lemma terminates_expect_done w others p a areas irqs i x element what (k : nat → M K bool) Q :
  client w others p a areas irqs → areas !! i = Some x → element ≠ NULL →
  (∀ z, conforms (("unexpected status 0x%x for " +:+ what) +:+ newline) [AInt z] = true) →
  (∀ w', closable w' others p → Q true w') →
  (∀ es w', client w' others p a areas irqs → ran es w w' → seen_done element es → terminates k Q w') →
  terminates (λ fuel, expect_done (handle_of a i) element what (k fuel)) Q w.
Proof.
  intros Hcl Hx He Hconf Hfail Hok. unfold expect_done. apply terminates_bind_wp.
  eapply wp_client_load_status; [exact Hcl|done|]. intros bs w1 Hcl1 D1.
  destruct (Z.eqb_spec (of_native_bytes bs) 1) as [Eb|_].
  - eapply (Hok [status_read element bs]); [exact Hcl1|by apply ran_did|]. exists bs. split; [by left|done].
  - apply terminates_wp, wp_bind. eapply wp_client_load_status; [exact Hcl1|done|]. intros bs' w2 Hcl2 _.
    apply wp_bind, wp_LOG_ERR; [apply Hconf|]. intros w3 Hq.
    eapply wp_err_status; [by eapply client_quiet|exact Hx|exact Hfail].
Qed.

Lemma terminates_expect_done_if (b : bool) w others p a areas irqs i x element what (k : nat → M K bool) Q :
  client w others p a areas irqs → areas !! i = Some x → (b = true → element ≠ NULL) →
  (∀ z, conforms (("unexpected status 0x%x for " +:+ what) +:+ newline) [AInt z] = true) →
  (∀ w', closable w' others p → Q true w') →
  (∀ es w', client w' others p a areas irqs → ran es w w' → (b = true → seen_done element es) → terminates k Q w') →
  terminates (λ fuel, (if b then expect_done (handle_of a i) element what else id) (k fuel)) Q w.
Proof.
  intros Hcl Hx He Hconf Hfail Hok. destruct b.
  - eapply terminates_expect_done; [exact Hcl|exact Hx|by apply He|done|done|]. intros es w' Hcl' Hr Hs.
    by apply (Hok es).
  - apply (Hok [] w Hcl); [apply ran_refl|done].
Qed.

(** Everything was seen done. *)
Record copy_done (completion : Z) (el : elements) (es : list event) : Prop := {
  cd_copy : seen_done (el_memcpy el) es;
  cd_irq : completion = 1 → seen_done (el_irq el) es;
  cd_wake : completion = 2 → seen_done (el_wake el) es;
  cd_stop : seen_done (el_stop el) es
}.

Lemma terminates_signal ppc64 completion timeout w others p a areas irqs i x handle el Q :
  started w others p ppc64 completion a areas irqs (handle_of a i) x el → areas !! i = Some x →
  (completion = 1 → - 2 ^ 31 <= timeout * 1000 < 2 ^ 31) →
  (∀ events m es ret w', client w' others p (with_epoll a events m) areas irqs → ran es w w' → Q ret w') →
  terminates (λ fuel,
    if completion =? 1 then wait_for_irq fuel timeout p (handle_of a i) (el_irq_handle el) handle
    else if ppc64 && (completion =? 2) then
      wait_for_wake_host_thread fuel timeout p (handle_of a i) (el_wake el) (el_irq_handle el) handle
    else wait_for_status fuel timeout p (el_memcpy el) handle) Q w.
Proof.
  intros [Hcl _ Hme _ [_ Hwk]] Hx Ht HQ.
  assert (restarts (el_irq_handle el) (handle_of a i) a areas x) as Hres by (right; eauto).
  destruct (Z.eqb_spec completion 1) as [->|Hc1]; [|destruct (ppc64 && (completion =? 2)) eqn:E2].
  - apply (terminates_from _ _ _ (S (budget (w_os w)))). intros fuel Hf.
    eapply wp_wait_for_irq; [exact Hcl|exact Hres|lia|by apply Ht|]. intros events m es evs rc w' Hcl' Hr _.
    by eapply HQ.
  - apply andb_true_iff in E2 as [-> ->%Z.eqb_eq].
    apply (terminates_from _ _ _ (S (budget (w_os w) + readings (deadline_from (w_os w) timeout) (w_os w)))). intros fuel Hf.
    eapply wp_wait_for_wake; [exact Hcl|exact Hres|by apply Hwk|lia|]. intros events m es ret w' Hcl' Hr _.
    by eapply HQ.
  - apply (terminates_from _ _ _ (2 + (budget (w_os w) + readings (deadline_from (w_os w) timeout) (w_os w)))%nat). intros fuel Hf.
    eapply wp_wait_for_status; [exact Hcl|done|lia|]. intros events m now es ret w' Hcl' Hr _. by eapply HQ.
Qed.

Lemma terminates_afu_memcpy_finish ppc64 completion timeout w others p a areas irqs pp x handle el Q :
  started w others p ppc64 completion a areas irqs pp x el →
  (completion = 1 → - 2 ^ 31 <= timeout * 1000 < 2 ^ 31) → (completion = 2 → ppc64 = true) →
  (∀ w', closable w' others p → Q true w') →
  (∀ es w', closable w' others p → ran es w w' → copy_done completion el es → Q false w') →
  terminates (λ fuel, afu_memcpy_finish fuel ppc64 p completion timeout pp handle el) Q w.
Proof.
  intros Hst Ht Hppc Hfail Hok. destruct (st_area _ _ _ _ _ _ _ _ _ _ _ Hst) as (i & -> & Hx).
  unfold afu_memcpy_finish. apply terminates_bind; [intros n n' Hn; approximate|].
  eapply terminates_signal; [exact Hst|exact Hx|exact Ht|]. intros events m es1 rc w1 Hcl1 Hr1.
  destruct Hst as [_ _ Hme Hstop [Hirq Hwake]].
  set (a1 := with_epoll a events m) in *. change (handle_of a i) with (handle_of a1 i).
  destruct (c_bool rc); [by apply terminates_wp; eapply wp_err_status|].
  eapply terminates_expect_done; [exact Hcl1|exact Hx|done|done|done|]. intros es2 w2 Hcl2 Hr2 Hs2.
  eapply terminates_expect_done_if; [exact Hcl2|exact Hx|by intros ?%Z.eqb_eq; auto|done|done|].
  intros es3 w3 Hcl3 Hr3 Hs3.
  eapply terminates_expect_done_if; [exact Hcl3|exact Hx|by intros ?%Z.eqb_eq; auto|done|done|].
  intros es4 w4 Hcl4 Hr4 Hs4. apply terminates_bind; [intros n n' Hn; approximate|].
  apply (terminates_from _ _ _ (2 + (budget (w_os w4) + readings (deadline_from (w_os w4) timeout) (w_os w4)))%nat). intros fuel Hf.
  eapply wp_wait_for_status; [exact Hcl4|done|lia|]. intros events5 m5 now es5 ret w5 Hcl5 Hr5 _.
  change (handle_of a1 i) with (handle_of (with_epoll a1 events5 m5) i).
  eapply terminates_expect_done; [exact Hcl5|exact Hx|done|done|done|]. intros es6 w6 Hcl6 Hr6 Hs6.
  apply terminates_wp, wp_ret. eapply (Hok (es1 ++ es2 ++ es3 ++ es4 ++ (Ev SGettimeofday now :: es5) ++ es6));
    [by eapply client_closable|by repeat (eapply ran_trans; [eassumption|])|].
  split; [|intros ->|intros ->|].
  - by apply seen_done_r, seen_done_l.
  - apply seen_done_r, seen_done_r, seen_done_l. by apply Hs3.
  - apply seen_done_r, seen_done_r, seen_done_r, seen_done_l. by apply Hs4.
  - by do 5 apply seen_done_r.
Qed.

(** ** [afu_memcpy] *)

Lemma terminates_afu_memcpy ppc64 w others p a areas irqs src dst size completion timeout Q :
  client w others p a areas irqs → roomy 2 a → (out_of_memory w → excuse) →
  (completion = 1 → - 2 ^ 31 <= timeout * 1000 < 2 ^ 31) → (completion = 2 → ppc64 = true) →
  (∀ w', closable w' others p → Q true w') →
  (∀ el es es' w', closable w' others p → ran (es ++ es') w w' →
     start_order (copy_we size src dst) (el_memcpy el) es → copy_done completion el es' → Q false w') →
  terminates (λ fuel, afu_memcpy fuel ppc64 p src dst size completion timeout) Q w.
Proof.
  intros Hcl Hroom He Ht Hppc Hfail Hok. unfold afu_memcpy. apply terminates_bind_wpe.
  eapply wpe_afu_memcpy_start; [exact Hcl|exact Hroom|exact He|..].
  - intros w1 Hs. by apply terminates_wp, wp_ret, Hfail.
  - intros a' areas' irqs' pp x handle el es w1 Hst Hr Ho. cbv iota beta.
    eapply terminates_afu_memcpy_finish; [exact Hst|exact Ht|exact Hppc|exact Hfail|].
    intros es' w' Hs Hr' Hd. eapply (Hok el es es'); [exact Hs|by eapply ran_trans|exact Ho|exact Hd].
Qed.

Lemma approx_afu_memcpy n n' ppc64 p src dst size completion timeout :
  (n <= n')%nat →
  approx (K := K) (afu_memcpy n ppc64 p src dst size completion timeout)
    (afu_memcpy n' ppc64 p src dst size completion timeout).
Proof.
  intros Hn. unfold afu_memcpy, afu_memcpy_finish, expect_done. approximate.
  all: destruct (completion =? 1), (completion =? 2); cbn [id]; approximate.
Qed.

(** ** [main] *)

Lemma wp_global_setup w others p a areas irqs Q :
  client w others p a areas irqs → afu_mmio_count a < 32767 →
  (∀ w', closable w' others p → Q true w') →
  (∀ a' areas' w', client w' others p a' areas' irqs → afu_mmio_count a' <= afu_mmio_count a + 1 →
     afu_irq_count a' = afu_irq_count a → afu_irq_max_count a' = afu_irq_max_count a → Q false w') →
  wp (global_setup p) Q w.
Proof.
  intros Hcl Hc Hfail Hok. apply wp_bind. eapply wp_client_map; [exact Hcl|lia|..].
  { intros err w1 He Hcl1. rewrite He. by eapply wp_ret, Hfail, client_closable. }
  intros a1 i x areas1 w1 Hcl1 Hx Hm Ec Em. simpl. apply wp_bind, wp_ret. apply wp_bind.
  eapply wp_client_read64; [exact Hcl1|exact Hx|by vm_compute|]. intros bs w2 Hcl2 _.
  destruct (is_ok (access_verdict x MEMCPY_AFU_GLOBAL_CFG 8)); simpl.
  2: { apply wp_bind, wp_LOG_ERR; [done|]. intros w3 Hq.
       eapply wp_ret, Hfail, client_closable. by eapply client_quiet. }
  apply wp_bind, wp_ret. apply wp_bind, wp_LOG_INF; [done|]. intros w3 Hq3.
  apply wp_bind. eapply wp_client_write64; [by eapply client_quiet|exact Hx|by vm_compute|]. intros w4 Hcl4 _.
  destruct (is_ok (access_verdict x MEMCPY_AFU_GLOBAL_TRACE 8)); simpl.
  - apply wp_bind, wp_LOG_INF; [done|]. intros w5 Hq5. eapply wp_ret, Hok; [by eapply client_quiet|done..].
  - apply wp_bind, wp_LOG_ERR; [done|]. intros w5 Hq5. eapply wp_ret, Hfail, client_closable.
    by eapply client_quiet.
Qed.

Lemma wp_fill_from w others p a areas irqs buf i n Q :
  client w others p a areas irqs → buf ≠ NULL →
  (∀ w', client w' others p a areas irqs → Q tt w') → wp (fill_from buf i n) Q w.
Proof.
  revert w i. induction n as [|n IH]; intros w i Hcl Hb HQ; simpl; [by apply wp_ret, HQ|].
  apply wp_bind. eapply wp_client_store; [exact Hcl|done|]. intros w1 Hcl1 _. by apply IH.
Qed.

Lemma issues_fill_from buf i n : issues (K := K) (λ _, True) (fill_from buf i n).
Proof. revert i. induction n as [|n IH]; intros i; simpl; unfold store_mem; traced. Qed.

Lemma issues_global_setup p : issues (K := K) (λ _, True) (global_setup p).
Proof. unfold global_setup, LOG_ERR, LOG_INF, printf, ocxl_mmio_map, stored_in. traced. Qed.

#[local] Hint Resolve issues_fill_from issues_global_setup : traced.

Lemma wp_closable_did {R : Set} (c : sys R) w others p Q :
  closable w others p → silent c = false → (∀ r, acquires c r = None) → releases c = None →
  (∀ r w', closable w' others p → did c r w w' → Q r w') → wp (call c) Q w.
Proof.
  intros [v Hs] Hsi Ha Hr HQ. apply wp_call; [done|]. intros r w' Hd. apply HQ; [|done].
  exists v. by eapply sys_inv_did.
Qed.

Lemma wp_closable_close w others p Q :
  closable w others p → others !! p = None → (∀ w', sys_inv w' others → Q OCXL_OK w') →
  wp (ocxl_afu_close p) Q w.
Proof.
  intros [v Hs] Hp HQ. destruct (si_views _ _ Hs p v (lookup_insert_eq _ _ _)) as [Hi Hfd].
  eapply wp_afu_close; [exact Hi|done|]. intros w' Hc. apply HQ.
  pose proof (sys_inv_close _ w' _ p v Hs (lookup_insert_eq _ _ _) Hc) as Hs'.
  by rewrite delete_insert_id in Hs'.
Qed.

Lemma closable_quiet w w' others p : closable w others p → quiet w w' → closable w' others p.
Proof. intros [v Hs] Hq. exists v. by eapply sys_inv_quiet. Qed.

Lemma wp_memcmp w others p a b n Q :
  closable w others p → a ≠ NULL → b ≠ NULL → (∀ differ w', closable w' others p → Q differ w') →
  wp (memcmp a b n) Q w.
Proof.
  intros Hs Ha Hb HQ. unfold memcmp. destruct (Z.eqb_spec a NULL); [done|]. destruct (Z.eqb_spec b NULL); [done|].
  apply wp_bind. eapply wp_closable_did; [exact Hs|done|done|done|]. intros xs w1 Hs1 _.
  apply wp_bind. eapply wp_closable_did; [exact Hs1|done|done|done|]. intros ys w2 Hs2 _. by apply wp_ret, HQ.
Qed.

(** What the options may be for the program to be defined. *)
Record args_ok (ppc64 : bool) (args : memcpy_test_args) : Prop := {
  ao_timeout : completion args = 1 → - 2 ^ 31 <= completion_timeout args * 1000 < 2 ^ 31;
  ao_wake : completion args = 2 → ppc64 = true
}.

(** How the program may end: a return leaves only [others] behind. *)
Definition ended_ok (others : gmap ptr afu_view) (e : ended) (w' : world K) : Prop :=
  match e with
  | Exited status => status = 1
  | Returned status => (status = 0 ∨ status = 1) ∧ sys_inv w' others
  end.

Lemma enable_messages_keeps sources :
  keeps_objects (λ a, a <| afu_verbose_errors := c_bool (Z.land sources OCXL_ERRORS) |>
                        <| afu_tracing := c_bool (Z.land sources OCXL_TRACING) |>).
Proof. intros a. by repeat split. Qed.

Lemma terminates_run_copy ppc64 args w others p a :
  client w others p a [] [] → others !! p = None → no_tables a → args_ok ppc64 args → (out_of_memory w → excuse) →
  terminates (λ fuel, run_copy fuel ppc64 args p) (ended_ok others) w.
Proof.
  intros Hcl Hp Htab [Ht Hppc] He. destruct Htab as (_ & Ec & _ & _ & Ei & Eim & _).
  unfold run_copy. apply terminates_bind_wp, wp_since; [unfold ocxl_afu_enable_messages; traced|].
  eapply wp_client_set; [exact Hcl|apply enable_messages_keeps|]. intros w1 Hcl1 T1.
  apply terminates_bind_wp, wp_since; [auto with traced|]. eapply wp_global_setup; [exact Hcl1|simpl; lia|..].
  { intros w2 _ _. by apply terminates_wp, wp_ret. }
  intros a2 areas2 w2 Hcl2 Hm2 Hi2 Him2 T2. simpl in Hm2, Hi2, Him2. cbv iota.
  assert (∀ w', since w2 w' → out_of_memory w' → excuse) as He2.
  { intros w' T' Hoom. apply He. destruct (transitivity T1 (transitivity T2 T')) as [es Hr].
    exact (out_of_memory_ran _ _ _ Hr Hoom). }
  apply terminates_bind_wp. eapply wp_client_aligned_alloc; [exact Hcl2|]. intros src w3 Hcl3 Hsrc D3.
  apply terminates_bind_wp. eapply wp_client_aligned_alloc; [exact Hcl3|]. intros dst w4 Hcl4 Hdst D4.
  pose proof (since_did _ _ _ _ D3) as T3. pose proof (transitivity T3 (since_did _ _ _ _ D4)) as T4.
  destruct Hsrc as [Hsrc|[-> Hoom]]; [|by apply terminates_bind_wpe, (He2 w2)].
  destruct Hdst as [Hdst|[-> Hoom]].
  2: { apply terminates_bind_wp. eapply wp_fill_from; [exact Hcl4|unfold NULL; lia|]. intros w5 Hcl5.
       by apply terminates_bind_wpe, (He2 w3). }
  assert (src ≠ NULL ∧ dst ≠ NULL) as [Hs0 Hd0] by (unfold NULL; lia).
  apply terminates_bind_wp, wp_since; [auto with traced|]. eapply wp_fill_from; [exact Hcl4|done|]. intros w5 Hcl5 T5.
  apply terminates_bind_wp. eapply wp_client_memset; [exact Hcl5|done|]. intros w6 Hcl6 D6.
  assert (∀ w7 w8 rc, closable w7 others p → quiet w7 w8 → rc = 0 ∨ rc = 1 →
    wp (ocxl_afu_close p ;; mret (Returned rc)) (ended_ok others) w8) as Hend.
  { intros w7 w8 rc Hs7 Hq8 Hrc. apply wp_bind.
    eapply wp_closable_close; [by eapply closable_quiet|exact Hp|]. intros w9 Hs9. by apply wp_ret. }
  apply terminates_bind; [intros n n' Hn; by apply approx_afu_memcpy|].
  eapply terminates_afu_memcpy; [exact Hcl6| | |exact Ht|exact Hppc|..].
  - split_and!; [left; unfold INITIAL_IRQ_COUNT; lia|lia|lia].
  - apply He2. etrans; [exact T4|]. etrans; [exact T5|exact (since_did _ _ _ _ D6)].
  - intros w7 Hs7. apply terminates_wp, wp_bind.
    eapply wp_closable_close; [exact Hs7|exact Hp|]. intros w8 Hs8.
    apply wp_bind, wp_LOG_ERR; [done|]. intros w9 Hq9. apply wp_ret. split; [by right|].
    by eapply sys_inv_quiet.
  - intros el es es' w7 Hs7 _ _ _. apply terminates_wp, wp_bind.
    eapply wp_memcmp; [exact Hs7|done|done|]. intros differ w8 Hs8. apply wp_bind.
    destruct differ; [apply wp_LOG_ERR|apply wp_LOG_INF]; [done| |done|]; intros w9 Hq9;
      (eapply Hend; [exact Hs8|exact Hq9|by left]).
Qed.

(** The options. *)
Definition timeouts_ok (os : list opt) : Prop :=
  Forall (λ o, opt_char o = "t"%char → - 2 ^ 31 <= atoi (default "" (opt_arg o)) * 1000 < 2 ^ 31) os.

Lemma wp_print_lines lines w (Q : unit → world K → Prop) :
  (∀ w', quiet w w' → Q tt w') → wp (print_lines lines) Q w.
Proof.
  revert w. induction lines as [|line lines IH]; intros w HQ; simpl; [by apply wp_ret, HQ|].
  apply wp_bind, wp_call_silent; [done|]. intros [] w1 Hq. apply IH. intros w2 Hq2. apply HQ. by etrans.
Qed.

Lemma wp_usage ppc64 name w (Q : ended → world K → Prop) :
  (∀ w', quiet w w' → Q (Exited 1) w') → wp (usage ppc64 name) Q w.
Proof. intros HQ. apply wp_bind, wp_print_lines. intros w' Hq. by apply wp_ret, HQ. Qed.

(** The state of the options while they are parsed. *)
Definition parsing (ppc64 : bool) (args : memcpy_test_args) : Prop :=
  - 2 ^ 31 <= completion_timeout args * 1000 < 2 ^ 31 ∧ (completion args = 2 → ppc64 = true).

Lemma wp_parse_opts ppc64 name os args w (Q : option memcpy_test_args → world K → Prop) :
  timeouts_ok os → parsing ppc64 args →
  (∀ w', quiet w w' → Q None w') →
  (∀ args' w', quiet w w' → parsing ppc64 args' → Q (Some args') w') →
  wp (parse_opts ppc64 name os args) Q w.
Proof.
  intros Hos. revert args w. induction Hos as [|o os Ho _ IH]; intros args w Ha Hstop Hgo; simpl.
  { by apply wp_ret, Hgo. }
  apply wp_bind.
  assert (∀ Q', (∀ w', quiet w w' → Q' tt w') →
    wp (match opt_diag o with Some text => call (SStderr text) | None => mret tt end) Q' w) as Hdiag.
  { intros Q' HQ'. destruct (opt_diag o); [|by apply wp_ret, HQ']. apply wp_call_silent; [done|].
    intros []. apply HQ'. }
  apply Hdiag. intros w1 Hq1. destruct (_ || _).
  - apply wp_bind, wp_usage. intros w2 Hq2. apply wp_ret, Hstop. by etrans.
  - apply IH; [|intros w2 Hq2; apply Hstop; by etrans|intros args' w2 Hq2 Ha'; apply Hgo; [by etrans|done]].
    destruct Ha as [Ht Hc]. destruct (Ascii.eqb (opt_char o) "i"); [by split|].
    destruct ppc64; simpl; [destruct (Ascii.eqb (opt_char o) "w"); [by split|]|];
      destruct (Ascii.eqb_spec (opt_char o) "t") as [E|_]; try (split; [by apply Ho|exact Hc]);
      destruct (Ascii.eqb (opt_char o) "v"); by split.
Qed.

Lemma terminates_main ppc64 name argv w others :
  sys_inv w others → timeouts_ok (getopt name (optstring ppc64) argv).1 → (out_of_memory w → excuse) →
  terminates (λ fuel, main fuel ppc64 name argv) (ended_ok others) w.
Proof.
  intros Hs Hos He. unfold main. destruct (getopt name (optstring ppc64) argv) as [os rest]. simpl in Hos.
  apply terminates_bind_wp. apply wp_parse_opts; [exact Hos|by split|..].
  { intros w1 _. by apply terminates_wp, wp_ret. }
  intros args w1 Hq1 Hargs. cbv zeta. set (args' := if _ =? -1 then _ else _).
  assert (args_ok ppc64 args') as Hok.
  { destruct Hargs as [Ht Hc]. subst args'. destruct (completion_timeout args =? -1); by split. }
  clearbody args'. destruct rest as [|arg rest].
  2: { apply terminates_wp, wp_bind, wp_fprintf_stderr; [done|]. intros w2 _. by apply wp_usage. }
  apply terminates_bind_wp. apply wp_bind, wp_get_globals, wp_set_globals.
  set (w2 := w1 <| w_glob := _ |>).
  assert (sys_inv w2 others) as Hs2.
  { eapply sys_inv_kept; [eapply sys_inv_quiet; [exact Hs|exact Hq1]|].
    apply kept_mem; [|done..]. eapply si_heap, sys_inv_quiet; [exact Hs|exact Hq1]. }
  apply terminates_bind_wp, wp_since; [unfold ocxl_afu_open; traced|]. eapply wp_client_open; [exact Hs2|..].
  - intros err w3 Herr _ _. rewrite Herr. apply terminates_wp, wp_bind, wp_LOG_ERR; [done|]. intros w4 _. by apply wp_ret.
  - intros p a w3 Hcl Hp Htab T3. simpl. eapply terminates_run_copy; [exact Hcl|exact Hp|exact Htab|exact Hok|].
    intros Hoom. apply He. destruct T3 as [es Hr]. eapply out_of_memory_ran; [by apply ran_quiet|].
    eapply out_of_memory_ran; [|exact Hoom]. exact (ran_trans _ _ _ _ _ (ran_memory w1 w2 eq_refl eq_refl) Hr).
Qed.

Lemma approx_main n n' ppc64 name argv :
  (n <= n')%nat → approx (K := K) (main n ppc64 name argv) (main n' ppc64 name argv).
Proof.
  intros Hn. pose proof (approx_afu_memcpy n n') as Hm. unfold main, run_copy.
  destruct (getopt name (optstring ppc64) argv) as [os rest]. approximate.
Qed.

End run.
