(* ===== verification/MemcpySpec.v ===== *)
(** * MemcpySpec: what the sample program guarantees

    The properties of samples/memcpy/memcpy.c, on any platform that satisfies
    the laws of Client, MemcpyWait and MemcpyQueue, and their instances on the
    virtual kernel of VirtOcxl. *)

From S2P Require Import Prelude Format Types World Logic Messages Buffer Ledger Mmio MmioFacts.
From S2P Require Import MmioAccess Irq IrqFacts IrqTable Event Names Afu AfuInv EventFacts Fuel.
From S2P Require Import AfuClose AfuOpen Trace Api Client VirtAfu VirtOcxl Demo EventSpec Memcpy Getopt.
From S2P Require Import MemcpySample MemcpyQueue MemcpyWait MemcpyRun.
Open Scope Z_scope.

Section spec.
Context {K : Type} `{Platform K} `{Abi} `{!EventLaws K} `{!SingleEvents K} `{!Finite K}.
Implicit Types (w : world K).

(** C18: waiting for an interrupt returns as soon as the events the device has
    to deliver are taken.  Its result is the verdict on exactly the events
    its checks delivered: 0x04 when a check failed, 0 once the completion
    interrupt came (the AFU is then restarted, whatever came before it), and
    otherwise the issues seen, with 0x08 when the wait had a timeout. *)
Theorem wait_for_irq_spec fuel w others p a areas irqs timeout pp irq_ea err_ea x :
  client w others p a areas irqs → restarts irq_ea pp a areas x → (budget (w_os w) < fuel)%nat →
  - 2 ^ 31 <= timeout * 1000 < 2 ^ 31 →
  wp (wait_for_irq fuel timeout p pp irq_ea err_ea) (λ ret w', ∃ events m es evs rc,
    client w' others p (with_epoll a events m) areas irqs ∧ ran (es ++ restart_effects x rc) w w' ∧
    polled p a irqs irq_ea (timeout * 1000) es evs rc ∧ ret = irq_verdict timeout err_ea evs rc) w.
Proof.
  intros Hcl Hpp Hf Ht. eapply wp_wait_for_irq; [done..|]. intros events m es evs rc w' Hcl' Hr Hp.
  by exists events, m, es, evs, rc.
Qed.

(** polling a status byte ends, at the latest with the first reading of the
    clock after the deadline, and follows the loop: it returns 0 only after a
    load of the status that was not 0, with no issue reported by the checks
    for events before it. *)
Theorem wait_for_status_spec w others p a areas irqs timeout we err_ea :
  client w others p a areas irqs → we ≠ NULL →
  terminates (λ fuel, wait_for_status fuel timeout p we err_ea) (λ ret w', ∃ events m now es,
    client w' others p (with_epoll a events m) areas irqs ∧ ran (Ev SGettimeofday now :: es) w w' ∧
    status_outcome p a irqs we err_ea (deadline_from (w_os w) timeout) (timeout, 0) es ret ∧
    (ret = 0 → ∃ es' bs, es = es' ++ [status_read we bs] ∧ of_native_bytes bs ≠ 0)) w.
Proof.
  intros Hcl Hwe. apply (terminates_from _ _ _ (2 + (budget (w_os w) + readings (deadline_from (w_os w) timeout) (w_os w)))%nat).
  intros fuel Hf. eapply wp_wait_for_status; [exact Hcl|done|lia|].
  intros events m now es ret w' Hcl' Hr Ho. exists events, m, now, es. split_and!; [done..|].
  intros ->. by eapply status_outcome_done.
Qed.

(** waiting for wake_host_thread ends, and reports success only when the
    status of the element was seen set. *)
Theorem wait_for_wake_spec w others p a areas irqs timeout pp we irq_ea err_ea x :
  client w others p a areas irqs → restarts irq_ea pp a areas x → we ≠ NULL →
  terminates (λ fuel, wait_for_wake_host_thread fuel timeout p pp we irq_ea err_ea) (λ ret w', ∃ events m es,
    client w' others p (with_epoll a events m) areas irqs ∧ ran es w w' ∧
    (ret = 0 → ∃ es' bs, es = es' ++ [status_read we bs] ∧ of_native_bytes bs ≠ 0)) w.
Proof.
  intros Hcl Hpp Hwe. apply (terminates_from _ _ _ (S (budget (w_os w) + readings (deadline_from (w_os w) timeout) (w_os w)))).
  intros fuel Hf. eapply wp_wait_for_wake; [exact Hcl|exact Hpp|done|lia|].
  intros events m es ret w' Hcl' Hr Hz. by exists events, m, es.
Qed.

Context `{!NonZeroHandles K} `{!ByteLoads K} `{!ShortNames K} `{!AllocatedMemory K}.


(** C4: the program ends for every list of arguments whose timeouts (-t) fit
    an int in milliseconds, on every platform where the device delivers
    finitely many events, one pending at a time, and the clock passes every
    deadline: it exits with 1, or it returns 0 or 1 with every kernel object
    its AFU held released.  The one exception is memory that is exhausted: the
    code does not check its allocations, and has undefined behaviour then (and
    in no other case).  The
    kernel keeps [EventLaws], [NonZeroHandles], [ByteLoads] and [ShortNames]. *)
Theorem main_spec ppc64 name argv w others :
  sys_inv w others → timeouts_ok (getopt name (optstring ppc64) argv).1 →
  settles (out_of_memory w) (λ fuel, main fuel ppc64 name argv) (ended_ok others) w.
Proof.
  intros Hs Ho. apply (terminates_outcome (E := out_of_memory w)); [|by apply terminates_main].
  intros n n'. apply approx_main.
Qed.

End spec.

(** ** Instances on the virtual kernel *)

#[export] Instance virt_allocated_memory : AllocatedMemory virt.
Proof. intros alignment size k. unfold os_step, virt_platform. simpl. lia. Qed.

#[export] Instance virt_set_memory : SetMemory virt.
Proof.
  split. intros addr c n k q. unfold os_step, virt_platform. simpl. unfold peek.
  change (v_mem (k <| v_mem := ?m |>)) with m. unfold clear.
  destruct (Z.eqb_spec (c mod 256) 0) as [Ec|_].
  - rewrite map_lookup_filter. destruct (v_mem k !! q) as [b|]; simpl; [|rewrite Ec; by destruct (_ && _)].
    destruct ((addr <=? q) && (q <? addr + n)); simpl; [by rewrite Ec|done].
  - rewrite lookup_poke. destruct (Z.leb_spec addr q) as [Hle|]; [|done]. simpl.
    destruct (Z.ltb_spec q (addr + n)).
    + rewrite lookup_replicate_2 by lia. simpl. by rewrite Z.mod_mod.
    + rewrite lookup_ge_None_2; [done|]. rewrite length_replicate. lia.
Qed.

(** The events that are pending, and the microseconds up to the second after
    a deadline. *)
Definition virt_budget (v : virt) : nat :=
  length (v_pending v) + (if xf_addr (v_translation_fault v) =? 0 then 0 else 1).

Definition virt_readings (deadline : timeval) (v : virt) : nat :=
  Z.to_nat ((deadline.1 + 1) * 1000000 - v_clock v).

Lemma filter_found (l : list (Z * Z)) (fd : Z) x :
  find (λ y, y.1 =? fd) l = Some x →
  (length (List.filter (λ y, negb (y.1 =? fd)%Z) l) + 1 <= length l)%nat.
Proof.
  induction l as [|y l IH]; simpl; [done|]. destruct (y.1 =? fd); simpl.
  - intros _. pose proof (List.filter_length_le (λ y : Z * Z, negb (y.1 =? fd)) l). lia.
  - intros Hf. specialize (IH Hf). lia.
Qed.

Lemma virt_read_budget fd size v :
  (virt_budget (virt_read fd size v).2 +
   (if delivered (Ev (SRead fd size) (virt_read fd size v).1) then 1 else 0) <= virt_budget v)%nat.
Proof.
  unfold virt_read. destruct (is_context v fd).
  - unfold virt_afu_read, afu_read, virt_budget, v_translation_fault. simpl.
    destruct (Z.eqb_spec (xf_addr (translation_fault (v_dev v))) 0) as [E|E]; simpl.
    + rewrite E. simpl. lia.
    + destruct (Z.ltb_spec size KERNEL_EVENT_SIZE); [|destruct (Z.ltb_spec KERNEL_EVENT_SIZE size)]; simpl.
      * destruct (Z.eqb_spec (xf_addr (translation_fault (v_dev v))) 0); [done|lia].
      * destruct (Z.eqb_spec (xf_addr (translation_fault (v_dev v))) 0); [done|lia].
      * repeat case_match; lia.
  - destruct (find _ (v_pending v)) as [[fd' n]|] eqn:Ef; unfold virt_budget, v_translation_fault; simpl; [|lia].
    apply filter_found in Ef. lia.
Qed.

#[export] Instance virt_budget_ranked : Ranked virt_budget delivered.
Proof.
  split. intros R c k. destruct c; try exact (virt_read_budget fd size k);
    unfold os_step, virt_platform, virt_step, virt_open, virt_write, new_fd, virt_thread;
    repeat (case_match; try done; try (unfold virt_budget, v_translation_fault; simpl; lia));
    unfold virt_budget, v_translation_fault; simpl; try lia.
  destruct (cuse_nodes_frame k (cuse_dev_info_argv (start_afu_thread device_name))) as (_ & _ & E & _).
  { simpl in E. rewrite E. lia. }
  all: injection H as _ <-; simpl; lia.
Qed.

#[export] Instance virt_readings_ranked deadline : Ranked (virt_readings deadline) (early deadline).
Proof.
  split. intros R c k. destruct c;
    try (pose proof (cuse_nodes_frame k (cuse_dev_info_argv (start_afu_thread device_name))) as (_ & _ & _ & E);
         unfold os_step, virt_platform, virt_step, virt_thread, virt_readings; simpl in *; rewrite E; lia);
    try (unfold os_step, virt_platform, virt_step, virt_open, virt_read, virt_afu_read, virt_write, new_fd,
           virt_afu_ioctl_other;
         repeat (case_match; try done; try (unfold virt_readings; simpl; lia)); unfold virt_readings; simpl; lia).
  { unfold os_step, virt_platform, virt_readings, early, timer_gt. simpl.
    pose proof (Z.div_mod (v_clock k) 1000000 ltac:(lia)). pose proof (Z.mod_pos_bound (v_clock k) 1000000 ltac:(lia)).
    destruct (Z.eqb_spec (v_clock k / 1000000) deadline.1);
      [destruct (Z.ltb_spec deadline.2 (v_clock k mod 1000000))|destruct (Z.ltb_spec deadline.1 (v_clock k / 1000000))];
      simpl; lia. }
  all: unfold virt_readings; simpl; lia.
Qed.

#[export] Instance virt_finite : Finite virt :=
  {| budget := virt_budget; readings := virt_readings |}.

(** ** Witnesses *)

(** An application whose invariant and whose balance are known. *)
Lemma client_alone (w : world virt) p a areas irqs :
  afu_inv w p a areas irqs → 0 <= afu_fd a → watch_ok p a irqs (w_os w) →
  (∀ r, balance (effects w) r = held (afu_resources a areas irqs) r) → client w ∅ p a areas irqs.
Proof.
  intros Hi Hfd Hk Hb. split; [|done]. split.
  - apply Hi.
  - intros q x Hx. apply lookup_insert_Some in Hx as [[<- <-]|[_ Hx]]; [by split|by rewrite lookup_empty in Hx].
  - intros q x q' x' Hx Hx' Hne. apply lookup_insert_Some in Hx as [[<- <-]|[_ Hx]]; [|by rewrite lookup_empty in Hx].
    apply lookup_insert_Some in Hx' as [[<- <-]|[_ Hx']]; [done|by rewrite lookup_empty in Hx'].
  - intros r. rewrite total_insert, total_empty by done. unfold view_resources. simpl. rewrite Hb. lia.
Qed.

Lemma client_events : client world_events ∅ demo_afu afu_irq [area_mapped] irqs_irq.
Proof.
  apply client_alone; [exact afu_inv_events|done|exact demo_watch_ok|].
  intros r. unfold balance, effects, held, afu_resources. simpl. unfold delta, one_if. simpl. lia.
Qed.

(** The events of [world_events], waited for with the IRQ as completion. *)
Lemma restarts_events : restarts 131072 (handle_of afu_irq 0) afu_irq [area_mapped] area_mapped.
Proof. right. by exists 0%nat. Qed.

Lemma wait_for_irq_spec_witness :
  wp (wait_for_irq 3 10 demo_afu (handle_of afu_irq 0) 131072 0) (λ ret w', ∃ events m es evs rc,
    client w' ∅ demo_afu (with_epoll afu_irq events m) [area_mapped] irqs_irq ∧
    ran (es ++ restart_effects area_mapped rc) world_events w' ∧
    polled demo_afu afu_irq irqs_irq 131072 (10 * 1000) es evs rc ∧ ret = irq_verdict 10 0 evs rc) world_events.
Proof.
  refine (wait_for_irq_spec 3 world_events ∅ demo_afu afu_irq [area_mapped] irqs_irq 10
    (handle_of afu_irq 0) 131072 0 area_mapped client_events restarts_events _ _); [vm_compute; lia|lia].
Defined.

(** The fault is reported, the completion interrupt still makes it a success. *)
Example wait_after_fault :
  result (wait_for_irq 3 10 demo_afu (handle_of afu_irq 0) 131072 0) world_events = Some 0 ∧
  result (wait_for_irq 3 10 demo_afu (handle_of afu_irq 0) 0 131072) world_events = Some (0x01 + 0x02 + 0x08).
Proof. by vm_compute. Qed.

Lemma wait_for_status_spec_witness :
  terminates (λ fuel, wait_for_status fuel 10 demo_afu 8192 131072) (λ ret w', ∃ events m now es,
    client w' ∅ demo_afu (with_epoll afu_irq events m) [area_mapped] irqs_irq ∧
    ran (Ev SGettimeofday now :: es) world_events w' ∧
    status_outcome demo_afu afu_irq irqs_irq 8192 131072 (deadline_from (w_os world_events) 10) (10, 0) es ret ∧
    (ret = 0 → ∃ es' bs, es = es' ++ [status_read 8192 bs] ∧ of_native_bytes bs ≠ 0)) world_events.
Proof.
  refine (wait_for_status_spec world_events ∅ demo_afu afu_irq [area_mapped] irqs_irq 10 8192 131072
    client_events _). unfold NULL. lia.
Defined.

Lemma wait_for_wake_spec_witness :
  terminates (λ fuel, wait_for_wake_host_thread fuel 10 demo_afu (handle_of afu_irq 0) 8192 131072 0)
    (λ ret w', ∃ events m es,
      client w' ∅ demo_afu (with_epoll afu_irq events m) [area_mapped] irqs_irq ∧ ran es world_events w' ∧
      (ret = 0 → ∃ es' bs, es = es' ++ [status_read 8192 bs] ∧ of_native_bytes bs ≠ 0)) world_events.
Proof.
  refine (wait_for_wake_spec world_events ∅ demo_afu afu_irq [area_mapped] irqs_irq 10
    (handle_of afu_irq 0) 8192 131072 0 area_mapped client_events restarts_events _). unfold NULL. lia.
Defined.



(** A queue of four elements in cleared memory. *)
Definition weq_demo : weq_mem := mk_weq_mem 4096 4096 4192 0 0.

Lemma ring_demo : ring_at (reg_byte (w_os world_irq)) weq_demo (memcpy3_init_weq 128).
Proof.
  split; try reflexivity. intros i we Hi. apply (lookup_replicate 4) in Hi as [-> _]. apply we_of_zero. intros q _.
  unfold reg_byte, virt_registers, peek. change (v_mem (w_os world_irq)) with (∅ : gmap Z Z).
  by rewrite lookup_empty.
Qed.

Definition ring_after (w : world virt) (q : memcpy_weq) (i : Z) : weq_mem * Z → world virt → Prop :=
  λ '(weq', addr) w', addr = wm_queue weq_demo + sizeof_work_element * i ∧ wm_queue weq' = wm_queue weq_demo ∧
    ring_at (reg_byte (w_os w')) weq' q ∧ same_mem w w'.

Lemma add_we_equiv_witness :
  wp (add_we weq_demo stop_we)
    (ring_after world_irq (mk_weq (stop_we :: replicate 3 zero_we) 1 3 0 0) 0) world_irq.
Proof.
  refine (add_we_equiv world_irq weq_demo (memcpy3_init_weq 128) stop_we _ _ ring_demo); [done|].
  by split.
Defined.

Lemma init_weq_equiv_witness :
  wpx (out_of_memory world_irq) False (init_weq QUEUE_SIZE) (λ weq w', 0 < wm_queue weq ∧
    ring_at (reg_byte (w_os w')) weq (memcpy3_init_weq QUEUE_SIZE)) world_irq.
Proof. exact (init_weq_equiv world_irq). Defined.

(** A process that has no AFU yet, on a machine that has the memcpy AFU. *)
Definition memcpy_world : world virt :=
  initial_world (plug_in "/dev/ocxl" "/sys/class/ocxl" AFU_NAME 4096 16384 (virt_init <| v_irqs := true |>)).

Lemma main_spec_witness :
  settles (out_of_memory memcpy_world) (λ fuel, main fuel true "memcpy" ["-i"; "-t"; "3"]) (ended_ok ∅) memcpy_world.
Proof.
  refine (main_spec true "memcpy" ["-i"; "-t"; "3"] memcpy_world ∅ (sys_inv_initial _) _).
  apply Forall_cons_2; [intros [=]|]. apply Forall_cons_2; [|by apply Forall_nil].
  intros _. vm_compute. split; [by intros [=]|done].
Defined.
