(* ===== verification/MemcpyDemo.v ===== *)
(** * MemcpyDemo: the sample program on a memcpy engine

    The virtual kernel of VirtOcxl with an engine behind the device that does
    what a work element asks for.  The engine is an instance of the outside,
    made for these runs; it shows that a run of [main] that succeeds exists,
    and what the code makes of an engine that does not do its work. *)

From S2P Require Import Prelude Format Types World Logic Messages Mmio Irq Event Names Afu.
From S2P Require Import Trace Client VirtAfu VirtOcxl Memcpy Getopt MemcpySample.
Open Scope Z_scope.

Record engine : Type := mk_engine {
  e_virt : virt;
  e_honest : bool;             (* does it copy? *)
  e_pp : Z;                    (* where the per-PASID area is mapped *)
  e_pages : list (Z * Z);      (* interrupt page, offset *)
  e_fds : list (Z * Z)         (* offset, eventfd *)
}.

#[export] Instance eta_engine : Eta engine := fun e =>
  mk_engine (e_virt e) (e_honest e) (e_pp e) (e_pages e) (e_fds e).

Definition peek_le (v : virt) (addr : Z) (n : nat) : Z :=
  of_le_bytes ((λ i, peek v (addr + Z.of_nat i)) <$> seq 0 n).

Definition poke_bytes (addr : Z) (bs : list Z) (v : virt) : virt := v <| v_mem := poke addr bs (v_mem v) |>.

(** The eventfd behind an interrupt page. *)
Definition eventfd_of (e : engine) (page : Z) : option Z :=
  match find (λ x, x.1 =? page) (e_pages e) with
  | Some (_, offset) => snd <$> find (λ x, x.1 =? offset) (e_fds e)
  | None => None
  end.

Definition engine_copy (addr : Z) (v : virt) : virt :=
  let n := Z.to_nat (peek_le v (addr + we_length_at) 2) in
  poke_bytes (peek_le v (addr + we_dst_at) 8)
    ((λ i, peek v (peek_le v (addr + we_src_at) 8 + Z.of_nat i)) <$> seq 0 n) v.

Definition engine_irq (e : engine) (page : Z) (v : virt) : virt :=
  match eventfd_of e page with Some fd => trigger_irq fd 1 v | None => v end.

Definition engine_increment (addr : Z) (v : virt) : virt :=
  poke_bytes (peek_le v (addr + we_dst_at) 8)
    (le_bytes 4 (peek_le v (peek_le v (addr + we_src_at) 8) 4 + 1)) v.

(** The valid elements from [addr] on that are not done yet. *)
Fixpoint engine_run (fuel : nat) (e : engine) (addr : Z) (v : virt) : virt :=
  match fuel with
  | O => v
  | S fuel =>
      let cmd := peek v (addr + we_cmd_at) in
      if negb (Z.testbit cmd 0) then v
      else if negb (peek v (addr + we_status_at) =? 0) then engine_run fuel e (addr + sizeof_work_element) v else
      let op := Z.shiftr cmd 2 in
      let v := poke_bytes (addr + we_status_at) [1] v in
      if op =? MEMCPY_WE_CMD_STOP then v
      else engine_run fuel e (addr + sizeof_work_element)
        (if op =? MEMCPY_WE_CMD_COPY then (if e_honest e then engine_copy addr v else v)
         else if op =? 4 then (if e_honest e then engine_increment addr v else v)
         else if op =? MEMCPY_WE_CMD_IRQ then engine_irq e (peek_le v (addr + we_src_at) 8) v
         else v)
  end.

(** The queue the work element descriptor points at. *)
Definition engine_start (e : engine) : engine :=
  if e_pp e =? 0 then e else
  let queue := Z.land (peek_le (e_virt e) (e_pp e + MEMCPY_AFU_PP_WED) 8) 0xfffffffffffff000 in
  if queue =? 0 then e else e <| e_virt := engine_run 8 e queue (e_virt e) |>.

Definition engine_step (R : Set) (c : sys R) (e : engine) : R * engine :=
  let '(r, v) := virt_step R c (e_virt e) in
  let e := e <| e_virt := v |> in
  (r, match c in sys R return R → engine with
      | SMmap _ _ fd offset => λ addr,
          if negb (is_context v fd) then e
          else if offset =? 0 then e <| e_pp := addr |>
          else e <| e_pages := (e_pages e ++ [(addr, offset)]) |>
      | SIoctlIrqSetFd _ offset fd => λ _, e <| e_fds := (e_fds e ++ [(offset, fd)]) |>
      | SStore _ _ => λ _, engine_start e
      | _ => λ _, e
      end r).

#[export] Instance engine_platform : Platform engine := engine_step.

Definition memcpy_machine (honest : bool) : world engine :=
  initial_world (mk_engine
    (plug_in "/dev/ocxl" "/sys/class/ocxl" AFU_NAME 4096 16384 (virt_init <| v_irqs := true |>)) honest 0 [] []).

(** How a run ended, and what it printed. *)
Definition outcome (m : M engine ended) (w : world engine) : option (ended * string * string) :=
  match m w with
  | Ret e w' => Some (e, v_stdout (e_virt (w_os w')), v_stderr (e_virt (w_os w')))
  | _ => None
  end.

Fixpoint ends_with (suffix s : string) : bool :=
  String.eqb suffix s || match s with String _ s => ends_with suffix s | EmptyString => false end.

(** A run printed [out] last, and [err] to stderr. *)
Definition ran_to (m : M engine ended) (w : world engine) (e : ended) (out err : string) : Prop :=
  match outcome m w with
  | Some (e', o, r) => e' = e ∧ ends_with out o = true ∧ r = err
  | None => False
  end.

(** The copy is done, whether the completion is polled or an interrupt. *)
Example main_polls :
  ran_to (main 4 false "memcpy" []) (memcpy_machine true) (Returned 0) ("Memory contents match" +:+ newline) "".
Proof. vm_compute. done. Qed.

Example main_interrupts :
  ran_to (main 4 false "memcpy" ["-i"; "-t"; "5"]) (memcpy_machine true) (Returned 0)
    ("AFU completion interrupt received" +:+ newline +:+ "Memory contents match" +:+ newline) "".
Proof. vm_compute. done. Qed.

(** An engine that reports a copy it did not do is noticed, and not reported
    by the exit status. *)
Example main_mismatch :
  ran_to (main 4 false "memcpy" []) (memcpy_machine false) (Returned 0) ""
    ("Memory contents do not match" +:+ newline).
Proof. vm_compute. done. Qed.

(** Without the device. *)
Example main_no_device :
  ran_to (main 4 false "memcpy" []) (initial_world (mk_engine virt_init true 0 [] [])) (Exited 1) ""
    ("ERROR: Unknown error: No OCXL devices found in '/dev/ocxl' with pattern '/dev/ocxl/IBM,MEMCPY3.*.*'" +:+
     newline +:+ "Could not open AFU 'IBM,MEMCPY3'" +:+ newline).
Proof. vm_compute. done. Qed.

(** With an option it does not know. *)
Example main_usage :
  ran_to (main 4 false "memcpy" ["-q"]) (memcpy_machine true) (Exited 1) ""
    ("memcpy: invalid option -- 'q'" +:+ newline +:+
     foldr (λ line text, line +:+ newline +:+ text) "" (usage_text false "memcpy")).
Proof. vm_compute. done. Qed.
