(* ===== verification/MemcpyTest.v ===== *)
(** * MemcpyTest: afutests/memcpy/ocxl_memcpy.c

    The hardware test of the memcpy AFU: it sets up the AFU, forks a number of
    processes that each copy (or increment, or compare and swap) in a loop and
    check the result, and waits for them.  The queue of work elements is the
    one of MemcpySample.  The model follows one process: [fork] answers 0 in
    the child.  An automatic variable whose address is taken and that was
    never assigned has an unspecified value: [junk]. *)

From S2P Require Import Prelude Format Types World Logic Messages Buffer Mmio Irq Event Afu.
From S2P Require Import Getopt Memcpy MemcpySample.
Open Scope Z_scope.

Definition AFU_MAX_PROCESSES : Z := 512.
Definition MEMCPY_WE_CMD_INCREMENT : Z := 4.
Definition MEMCPY_WE_CMD_ATOMIC : Z := 5.
Definition MEMCPY_AFU_PP_STATUS_Stopped : Z := 0x10.

Record test_args : Type := mk_test_args {
  ta_loop_count : Z;
  ta_size : Z;
  ta_irq : bool;
  ta_completion_timeout : Z;
  ta_reallocate : bool;
  ta_initialize : bool;
  ta_device : option string;
  ta_wake_host_thread : bool;
  ta_increment : bool;
  ta_atomic_cas : bool;
  ta_shared_mem : bool;
  ta_shmid : Z;
  ta_lock : Z;
  ta_counter : Z
}.

#[export] Instance eta_test_args : Eta test_args := fun a =>
  mk_test_args (ta_loop_count a) (ta_size a) (ta_irq a) (ta_completion_timeout a) (ta_reallocate a)
    (ta_initialize a) (ta_device a) (ta_wake_host_thread a) (ta_increment a) (ta_atomic_cas a)
    (ta_shared_mem a) (ta_shmid a) (ta_lock a) (ta_counter a).

(** What changes from one loop to the next: the shared memory in [args], the
    queue, the buffers and the copy element; are the buffers attached? *)
Record loop_state : Type := mk_loop {
  ls_args : test_args;
  ls_weq : weq_mem;
  ls_src : Z;
  ls_dst : Z;
  ls_memcpy_we : memcpy_work_element;
  ls_attached : bool
}.

#[export] Instance eta_loop_state : Eta loop_state := fun s =>
  mk_loop (ls_args s) (ls_weq s) (ls_src s) (ls_dst s) (ls_memcpy_we s) (ls_attached s).

#[export] Instance eta_we : Eta memcpy_work_element := fun e =>
  mk_we (we_cmd e) (we_status e) (we_length e) (we_cmd_extra e) (we_reserved e) (we_atomic_op e) (we_src e) (we_dst e).

(** What the set-up of the AFU gives the loop. *)
Record test_setup : Type := mk_setup {
  su_pid : Z;
  su_afu : ptr;
  su_pp_mmio : ocxl_mmio_h;
  su_irq_ea : Z;
  su_err_ea : Z;
  su_irq_we : memcpy_work_element;
  su_increment_we : memcpy_work_element;
  su_cas_we : memcpy_work_element
}.

(** The labels of [test_afu_memcpy]. *)
Inductive label : Set := err | err_status_label.

Section test.
Context {K : Type} `{Platform K} `{Abi}.
Implicit Types (w : world K).

Definition TLOG_ERR (pid : Z) (fmt : string) (args : list arg) : M K unit :=
  fprintf_stderr ("Process %d: " +:+ fmt +:+ newline) (AInt pid :: args).
Definition TLOG_INF (pid : Z) (fmt : string) (args : list arg) : M K unit :=
  printf ("Process %d: " +:+ fmt +:+ newline) (AInt pid :: args).

(** [memset] and [memcmp] with an [int] size: a negative one is converted to
    a size no object has. *)
Definition memset_int (p c n : Z) : M K unit := if n <? 0 then undefined else memset p c n.
Definition memcmp_int (a b n : Z) : M K bool := if n <? 0 then undefined else memcmp a b (Z.to_nat n).

(** ** Set-up of the AFU, before the processes *)

Definition open_afu (device : option string) : M K (ocxl_err * ptr) :=
  match device with
  | Some path => ocxl_afu_open_from_dev path
  | None => ocxl_afu_open AFU_NAME
  end.

Definition test_global_setup (junk : Z) (args : test_args) : M K bool :=
  pid ← call SGetpid;
  '(rc, afu_h) ← open_afu (ta_device args);
  if negb (is_ok rc) then
    TLOG_ERR pid "ocxl_afu_open() failed: %d" [AInt (ocxl_err_code rc)] ;;
    mret true
  else
  '(rc, global_mmio) ← ocxl_mmio_map afu_h OCXL_GLOBAL_MMIO;
  if negb (is_ok rc) then
    TLOG_ERR pid "global ocxl_mmio_map() failed: %d" [AInt (ocxl_err_code rc)] ;;
    mret true
  else
  global_mmio ← stored_in global_mmio;
  '(_, cfg) ← ocxl_mmio_read64 global_mmio MEMCPY_AFU_GLOBAL_CFG OCXL_MMIO_LITTLE_ENDIAN;
  TLOG_INF pid "AFU config = %#lx" [AInt (default junk cfg)] ;;
  rc ← ocxl_mmio_write64 global_mmio MEMCPY_AFU_GLOBAL_TRACE OCXL_MMIO_LITTLE_ENDIAN 0x8008008000000000;
  if negb (is_ok rc) then
    TLOG_ERR pid "global ocxl_mmio_write64(trace) failed: %d" [AInt (ocxl_err_code rc)] ;;
    mret true
  else
  rc ← ocxl_mmio_write64 global_mmio MEMCPY_AFU_GLOBAL_TRACE OCXL_MMIO_LITTLE_ENDIAN 0x000000000007100B;
  if negb (is_ok rc) then
    TLOG_ERR pid "global ocxl_mmio_write64(trace) failed: %d" [AInt (ocxl_err_code rc)] ;;
    mret true
  else
  TLOG_INF pid "traces reset and rearmed" [] ;;
  ocxl_afu_close afu_h ;;
  mret false.

(** ** Shared memory *)

(** The arguments with their shared memory; true on failure. *)
Definition shm_create (args : test_args) : M K (test_args * bool) :=
  page ← call SPagesize;
  shmid ← call (SShmget page);
  let args := args <| ta_shmid := shmid |> in
  if shmid =? -1 then
    perror "Error getting shared memory segment" ;;
    mret (args, true)
  else
  lock ← call (SShmat shmid);
  let args := args <| ta_lock := lock |> in
  if lock =? MAP_FAILED then
    perror "Unable to attach shared memory segment" ;;
    rc ← call (SShmRemove shmid);
    when (c_bool rc) (perror "Error destroying shared memory segment") ;;
    mret (args, true)
  else mret (args <| ta_counter := lock + ta_size args |>, false).

Definition shm_destroy (args : test_args) : M K unit :=
  rc ← call (SShmdt (ta_lock args));
  when (c_bool rc) (perror "Error detaching shared memory segment") ;;
  rc ← call (SShmRemove (ta_shmid args));
  when (c_bool rc) (perror "Error destroying shared memory segment").

(** ** Waiting: 0, or -1 *)

Fixpoint test_status_loop (fuel : nat) (we : Z) (pid : Z) (test_timeout temp : timeval) : M K Z :=
  match fuel with
  | O => diverge
  | S fuel =>
      if timer_gt temp test_timeout then
        TLOG_ERR pid "timeout polling for completion" [] ;;
        mret (-1)
      else
      status ← load_status we;
      if c_bool status then mret 0 else
      temp ← gettimeofday;
      test_status_loop fuel we pid test_timeout temp
  end.

Definition test_wait_for_status (fuel : nat) (we timeout pid : Z) : M K Z :=
  let temp := (timeout, 0) in
  now ← gettimeofday;
  test_status_loop fuel we pid (timeradd now temp) temp.

Definition event_type (e : ocxl_event) : Z :=
  match e with OCXL_EVENT_IRQ _ => 0 | OCXL_EVENT_TRANSLATION_FAULT _ => 1 end.

Definition test_wait_for_irq (fuel : nat) (we timeout pid : Z) (afu_h : ptr) (irq_ea err_ea : Z) : M K Z :=
  ms ← int_mul timeout 1000;
  '(nevent, events) ← ocxl_afu_event_check fuel afu_h ms 1;
  if negb (nevent =? 1) then
    (if nevent =? 0 then TLOG_ERR pid "timeout waiting for AFU interrupt" []
     else TLOG_ERR pid "unexpected return value for ocxl_afu_event_check(): %d" [AInt nevent]) ;;
    mret (-1)
  else
  event ← the_event events;
  match event with
  | OCXL_EVENT_TRANSLATION_FAULT _ =>
      TLOG_ERR pid "unexpected event type returned by ocxl_afu_event_check(): %d" [AInt (event_type event)] ;;
      mret (-1)
  | OCXL_EVENT_IRQ e =>
      if negb (ev_handle e =? irq_ea) then
        (if ev_handle e =? err_ea then TLOG_ERR pid "received error irq instead of AFU irq" []
         else TLOG_ERR pid "received unknown irq EA=0x%lx" [AInt (ev_handle e)]) ;;
        mret (-1)
      else test_wait_for_status fuel we timeout pid
  end.

(** [event.irq.handle], whatever the type: with a fault these are the bytes
    of its DSISR. *)
Definition handle_field (e : ocxl_event) : Z :=
  match e with OCXL_EVENT_IRQ e => ev_handle e | OCXL_EVENT_TRANSLATION_FAULT e => ev_dsisr e end.

Definition is_irq (e : ocxl_event) : bool :=
  match e with OCXL_EVENT_IRQ _ => true | OCXL_EVENT_TRANSLATION_FAULT _ => false end.

(** The [for] loop of [wait_fast]: the status was set, or it is too late. *)
Fixpoint fast_loop (fuel : nat) (we pid : Z) (test_timeout : timeval) : M K bool :=
  match fuel with
  | O => diverge
  | S fuel =>
      ocxl_wait ;;
      status ← load_status we;
      if c_bool status then mret true else
      temp ← gettimeofday;
      if timer_gt temp test_timeout then
        TLOG_ERR pid "timeout waiting for wake_host_thread" [] ;;
        mret false
      else fast_loop fuel we pid test_timeout
  end.

Definition wait_fast (fuel : nat) (we timeout pid : Z) (afu_h : ptr) (irq_ea : Z) : M K Z :=
  now ← gettimeofday;
  woken ← fast_loop fuel we pid (timeradd now (timeout, 0));
  if negb (woken : bool) then mret (-1) else
  status ← load_status we;
  if status =? 1 then mret 0 else
  '(nevent, events) ← ocxl_afu_event_check fuel afu_h 1000 1;
  if nevent =? 1 then
    event ← the_event events;
    if negb (is_irq event) || negb (handle_field event =? irq_ea) then
      TLOG_ERR pid "received unexpected event type %d while in 'wait' (handle=%#lx)"
        [AInt (event_type event); AInt (handle_field event)] ;;
      mret (-1)
    else mret 0
  else
    status ← load_status we;
    TLOG_ERR pid "wake_host_thread failed with status %d" [AInt status] ;;
    mret (-1).

Definition restart_afu (pid : Z) (pp_mmio : ocxl_mmio_h) : M K Z :=
  '(rc, status) ← ocxl_mmio_read64 pp_mmio MEMCPY_AFU_PP_STATUS OCXL_MMIO_LITTLE_ENDIAN;
  if negb (is_ok rc) then
    TLOG_ERR pid "read of process status failed: %d" [AInt (ocxl_err_code rc)] ;;
    mret (-1)
  else
  status ← stored_in status;
  if negb (c_bool (Z.land status MEMCPY_AFU_PP_STATUS_Stopped)) then mret 0 else
  rc ← ocxl_mmio_write64 pp_mmio MEMCPY_AFU_PP_CTRL OCXL_MMIO_LITTLE_ENDIAN MEMCPY_AFU_PP_CTRL_Restart;
  if negb (is_ok rc) then
    TLOG_ERR pid "couldn't restart process: %d" [AInt (ocxl_err_code rc)] ;;
    mret (-1)
  else mret 0.

(** ** Work elements *)

Definition atomic_cas_we (dst : Z) : memcpy_work_element :=
  mk_we (MEMCPY_WE_CMD 0 MEMCPY_WE_CMD_ATOMIC) 0 (htole16 8) 0x19 [0; 0; 0] (htole64 0) (htole64 1) (htole64 dst).

Definition increment_we (src dst : Z) : memcpy_work_element :=
  mk_we (MEMCPY_WE_CMD 0 MEMCPY_WE_CMD_INCREMENT) 0 (htole16 4) 0 [0; 0; 0] 0 (htole64 src) (htole64 dst).

Definition test_wake_we (handle : Z) : memcpy_work_element :=
  mk_we (MEMCPY_WE_CMD 1 MEMCPY_WE_CMD_WAKE_HOST_THREAD) 0 0 0 [0; 0; 0] 0 (htole64 handle) 0.

(** ** [test_afu_memcpy] *)

(** A message, and [goto err]. *)
Definition goto_err {A} (pid : Z) (fmt : string) (rc : ocxl_err) : M K (option A) :=
  TLOG_ERR pid fmt [AInt (ocxl_err_code rc)] ;; mret None.

(** The interrupt or wake element and its interrupt; nothing when neither is
    asked for.  [None]: [goto err]. *)
Definition test_signal (pid : Z) (afu_h : ptr) (args : test_args) : M K (option (Z * memcpy_work_element)) :=
  if negb (ta_irq args || ta_wake_host_thread args) then mret (Some (0, zero_we)) else
  '(rc, afu_irq) ← ocxl_irq_alloc afu_h NULL;
  if negb (is_ok rc) then goto_err pid "ocxl_irq_alloc() failed: %d" rc else
  afu_irq ← stored_in afu_irq;
  afu_irq_ea ← ocxl_irq_get_handle afu_h afu_irq;
  TLOG_INF pid "irq EA = %lx" [AInt afu_irq_ea] ;;
  if ta_irq args then mret (Some (afu_irq_ea, irq_we afu_irq_ea)) else
  '(rc, _) ← ocxl_afu_get_p9_thread_id afu_h;
  if ocxl_err_code rc <? 0 then goto_err pid "ocxl_afu_get_p9_thread_id() failed: %d" rc
  else mret (Some (afu_irq_ea, test_wake_we afu_irq_ea)).

(** From the interrupts to the registers. *)
Definition test_setup_afu (pid : Z) (afu_h : ptr) (args : test_args) (wed : Z) (inc cas : memcpy_work_element) :
    M K (option test_setup) :=
  signal ← test_signal pid afu_h args;
  match signal with
  | None => mret None
  | Some (afu_irq_ea, irq_we) =>
      '(rc, err_irq) ← ocxl_irq_alloc afu_h NULL;
      if negb (is_ok rc) then goto_err pid "ocxl_irq_alloc(err) failed: %d" rc else
      err_irq ← stored_in err_irq;
      err_irq_ea ← ocxl_irq_get_handle afu_h err_irq;
      rc ← ocxl_afu_attach afu_h 0;
      if negb (is_ok rc) then goto_err pid "ocxl_attach() failed: %d" rc else
      '(rc, pp_mmio) ← ocxl_mmio_map afu_h OCXL_PER_PASID_MMIO;
      if negb (is_ok rc) then goto_err pid "pp ocxl_mmio_map() failed: %d" rc else
      pp_mmio ← stored_in pp_mmio;
      rc ← ocxl_mmio_write64 pp_mmio MEMCPY_AFU_PP_IRQ OCXL_MMIO_LITTLE_ENDIAN err_irq_ea;
      if negb (is_ok rc) then goto_err pid "ocxl_mmio_write64(err irq) failed: %d" rc else
      call SSync ;;
      rc ← ocxl_mmio_write64 pp_mmio MEMCPY_AFU_PP_WED OCXL_MMIO_LITTLE_ENDIAN wed;
      if negb (is_ok rc) then goto_err pid "ocxl_mmio_write64(wed) failed: %d" rc else
      mret (Some (mk_setup pid afu_h pp_mmio afu_irq_ea err_irq_ea irq_we inc cas))
  end.

(** The loop [*(src + i) = pid & 0xff], from [i] on *)
Fixpoint fill_pid (src pid i : Z) (n : nat) : M K unit :=
  match n with
  | O => mret tt
  | S n => store_mem src i 1 (Z.land pid 0xff) ;; fill_pid src pid (i + 1) n
  end.

(** The contents of the source buffer, and the increment element. *)
Definition init_source (args : test_args) (pid src : Z) (inc : memcpy_work_element) : M K memcpy_work_element :=
  if ta_atomic_cas args then
    memset_int src 0 (ta_size args) ;;
    mret (inc <| we_src := htole64 (ta_counter args) |> <| we_dst := htole64 (ta_counter args) |>)
  else if ta_increment args then
    store_mem src 0 4 (htole32 (u32 (pid - 1))) ;;
    mret inc
  else
    fill_pid src pid 0 (Z.to_nat (ta_size args)) ;;
    mret inc.

(** *** One loop *)

(** An access to the buffers is undefined when they are not attached. *)
Definition attached {A} (s : loop_state) (m : M K A) : M K A := if ls_attached s then m else undefined.

(** The queue of one loop: [first_we] and [last_we]. *)
Definition loop_queue (su : test_setup) (s : loop_state) : M K (weq_mem * Z * Z) :=
  let args := ls_args s in
  '(weq, first_we, last_we) ←
    (if ta_atomic_cas args then
       '(weq, first_we) ← add_we (ls_weq s) (su_cas_we su);
       '(weq, last_we) ← add_we weq (su_increment_we su);
       set_valid last_we ;;
       '(weq, last_we) ← add_we weq (ls_memcpy_we s);
       set_valid last_we ;;
       mret (weq, first_we, last_we)
     else if ta_increment args then
       v ← attached s (load_mem (ls_src s) 0 4);
       attached s (store_mem (ls_src s) 0 4 (htole32 (u32 (le32toh v + 1)))) ;;
       '(weq, we) ← add_we (ls_weq s) (su_increment_we su);
       mret (weq, we, we)
     else
       '(weq, we) ← add_we (ls_weq s) (ls_memcpy_we s);
       mret (weq, we, we));
  '(weq, last_we) ←
    (if ta_irq args || ta_wake_host_thread args then add_we weq (su_irq_we su) else mret (weq, last_we));
  call SSync ;;
  set_valid first_we ;;
  mret (weq, first_we, last_we).

Definition loop_wait (fuel : nat) (su : test_setup) (args : test_args) (last_we : Z) : M K Z :=
  let timeout := ta_completion_timeout args in
  if ta_irq args then test_wait_for_irq fuel last_we timeout (su_pid su) (su_afu su) (su_irq_ea su) (su_err_ea su)
  else if ta_wake_host_thread args then wait_fast fuel last_we timeout (su_pid su) (su_afu su) (su_irq_ea su)
  else test_wait_for_status fuel last_we timeout (su_pid su).

(** A message with the status of the element, and [goto err_status]. *)
Definition bad_status (pid we : Z) (what : string) : M K (option label) :=
  status ← load_status we;
  TLOG_ERR pid ("unexpected status 0x%x for " +:+ what) [AInt status] ;;
  mret (Some err_status_label).

(** The checks of the status bytes; [None]: none failed. *)
Definition loop_statuses (su : test_setup) (args : test_args) (first_we last_we : Z) : M K (option label) :=
  status ← load_status first_we;
  if negb (status =? 1) then bad_status (su_pid su) first_we "copy" else
  irq_bad ← (if ta_irq args then status ← load_status last_we; mret (negb (status =? 1)) else mret false);
  if (irq_bad : bool) then bad_status (su_pid su) last_we "irq" else
  wake_bad ← (if ta_wake_host_thread args then
                status ← load_status last_we;
                if status =? 1 then mret false else
                status ← load_status last_we; mret (negb (status =? 0x11))
              else mret false);
  if (wake_bad : bool) then bad_status (su_pid su) last_we "wake_host_thread" else mret None.

(** The check of the result of the loop [i]. *)
Definition loop_result (su : test_setup) (s : loop_state) (i : Z) : M K (option label) :=
  let args := ls_args s in
  if ta_atomic_cas args then mret None
  else if ta_increment args then
    d ← attached s (load_mem (ls_dst s) 0 4);
    v ← attached s (load_mem (ls_src s) 0 4);
    if c_bool (u32 (le32toh d - le32toh v - 1)) then
      TLOG_ERR (su_pid su) "increment error on loop %d" [AInt i] ;;
      mret (Some err_status_label)
    else mret None
  else
    differ ← attached s (memcmp_int (ls_dst s) (ls_src s) (ta_size args));
    if (differ : bool) then
      TLOG_ERR (su_pid su) "copy error on loop %d" [AInt i] ;;
      mret (Some err_status_label)
    else mret None.

(** The buffers of the next loop. *)
Definition loop_buffers (su : test_setup) (s : loop_state) : M K (label + loop_state) :=
  let args := ls_args s in
  if ta_reallocate args then
    next ← (if ta_shared_mem args then
              shm_destroy args ;;
              '(args, failed) ← shm_create args;
              let src := ta_counter args in
              mret (inr (s <| ls_args := args |> <| ls_src := src |> <| ls_dst := ta_lock args |>
                           <| ls_memcpy_we := (ls_memcpy_we s) <| we_src := htole64 src |> |>
                           <| ls_attached := negb failed |>))
            else
              page ← call SPagesize;
              call (SMunmapAnon (ls_dst s) page) ;;
              page ← call SPagesize;
              dst ← call (SMmapAnon page);
              if dst =? MAP_FAILED then
                TLOG_ERR (su_pid su) "reallocation of destination buffer failed" [] ;;
                mret (inl err)
              else mret (inr (s <| ls_dst := dst |>)));
    match next with
    | inl l => mret (inl l)
    | inr s =>
        let s := s <| ls_memcpy_we := (ls_memcpy_we s) <| we_dst := htole64 (ls_dst s) |> |> in
        when (ta_initialize args) (attached s (memset_int (ls_dst s) 0 (ta_size args))) ;;
        mret (inr s)
    end
  else
    when (negb (ta_atomic_cas args)) (attached s (memset_int (ls_dst s) 0 (ta_size args))) ;;
    mret (inr s).

Definition test_loop (fuel : nat) (su : test_setup) (s : loop_state) (i : Z) : M K (label + loop_state) :=
  let args := ls_args s in
  '(weq, first_we, last_we) ← loop_queue su s;
  let s := s <| ls_weq := weq |> in
  rc ← loop_wait fuel su args last_we;
  if c_bool rc then mret (inl err_status_label) else
  bad ← loop_statuses su args first_we last_we;
  match bad with
  | Some l => mret (inl l)
  | None =>
      call SSync ;;
      bad ← loop_result su s i;
      match bad with
      | Some l => mret (inl l)
      | None =>
          rc ← (if ta_irq args || ta_wake_host_thread args then restart_afu (su_pid su) (su_pp_mmio su) else mret 0);
          if c_bool rc then mret (inl err_status_label) else loop_buffers su s
      end
  end.

(** The [for] loop, [n] times from [i] on. *)
Fixpoint test_loops (fuel : nat) (su : test_setup) (s : loop_state) (i : Z) (n : nat) : M K (label * test_args + loop_state) :=
  match n with
  | O => mret (inr s)
  | S n =>
      next ← test_loop fuel su s i;
      match next with
      | inl l => mret (inl (l, ls_args s))
      | inr s => test_loops fuel su s (i + 1) n
      end
  end.

(** The [printf] of a [float]: a text of the C library. *)
Variable float_text : Z → Z → string.

(** [err:] *)
Definition at_err (afu_h : ptr) (args : test_args) : M K ended :=
  ocxl_afu_close afu_h ;;
  when (ta_shared_mem args) (shm_destroy args) ;;
  mret (Returned (-1)).

(** [err_status:] *)
Definition at_err_status (su : test_setup) (args : test_args) : M K ended :=
  '(rc, status) ← ocxl_mmio_read64 (su_pp_mmio su) MEMCPY_AFU_PP_STATUS OCXL_MMIO_LITTLE_ENDIAN;
  (if negb (is_ok rc) then TLOG_ERR (su_pid su) "read of process status failed: %d" [AInt (ocxl_err_code rc)]
   else status ← stored_in status;
        TLOG_ERR (su_pid su) "process status at end of failed test=0x%lx" [AInt status]) ;;
  at_err (su_afu su) args.

(** After the loops. *)
Definition test_end (fuel : nat) (su : test_setup) (args : test_args) (start : timeval) : M K ended :=
  fin ← gettimeofday;
  let t := s32 ((fin.1 - start.1) * 1000000 + fin.2 - start.2) in
  '(nevent, events) ← ocxl_afu_event_check fuel (su_afu su) 0 1;
  if negb (nevent =? 0) then
    (if nevent =? 1 then
       event ← the_event events;
       if handle_field event =? su_err_ea su then TLOG_ERR (su_pid su) "received error interrupt at end of test" []
       else TLOG_ERR (su_pid su) "received unexpected event at end of test, type %d" [AInt (event_type event)]
     else TLOG_ERR (su_pid su) "invalid return value for ocxl_afu_event_check: %d" [AInt nevent]) ;;
    at_err_status su args
  else
  TLOG_INF (su_pid su) "%d loops in %d uS (%s uS per loop)"
    [AInt (ta_loop_count args); AInt t; AStr (float_text t (ta_loop_count args))] ;;
  ocxl_afu_close (su_afu su) ;;
  when (ta_shared_mem args) (shm_destroy args) ;;
  mret (Returned 0).

(** The test once the AFU is open. *)
Definition test_opened (fuel : nat) (pid : Z) (args : test_args) (src dst : Z) (afu_h : ptr) : M K ended :=
  weq ← init_weq QUEUE_SIZE;
  let wed := MEMCPY_WED (wm_queue weq) (QUEUE_SIZE / CACHELINESIZE) in
  TLOG_INF pid "WED = 0x%lx  src = %p  dst = %p" [AInt wed; AInt src; AInt dst] ;;
  let inc := increment_we src dst in
  setup ← test_setup_afu pid afu_h args wed inc (atomic_cas_we dst);
  match setup with
  | None => at_err afu_h args
  | Some su =>
      inc ← init_source args pid src inc;
      let su := mk_setup pid afu_h (su_pp_mmio su) (su_irq_ea su) (su_err_ea su) (su_irq_we su) inc (su_cas_we su) in
      start ← gettimeofday;
      let s := mk_loop args weq src dst (copy_we (ta_size args) src dst) true in
      done ← test_loops fuel su s 0 (Z.to_nat (ta_loop_count args));
      match done with
      | inl (err, args) => at_err afu_h args
      | inl (err_status_label, args) => at_err_status su args
      | inr s => test_end fuel su (ls_args s) start
      end
  end.

Definition test_afu_memcpy (fuel : nat) (args : test_args) : M K ended :=
  pid ← call SGetpid;
  '(args, failed, src, dst) ←
    (if ta_shared_mem args then
       '(args, failed) ← shm_create args; mret (args, failed, ta_counter args, ta_lock args)
     else
       page ← call SPagesize; src ← aligned_alloc 64 page; mret (args, false, src, NULL));
  if (failed : bool) then mret (Exited 1) else
  dst ← (if ta_atomic_cas args then mret (ta_lock args)
         else page ← call SPagesize; call (SMmapAnon page));
  if negb (ta_atomic_cas args) && (dst =? MAP_FAILED) then
    TLOG_ERR pid "mmap failed for destination buffer" [] ;;
    mret (Returned (-1))
  else
  ocxl_enable_messages OCXL_ERRORS ;;
  '(rc, afu_h) ← open_afu (ta_device args);
  if negb (is_ok rc) then
    TLOG_ERR pid "ocxl_afu_open() failed: %d" [AInt (ocxl_err_code rc)] ;;
    mret (Returned (-1))
  else test_opened fuel pid args src dst afu_h.

(** ** [main] *)

Definition test_usage_text (name : string) : list string :=
  ["Usage: " +:+ name +:+ " [ options ]"; "Options:";
   tab +:+ "-A" +:+ tab +:+ tab +:+ "Run the atomic compare and swap test";
   tab +:+ "-a" +:+ tab +:+ tab +:+ "Run the increment test";
   tab +:+ "-d <device>" +:+ tab +:+ "Use this opencapi card";
   tab +:+ "-I" +:+ tab +:+ tab +:+ "Initialize the destination buffer after each loop";
   tab +:+ "-i" +:+ tab +:+ tab +:+ "Send an interrupt after copy";
   tab +:+ "-w" +:+ tab +:+ tab +:+ "Send a wake_host_thread command after copy";
   tab +:+ "-l <loops>" +:+ tab +:+ "Run this number of memcpy loops (default 1)";
   tab +:+ "-p <procs>" +:+ tab +:+ "Fork this number of processes (default 1)";
   tab +:+ "-p 0" +:+ tab +:+ tab +:+ "Use the maximum number of processes permitted by the AFU";
   tab +:+ "-r" +:+ tab +:+ tab +:+ "Reallocate the destination buffer in between 2 loops";
   tab +:+ "-S" +:+ tab +:+ tab +:+ "Operate on shared memory";
   tab +:+ "-s <bufsize>" +:+ tab +:+ "Copy this number of bytes (default 2048)";
   tab +:+ "-t <timeout>" +:+ tab +:+ "Seconds to wait for the AFU to signal completion"].

Definition test_usage (name : string) : M K ended := print_lines (test_usage_text name) ;; mret (Exited 1).

Definition initial_test_args : test_args :=
  mk_test_args 1 2048 false (-1) false false None false false false false (-1) NULL NULL.

Definition test_optstring : string := "+aAhl:p:Ss:Iit:rd:w".

(** The options other than [-p]. *)
Definition apply_opt (o : opt) (args : test_args) : test_args :=
  let c := opt_char o in
  let value := atoi (default "" (opt_arg o)) in
  if Ascii.eqb c "l" then args <| ta_loop_count := value |>
  else if Ascii.eqb c "s" then args <| ta_size := value |>
  else if Ascii.eqb c "i" then args <| ta_irq := true |>
  else if Ascii.eqb c "t" then args <| ta_completion_timeout := value |>
  else if Ascii.eqb c "r" then args <| ta_reallocate := true |>
  else if Ascii.eqb c "I" then args <| ta_initialize := true |>
  else if Ascii.eqb c "d" then args <| ta_device := opt_arg o |>
  else if Ascii.eqb c "w" then args <| ta_wake_host_thread := true |>
  else if Ascii.eqb c "a" then args <| ta_increment := true |>
  else if Ascii.eqb c "A" then args <| ta_atomic_cas := true |>
  else if Ascii.eqb c "S" then args <| ta_shared_mem := true |>
  else args.

(** The loop over the options: the arguments and the number of processes;
    [None] when [usage] ended the program. *)
Fixpoint test_parse_opts (name : string) (os : list opt) (args : test_args) (processes : Z) :
    M K (option (test_args * Z)) :=
  match os with
  | [] => mret (Some (args, processes))
  | o :: os =>
      (match opt_diag o with Some text => call (SStderr text) | None => mret tt end) ;;
      let c := opt_char o in
      if Ascii.eqb c "?" || Ascii.eqb c "h" then test_usage name ;; mret None
      else test_parse_opts name os (apply_opt o args)
             (if Ascii.eqb c "p" then atoi (default "" (opt_arg o)) else processes)
  end.

(** The combinations that are refused, with their messages. *)
Definition conflict (args : test_args) : option string :=
  if ta_wake_host_thread args && ta_irq args then Some "Error: -i and -w are mutually exclusive"
  else if ta_atomic_cas args && ta_reallocate args then Some "Error: -A and -r are mutually exclusive"
  else if ta_atomic_cas args && ta_shared_mem args then Some "Error: -A and -S are mutually exclusive"
  else if ta_increment args && ta_reallocate args then Some "Error: -a and -r are mutually exclusive"
  else if ta_increment args && ta_shared_mem args then Some "Error: -a and -S are mutually exclusive"
  else None.

Definition default_timeout (processes : Z) (args : test_args) : test_args :=
  if ta_completion_timeout args =? -1 then
    let t := Z.quot processes 5 in args <| ta_completion_timeout := (if t <? 10 then 10 else t) |>
  else args.

(** The loop that forks: how the child ended, nothing in the parent. *)
Fixpoint fork_all (fuel : nat) (args : test_args) (n : nat) : M K (option ended) :=
  match n with
  | O => mret None
  | S n =>
      pid ← call SFork;
      if pid =? 0 then
        e ← test_afu_memcpy fuel args;
        mret (Some (Exited match e with Exited s => s | Returned s => s end))
      else fork_all fuel args n
  end.

(** The loop that waits: how many failed, and the first of them. *)
Fixpoint wait_all (n : nat) (j rc failing : Z) : M K (Z * Z) :=
  match n with
  | O => mret (rc, failing)
  | S n =>
      '(pid, status) ← call SWaitChild;
      let j := if pid =? -1 then j else status in
      if c_bool pid && c_bool j then wait_all n j (rc + 1) (if failing =? -1 then pid else failing)
      else wait_all n j rc failing
  end.

(** The check of the counter at the end of [main]: true on failure. *)
Definition check_counter (args : test_args) (processes : Z) : M K bool :=
  count ← load_mem (ta_counter args) 0 4;
  expected ← int_mul processes (ta_loop_count args);
  if s32 count =? expected then mret false else
  fprintf_stderr ("Atomicity Error:" +:+ newline) [] ;;
  fprintf_stderr ("  procs=%d" +:+ newline) [AInt processes] ;;
  fprintf_stderr ("  loops=%d" +:+ newline) [AInt (ta_loop_count args)] ;;
  fprintf_stderr ("  procs*loops=%d" +:+ newline) [AInt expected] ;;
  count ← load_mem (ta_counter args) 0 4;
  fprintf_stderr ("  count=%d (should be %d)" +:+ newline) [AInt (s32 count); AInt expected] ;;
  mret true.

(** From the shared memory on. *)
Definition run_tests (fuel : nat) (junk : Z) (args : test_args) (processes : Z) : M K ended :=
  '(args, failed) ←
    (if ta_atomic_cas args then
       '(args, failed) ← shm_create args;
       if (failed : bool) then mret (args, true) else
       memset_int (ta_lock args) 0 (ta_size args) ;;
       memset_int (ta_counter args) 0 (ta_size args) ;;
       printf ("Shared memory ID: %d attached at: %p" +:+ newline) [AInt (ta_shmid args); AInt (ta_lock args)] ;;
       mret (args, false)
     else mret (args, false));
  if (failed : bool) then mret (Exited 1) else
  child ← fork_all fuel args (Z.to_nat processes);
  match child with
  | Some e => mret e
  | None =>
      '(rc, failing) ← wait_all (Z.to_nat processes) junk 0 (-1);
      failed ← (if ta_atomic_cas args then
                  failed ← check_counter args processes;
                  if (failed : bool) then mret true else shm_destroy args ;; mret false
                else mret false);
      if (failed : bool) then mret (Returned (-1)) else
      (if c_bool rc then
         fprintf_stderr ("%d test(s) failed. Check process %d, maybe others" +:+ newline) [AInt rc; AInt failing]
       else printf ("Test successful" +:+ newline) []) ;;
      mret (Returned rc)
  end.

Definition test_main (fuel : nat) (junk : Z) (name : string) (argv : list string) : M K ended :=
  let '(os, rest) := getopt name test_optstring argv in
  parsed ← test_parse_opts name os initial_test_args 1;
  match parsed with
  | None => mret (Exited 1)
  | Some (args, processes) =>
      let processes := if processes =? 0 then AFU_MAX_PROCESSES else processes in
      let args := default_timeout processes args in
      match rest with
      | arg :: _ =>
          fprintf_stderr ("Error: Unexpected argument '%s'" +:+ newline) [AStr arg] ;;
          test_usage name
      | [] =>
          match conflict args with
          | Some text => fprintf_stderr ("%s" +:+ newline) [AStr text] ;; test_usage name
          | None =>
              if (2048 <? ta_size args) || c_bool (Z.rem (ta_size args) 64) then
                fprintf_stderr ("invalid buffer size %d" +:+ newline) [AInt (ta_size args)] ;;
                mret (Returned (-1))
              else
              failed ← test_global_setup junk args;
              if (failed : bool) then mret (Exited 1)
              else run_tests fuel junk args processes
          end
      end
  end.

End test.
