(* ===== verification/MemcpyTestRun.v ===== *)
(** * MemcpyTestRun: the memcpy test program

    What afutests/memcpy/ocxl_memcpy.c guarantees in one process: its waits
    end, a test that opened the AFU gives everything back on every path, and
    it reports success only after every loop was checked. *)

From S2P Require Import Prelude Format Types World Logic Messages Buffer Ledger Mmio MmioFacts.
From S2P Require Import MmioAccess Irq IrqFacts IrqTable Event Names Afu AfuInv EventFacts Fuel.
From S2P Require Import AfuClose AfuOpen Trace Api Client Memcpy Getopt MemcpySample MemcpyQueue.
From S2P Require Import MemcpyWait MemcpyRun MemcpyTest.
Open Scope Z_scope.

(** Memory that is granted is not at address 0. *)
Class GrantedMemory (K : Type) `{Platform K} : Prop := {
  mmap_anon_granted length (k : K) : (os_step _ (SMmapAnon length) k).1 ≠ NULL;
  shmat_granted id (k : K) : 0 < (os_step _ (SShmat id) k).1
}.

(** ** Fuel changes no result *)

Section fuel.
Context {K : Type} `{Platform K} `{Abi}.

Lemma approx_test_status_loop n n' we pid deadline temp :
  (n <= n')%nat → approx (K := K) (test_status_loop n we pid deadline temp) (test_status_loop n' we pid deadline temp).
Proof.
  revert n' temp. induction n as [|n IH]; intros [|n'] temp Hn; [apply approx_diverge..|lia|].
  assert (n <= n')%nat by lia. simpl. approximate.
Qed.

Lemma approx_fast_loop n n' we pid deadline :
  (n <= n')%nat → approx (K := K) (fast_loop n we pid deadline) (fast_loop n' we pid deadline).
Proof.
  revert n'. induction n as [|n IH]; intros [|n'] Hn; [apply approx_diverge..|lia|].
  assert (n <= n')%nat by lia. simpl. approximate.
Qed.

#[local] Hint Resolve approx_test_status_loop approx_fast_loop : fuel.

Lemma approx_loop_wait n n' su args last :
  (n <= n')%nat → approx (K := K) (loop_wait n su args last) (loop_wait n' su args last).
Proof.
  intros Hn. unfold loop_wait, test_wait_for_irq, wait_fast, test_wait_for_status. approximate.
Qed.

#[local] Hint Resolve approx_loop_wait : fuel.

Lemma approx_test_loop n n' su s i :
  (n <= n')%nat → approx (K := K) (test_loop n su s i) (test_loop n' su s i).
Proof. intros Hn. unfold test_loop. approximate. Qed.

#[local] Hint Resolve approx_test_loop : fuel.

Lemma approx_test_loops n n' su s i m :
  (n <= n')%nat → approx (K := K) (test_loops n su s i m) (test_loops n' su s i m).
Proof. intros Hn. revert s i. induction m as [|m IH]; intros s i; simpl; approximate. Qed.

#[local] Hint Resolve approx_test_loops : fuel.

Lemma approx_test_afu_memcpy ft n n' args :
  (n <= n')%nat → approx (K := K) (test_afu_memcpy ft n args) (test_afu_memcpy ft n' args).
Proof. intros Hn. unfold test_afu_memcpy, test_opened, test_end. approximate. Qed.

#[local] Hint Resolve approx_test_afu_memcpy : fuel.

Lemma approx_fork_all ft n n' args m :
  (n <= n')%nat → approx (K := K) (fork_all ft n args m) (fork_all ft n' args m).
Proof. intros Hn. induction m as [|m IH]; simpl; approximate. Qed.

#[local] Hint Resolve approx_fork_all : fuel.

Lemma approx_test_main ft n n' junk name argv :
  (n <= n')%nat → approx (K := K) (test_main ft n junk name argv) (test_main ft n' junk name argv).
Proof.
  intros Hn. unfold test_main, run_tests. destruct (getopt name test_optstring argv) as [os rest]. approximate.
Qed.

End fuel.

#[export] Hint Resolve approx_loop_wait approx_test_loop approx_test_loops approx_test_afu_memcpy
  approx_fork_all : fuel.

Section run.
Context {K : Type} `{Platform K} `{Abi} `{!EventLaws K} `{!SingleEvents K} `{!Finite K} `{!AllocatedMemory K} `{!GrantedMemory K}.
Context {may : Excuse}.
Context `{!NonZeroHandles K} `{!ByteLoads K} `{!ShortNames K}.
Implicit Types (w : world K).

Lemma wp_TLOG_ERR pid fmt args w (Q : unit → world K → Prop) :
  conforms ("Process %d: " +:+ fmt +:+ newline) (AInt pid :: args) = true → (∀ w', quiet w w' → Q tt w') →
  wp (TLOG_ERR pid fmt args) Q w.
Proof. apply wp_fprintf_stderr. Qed.

Lemma wp_TLOG_INF pid fmt args w (Q : unit → world K → Prop) :
  conforms ("Process %d: " +:+ fmt +:+ newline) (AInt pid :: args) = true → (∀ w', quiet w w' → Q tt w') →
  wp (TLOG_INF pid fmt args) Q w.
Proof. apply wp_printf. Qed.

(** ** Waiting *)

Lemma terminates_test_status_loop w others p a areas irqs we pid deadline now Q :
  client w others p a areas irqs → we ≠ NULL →
  (∀ rc es w', client w' others p a areas irqs → ran es w w' → Q rc w') →
  terminates (λ fuel, test_status_loop fuel we pid deadline now) Q w.
Proof.
  intros Hcl Hwe HQ. apply (terminates_from _ _ _ (2 + readings deadline (w_os w))%nat). intros fuel Hf.
  assert (timer_gt now deadline = true ∧ 0 < fuel ∨ readings deadline (w_os w) + 1 < fuel)%nat as Hfuel by lia.
  clear Hf. revert w now Q Hcl HQ Hfuel. induction fuel as [|fuel IH]; intros w now Q Hcl HQ Hfuel; [lia|].
  cbn [test_status_loop]. destruct (timer_gt now deadline) eqn:Et.
  { apply wp_bind, wp_TLOG_ERR; [done|]. intros w1 Hq. apply wp_ret.
    eapply (HQ _ []); [by eapply client_quiet|by apply ran_quiet]. }
  destruct Hfuel as [[? _]|Hfuel]; [done|].
  apply wp_bind. eapply wp_client_load_status; [exact Hcl|done|]. intros bs w1 Hcl1 D1.
  destruct (c_bool _); [apply wp_ret; exact (HQ _ _ _ Hcl1 (ran_did _ _ _ _ D1))|].
  apply wp_bind. eapply wp_client_gettimeofday; [exact Hcl1|]. intros now' w2 Hcl2 D2.
  pose proof (ran_cons _ _ _ _ _ _ D1 (ran_did _ _ _ _ D2)) as Hr.
  pose proof (readings_ran deadline _ _ _ Hr) as Ht. unfold hits in Ht. simpl in Ht.
  eapply IH; [exact Hcl2|intros rc es w' Hcl' Hr'; eapply HQ; [exact Hcl'|by eapply ran_trans]|].
  destruct (timer_gt now' deadline) eqn:Et'; [left; split; [done|lia]|right]. simpl in Ht. lia.
Qed.

Lemma terminates_test_wait_for_status w others p a areas irqs we timeout pid Q :
  client w others p a areas irqs → we ≠ NULL →
  (∀ rc es w', client w' others p a areas irqs → ran es w w' → Q rc w') →
  terminates (λ fuel, test_wait_for_status fuel we timeout pid) Q w.
Proof.
  intros Hcl Hwe HQ. unfold test_wait_for_status. apply terminates_bind_wp.
  eapply wp_client_gettimeofday; [exact Hcl|]. intros now w1 Hcl1 D1.
  eapply terminates_test_status_loop; [exact Hcl1|done|]. intros rc es w' Hcl' Hr.
  eapply HQ; [exact Hcl'|by eapply ran_cons].
Qed.

(** The results of a check for one event, for the code that follows. *)
Lemma wp_check_one fuel w others p a areas irqs timeout Q :
  client w others p a areas irqs →
  (∀ events m rc evs es w', client w' others p (with_epoll a events m) areas irqs → ran es w w' → rc ≠ 1 →
     Q (rc, evs) w') →
  (∀ events m e es w', client w' others p (with_epoll a events m) areas irqs → ran es w w' →
     Q (1, [Some e]) w') →
  wp (ocxl_afu_event_check (S fuel) p timeout 1) Q w.
Proof.
  intros Hcl Hno Hyes. eapply wp_client_event_check; [exact Hcl|unfold UINT16_MAX; lia|].
  intros rc evs es events m w' Hcl' Hr Hc. destruct (check_outcome_one _ _ _ _ _ _ _ Hc) as [Hle|(e & -> & -> & _)].
  - eapply Hno; [exact Hcl'|exact Hr|lia].
  - by eapply Hyes.
Qed.

(** Fuel is needed for one step of the check at least. *)
Lemma terminates_check_one w others p a areas irqs timeout Q :
  client w others p a areas irqs →
  (∀ events m rc evs es w', client w' others p (with_epoll a events m) areas irqs → ran es w w' → rc ≠ 1 →
     Q (rc, evs) w') →
  (∀ events m e es w', client w' others p (with_epoll a events m) areas irqs → ran es w w' →
     Q (1, [Some e]) w') →
  terminates (λ fuel, ocxl_afu_event_check fuel p timeout 1) Q w.
Proof. intros Hcl Hno Hyes. apply (terminates_from _ _ _ 1%nat). intros [|fuel] Hf; [lia|]. by eapply wp_check_one. Qed.

(** A result and the AFU with another buffer for epoll. *)
Definition waited w others p a areas irqs (Q : Z → world K → Prop) : Prop :=
  ∀ events m rc es w', client w' others p (with_epoll a events m) areas irqs → ran es w w' → Q rc w'.

Lemma waited_same w others p a areas irqs Q rc es w' :
  waited w others p a areas irqs Q → client w' others p a areas irqs → ran es w w' → Q rc w'.
Proof.
  intros HQ Hcl Hr. eapply (HQ (afu_epoll_events a) (afu_epoll_event_count a)); [|exact Hr].
  assert (with_epoll a (afu_epoll_events a) (afu_epoll_event_count a) = a) as -> by (by destruct a). done.
Qed.

Lemma terminates_test_wait_for_irq w others p a areas irqs we timeout pid irq_ea err_ea Q :
  client w others p a areas irqs → we ≠ NULL → - 2 ^ 31 <= timeout * 1000 < 2 ^ 31 →
  waited w others p a areas irqs Q →
  terminates (λ fuel, test_wait_for_irq fuel we timeout pid p irq_ea err_ea) Q w.
Proof.
  intros Hcl Hwe Ht HQ. unfold test_wait_for_irq. apply terminates_bind_wp, wp_int_mul; [done|].
  assert (∀ fmt args events m es w1, client w1 others p (with_epoll a events m) areas irqs → ran es w w1 →
    conforms ("Process %d: " +:+ fmt +:+ newline) (AInt pid :: args) = true →
    wp (TLOG_ERR pid fmt args ;; mret (-1)) Q w1) as Hbad.
  { intros fmt args events m es w1 Hcl1 Hr1 Hc. apply wp_bind, wp_TLOG_ERR; [done|]. intros w3 Hq.
    eapply wp_ret, HQ; [by eapply client_quiet|by eapply ran_quiet_r]. }
  apply terminates_bind; [intros n n' Hn; auto with fuel|]. eapply terminates_check_one; [exact Hcl|..].
  - intros events m rc evs es w1 Hcl1 Hr1 Hrc. destruct (Z.eqb_spec rc 1); [done|].
    simpl. apply terminates_wp. destruct (rc =? 0); by eapply Hbad.
  - intros events m e es w1 Hcl1 Hr1. simpl. apply terminates_bind_wp, wp_ret. destruct e as [e|f].
    + destruct (ev_handle e =? irq_ea); simpl.
      * eapply terminates_test_wait_for_status; [exact Hcl1|done|]. intros rc es2 w2 Hcl2 Hr2.
        eapply HQ; [exact Hcl2|by eapply ran_trans].
      * apply terminates_wp. destruct (ev_handle e =? err_ea); by eapply Hbad.
    + apply terminates_wp. by eapply Hbad.
Qed.

Lemma terminates_fast_loop w others p a areas irqs we pid deadline Q :
  client w others p a areas irqs → we ≠ NULL →
  (∀ woken es w', client w' others p a areas irqs → ran es w w' → Q woken w') →
  terminates (λ fuel, fast_loop fuel we pid deadline) Q w.
Proof.
  intros Hcl Hwe HQ. apply (terminates_from _ _ _ (S (readings deadline (w_os w)))). intros fuel Hf.
  revert w Q Hcl HQ Hf. induction fuel as [|fuel IH]; intros w Q Hcl HQ Hf; [lia|].
  cbn [fast_loop]. apply wp_bind. eapply wp_client_call; [exact Hcl|done|done|done|done|]. intros [] w1 Hcl1 D1.
  apply wp_bind. eapply wp_client_load_status; [exact Hcl1|done|]. intros bs w2 Hcl2 D2.
  pose proof (ran_cons _ _ _ _ _ _ D1 (ran_did _ _ _ _ D2)) as Hr2.
  destruct (c_bool _); [by eapply wp_ret, HQ|].
  apply wp_bind. eapply wp_client_gettimeofday; [exact Hcl2|]. intros now w3 Hcl3 D3.
  pose proof (ran_trans _ _ _ _ _ Hr2 (ran_did _ _ _ _ D3)) as Hr3.
  destruct (timer_gt now deadline) eqn:Et.
  - apply wp_bind, wp_TLOG_ERR; [done|]. intros w4 Hq.
    eapply wp_ret, HQ; [by eapply client_quiet|by eapply ran_quiet_r].
  - pose proof (readings_ran deadline _ _ _ Hr3) as Ht. unfold hits in Ht. simpl in Ht. rewrite Et in Ht. simpl in Ht.
    eapply IH; [exact Hcl3| |lia]. intros woken es w' Hcl' Hr'. eapply HQ; [exact Hcl'|by eapply ran_trans].
Qed.

Lemma terminates_wait_fast w others p a areas irqs we timeout pid irq_ea Q :
  client w others p a areas irqs → we ≠ NULL → waited w others p a areas irqs Q →
  terminates (λ fuel, wait_fast fuel we timeout pid p irq_ea) Q w.
Proof.
  intros Hcl Hwe HQ. unfold wait_fast. apply terminates_bind_wp.
  eapply wp_client_gettimeofday; [exact Hcl|]. intros now w1 Hcl1 D1.
  apply terminates_bind; [intros n n' Hn; by apply approx_fast_loop|].
  eapply terminates_fast_loop; [exact Hcl1|done|]. intros woken es2 w2 Hcl2 Hr2.
  pose proof (ran_cons _ _ _ _ _ _ D1 Hr2) as Hr. destruct woken; simpl.
  2: { apply terminates_wp, wp_ret. by eapply waited_same. }
  apply terminates_bind_wp. eapply wp_client_load_status; [exact Hcl2|done|]. intros bs w3 Hcl3 D3.
  pose proof (ran_trans _ _ _ _ _ Hr (ran_did _ _ _ _ D3)) as Hr3.
  destruct (_ =? 1); [apply terminates_wp, wp_ret; by eapply waited_same|].
  apply terminates_bind; [intros n n' Hn; auto with fuel|]. eapply terminates_check_one; [exact Hcl3|..].
  - intros events m rc evs es4 w4 Hcl4 Hr4 Hrc. destruct (Z.eqb_spec rc 1); [done|]. apply terminates_wp, wp_bind.
    eapply wp_client_load_status; [exact Hcl4|done|]. intros bs5 w5 Hcl5 D5.
    apply wp_bind, wp_TLOG_ERR; [done|]. intros w6 Hq. eapply wp_ret, HQ; [by eapply client_quiet|].
    eapply ran_quiet_r; [|exact Hq]. eapply ran_trans; [exact Hr3|]. eapply ran_trans; [exact Hr4|].
    exact (ran_did _ _ _ _ D5).
  - intros events m e es4 w4 Hcl4 Hr4. simpl. apply terminates_wp, wp_bind, wp_ret.
    pose proof (ran_trans _ _ _ _ _ Hr3 Hr4) as Hr5. destruct (_ || _).
    + apply wp_bind, wp_TLOG_ERR; [done|]. intros w5 Hq.
      eapply wp_ret, HQ; [by eapply client_quiet|by eapply ran_quiet_r].
    + by eapply wp_ret, HQ.
Qed.

(** ** One loop *)

Lemma wp_restart_afu w others p a areas irqs i x pid Q :
  client w others p a areas irqs → areas !! i = Some x →
  (∀ rc es w', client w' others p a areas irqs → ran es w w' → Q rc w') →
  wp (restart_afu pid (handle_of a i)) Q w.
Proof.
  intros Hcl Hx HQ. apply wp_bind. eapply wp_client_read64; [exact Hcl|exact Hx|by vm_compute|]. intros bs w1 Hcl1 Hr1.
  assert (∀ fmt z w2 es, client w2 others p a areas irqs → ran es w w2 →
    conforms ("Process %d: " +:+ fmt +:+ newline) [AInt pid; AInt z] = true →
    wp (TLOG_ERR pid fmt [AInt z] ;; mret (-1)) Q w2) as Hbad.
  { intros fmt z w2 es Hcl2 Hr2 Hc. apply wp_bind, wp_TLOG_ERR; [done|]. intros w3 Hq.
    eapply wp_ret, HQ; [by eapply client_quiet|by eapply ran_quiet_r]. }
  destruct (is_ok (access_verdict x MEMCPY_AFU_PP_STATUS 8)); simpl; [|by eapply Hbad].
  apply wp_bind, wp_ret. destruct (c_bool _); simpl; [|by eapply wp_ret, HQ].
  apply wp_bind. eapply wp_client_write64; [exact Hcl1|exact Hx|by vm_compute|]. intros w2 Hcl2 Hr2.
  pose proof (ran_trans _ _ _ _ _ Hr1 Hr2) as Hr.
  destruct (is_ok (access_verdict x MEMCPY_AFU_PP_CTRL 8)); simpl; [by eapply wp_ret, HQ|by eapply Hbad].
Qed.

Lemma wp_client_load w others p a areas irqs addr offset n Q :
  client w others p a areas irqs → addr ≠ NULL →
  (∀ bs w', client w' others p a areas irqs → did (SLoad (addr + offset) n) bs w w' → Q (of_native_bytes bs) w') →
  wp (load_mem addr offset n) Q w.
Proof.
  intros Hcl Ha HQ. unfold load_mem. destruct (Z.eqb_spec addr NULL); [done|].
  apply wp_bind. eapply wp_client_call; [exact Hcl|done|done|done|done|]. intros bs w' Hcl' Hd. by apply wp_ret, HQ.
Qed.

(** The state of the loop in one process. *)
Record looping w others p (su : test_setup) (a : ocxl_afu) (areas : list ocxl_mmio_area) (irqs : list ocxl_irq)
    (args : test_args) (s : loop_state) : Prop := {
  lp_client : client w others p a areas irqs;
  lp_afu : su_afu su = p;
  lp_area : ∃ i x, su_pp_mmio su = handle_of a i ∧ areas !! i = Some x;
  lp_ring : ring_ok (ls_weq s);
  lp_attached : ls_attached s = true;
  lp_src : ls_src s = NULL → excuse;
  lp_dst : ls_dst s ≠ NULL;
  lp_args : ls_args s = args;
  lp_copy : ls_memcpy_we s = copy_we (ta_size args) (ls_src s) (ls_dst s);
  lp_increment : ta_atomic_cas args = false → ta_reallocate args = false →
    su_increment_we su = increment_we (ls_src s) (ls_dst s)
}.

(** The element of a loop, for the buffers [src] and [dst], was stored at
    [first]. *)
Definition queued (args : test_args) (src dst first : Z) (es : list event) : Prop :=
  ta_atomic_cas args = false → (ta_increment args = true → ta_reallocate args = false) →
  ∃ pre wrap post, es = pre ++ add_effects first wrap (if ta_increment args then increment_we src dst
                                                       else copy_we (ta_size args) src dst) ++ post.

Lemma queued_within args src dst first es1 es es2 :
  queued args src dst first es → queued args src dst first (es1 ++ es ++ es2).
Proof.
  intros Hq Hc Hi. destruct (Hq Hc Hi) as (pre & wrap & post & ->). exists (es1 ++ pre), wrap, (post ++ es2).
  by rewrite <-!app_assoc.
Qed.

(** The arguments the program is defined for. *)
Record targs_ok (args : test_args) : Prop := {
  to_size : 0 <= ta_size args;
  to_timeout : ta_irq args = true → - 2 ^ 31 <= ta_completion_timeout args * 1000 < 2 ^ 31;
  to_shared : ta_shared_mem args = true → ta_reallocate args = false
}.

Lemma looping_client w w' others p su a events m areas irqs args s :
  looping w others p su a areas irqs args s → client w' others p (with_epoll a events m) areas irqs →
  looping w' others p su (with_epoll a events m) areas irqs args s.
Proof. intros [_ L1 L2 L3 L4 L5 L6 L7 L8 L9] Hcl. by split. Qed.

Lemma looping_same w w' others p su a areas irqs args s :
  looping w others p su a areas irqs args s → client w' others p a areas irqs →
  looping w' others p su a areas irqs args s.
Proof. intros [_ L1 L2 L3 L4 L5 L6 L7 L8 L9] Hcl. by split. Qed.

(** The first element gets its valid bit, behind a barrier. *)
Definition go_button (first : Z) (bs : list Z) : list event :=
  [Ev SSync tt; Ev (SLoad (first + we_cmd_at) 1) bs;
   Ev (SStore (first + we_cmd_at) (native_bytes 1 (Z.lor (of_native_bytes bs) MEMCPY_WE_CMD_VALID))) tt].

Lemma wp_loop_queue w others p su a areas irqs args s Q :
  looping w others p su a areas irqs args s →
  (ta_atomic_cas args = false → ta_increment args = true → ls_src s ≠ NULL) →
  (∀ weq first last bs es w', client w' others p a areas irqs → ring_ok weq → first ≠ NULL → last ≠ NULL →
     queued args (ls_src s) (ls_dst s) first es → ran (es ++ go_button first bs) w w' → Q (weq, first, last) w') →
  wp (loop_queue su s) Q w.
Proof.
  intros [Hcl _ _ Hring Hatt _ _ <- Ecp Einc] Hsrc HQ. unfold loop_queue. apply wp_bind.
  set (Q1 := λ '(weq, first, last) w', ∃ es, client w' others p a areas irqs ∧ ring_ok weq ∧ first ≠ NULL ∧
    last ≠ NULL ∧ queued (ls_args s) (ls_src s) (ls_dst s) first es ∧ ran es w w').
  eapply (wp_mono _ Q1).
  - intros [[weq first] last] w1 (es1 & Hcl1 & Hring1 & Hf & Hl & Hq1 & Hr1). apply wp_bind.
    assert (∀ weq' last' es' w', client w' others p a areas irqs → ring_ok weq' → last' ≠ NULL →
      ran (es1 ++ es') w w' →
      wp (call SSync ;; set_valid first ;; mret (weq', first, last')) Q w') as Hgo.
    { intros weq' last' es' w2 Hcl2 Hring2 Hl2 Hr2. apply wp_bind.
      eapply wp_client_call; [exact Hcl2|done|done|done|done|]. intros [] w3 Hcl3 D3.
      apply wp_bind. eapply wp_set_valid; [exact Hcl3|done|]. intros bs w4 Hcl4 Hr4.
      eapply wp_ret, (HQ _ _ _ bs (es1 ++ es')); [exact Hcl4|done|done|done|by apply (queued_within _ _ _ _ [])|].
      eapply ran_trans; [exact Hr2|]. by eapply ran_cons. }
    destruct (_ || _); [|by eapply wp_ret, (Hgo _ _ []); [..|rewrite app_nil_r]].
    eapply wp_add_we; [exact Hcl1|exact Hring1|]. intros weq2 w2 Hcl2 Hring2 Hr2.
    eapply Hgo; [exact Hcl2|done|by apply ring_ok_next|by eapply ran_trans].
  - assert (∀ weq we w1 es1, client w1 others p a areas irqs → ring_ok weq → ran es1 w w1 →
      ((ta_increment (ls_args s) = true → ta_reallocate (ls_args s) = false) → ta_atomic_cas (ls_args s) = false →
       we = if ta_increment (ls_args s) then increment_we (ls_src s) (ls_dst s)
            else copy_we (ta_size (ls_args s)) (ls_src s) (ls_dst s)) →
      wp ('(weq, we) ← add_we weq we; mret (weq, we, we)) Q1 w1) as Hone.
    { intros weq we w1 es1 Hcl1 Hring1 Hr1 Ewe. apply wp_bind. eapply wp_add_we; [exact Hcl1|exact Hring1|].
      intros weq2 w2 Hcl2 Hring2 Hr2. apply wp_ret. eexists.
      split_and!; [exact Hcl2|done|by apply ring_ok_next|by apply ring_ok_next| |by eapply ran_trans].
      intros Hc Hi. rewrite (Ewe Hi Hc). eexists es1, _, []. by rewrite app_nil_r. }
    destruct (ta_atomic_cas (ls_args s)) eqn:Ecas; [|destruct (ta_increment (ls_args s)) eqn:Ei].
    + apply wp_bind. eapply wp_add_we; [exact Hcl|exact Hring|]. intros weq1 w1 Hcl1 Hring1 Hr1.
      apply wp_bind. eapply wp_add_we; [exact Hcl1|exact Hring1|]. intros weq2 w2 Hcl2 Hring2 Hr2.
      apply wp_bind. eapply wp_set_valid; [exact Hcl2|by apply ring_ok_next|]. intros bs3 w3 Hcl3 Hr3.
      apply wp_bind. eapply wp_add_we; [exact Hcl3|exact Hring2|]. intros weq4 w4 Hcl4 Hring4 Hr4.
      apply wp_bind. eapply wp_set_valid; [exact Hcl4|by apply ring_ok_next|]. intros bs5 w5 Hcl5 Hr5.
      apply wp_ret. eexists.
      split_and!; [exact Hcl5|done|by apply ring_ok_next|by apply ring_ok_next|by unfold queued; rewrite Ecas|].
      eapply ran_trans; [exact Hr1|]. eapply ran_trans; [exact Hr2|]. eapply ran_trans; [exact Hr3|].
      by eapply ran_trans.
    + specialize (Hsrc eq_refl eq_refl). unfold attached. rewrite Hatt. apply wp_bind.
      eapply wp_client_load; [exact Hcl|done|].
      intros bs w1 Hcl1 D1. apply wp_bind. eapply wp_client_store; [exact Hcl1|done|]. intros w2 Hcl2 D2.
      eapply Hone; [exact Hcl2|done| |].
      * eapply ran_cons; [exact D1|]. exact (ran_did _ _ _ _ D2).
      * intros Hi Hc. apply Einc; [exact Hc|by apply Hi].
    + eapply Hone; [exact Hcl|done|apply ran_refl|]. by intros _ _.
Qed.

Lemma wpe_loop_queue w others p su a areas irqs args s Q :
  looping w others p su a areas irqs args s →
  (∀ weq first last bs es w', client w' others p a areas irqs → ring_ok weq → first ≠ NULL → last ≠ NULL →
     queued args (ls_src s) (ls_dst s) first es → ran (es ++ go_button first bs) w w' → Q (weq, first, last) w') →
  wpe (loop_queue su s) Q w.
Proof.
  intros Hl HQ. destruct (decide (ls_src s = NULL)) as [E|E]; [|by apply wp_wpx; eapply wp_loop_queue].
  destruct (ta_atomic_cas args) eqn:Ec; [apply wp_wpx; eapply wp_loop_queue; [exact Hl|by rewrite Ec|exact HQ]|].
  destruct (ta_increment args) eqn:Ei; [|apply wp_wpx; eapply wp_loop_queue; [exact Hl|by rewrite Ei|exact HQ]].
  pose proof (lp_src _ _ _ _ _ _ _ _ _ Hl E) as He. destruct Hl as [_ _ _ _ Hatt _ _ <- _ _].
  unfold loop_queue, attached. rewrite Ec, Ei, Hatt, E. exact He.
Qed.

Lemma terminates_loop_wait w others p su a areas irqs args s last Q :
  looping w others p su a areas irqs args s → targs_ok args → last ≠ NULL →
  waited w others p a areas irqs Q → terminates (λ fuel, loop_wait fuel su args last) Q w.
Proof.
  intros [Hcl <- _ _ _ _ _ _ _ _] [_ Ht _] Hl HQ. unfold loop_wait.
  destruct (ta_irq args); [|destruct (ta_wake_host_thread args)].
  - eapply terminates_test_wait_for_irq; [exact Hcl|done|by apply Ht|exact HQ].
  - by eapply terminates_wait_fast.
  - eapply terminates_test_wait_for_status; [exact Hcl|done|]. intros rc es w' Hcl' Hr. by eapply waited_same.
Qed.

Lemma wp_bad_status w others p a areas irqs pid we what Q :
  client w others p a areas irqs → we ≠ NULL →
  (∀ z, conforms ("Process %d: " +:+ ("unexpected status 0x%x for " +:+ what) +:+ newline) [AInt pid; AInt z] = true) →
  (∀ w', client w' others p a areas irqs → Q (Some err_status_label) w') → wp (bad_status pid we what) Q w.
Proof.
  intros Hcl Hwe Hc HQ. apply wp_bind. eapply wp_client_load_status; [exact Hcl|done|]. intros bs w1 Hcl1 _.
  apply wp_bind, wp_TLOG_ERR; [apply Hc|]. intros w2 Hq. apply wp_ret, HQ. by eapply client_quiet.
Qed.

Lemma wp_loop_statuses w others p a areas irqs su args first last Q :
  client w others p a areas irqs → first ≠ NULL → last ≠ NULL →
  (∀ w', client w' others p a areas irqs → Q (Some err_status_label) w') →
  (∀ es w', client w' others p a areas irqs → ran es w w' → seen_done first es → Q None w') →
  wp (loop_statuses su args first last) Q w.
Proof.
  intros Hcl Hf Hl Hbad Hok. apply wp_bind. eapply wp_client_load_status; [exact Hcl|done|]. intros bs w1 Hcl1 D1.
  destruct (Z.eqb_spec (of_native_bytes bs) 1) as [Eb|_]; simpl; [|by eapply wp_bad_status].
  pose proof (ran_did _ _ _ _ D1) as Hr1.
  assert (seen_done first [status_read first bs]) as Hs1 by (exists bs; split; [by left|done]). apply wp_bind.
  apply (wp_mono _ (λ _ w', ∃ es, client w' others p a areas irqs ∧ ran es w w' ∧ seen_done first es)).
  2: { destruct (ta_irq args); [|apply wp_ret; by eexists]. apply wp_bind.
       eapply wp_client_load_status; [exact Hcl1|done|]. intros bs2 w2 Hcl2 D2. apply wp_ret.
       eexists. split_and!; [exact Hcl2|exact (ran_trans _ _ _ _ _ Hr1 (ran_did _ _ _ _ D2))|by apply seen_done_l]. }
  intros irq_bad w2 (es2 & Hcl2 & Hr2 & Hs2). destruct irq_bad; [by eapply wp_bad_status|]. apply wp_bind.
  apply (wp_mono _ (λ _ w', ∃ es, client w' others p a areas irqs ∧ ran es w w' ∧ seen_done first es)).
  2: { destruct (ta_wake_host_thread args); [|apply wp_ret; by eexists]. apply wp_bind.
       eapply wp_client_load_status; [exact Hcl2|done|]. intros bs3 w3 Hcl3 D3.
       pose proof (ran_trans _ _ _ _ _ Hr2 (ran_did _ _ _ _ D3)) as Hr3.
       pose proof (seen_done_l _ _ [status_read last bs3] Hs2) as Hs3.
       destruct (_ =? 1); [apply wp_ret; by eexists|]. apply wp_bind.
       eapply wp_client_load_status; [exact Hcl3|done|]. intros bs4 w4 Hcl4 D4. apply wp_ret.
       eexists. split_and!; [exact Hcl4|exact (ran_trans _ _ _ _ _ Hr3 (ran_did _ _ _ _ D4))|by apply seen_done_l]. }
  intros wake_bad w3 (es3 & Hcl3 & Hr3 & Hs3). destruct wake_bad; [by eapply wp_bad_status|]. by eapply wp_ret, Hok.
Qed.

(** The result of a loop, in [dst], was compared with what it should be. *)
Definition loop_checked (args : test_args) (src dst : Z) (es : list event) : Prop :=
  if ta_atomic_cas args then True
  else if ta_increment args then
    ∃ pre bs bs' post, es = pre ++ [Ev (SLoad (dst + 0) 4) bs; Ev (SLoad (src + 0) 4) bs'] ++ post ∧
      u32 (le32toh (of_native_bytes bs) - le32toh (of_native_bytes bs') - 1) = 0
  else
    ∃ pre n bs post, es = pre ++ [Ev (SLoad dst n) bs; Ev (SLoad src n) bs] ++ post ∧
      n = Z.to_nat (ta_size args).

Lemma loop_checked_within args src dst es1 es es2 :
  loop_checked args src dst es → loop_checked args src dst (es1 ++ es ++ es2).
Proof.
  unfold loop_checked. destruct (ta_atomic_cas args); [done|]. destruct (ta_increment args).
  - intros (pre & bs & bs' & post & -> & E). exists (es1 ++ pre), bs, bs', (post ++ es2).
    by rewrite <-!app_assoc.
  - intros (pre & n & bs & post & -> & E). exists (es1 ++ pre), n, bs, (post ++ es2).
    by rewrite <-!app_assoc.
Qed.

Lemma wpe_load_mem addr offset n w others p a areas irqs Q :
  client w others p a areas irqs → (addr = NULL → excuse) →
  (∀ bs w', client w' others p a areas irqs → did (SLoad (addr + offset) n) bs w w' → Q (of_native_bytes bs) w') →
  wpe (load_mem addr offset n) Q w.
Proof.
  intros Hcl He HQ. destruct (decide (addr = NULL)) as [->|Hne]; [exact (He eq_refl)|].
  apply wp_wpx. by eapply wp_client_load.
Qed.

Lemma wpe_loop_result w others p su a areas irqs args s i Q :
  looping w others p su a areas irqs args s → targs_ok args →
  (∀ w', client w' others p a areas irqs → Q (Some err_status_label) w') →
  (∀ es w', client w' others p a areas irqs → ran es w w' → loop_checked args (ls_src s) (ls_dst s) es → Q None w') →
  wpe (loop_result su s i) Q w.
Proof.
  intros [Hcl _ _ _ Hatt Hsrc Hdst <- _ _] [Hsize _ _] Hbad Hok. unfold loop_result, attached. rewrite Hatt.
  pose proof (Hok) as Hok'. unfold loop_checked in Hok'.
  destruct (ta_atomic_cas (ls_args s)); [eapply wpx_ret, (Hok' []); [done|apply ran_refl|done]|].
  destruct (ta_increment (ls_args s)).
  - apply wpx_bind. eapply wpe_load_mem; [exact Hcl|by intros E|]. intros bs w1 Hcl1 D1.
    apply wpx_bind. eapply wpe_load_mem; [exact Hcl1|exact Hsrc|]. intros bs' w2 Hcl2 D2.
    pose proof (ran_cons _ _ _ _ _ _ D1 (ran_did _ _ _ _ D2)) as Hr. apply wp_wpx.
    unfold c_bool. destruct (Z.eqb_spec (u32 (le32toh (of_native_bytes bs) - le32toh (of_native_bytes bs') - 1)) 0)
      as [E|_]; simpl.
    + eapply wp_ret, Hok'; [exact Hcl2|exact Hr|]. by exists [], bs, bs', [].
    + apply wp_bind, wp_TLOG_ERR; [done|]. intros w3 Hq. apply wp_ret, Hbad. by eapply client_quiet.
  - apply wpx_bind. unfold memcmp_int. destruct (Z.ltb_spec (ta_size (ls_args s)) 0); [lia|].
    unfold memcmp. destruct (Z.eqb_spec (ls_dst s) NULL); [done|].
    destruct (Z.eqb_spec (ls_src s) NULL) as [E|_]; [exact (Hsrc E)|].
    simpl. apply wpx_bind_wp. eapply wp_client_call; [exact Hcl|done|done|done|done|]. intros xs w1 Hcl1 D1.
    apply wpx_bind_wp. eapply wp_client_call; [exact Hcl1|done|done|done|done|]. intros ys w2 Hcl2 D2.
    pose proof (ran_cons _ _ _ _ _ _ D1 (ran_did _ _ _ _ D2)) as Hr. apply wpx_ret, wp_wpx.
    destruct (decide (xs = ys)) as [->|Hne].
    + rewrite bool_decide_eq_true_2 by done. eapply wp_ret, Hok'; [exact Hcl2|exact Hr|].
      by exists [], (Z.to_nat (ta_size (ls_args s))), ys, [].
    + rewrite bool_decide_eq_false_2 by done. apply wp_bind, wp_TLOG_ERR; [done|]. intros w3 Hq.
      apply wp_ret, Hbad. by eapply client_quiet.
Qed.

Lemma wp_client_memset_int w others p a areas irqs addr n Q :
  client w others p a areas irqs → addr ≠ NULL → 0 <= n →
  (∀ es w', client w' others p a areas irqs → ran es w w' → Q tt w') → wp (memset_int addr 0 n) Q w.
Proof.
  intros Hcl Ha Hn HQ. unfold memset_int. destruct (Z.ltb_spec n 0); [lia|].
  eapply wp_client_memset; [exact Hcl|done|]. intros w' Hcl' D. exact (HQ _ _ Hcl' (ran_did _ _ _ _ D)).
Qed.

Lemma wp_loop_buffers w others p su a areas irqs args s Q :
  looping w others p su a areas irqs args s → targs_ok args →
  (∀ w', client w' others p a areas irqs → Q (inl err) w') →
  (∀ s' es w', looping w' others p su a areas irqs args s' → ran es w w' → Q (inr s') w') →
  wp (loop_buffers su s) Q w.
Proof.
  intros Hl [Hsize _ Hsh] Hbad Hok. pose proof Hl as [Hcl _ _ _ Hatt Hsrc Hdst Ea _ _].
  unfold loop_buffers, attached. rewrite Ea.
  assert (∀ (b : bool) s' w' es, looping w' others p su a areas irqs args s' → ran es w w' →
    wp (when b (if ls_attached s' then memset_int (ls_dst s') 0 (ta_size args) else undefined) ;; mret (inr s')) Q w')
    as Hset.
  { intros b s' w1 es1 Hl1 Hr1. pose proof Hl1 as [Hcl1 _ _ _ Hatt1 _ Hdst1 _ _ _]. rewrite Hatt1. apply wp_bind.
    apply wp_when; intros _; [|by eapply wp_ret, Hok].
    eapply wp_client_memset_int; [exact Hcl1|done|done|]. intros es2 w2 Hcl2 Hr2.
    eapply wp_ret, Hok; [by eapply looping_same|by eapply ran_trans]. }
  destruct (ta_reallocate args) eqn:Er; [|by eapply Hset; [|apply ran_refl]].
  destruct (ta_shared_mem args); [by specialize (Hsh eq_refl)|]. apply wp_bind.
  apply wp_bind. eapply wp_client_call; [exact Hcl|done|done|done|done|]. intros page w1 Hcl1 D1.
  apply wp_bind. eapply wp_client_call; [exact Hcl1|done|done|done|done|]. intros rc w2 Hcl2 D2.
  apply wp_bind. eapply wp_client_call; [exact Hcl2|done|done|done|done|]. intros page' w3 Hcl3 D3.
  apply wp_bind. eapply wp_client_call; [exact Hcl3|done|done|done|done|]. intros dst w4 Hcl4 D4.
  pose proof (mmap_anon_granted page' (w_os w3)) as Hd. rewrite (did_step _ _ _ _ D4) in Hd. simpl in Hd.
  destruct (dst =? MAP_FAILED).
  - apply wp_bind, wp_TLOG_ERR; [done|]. intros w5 Hq. apply wp_ret. cbv iota beta.
    apply wp_ret, Hbad. by eapply client_quiet.
  - apply wp_ret. cbv iota beta zeta. eapply Hset.
    + destruct Hl as [_ L1 L2 L3 L4 L5 L6 L7 L8 _]. split; try done; simpl; [by rewrite L8|by rewrite Er].
    + eapply ran_cons; [exact D1|]. eapply ran_cons; [exact D2|]. eapply ran_cons; [exact D3|].
      exact (ran_did _ _ _ _ D4).
Qed.

(** A loop that passed: the element for two buffers was stored and made
    valid, its status was read as 1, then the buffers were compared. *)
Definition loop_passed (args : test_args) (es : list event) : Prop :=
  ∃ src dst pre first bs es1 es2, es = pre ++ go_button first bs ++ es1 ++ es2 ∧
    queued args src dst first pre ∧ seen_done first es1 ∧ loop_checked args src dst es2.

Lemma looping_weq w others p su a areas irqs args s weq :
  looping w others p su a areas irqs args s → ring_ok weq →
  looping w others p su a areas irqs args (s <| ls_weq := weq |>).
Proof. intros [L0 L1 L2 _ L4 L5 L6 L7 L8 L9] Hr. by split. Qed.

(** What a loop leaves when it fails: an AFU whose process area is mapped. *)
Definition loop_failed w others p su : Prop :=
  ∃ a areas irqs i x, client w others p a areas irqs ∧ su_pp_mmio su = handle_of a i ∧ areas !! i = Some x.

Lemma looping_failed w w' others p su a areas irqs args s :
  looping w others p su a areas irqs args s → client w' others p a areas irqs → loop_failed w' others p su.
Proof. intros [_ _ (i & x & E & Hx) _ _ _ _ _ _ _] Hcl. by exists a, areas, irqs, i, x. Qed.

Lemma wp_restart_if (b : bool) w others p su a areas irqs args s Q :
  looping w others p su a areas irqs args s →
  (∀ rc es w', client w' others p a areas irqs → ran es w w' → Q rc w') →
  wp (if b then restart_afu (su_pid su) (su_pp_mmio su) else mret 0) Q w.
Proof.
  intros [Hcl _ (i & x & -> & Hx) _ _ _ _ _ _ _] HQ. destruct b; [by eapply wp_restart_afu|].
  eapply wp_ret, HQ; [exact Hcl|apply ran_refl].
Qed.

Lemma terminates_test_loop w others p su a areas irqs args s i Q :
  looping w others p su a areas irqs args s → targs_ok args →
  (∀ l w', loop_failed w' others p su → Q (inl l) w') →
  (∀ a' s' es w', looping w' others p su a' areas irqs args s' → ran es w w' → loop_passed args es → Q (inr s') w') →
  terminates (λ fuel, test_loop fuel su s i) Q w.
Proof.
  intros Hl Hargs Hbad Hok. unfold test_loop. rewrite (lp_args _ _ _ _ _ _ _ _ _ Hl). apply terminates_bind_wpe.
  eapply wpe_loop_queue; [exact Hl|]. intros weq first last bs es1 w1 Hcl1 Hring Hf Hla Hqd Hr1.
  pose proof (looping_weq _ _ _ _ _ _ _ _ _ _ (looping_same _ _ _ _ _ _ _ _ _ _ Hl Hcl1) Hring) as Hl1.
  set (s1 := s <| ls_weq := weq |>) in *.
  assert (ls_src s1 = ls_src s ∧ ls_dst s1 = ls_dst s) as [Es Ed] by done. clearbody s1. cbv zeta.
  apply terminates_bind; [intros n n' Hn; auto with fuel|].
  eapply terminates_loop_wait; [exact Hl1|exact Hargs|exact Hla|].
  intros events m rc es2 w2 Hcl2 Hr2. pose proof (looping_client _ _ _ _ _ _ _ _ _ _ _ _ Hl1 Hcl2) as Hl2.
  apply terminates_wpe.
  destruct (c_bool rc); [by eapply wpx_ret, Hbad, looping_failed|].
  apply wpx_bind_wp. eapply wp_loop_statuses; [exact Hcl2|done|done|..].
  { intros w3 Hcl3. by eapply wpx_ret, Hbad, looping_failed. }
  intros es3 w3 Hcl3 Hr3 Hdone. apply wpx_bind_wp. eapply wp_client_call; [exact Hcl3|done|done|done|done|].
  intros [] w4 Hcl4 D4. pose proof (looping_same _ _ _ _ _ _ _ _ _ _ Hl2 Hcl4) as Hl4.
  apply wpx_bind. eapply wpe_loop_result; [exact Hl4|exact Hargs|..].
  { intros w5 Hcl5. by eapply wpx_ret, Hbad, looping_failed. }
  intros es5 w5 Hcl5 Hr5 Hc. pose proof (looping_same _ _ _ _ _ _ _ _ _ _ Hl4 Hcl5) as Hl5.
  apply wp_wpx, wp_bind. eapply wp_restart_if; [exact Hl5|]. intros rc6 es6 w6 Hcl6 Hr6.
  destruct (c_bool rc6); [by eapply wp_ret, Hbad, looping_failed|].
  eapply wp_loop_buffers; [by eapply looping_same|exact Hargs|..].
  { intros w7 Hcl7. by eapply Hbad, looping_failed. }
  intros s' es7 w7 Hl7 Hr7.
  eapply (Hok _ _ ((es1 ++ go_button first bs) ++ es2 ++ es3 ++ [Ev SSync tt] ++ es5 ++ es6 ++ es7)); [exact Hl7|..].
  - repeat (eapply ran_trans; [first [eassumption|exact (ran_did _ _ _ _ D4)]|]). done.
  - exists (ls_src s), (ls_dst s), es1, first, bs, (es2 ++ es3), ([Ev SSync tt] ++ es5 ++ es6 ++ es7).
    rewrite Es, Ed in Hc. split_and!; [by rewrite <-!app_assoc|done|by apply seen_done_r|by apply loop_checked_within].
Qed.

(** Every one of [n] loops passed. *)
Definition loops_passed (args : test_args) (n : nat) (es : list event) : Prop :=
  ∃ parts, es = concat parts ∧ length parts = n ∧ Forall (loop_passed args) parts.

Lemma terminates_test_loops n w others p su a areas irqs args s i Q :
  looping w others p su a areas irqs args s → targs_ok args →
  (∀ l w', loop_failed w' others p su → Q (inl (l, args)) w') →
  (∀ a' s' es w', looping w' others p su a' areas irqs args s' → ran es w w' → loops_passed args n es →
     Q (inr s') w') →
  terminates (λ fuel, test_loops fuel su s i n) Q w.
Proof.
  intros Hl Hargs Hbad. revert w a s i Q Hl Hbad. induction n as [|n IH]; intros w a s i Q Hl Hbad Hok; simpl.
  { eapply terminates_wp, wp_ret, Hok; [exact Hl|apply ran_refl|by exists []]. }
  apply terminates_bind; [intros m m' Hm; auto with fuel|]. eapply terminates_test_loop; [exact Hl|exact Hargs|..].
  - intros l w1 Hf. apply terminates_wp, wp_ret. rewrite (lp_args _ _ _ _ _ _ _ _ _ Hl). by apply Hbad.
  - intros a1 s1 es1 w1 Hl1 Hr1 Hp1. eapply IH; [exact Hl1|exact Hbad|]. intros a' s' es w' Hl' Hr (parts & -> & <- & Hp).
    eapply Hok; [exact Hl'|by eapply ran_trans|]. exists (es1 :: parts). by split_and!; [..|constructor].
Qed.

End run.
