(* ===== verification/MemcpyTestMain.v ===== *)
(** * MemcpyTestMain: the memcpy test program from a process to [main]

    The lemmas on the rest of afutests/memcpy/ocxl_memcpy.c: the set-up of a
    process, its ends, the shared memory, and [main] that forks and waits. *)

From S2P Require Import Prelude Format Types World Logic Messages Buffer Ledger Mmio MmioFacts.
From S2P Require Import MmioAccess Irq IrqFacts IrqTable Event Names Afu AfuInv EventFacts Fuel.
From S2P Require Import AfuClose AfuOpen Trace Api Client Memcpy Getopt MemcpySample.
From S2P Require Import MemcpyQueue MemcpyWait MemcpyRun MemcpyTest MemcpyTestRun.
Open Scope Z_scope.

Section process.
Context {K : Type} `{Platform K} `{Abi} `{!EventLaws K} `{!SingleEvents K} `{!Finite K} `{!AllocatedMemory K} `{!GrantedMemory K}.
Context {may : Excuse}.
Context `{!NonZeroHandles K} `{!ByteLoads K} `{!ShortNames K}.
Implicit Types (w : world K).

(** ** The set-up of a process *)

Lemma wp_goto_err {A} pid fmt rc w others p (Q : option A → world K → Prop) :
  closable w others p →
  (∀ z, conforms ("Process %d: " +:+ fmt +:+ newline) [AInt pid; AInt z] = true) →
  (∀ w', closable w' others p → Q None w') → wp (goto_err pid fmt rc) Q w.
Proof.
  intros Hc Hf HQ. apply wp_bind, wp_TLOG_ERR; [apply Hf|]. intros w' Hq. apply wp_ret, HQ. by eapply closable_quiet.
Qed.

(** An interrupt and its handle, or [goto err]. *)
Lemma wp_irq_then {A} pid fmt (k : Z → M K (option A)) w others p a areas irqs n Q :
  client w others p a areas irqs → 1 <= n → irq_space n a → afu_irq_count a < 32768 →
  (∀ z, conforms ("Process %d: " +:+ fmt +:+ newline) [AInt pid; AInt z] = true) →
  (∀ w', closable w' others p → Q None w') →
  (∀ a' i w', client w' others p a' areas (irqs ++ [i]) → irq_space (n - 1) a' →
     afu_irq_count a' = afu_irq_count a + 1 → wp (k (irq_addr i)) Q w') →
  wp ('(rc, irq) ← ocxl_irq_alloc p NULL;
      if negb (is_ok rc) then goto_err pid fmt rc else
      irq ← stored_in irq; ea ← ocxl_irq_get_handle p irq; k ea) Q w.
Proof.
  intros Hcl Hn Hsp Hc Hf Hfail Hok. apply wp_bind. eapply wp_client_irq_alloc; [exact Hcl|exact Hn|done|done|..].
  - intros err a' w' He Hs. rewrite He. eapply wp_goto_err; [by eexists|done|exact Hfail].
  - intros a' i w' Hcl' Hsp' _ Hc'. simpl. apply wp_bind, wp_ret. apply wp_bind.
    eapply wp_client_irq_get_handle; [exact Hcl'|by rewrite lookup_app_r, Nat.sub_diag by lia|]. by eapply Hok.
Qed.

Lemma wp_test_signal pid w others p a args Q :
  client w others p a [] [] → no_tables a →
  (∀ w', closable w' others p → Q None w') →
  (∀ a' irqs ea we w', client w' others p a' [] irqs → irq_space 1 a' → afu_irq_count a' < 32768 →
     Q (Some (ea, we)) w') →
  wp (test_signal pid p args) Q w.
Proof.
  intros Hcl (_ & _ & _ & _ & Ei & Em & _) Hfail Hok. unfold test_signal.
  assert (∀ n, n <= INITIAL_IRQ_COUNT → irq_space n a) as Hsp by (intros n Hn; by left).
  destruct (_ || _); simpl.
  2: { apply wp_ret. eapply Hok; [exact Hcl|apply Hsp; unfold INITIAL_IRQ_COUNT|]; lia. }
  eapply (wp_irq_then _ _ _ w others p a [] [] 2); [exact Hcl| |apply Hsp; by unfold INITIAL_IRQ_COUNT| |done|exact Hfail|];
    [lia..|].
  intros a1 i w1 Hcl1 Hsp1 Hc1. apply wp_bind, wp_TLOG_INF; [done|]. intros w2 Hq2.
  pose proof (client_quiet _ _ _ _ _ _ _ Hcl1 Hq2) as Hcl2.
  assert (afu_irq_count a1 < 32768) as Hlt by lia. change (2 - 1) with 1 in Hsp1.
  destruct (ta_irq args); [by eapply wp_ret, Hok|]. apply wp_bind. eapply wp_client_p9_thread_id; [exact Hcl2|..].
  - intros err w3 He Hcl3. destruct (_ <? 0); [|by eapply wp_ret, Hok].
    eapply wp_goto_err; [by eapply client_closable|done|exact Hfail].
  - intros tid w3 Hcl3. simpl. by eapply wp_ret, Hok.
Qed.

(** The AFU after its set-up: the area of the process is mapped. *)
Definition set_up w others p (su : test_setup) : Prop :=
  su_afu su = p ∧ loop_failed w others p su.

Lemma wp_test_setup_afu pid w others p a args wed inc cas Q :
  client w others p a [] [] → no_tables a →
  (∀ w', closable w' others p → Q None w') →
  (∀ su w', set_up w' others p su → Q (Some su) w') →
  wp (test_setup_afu pid p args wed inc cas) Q w.
Proof.
  intros Hcl Htab Hfail Hok. apply wp_bind. eapply wp_test_signal; [exact Hcl|exact Htab|..].
  { intros w1 Hc. by apply wp_ret, Hfail. }
  intros a1 irqs1 ea we w1 Hcl1 Hsp1 Hc1. cbv iota.
  eapply wp_irq_then; [exact Hcl1|reflexivity|exact Hsp1|exact Hc1|done|exact Hfail|].
  intros a2 i2 w2 Hcl2 _ _.
  assert (∀ fmt rc w' a' areas' irqs', client w' others p a' areas' irqs' →
    (∀ z, conforms ("Process %d: " +:+ fmt +:+ newline) [AInt pid; AInt z] = true) →
    wp (goto_err pid fmt rc) Q w') as Hbad.
  { intros fmt rc w' a' areas' irqs' Hcl' Hf. eapply wp_goto_err; [by eapply client_closable|done|exact Hfail]. }
  apply wp_bind. eapply wp_client_attach; [exact Hcl2|intros err w3 He Hcl3; rewrite He; by eapply Hbad|].
  intros w3 Hcl3. simpl. apply wp_bind.
  eapply wp_client_map; [exact Hcl3|by rewrite (client_no_areas _ _ _ _ _ Hcl3)|
    intros err w4 He Hcl4; rewrite He; by eapply Hbad|].
  intros a4 i x areas4 w4 Hcl4 Hx _ _ _. simpl. apply wp_bind, wp_ret. apply wp_bind.
  eapply wp_client_write64; [exact Hcl4|exact Hx|by vm_compute|]. intros w5 Hcl5 _.
  destruct (is_ok _); simpl; [|by eapply Hbad].
  apply wp_bind. eapply wp_client_call; [exact Hcl5|done|done|done|done|]. intros [] w6 Hcl6 _. apply wp_bind.
  eapply wp_client_write64; [exact Hcl6|exact Hx|by vm_compute|]. intros w7 Hcl7 _.
  destruct (is_ok _); simpl; [|by eapply Hbad]. apply wp_ret, Hok. split; [done|].
  by exists a4, areas4, (irqs1 ++ [i2]), i, x.
Qed.

Lemma issues_test_setup_afu pid p args wed inc cas :
  issues (K := K) (λ _, True) (test_setup_afu pid p args wed inc cas).
Proof. unfold test_setup_afu, test_signal, goto_err, ocxl_mmio_map, stored_in, TLOG_ERR, TLOG_INF, printf. traced. Qed.

Lemma wp_fill_pid w others p a areas irqs src pid i n Q :
  client w others p a areas irqs → src ≠ NULL →
  (∀ w', client w' others p a areas irqs → Q tt w') → wp (fill_pid src pid i n) Q w.
Proof.
  revert w i. induction n as [|n IH]; intros w i Hcl Hb HQ; simpl; [by apply wp_ret, HQ|].
  apply wp_bind. eapply wp_client_store; [exact Hcl|done|]. intros w1 Hcl1 _. by apply IH.
Qed.

Lemma issues_fill_pid src pid i n : issues (K := K) (λ _, True) (fill_pid src pid i n).
Proof. revert i. induction n as [|n IH]; intros i; simpl; unfold store_mem; traced. Qed.

#[local] Hint Resolve issues_fill_pid issues_test_setup_afu : traced.

Lemma issues_init_source args pid src inc : issues (K := K) (λ _, True) (init_source args pid src inc).
Proof. unfold init_source, memset_int, memset, store_mem. traced. Qed.

Lemma wp_init_source w others p a areas irqs args pid src inc Q :
  client w others p a areas irqs → src ≠ NULL → 0 <= ta_size args →
  (∀ inc' w', client w' others p a areas irqs → (ta_atomic_cas args = false → inc' = inc) → since w w' → Q inc' w') →
  wp (init_source args pid src inc) Q w.
Proof.
  intros Hcl Hsrc Hsize HQ. apply wp_since; [apply issues_init_source|]. unfold init_source.
  destruct (ta_atomic_cas args); [|destruct (ta_increment args)]; apply wp_bind.
  - eapply wp_client_memset_int; [exact Hcl|done|done|]. intros es w1 Hcl1 _. by apply wp_ret, HQ.
  - eapply wp_client_store; [exact Hcl|done|]. intros w1 Hcl1 _. by apply wp_ret, HQ.
  - eapply wp_fill_pid; [exact Hcl|done|]. intros w1 Hcl1. by apply wp_ret, HQ.
Qed.

(** A source that was not allocated is stored to, unless it has size 0. *)
Lemma wpe_init_source w others p a areas irqs args pid src inc Q :
  client w others p a areas irqs → (src = NULL → excuse) → 0 <= ta_size args →
  (∀ inc' w', client w' others p a areas irqs → (ta_atomic_cas args = false → inc' = inc) → since w w' → Q inc' w') →
  wpe (init_source args pid src inc) Q w.
Proof.
  intros Hcl Hsrc Hsize HQ.
  destruct (decide (src = NULL)) as [->|Hne]; [|by apply wp_wpx; eapply wp_init_source].
  unfold init_source, memset_int. destruct (ta_atomic_cas args) eqn:Ec.
  { apply wpx_bind. destruct (Z.ltb_spec (ta_size args) 0); [lia|]. exact (Hsrc eq_refl). }
  destruct (ta_increment args); [exact (Hsrc eq_refl)|].
  destruct (Z.to_nat (ta_size args)); [|exact (Hsrc eq_refl)]. apply HQ; [done|done|reflexivity].
Qed.

(** ** Shared memory *)

Lemma wp_perror_if (b : bool) what w live (Q : unit → world K → Prop) :
  sys_inv w live → (∀ w', sys_inv w' live → since w w' → Q tt w') → wp (when b (perror what)) Q w.
Proof.
  intros Hs HQ. apply wp_when; intros _; [|apply HQ; [done|reflexivity]].
  apply wp_perror. intros w' Hq. apply HQ; [by eapply sys_inv_quiet|by apply since_quiet].
Qed.

Lemma wp_shm_destroy args w live (Q : unit → world K → Prop) :
  sys_inv w live → (∀ w', sys_inv w' live → since w w' → Q tt w') → wp (shm_destroy args) Q w.
Proof.
  intros Hs HQ. apply wp_bind. eapply wp_sys_call; [exact Hs|done|done|done|]. intros rc w1 Hs1 D1.
  apply wp_bind. eapply wp_perror_if; [exact Hs1|]. intros w2 Hs2 T2.
  apply wp_bind. eapply wp_sys_call; [exact Hs2|done|done|done|]. intros rc' w3 Hs3 D3.
  eapply wp_perror_if; [exact Hs3|]. intros w4 Hs4 T4. apply HQ; [done|].
  etrans; [exact (since_did _ _ _ _ D1)|]. etrans; [exact T2|]. etrans; [exact (since_did _ _ _ _ D3)|exact T4].
Qed.

(** The arguments with shared memory of their own. *)
Definition with_shm (args : test_args) (shmid lock counter : Z) : test_args :=
  args <| ta_shmid := shmid |> <| ta_lock := lock |> <| ta_counter := counter |>.

Lemma wp_shm_create args w live Q :
  sys_inv w live → 0 <= ta_size args →
  (∀ args' w', sys_inv w' live → since w w' → Q (args', true) w') →
  (∀ shmid lock counter w', sys_inv w' live → since w w' → lock ≠ NULL → counter ≠ NULL →
     Q (with_shm args shmid lock counter, false) w') →
  wp (shm_create args) Q w.
Proof.
  intros Hs Hsize Hfail Hok. apply wp_bind. eapply wp_sys_call; [exact Hs|done|done|done|]. intros page w1 Hs1 D1.
  apply wp_bind. eapply wp_sys_call; [exact Hs1|done|done|done|]. intros shmid w2 Hs2 D2.
  assert (since w w2) as T2 by exact (transitivity (since_did _ _ _ _ D1) (since_did _ _ _ _ D2)).
  cbv zeta. destruct (shmid =? -1).
  { apply wp_bind, wp_perror. intros w3 Hq. apply wp_ret, Hfail; [by eapply sys_inv_quiet|].
    etrans; [exact T2|by apply since_quiet]. }
  apply wp_bind. eapply wp_sys_call; [exact Hs2|done|done|done|]. intros lock w3 Hs3 D3.
  pose proof (shmat_granted shmid (w_os w2)) as Hl. rewrite (did_step _ _ _ _ D3) in Hl. simpl in Hl.
  assert (since w w3) as T3 by exact (transitivity T2 (since_did _ _ _ _ D3)).
  destruct (lock =? MAP_FAILED).
  - apply wp_bind, wp_perror. intros w4 Hq4. apply wp_bind.
    eapply wp_sys_call; [by eapply sys_inv_quiet|done|done|done|]. intros rc w5 Hs5 D5. apply wp_bind.
    eapply wp_perror_if; [exact Hs5|]. intros w6 Hs6 T6. apply wp_ret, Hfail; [done|].
    etrans; [exact T3|]. etrans; [by apply since_quiet|]. etrans; [exact (since_did _ _ _ _ D5)|exact T6].
  - apply wp_ret. apply (Hok shmid lock (lock + ta_size args)); [done|done|unfold NULL; simpl; lia..].
Qed.

(** ** The ends of a process *)

Lemma wp_close_and_destroy args w others p rc (Q : ended → world K → Prop) :
  closable w others p → others !! p = None →
  (∀ w', sys_inv w' others → since w w' → Q (Returned rc) w') →
  wp (ocxl_afu_close p ;; when (ta_shared_mem args) (shm_destroy args) ;; mret (Returned rc)) Q w.
Proof.
  intros Hc Hp HQ. apply wp_bind, wp_since; [auto with traced|].
  eapply wp_closable_close; [exact Hc|exact Hp|]. intros w1 Hs1 T1. apply wp_bind.
  apply wp_when; intros _; [|by apply wp_ret, HQ]. eapply wp_shm_destroy; [exact Hs1|]. intros w2 Hs2 T2.
  apply wp_ret, HQ; [done|by etrans].
Qed.

Lemma wp_at_err_status w others p su args (Q : ended → world K → Prop) :
  set_up w others p su → others !! p = None →
  (∀ w', sys_inv w' others → Q (Returned (-1)) w') → wp (at_err_status su args) Q w.
Proof.
  intros [<- (a & areas & irqs & i & x & Hcl & Epp & Hx)] Hp HQ. unfold at_err_status. rewrite Epp. apply wp_bind.
  eapply wp_client_read64; [exact Hcl|exact Hx|by vm_compute|]. intros bs w1 Hcl1 _. apply wp_bind.
  assert (∀ w2, quiet w1 w2 → wp (at_err (su_afu su) args) Q w2) as Hgo.
  { intros w2 Hq. eapply wp_close_and_destroy; [by eapply closable_quiet; [eapply client_closable|]|exact Hp|].
    intros w3 Hs3 _. by apply HQ. }
  destruct (is_ok _); simpl; [apply wp_bind, wp_ret|]; (apply wp_TLOG_ERR; [done|exact Hgo]).
Qed.

Lemma terminates_test_end ft w others p su a areas irqs args s start Q :
  looping w others p su a areas irqs args s → others !! p = None →
  (∀ w', sys_inv w' others → Q (Returned (-1)) w') →
  (∀ w', sys_inv w' others → since w w' → Q (Returned 0) w') →
  terminates (λ fuel, test_end ft fuel su args start) Q w.
Proof.
  intros Hl Hp Hfail Hok. pose proof Hl as [Hcl <- _ _ _ _ _ _ _ _]. unfold test_end. apply terminates_bind_wp.
  eapply wp_client_gettimeofday; [exact Hcl|]. intros now w1 Hcl1 D1. cbv zeta.
  apply terminates_bind; [intros n n' Hn; auto with fuel|].
  assert (∀ fmt l events m w2, client w2 others (su_afu su) (with_epoll a events m) areas irqs →
    conforms ("Process %d: " +:+ fmt +:+ newline) (AInt (su_pid su) :: l) = true →
    wp (TLOG_ERR (su_pid su) fmt l ;; at_err_status su args) Q w2) as Hbad.
  { intros fmt l events m w2 Hcl2 Hc. apply wp_bind, wp_TLOG_ERR; [done|]. intros w3 Hq.
    eapply wp_at_err_status; [|exact Hp|exact Hfail]. split; [done|].
    eapply looping_failed; [by eapply looping_client|by eapply client_quiet]. }
  eapply terminates_check_one; [exact Hcl1|..].
  - intros events m rc evs es w2 Hcl2 Hr2 Hrc. apply terminates_wp. destruct (Z.eqb_spec rc 0) as [->|]; simpl.
    + apply wp_bind, wp_TLOG_INF; [done|]. intros w3 Hq3.
      eapply wp_close_and_destroy; [by eapply client_closable, client_quiet|exact Hp|]. intros w4 Hs4 T4.
      apply Hok; [done|]. etrans; [exact (since_did _ _ _ _ D1)|]. etrans; [by exists es|].
      etrans; [by apply since_quiet|exact T4].
    + destruct (Z.eqb_spec rc 1); [done|]. by eapply Hbad.
  - intros events m e es w2 Hcl2 Hr2. simpl. apply terminates_wp, wp_bind, wp_bind, wp_ret.
    destruct (_ =? _); apply wp_TLOG_ERR; try done; intros w3 Hq;
      (eapply wp_at_err_status; [|exact Hp|exact Hfail]; split; [done|];
       eapply looping_failed; [by eapply looping_client|by eapply client_quiet]).
Qed.

(** ** One process *)

(** How a process may end, from [w]: what it holds was given back, and after
    a success every loop had passed. *)
Definition process_ended w (others : gmap ptr afu_view) (args : test_args) (e : ended) (w' : world K) : Prop :=
  sys_inv w' others ∧
  (e = Exited 1 ∨ e = Returned (-1) ∨
   e = Returned 0 ∧ ∃ w1 w2 es, since w w1 ∧ ran es w1 w2 ∧ since w2 w' ∧
     loops_passed args (Z.to_nat (ta_loop_count args)) es).

Lemma terminates_test_opened ft w others p a args pid src dst :
  client w others p a [] [] → no_tables a → others !! p = None → targs_ok args →
  (src = NULL → excuse) → dst ≠ NULL → (out_of_memory w → excuse) →
  terminates (λ fuel, test_opened ft fuel pid args src dst p) (process_ended w others args) w.
Proof.
  intros Hcl Htab Hp Hargs Hsrc Hdst He. unfold test_opened. apply terminates_bind_wpe.
  eapply wpe_init_weq; [exact Hcl|exact He|]. intros weq es1 w1 Hcl1 Hring _ _ Hr1. cbv zeta.
  apply terminates_bind_wp, wp_TLOG_INF; [done|]. intros w2 Hq2.
  apply terminates_bind_wp, wp_since; [apply issues_test_setup_afu|].
  assert (∀ w' args', closable w' others p → wp (at_err p args') (process_ended w others args) w') as Hbad.
  { intros w' args' Hc. eapply wp_close_and_destroy; [exact Hc|exact Hp|]. intros w3 Hs3 _. split; [done|auto]. }
  eapply wp_test_setup_afu; [by eapply client_quiet|exact Htab|..].
  { intros w3 Hc _. by apply terminates_wp, Hbad. }
  intros su w3 [_ (a3 & areas & irqs & i & x & Hcl3 & Epp & Hx)] T3. cbv iota.
  apply terminates_bind_wpe. eapply wpe_init_source; [exact Hcl3|exact Hsrc|apply Hargs|]. intros inc w4 Hcl4 Einc T4.
  apply terminates_bind_wp. eapply wp_client_gettimeofday; [exact Hcl4|]. intros start w5 Hcl5 D5.
  set (su' := mk_setup _ _ _ _ _ _ _ _). set (s0 := mk_loop _ _ _ _ _ _).
  assert (looping w5 others p su' a3 areas irqs args s0) as Hl5.
  { split; try done; [by exists i, x|]. intros Hc _. by apply Einc. }
  assert (since w w5) as T5.
  { etrans; [by exists es1|]. etrans; [by apply since_quiet|]. etrans; [exact T3|]. etrans; [exact T4|].
    exact (since_did _ _ _ _ D5). }
  apply terminates_bind; [intros n n' Hn; auto with fuel|]. eapply terminates_test_loops; [exact Hl5|exact Hargs|..].
  - intros l w6 Hf. apply terminates_wp. destruct l.
    + destruct Hf as (a6 & areas6 & irqs6 & _ & _ & Hcl6 & _). by eapply Hbad, client_closable.
    + eapply (wp_at_err_status _ others p); [by split|exact Hp|]. intros w7 Hs7. split; [done|auto].
  - intros a6 s6 es6 w6 Hl6 Hr6 Hlp. rewrite (lp_args _ _ _ _ _ _ _ _ _ Hl6).
    eapply terminates_test_end; [exact Hl6|exact Hp|intros w7 Hs7; split; [done|auto]|].
    intros w7 Hs7 T7. split; [done|]. right. right. split; [done|]. by exists w5, w6, es6.
Qed.

Lemma wp_open_afu device w others Q :
  sys_inv w others →
  (∀ err w', is_ok err = false → sys_inv w' others → Q (err, OCXL_INVALID_AFU) w') →
  (∀ p a w', client w' others p a [] [] → others !! p = None → no_tables a → since w w' → Q (OCXL_OK, p) w') →
  wp (open_afu device) Q w.
Proof. apply wp_client_open_by. Qed.

(** The buffers, before the AFU is opened: shared memory or an allocation. *)
Lemma wp_test_source args w live Q :
  sys_inv w live → 0 <= ta_size args → (ta_atomic_cas args = true → ta_lock args ≠ NULL) →
  (∀ args' src dst w', sys_inv w' live → Q (args', true, src, dst) w') →
  (∀ args' src dst w', sys_inv w' live → since w w' → (src = NULL → out_of_memory w) →
     args' = args ∨ (∃ shmid lock counter, args' = with_shm args shmid lock counter) →
     (ta_atomic_cas args = true → ta_lock args' ≠ NULL) → Q (args', false, src, dst) w') →
  wp (if ta_shared_mem args then
        '(args, failed) ← shm_create args; mret (args, failed, ta_counter args, ta_lock args)
      else page ← call SPagesize; src ← aligned_alloc 64 page; mret (args, false, src, NULL)) Q w.
Proof.
  intros Hs Hsize Hlock Hfail Hok. destruct (ta_shared_mem args).
  - apply wp_bind. eapply wp_shm_create; [exact Hs|done|..].
    + intros args' w' Hs' _. by apply wp_ret, Hfail.
    + intros shmid lock counter w' Hs' T Hl Hc. apply wp_ret, Hok; [done|done|by intros E| |done].
      right. by exists shmid, lock, counter.
  - apply wp_bind. eapply wp_sys_call; [exact Hs|done|done|done|]. intros page w1 Hs1 D1.
    apply wp_bind. eapply wp_mono; [|apply wp_and; [by eapply (wp_sys_call (SAlignedAlloc 64 page) _ _
      (λ _ w', sys_inv w' live))|apply (wp_aligned_alloc _ _ _ (λ addr w', did (SAlignedAlloc 64 page) addr w1 w' ∧
        (0 < addr ∨ addr = NULL ∧ out_of_memory w1))); by intros]].
    intros src w2 [Hs2 [D2 Ha]]. apply wp_ret, Hok; [done| | |by left|done].
    2: { intros ->. destruct Ha as [[=]|[_ Hoom]]. exact (out_of_memory_ran _ _ _ (ran_did _ _ _ _ D1) Hoom). }
    exact (transitivity (since_did _ _ _ _ D1) (since_did _ _ _ _ D2)).
Qed.

(** The destination: the lock, or fresh memory. *)
Lemma wp_test_dst args w live Q :
  sys_inv w live → (ta_atomic_cas args = true → ta_lock args ≠ NULL) →
  (∀ dst w', sys_inv w' live → since w w' → dst ≠ NULL → Q dst w') →
  wp (if ta_atomic_cas args then mret (ta_lock args) else page ← call SPagesize; call (SMmapAnon page)) Q w.
Proof.
  intros Hs Hlock HQ. destruct (ta_atomic_cas args).
  - apply wp_ret, HQ; [done|reflexivity|by apply Hlock].
  - apply wp_bind. eapply wp_sys_call; [exact Hs|done|done|done|]. intros page w1 Hs1 D1.
    eapply wp_sys_call; [exact Hs1|done|done|done|]. intros dst w2 Hs2 D2. apply HQ; [done| |].
    + exact (transitivity (since_did _ _ _ _ D1) (since_did _ _ _ _ D2)).
    + pose proof (mmap_anon_granted page (w_os w1)) as Hd. by rewrite (did_step _ _ _ _ D2) in Hd.
Qed.

(** Other shared memory, the same test. *)
Lemma process_ended_args w w0 others args args' e w' :
  since w w0 → args' = args ∨ (∃ shmid lock counter, args' = with_shm args shmid lock counter) →
  process_ended w0 others args' e w' → process_ended w others args e w'.
Proof.
  intros T E [Hs He]. split; [done|]. destruct He as [?|[?|[-> (w1 & w2 & es & T1 & Hr & T2 & Hp)]]]; [by auto..|].
  right. right. split; [done|]. exists w1, w2, es. split_and!; [by etrans|done|done|].
  destruct E as [->|(shmid & lock & counter & ->)]; exact Hp.
Qed.

Lemma targs_ok_shm args shmid lock counter : targs_ok args → targs_ok (with_shm args shmid lock counter).
Proof. by intros []. Qed.

Lemma terminates_test_afu_memcpy ft args w others :
  sys_inv w others → targs_ok args → (ta_atomic_cas args = true → ta_lock args ≠ NULL) → (out_of_memory w → excuse) →
  terminates (λ fuel, test_afu_memcpy ft fuel args) (process_ended w others args) w.
Proof.
  intros Hs Hargs Hlock He. unfold test_afu_memcpy. apply terminates_bind_wp.
  eapply wp_sys_call; [exact Hs|done|done|done|]. intros pid w1 Hs1 D1.
  apply terminates_bind_wp. eapply wp_test_source; [exact Hs1|apply Hargs|exact Hlock|..].
  { intros args' src dst w2 Hs2. apply terminates_wp, wp_ret. split; [done|auto]. }
  intros args' src dst0 w2 Hs2 T2 Hsrc Eargs Hlock'.
  assert (targs_ok args' ∧ ta_atomic_cas args' = ta_atomic_cas args) as [Hargs' Ecas].
  { destruct Eargs as [->|(shmid & lock & counter & ->)]; split; try done. by apply targs_ok_shm. }
  apply terminates_bind_wp. eapply wp_test_dst; [exact Hs2|by rewrite Ecas|]. intros dst w3 Hs3 T3 Hdst.
  destruct (_ && _).
  { apply terminates_wp, wp_bind, wp_TLOG_ERR; [done|]. intros w4 Hq. apply wp_ret.
    split; [by eapply sys_inv_quiet|auto]. }
  apply terminates_bind_wp. apply wp_bind, wp_get_globals, wp_set_globals. set (w4 := w3 <| w_glob := _ |>).
  assert (sys_inv w4 others) as Hs4.
  { eapply sys_inv_kept; [exact Hs3|]. apply kept_mem; [apply Hs3|done..]. }
  assert (since w w4) as T4.
  { etrans; [exact (since_did _ _ _ _ D1)|]. etrans; [exact T2|]. etrans; [exact T3|]. exists []. by apply ran_memory. }
  apply terminates_bind_wp. eapply wp_open_afu; [exact Hs4|..].
  - intros err w5 Herr Hs5. rewrite Herr. apply terminates_wp, wp_bind, wp_TLOG_ERR; [done|]. intros w6 Hq. apply wp_ret.
    split; [by eapply sys_inv_quiet|auto].
  - intros p a w5 Hcl Hp Htab T5. cbv iota beta. cbn [is_ok negb].
    assert (∀ w', since w w' → out_of_memory w' → excuse) as He'.
    { intros w' [es Hr] Hoom. exact (He (out_of_memory_ran _ _ _ Hr Hoom)). }
    eapply terminates_mono; [|eapply terminates_test_opened; [exact Hcl|exact Htab|exact Hp|exact Hargs'| |exact Hdst|]].
    + intros e w'. apply process_ended_args; [by etrans|done].
    + intros E. apply (He' w1); [exact (since_did _ _ _ _ D1)|by apply Hsrc].
    + apply He'. by etrans.
Qed.

(** ** [main] *)

Lemma terminates_fork_all ft args n w others Q :
  sys_inv w others → targs_ok args → (ta_atomic_cas args = true → ta_lock args ≠ NULL) → (out_of_memory w → excuse) →
  (∀ w', sys_inv w' others → since w w' → Q None w') →
  (∀ status w', status = 1 ∨ process_ended w others args (Returned status) w' → Q (Some (Exited status)) w') →
  terminates (λ fuel, fork_all ft fuel args n) Q w.
Proof.
  intros Hs Hargs Hlock. revert w Q Hs. induction n as [|n IH]; intros w Q Hs He Hnone Hchild; simpl.
  { apply terminates_wp, wp_ret, Hnone; [done|reflexivity]. }
  apply terminates_bind_wp. eapply wp_sys_call; [exact Hs|done|done|done|]. intros pid w1 Hs1 D1.
  pose proof (since_did _ _ _ _ D1) as T1.
  assert (out_of_memory w1 → excuse) as He1.
  { intros Hoom. exact (He (out_of_memory_ran _ _ _ (ran_did _ _ _ _ D1) Hoom)). }
  destruct (pid =? 0).
  - apply terminates_bind; [intros m m' Hm; auto with fuel|].
    eapply terminates_mono; [|by apply terminates_test_afu_memcpy]. intros e w2 Hp.
    apply terminates_wp, wp_ret, Hchild. destruct e as [st|st].
    + left. destruct Hp as [_ [[=]|[[=]|[[=] _]]]]; done.
    + right. eapply process_ended_args; [exact T1|by left|exact Hp].
  - apply IH; [done|done|intros w2 Hs2 T2; apply Hnone; [done|by etrans]|].
    intros st w2 [->|Hp]; apply Hchild; [by left|right]. eapply process_ended_args; [exact T1|by left|exact Hp].
Qed.

(** The children that were waited for, and those that failed. *)
Definition waits (rs : list (Z * Z)) : list event := map (λ r, Ev SWaitChild r) rs.
Definition failures (rs : list (Z * Z)) : list Z := omap (λ r, if r.2 =? 0 then None else Some r.1) rs.

Lemma wp_wait_all n j rc failing w live Q :
  sys_inv w live →
  (∀ rs rc' failing' w', sys_inv w' live → ran (waits rs) w w' → length rs = n →
     (Forall (λ r, 0 < r.1) rs →
        rc' = rc + Z.of_nat (length (failures rs)) ∧
        failing' = if failing =? -1 then default (-1) (head (failures rs)) else failing) → Q (rc', failing') w') →
  wp (wait_all n j rc failing) Q w.
Proof.
  revert j rc failing w Q. induction n as [|n IH]; intros j rc failing w Q Hs HQ; simpl.
  { apply wp_ret. apply (HQ []); [done|apply ran_refl|done|]. intros _. simpl.
    split; [lia|]. by destruct (Z.eqb_spec failing (-1)). }
  apply wp_bind. eapply wp_sys_call; [exact Hs|done|done|done|]. intros [pid st] w1 Hs1 D1.
  assert (∀ j' rc1 failing1,
    (0 < pid → rc1 = rc + (if st =? 0 then 0 else 1) ∧
               failing1 = if (failing =? -1) && negb (st =? 0) then pid else failing) →
    wp (wait_all n j' rc1 failing1) Q w1) as Hgo.
  { intros j' rc1 failing1 H1. apply IH; [done|]. intros rs rc' failing' w' Hs' Hr Hn H2.
    apply (HQ ((pid, st) :: rs)); [done|exact (ran_cons _ _ _ _ _ _ D1 Hr)|simpl; lia|].
    intros [Hp Hrs]%Forall_cons_1. destruct (H1 Hp) as [-> ->]. destruct (H2 Hrs) as [-> ->]. simpl.
    destruct (Z.eqb_spec st 0); simpl.
    - rewrite andb_false_r. split; [lia|done].
    - destruct (Z.eqb_spec failing (-1)); simpl; [|rewrite (proj2 (Z.eqb_neq failing (-1))) by done; split; [lia|done]].
      rewrite (proj2 (Z.eqb_neq pid (-1))) by (simpl in Hp; lia). split; [lia|done]. }
  destruct (c_bool pid && c_bool (if pid =? -1 then j else st)) eqn:E; apply Hgo; intros Hp;
    assert ((pid =? -1) = false) as E1 by lia; rewrite E1 in E; unfold c_bool in E;
    assert ((pid =? 0) = false) as E0 by lia; rewrite E0 in E; simpl in E.
  - destruct (st =? 0); [done|]. simpl. rewrite andb_true_r. done.
  - destruct (st =? 0); [|done]. simpl. rewrite andb_false_r. split; [lia|done].
Qed.

(** The counter was read first, and whether it has the value it should have. *)
Definition counted (args : test_args) (processes : Z) (right : bool) (es : list event) : Prop :=
  ∃ addr bs es', es = Ev (SLoad (addr + 0) 4) bs :: es' ∧
    right = (s32 (of_native_bytes bs) =? processes * ta_loop_count args).

Lemma wp_sys_load w live addr offset n Q :
  sys_inv w live → addr ≠ NULL →
  (∀ bs w', sys_inv w' live → did (SLoad (addr + offset) n) bs w w' → Q (of_native_bytes bs) w') →
  wp (load_mem addr offset n) Q w.
Proof.
  intros Hs Ha HQ. unfold load_mem. destruct (Z.eqb_spec addr NULL); [done|].
  apply wp_bind. eapply wp_sys_call; [exact Hs|done|done|done|]. intros bs w' Hs' Hd. by apply wp_ret, HQ.
Qed.

Lemma wp_sys_memset_int w live addr n Q :
  sys_inv w live → addr ≠ NULL → 0 <= n → (∀ w', sys_inv w' live → since w w' → Q tt w') →
  wp (memset_int addr 0 n) Q w.
Proof.
  intros Hs Ha Hn HQ. unfold memset_int, memset. destruct (Z.ltb_spec n 0); [lia|].
  destruct (Z.eqb_spec addr NULL); [done|]. eapply wp_sys_call; [exact Hs|done|done|done|].
  intros [] w' Hs' D. apply HQ; [done|exact (since_did _ _ _ _ D)].
Qed.

Lemma wp_check_counter args processes w live Q :
  sys_inv w live → ta_counter args ≠ NULL → - 2 ^ 31 <= processes * ta_loop_count args < 2 ^ 31 →
  (∀ right es w', sys_inv w' live → ran es w w' → counted args processes right es → Q (negb right) w') →
  wp (check_counter args processes) Q w.
Proof.
  intros Hs Hc Hfit HQ. apply wp_bind. eapply wp_sys_load; [exact Hs|done|]. intros bs w1 Hs1 D1.
  apply wp_bind, wp_int_mul; [done|]. destruct (s32 (of_native_bytes bs) =? processes * ta_loop_count args) eqn:E.
  - eapply wp_ret, (HQ true); [done|exact (ran_did _ _ _ _ D1)|]. by exists (ta_counter args), bs, [].
  - apply wp_bind, wp_fprintf_stderr; [done|]. intros w2 H2. apply wp_bind, wp_fprintf_stderr; [done|]. intros w3 H3.
    apply wp_bind, wp_fprintf_stderr; [done|]. intros w4 H4. apply wp_bind, wp_fprintf_stderr; [done|]. intros w5 H5.
    assert (quiet w1 w5) as Hq by (etrans; [exact H2|]; etrans; [exact H3|]; by etrans).
    apply wp_bind. eapply wp_sys_load; [by eapply sys_inv_quiet|done|]. intros bs' w6 Hs6 D6.
    apply wp_bind, wp_fprintf_stderr; [done|]. intros w7 H7. eapply wp_ret, (HQ false); [by eapply sys_inv_quiet| |].
    + eapply ran_cons; [exact D1|]. eapply ran_quiet_l; [exact Hq|]. eapply ran_quiet_r; [exact (ran_did _ _ _ _ D6)|done].
    + by eexists (ta_counter args), bs, _.
Qed.

(** How the program may end.  A child ends the way a process does.  The parent
    exits with 1 (a bad option, a set-up that failed), returns -1 for a buffer
    size that is not a multiple of 64 up to 2048, or has waited for every child:
    then it returns how many of them failed, but for -1 with [-A] when the
    counter was wrong. *)
Definition tests_ended w (others : gmap ptr afu_view) (args : test_args) (processes : Z) (e : ended) (w' : world K) :
    Prop :=
  match e with
  | Exited status => status = 1 ∨ process_ended w others args (Returned status) w'
  | Returned rc =>
      sys_inv w' others ∧
      (rc = -1 ∧ (2048 < ta_size args ∨ Z.rem (ta_size args) 64 ≠ 0) ∨
       ∃ w1 w2 rs es, since w w1 ∧ ran (waits rs) w1 w2 ∧ ran es w2 w' ∧ length rs = Z.to_nat processes ∧
         ∃ right, (ta_atomic_cas args = true → counted args processes right es) ∧
           (ta_atomic_cas args = false → right = true) ∧
           if right : bool then Forall (λ r, 0 < r.1) rs → rc = Z.of_nat (length (failures rs)) else rc = -1)
  end.

(** Shared memory for the counter, in the parent. *)
Lemma wp_prepare_counter args w live Q :
  sys_inv w live → 0 <= ta_size args →
  (∀ args' w', sys_inv w' live → Q (args', true) w') →
  (∀ args' w', sys_inv w' live → since w w' →
     args' = args ∨ (∃ shmid lock counter, args' = with_shm args shmid lock counter) →
     (ta_atomic_cas args = true → ta_lock args' ≠ NULL ∧ ta_counter args' ≠ NULL) → Q (args', false) w') →
  wp (if ta_atomic_cas args then
        '(args, failed) ← shm_create args;
        if (failed : bool) then mret (args, true) else
        memset_int (ta_lock args) 0 (ta_size args) ;;
        memset_int (ta_counter args) 0 (ta_size args) ;;
        printf ("Shared memory ID: %d attached at: %p" +:+ newline) [AInt (ta_shmid args); AInt (ta_lock args)] ;;
        mret (args, false)
      else mret (args, false)) Q w.
Proof.
  intros Hs Hsize Hfail Hok. destruct (ta_atomic_cas args); [|apply wp_ret, Hok; [done|reflexivity|by left|done]].
  apply wp_bind. eapply wp_shm_create; [exact Hs|done|intros args' w' Hs' _; by apply wp_ret, Hfail|].
  intros shmid lock counter w1 Hs1 T1 Hl Hc. cbv iota.
  apply wp_bind. eapply wp_sys_memset_int; [exact Hs1|done|done|]. intros w2 Hs2 T2.
  apply wp_bind. eapply wp_sys_memset_int; [exact Hs2|done|done|]. intros w3 Hs3 T3.
  apply wp_bind, wp_printf; [done|]. intros w4 Hq4. apply wp_ret, Hok; [by eapply sys_inv_quiet| |by eauto 6|done].
  etrans; [exact T1|]. etrans; [exact T2|]. etrans; [exact T3|by apply since_quiet].
Qed.

Lemma terminates_run_tests ft junk args processes w others :
  sys_inv w others → targs_ok args →
  (ta_atomic_cas args = true → - 2 ^ 31 <= processes * ta_loop_count args < 2 ^ 31) → (out_of_memory w → excuse) →
  terminates (λ fuel, run_tests ft fuel junk args processes) (tests_ended w others args processes) w.
Proof.
  intros Hs Hargs Hfit He. unfold run_tests. apply terminates_bind_wp.
  eapply wp_prepare_counter; [exact Hs|apply Hargs|intros args' w1 Hs1; by apply terminates_wp, wp_ret; left|].
  intros args' w1 Hs1 T1 Eargs Hmem.
  assert (targs_ok args' ∧ ta_atomic_cas args' = ta_atomic_cas args ∧ ta_loop_count args' = ta_loop_count args)
    as (Hargs' & Ecas & Eloop).
  { destruct Eargs as [->|(shmid & lock & counter & ->)]; split; try done. by apply targs_ok_shm. }
  assert (∀ right es, counted args' processes right es → counted args processes right es) as Hcnt
    by (unfold counted; by rewrite Eloop).
  clear Hs. cbv iota.
  apply terminates_bind; [intros n n' Hn; auto with fuel|]. eapply terminates_fork_all; [exact Hs1|exact Hargs'|..].
  { rewrite Ecas. intros E. by apply Hmem. }
  { intros Hoom. destruct T1 as [es Hr]. exact (He (out_of_memory_ran _ _ _ Hr Hoom)). }
  2: { intros st w2 Hp. apply terminates_wp, wp_ret. destruct Hp as [->|Hp]; [by left|right].
       by eapply process_ended_args. }
  intros w2 Hs2 T2. apply terminates_wp, wp_bind. eapply wp_wait_all; [exact Hs2|].
  intros rs rc failing w3 Hs3 Hr3 Hn Hrs. apply wp_bind.
  apply (wp_mono _ (λ (failed : bool) w', sys_inv w' others ∧ ∃ es, ran es w3 w' ∧
    (ta_atomic_cas args = true → counted args processes (negb failed) es) ∧
    (ta_atomic_cas args = false → failed = false))).
  - intros failed w4 (Hs4 & es & Hr4 & Hc & Hn4).
    assert (∀ rc' w5, quiet w4 w5 → (if negb failed then rc' = rc else rc' = -1) →
      wp (mret (Returned rc')) (tests_ended w others args processes) w5) as Hend.
    { intros rc' w5 Hq Erc. apply wp_ret. split; [by eapply sys_inv_quiet|right]. exists w2, w3, rs, es.
      split_and!; [by etrans|done|by eapply ran_quiet_r|done|]. exists (negb failed).
      split_and!; [done|by intros E; rewrite (Hn4 E)|]. destruct failed; simpl in *; [done|].
      intros Hp. apply Hrs in Hp as [-> _]. lia. }
    destruct failed; [by apply Hend|]. apply wp_bind.
    destruct (c_bool rc); [apply wp_fprintf_stderr|apply wp_printf]; try done; intros w5 Hq; by apply Hend.
  - rewrite Ecas. destruct (ta_atomic_cas args);
      [|apply wp_ret; split; [done|]; exists []; by split_and!; [apply ran_refl|..]].
    apply wp_bind. eapply wp_check_counter; [exact Hs3|by apply Hmem|rewrite Eloop; by apply Hfit|].
    intros right es w4 Hs4 Hr4 Hc. destruct right; simpl; cycle 1.
    { apply wp_ret. split; [done|]. exists es. split_and!; [done|by intros _; apply Hcnt|done]. }
    apply wp_bind. eapply wp_shm_destroy; [exact Hs4|]. intros w5 Hs5 [es5 Hr5].
    apply wp_ret. split; [done|]. exists (es ++ es5). split_and!; [by eapply ran_trans| |done]. intros _.
    destruct (Hcnt _ _ Hc) as (addr & bs & es' & -> & E). by exists addr, bs, (es' ++ es5).
Qed.

Lemma wp_test_global_setup junk args w others Q :
  sys_inv w others → (∀ w', Q true w') → (∀ w', sys_inv w' others → Q false w') →
  wp (test_global_setup junk args) Q w.
Proof.
  intros Hs Hfail Hok. apply wp_bind. eapply wp_sys_call; [exact Hs|done|done|done|]. intros pid w1 Hs1 _.
  assert (∀ fmt z w', conforms ("Process %d: " +:+ fmt +:+ newline) [AInt pid; AInt z] = true →
    wp (TLOG_ERR pid fmt [AInt z] ;; mret true) Q w') as Hbad.
  { intros fmt z w' Hc. apply wp_bind, wp_TLOG_ERR; [done|]. intros w2 _. apply wp_ret, Hfail. }
  apply wp_bind. eapply wp_open_afu; [exact Hs1|intros err w2 He _; rewrite He; by apply Hbad|].
  intros p a w2 Hcl2 Hp Htab _. cbv iota beta. cbn [is_ok negb].
  apply wp_bind. eapply wp_client_map; [exact Hcl2|by rewrite (client_no_areas _ _ _ _ _ Hcl2)|
    intros err w3 He _; rewrite He; by apply Hbad|].
  intros a3 i x areas w3 Hcl3 Hx _ _ _. cbv iota beta. cbn [is_ok negb]. apply wp_bind, wp_ret.
  apply wp_bind. eapply wp_client_read64; [exact Hcl3|exact Hx|by vm_compute|]. intros bs w4 Hcl4 _. cbv iota beta.
  apply wp_bind, wp_TLOG_INF; [done|]. intros w5 Hq5.
  apply wp_bind. eapply wp_client_write64; [by eapply client_quiet|exact Hx|by vm_compute|]. intros w6 Hcl6 _.
  destruct (is_ok _); simpl; [|by apply Hbad].
  apply wp_bind. eapply wp_client_write64; [exact Hcl6|exact Hx|by vm_compute|]. intros w7 Hcl7 _.
  destruct (is_ok _); simpl; [|by apply Hbad].
  apply wp_bind, wp_TLOG_INF; [done|]. intros w8 Hq8.
  apply wp_bind. eapply wp_client_close; [by eapply client_quiet|exact Hp|]. intros w9 Hs9. by apply wp_ret, Hok.
Qed.

(** The values the options leave, before the checks. *)
Definition opt_values (os : list opt) (args : test_args) (processes : Z) : test_args * Z :=
  foldl (λ '(args, processes) o,
    (apply_opt o args, if Ascii.eqb (opt_char o) "p" then atoi (default "" (opt_arg o)) else processes))
    (args, processes) os.

Lemma wp_test_parse_opts name os args processes w (Q : option (test_args * Z) → world K → Prop) :
  (∀ w', quiet w w' → Q None w') → (∀ w', quiet w w' → Q (Some (opt_values os args processes)) w') →
  wp (test_parse_opts name os args processes) Q w.
Proof.
  revert args processes w. induction os as [|o os IH]; intros args processes w Hstop Hgo; simpl; [by apply wp_ret, Hgo|].
  apply wp_bind.
  assert (∀ Q', (∀ w', quiet w w' → Q' tt w') →
    wp (match opt_diag o with Some text => call (SStderr text) | None => mret tt end) Q' w) as Hdiag.
  { intros Q' HQ'. destruct (opt_diag o); [|by apply wp_ret, HQ']. apply wp_call_silent; [done|]. intros []. apply HQ'. }
  apply Hdiag. intros w1 Hq1. destruct (_ || _).
  - apply wp_bind, wp_bind, wp_print_lines. intros w2 Hq2. apply wp_ret, wp_ret, Hstop. by etrans.
  - apply IH; [intros w2 Hq2; apply Hstop; by etrans|intros w2 Hq2; apply Hgo; by etrans].
Qed.

(** The arguments the tests run with. *)
Definition final_args (os : list opt) : test_args * Z :=
  let '(args, processes) := opt_values os initial_test_args 1 in
  let processes := if processes =? 0 then AFU_MAX_PROCESSES else processes in
  (default_timeout processes args, processes).

Lemma terminates_test_main ft junk name argv w others args processes :
  sys_inv w others → final_args (getopt name test_optstring argv).1 = (args, processes) → targs_ok args →
  (ta_atomic_cas args = true → - 2 ^ 31 <= processes * ta_loop_count args < 2 ^ 31) → (out_of_memory w → excuse) →
  terminates (λ fuel, test_main ft fuel junk name argv)
    (λ e w', ∃ w0, since w w0 ∧ tests_ended w0 others args processes e w') w.
Proof.
  intros Hs. unfold test_main, final_args. destruct (getopt name test_optstring argv) as [os rest]. cbn [fst].
  destruct (opt_values os initial_test_args 1) as [args0 processes0] eqn:Eo. intros [= <- <-] Hargs Hfit He.
  assert (∀ w', terminates (λ _ : nat, test_usage name) (λ e w', ∃ w0, since w w0 ∧ tests_ended w0 others
    (default_timeout (if processes0 =? 0 then AFU_MAX_PROCESSES else processes0) args0)
    (if processes0 =? 0 then AFU_MAX_PROCESSES else processes0) e w') w') as Husage.
  { intros w'. apply terminates_wp, wp_bind, wp_print_lines. intros w2 _. apply wp_ret. exists w.
    split; [reflexivity|by left]. }
  apply terminates_bind_wp, wp_test_parse_opts.
  { intros w1 _. apply terminates_wp, wp_ret. exists w. split; [reflexivity|by left]. }
  intros w1 Hq1. rewrite Eo. cbv iota zeta. set (processes := if processes0 =? 0 then _ else _) in *.
  set (args := default_timeout processes args0) in *. clearbody args processes.
  pose proof (sys_inv_quiet _ _ _ Hs Hq1) as Hs1.
  destruct rest as [|arg rest]; [|apply terminates_bind_wp, wp_fprintf_stderr; [done|]; intros w2 _; apply Husage].
  destruct (conflict args); [apply terminates_bind_wp, wp_fprintf_stderr; [done|]; intros w2 _; apply Husage|].
  destruct (_ || _) eqn:Esz.
  { apply terminates_wp, wp_bind, wp_fprintf_stderr; [done|]. intros w2 Hq2. apply wp_ret. exists w.
    split; [reflexivity|]. split; [by eapply sys_inv_quiet|left]. split; [done|].
    unfold c_bool in Esz. apply orb_true_iff in Esz as [E%Z.ltb_lt|E%negb_true_iff%Z.eqb_neq]; auto. }
  apply terminates_bind_wp, wp_since; [unfold test_global_setup, open_afu, ocxl_afu_open, ocxl_mmio_map, stored_in,
    TLOG_ERR, TLOG_INF, printf; traced|].
  eapply wp_test_global_setup; [exact Hs1|..].
  - intros w2 _. apply terminates_wp, wp_ret. exists w. split; [reflexivity|by left].
  - intros w2 Hs2 T2. assert (since w w2) as T by (etrans; [by apply since_quiet|exact T2]).
    eapply terminates_mono; [|apply terminates_run_tests; [exact Hs2|exact Hargs|exact Hfit|]].
    + intros e w' Hend. by exists w2.
    + intros Hoom. destruct T as [es Hr]. exact (He (out_of_memory_ran _ _ _ Hr Hoom)).
Qed.

End process.
