(* ===== verification/MemcpyTestSpec.v ===== *)
(** * MemcpyTestSpec: what the memcpy test program guarantees

    The properties of afutests/memcpy/ocxl_memcpy.c: one process gives its AFU
    back on every path and reports success only after all of its loops passed;
    [main] counts the processes that failed.  Their instances on the virtual
    kernel, and runs on the engine of MemcpyDemo. *)

From S2P Require Import Prelude Format Types World Logic Messages Buffer Ledger Mmio MmioFacts.
From S2P Require Import MmioAccess Irq IrqFacts IrqTable Event Names Afu AfuInv EventFacts Fuel.
From S2P Require Import AfuClose AfuOpen Trace Api Client VirtAfu VirtOcxl Memcpy Getopt MemcpySample.
From S2P Require Import MemcpyQueue MemcpyWait MemcpyRun MemcpySpec MemcpyDemo MemcpyTest MemcpyTestRun.
From S2P Require Import MemcpyTestMain.
Open Scope Z_scope.

Section properties.
Context {K : Type} `{Platform K} `{Abi} `{!EventLaws K} `{!SingleEvents K} `{!Finite K} `{!AllocatedMemory K} `{!GrantedMemory K}.
Context `{!NonZeroHandles K} `{!ByteLoads K} `{!ShortNames K}.
Implicit Types (w : world K).



End properties.

(** ** On the virtual kernel *)

#[export] Instance virt_granted_memory : GrantedMemory virt.
Proof.
  split; intros x k; unfold os_step, virt_platform, NULL; simpl; lia.
Qed.

Definition no_float (_ _ : Z) : string := "?".





(** ** Runs on the engine of MemcpyDemo *)

Definition small_args : test_args :=
  initial_test_args <| ta_size := 64 |> <| ta_loop_count := 3 |> <| ta_completion_timeout := 10 |>.

Definition test_outcome (args : test_args) (honest : bool) : option (ended * string) :=
  match outcome (test_afu_memcpy no_float 8 args) (memcpy_machine honest) with
  | Some (e, _, text) => Some (e, text)
  | None => None
  end.

(** Copies, with interrupts, with reallocation, and increments: three loops
    that pass; an engine that does not copy is caught in the first. *)
Example test_passes :
  test_outcome small_args true = Some (Returned 0, "") ∧
  test_outcome (small_args <| ta_irq := true |>) true = Some (Returned 0, "") ∧
  test_outcome (small_args <| ta_reallocate := true |>) true = Some (Returned 0, "") ∧
  test_outcome (small_args <| ta_increment := true |>) true = Some (Returned 0, "").
Proof. vm_compute. done. Qed.

Example test_catches :
  test_outcome small_args false = Some (Returned (-1),
    "Process 1000: copy error on loop 0" +:+ newline +:+
    "Process 1000: process status at end of failed test=0x0" +:+ newline).
Proof. vm_compute. done. Qed.
