(* ===== verification/GetoptLong.v ===== *)
(** * GetoptLong: [getopt_long] and [strtoul]

    What the programs of afutests/afp use of the C library: [getopt_long] of
    the GNU library with its permutation of arguments (POSIXLY_CORRECT is not
    set), abbreviated long options and diagnostics, [strtoul] with the base
    taken from the prefix, and [strcasecmp]. *)

From S2P Require Import Prelude Format Types World Logic Messages Names Getopt.
Open Scope Z_scope.

(** ** getopt_long *)

(** [struct option]: [lo_flag] when [flag] is not null, and the option then
    stores 1 there and answers 0. *)
Record long_option : Type := mk_long { lo_name : string; lo_arg : bool; lo_flag : bool; lo_val : ascii }.

(** What [getopt_long] answers for a long option. *)
Definition lo_char (o : long_option) : ascii := if lo_flag o then Ascii.zero else lo_val o.

(** The name and what is behind the first [=]. *)
Fixpoint split_eq (s : string) : string * option string :=
  match s with
  | EmptyString => (EmptyString, None)
  | String c s' =>
      if Ascii.eqb c "=" then (EmptyString, Some s')
      else let '(name, value) := split_eq s' in (String c name, value)
  end.

Definition diagnosed (text : string) : opt := mk_opt "?" None (Some (text +:+ newline)).

Definition unrecognized (name s : string) : opt := diagnosed (name +:+ ": unrecognized option '--" +:+ s +:+ "'").

Definition ambiguous (name s : string) (os : list long_option) : opt :=
  diagnosed (name +:+ ": option '--" +:+ s +:+ "' is ambiguous; possibilities:" +:+
             foldr (λ o text, " '--" +:+ lo_name o +:+ "'" +:+ text) "" os).

Definition no_argument_allowed (name : string) (o : long_option) : opt :=
  diagnosed (name +:+ ": option '--" +:+ lo_name o +:+ "' doesn't allow an argument").

Definition argument_required (name : string) (o : long_option) : opt :=
  diagnosed (name +:+ ": option '--" +:+ lo_name o +:+ "' requires an argument").

(** The options [key] may stand for: the one of that name, or else those it
    abbreviates. *)
Definition long_found (longs : list long_option) (key : string) : list long_option :=
  match List.filter (λ o, String.eqb (lo_name o) key) longs with
  | o :: _ => [o]
  | [] => List.filter (λ o, String.prefix key (lo_name o)) longs
  end.

(** The option [--s]; [inr] when it wants the next argument. *)
Definition long_match (name : string) (longs : list long_option) (s : string) : opt + long_option :=
  let '(key, value) := split_eq s in
  match long_found longs key with
  | [] => inl (unrecognized name s)
  | [o] =>
      match lo_arg o, value with
      | true, Some v => inl (mk_opt (lo_char o) (Some v) None)
      | true, None => inr o
      | false, Some _ => inl (no_argument_allowed name o)
      | false, None => inl (mk_opt (lo_char o) None None)
      end
  | _ => inl (ambiguous name s (long_found longs key))
  end.

(** The options of [argv[1..]].  Arguments that are no options are passed
    over; [want] is an option that waits for its argument. *)
Fixpoint getopt_long (name optstring : string) (longs : list long_option) (want : option (ascii + long_option))
    (args : list string) : list opt :=
  match want, args with
  | Some (inl c), [] => [missing_argument name c]
  | Some (inr o), [] => [argument_required name o]
  | Some (inl c), a :: args => mk_opt c (Some a) None :: getopt_long name optstring longs None args
  | Some (inr o), a :: args => mk_opt (lo_char o) (Some a) None :: getopt_long name optstring longs None args
  | None, [] => []
  | None, a :: args =>
      match a with
      | String "-" (String c letters) =>
          if String.eqb a "--" then [] else
          if Ascii.eqb c "-" then
            match long_match name longs letters with
            | inl o => o :: getopt_long name optstring longs None args
            | inr o => getopt_long name optstring longs (Some (inr o)) args
            end
          else
          let '(os, want) := opt_letters name optstring (String c letters) in
          os ++ getopt_long name optstring longs (inl <$> want) args
      | _ => getopt_long name optstring longs None args
      end
  end.

Example getopt_long_mixed :
  let longs := [mk_long "tags_ld" true false "a"; mk_long "tags_st" true false "b"; mk_long "verbose" false true "v"] in
  getopt_long "afp" "avhc:d:" longs None ["--tags_l=3"; "x"; "--verb"; "-d"; "dev"; "--tags_st"; "0x10"; "--tag"; "1"; "--"; "-a"] =
  [mk_opt "a" (Some "3") None; mk_opt Ascii.zero None None; mk_opt "d" (Some "dev") None; mk_opt "b" (Some "0x10") None;
   mk_opt "?" None (Some ("afp: option '--tag' is ambiguous; possibilities: '--tags_ld' '--tags_st'" +:+ newline))].
Proof. reflexivity. Qed.

(** An option that takes an argument comes with one. *)
Definition has_arg (c : ascii) (o : opt) : Prop := opt_char o = c → is_Some (opt_arg o).

Section arguments.
Context (name optstring : string) (longs : list long_option) (c : ascii).
Context (Hshort : opt_kind optstring c ≠ Some false) (Hq : c ≠ "?"%char).
Context (Hlong : Forall (λ o, lo_char o = c → lo_arg o = true) longs).

Lemma opt_letters_args letters : Forall (has_arg c) (opt_letters name optstring letters).1.
Proof.
  induction letters as [|d letters IH]; simpl; [constructor|].
  destruct (opt_letters name optstring letters) as [os want].
  destruct (opt_kind optstring d) as [[]|] eqn:E; simpl.
  - destruct letters; repeat constructor. by exists (String a letters).
  - constructor; [|exact IH]. intros E'. simpl in E'. by subst d.
  - constructor; [|exact IH]. intros E'. by destruct Hq.
Qed.

Lemma long_match_args s o : long_match name longs s = inl o → has_arg c o.
Proof.
  unfold long_match. destruct (split_eq s) as [key value].
  assert (∀ x, In x (long_found longs key) → In x longs) as Hin.
  { intros x. unfold long_found. destruct (List.filter _ longs) as [|y l] eqn:E.
    - rewrite List.filter_In. tauto.
    - intros [<-|[]]. assert (In y (y :: l)) as Hy by (by left). rewrite <-E, List.filter_In in Hy. tauto. }
  destruct (long_found longs key) as [|x [|y l]]; [intros [= <-] E; by destruct Hq| |intros [= <-] E; by destruct Hq].
  assert (lo_char x = c → lo_arg x = true) as Hx.
  { rewrite List.Forall_forall in Hlong. apply Hlong, Hin. by left. }
  destruct (lo_arg x) eqn:Ea, value as [v|]; intros [= <-]; [by exists v|intros E; by destruct Hq|].
  intros E. simpl in E. by specialize (Hx E).
Qed.

Lemma getopt_long_args want args : Forall (has_arg c) (getopt_long name optstring longs want args).
Proof.
  revert want. induction args as [|a args IH]; intros want; cbn [getopt_long].
  { destruct want as [[d|o]|]; repeat constructor; intros E; by destruct Hq. }
  destruct want as [[d|o]|]; [constructor; [by eexists|apply IH]..|].
  destruct a as [|d a]; [apply IH|]. destruct (Ascii.eqb_spec d "-") as [->|Hd].
  2: { assert (∀ A (x y : A), match d with "-"%char => x | _ => y end = y) as Hm.
       { intros A x y. destruct d as [[] [] [] [] [] [] [] []]; first [reflexivity|by destruct Hd]. }
       rewrite Hm. apply IH. }
  destruct a as [|e a]; [apply IH|]. destruct (String.eqb _ _); [constructor|].
  destruct (Ascii.eqb e "-").
  - destruct (long_match name longs a) as [o|o] eqn:E; [|apply IH]. constructor; [by eapply long_match_args|apply IH].
  - pose proof (opt_letters_args (String e a)) as Hl. destruct (opt_letters name optstring (String e a)) as [os want].
    apply Forall_app. by split; [|apply IH].
Qed.

End arguments.

(** ** strtoul *)

(** The digits of a number whose base its prefix tells. *)
Definition octal_val (c : ascii) : option Z :=
  let n := Z.of_nat (nat_of_ascii c) in if (48 <=? n) && (n <=? 55) then Some (n - 48) else None.

Fixpoint scan_octal (s : string) (acc : Z) : Z :=
  match s with
  | String c s' => match octal_val c with Some d => scan_octal s' (8 * acc + d) | None => acc end
  | EmptyString => acc
  end.

Definition scan_any (s : string) : Z :=
  match s with
  | String "0" (String x rest) =>
      match rest with
      | String d _ =>
          if (Ascii.eqb x "x" || Ascii.eqb x "X") && is_digit 16 d then (scan_digits 16 rest 0).1 else scan_octal s 0
      | EmptyString => scan_octal s 0
      end
  | _ => (scan_digits 10 s 0).1
  end.

(** [strtoul(s, NULL, 0)]: a value that does not fit is ULONG_MAX, a negative
    one is converted. *)
Definition strtoul (s : string) : Z :=
  let '(negative, s) := scan_sign (skip_space s) in
  let v := scan_any s in
  if 2 ^ 64 <=? v then 2 ^ 64 - 1 else if negative then u64 (- v) else v.

Example strtoul_bases :
  strtoul "0x1F" = 31 ∧ strtoul "017" = 15 ∧ strtoul " 42k" = 42 ∧ strtoul "-1" = 2 ^ 64 - 1 ∧ strtoul "0xg" = 0 ∧ strtoul "" = 0.
Proof. by vm_compute. Qed.

Lemma digit_val_nonneg base c d : digit_val base c = Some d → 0 <= d.
Proof. unfold digit_val. repeat case_match; intros [= <-]; lia. Qed.

Lemma octal_val_nonneg c d : octal_val c = Some d → 0 <= d.
Proof. unfold octal_val. case_match; intros [= <-]; lia. Qed.

Lemma scan_digits_nonneg base s acc : 0 <= base → 0 <= acc → 0 <= (scan_digits base s acc).1.
Proof.
  intros Hb. revert acc. induction s as [|c s IH]; intros acc Ha; simpl; [done|].
  destruct (digit_val base c) as [d|] eqn:E; [|done]. apply digit_val_nonneg in E. apply IH. nia.
Qed.

Lemma scan_octal_nonneg s acc : 0 <= acc → 0 <= scan_octal s acc.
Proof.
  revert acc. induction s as [|c s IH]; intros acc Ha; simpl; [done|].
  destruct (octal_val c) as [d|] eqn:E; [|done]. apply octal_val_nonneg in E. apply IH. lia.
Qed.

(** A result of [strtoul] is an unsigned long. *)
Lemma strtoul_bounds s : 0 <= strtoul s < 2 ^ 64.
Proof.
  unfold strtoul. destruct (scan_sign _) as [negative s'].
  assert (0 <= scan_any s').
  { unfold scan_any. repeat case_match; subst; try (by apply scan_digits_nonneg); by apply scan_octal_nonneg. }
  destruct (Z.leb_spec (2 ^ 64) (scan_any s')); [lia|]. destruct negative; [|lia].
  unfold u64, uwrap. apply Z.mod_pos_bound. lia.
Qed.

(** ** strcasecmp *)

Definition lower (c : ascii) : ascii :=
  let n := nat_of_ascii c in if (65 <=? n)%nat && (n <=? 90)%nat then ascii_of_nat (n + 32) else c.

(** [!strcasecmp(a, b)] *)
Fixpoint same_nocase (a b : string) : bool :=
  match a, b with
  | EmptyString, EmptyString => true
  | String c a, String d b => Ascii.eqb (lower c) (lower d) && same_nocase a b
  | _, _ => false
  end.

Example nocase : same_nocase "512k" "512K" = true ∧ same_nocase "4M" "4K" = false. Proof. done. Qed.
