(* ===== verification/Afp.v ===== *)
(** * Afp: afutests/afp/ocxl_afp3.c

    The bandwidth measurement on the AFP AFU: the program starts the AFU with
    a work element descriptor that packs the sizes and numbers of tags, reads
    its performance counters at intervals and prints their differences, and
    stops it.  Floating-point values are only printed: their texts are
    parameters, functions of the integers they are computed from. *)

From S2P Require Import Prelude Format Types World Logic Messages Buffer Mmio Irq Event Afu.
From S2P Require Import Getopt GetoptLong Memcpy MemcpySample.
Open Scope Z_scope.

(** ** ocxl_afp3.h *)

Definition AFUExtraReadEA_AFP_REGISTER : Z := 0x0038.
Definition AFUWED_AFP_REGISTER : Z := 0x0040.
Definition AFUBufmask_AFP_REGISTER : Z := 0x0048.
Definition AFUPASID_AFP_REGISTER : Z := 0x0050.
Definition AFUMisc_AFP_REGISTER : Z := 0x0058.
Definition AFUEnable_AFP_REGISTER : Z := 0x0060.
Definition AFUControl_AFP_REGISTER : Z := 0x0068.

(** [AFUPerfCnt0_AFP_REGISTER] to [AFUPerfCnt7_AFP_REGISTER] *)
Definition AFUPerfCnt_AFP_REGISTERS : list Z := [0x00C0; 0x00C8; 0x00D0; 0x00D8; 0x00E0; 0x00E8; 0x00F0; 0x00F8].

(** ** Constants and variables of ocxl_afp3.c *)

Definition AFP_NAME : string := "IBM,AFP3".
Definition BUF_4MB : Z := 4194304.
Definition enableAfu : Z := 0x8000000000000000.
Definition disableAfu : Z := 0x0000000000000000.
Definition resetCnt : Z := 0x4000000000000000.
Definition npu_ld : Z := 0.
Definition npu_st : Z := 0.

Record afp3_vars : Type := mk_afp3 {
  av_verbose : bool;
  av_tags_ld : Z;
  av_tags_st : Z;
  av_size_ld : Z;
  av_size_st : Z;
  av_numLoops : Z;
  av_waitTime : Z;
  av_offsetmask : Z;
  av_prefetch : bool;
  av_device : option string
}.

#[export] Instance eta_afp3_vars : Eta afp3_vars := fun v =>
  mk_afp3 (av_verbose v) (av_tags_ld v) (av_tags_st v) (av_size_ld v) (av_size_st v) (av_numLoops v)
    (av_waitTime v) (av_offsetmask v) (av_prefetch v) (av_device v).

Definition initial_afp3 : afp3_vars := mk_afp3 false 0 7 128 128 3 2 0x3FF false None.

Definition afp3_options : list long_option :=
  [mk_long "tags_ld" true false "a"; mk_long "tags_st" true false "b"; mk_long "size_ld" true false "y";
   mk_long "size_st" true false "z"; mk_long "num" true false "n"; mk_long "wait" true false "w";
   mk_long "prefetch" false false "p"; mk_long "offsetmask" true false "o"; mk_long "verbose" false true Ascii.zero;
   mk_long "help" false false "h"; mk_long "device" true false "d"].

Definition afp3_optstring : string := "avhc:d:".

(** The sizes [--offsetmask] accepts. *)
Definition offset_sizes : list (string * Z) :=
  [("4K", 0x00); ("8K", 0x01); ("16K", 0x03); ("32K", 0x07); ("64K", 0x0F); ("128K", 0x1F); ("256K", 0x3F);
   ("512K", 0x7F); ("1M", 0xFF); ("2M", 0x1FF); ("4M", 0x3FF); ("8M", 0x7FF); ("16M", 0xFFF); ("32M", 0x1FFF);
   ("64M", 0x3FFF); ("128M", 0x7FFF); ("256M", 0xFFFF); ("512M", 0x1FFFF); ("1G", 0x3FFFF); ("2G", 0x7FFFF);
   ("4G", 0xFFFFF)].

(** [size_enc_ld], [size_enc_st] *)
Definition size_enc (size : Z) : option Z :=
  if size =? 64 then Some 1 else if size =? 128 then Some 2 else if size =? 256 then Some 3 else None.

(** A line of the table: its text, and the bytes an event stands for. *)
Definition counter_lines : list (string * Z) :=
  [("Total Cycles    ", 1); ("Good Resp Total ", 64); ("Good Resp Load  ", 64); ("Good Resp Store ", 64);
   ("Retries - Total ", 64); ("Retries - Loads ", 64); ("Retries - Store ", 64); ("No cred cycles  ", 1)].

Section afp.
Context {K : Type} `{Platform K} `{Abi}.
Implicit Types (w : world K).

(** ** Common to the two programs *)

Fixpoint printf_all (lines : list (string * list arg)) : M K unit :=
  match lines with
  | [] => mret tt
  | (fmt, args) :: lines => printf fmt args ;; printf_all lines
  end.

(** [if (err != OCXL_OK) { fprintf(stderr, fmt, err); return err; }] *)
Definition or_return (fmt : string) (err : ocxl_err) (k : M K ended) : M K ended :=
  if is_ok err then k else
  fprintf_stderr fmt [AInt (ocxl_err_code err)] ;;
  mret (Returned (ocxl_err_code err)).

(** A write to a register, or [return err]. *)
Definition write_reg (fmt : string) (h : ocxl_mmio_h) (reg v : Z) (k : M K ended) : M K ended :=
  err ← ocxl_mmio_write64 h reg OCXL_MMIO_LITTLE_ENDIAN v; or_return fmt err k.

(** [strtoul(optarg, NULL, 0)] *)
Definition ulong_arg (o : opt) : M K Z :=
  match opt_arg o with Some a => mret (strtoul a) | None => undefined end.

Definition print_diag (o : opt) : M K unit :=
  match opt_diag o with Some text => call (SStderr text) | None => mret tt end.

(** Opening, attaching and mapping the global area, common to both programs. *)
Definition open_afp (device : option string) (verbose : bool) (map_fmt : string) (k : ptr → ocxl_mmio_h → M K ended) :
    M K ended :=
  when verbose (printf ("Calling ocxl_afu_open" +:+ newline) []) ;;
  '(err, afu_h) ←
    match device with Some path => ocxl_afu_open_from_dev path | None => ocxl_afu_open AFP_NAME end;
  if negb (is_ok err) then
    fprintf_stderr ("ocxl_afu_open() failed for %s, error %d" +:+ newline)
      [AStr (default AFP_NAME device); AInt (ocxl_err_code err)] ;;
    mret (Returned (ocxl_err_code err))
  else
  when verbose (printf ("Calling ocxl_afu_attach" +:+ newline) []) ;;
  err ← ocxl_afu_attach afu_h 0;
  or_return "ocxl_afu_attach: %d" err (
  '(err, global) ← ocxl_mmio_map afu_h OCXL_GLOBAL_MMIO;
  or_return map_fmt err (
  global ← stored_in global;
  k afu_h global)).

(** ** ocxl_afp3 *)

Definition afp3_help_lines (name : string) (v : afp3_vars) : list (string * list arg) :=
  [("Usage: %s [ options ]" +:+ newline, [AStr name]);
   (tab +:+ "--tags_ld   " +:+ tab +:+ "Number of tags for loads.  Default=%d" +:+ newline, [AInt (av_tags_ld v)]);
   (tab +:+ "--tags_st   " +:+ tab +:+ "Number of tags for stores.  Default=%d" +:+ newline, [AInt (av_tags_st v)]);
   (tab +:+ "            " +:+ tab +:+ " 0 -   0 tags (disabled)" +:+ newline, []);
   (tab +:+ "            " +:+ tab +:+ " 1 -   1 tag" +:+ newline, []);
   (tab +:+ "            " +:+ tab +:+ " 2 -   2 tags" +:+ newline, []);
   (tab +:+ "            " +:+ tab +:+ " 3 -   4 tags" +:+ newline, []);
   (tab +:+ "            " +:+ tab +:+ " 4 -  16 tags" +:+ newline, []);
   (tab +:+ "            " +:+ tab +:+ " 5 -  64 tags" +:+ newline, []);
   (tab +:+ "            " +:+ tab +:+ " 6 - 256 tags" +:+ newline, []);
   (tab +:+ "            " +:+ tab +:+ " 7 - 512 tags" +:+ newline, []);
   (tab +:+ "--size_ld   " +:+ tab +:+ "Data size, in Bytes, for loads.   Supported values: 64, 128, 256.  Default=%d" +:+
    newline, [AInt (av_size_ld v)]);
   (tab +:+ "--size_st   " +:+ tab +:+ "Data size, in Bytes, for stores.  Supported values: 64, 128, 256.  Default=%d" +:+
    newline, [AInt (av_size_st v)]);
   (tab +:+ "--npu_ld    " +:+ tab +:+ "Use rd_wnitc.n for loads.  Default is rd_wnitc" +:+ newline, []);
   (tab +:+ "--npu_st    " +:+ tab +:+ "Use dma_w.n for stores.  Default is dma_w" +:+ newline, []);
   (tab +:+ "--num       " +:+ tab +:+ "Number of times to check perf counts, default is %d" +:+ newline,
    [AInt (av_numLoops v)]);
   (tab +:+ "--wait      " +:+ tab +:+ "Amount of seconds to wait between perf count reads, default is %d" +:+ newline,
    [AInt (av_waitTime v)]);
   (tab +:+ "--prefetch  " +:+ tab +:+ "Initialize buffer memory" +:+ newline, []);
   (tab +:+ "--offsetmask" +:+ tab +:+ "Determines how much of buffer to use.  Default 512kB.  Valid Range: 4K-512M." +:+
    "  Format: NumberLetter, e.g. 4K, 512K, 1M, 512M" +:+ newline, []);
   (tab +:+ "--device    " +:+ tab +:+ "Device to open instead of first AFP AFU found" +:+ newline, []);
   (tab +:+ "--verbose   " +:+ tab +:+ "Verbose output" +:+ newline, []);
   (tab +:+ "--help      " +:+ tab +:+ "Print this message" +:+ newline, []);
   (newline, [])].

Definition afp3_help (name : string) (v : afp3_vars) : M K unit := printf_all (afp3_help_lines name v).

(** [case 'o']: [inl] the value [main] returns. *)
Definition set_offsetmask (name : string) (o : opt) (v : afp3_vars) : M K (Z + afp3_vars) :=
  match opt_arg o with
  | None => undefined
  | Some arg =>
      match find (λ x, same_nocase arg x.1) offset_sizes with
      | None =>
          fprintf_stderr ("Illegal value entered for --offsetmask argument = 0x%lx  Must be string: 4K-512M" +:+ newline)
            [AInt (av_offsetmask v)] ;;
          afp3_help name v ;;
          mret (inl (-1))
      | Some (_, mask) =>
          when (0x3FF <? mask)
            (printf ("Warning: offsetmask is bigger than the 4MB memory buffer allocated by this app" +:+ newline) []) ;;
          mret (inr (v <| av_offsetmask := mask |>))
      end
  end.

(** One turn of the loop over the options. *)
Definition afp3_option (name : string) (o : opt) (v : afp3_vars) : M K (Z + afp3_vars) :=
  let c := opt_char o in
  let set (f : Z → afp3_vars) := x ← ulong_arg o; mret (inr (f x)) in
  if Ascii.eqb c Ascii.zero then mret (inr (v <| av_verbose := true |>))
  else if Ascii.eqb c "v" then mret (inr v)
  else if Ascii.eqb c "a" then set (λ x, v <| av_tags_ld := s32 x |>)
  else if Ascii.eqb c "b" then set (λ x, v <| av_tags_st := s32 x |>)
  else if Ascii.eqb c "y" then set (λ x, v <| av_size_ld := s32 x |>)
  else if Ascii.eqb c "z" then set (λ x, v <| av_size_st := s32 x |>)
  else if Ascii.eqb c "n" then set (λ x, v <| av_numLoops := u16 x |>)
  else if Ascii.eqb c "w" then set (λ x, v <| av_waitTime := u16 x |>)
  else if Ascii.eqb c "p" then mret (inr (v <| av_prefetch := true |>))
  else if Ascii.eqb c "o" then set_offsetmask name o v
  else if Ascii.eqb c "d" then mret (inr (v <| av_device := opt_arg o |>))
  else if Ascii.eqb c "h" then afp3_help name v ;; mret (inl 0)
  else afp3_help name v ;; mret (inl (-1)).

Fixpoint afp3_parse (name : string) (os : list opt) (v : afp3_vars) : M K (Z + afp3_vars) :=
  match os with
  | [] => mret (inr v)
  | o :: os =>
      print_diag o ;;
      r ← afp3_option name o v;
      match r with inl rc => mret (inl rc) | inr v => afp3_parse name os v end
  end.

(** The work element descriptor: terms of type [int] added to the address. *)
Definition wed_of (buffer tags_ld enc_ld tags_st enc_st : Z) : M K Z :=
  ld ← int_mul tags_ld 512;
  st ← int_mul tags_st 8;
  mret (u64 (buffer + ld + enc_ld * 128 + npu_ld * 64 + st + enc_st * 2 + npu_st)).

(** The counters, in order, or the value [main] returns. *)
Fixpoint read_counts (global : ocxl_mmio_h) (regs : list Z) : M K (Z + list Z) :=
  match regs with
  | [] => mret (inr [])
  | reg :: regs =>
      '(err, count) ← ocxl_mmio_read64 global reg OCXL_MMIO_LITTLE_ENDIAN;
      if negb (is_ok err) then
        fprintf_stderr "ocxl_mmio_read64: %d" [AInt (ocxl_err_code err)] ;;
        mret (inl (ocxl_err_code err))
      else
      count ← stored_in count;
      rest ← read_counts global regs;
      match rest with inl rc => mret (inl rc) | inr counts => mret (inr (count :: counts)) end
  end.

(** The texts of the floating-point columns: [bw_cnt], [bpc_tb_cnt] and
    [bw_tb_cnt], from the bytes per event, the difference of the counter, and
    the microseconds or cycles elapsed. *)
Variables bw_text bpc_text bw_tb_text : Z → Z → Z → string.

Fixpoint print_counts (usecs cycles : Z) (lines : list (string * Z)) (counts prev : list Z) : M K unit :=
  match lines, counts, prev with
  | (text, scale) :: lines, count :: counts, count_prev :: prev =>
      let delta := u64 (count - count_prev) in
      printf (text +:+ "%016lx %016lx %016lx %s %s %s" +:+ newline)
        [AInt count; AInt count_prev; AInt delta; AStr (bw_text scale delta usecs);
         AStr (bpc_text scale delta cycles); AStr (bw_tb_text scale delta cycles)] ;;
      print_counts usecs cycles lines counts prev
  | _, _, _ => printf newline []
  end.

(** The loop of the measurement, [n] times; [Some] the value [main] returns. *)
Fixpoint measure (n : nat) (global : ocxl_mmio_h) (waitTime : Z) (prev : list Z) (t_prev : timeval) : M K (option Z) :=
  match n with
  | O => mret None
  | S n =>
      t ← gettimeofday;
      r ← read_counts global AFUPerfCnt_AFP_REGISTERS;
      match r with
      | inl rc => mret (Some rc)
      | inr counts =>
          let usecs := (t.1 - t_prev.1) * 1000000 + t.2 - t_prev.2 in
          let cycles := u64 (default 0 (head counts) - default 0 (head prev)) in
          print_counts usecs cycles counter_lines counts prev ;;
          call (SSleep (waitTime * 1000000)) ;;
          measure n global waitTime counts t
      end
  end.

(** From the enabled AFU to the end. *)
Definition afp3_measure (v : afp3_vars) (afu_h : ptr) (global : ocxl_mmio_h) : M K ended :=
  printf ("Parameters used: tags_ld=%d - size_ld=%d - tags_st=%d - size_st=%d" +:+ newline)
    [AInt (av_tags_ld v); AInt (av_size_ld v); AInt (av_tags_st v); AInt (av_size_st v)] ;;
  call (SSleep 1000000) ;;
  printf ("Counter         Curr Count (64B) Prev Count       Count Diff.      BW (GB/s) using App clock" +:+ tab +:+
    "Bytes or Events per AFP cycle" +:+ tab +:+ tab +:+ "BW using 200MHz AFU clock (GB/s)" +:+ newline) [] ;;
  printf ("-----------------------------------------------------------------------------------------" +:+ newline) [] ;;
  t ← gettimeofday;
  r ← read_counts global AFUPerfCnt_AFP_REGISTERS;
  match r with
  | inl rc => mret (Returned rc)
  | inr counts =>
      call (SSleep (av_waitTime v * 1000000)) ;;
      stop ← measure (Z.to_nat (av_numLoops v)) global (av_waitTime v) counts t;
      match stop with
      | Some rc => mret (Returned rc)
      | None =>
          when (av_verbose v) (printf ("Stopping AFU" +:+ newline) []) ;;
          write_reg "ocxl_mmio_write64: %d" global AFUEnable_AFP_REGISTER disableAfu (
          when (av_verbose v) (printf ("Free afu" +:+ newline) []) ;;
          ocxl_afu_close afu_h ;;
          mret (Returned 0))
      end
  end.

(** The registers, in the order they are written. *)
Definition afp3_start (v : afp3_vars) (enc_ld enc_st buffer : Z) (afu_h : ptr) (global : ocxl_mmio_h) : M K ended :=
  let verbose fmt args := when (av_verbose v) (printf (fmt +:+ newline) args) in
  let write := write_reg "ocxl_mmio_write64: %d" global in
  pasid ← ocxl_afu_get_pasid afu_h;
  verbose "PASID = %ld" [AInt pasid] ;;
  write AFUPASID_AFP_REGISTER pasid (
  wed_in ← wed_of buffer (av_tags_ld v) enc_ld (av_tags_st v) enc_st;
  verbose "WED = 0x%lx" [AInt wed_in] ;;
  write AFUWED_AFP_REGISTER wed_in (
  verbose "BUFMASK = %lx" [AInt (av_offsetmask v)] ;;
  write AFUBufmask_AFP_REGISTER (av_offsetmask v) (
  verbose "CONTROL_REG(reset) = %lx" [AInt resetCnt] ;;
  write AFUControl_AFP_REGISTER resetCnt (
  verbose "ENABLE_REG = %lx" [AInt enableAfu] ;;
  write AFUEnable_AFP_REGISTER enableAfu (
  afp3_measure v afu_h global))))).

(** From [posix_memalign] on. *)
Definition afp3_buffer (v : afp3_vars) (enc_ld enc_st : Z) (afu_h : ptr) (global : ocxl_mmio_h) : M K ended :=
  '(rc, buffer) ← call (SMemalign BUF_4MB BUF_4MB);
  if c_bool rc then
    fprintf_stderr "Memory alloc failed for buffer: %d" [AInt rc] ;;
    mret (Returned rc)
  else
  when (av_verbose v) (printf ("Allocated Buffer memory @ %p" +:+ newline) [AInt buffer]) ;;
  when (av_prefetch v)
    (printf ("Initializing allocated memory" +:+ newline) [] ;; memset buffer 0x66 BUF_4MB) ;;
  afp3_start v enc_ld enc_st buffer afu_h global.

Definition bad_size (name : string) (which : string) (size : Z) (v : afp3_vars) : M K ended :=
  fprintf_stderr ("Illegal value entered for --" +:+ which +:+ " argument = %d" +:+ newline) [AInt size] ;;
  afp3_help name v ;;
  mret (Returned (-1)).

Definition afp3_main (name : string) (argv : list string) : M K ended :=
  r ← afp3_parse name (getopt_long name afp3_optstring afp3_options None argv) initial_afp3;
  match r with
  | inl rc => mret (Returned rc)
  | inr v =>
      let v := v <| av_offsetmask := u64 (Z.shiftl (av_offsetmask v) 12) |> in
      match size_enc (av_size_ld v), size_enc (av_size_st v) with
      | None, _ => bad_size name "size_ld" (av_size_ld v) v
      | Some _, None => bad_size name "size_st" (av_size_st v) v
      | Some enc_ld, Some enc_st =>
          ocxl_enable_messages OCXL_ERRORS ;;
          open_afp (av_device v) (av_verbose v) "global ocxl_mmio_map: %d" (afp3_buffer v enc_ld enc_st)
      end
  end.

End afp.
