(* ===== verification/AfpRun.v ===== *)
(** * AfpRun: rules for the AFP programs

    The lemmas on afutests/afp/ocxl_afp3.c, and those it shares with
    ocxl_afp3_latency.c: opening the AFU, writing a register or returning its
    error, the options, reading the counters. *)

From S2P Require Import Prelude Format Types World Logic Messages Buffer Ledger Mmio MmioFacts.
From S2P Require Import MmioAccess Irq IrqFacts IrqTable Event Names Afu AfuInv EventFacts Fuel.
From S2P Require Import AfuClose AfuOpen Trace Api Client Memcpy Getopt GetoptLong MemcpySample.
From S2P Require Import MemcpyRun Afp.
Open Scope Z_scope.

(** An aligned allocation that succeeds is aligned, and in the lower half of
    the address space but not at address 0. *)
Class AlignedMemory (K : Type) `{Platform K} : Prop :=
  memalign_granted alignment size (k : K) :
    0 < alignment → (os_step _ (SMemalign alignment size) k).1.1 = 0 →
    0 < (os_step _ (SMemalign alignment size) k).1.2 < 2 ^ 63 ∧
    (os_step _ (SMemalign alignment size) k).1.2 mod alignment = 0.

(** ** The values of the options *)

(** What the last of the options that [f] reads gives, or [d]. *)
Definition latest {A} (f : opt → option A) (d : A) (os : list opt) : A := default d (list.last (omap f os)).

Lemma latest_cons {A} (f : opt → option A) d o os : latest f d (o :: os) = latest f (latest f d [o]) os.
Proof.
  unfold latest. cbn [omap list_omap]. destruct (f o) as [y|]; [|done]. rewrite last_cons. by destruct (list.last _).
Qed.

(** An option [c] with a number, with any value, without one. *)
Definition number_of (c : ascii) (o : opt) : option Z :=
  if Ascii.eqb (opt_char o) c then strtoul <$> opt_arg o else None.
Definition text_of (c : ascii) (o : opt) : option (option string) :=
  if Ascii.eqb (opt_char o) c then Some (opt_arg o) else None.
Definition given (c : ascii) (o : opt) : option bool := if Ascii.eqb (opt_char o) c then Some true else None.

Lemma err_code_nonzero err : is_ok err = false → ocxl_err_code err ≠ 0.
Proof. by destruct err. Qed.

Section shared.
Context {K : Type} `{Platform K} `{Abi} `{!EventLaws K} `{!NonZeroHandles K} `{!ByteLoads K} `{!ShortNames K}.
Implicit Types (w : world K).

(** How both programs may return: with what they held given back, or with an
    error and the AFU still open. *)
Definition left_open (others : gmap ptr afu_view) (rc : Z) (w' : world K) : Prop :=
  rc ≠ 0 ∧ ∃ p, others !! p = None ∧ closable w' others p.

Lemma terminates_or_return fmt err (k : nat → M K ended) w others p (Q : ended → world K → Prop) :
  closable w others p → others !! p = None → (∀ z, conforms fmt [AInt z] = true) →
  (is_ok err = true → terminates k Q w) → (∀ rc w', left_open others rc w' → Q (Returned rc) w') →
  terminates (λ fuel, or_return fmt err (k fuel)) Q w.
Proof.
  intros Hc Hp Hf Hok Hbad. unfold or_return. destruct (is_ok err) eqn:E; [by apply Hok|].
  apply terminates_wp, wp_bind, wp_fprintf_stderr; [apply Hf|]. intros w' Hq. apply wp_ret, Hbad.
  split; [by apply err_code_nonzero|]. exists p. split; [done|by eapply closable_quiet].
Qed.

Lemma terminates_write_reg fmt w others p a areas irqs i x reg v (k : nat → M K ended) (Q : ended → world K → Prop) :
  client w others p a areas irqs → others !! p = None → areas !! i = Some x → 0 <= reg →
  (∀ z, conforms fmt [AInt z] = true) →
  (∀ w', client w' others p a areas irqs → ran (reg_write x reg v) w w' → terminates k Q w') →
  (∀ rc w', left_open others rc w' → Q (Returned rc) w') →
  terminates (λ fuel, write_reg fmt (handle_of a i) reg v (k fuel)) Q w.
Proof.
  intros Hcl Hp Hx Hreg Hf Hok Hbad. unfold write_reg. apply terminates_bind_wp.
  eapply wp_client_write64; [exact Hcl|exact Hx|exact Hreg|]. intros w1 Hcl1 Hr1.
  eapply terminates_or_return; [by eapply client_closable|exact Hp|exact Hf| |exact Hbad]. intros E.
  rewrite (access_effects_ok _ _ _ _ eq_refl E) in Hr1. by apply Hok.
Qed.

Lemma wp_write_reg fmt w others p a areas irqs i x reg v k (Q : ended → world K → Prop) :
  client w others p a areas irqs → others !! p = None → areas !! i = Some x → 0 <= reg →
  (∀ z, conforms fmt [AInt z] = true) →
  (∀ w', client w' others p a areas irqs → ran (reg_write x reg v) w w' → wp k Q w') →
  (∀ rc w', left_open others rc w' → Q (Returned rc) w') →
  wp (write_reg fmt (handle_of a i) reg v k) Q w.
Proof.
  intros Hcl Hp Hx Hreg Hf Hok Hbad. apply wp_terminates.
  eapply (terminates_write_reg _ _ _ _ _ _ _ _ _ _ _ (λ _, k)); [done..| |done].
  intros w' Hcl' Hr. by apply terminates_wp, Hok.
Qed.

(** Text, with the flag [--verbose] or without. *)
Lemma wp_verbose (b : bool) fmt args w others p a areas irqs (Q : unit → world K → Prop) :
  client w others p a areas irqs → conforms fmt args = true →
  (∀ w', client w' others p a areas irqs → quiet w w' → Q tt w') → wp (when b (printf fmt args)) Q w.
Proof.
  intros Hcl Hf HQ. apply wp_when; intros _; [|apply HQ; [done|reflexivity]].
  apply wp_printf; [done|]. intros w' Hq. apply HQ; [by eapply client_quiet|done].
Qed.

Lemma terminates_open_afp device verbose fmt (k : nat → ptr → ocxl_mmio_h → M K ended) w others
    (Q : ended → world K → Prop) :
  sys_inv w others → (∀ z, conforms fmt [AInt z] = true) →
  (∀ rc w', rc ≠ 0 → sys_inv w' others → Q (Returned rc) w') →
  (∀ rc w', left_open others rc w' → Q (Returned rc) w') →
  (∀ p a i x areas w', client w' others p a areas [] → others !! p = None → areas !! i = Some x →
     since w w' → terminates (λ fuel, k fuel p (handle_of a i)) Q w') →
  terminates (λ fuel, open_afp device verbose fmt (k fuel)) Q w.
Proof.
  intros Hs Hf Hfail Hbad Hok. unfold open_afp. apply terminates_bind_wp.
  apply (wp_mono _ (λ _ w', quiet w w')).
  2: { apply wp_when; intros _; [by apply wp_printf|reflexivity]. }
  intros [] w1 Hq1. apply terminates_bind_wp. eapply (wp_client_open_by device); [by eapply sys_inv_quiet|..].
  { intros err w2 He Hs2. rewrite He. apply terminates_wp, wp_bind, wp_fprintf_stderr; [done|]. intros w3 Hq3.
    apply wp_ret, Hfail; [by apply err_code_nonzero|by eapply sys_inv_quiet]. }
  intros p a w2 Hcl2 Hp Htab T2. cbv iota beta. cbn [is_ok negb].
  apply terminates_bind_wp. eapply wp_verbose; [exact Hcl2|done|]. intros w3 Hcl3 Hq3.
  apply terminates_bind_wp, wp_since; [auto with traced|].
  assert (∀ err w' a' areas', is_ok err = false → client w' others p a' areas' [] →
    ∀ fmt k, (∀ z, conforms fmt [AInt z] = true) → terminates (λ fuel, or_return fmt err (k fuel)) Q w') as Herr.
  { intros err w' a' areas' He Hcl' fmt' k' Hf'.
    eapply terminates_or_return; [by eapply client_closable|exact Hp|exact Hf'|by rewrite He|exact Hbad]. }
  eapply wp_client_attach; [exact Hcl3|intros err w4 He Hcl4 _; by eapply Herr|]. intros w4 Hcl4 T4.
  unfold or_return at 1. cbn [is_ok].
  apply terminates_bind_wp, wp_since; [unfold ocxl_mmio_map; auto with traced|].
  eapply wp_client_map; [exact Hcl4|by rewrite (client_no_areas _ _ _ _ _ Hcl4)|
    intros err w5 He Hcl5 _; by eapply Herr|].
  intros a5 i x areas w5 Hcl5 Hx _ _ _ T5. unfold or_return. cbn [is_ok]. apply terminates_bind_wp, wp_ret.
  eapply Hok; [exact Hcl5|exact Hp|exact Hx|].
  etrans; [by apply since_quiet|]. etrans; [exact T2|]. etrans; [by apply since_quiet|]. by etrans.
Qed.

Lemma wp_open_afp device verbose fmt k w others (Q : ended → world K → Prop) :
  sys_inv w others → (∀ z, conforms fmt [AInt z] = true) →
  (∀ rc w', rc ≠ 0 → sys_inv w' others → Q (Returned rc) w') →
  (∀ rc w', left_open others rc w' → Q (Returned rc) w') →
  (∀ p a i x areas w', client w' others p a areas [] → others !! p = None → areas !! i = Some x →
     since w w' → wp (k p (handle_of a i)) Q w') →
  wp (open_afp device verbose fmt k) Q w.
Proof.
  intros Hs Hf Hfail Hbad Hok. apply wp_terminates, (terminates_open_afp _ _ _ (λ _, k) w others); [done..|].
  intros p a i x areas w' Hcl Hp Hx T. apply terminates_wp. by eapply Hok.
Qed.

Lemma wp_printf_all lines w (Q : unit → world K → Prop) :
  Forall (λ l, conforms l.1 l.2 = true) lines → (∀ w', quiet w w' → Q tt w') → wp (printf_all lines) Q w.
Proof.
  intros Hl. revert w. induction Hl as [|[fmt args] lines Hc _ IH]; intros w HQ; simpl; [by apply wp_ret, HQ|].
  apply wp_bind, wp_printf; [done|]. intros w1 Hq1. apply IH. intros w2 Hq2. apply HQ. by etrans.
Qed.

Lemma wp_print_diag o w (Q : unit → world K → Prop) : (∀ w', quiet w w' → Q tt w') → wp (print_diag o) Q w.
Proof.
  intros HQ. unfold print_diag. destruct (opt_diag o); [|by apply wp_ret, HQ].
  apply wp_call_silent; [done|]. intros []. apply HQ.
Qed.

End shared.

Section bandwidth.
Context {K : Type} `{Platform K} `{Abi} `{!EventLaws K} `{!NonZeroHandles K} `{!ByteLoads K} `{!ShortNames K}.
Context `{!AlignedMemory K}.
Context (bw_text bpc_text bw_tb_text : Z → Z → Z → string).
Implicit Types (w : world K).

(** ** The counters *)

(** A read of a register that was done: between two barriers. *)
Definition reg_read (x : ocxl_mmio_area) (reg : Z) (bs : list Z) : list event :=
  [Ev SSync tt; Ev (SLoad (u64 (area_start x + reg)) 8) bs; Ev SSync tt].

Definition regs_read (x : ocxl_mmio_area) (regs : list Z) (bss : list (list Z)) : list event :=
  concat (zip_with (reg_read x) regs bss).

Lemma wp_read_counts regs w others p a areas irqs i x Q :
  client w others p a areas irqs → others !! p = None → areas !! i = Some x → Forall (λ reg, 0 <= reg) regs →
  (∀ rc w', left_open others rc w' → Q (inl rc) w') →
  (∀ bss w', client w' others p a areas irqs → length bss = length regs → ran (regs_read x regs bss) w w' →
     Q (inr (decode OCXL_MMIO_LITTLE_ENDIAN <$> bss)) w') →
  wp (read_counts (handle_of a i) regs) Q w.
Proof.
  intros Hcl Hp Hx Hregs Hbad. revert w Q Hcl Hbad. induction Hregs as [|reg regs Hreg _ IH]; intros w Q Hcl Hbad Hok; simpl.
  { apply wp_ret. apply (Hok []); [done|done|apply ran_refl]. }
  apply wp_bind. eapply wp_client_read64; [exact Hcl|exact Hx|exact Hreg|]. intros bs w1 Hcl1 Hr1. unfold access_effects in Hr1.
  destruct (is_ok (access_verdict x reg 8)) eqn:E; simpl.
  2: { apply wp_bind, wp_fprintf_stderr; [done|]. intros w2 Hq2. apply wp_ret, Hbad.
       split; [by apply err_code_nonzero|]. exists p. split; [done|by eapply client_closable, client_quiet]. }
  apply wp_bind, wp_ret. apply wp_bind. apply IH; [exact Hcl1|intros rc w2 Hl; by apply wp_ret, Hbad|].
  intros bss w2 Hcl2 Hlen Hr2. apply wp_ret. apply (Hok (bs :: bss)); [done|by simpl; f_equal|].
  exact (ran_trans _ _ _ _ _ Hr1 Hr2).
Qed.

Lemma wp_print_counts usecs cycles lines counts prev w (Q : unit → world K → Prop) :
  Forall (λ l, ∀ a b c d e f, conforms (l.1 +:+ "%016lx %016lx %016lx %s %s %s" +:+ newline)
    [AInt a; AInt b; AInt c; AStr d; AStr e; AStr f] = true) lines →
  (∀ w', quiet w w' → Q tt w') →
  wp (print_counts bw_text bpc_text bw_tb_text usecs cycles lines counts prev) Q w.
Proof.
  intros Hl. revert counts prev w. induction Hl as [|[text scale] lines Hc _ IH]; intros counts prev w HQ; simpl.
  { by apply wp_printf. }
  destruct counts as [|count counts]; [by apply wp_printf|]. destruct prev as [|count_prev prev]; [by apply wp_printf|].
  apply wp_bind, wp_printf; [apply Hc|]. intros w1 Hq1. apply IH. intros w2 Hq2. apply HQ. by etrans.
Qed.

(** One sample: the time, then every counter, then the interval. *)
Definition sample (x : ocxl_mmio_area) (wait : Z) (es : list event) : Prop :=
  ∃ t bss, length bss = length AFUPerfCnt_AFP_REGISTERS ∧
    es = Ev SGettimeofday t :: regs_read x AFUPerfCnt_AFP_REGISTERS bss ++ [Ev (SSleep (wait * 1000000)) tt].

Definition samples (x : ocxl_mmio_area) (wait : Z) (n : nat) (es : list event) : Prop :=
  ∃ parts, es = concat parts ∧ length parts = n ∧ Forall (sample x wait) parts.

Lemma wp_measure n wait prev t w others p a areas irqs i x Q :
  client w others p a areas irqs → others !! p = None → areas !! i = Some x →
  (∀ rc w', left_open others rc w' → Q (Some rc) w') →
  (∀ es w', client w' others p a areas irqs → ran es w w' → samples x wait n es → Q None w') →
  wp (measure bw_text bpc_text bw_tb_text n (handle_of a i) wait prev t) Q w.
Proof.
  intros Hcl Hp Hx Hbad. revert prev t w Q Hcl Hbad. induction n as [|n IH]; intros prev t w Q Hcl Hbad Hok; cbn [measure].
  { eapply wp_ret, Hok; [done|apply ran_refl|by exists []]. }
  apply wp_bind. eapply wp_client_call; [exact Hcl|done|done|done|done|]. intros now w1 Hcl1 D1.
  apply wp_bind. eapply wp_read_counts; [exact Hcl1|exact Hp|exact Hx|by repeat constructor|intros rc w2 Hl; by apply wp_ret, Hbad|].
  intros bss w2 Hcl2 Hlen Hr2. cbv zeta. apply wp_bind, wp_print_counts; [by repeat constructor|]. intros w3 Hq3.
  apply wp_bind. eapply wp_client_call; [by eapply client_quiet|done|done|done|done|]. intros [] w4 Hcl4 D4.
  apply IH; [exact Hcl4|exact Hbad|]. intros es w' Hcl' Hr (parts & -> & <- & Hs).
  set (part := Ev SGettimeofday now :: regs_read x AFUPerfCnt_AFP_REGISTERS bss ++ [Ev (SSleep (wait * 1000000)) tt]).
  apply (Hok (part ++ concat parts)); [done|..].
  - eapply ran_trans; [|exact Hr]. eapply ran_cons; [exact D1|]. eapply ran_trans; [exact Hr2|].
    eapply ran_quiet_l; [exact Hq3|]. exact (ran_did _ _ _ _ D4).
  - exists (part :: parts). split_and!; [done|done|constructor; [|done]]. by exists now, bss.
Qed.

(** ** A measurement *)

(** What a measurement that was done asked of the device, in order: the
    registers of the AFU, its enable bit last; a sample before the first
    interval and one after each; the enable bit cleared. *)
Definition measured (v : afp3_vars) (enc_ld enc_st : Z) (es : list event) : Prop :=
  ∃ pre x pasid buffer mid post,
    es = pre ++ reg_write x AFUPASID_AFP_REGISTER pasid ++
         reg_write x AFUWED_AFP_REGISTER
           (u64 (buffer + av_tags_ld v * 512 + enc_ld * 128 + npu_ld * 64 + av_tags_st v * 8 + enc_st * 2 + npu_st)) ++
         reg_write x AFUBufmask_AFP_REGISTER (av_offsetmask v) ++
         reg_write x AFUControl_AFP_REGISTER resetCnt ++ reg_write x AFUEnable_AFP_REGISTER enableAfu ++
         Ev (SSleep 1000000) tt :: mid ++ reg_write x AFUEnable_AFP_REGISTER disableAfu ++ post ∧
    buffer mod BUF_4MB = 0 ∧ samples x (av_waitTime v) (S (Z.to_nat (av_numLoops v))) mid.

Lemma wp_afp3_measure v w others p a areas irqs i x Q :
  client w others p a areas irqs → others !! p = None → areas !! i = Some x →
  (∀ rc w', left_open others rc w' → Q (Returned rc) w') →
  (∀ mid post w', sys_inv w' others → samples x (av_waitTime v) (S (Z.to_nat (av_numLoops v))) mid →
     ran (Ev (SSleep 1000000) tt :: mid ++ reg_write x AFUEnable_AFP_REGISTER disableAfu ++ post) w w' →
     Q (Returned 0) w') →
  wp (afp3_measure bw_text bpc_text bw_tb_text v p (handle_of a i)) Q w.
Proof.
  intros Hcl Hp Hx Hbad Hok. apply wp_bind, wp_printf; [done|]. intros w1 Hq1.
  apply wp_bind. eapply wp_client_call; [by eapply client_quiet|done|done|done|done|]. intros [] w2 Hcl2 D2.
  apply wp_bind, wp_printf; [done|]. intros w3 Hq3. apply wp_bind, wp_printf; [done|]. intros w4 Hq4.
  pose proof (client_quiet _ _ _ _ _ _ _ (client_quiet _ _ _ _ _ _ _ Hcl2 Hq3) Hq4) as Hcl4.
  apply wp_bind. eapply wp_client_call; [exact Hcl4|done|done|done|done|]. intros t w5 Hcl5 D5.
  apply wp_bind. eapply wp_read_counts; [exact Hcl5|exact Hp|exact Hx|by repeat constructor|intros rc w6 Hl; by apply wp_ret, Hbad|].
  intros bss w6 Hcl6 Hlen Hr6. cbv iota.
  apply wp_bind. eapply wp_client_call; [exact Hcl6|done|done|done|done|]. intros [] w7 Hcl7 D7.
  apply wp_bind. eapply wp_measure; [exact Hcl7|exact Hp|exact Hx|intros rc w8 Hl; by apply wp_ret, Hbad|].
  intros es w8 Hcl8 Hr8 (parts & -> & Hn & Hs). cbv iota.
  apply wp_bind. eapply wp_verbose; [exact Hcl8|done|]. intros w9 Hcl9 Hq9.
  eapply wp_write_reg; [exact Hcl9|exact Hp|exact Hx|done|done| |exact Hbad]. intros w10 Hcl10 Hr10.
  apply wp_bind. eapply wp_verbose; [exact Hcl10|done|]. intros w11 Hcl11 Hq11.
  apply wp_bind. eapply (wp_issues (λ _, True)); [auto with traced|].
  eapply wp_client_close; [exact Hcl11|exact Hp|]. intros w12 Hs12 es12 Hr12 _. apply wp_ret.
  set (part := Ev SGettimeofday t :: regs_read x AFUPerfCnt_AFP_REGISTERS bss ++
    [Ev (SSleep (av_waitTime v * 1000000)) tt]).
  apply (Hok (part ++ concat parts) es12); [done|..].
  - exists (part :: parts). split_and!; [done|simpl; by rewrite Hn|constructor; [|done]]. by exists t, bss.
  - assert (ran ([Ev (SSleep 1000000) tt] ++ [Ev SGettimeofday t] ++ regs_read x AFUPerfCnt_AFP_REGISTERS bss ++
      [Ev (SSleep (av_waitTime v * 1000000)) tt] ++ concat parts ++
      reg_write x AFUEnable_AFP_REGISTER disableAfu ++ es12) w w12) as Hr.
    { eapply ran_quiet_l; [exact Hq1|]. eapply ran_trans; [exact (ran_did _ _ _ _ D2)|].
      eapply ran_quiet_l; [exact Hq3|]. eapply ran_quiet_l; [exact Hq4|].
      eapply ran_trans; [exact (ran_did _ _ _ _ D5)|]. eapply ran_trans; [exact Hr6|].
      eapply ran_trans; [exact (ran_did _ _ _ _ D7)|]. eapply ran_trans; [exact Hr8|].
      eapply ran_quiet_l; [exact Hq9|]. eapply ran_trans; [exact Hr10|]. by eapply ran_quiet_l. }
    unfold part. simpl. rewrite <-!app_assoc. exact Hr.
Qed.

(** Numbers of tags that fit the arithmetic of the descriptor. *)
Definition tags_fit (v : afp3_vars) : Prop :=
  - 2 ^ 22 <= av_tags_ld v < 2 ^ 22 ∧ - 2 ^ 22 <= av_tags_st v < 2 ^ 22.

Lemma wp_wed_of buffer tags_ld enc_ld tags_st enc_st w (Q : Z → world K → Prop) :
  - 2 ^ 22 <= tags_ld < 2 ^ 22 → - 2 ^ 22 <= tags_st < 2 ^ 22 →
  Q (u64 (buffer + tags_ld * 512 + enc_ld * 128 + npu_ld * 64 + tags_st * 8 + enc_st * 2 + npu_st)) w →
  wp (wed_of buffer tags_ld enc_ld tags_st enc_st) Q w.
Proof.
  intros H1 H2 HQ. apply wp_bind, wp_int_mul; [lia|]. apply wp_bind, wp_int_mul; [lia|]. by apply wp_ret.
Qed.

Lemma wp_client_get_pasid w others p a areas irqs (Q : Z → world K → Prop) :
  client w others p a areas irqs → Q (afu_pasid a) w → wp (ocxl_afu_get_pasid p) Q w.
Proof.
  intros Hcl HQ. destruct (client_view _ _ _ _ _ _ Hcl) as [Hi _]. apply wp_bind.
  eapply wp_get_afu; [by eapply afu_inv_lookup|]. by apply wp_ret.
Qed.

Lemma wp_afp3_start v enc_ld enc_st buffer w others p a areas irqs i x Q :
  client w others p a areas irqs → others !! p = None → areas !! i = Some x → tags_fit v → buffer mod BUF_4MB = 0 →
  (∀ rc w', left_open others rc w' → Q (Returned rc) w') →
  (∀ es w', sys_inv w' others → ran es w w' → measured v enc_ld enc_st es → Q (Returned 0) w') →
  wp (afp3_start bw_text bpc_text bw_tb_text v enc_ld enc_st buffer p (handle_of a i)) Q w.
Proof.
  intros Hcl Hp Hx [Ht1 Ht2] Hbuf Hbad Hok. apply wp_bind. eapply wp_client_get_pasid; [exact Hcl|].
  apply wp_bind. eapply wp_verbose; [exact Hcl|done|]. intros w1 Hcl1 Hq1.
  eapply wp_write_reg; [exact Hcl1|exact Hp|exact Hx|done|done| |exact Hbad]. intros w2 Hcl2 Hr2.
  apply wp_bind, wp_wed_of; [done..|]. set (wed := u64 _).
  apply wp_bind. eapply wp_verbose; [exact Hcl2|done|]. intros w3 Hcl3 Hq3.
  eapply wp_write_reg; [exact Hcl3|exact Hp|exact Hx|done|done| |exact Hbad]. intros w4 Hcl4 Hr4.
  apply wp_bind. eapply wp_verbose; [exact Hcl4|done|]. intros w5 Hcl5 Hq5.
  eapply wp_write_reg; [exact Hcl5|exact Hp|exact Hx|done|done| |exact Hbad]. intros w6 Hcl6 Hr6.
  apply wp_bind. eapply wp_verbose; [exact Hcl6|done|]. intros w7 Hcl7 Hq7.
  eapply wp_write_reg; [exact Hcl7|exact Hp|exact Hx|done|done| |exact Hbad]. intros w8 Hcl8 Hr8.
  apply wp_bind. eapply wp_verbose; [exact Hcl8|done|]. intros w9 Hcl9 Hq9.
  eapply wp_write_reg; [exact Hcl9|exact Hp|exact Hx|done|done| |exact Hbad]. intros w10 Hcl10 Hr10.
  eapply wp_afp3_measure; [exact Hcl10|exact Hp|exact Hx|exact Hbad|]. intros mid post w' Hs' Hsamp Hr'.
  eapply Hok; [exact Hs'| |by exists [], x, (afu_pasid a), buffer, mid, post]. rewrite app_nil_l.
  eapply ran_quiet_l; [exact Hq1|]. eapply ran_trans; [exact Hr2|]. eapply ran_quiet_l; [exact Hq3|].
  eapply ran_trans; [exact Hr4|]. eapply ran_quiet_l; [exact Hq5|]. eapply ran_trans; [exact Hr6|].
  eapply ran_quiet_l; [exact Hq7|]. eapply ran_trans; [exact Hr8|]. eapply ran_quiet_l; [exact Hq9|].
  by eapply ran_trans.
Qed.

Lemma measured_after v enc_ld enc_st es es' : measured v enc_ld enc_st es → measured v enc_ld enc_st (es' ++ es).
Proof.
  intros (pre & x & pasid & buffer & mid & post & -> & Hb & Hs). exists (es' ++ pre), x, pasid, buffer, mid, post.
  by rewrite <-app_assoc.
Qed.

Lemma wp_afp3_buffer v enc_ld enc_st w others p a areas irqs i x Q :
  client w others p a areas irqs → others !! p = None → areas !! i = Some x → tags_fit v →
  (∀ rc w', left_open others rc w' → Q (Returned rc) w') →
  (∀ es w', sys_inv w' others → ran es w w' → measured v enc_ld enc_st es → Q (Returned 0) w') →
  wp (afp3_buffer bw_text bpc_text bw_tb_text v enc_ld enc_st p (handle_of a i)) Q w.
Proof.
  intros Hcl Hp Hx Ht Hbad Hok. apply wp_bind.
  eapply wp_client_call; [exact Hcl|done|done|done|done|]. intros [rc buffer] w1 Hcl1 D1.
  pose proof (memalign_granted BUF_4MB BUF_4MB (w_os w) ltac:(done)) as Hal. rewrite (did_step _ _ _ _ D1) in Hal.
  simpl in Hal. unfold c_bool. destruct (Z.eqb_spec rc 0) as [->|Hrc]; simpl.
  2: { apply wp_bind, wp_fprintf_stderr; [done|]. intros w2 Hq2. apply wp_ret, Hbad. split; [done|].
       exists p. split; [done|by eapply client_closable, client_quiet]. }
  destruct (Hal eq_refl) as [Hpos Hmod].
  apply wp_bind. eapply wp_verbose; [exact Hcl1|done|]. intros w2 Hcl2 Hq2. apply wp_bind.
  apply (wp_mono _ (λ _ w', client w' others p a areas irqs ∧ since w w')).
  - intros [] w3 [Hcl3 [es3 Hr3]]. eapply wp_afp3_start; [exact Hcl3|exact Hp|exact Hx|exact Ht|exact Hmod|exact Hbad|].
    intros es w' Hs' Hr' Hm. eapply Hok; [exact Hs'|by eapply ran_trans|by apply measured_after].
  - pose proof (transitivity (since_did _ _ _ _ D1) (since_quiet _ _ Hq2)) as T2. apply wp_when; intros _; [|done].
    apply wp_bind, wp_printf; [done|]. intros w3 Hq3.
    eapply wp_client_memset; [by eapply client_quiet|unfold NULL; lia|]. intros w4 Hcl4 D4. split; [done|].
    etrans; [exact T2|]. etrans; [by apply since_quiet|exact (since_did _ _ _ _ D4)].
Qed.

(** ** The options *)

(** An option the program is defined for: [-a] has a value (the short option
    takes none), numbers of tags are not too large. *)
Definition afp3_opt_ok (o : opt) : Prop :=
  has_arg "a" o ∧
  (existsb (Ascii.eqb (opt_char o)) ["a"; "b"]%char = true → - 2 ^ 22 <= s32 (strtoul (default "" (opt_arg o))) < 2 ^ 22).

(** The other options that take a value have one. *)
Definition afp3_opt_full (o : opt) : Prop :=
  afp3_opt_ok o ∧ Forall (λ c, has_arg c o) ["b"; "y"; "z"; "n"; "w"; "o"]%char.

Lemma afp3_options_full name argv :
  let os := getopt_long name afp3_optstring afp3_options None argv in
  Forall afp3_opt_ok os → Forall afp3_opt_full os.
Proof.
  intros os Hos.
  assert (∀ c, opt_kind afp3_optstring c ≠ Some false → c ≠ "?"%char →
    Forall (λ o, lo_char o = c → lo_arg o = true) afp3_options → ∀ o, o ∈ os → has_arg c o) as Hc.
  { intros c H1 H2 H3 o. apply list.Forall_forall. by apply getopt_long_args. }
  apply list.Forall_forall. intros o Ho. split; [by eapply list.Forall_forall in Hos|].
  repeat apply Forall_cons_2; try apply Forall_nil; (apply Hc; [done|done|by repeat constructor|done]).
Qed.

Lemma wp_afp3_help name v w (Q : unit → world K → Prop) :
  (∀ w', quiet w w' → Q tt w') → wp (afp3_help name v) Q w.
Proof. apply wp_printf_all. by repeat constructor. Qed.

Lemma wp_ulong_arg o w (Q : Z → world K → Prop) :
  is_Some (opt_arg o) → Q (strtoul (default "" (opt_arg o))) w → wp (ulong_arg o) Q w.
Proof. intros [a Ha] HQ. unfold ulong_arg. rewrite Ha in HQ |- *. by apply wp_ret. Qed.

Definition mask_of (o : opt) : option Z :=
  if Ascii.eqb (opt_char o) "o" then arg ← opt_arg o; snd <$> find (λ x, same_nocase arg x.1) offset_sizes else None.

(** The values the options [os] leave in the variables [v]. *)
Definition afp3_given (v : afp3_vars) (os : list opt) : afp3_vars := {|
  av_verbose := latest (given Ascii.zero) (av_verbose v) os;
  av_tags_ld := latest (λ o, s32 <$> number_of "a" o) (av_tags_ld v) os;
  av_tags_st := latest (λ o, s32 <$> number_of "b" o) (av_tags_st v) os;
  av_size_ld := latest (λ o, s32 <$> number_of "y" o) (av_size_ld v) os;
  av_size_st := latest (λ o, s32 <$> number_of "z" o) (av_size_st v) os;
  av_numLoops := latest (λ o, u16 <$> number_of "n" o) (av_numLoops v) os;
  av_waitTime := latest (λ o, u16 <$> number_of "w" o) (av_waitTime v) os;
  av_offsetmask := latest mask_of (av_offsetmask v) os;
  av_prefetch := latest (given "p") (av_prefetch v) os;
  av_device := latest (text_of "d") (av_device v) os
|}.

Lemma afp3_given_cons v o os : afp3_given v (o :: os) = afp3_given (afp3_given v [o]) os.
Proof. unfold afp3_given. cbn [av_verbose av_tags_ld av_tags_st av_size_ld av_size_st av_numLoops av_waitTime
  av_offsetmask av_prefetch av_device]. by rewrite !(latest_cons _ _ o os). Qed.

(** An option that sets a variable; at any other the program returns, with 0
    when it is [--help]. *)
Definition afp3_taken (o : opt) : bool :=
  existsb (Ascii.eqb (opt_char o)) (Ascii.zero :: ["v"; "a"; "b"; "y"; "z"; "n"; "w"; "p"; "d"]%char) ||
  Ascii.eqb (opt_char o) "o" &&
  match opt_arg o with Some arg => existsb (λ x, same_nocase arg x.1) offset_sizes | None => false end.

Definition help_code (o : opt) : Z := if Ascii.eqb (opt_char o) "h" then 0 else -1.

Lemma find_existsb {A} (f : A → bool) l : existsb f l = match find f l with Some _ => true | None => false end.
Proof. induction l as [|x l IH]; simpl; [done|]. by destruct (f x). Qed.

Ltac option_case E := unfold afp3_taken, afp3_given, latest, number_of, text_of, mask_of, given; simpl; rewrite E; simpl.

Lemma wp_set_offsetmask name o v w (Q : Z + afp3_vars → world K → Prop) :
  opt_char o = "o"%char → is_Some (opt_arg o) →
  (∀ w', quiet w w' → afp3_taken o = false → Q (inl (help_code o)) w') →
  (∀ w', quiet w w' → afp3_taken o = true → Q (inr (afp3_given v [o])) w') →
  wp (set_offsetmask name o v) Q w.
Proof.
  intros E [arg Ea] Hret Hgo. unfold set_offsetmask. rewrite Ea.
  assert (afp3_taken o = existsb (λ x, same_nocase arg x.1) offset_sizes) as Ht.
  { unfold afp3_taken. rewrite E, Ea. reflexivity. }
  assert (av_offsetmask (afp3_given v [o]) = default (av_offsetmask v)
    (snd <$> find (λ x, same_nocase arg x.1) offset_sizes)) as Hm.
  { unfold afp3_given, latest, mask_of. cbn [av_offsetmask omap list_omap]. rewrite E, Ea.
    change (Ascii.eqb "o" "o") with true. cbn [mbind option_bind]. by destruct (find _ _) as [[sz mask]|]. }
  assert (∀ m, av_offsetmask (afp3_given v [o]) = m → v <| av_offsetmask := m |> = afp3_given v [o]) as Hv.
  { intros m <-. unfold afp3_given, latest, number_of, text_of, given. cbn [omap list_omap]. rewrite E. by destruct v. }
  rewrite find_existsb in Ht. destruct (find _ offset_sizes) as [[sz mask]|] eqn:F; apply wp_bind.
  - apply (wp_mono _ (λ _ w', quiet w w')).
    + intros [] w' Hq. apply wp_ret. rewrite (Hv mask Hm). by apply Hgo.
    + apply wp_when; intros _; [by apply wp_printf|reflexivity].
  - apply wp_fprintf_stderr; [done|]. intros w1 Hq1. apply wp_bind, wp_afp3_help. intros w2 Hq2.
    apply wp_ret. replace (-1) with (help_code o) by (unfold help_code; by rewrite E). apply Hret; [by etrans|done].
Qed.

Lemma wp_afp3_option name o v w (Q : Z + afp3_vars → world K → Prop) :
  afp3_opt_full o →
  (∀ w', quiet w w' → afp3_taken o = false → Q (inl (help_code o)) w') →
  (∀ w', quiet w w' → afp3_taken o = true → Q (inr (afp3_given v [o])) w') →
  wp (afp3_option name o v) Q w.
Proof.
  intros [[Ha _] Hargs] Hret Hgo. unfold afp3_option.
  apply (Forall_cons_2 (λ c, has_arg c o) _ _ Ha) in Hargs. clear Ha. unfold has_arg in Hargs.
  assert (∀ c, existsb (Ascii.eqb c) ["a"; "b"; "y"; "z"; "n"; "w"; "o"]%char = true → opt_char o = c →
    is_Some (opt_arg o)) as Harg.
  { intros c (d & Hd & ->%Ascii.eqb_eq)%existsb_exists. exact (proj1 (List.Forall_forall _ _) Hargs d Hd). }
  clear Hargs.
  assert (∀ v', afp3_taken o = true → v' = afp3_given v [o] → wp (mret (inr v')) Q w) as Hok
    by (intros v' Ht ->; by apply wp_ret, Hgo).
  assert (∀ c, opt_char o = c → existsb (Ascii.eqb c) ["a"; "b"; "y"; "z"; "n"; "w"; "o"]%char = true →
    ∀ f : Z → afp3_vars, afp3_taken o = true → (∀ arg, opt_arg o = Some arg → f (strtoul arg) = afp3_given v [o]) →
    wp (x ← ulong_arg o; mret (inr (f x))) Q w) as Hset.
  { intros c Ec Hc f Ht Hf. destruct (Harg c Hc Ec) as [arg Ea]. apply wp_bind, wp_ulong_arg; [by rewrite Ea|].
    apply Hok; [done|]. rewrite Ea. by apply Hf. }
  destruct (Ascii.eqb_spec (opt_char o) Ascii.zero) as [E|E0]; [by apply Hok; option_case E; destruct v|].
  destruct (Ascii.eqb_spec (opt_char o) "v") as [E|Ev]; [by apply Hok; option_case E; destruct v|].
  destruct (Ascii.eqb_spec (opt_char o) "a") as [E|Ea]; [by eapply Hset; [exact E|done|option_case E|intros ? F; option_case E; rewrite F; destruct v]|].
  destruct (Ascii.eqb_spec (opt_char o) "b") as [E|Eb]; [by eapply Hset; [exact E|done|option_case E|intros ? F; option_case E; rewrite F; destruct v]|].
  destruct (Ascii.eqb_spec (opt_char o) "y") as [E|Ey]; [by eapply Hset; [exact E|done|option_case E|intros ? F; option_case E; rewrite F; destruct v]|].
  destruct (Ascii.eqb_spec (opt_char o) "z") as [E|Ez]; [by eapply Hset; [exact E|done|option_case E|intros ? F; option_case E; rewrite F; destruct v]|].
  destruct (Ascii.eqb_spec (opt_char o) "n") as [E|En]; [by eapply Hset; [exact E|done|option_case E|intros ? F; option_case E; rewrite F; destruct v]|].
  destruct (Ascii.eqb_spec (opt_char o) "w") as [E|Ew]; [by eapply Hset; [exact E|done|option_case E|intros ? F; option_case E; rewrite F; destruct v]|].
  destruct (Ascii.eqb_spec (opt_char o) "p") as [E|Ep]; [by apply Hok; option_case E; destruct v|].
  destruct (Ascii.eqb_spec (opt_char o) "o") as [E|Eo]; [apply wp_set_offsetmask; [done|exact (Harg "o"%char eq_refl E)|done|done]|].
  destruct (Ascii.eqb_spec (opt_char o) "d") as [E|Ed]; [by apply Hok; option_case E; destruct v|].
  assert (afp3_taken o = false) as Ht.
  { unfold afp3_taken. cbn [existsb]. by rewrite !(proj2 (Ascii.eqb_neq _ _)). }
  unfold help_code in Hret. destruct (Ascii.eqb (opt_char o) "h"); apply wp_bind, wp_afp3_help; intros w' Hq;
    by apply wp_ret, Hret.
Qed.

Lemma wp_afp3_parse name os v w (Q : Z + afp3_vars → world K → Prop) :
  Forall afp3_opt_full os →
  (∀ o w', quiet w w' → find (λ o, negb (afp3_taken o)) os = Some o → Q (inl (help_code o)) w') →
  (∀ w', quiet w w' → find (λ o, negb (afp3_taken o)) os = None → Q (inr (afp3_given v os)) w') →
  wp (afp3_parse name os v) Q w.
Proof.
  intros Hos. revert v w. induction Hos as [|o os Ho _ IH]; intros v w Hret Hgo; simpl.
  { apply wp_ret. replace v with (afp3_given v []) by by destruct v. by apply Hgo. }
  simpl in Hret, Hgo. apply wp_bind, wp_print_diag. intros w1 Hq1. apply wp_bind. apply wp_afp3_option; [done|..].
  - intros w2 Hq2 Ht. apply wp_ret, Hret; [by etrans|by rewrite Ht].
  - intros w2 Hq2 Ht. rewrite Ht in Hret, Hgo. simpl in Hret, Hgo. rewrite afp3_given_cons in Hgo.
    apply IH; [intros o' w3 Hq3; apply Hret|intros w3 Hq3; apply Hgo]; (etrans; [exact Hq1|by etrans]).
Qed.

Lemma latest_tags c d os :
  Forall afp3_opt_ok os → existsb (Ascii.eqb c) ["a"; "b"]%char = true → - 2 ^ 22 <= d < 2 ^ 22 →
  - 2 ^ 22 <= latest (λ o, s32 <$> number_of c o) d os < 2 ^ 22.
Proof.
  intros Hos Hc. revert d. induction Hos as [|o os [_ Ho] _ IH]; intros d Hd; [done|]. rewrite latest_cons. apply IH.
  unfold latest, number_of. simpl. destruct (Ascii.eqb_spec (opt_char o) c) as [E|]; simpl; [|done].
  rewrite E in Ho. destruct (opt_arg o) as [arg|]; simpl in *; [by apply Ho|done].
Qed.

(** The code of a size in the descriptor: 1, 2, 3 for 64, 128, 256. *)
Definition size_code (largest size : Z) : option Z :=
  if decide (size ∈ [64; 128; 256; 512]) then if size <=? largest then Some (Z.min 3 (Z.log2 size - 5)) else None
  else None.

Lemma size_enc_code size : size_enc size = size_code 256 size.
Proof.
  unfold size_enc, size_code. destruct (decide (size ∈ _)) as [Hs|Hs].
  - repeat (apply elem_of_cons in Hs as [->|Hs]; [by vm_compute|]). by apply elem_of_nil in Hs.
  - rewrite !elem_of_cons in Hs. repeat case_match; naive_solver lia.
Qed.

(** How [main] returns, given the options [os] of its command line: at the
    first it does not take, with the help; with -1 when a size has no code;
    or with what the run it was asked for came to: 0 after a whole
    measurement, with everything given back, or an error, with at most the
    AFU still open. *)
Definition afp3_ended (os : list opt) w (others : gmap ptr afu_view) (rc : Z) (w' : world K) : Prop :=
  match find (λ o, negb (afp3_taken o)) os with
  | Some o => rc = help_code o ∧ quiet w w' ∧ sys_inv w' others
  | None =>
      let v := afp3_given initial_afp3 os in
      match size_code 256 (av_size_ld v), size_code 256 (av_size_st v) with
      | Some enc_ld, Some enc_st =>
          left_open others rc w' ∨
          sys_inv w' others ∧
          (rc ≠ 0 ∨ rc = 0 ∧ ∃ es, ran es w w' ∧
             measured (v <| av_offsetmask := u64 (av_offsetmask v * 4096) |>) enc_ld enc_st es)
      | _, _ => rc = -1 ∧ quiet w w' ∧ sys_inv w' others
      end
  end.

Lemma wp_afp3_main name argv w others :
  let os := getopt_long name afp3_optstring afp3_options None argv in
  sys_inv w others → Forall afp3_opt_ok os →
  wp (afp3_main bw_text bpc_text bw_tb_text name argv) (λ e w', ∃ rc, e = Returned rc ∧ afp3_ended os w others rc w') w.
Proof.
  intros os Hs Hos. unfold afp3_ended. apply wp_bind, wp_afp3_parse; [by apply afp3_options_full|..].
  { intros o w1 Hq1 Ho. apply wp_ret. exists (help_code o). unfold os. rewrite Ho. split; [done|].
    split_and!; [done|done|by eapply sys_inv_quiet]. }
  intros w1 Hq1 Ho. cbv iota zeta. fold os in Ho |- *. rewrite Ho.
  set (v := afp3_given initial_afp3 os). rewrite Z.shiftl_mul_pow2 by done. change (2 ^ 12) with 4096.
  set (v' := v <| av_offsetmask := _ |>). rewrite <-!size_enc_code.
  assert (tags_fit v') as Hv' by (split; by apply latest_tags).
  change (av_size_ld v) with (av_size_ld v'). change (av_size_st v) with (av_size_st v'). clearbody v'. clear v.
  pose proof (sys_inv_quiet _ _ _ Hs Hq1) as Hs1.
  assert (∀ which size, (∀ z, conforms ("Illegal value entered for --" +:+ which +:+ " argument = %d" +:+ newline) [AInt z] = true) →
    wp (bad_size name which size v') (λ e w', ∃ rc, e = Returned rc ∧ rc = -1 ∧ quiet w w' ∧ sys_inv w' others) w1) as Hsize.
  { intros which size Hc. apply wp_bind, wp_fprintf_stderr; [apply Hc|]. intros w2 Hq2.
    apply wp_bind, wp_afp3_help. intros w3 Hq3. apply wp_ret. exists (-1).
    assert (quiet w w3) as Hq by (etrans; [exact Hq1|by etrans]). split_and!; [done|done|done|exact (sys_inv_quiet _ _ _ Hs Hq)]. }
  destruct (size_enc (av_size_ld v')) as [enc_ld|] eqn:E1; [|by apply Hsize].
  destruct (size_enc (av_size_st v')) as [enc_st|] eqn:E2; [|by apply Hsize].
  apply wp_bind. apply wp_bind, wp_get_globals, wp_set_globals. set (w2 := w1 <| w_glob := _ |>).
  assert (sys_inv w2 others) as Hs2 by (eapply sys_inv_kept; [exact Hs1|]; apply kept_mem; [apply Hs1|done..]).
  assert (since w w2) as T2.
  { etrans; [by apply since_quiet|]. exists []. by apply ran_memory. }
  eapply wp_open_afp; [exact Hs2|done|intros rc w3 Hrc Hs3; exists rc; auto|intros rc w3 Hl; exists rc; auto|].
  intros p a i x areas w3 Hcl Hp Hx T3.
  eapply wp_afp3_buffer; [exact Hcl|exact Hp|exact Hx|exact Hv'|intros rc w4 Hl; exists rc; auto|].
  intros es w' Hs' Hr' Hm. exists 0. split; [done|right]. split; [done|]. right. split; [done|].
  destruct (transitivity T2 T3) as [es0 Hr0]. exists (es0 ++ es). split; [by eapply ran_trans|by apply measured_after].
Qed.

End bandwidth.
