(* ===== verification/AfpLatency.v ===== *)
(** * AfpLatency: afutests/afp/ocxl_afp3_latency.c

    The latency measurement on the AFP AFU: a store to the enable register
    makes the AFU write to the memory of the program, which spins on it.  The
    time base, the machine instructions and the signals are operations of the
    platform; a signal is delivered when the code looks at [flag_stop]. *)

From S2P Require Import Prelude Format Types World Logic Messages Buffer Mmio Irq Event Afu.
From S2P Require Import Getopt GetoptLong Memcpy MemcpySample Afp.
Open Scope Z_scope.

Definition BUF_512MB : Z := 512 * 1024 * 1024.
Definition BIT (n : Z) : Z := Z.shiftl 1 n.
Definition SIGINT : Z := 2.
Definition SIGTERM : Z := 15.

Record lat_vars : Type := mk_lat {
  lv_device : option string;
  lv_verbose : bool;
  lv_size_ping : Z;
  lv_size_st : Z;
  lv_extra_read : bool;
  lv_iterations : Z
}.

#[export] Instance eta_lat_vars : Eta lat_vars := fun v =>
  mk_lat (lv_device v) (lv_verbose v) (lv_size_ping v) (lv_size_st v) (lv_extra_read v) (lv_iterations v).

Definition initial_lat : lat_vars := mk_lat None false 8 64 false 10000.

Definition lat_options : list long_option :=
  [mk_long "iterations" true false "i"; mk_long "ping" true false "m"; mk_long "pong" true false "p";
   mk_long "extraread" false false "x"; mk_long "forever" false false "f"; mk_long "verbose" false true Ascii.zero;
   mk_long "help" false false "h"; mk_long "device" true false "d"].

Definition lat_optstring : string := "vxhi:p:m:fd:".

(** [size_enc_st], [size_enc_ld] *)
Definition lat_size_enc (size : Z) : option Z :=
  if size =? 64 then Some 1 else if size =? 128 then Some 2
  else if (size =? 256) || (size =? 512) then Some 3 else None.

(** [wed_in], with the constant numbers of tags. *)
Definition lat_wed (buffer enc : Z) : Z :=
  u64 (buffer + Z.shiftl 0 9 + Z.shiftl enc 7 + Z.shiftl 0 6 + Z.shiftl 7 3 + Z.shiftl enc 1 + 0).

(** [enable_in] *)
Definition lat_enable (size_st : Z) (use_large_data extra_read : bool) : Z :=
  let e := Z.lor (BIT 63) (BIT 62) in
  let e := if size_st =? 512 then Z.lor e (BIT 61) else e in
  let e := if use_large_data then Z.lor e (BIT 60) else e in
  let e := if extra_read then Z.lor e (BIT 59) else e in
  if size_st =? 512 then Z.lor e (BIT 58) else e.

Section latency.
Context {K : Type} `{Platform K} `{Abi}.
Implicit Types (w : world K).

(** ** printf_buf *)

(** The bytes [j], ... of one line *)
Fixpoint printf_bytes (addr j : Z) (n : nat) : M K unit :=
  match n with
  | O => printf newline []
  | S n =>
      when (j mod 8 =? 0) (printf " " []) ;;
      b ← load_mem addr 0 1;
      printf "%02x" [AInt b] ;;
      printf_bytes (addr + 1) (j + 1) n
  end.

Fixpoint printf_lines (addr : Z) (lines : nat) : M K unit :=
  match lines with
  | O => printf newline []
  | S lines =>
      printf "0x%016lx:" [AInt addr] ;;
      printf_bytes addr 0 32 ;;
      printf_lines (addr + 32) lines
  end.

Definition printf_buf (addr size : Z) : M K unit := printf_lines addr (Z.to_nat (size / 32)).

(** ** The ping *)

Definition stop_handler (signal : Z) : M K unit :=
  printf ("Signal %d received, stopping" +:+ newline) [AInt signal].

(** [flag_stop] *)
Definition flag_stop : M K bool :=
  s ← call SPendingSignal;
  match s with
  | Some signal => stop_handler signal ;; mret true
  | None => mret false
  end.

(** [while ( *flag == 0);] *)
Fixpoint spin (fuel : nat) (flag : Z) : M K unit :=
  match fuel with
  | O => diverge
  | S fuel => v ← load_mem flag 0 8; if v =? 0 then spin fuel flag else mret tt
  end.

(** The loop of [ping_8B], from [j] on: the value of [j] behind it. *)
Fixpoint ping_loop (fuel : nat) (global_mmio_start flag enable_in j loop_count : Z) : M K Z :=
  match fuel with
  | O => diverge
  | S fuel =>
      if negb (j <? loop_count) then mret j else
      stop ← flag_stop;
      if (stop : bool) then mret j else
      store_mem flag 0 8 0 ;;
      call SSync ;;
      store_mem global_mmio_start AFUEnable_AFP_REGISTER 8 enable_in ;;
      call SNoGather ;;
      spin fuel flag ;;
      ping_loop fuel global_mmio_start flag enable_in (j + 1) loop_count
  end.

(** The time, and the new [*count]. *)
Definition ping_8B (fuel : nat) (global_mmio_start flag enable_in count : Z) : M K (Z * Z) :=
  loop_count ←
    (if c_bool count then mret count
     else printf ("Running test forever, interrupt with ctrl-c" +:+ newline) [] ;; mret (2 ^ 64 - 1));
  t0 ← call STimebase;
  j ← ping_loop fuel global_mmio_start flag enable_in 0 loop_count;
  t1 ← call STimebase;
  mret (u64 (t1 - t0), j).

(** Up to its [return 0]: the rest is not reached. *)
Definition ping_OVER_8B : M K (Z * Z) :=
  fprintf_stderr ("Use of ping data bigger than 8B requires special support in the ocxl driver for mmio " +:+
    "write-combine. Disabled by default as it generates HMI on default setup" +:+ newline) [] ;;
  mret (0, 1).

(** ** [ocapi_afp3_lat] *)

(** [total_latency*1000./512] and [total_latency*1000./iterations/512]: texts
    of the C library. *)
Variable total_text : Z → string.
Variable average_text : Z → Z → string.

(** [buffer[(1024/8) + j] = 0xdafa0201dafa0100 + j], from [j] on *)
Fixpoint fill_extra (buffer j : Z) (n : nat) : M K unit :=
  match n with
  | O => mret tt
  | S n => store_mem buffer (8 * (1024 / 8 + j)) 8 (u64 (0xdafa0201dafa0100 + j)) ;; fill_extra buffer (j + 1) n
  end.

(** [buffer[k] = 0], from [k] on *)
Fixpoint clear_words (buffer k : Z) (n : nat) : M K unit :=
  match n with
  | O => mret tt
  | S n => store_mem buffer (8 * k) 8 0 ;; clear_words buffer (k + 1) n
  end.

(** After the ping. *)
Definition lat_end (v : lat_vars) (buffer : Z) (afu_h : ptr) (mmio_h : ocxl_mmio_h) (total_latency iterations : Z) :
    M K ended :=
  when (lv_verbose v) (
    call (SSleep 100000) ;;
    printf (newline +:+ "Buffer after test" +:+ newline) [] ;;
    printf_buf buffer 512) ;;
  printf ("Completed %lu iterations. Total time measured using timebase: %s ns" +:+ newline)
    [AInt iterations; AStr (total_text total_latency)] ;;
  printf ("Average roundtrip per iteration: %s ns" +:+ newline) [AStr (average_text total_latency iterations)] ;;
  write_reg ("ocxl_mmio_write64(AFUEnable_AFP_REGISTER): %d" +:+ newline) mmio_h AFUEnable_AFP_REGISTER disableAfu (
  when (lv_verbose v) (printf ("Unmap afu" +:+ newline) []) ;;
  ocxl_mmio_unmap mmio_h ;;
  when (lv_verbose v) (printf ("Free afu" +:+ newline) []) ;;
  ocxl_afu_close afu_h ;;
  mret (Returned 0)).

(** From the enable register to the ping. *)
Definition lat_ping (fuel : nat) (v : lat_vars) (buffer start : Z) (afu_h : ptr) (mmio_h : ocxl_mmio_h) : M K ended :=
  let use_large_data := negb (lv_size_ping v =? 8) in
  let enable_in := lat_enable (lv_size_st v) use_large_data (lv_extra_read v) in
  when (lv_verbose v) (
    printf "ENABLE_REG = %016lx" [AInt enable_in] ;;
    (if use_large_data then printf (tab +:+ "> use large data regs value" +:+ newline) [] else printf newline [])) ;;
  clear_words buffer 0 (Z.to_nat (lv_size_st v / 8)) ;;
  when (lv_verbose v) (
    printf ("Buffer before test" +:+ newline) [] ;;
    printf_buf buffer 512) ;;
  call SSync ;;
  when (lv_verbose v) (printf ("Calling ping_pong test" +:+ newline) []) ;;
  printf ("MMIO WR %dB (host to card) -> %sDMA WR %dB (card to host)" +:+ newline)
    [AInt (lv_size_ping v); AStr (if lv_extra_read v then "DMA RD + " else ""); AInt (lv_size_st v)] ;;
  let flag := buffer + 8 * ((lv_size_st v - 64) / 8) in
  '(total_latency, iterations) ←
    (if lv_size_ping v =? 8 then ping_8B fuel start flag enable_in (lv_iterations v) else ping_OVER_8B);
  lat_end v buffer afu_h mmio_h total_latency iterations.

(** The extra read: its register and its memory. *)
Definition lat_extra (v : lat_vars) (buffer : Z) (mmio_h : ocxl_mmio_h) (k : M K ended) : M K ended :=
  if lv_extra_read v then
    let extra_read_ea_in := u64 (buffer + 1024) in
    when (lv_verbose v) (printf ("EXTRA_READ_EA = %016lx" +:+ newline) [AInt extra_read_ea_in]) ;;
    write_reg ("ocxl_mmio_write64(AFUExtraReadEA_AFP_REGISTER): %d" +:+ newline) mmio_h AFUExtraReadEA_AFP_REGISTER
      extra_read_ea_in (
    printf ("Initializing extra_read memory ....." +:+ newline) [] ;;
    fill_extra buffer 0 64 ;;
    when (lv_verbose v) (
      printf ("Done initializing extra read memory" +:+ newline) [] ;;
      printf_buf extra_read_ea_in 512) ;;
    k)
  else k.

Definition lat_misc (v : lat_vars) (mmio_h : ocxl_mmio_h) (k : M K ended) : M K ended :=
  if negb (lv_size_ping v =? 8) then
    let misc_in := Z.shiftl 1 12 in
    when (lv_verbose v) (printf ("MISC_REG = %016lx" +:+ newline) [AInt misc_in]) ;;
    write_reg ("ocxl_mmio_write64(AFUMisc_AFP_REGISTER): %d" +:+ newline) mmio_h AFUMisc_AFP_REGISTER misc_in k
  else k.

(** The registers, from the buffer on. *)
Definition lat_start (fuel : nat) (v : lat_vars) (enc buffer start : Z) (afu_h : ptr) (mmio_h : ocxl_mmio_h) : M K ended :=
  let offsetmask := Z.shiftl 0x7F 12 in
  when (lv_verbose v) (printf ("Allocated Buffer memory @ 0x%016llx" +:+ newline) [AInt buffer]) ;;
  write_reg ("ocxl_mmio_write64(AFUEnable_AFP_REGISTER): %d" +:+ newline) mmio_h AFUEnable_AFP_REGISTER disableAfu (
  let wed_in := lat_wed buffer enc in
  when (lv_verbose v) (printf ("WED = %016lx" +:+ newline) [AInt wed_in]) ;;
  write_reg ("ocxl_mmio_write64(AFUWED_AFP_REGISTER): %d" +:+ newline) mmio_h AFUWED_AFP_REGISTER wed_in (
  when (lv_verbose v) (printf ("BUFMASK = %016lx" +:+ newline) [AInt offsetmask]) ;;
  write_reg ("ocxl_mmio_write64(AFUBufmask_AFP_REGISTER): %d" +:+ newline) mmio_h AFUBufmask_AFP_REGISTER offsetmask (
  lat_misc v mmio_h (
  when (lv_verbose v) (printf ("CONTROL_REG (reset) = %016lx" +:+ newline) [AInt resetCnt]) ;;
  write_reg ("ocxl_mmio_write64(AFUControl_AFP_REGISTER): %d" +:+ newline) mmio_h AFUControl_AFP_REGISTER resetCnt (
  lat_extra v buffer mmio_h (
  lat_ping fuel v buffer start afu_h mmio_h)))))).

(** Where the area is, and the buffer. *)
Definition lat_opened (fuel : nat) (v : lat_vars) (enc : Z) (afu_h : ptr) (mmio_h : ocxl_mmio_h) : M K ended :=
  '(err, info) ← ocxl_mmio_get_info mmio_h;
  or_return ("ocxl_mmio_get_info: %d" +:+ newline) err (
  '(start, size) ← stored_in info;
  printf ("MMIO INFO: address 0x%016lx - size 0x%lx" +:+ newline) [AInt start; AInt size] ;;
  '(rc, buffer) ← call (SMemalign BUF_512MB BUF_512MB);
  if c_bool rc then
    perror "memalign main buffer" ;;
    mret (Returned (-1))
  else lat_start fuel v enc buffer start afu_h mmio_h).

(** [size_ld] is [size_st], so its switch does not fail where the other did
    not; the numbers of tags are constants (0 and 7), and the warning about
    them is never printed. *)
Definition ocapi_afp3_lat (fuel : nat) (v : lat_vars) : M K ended :=
  match lat_size_enc (lv_size_st v) with
  | None =>
      printf (newline +:+ "Illegal value entered for --size_st argument = %d!!!!" +:+ newline) [AInt (lv_size_st v)] ;;
      mret (Returned (-1))
  | Some enc =>
      printf ("Parameters used: tags_ld=%d - size_ld=%d - tags_st=%d - size_st=%d" +:+ newline)
        [AInt 0; AInt (lv_size_st v); AInt 7; AInt (lv_size_st v)] ;;
      open_afp (lv_device v) (lv_verbose v) ("ocxl_mmio_map: %d" +:+ newline) (lat_opened fuel v enc)
  end.

(** ** [main] *)

Definition lat_help_lines (name : string) (v : lat_vars) : list (string * list arg) :=
  [(newline +:+ "Usage: %s [ options ]" +:+ newline, [AStr name]);
   (tab +:+ "-i 10000     --iterations" +:+ tab +:+ "Default=%ld" +:+ newline, [AInt (lv_iterations v)]);
   (tab +:+ "-p 64 to 512 --pong      " +:+ tab +:+ "Pong size from card to host (Bytes) Default=%d" +:+ newline,
    [AInt (lv_size_st v)]);
   (tab +:+ "-x           --extraread " +:+ tab +:+ "Add an DMA extraread before the DMA Wr Default is no" +:+ newline, []);
   (tab +:+ "-f           --forever   " +:+ tab +:+ "Run until CTRL+C, Default=no" +:+ newline, []);
   (tab +:+ "-d           --device    " +:+ tab +:+ "Device to open instead of first AFP AFU found" +:+ newline, []);
   (tab +:+ "-v           --verbose   " +:+ tab +:+ "Verbose output" +:+ newline, []);
   (tab +:+ "-h           --help      " +:+ tab +:+ "Print this message" +:+ newline, []);
   (newline, [])].

Definition lat_help (name : string) (v : lat_vars) : M K unit := printf_all (lat_help_lines name v).

(** One turn of the loop over the options: [inl] the value [main] returns.
    For [--verbose] [getopt_long] stores 1 in [verbose] and answers 0, which
    is no case of the switch. *)
Definition lat_option (name : string) (o : opt) (v : lat_vars) : M K (Z + lat_vars) :=
  let c := opt_char o in
  let set (f : Z → lat_vars) := x ← ulong_arg o; mret (inr (f x)) in
  if Ascii.eqb c "v" then mret (inr (v <| lv_verbose := true |>))
  else if Ascii.eqb c "i" then set (λ x, v <| lv_iterations := x |>)
  else if Ascii.eqb c "m" then set (λ x, v <| lv_size_ping := s32 x |>)
  else if Ascii.eqb c "p" then set (λ x, v <| lv_size_st := s32 x |>)
  else if Ascii.eqb c "x" then mret (inr (v <| lv_extra_read := true |>))
  else if Ascii.eqb c "f" then mret (inr (v <| lv_iterations := 0 |>))
  else if Ascii.eqb c "h" then lat_help name v ;; mret (inl 0)
  else if Ascii.eqb c "d" then mret (inr (v <| lv_device := opt_arg o |>))
  else lat_help name (if Ascii.eqb c Ascii.zero then v <| lv_verbose := true |> else v) ;; mret (inl (-1)).

Fixpoint lat_parse (name : string) (os : list opt) (v : lat_vars) : M K (Z + lat_vars) :=
  match os with
  | [] => mret (inr v)
  | o :: os =>
      print_diag o ;;
      r ← lat_option name o v;
      match r with inl rc => mret (inl rc) | inr v => lat_parse name os v end
  end.

Definition lat_main (fuel : nat) (name : string) (argv : list string) : M K ended :=
  r ← lat_parse name (getopt_long name lat_optstring lat_options None argv) initial_lat;
  match r with
  | inl rc => mret (Returned rc)
  | inr v =>
      caught ← call (SSignal SIGINT);
      when (negb caught) (printf (newline +:+ "can't catch SIGINT" +:+ newline) []) ;;
      caught ← call (SSignal SIGTERM);
      when (negb caught) (printf (newline +:+ "can't catch SIGTERM" +:+ newline) []) ;;
      ocapi_afp3_lat fuel v
  end.

End latency.
