(* ===== verification/AfpLatencyRun.v ===== *)
(** * AfpLatencyRun: rules for the latency measurement

    The lemmas on afutests/afp/ocxl_afp3_latency.c: a ping ends once the AFU
    has answered, the loop makes as many pings as it counts, and the program
    ends. *)

From S2P Require Import Prelude Format Types World Logic Messages Buffer Ledger Mmio MmioFacts.
From S2P Require Import MmioAccess Irq IrqFacts IrqTable Event Names Afu AfuInv EventFacts Fuel.
From S2P Require Import AfuClose AfuOpen Trace Api Client Memcpy Getopt GetoptLong MemcpySample.
From S2P Require Import MemcpyRun MemcpyTestRun Afp AfpRun AfpLatency.
Open Scope Z_scope.

(** A load of the flag that finds no answer yet. *)
Definition zero_load `{Abi} (flag : Z) (e : event) : bool :=
  match e with
  | Ev c r =>
      match c in sys R return R → bool with
      | SLoad addr n => λ bs, (addr =? flag) && (n =? 8)%nat && (of_native_bytes bs =? 0)
      | _ => λ _, false
      end r
  end.

(** The AFU answers: there are finitely many such loads. *)
Class Pongs (K : Type) `{Platform K} `{Abi} := {
  zeros : Z → K → nat;
  zeros_ranked flag :: Ranked (zeros flag) (zero_load flag)
}.

(** ** Fuel changes no result *)

Section fuel.
Context {K : Type} `{Platform K} `{Abi}.

Lemma approx_spin n n' flag : (n <= n')%nat → approx (K := K) (spin n flag) (spin n' flag).
Proof.
  revert n'. induction n as [|n IH]; intros [|n'] Hn; [apply approx_diverge..|lia|].
  assert (n <= n')%nat by lia. simpl. approximate.
Qed.

#[local] Hint Resolve approx_spin : fuel.

Lemma approx_ping_loop n n' start flag enable j count :
  (n <= n')%nat → approx (K := K) (ping_loop n start flag enable j count) (ping_loop n' start flag enable j count).
Proof.
  revert n' j. induction n as [|n IH]; intros [|n'] j Hn; [apply approx_diverge..|lia|].
  assert (n <= n')%nat by lia. simpl. approximate.
Qed.

#[local] Hint Resolve approx_ping_loop : fuel.

Lemma approx_ping_8B n n' start flag enable count :
  (n <= n')%nat → approx (K := K) (ping_8B n start flag enable count) (ping_8B n' start flag enable count).
Proof. intros Hn. unfold ping_8B. approximate. Qed.

#[local] Hint Resolve approx_ping_8B : fuel.

Lemma approx_lat_main tt_ at_ n n' name argv :
  (n <= n')%nat → approx (K := K) (lat_main tt_ at_ n name argv) (lat_main tt_ at_ n' name argv).
Proof.
  intros Hn. unfold lat_main, ocapi_afp3_lat, open_afp, or_return, lat_opened, or_return, lat_start, lat_misc, lat_extra,
    lat_ping, write_reg, or_return. approximate.
Qed.

End fuel.

#[export] Hint Resolve approx_ping_loop approx_ping_8B : fuel.

Section latency.
Context {K : Type} `{Platform K} `{Abi} `{!EventLaws K} `{!NonZeroHandles K} `{!ByteLoads K} `{!ShortNames K}.
Context `{!AlignedMemory K} `{!Pongs K}.
Implicit Types (w : world K).

(** ** The ping *)

(** The loads of the flag, the last of which found the answer. *)
Definition pong (flag : Z) (es : list event) : Prop :=
  ∃ bss bs, es = map (Ev (SLoad (flag + 0) 8)) bss ++ [Ev (SLoad (flag + 0) 8) bs] ∧
    Forall (λ bs, of_native_bytes bs = 0) bss ∧ of_native_bytes bs ≠ 0.

Lemma zeros_ran flag es w w' :
  ran es w w' → (zeros flag (w_os w') + hits (zero_load flag) es <= zeros flag (w_os w))%nat.
Proof. apply rank_ran, zeros_ranked. Qed.

Lemma wp_spin fuel flag w others p a areas irqs Q :
  client w others p a areas irqs → flag ≠ NULL → (zeros flag (w_os w) < fuel)%nat →
  (∀ es w', client w' others p a areas irqs → ran es w w' → pong flag es → Q tt w') → wp (spin fuel flag) Q w.
Proof.
  revert w Q. induction fuel as [|fuel IH]; intros w Q Hcl Hf Hfuel HQ; [lia|]. cbn [spin].
  apply wp_bind. eapply wp_client_load; [exact Hcl|done|]. intros bs w1 Hcl1 D1.
  pose proof (ran_did _ _ _ _ D1) as Hr1. destruct (Z.eqb_spec (of_native_bytes bs) 0) as [E|E].
  - pose proof (zeros_ran flag _ _ _ Hr1) as Hz. unfold hits in Hz. simpl in Hz.
    rewrite Z.add_0_r, Z.eqb_refl, E in Hz. simpl in Hz. apply IH; [done|done|lia|].
    intros es w' Hcl' Hr' (bss & bs' & -> & Hz' & Hb). eapply HQ; [done|by eapply ran_trans|].
    exists (bs :: bss), bs'. by split_and!; [|constructor|].
  - eapply wp_ret, HQ; [done|exact Hr1|]. by exists [], bs.
Qed.

(** One ping: no signal, the flag cleared, a barrier, the enable register
    written, and the answer. *)
Definition ping (start flag enable : Z) (es : list event) : Prop :=
  ∃ es', es = [Ev SPendingSignal None; Ev (SStore (flag + 0) (native_bytes 8 0)) tt; Ev SSync tt;
               Ev (SStore (start + AFUEnable_AFP_REGISTER) (native_bytes 8 enable)) tt; Ev SNoGather tt] ++ es' ∧
  pong flag es'.

(** [n] pings, all that were asked for or up to a signal. *)
Definition pings (start flag enable count n : Z) (es : list event) : Prop :=
  ∃ parts tail, es = concat parts ++ tail ∧ Z.of_nat (length parts) = n ∧ Forall (ping start flag enable) parts ∧
    (n = count ∧ tail = [] ∨ n < count ∧ ∃ s, tail = [Ev SPendingSignal (Some s)]).

Lemma wp_flag_stop w others p a areas irqs Q :
  client w others p a areas irqs →
  (∀ s w', client w' others p a areas irqs → ran [Ev SPendingSignal (Some s)] w w' → Q true w') →
  (∀ w', client w' others p a areas irqs → did SPendingSignal None w w' → Q false w') → wp flag_stop Q w.
Proof.
  intros Hcl Hstop Hgo. apply wp_bind. eapply wp_client_call; [exact Hcl|done|done|done|done|].
  intros [s|] w1 Hcl1 D1; [|by apply wp_ret, Hgo].
  apply wp_bind, wp_printf; [done|]. intros w2 Hq2. eapply wp_ret, Hstop; [by eapply client_quiet|].
  eapply ran_quiet_r; [exact (ran_did _ _ _ _ D1)|done].
Qed.

Lemma wp_ping_loop fuel start flag enable j count w others p a areas irqs Q :
  client w others p a areas irqs → flag ≠ NULL → start ≠ NULL → j <= count →
  (Z.to_nat (count - j) + zeros flag (w_os w) < fuel)%nat →
  (∀ n es w', client w' others p a areas irqs → ran es w w' → pings start flag enable (count - j) n es → Q (j + n) w') →
  wp (ping_loop fuel start flag enable j count) Q w.
Proof.
  revert j w Q. induction fuel as [|fuel IH]; intros j w Q Hcl Hf Hs Hj Hfuel HQ; [lia|]. cbn [ping_loop].
  destruct (Z.ltb_spec j count) as [Hlt|Hge]; simpl.
  2: { apply wp_ret. rewrite <-(Z.add_0_r j). apply (HQ 0 []); [done|apply ran_refl|].
       exists [], []. split_and!; [done|done|constructor|left; split; [lia|done]]. }
  apply wp_bind. eapply wp_flag_stop; [exact Hcl|..].
  { intros s w1 Hcl1 Hr1. apply wp_ret. rewrite <-(Z.add_0_r j). apply (HQ 0 _ _ Hcl1 Hr1).
    exists [], [Ev SPendingSignal (Some s)]. split_and!; [done|done|constructor|right; split; [lia|by exists s]]. }
  intros w1 Hcl1 D1. cbv iota.
  apply wp_bind. eapply wp_client_store; [exact Hcl1|done|]. intros w2 Hcl2 D2.
  apply wp_bind. eapply wp_client_call; [exact Hcl2|done|done|done|done|]. intros [] w3 Hcl3 D3.
  apply wp_bind. eapply wp_client_store; [exact Hcl3|done|]. intros w4 Hcl4 D4.
  apply wp_bind. eapply wp_client_call; [exact Hcl4|done|done|done|done|]. intros [] w5 Hcl5 D5.
  assert (ran [Ev SPendingSignal None; Ev (SStore (flag + 0) (native_bytes 8 0)) tt; Ev SSync tt;
    Ev (SStore (start + AFUEnable_AFP_REGISTER) (native_bytes 8 enable)) tt; Ev SNoGather tt] w w5) as Hr5.
  { eapply ran_cons; [exact D1|]. eapply ran_cons; [exact D2|]. eapply ran_cons; [exact D3|].
    eapply ran_cons; [exact D4|]. exact (ran_did _ _ _ _ D5). }
  pose proof (zeros_ran flag _ _ _ Hr5) as Hz5.
  apply wp_bind. eapply wp_spin; [exact Hcl5|done|lia|]. intros es6 w6 Hcl6 Hr6 Hpong.
  pose proof (zeros_ran flag _ _ _ Hr6) as Hz6.
  apply IH; [done|done|done|lia|lia|]. intros n es w' Hcl' Hr' (parts & tail & -> & Hn & Hp & Ht).
  replace (j + 1 + n) with (j + (1 + n)) by lia. set (part := _ :: _) in Hr5.
  apply (HQ _ ((part ++ es6) ++ concat parts ++ tail)); [done|by repeat (eapply ran_trans; [|eassumption])|].
  exists ((part ++ es6) :: parts), tail. split_and!; [by rewrite (app_assoc _ (concat parts) tail)|simpl; lia|constructor; [by exists es6|done]|].
  destruct Ht as [[-> ->]|[Hlt' Ht]]; [left; split; [lia|done]|right; split; [lia|done]].
Qed.

(** The pings of a run; 0 stands for as many as a 64-bit counter has. *)
Definition ping_count (iterations : Z) : Z := if iterations =? 0 then 2 ^ 64 - 1 else iterations.

Lemma terminates_ping_8B start flag enable count w others p a areas irqs Q :
  client w others p a areas irqs → flag ≠ NULL → start ≠ NULL → 0 <= count →
  (∀ t0 t1 n es w', client w' others p a areas irqs → ran ([Ev STimebase t0] ++ es ++ [Ev STimebase t1]) w w' →
     pings start flag enable (ping_count count) n es → Q (u64 (t1 - t0), n) w') →
  terminates (λ fuel, ping_8B fuel start flag enable count) Q w.
Proof.
  intros Hcl Hf Hs Hc HQ. unfold ping_8B. apply terminates_bind_wp.
  apply (wp_mono _ (λ loop_count w', quiet w w' ∧ loop_count = ping_count count)).
  2: { unfold ping_count, c_bool. destruct (count =? 0); simpl; [|by apply wp_ret].
       apply wp_bind, wp_printf; [done|]. intros w1 Hq. by apply wp_ret. }
  intros loop_count w1 [Hq1 ->]. apply terminates_bind_wp.
  eapply wp_client_call; [by eapply client_quiet|done|done|done|done|]. intros t0 w2 Hcl2 D2.
  apply terminates_bind; [intros n n' Hn; auto with fuel|].
  apply (terminates_from _ _ _ (S (Z.to_nat (ping_count count - 0) + zeros flag (w_os w2)))). intros fuel Hfuel.
  eapply wp_ping_loop; [exact Hcl2|done|done| |lia|].
  { unfold ping_count. destruct (count =? 0); lia. }
  intros n es w3 Hcl3 Hr3 Hp. apply terminates_wp, wp_bind.
  eapply wp_client_call; [exact Hcl3|done|done|done|done|]. intros t1 w4 Hcl4 D4. apply wp_ret.
  rewrite Z.sub_0_r in Hp. apply (HQ t0 t1 n es); [done| |exact Hp].
  eapply ran_quiet_l; [exact Hq1|]. eapply ran_cons; [exact D2|]. eapply ran_trans; [exact Hr3|].
  exact (ran_did _ _ _ _ D4).
Qed.

(** ** Output *)

(** The program looks at its memory, and sleeps, in order to print it. *)
Definition looked (e : event) : bool :=
  match e with Ev (SLoad _ _) _ | Ev (SSleep _) _ => true | _ => false end.

Definition looks w w' : Prop := ∃ es, Forall looked es ∧ ran es w w'.

#[local] Instance looks_preorder : PreOrder looks.
Proof.
  split.
  - intros w. exists []. split; [done|apply ran_refl].
  - intros w1 w2 w3 (es1 & Hl1 & Hr1) (es2 & Hl2 & Hr2). exists (es1 ++ es2).
    split; [by apply Forall_app_2|by eapply ran_trans].
Qed.

Lemma looks_quiet w w' : quiet w w' → looks w w'.
Proof. intros Hq. exists []. split; [done|by apply ran_quiet]. Qed.

Lemma looks_did {R : Set} (c : sys R) r w w' : looked (Ev c r) → did c r w w' → looks w w'.
Proof. intros Hl D. exists [Ev c r]. split; [by constructor|exact (ran_did _ _ _ _ D)]. Qed.

Lemma wp_printf_bytes addr j n w others p a areas irqs Q :
  client w others p a areas irqs → 0 < addr →
  (∀ w', client w' others p a areas irqs → looks w w' → Q tt w') → wp (printf_bytes addr j n) Q w.
Proof.
  revert addr j w Q. induction n as [|n IH]; intros addr j w Q Hcl Ha HQ; cbn [printf_bytes].
  { apply wp_printf; [done|]. intros w1 Hq. apply HQ; [by eapply client_quiet|by apply looks_quiet]. }
  apply wp_bind. eapply wp_verbose; [exact Hcl|done|]. intros w1 Hcl1 Hq1.
  apply wp_bind. eapply wp_client_load; [exact Hcl1|unfold NULL; lia|]. intros bs w2 Hcl2 D2.
  apply wp_bind, wp_printf; [done|]. intros w3 Hq3. apply IH; [by eapply client_quiet|lia|]. intros w4 Hcl4 T4.
  apply HQ; [done|]. etrans; [by apply looks_quiet|]. etrans; [by eapply looks_did; [|exact D2]|].
  etrans; [by apply looks_quiet|done].
Qed.

Lemma wp_printf_lines addr n w others p a areas irqs Q :
  client w others p a areas irqs → 0 < addr →
  (∀ w', client w' others p a areas irqs → looks w w' → Q tt w') → wp (printf_lines addr n) Q w.
Proof.
  revert addr w Q. induction n as [|n IH]; intros addr w Q Hcl Ha HQ; cbn [printf_lines].
  { apply wp_printf; [done|]. intros w1 Hq. apply HQ; [by eapply client_quiet|by apply looks_quiet]. }
  apply wp_bind, wp_printf; [done|]. intros w1 Hq1.
  apply wp_bind. eapply wp_printf_bytes; [by eapply client_quiet|done|]. intros w2 Hcl2 T2.
  apply IH; [done|lia|]. intros w3 Hcl3 T3. apply HQ; [done|].
  etrans; [by apply looks_quiet|]. by etrans.
Qed.

(** What is only looked at with [--verbose]. *)
Definition shown (verbose : bool) (es : list event) : Prop := Forall looked es ∧ (verbose = false → es = []).

(** A block that is run with [--verbose], a text and then more. *)
Lemma wp_verbose_then (b : bool) (m : M K unit) w others p a areas irqs Q :
  client w others p a areas irqs →
  (∀ w', client w' others p a areas irqs → wp m (λ _ w'', client w'' others p a areas irqs ∧ looks w' w'') w') →
  (∀ es w', client w' others p a areas irqs → shown b es → ran es w w' → Q tt w') → wp (when b m) Q w.
Proof.
  intros Hcl Hm HQ. apply wp_when; intros Hb; [|by apply (HQ []); [done|split|apply ran_refl]].
  eapply wp_mono; [|by apply Hm]. intros [] w2 [Hcl2 (es & Hl & Hr)]. apply (HQ es); [done| |done]. split; [done|by rewrite Hb].
Qed.

Lemma wp_text_then fmt args (m : M K unit) w others p a areas irqs :
  client w others p a areas irqs → conforms fmt args = true →
  (∀ w', client w' others p a areas irqs → wp m (λ _ w'', client w'' others p a areas irqs ∧ looks w' w'') w') →
  wp (printf fmt args ;; m) (λ _ w'', client w'' others p a areas irqs ∧ looks w w'') w.
Proof.
  intros Hcl Hf Hm. apply wp_bind, wp_printf; [done|]. intros w1 Hq1. eapply wp_mono; [|apply Hm; by eapply client_quiet].
  intros [] w2 [Hcl2 T2]. split; [done|]. etrans; [by apply looks_quiet|done].
Qed.

Lemma wp_printf_buf addr size w others p a areas irqs :
  client w others p a areas irqs → 0 < addr →
  wp (printf_buf addr size) (λ _ w', client w' others p a areas irqs ∧ looks w w') w.
Proof. intros Hcl Ha. eapply wp_printf_lines; [exact Hcl|done|]. by split. Qed.

(** ** Memory *)

(** Stores of 64-bit words in the buffer: [n] of them from index [k] on. *)
Fixpoint words_stored (value : Z → Z) (buffer k : Z) (n : nat) : list event :=
  match n with
  | O => []
  | S n => Ev (SStore (buffer + 8 * k) (native_bytes 8 (value k))) tt :: words_stored value buffer (k + 1) n
  end.

(** The memory of the extra read, 1024 bytes into the buffer. *)
Definition extra_word (k : Z) : Z := 0xdafa0201dafa0100 + (k - 128).

Lemma wp_fill_extra buffer j n w others p a areas irqs Q :
  client w others p a areas irqs → buffer ≠ NULL → 0 <= j → j + Z.of_nat n <= 2 ^ 32 →
  (∀ w', client w' others p a areas irqs → ran (words_stored extra_word buffer (128 + j) n) w w' → Q tt w') →
  wp (fill_extra buffer j n) Q w.
Proof.
  revert j w Q. induction n as [|n IH]; intros j w Q Hcl Hb Hj0 Hj HQ; cbn [fill_extra].
  { apply wp_ret, HQ; [done|apply ran_refl]. }
  apply wp_bind. eapply wp_client_store; [exact Hcl|done|]. intros w1 Hcl1 D1. apply IH; [done|done|lia|lia|].
  intros w2 Hcl2 Hr2. apply HQ; [done|]. cbn [words_stored]. eapply ran_cons.
  - replace (extra_word (128 + j)) with (u64 (0xdafa0201dafa0100 + j)); [exact D1|].
    unfold extra_word, u64, uwrap. rewrite Z.mod_small; lia.
  - by replace (128 + j + 1) with (128 + (j + 1)) by lia.
Qed.

Lemma wp_clear_words buffer k n w others p a areas irqs Q :
  client w others p a areas irqs → buffer ≠ NULL →
  (∀ w', client w' others p a areas irqs → ran (words_stored (λ _, 0) buffer k n) w w' → Q tt w') →
  wp (clear_words buffer k n) Q w.
Proof.
  revert k w Q. induction n as [|n IH]; intros k w Q Hcl Hb HQ; cbn [clear_words].
  { apply wp_ret, HQ; [done|apply ran_refl]. }
  apply wp_bind. eapply wp_client_store; [exact Hcl|done|]. intros w1 Hcl1 D1. apply IH; [done|done|].
  intros w2 Hcl2 Hr2. apply HQ; [done|]. cbn [words_stored]. by eapply ran_cons.
Qed.

(** ** A measurement *)

Context (total_text : Z → string) (average_text : Z → Z → string).

Lemma wp_lat_end v buffer total n w others p a areas irqs i x Q :
  client w others p a areas irqs → others !! p = None → areas !! i = Some x → 0 < buffer →
  (∀ rc w', left_open others rc w' → Q (Returned rc) w') →
  (∀ look post w', sys_inv w' others → shown (lv_verbose v) look →
     ran (look ++ reg_write x AFUEnable_AFP_REGISTER disableAfu ++ post) w w' → Q (Returned 0) w') →
  wp (lat_end total_text average_text v buffer p (handle_of a i) total n) Q w.
Proof.
  intros Hcl Hp Hx Hb Hbad Hok. apply wp_bind. eapply wp_verbose_then; [exact Hcl|..].
  { intros w' Hcl'. apply wp_bind.
    eapply wp_client_call; [exact Hcl'|done|done|done|done|]. intros [] w1 Hcl1 D1.
    eapply wp_mono; [|eapply wp_text_then; [exact Hcl1|done|intros w'' Hcl''; by apply wp_printf_buf]].
    intros [] w3 [Hcl3 T3]. split; [done|]. etrans; [by eapply looks_did; [|exact D1]|done]. }
  intros look w1 Hcl1 Hlook Hr1. apply wp_bind, wp_printf; [done|]. intros w2 Hq2.
  apply wp_bind, wp_printf; [done|]. intros w3 Hq3.
  eapply wp_write_reg; [by eapply client_quiet; [eapply client_quiet|]|exact Hp|exact Hx|done|done| |exact Hbad].
  intros w4 Hcl4 Hr4. apply wp_bind. eapply wp_verbose; [exact Hcl4|done|]. intros w5 Hcl5 Hq5.
  apply wp_bind, wp_since; [auto with traced|].
  eapply wp_sys_unmap; [apply Hcl5|apply lookup_insert_eq|exact Hx|]. intros areas' w6 Hs6 [es6 Hr6].
  rewrite insert_insert_eq in Hs6. apply wp_bind.
  apply (wp_mono _ (λ _ w', quiet w6 w')).
  2: { apply wp_when; intros _; [by apply wp_printf|reflexivity]. }
  intros [] w7 Hq7. apply wp_bind, wp_since; [auto with traced|].
  eapply wp_closable_close; [eapply closable_quiet; [by eexists|exact Hq7]|exact Hp|]. intros w8 Hs8 [es8 Hr8].
  apply wp_ret. apply (Hok look (es6 ++ es8)); [done|done|]. eapply ran_trans; [exact Hr1|].
  eapply ran_quiet_l; [exact Hq2|]. eapply ran_quiet_l; [exact Hq3|]. eapply ran_trans; [exact Hr4|].
  eapply ran_quiet_l; [exact Hq5|]. eapply ran_trans; [exact Hr6|]. by eapply ran_quiet_l.
Qed.

(** Values of the options the program can be run with. *)
Definition lat_ok (v : lat_vars) : Prop := 0 <= lv_iterations v.

(** The bits of the enable register: the command, data of 512 bytes, an extra
    read. *)
Definition enable_bits (v : lat_vars) : Z :=
  2 ^ 63 + 2 ^ 62 + (if lv_size_st v =? 512 then 2 ^ 61 + 2 ^ 58 else 0) + (if lv_extra_read v then 2 ^ 59 else 0).

Lemma lat_enable_bits v : lat_enable (lv_size_st v) false (lv_extra_read v) = enable_bits v.
Proof. unfold lat_enable, enable_bits. by destruct (_ =? 512), (lv_extra_read v). Qed.

(** The timed part of a run.  Only pings of 8 bytes are made: with any other
    size there is none. *)
Definition pinged (v : lat_vars) (buffer start : Z) (es : list event) : Prop :=
  if lv_size_ping v =? 8 then
    ∃ t0 t1 n mid, es = [Ev STimebase t0] ++ mid ++ [Ev STimebase t1] ∧
      pings start (buffer + (lv_size_st v - 64)) (enable_bits v) (ping_count (lv_iterations v)) n mid
  else es = [].

(** What is asked of the device from the extra read on: the words of the
    buffer cleared, a barrier, the timed part, the AFU stopped. *)
Definition lat_tail (v : lat_vars) (x : ocxl_mmio_area) (buffer : Z) (es : list event) : Prop :=
  ∃ look1 timed look2 post,
    es = words_stored (λ _, 0) buffer 0 (Z.to_nat (lv_size_st v / 8)) ++ look1 ++ [Ev SSync tt] ++ timed ++ look2 ++
         reg_write x AFUEnable_AFP_REGISTER disableAfu ++ post ∧
    shown (lv_verbose v) look1 ∧ shown (lv_verbose v) look2 ∧ pinged v buffer (area_start x) timed.

(** The last word of the pong, in bytes. *)
Lemma flag_offset size enc : lat_size_enc size = Some enc → 8 * ((size - 64) / 8) = size - 64 ∧ 0 <= size - 64.
Proof.
  unfold lat_size_enc. intros E. destruct (Z.eqb_spec size 64) as [->|]; [done|].
  destruct (Z.eqb_spec size 128) as [->|]; [done|]. destruct (Z.eqb_spec size 256) as [->|]; [done|].
  by destruct (Z.eqb_spec size 512) as [->|].
Qed.

Lemma terminates_lat_ping v enc buffer w others p a areas irqs i x Q :
  client w others p a areas irqs → others !! p = None → areas !! i = Some x → area_start x ≠ NULL → 0 < buffer →
  lat_ok v → lat_size_enc (lv_size_st v) = Some enc →
  (∀ rc w', left_open others rc w' → Q (Returned rc) w') →
  (∀ es w', sys_inv w' others → lat_tail v x buffer es → ran es w w' → Q (Returned 0) w') →
  terminates (λ fuel, lat_ping total_text average_text fuel v buffer (area_start x) p (handle_of a i)) Q w.
Proof.
  intros Hcl Hp Hx Hst Hb Hv Henc Hbad Hok. unfold lat_ping.
  destruct (flag_offset _ _ Henc) as [-> Hsz]. set (flag := buffer + (lv_size_st v - 64)).
  assert (buffer ≠ NULL) as Hb0 by (unfold NULL; lia).
  assert (flag ≠ NULL) as Hflag by (unfold NULL, flag; lia).
  apply terminates_bind_wp.
  apply (wp_mono _ (λ _ w', client w' others p a areas irqs ∧ quiet w w')).
  2: { apply wp_when; intros _; [|done]. apply wp_bind, wp_printf; [done|]. intros w' Hq. destruct (negb _);
       (apply wp_printf; [done|]; intros w'' Hq'; split; [|by etrans]; by eapply client_quiet; [eapply client_quiet|]). }
  intros [] w1 [Hcl1 Hq1]. apply terminates_bind_wp. eapply wp_clear_words; [exact Hcl1|done|]. intros w2 Hcl2 Hr2.
  apply terminates_bind_wp. eapply wp_verbose_then; [exact Hcl2| |].
  { intros w' Hcl'. apply wp_text_then; [done|done|]. intros w'' Hcl''. by apply wp_printf_buf. }
  intros look1 w3 Hcl3 Hl1 Hr3. apply terminates_bind_wp. eapply wp_client_call; [exact Hcl3|done|done|done|done|].
  intros [] w4 Hcl4 D4. apply terminates_bind_wp. eapply wp_verbose; [exact Hcl4|done|]. intros w5 Hcl5 Hq5.
  apply terminates_bind_wp, wp_printf; [done|]. intros w6 Hq6.
  pose proof (client_quiet _ _ _ _ _ _ _ Hcl5 Hq6) as Hcl6.
  assert (∀ total n timed w7, client w7 others p a areas irqs → ran timed w6 w7 → pinged v buffer (area_start x) timed →
    terminates (λ _ : nat, lat_end total_text average_text v buffer p (handle_of a i) total n) Q w7) as Hend.
  { intros total n timed w7 Hcl7 Hr7 Hpi.
    eapply terminates_wp, wp_lat_end; [exact Hcl7|exact Hp|exact Hx|done|exact Hbad|].
    intros look2 post w' Hs' Hl2 Hr'. eapply Hok; [done|by exists look1, timed, look2, post|].
    eapply ran_quiet_l; [exact Hq1|]. eapply ran_trans; [exact Hr2|]. eapply ran_trans; [exact Hr3|].
    eapply ran_cons; [exact D4|]. eapply ran_quiet_l; [exact Hq5|]. eapply ran_quiet_l; [exact Hq6|].
    by eapply ran_trans. }
  unfold pinged in Hend. destruct (Z.eqb_spec (lv_size_ping v) 8) as [E8|E8]; simpl negb.
  - rewrite lat_enable_bits. apply terminates_bind; [intros n n' Hn; auto with fuel|].
    eapply terminates_ping_8B; [exact Hcl6|exact Hflag|exact Hst|exact Hv|].
    intros t0 t1 n mid w7 Hcl7 Hr7 Hpi. eapply Hend; [exact Hcl7|exact Hr7|by exists t0, t1, n, mid].
  - apply terminates_bind_wp, wp_bind, wp_fprintf_stderr; [done|]. intros w7 Hq7. apply wp_ret.
    eapply (Hend _ _ []); [by eapply client_quiet|by apply ran_quiet|done].
Qed.

(** The registers that are only written with some options. *)
Definition misc_part (v : lat_vars) (x : ocxl_mmio_area) : list event :=
  if lv_size_ping v =? 8 then [] else reg_write x AFUMisc_AFP_REGISTER 0x1000.

Definition extra_part (v : lat_vars) (x : ocxl_mmio_area) (buffer : Z) (look : list event) : list event :=
  if lv_extra_read v then
    reg_write x AFUExtraReadEA_AFP_REGISTER (buffer + 1024) ++ words_stored extra_word buffer 128 64 ++ look
  else [].

Lemma terminates_lat_misc v w others p a areas irqs i x (k : nat → M K ended) Q :
  client w others p a areas irqs → others !! p = None → areas !! i = Some x →
  (∀ rc w', left_open others rc w' → Q (Returned rc) w') →
  (∀ w', client w' others p a areas irqs → ran (misc_part v x) w w' → terminates k Q w') →
  terminates (λ fuel, lat_misc v (handle_of a i) (k fuel)) Q w.
Proof.
  intros Hcl Hp Hx Hbad Hok. unfold lat_misc. unfold misc_part in Hok.
  destruct (lv_size_ping v =? 8); simpl negb; [apply Hok; [done|apply ran_refl]|].
  apply terminates_bind_wp. eapply wp_verbose; [exact Hcl|done|]. intros w1 Hcl1 Hq1.
  eapply terminates_write_reg; [exact Hcl1|exact Hp|exact Hx|done|done| |exact Hbad]. intros w2 Hcl2 Hr2.
  apply Hok; [done|]. by eapply ran_quiet_l.
Qed.

Lemma terminates_lat_extra v buffer w others p a areas irqs i x (k : nat → M K ended) Q :
  client w others p a areas irqs → others !! p = None → areas !! i = Some x → 0 < buffer < 2 ^ 63 →
  (∀ rc w', left_open others rc w' → Q (Returned rc) w') →
  (∀ look w', client w' others p a areas irqs → shown (lv_verbose v) look →
     ran (extra_part v x buffer look) w w' → terminates k Q w') →
  terminates (λ fuel, lat_extra v buffer (handle_of a i) (k fuel)) Q w.
Proof.
  intros Hcl Hp Hx Hb Hbad Hok. unfold lat_extra. unfold extra_part in Hok.
  destruct (lv_extra_read v); [|by apply (Hok []); [done|split|apply ran_refl]].
  assert (u64 (buffer + 1024) = buffer + 1024) as -> by (unfold u64, uwrap; rewrite Z.mod_small; lia).
  apply terminates_bind_wp. eapply wp_verbose; [exact Hcl|done|]. intros w1 Hcl1 Hq1.
  eapply terminates_write_reg; [exact Hcl1|exact Hp|exact Hx|done|done| |exact Hbad]. intros w2 Hcl2 Hr2.
  apply terminates_bind_wp, wp_printf; [done|]. intros w3 Hq3.
  apply terminates_bind_wp. eapply wp_fill_extra; [by eapply client_quiet|unfold NULL; lia|done|done|].
  intros w4 Hcl4 Hr4. apply terminates_bind_wp. eapply wp_verbose_then; [exact Hcl4| |].
  { intros w' Hcl'. apply wp_text_then; [done|done|]. intros w'' Hcl''. apply wp_printf_buf; [done|lia]. }
  intros look w5 Hcl5 Hl Hr5. apply (Hok look); [done|done|]. eapply ran_quiet_l; [exact Hq1|].
  eapply ran_trans; [exact Hr2|]. eapply ran_quiet_l; [exact Hq3|]. by eapply ran_trans.
Qed.

(** What a measurement that was done asked of the device, in order: the AFU
    stopped, its registers, the extra read, the pings, the AFU stopped. *)
Definition lat_measured (v : lat_vars) (enc : Z) (es : list event) : Prop :=
  ∃ pre x buffer look tail,
    es = pre ++ reg_write x AFUEnable_AFP_REGISTER disableAfu ++
         reg_write x AFUWED_AFP_REGISTER (u64 (buffer + enc * 128 + 7 * 8 + enc * 2)) ++
         reg_write x AFUBufmask_AFP_REGISTER 0x7F000 ++ misc_part v x ++
         reg_write x AFUControl_AFP_REGISTER resetCnt ++ extra_part v x buffer look ++ tail ∧
    buffer mod BUF_512MB = 0 ∧ shown (lv_verbose v) look ∧ lat_tail v x buffer tail.

Lemma lat_measured_after v enc es es' : lat_measured v enc es → lat_measured v enc (es' ++ es).
Proof.
  intros (pre & x & buffer & look & tail & -> & Hm). exists (es' ++ pre), x, buffer, look, tail.
  by rewrite <-app_assoc.
Qed.

Lemma lat_wed_sum buffer enc : lat_wed buffer enc = u64 (buffer + enc * 128 + 7 * 8 + enc * 2).
Proof. unfold lat_wed. rewrite !Z.shiftl_mul_pow2 by done. f_equal. lia. Qed.

Lemma terminates_lat_start v enc buffer w others p a areas irqs i x Q :
  client w others p a areas irqs → others !! p = None → areas !! i = Some x → area_start x ≠ NULL →
  0 < buffer < 2 ^ 63 → buffer mod BUF_512MB = 0 → lat_ok v → lat_size_enc (lv_size_st v) = Some enc →
  (∀ rc w', left_open others rc w' → Q (Returned rc) w') →
  (∀ es w', sys_inv w' others → ran es w w' → lat_measured v enc es → Q (Returned 0) w') →
  terminates (λ fuel, lat_start total_text average_text fuel v enc buffer (area_start x) p (handle_of a i)) Q w.
Proof.
  intros Hcl Hp Hx Hst Hb Hmod Hv Henc Hbad Hok. unfold lat_start.
  apply terminates_bind_wp. eapply wp_verbose; [exact Hcl|done|]. intros w1 Hcl1 Hq1.
  eapply terminates_write_reg; [exact Hcl1|exact Hp|exact Hx|done|done| |exact Hbad]. intros w2 Hcl2 Hr2. cbv zeta.
  apply terminates_bind_wp. eapply wp_verbose; [exact Hcl2|done|]. intros w3 Hcl3 Hq3.
  eapply terminates_write_reg; [exact Hcl3|exact Hp|exact Hx|done|done| |exact Hbad]. intros w4 Hcl4 Hr4.
  apply terminates_bind_wp. eapply wp_verbose; [exact Hcl4|done|]. intros w5 Hcl5 Hq5.
  eapply terminates_write_reg; [exact Hcl5|exact Hp|exact Hx|done|done| |exact Hbad]. intros w6 Hcl6 Hr6.
  eapply terminates_lat_misc; [exact Hcl6|exact Hp|exact Hx|exact Hbad|]. intros w7 Hcl7 Hr7.
  apply terminates_bind_wp. eapply wp_verbose; [exact Hcl7|done|]. intros w8 Hcl8 Hq8.
  eapply terminates_write_reg; [exact Hcl8|exact Hp|exact Hx|done|done| |exact Hbad]. intros w9 Hcl9 Hr9.
  eapply terminates_lat_extra; [exact Hcl9|exact Hp|exact Hx|exact Hb|exact Hbad|]. intros look w10 Hcl10 Hl Hr10.
  eapply terminates_lat_ping; [exact Hcl10|exact Hp|exact Hx|exact Hst|apply Hb|exact Hv|exact Henc|exact Hbad|].
  intros tail w' Hs' Ht Hr'. eapply Hok; [done| |by exists [], x, buffer, look, tail]. rewrite app_nil_l, <-lat_wed_sum.
  eapply ran_quiet_l; [exact Hq1|]. eapply ran_trans; [exact Hr2|].
  eapply ran_quiet_l; [exact Hq3|]. eapply ran_trans; [exact Hr4|]. eapply ran_quiet_l; [exact Hq5|].
  eapply ran_trans; [exact Hr6|]. eapply ran_trans; [exact Hr7|]. eapply ran_quiet_l; [exact Hq8|].
  eapply ran_trans; [exact Hr9|]. by eapply ran_trans.
Qed.

Lemma terminates_lat_opened v enc w others p a areas irqs i x Q :
  client w others p a areas irqs → others !! p = None → areas !! i = Some x →
  lat_ok v → lat_size_enc (lv_size_st v) = Some enc →
  (∀ rc w', left_open others rc w' → Q (Returned rc) w') →
  (∀ es w', sys_inv w' others → ran es w w' → lat_measured v enc es → Q (Returned 0) w') →
  terminates (λ fuel, lat_opened total_text average_text fuel v enc p (handle_of a i)) Q w.
Proof.
  intros Hcl Hp Hx Hv Henc Hbad Hok. unfold lat_opened. destruct (client_view _ _ _ _ _ _ Hcl) as [Hi _].
  apply terminates_bind_wp. eapply wp_mmio_get_info; [apply Hi|exact Hx|]. intros w1 Hq1.
  pose proof (client_quiet _ _ _ _ _ _ _ Hcl Hq1) as Hcl1.
  destruct (Z.eqb_spec (area_start x) NULL) as [E|Hst]; simpl.
  { eapply terminates_or_return; [by eapply client_closable|exact Hp|done|done|exact Hbad]. }
  unfold or_return. cbn [is_ok]. apply terminates_bind_wp, wp_ret.
  apply terminates_bind_wp, wp_printf; [done|]. intros w2 Hq2.
  apply terminates_bind_wp. eapply wp_client_call; [by eapply client_quiet|done|done|done|done|].
  intros [rc buffer] w3 Hcl3 D3.
  pose proof (memalign_granted BUF_512MB BUF_512MB (w_os w2) ltac:(done)) as Hal. rewrite (did_step _ _ _ _ D3) in Hal.
  simpl in Hal. unfold c_bool. destruct (Z.eqb_spec rc 0) as [->|Hrc]; simpl.
  2: { apply terminates_wp, wp_bind, wp_perror. intros w4 Hq4. apply wp_ret, Hbad. split; [done|].
       exists p. split; [done|by eapply client_closable, client_quiet]. }
  destruct (Hal eq_refl) as [Hpos Hmod].
  eapply terminates_lat_start; [exact Hcl3|exact Hp|exact Hx|exact Hst|exact Hpos|exact Hmod|exact Hv|exact Henc|exact Hbad|].
  intros es w' Hs' Hr' Hm. apply (Hok ([Ev (SMemalign BUF_512MB BUF_512MB) (0, buffer)] ++ es)); [done| |by apply lat_measured_after].
  eapply ran_quiet_l; [exact Hq1|]. eapply ran_quiet_l; [exact Hq2|]. exact (ran_cons _ _ _ _ _ _ D3 Hr').
Qed.

(** ** [main] *)

Lemma wp_lat_help name v w (Q : unit → world K → Prop) :
  (∀ w', quiet w w' → Q tt w') → wp (lat_help name v) Q w.
Proof. apply wp_printf_all. by repeat constructor. Qed.

(** The options that take a value. *)
Definition lat_opt_full (o : opt) : Prop := has_arg "i" o ∧ has_arg "m" o ∧ has_arg "p" o.

Lemma lat_options_full name argv : Forall lat_opt_full (getopt_long name lat_optstring lat_options None argv).
Proof.
  repeat apply Forall_and; repeat split; apply getopt_long_args; done || by repeat constructor.
Qed.

(** The values the options [os] leave in the variables [v]. *)
Definition lat_given (v : lat_vars) (os : list opt) : lat_vars := {|
  lv_device := latest (text_of "d") (lv_device v) os;
  lv_verbose := latest (given "v") (lv_verbose v) os;
  lv_size_ping := latest (λ o, s32 <$> number_of "m" o) (lv_size_ping v) os;
  lv_size_st := latest (λ o, s32 <$> number_of "p" o) (lv_size_st v) os;
  lv_extra_read := latest (given "x") (lv_extra_read v) os;
  lv_iterations := latest (λ o, if Ascii.eqb (opt_char o) "f" then Some 0 else number_of "i" o) (lv_iterations v) os
|}.

Lemma lat_given_cons v o os : lat_given v (o :: os) = lat_given (lat_given v [o]) os.
Proof.
  unfold lat_given. cbn [lv_device lv_verbose lv_size_ping lv_size_st lv_extra_read lv_iterations].
  by rewrite !(latest_cons _ _ o os).
Qed.

(** An option that sets a variable; at any other the program returns, with 0
    when it is [--help].  The long option [--verbose] is not taken. *)
Definition lat_taken (o : opt) : bool :=
  existsb (Ascii.eqb (opt_char o)) ["v"; "i"; "m"; "p"; "x"; "f"; "d"]%char.

Ltac lat_case E := unfold lat_taken, lat_given, latest, number_of, text_of, given; simpl; rewrite E; simpl.

Lemma wp_lat_option name o v w (Q : Z + lat_vars → world K → Prop) :
  lat_opt_full o →
  (∀ w', quiet w w' → lat_taken o = false → Q (inl (help_code o)) w') →
  (∀ w', quiet w w' → lat_taken o = true → Q (inr (lat_given v [o])) w') → wp (lat_option name o v) Q w.
Proof.
  intros (Hi & Hm & Hp) Hret Hgo. unfold lat_option.
  assert (∀ v', lat_taken o = true → v' = lat_given v [o] → wp (mret (inr v')) Q w) as Hok
    by (intros v' Ht ->; by apply wp_ret, Hgo).
  assert (∀ f : Z → lat_vars, is_Some (opt_arg o) → lat_taken o = true →
    (∀ arg, opt_arg o = Some arg → f (strtoul arg) = lat_given v [o]) →
    wp (x ← ulong_arg o; mret (inr (f x))) Q w) as Hset.
  { intros f [arg Ea] Ht Hf. apply wp_bind, wp_ulong_arg; [by rewrite Ea|]. apply Hok; [done|]. rewrite Ea. by apply Hf. }
  destruct (Ascii.eqb_spec (opt_char o) "v") as [E|Ev]; [by apply Hok; lat_case E; destruct v|].
  destruct (Ascii.eqb_spec (opt_char o) "i") as [E|Ei]; [by apply Hset; [by apply Hi|lat_case E|intros ? F; lat_case E; rewrite F; destruct v]|].
  destruct (Ascii.eqb_spec (opt_char o) "m") as [E|Em]; [by apply Hset; [by apply Hm|lat_case E|intros ? F; lat_case E; rewrite F; destruct v]|].
  destruct (Ascii.eqb_spec (opt_char o) "p") as [E|Ep]; [by apply Hset; [by apply Hp|lat_case E|intros ? F; lat_case E; rewrite F; destruct v]|].
  destruct (Ascii.eqb_spec (opt_char o) "x") as [E|Ex]; [by apply Hok; lat_case E; destruct v|].
  destruct (Ascii.eqb_spec (opt_char o) "f") as [E|Ef]; [by apply Hok; lat_case E; destruct v|].
  assert (∀ v', opt_char o ≠ "d"%char → wp (lat_help name v' ;; mret (inl (help_code o))) Q w) as Hhelp.
  { intros v' Ed. apply wp_bind, wp_lat_help. intros w' Hq. apply wp_ret, Hret; [done|].
    unfold lat_taken. cbn [existsb]. by rewrite !(proj2 (Ascii.eqb_neq _ _)). }
  unfold help_code in Hhelp. destruct (Ascii.eqb_spec (opt_char o) "h") as [E|_]; [apply Hhelp; by rewrite E|].
  destruct (Ascii.eqb_spec (opt_char o) "d") as [E|Ed]; [by apply Hok; lat_case E; destruct v|by apply Hhelp].
Qed.

Lemma wp_lat_parse name os v w (Q : Z + lat_vars → world K → Prop) :
  Forall lat_opt_full os →
  (∀ o w', quiet w w' → find (λ o, negb (lat_taken o)) os = Some o → Q (inl (help_code o)) w') →
  (∀ w', quiet w w' → find (λ o, negb (lat_taken o)) os = None → Q (inr (lat_given v os)) w') →
  wp (lat_parse name os v) Q w.
Proof.
  intros Hos. revert v w. induction Hos as [|o os Ho _ IH]; intros v w Hret Hgo; simpl.
  { apply wp_ret. replace v with (lat_given v []) by by destruct v. by apply Hgo. }
  simpl in Hret, Hgo. apply wp_bind, wp_print_diag. intros w1 Hq1. apply wp_bind. apply wp_lat_option; [done|..].
  - intros w2 Hq2 Ht. apply wp_ret, Hret; [by etrans|by rewrite Ht].
  - intros w2 Hq2 Ht. rewrite Ht in Hret, Hgo. simpl in Hret, Hgo. rewrite lat_given_cons in Hgo.
    apply IH; [intros o' w3 Hq3; apply Hret|intros w3 Hq3; apply Hgo]; (etrans; [exact Hq1|by etrans]).
Qed.

Lemma latest_iterations d os :
  0 <= d → 0 <= latest (λ o, if Ascii.eqb (opt_char o) "f" then Some 0 else number_of "i" o) d os.
Proof.
  revert d. induction os as [|o os IH]; intros d Hd; [done|]. rewrite latest_cons. apply IH.
  unfold latest, number_of. simpl. destruct (Ascii.eqb _ "f"); [done|]. destruct (Ascii.eqb _ "i"); [|done].
  destruct (opt_arg o) as [arg|]; [|done]. apply (strtoul_bounds arg).
Qed.

Lemma lat_size_enc_code size : lat_size_enc size = size_code 512 size.
Proof.
  unfold lat_size_enc, size_code. destruct (decide (size ∈ _)) as [Hs|Hs].
  - repeat (apply elem_of_cons in Hs as [->|Hs]; [by vm_compute|]). by apply elem_of_nil in Hs.
  - rewrite !elem_of_cons in Hs. repeat case_match; naive_solver lia.
Qed.

(** How [main] returns, given the options [os] of its command line: at the
    first it does not take, with the help; with -1 when the size of the pong
    has no code; or with what the run it was asked for came to: 0 after a
    whole measurement, with everything given back, or an error, with at most
    the AFU still open. *)
Definition lat_ended (os : list opt) w (others : gmap ptr afu_view) (rc : Z) (w' : world K) : Prop :=
  match find (λ o, negb (lat_taken o)) os with
  | Some o => rc = help_code o ∧ quiet w w' ∧ sys_inv w' others
  | None =>
      let v := lat_given initial_lat os in
      match size_code 512 (lv_size_st v) with
      | Some enc =>
          left_open others rc w' ∨
          sys_inv w' others ∧ (rc ≠ 0 ∨ rc = 0 ∧ ∃ es, ran es w w' ∧ lat_measured v enc es)
      | None => rc = -1 ∧ sys_inv w' others
      end
  end.

Lemma terminates_lat_main name argv w others :
  sys_inv w others →
  terminates (λ fuel, lat_main total_text average_text fuel name argv)
    (λ e w', ∃ rc, e = Returned rc ∧ lat_ended (getopt_long name lat_optstring lat_options None argv) w others rc w') w.
Proof.
  intros Hs. unfold lat_main, lat_ended. set (os := getopt_long _ _ _ _ _).
  apply terminates_bind_wp, wp_lat_parse; [apply lat_options_full|..].
  { intros o w1 Hq1 Ho. rewrite Ho. apply terminates_wp, wp_ret. exists (help_code o).
    split_and!; [done|done|done|by eapply sys_inv_quiet]. }
  intros w1 Hq1 Ho. rewrite Ho. set (v := lat_given initial_lat os).
  assert (lat_ok v) as Hv by by apply latest_iterations.
  clearbody v. clear Ho. cbv zeta. apply terminates_bind_wp.
  eapply wp_sys_call; [by eapply sys_inv_quiet|done|done|done|]. intros c1 w2 Hs2 D2.
  assert (∀ (b : bool) fmt w' (Q : unit → world K → Prop), conforms fmt [] = true → (∀ w'', quiet w' w'' → Q tt w'') →
    wp (when b (printf fmt [])) Q w') as Hwarn.
  { intros b fmt w' Q Hf HQ. apply wp_when; intros _; [by apply wp_printf|by apply HQ]. }
  apply terminates_bind_wp, Hwarn; [done|]. intros w3 Hq3.
  apply terminates_bind_wp. eapply wp_sys_call; [by eapply sys_inv_quiet|done|done|done|]. intros c2 w4 Hs4 D4.
  apply terminates_bind_wp, Hwarn; [done|]. intros w5 Hq5.
  pose proof (sys_inv_quiet _ _ _ Hs4 Hq5) as Hs5. unfold ocapi_afp3_lat. rewrite <-lat_size_enc_code.
  destruct (lat_size_enc (lv_size_st v)) as [enc|] eqn:Henc.
  2: { apply terminates_wp, wp_bind, wp_printf; [done|]. intros w6 Hq6. apply wp_ret. exists (-1).
       split_and!; [done|done|by eapply sys_inv_quiet]. }
  apply terminates_bind_wp, wp_printf; [done|]. intros w6 Hq6.
  assert (since w w6) as T6.
  { etrans; [by apply since_quiet|]. etrans; [exact (since_did _ _ _ _ D2)|]. etrans; [by apply since_quiet|].
    etrans; [exact (since_did _ _ _ _ D4)|]. etrans; by apply since_quiet. }
  eapply terminates_open_afp; [by eapply sys_inv_quiet|done|intros rc w7 Hrc Hs7; exists rc; auto|
    intros rc w7 Hl; exists rc; auto|].
  intros p a i x areas w7 Hcl Hp Hx T7.
  eapply terminates_lat_opened; [exact Hcl|exact Hp|exact Hx|exact Hv|exact Henc|intros rc w8 Hl; exists rc; auto|].
  intros es w' Hs' Hr' Hm. exists 0. split; [done|right]. split; [done|]. right. split; [done|].
  destruct (transitivity T6 T7) as [es0 Hr0]. exists (es0 ++ es).
  split; [by eapply ran_trans|by apply lat_measured_after].
Qed.

End latency.
