(* ===== verification/AfpSpec.v ===== *)
(** * AfpSpec: what the AFP programs guarantee

    The properties of afutests/afp/ocxl_afp3.c and ocxl_afp3_latency.c, and
    their instances: on the virtual kernel, and on that kernel with an AFU
    that answers pings. *)

From S2P Require Import Prelude Format Types World Logic Messages Buffer Ledger Mmio MmioFacts.
From S2P Require Import MmioAccess Irq IrqFacts IrqTable Event Names Afu AfuInv EventFacts Fuel.
From S2P Require Import AfuClose AfuOpen Trace Api Client VirtAfu VirtOcxl Memcpy Getopt GetoptLong MemcpySample.
From S2P Require Import MemcpyRun Afp AfpRun AfpLatency AfpLatencyRun.
Open Scope Z_scope.

Section properties.
Context {K : Type} `{Platform K} `{Abi}.
Implicit Types (w : world K).

(** C17: the fields of a work element descriptor can be read back: numbers of
    tags and sizes that fit their fields, and an address that is aligned to
    4kB, are packed without loss. *)
Theorem wed_fields buffer tags_ld enc_ld tags_st enc_st w :
  0 <= buffer < 2 ^ 64 → buffer mod 4096 = 0 →
  0 <= tags_ld < 8 → 0 <= tags_st < 8 → 0 <= enc_ld < 4 → 0 <= enc_st < 4 →
  wp (wed_of buffer tags_ld enc_ld tags_st enc_st) (λ wed w', w' = w ∧
    Z.land (Z.shiftr wed 9) 7 = tags_ld ∧ Z.land (Z.shiftr wed 7) 3 = enc_ld ∧
    Z.land (Z.shiftr wed 3) 7 = tags_st ∧ Z.land (Z.shiftr wed 1) 3 = enc_st ∧
    Z.shiftl (Z.shiftr wed 12) 12 = buffer) w.
Proof.
  intros Hb Hm H1 H2 H3 H4. apply wp_wed_of; [lia..|]. split; [done|].
  assert (u64 (buffer + tags_ld * 512 + enc_ld * 128 + npu_ld * 64 + tags_st * 8 + enc_st * 2 + npu_st) =
    buffer + tags_ld * 512 + enc_ld * 128 + tags_st * 8 + enc_st * 2) as ->.
  { unfold u64, uwrap, npu_ld, npu_st. rewrite Z.mod_small; [lia|]. Z.to_euclidean_division_equations. lia. }
  change 7 with (Z.ones 3) at 1 3. change 3 with (Z.ones 2) at 2 5. rewrite !Z.land_ones by lia.
  rewrite !Z.shiftr_div_pow2, Z.shiftl_mul_pow2 by lia. cbn [Z.pow Z.pow_pos Pos.iter Z.mul].
  Z.to_euclidean_division_equations. lia.
Qed.

Context `{!EventLaws K} `{!NonZeroHandles K} `{!ByteLoads K} `{!ShortNames K} `{!AlignedMemory K}.

(** C9: the bandwidth program returns, for every command line whose options
    satisfy [afp3_opt_ok]: the short option [-a] is not used (it has no value,
    which the code converts all the same) and the numbers of tags are in
    [-2^22, 2^22) (the product with 512 overflows an [int] outside).  The
    kernel keeps [EventLaws] (epoll reports what was registered with it),
    [NonZeroHandles], [ByteLoads], [ShortNames] and [AlignedMemory].  At the
    first option that is not taken it returns with the help, 0 for [--help]
    and -1 otherwise; with -1 when a size is not 64, 128 or 256.  Otherwise it
    runs with the values the last options of each kind give, and returns 0
    only after a whole measurement: the registers written in order with the
    values asked for and the enable bit last, one sample of all counters and
    then as many as [--num] says, each followed by the interval [--wait] says,
    the enable bit cleared, and everything given back.  An error leaves at
    most the AFU open. *)
Theorem afp3_main_spec bw bpc bw_tb name argv w others :
  let os := getopt_long name afp3_optstring afp3_options None argv in
  sys_inv w others → Forall afp3_opt_ok os →
  wp (afp3_main bw bpc bw_tb name argv) (λ e w', ∃ rc, e = Returned rc ∧ afp3_ended os w others rc w') w.
Proof. apply wp_afp3_main. Qed.

Context `{!Pongs K}.

(** C8: the latency program ends, for every command line, on a kernel with
    [EventLaws], [NonZeroHandles], [ByteLoads], [ShortNames] and
    [AlignedMemory] and an AFU that answers its pings ([Pongs]: finitely many
    loads of a word find 0).  At the first option that is not taken it returns
    with the help, 0 for [--help] and -1 otherwise; with -1 when the size of
    the pong is not 64, 128, 256 or 512.  Otherwise it runs with the values
    the last options of each kind give, and returns 0 only after a whole
    measurement: the AFU stopped, its registers written in order, the memory
    of the extra read and of the pong prepared, the pings, the AFU stopped
    again, and everything given back.  With a ping of 8 bytes there are as
    many pings as were asked for, or up to a signal, each answered before the
    next; with any other size there is no ping at all and the result is 0 all
    the same.  An error leaves at most the AFU open. *)
Theorem lat_main_spec total average name argv w others :
  sys_inv w others →
  ∃ n rc w', lat_ended (getopt_long name lat_optstring lat_options None argv) w others rc w' ∧
    ∀ fuel, (n <= fuel)%nat → lat_main total average fuel name argv w = Ret (Returned rc) w'.
Proof.
  intros Hs. destruct (terminates_run _ _ _ (λ n n', approx_lat_main total average n n' name argv)
    (terminates_lat_main total average name argv w others Hs)) as (n & e & w' & (rc & -> & He) & Hrun).
  by exists n, rc, w'.
Qed.

End properties.

(** ** On the virtual kernel *)

#[export] Instance virt_aligned_memory : AlignedMemory virt.
Proof.
  intros alignment size k Ha. unfold os_step, virt_platform. simpl.
  set (addr := align_up _ _). destruct (Z.ltb_spec 0 addr); simpl; [|done].
  destruct (Z.ltb_spec addr (2 ^ 63)); simpl; [|done]. intros _. split; [done|]. by apply Z.mod_mul, Z.neq_sym, Z.lt_neq.
Qed.

Definition afp_world : world virt :=
  initial_world (plug_in "/dev/ocxl" "/sys/class/ocxl" AFP_NAME 4096 16384 virt_init).

Definition no_text3 (_ _ _ : Z) : string := "?".

Lemma wed_fields_witness :
  wp (wed_of 0x400000 0 2 7 2) (λ wed w', w' = afp_world ∧
    Z.land (Z.shiftr wed 9) 7 = 0 ∧ Z.land (Z.shiftr wed 7) 3 = 2 ∧
    Z.land (Z.shiftr wed 3) 7 = 7 ∧ Z.land (Z.shiftr wed 1) 3 = 2 ∧
    Z.shiftl (Z.shiftr wed 12) 12 = 0x400000) afp_world.
Proof. refine (wed_fields 0x400000 0 2 7 2 afp_world _ _ _ _ _ _); lia || reflexivity. Defined.

Definition afp3_argv : list string := ["--tags_ld=3"; "--num"; "2"; "--verbose"].

Lemma afp3_main_spec_witness :
  wp (afp3_main no_text3 no_text3 no_text3 "afp3" afp3_argv)
    (λ e w', ∃ rc, e = Returned rc ∧
       afp3_ended (getopt_long "afp3" afp3_optstring afp3_options None afp3_argv) afp_world ∅ rc w') afp_world.
Proof.
  refine (afp3_main_spec no_text3 no_text3 no_text3 "afp3" afp3_argv afp_world ∅ (sys_inv_initial _) _).
  apply Forall_cons_2; [split; [by eexists|intros _; vm_compute; split; [by intros [=]|done]]|].
  repeat (apply Forall_cons_2; [split; [intros [=]|intros [=]]|]). apply Forall_nil_2.
Defined.

(** The run is a whole measurement. *)
Example afp3_runs :
  match afp3_main no_text3 no_text3 no_text3 "afp3" afp3_argv afp_world with
  | Ret e w' => e = Returned 0 ∧ String.length (v_stderr (w_os w')) = O
  | _ => False
  end.
Proof. by vm_compute. Qed.

(** What the options come to, and the sizes of [--offsetmask]: a power of 2 of
    pages each. *)
Example afp3_argv_given :
  let os := getopt_long "afp3" afp3_optstring afp3_options None afp3_argv in
  find (λ o, negb (afp3_taken o)) os = None ∧
  afp3_given initial_afp3 os = mk_afp3 true 3 7 128 128 2 2 0x3FF false None ∧
  map snd offset_sizes = map (λ n, 2 ^ Z.of_nat n - 1) (seq 0 21).
Proof. by vm_compute. Qed.

(** The short option [-a] has no argument to convert. *)
Example afp3_short_a :
  afp3_main no_text3 no_text3 no_text3 "afp3" ["-a"; "3"] afp_world = UB.
Proof. by vm_compute. Qed.

(** ** An AFU that answers pings

    The platform [K] with an AFU that, after [n] loads of a word that is 0,
    has written the word. *)

Definition answering (K : Type) : Type := K * nat.

Section answering.
Context {K : Type} `{Platform K} `{Abi}.

Definition answering_step (R : Set) (c : sys R) (k : answering K) : R * answering K :=
  let '(r, k1) := os_step R c k.1 in
  match c in sys R return R → R * answering K with
  | SLoad addr m => λ bs,
      if (m =? 8)%nat && (of_native_bytes bs =? 0) then
        match k.2 with
        | O => (native_bytes 8 1, (k1, O))
        | S n => (bs, (k1, n))
        end
      else (bs, (k1, k.2))
  | _ => λ r, (r, (k1, k.2))
  end r.

#[export] Instance answering_platform : Platform (answering K) := answering_step.

(** Loads apart, the platform is the one it was. *)
Lemma answering_same (R : Set) (c : sys R) k :
  match c with SLoad _ _ => False | _ => True end →
  os_step R c k = ((os_step R c k.1).1, ((os_step R c k.1).2, k.2)).
Proof.
  unfold os_step at 1, answering_platform, answering_step. destruct c; try done; intros _; by destruct (os_step _ _ k.1).
Qed.

Lemma answering_state (R : Set) (c : sys R) k : (os_step R c k).2.1 = (os_step R c k.1).2.
Proof.
  unfold os_step at 1, answering_platform, answering_step. destruct (os_step R c k.1) as [r k1] eqn:E.
  destruct c; try done. destruct (_ && _); [|done]. by destruct (k.2).
Qed.

#[export] Instance answering_nonzero `{!NonZeroHandles K} : NonZeroHandles (answering K).
Proof.
  split; [intros fd k|intros n prot fd offset k]; rewrite answering_same by done;
    [apply irq_offset_nonzero|apply mmap_nonzero].
Qed.

#[export] Instance answering_short_names `{!ShortNames K} : ShortNames (answering K).
Proof. intros dir k names. rewrite answering_same by done. apply short_names. Qed.

#[export] Instance answering_aligned `{!AlignedMemory K} : AlignedMemory (answering K).
Proof. intros alignment size k. rewrite answering_same by done. apply memalign_granted. Qed.

#[export] Instance answering_byte_loads `{!ByteLoads K} : ByteLoads (answering K).
Proof.
  intros addr n k. unfold os_step, answering_platform, answering_step. pose proof (load_bytes addr n k.1) as Hl.
  destruct (os_step _ (SLoad addr n) k.1) as [bs k1]. simpl in Hl. destruct (Nat.eqb_spec n 8) as [->|]; [|done].
  destruct (of_native_bytes bs =? 0); [|done]. destruct (k.2); [|done]. cbn [andb fst].
  unfold native_bytes. destruct host_little_endian; by repeat constructor.
Qed.

#[export, refine] Instance answering_events `{!EventLaws K} : EventLaws (answering K) :=
  {| watched k := watched k.1; kind k := kind k.1 |}.
Proof.
  - intros R c k fd. rewrite answering_state. etrans; [apply watched_step|].
    unfold os_step at 2, answering_platform, answering_step. destruct (os_step R c k.1) as [r k1].
    by destruct c.
  - intros fd n timeout k count sources k' Hn. rewrite answering_same by done. intros [= E1 <-].
    eapply epoll_answer; [exact Hn|]. rewrite (surjective_pairing (os_step _ _ k.1)), E1. reflexivity.
  - intros R c k fd x Hc Hk. rewrite answering_state. by apply kind_step.
  - intros fd k md k'. rewrite answering_same by done. intros [= E1 <-]. apply (context_kind _ k.1 md).
    rewrite (surjective_pairing (os_step _ _ k.1)), E1. reflexivity.
  - intros k fd k'. rewrite answering_same by done. intros [= E1 <-]. apply (eventfd_kind k.1).
    rewrite (surjective_pairing (os_step _ _ k.1)), E1. reflexivity.
  - intros fd k n buf k' Hk. rewrite answering_same by done. intros [= E1 <-]. eapply (eventfd_whole fd k.1 n buf _ Hk).
    rewrite (surjective_pairing (os_step _ _ k.1)), E1. reflexivity.
Defined.

Lemma native_one : of_native_bytes (native_bytes 8 1) ≠ 0.
Proof. unfold of_native_bytes, native_bytes. by destruct host_little_endian. Qed.

Lemma answering_zeros flag : Ranked (λ k : answering K, k.2) (zero_load flag).
Proof.
  split. intros R c k. unfold os_step, answering_platform, answering_step.
  destruct (os_step R c k.1) as [r k1]. destruct c; simpl; try lia.
  destruct (Nat.eqb_spec n 8) as [->|]; cbn [andb]; [|simpl; rewrite andb_false_r; simpl; lia].
  destruct (Z.eqb_spec (of_native_bytes r) 0) as [E|E].
  - destruct (k.2) as [|m]; cbn [fst snd]; simpl.
    + destruct (Z.eqb_spec (of_native_bytes (native_bytes 8 1)) 0) as [E1|_]; [by apply native_one in E1|].
      rewrite andb_false_r. lia.
    + destruct (_ && _); lia.
  - cbn [fst snd]. rewrite (proj2 (Z.eqb_neq _ _) E), andb_false_r. lia.
Qed.

#[export] Instance answering_pongs : Pongs (answering K) :=
  {| zeros _ k := k.2; zeros_ranked := answering_zeros |}.

End answering.

Definition lat_world : world (answering virt) :=
  initial_world (plug_in "/dev/ocxl" "/sys/class/ocxl" AFP_NAME 4096 16384 virt_init, 5%nat).

Definition no_text1 (_ : Z) : string := "?".
Definition no_text2 (_ _ : Z) : string := "?".

Lemma lat_main_spec_witness :
  ∃ n rc w', lat_ended (getopt_long "afp3_latency" lat_optstring lat_options None ["-i"; "3"; "-x"]) lat_world ∅ rc w' ∧
    ∀ fuel, (n <= fuel)%nat →
      lat_main no_text1 no_text2 fuel "afp3_latency" ["-i"; "3"; "-x"] lat_world = Ret (Returned rc) w'.
Proof.
  exact (lat_main_spec no_text1 no_text2 "afp3_latency" ["-i"; "3"; "-x"] lat_world ∅ (sys_inv_initial _)).
Defined.

(** A ping of 64 bytes is not made (the AFU answers none), and the program
    returns 0. *)
Example lat_large_ping_returns :
  match lat_main no_text1 no_text2 10 "afp3_latency" ["-m"; "64"] lat_world with
  | Ret e w' => e = Returned 0 ∧ (w_os w').2 = 5%nat
  | _ => False
  end.
Proof. by vm_compute. Qed.

(** Three pings; [--verbose], as a long option, ends in the help. *)
Example lat_runs :
  match lat_main no_text1 no_text2 10 "afp3_latency" ["-i"; "3"; "-x"] lat_world with
  | Ret e w' => e = Returned 0 ∧ (w_os w').2 = O
  | _ => False
  end ∧
  match lat_main no_text1 no_text2 10 "afp3_latency" ["--verbose"] lat_world with
  | Ret e w' => e = Returned (-1)
  | _ => False
  end.
Proof. by vm_compute. Qed.
