(* ===== verification/UnitTest.v ===== *)
(** * UnitTest: the test framework of unittests/unittests.c

    A test is a computation of the monad [T]: it has the variables of
    unittests.c ([suite]) on top of the state of the library, and it goes on
    with a value, jumps to the label [end:] of its function after an assertion
    that does not hold, or ends the process.  An access outside the array of
    tests is undefined behaviour. *)

From S2P Require Import Prelude Format Types World Logic Messages Mmio Event Afu Getopt VirtAfu.
Open Scope Z_scope.

Definition MAX_TESTS : Z := 1024.
Definition TEST_NAME_LEN : nat := 32.
Definition SUITE_NAME_LEN : nat := 32.
Definition INT_MAX : Z := 2147483647.

Inductive state : Set := IN_PROGRESS | SUCCESS | SKIP | FAIL.

#[export] Instance state_eq_dec : EqDecision state.
Proof. solve_decision. Defined.

(** [suite] and [name] are the bytes of the two arrays, as strings that may
    hold NUL characters. *)
Record test : Set := mk_test {
  t_suite : string;
  t_name : string;
  t_state : state;
  t_count : Z     (* int *)
}.

#[export] Instance eta_test : Eta test := fun t => mk_test (t_suite t) (t_name t) (t_state t) (t_count t).

(** The variables of the program.  [afu] is the variable of that name of the
    test function that runs; the code behind its label [end:] reads it. *)
Record suite : Type := mk_suite {
  tests : list test;
  current_test : Z;    (* int *)
  err_buf : string;
  afu_thread : Z;
  local_afu : ptr
}.

#[export] Instance eta_suite : Eta suite := fun s =>
  mk_suite (tests s) (current_test s) (err_buf s) (afu_thread s) (local_afu s).

(** ** Characters *)

Definition NUL : ascii := "000".

(** [strncpy(dst, src, n)]: the [n] bytes of the destination. *)
Definition strncpy (src : string) (n : nat) : string :=
  String.substring 0 n src +:+ pad NUL (n - String.length src).

(** The C string that starts at the first of some bytes. *)
Fixpoint c_string (bytes : string) : string :=
  match bytes with
  | EmptyString => ""
  | String c bytes => if Ascii.eqb c NUL then "" else String c (c_string bytes)
  end.

(** [tests[i].suite] and [tests[i].name] read as C strings.  A member that is
    not terminated reads on into what follows it in the structure: the name
    behind the suite, two bytes of padding behind the name, which are zero
    as [tests] has static storage. *)
Definition padding : string := pad NUL 2.
Definition suite_of (t : test) : string := c_string (t_suite t +:+ t_name t +:+ padding).
Definition name_of (t : test) : string := c_string (t_name t +:+ padding).

Definition zero_test : test :=
  mk_test (pad NUL (SUITE_NAME_LEN + 1)) (pad NUL (TEST_NAME_LEN + 1)) IN_PROGRESS 0.

Definition initial_suite : suite :=
  mk_suite (replicate (Z.to_nat MAX_TESTS) zero_test) (-1) (pad NUL MAX_MESSAGE_LENGTH) 0 NULL.

(** ** The monad *)

Inductive verdict (A : Type) : Type :=
| Next (a : A)
| GotoEnd
| Exit (code : Z).
Arguments Next {_}.
Arguments GotoEnd {_}.
Arguments Exit {_}.

Definition T (K A : Type) : Type := suite → M K (suite * verdict A).

#[export] Instance T_ret K : MRet (T K) := λ A a s, mret (s, Next a).
#[export] Instance T_bind K : MBind (T K) := λ A B f m s,
  r ← m s;
  match r with
  | (s, Next a) => f a s
  | (s, GotoEnd) => mret (s, GotoEnd)
  | (s, Exit code) => mret (s, Exit code)
  end.

Section framework.
Context {K : Type} `{Platform K} `{Abi} `{!Device K}.

(** Code that does not touch the variables of the program. *)
Definition lib {A} (m : M K A) : T K A := λ s, a ← m; mret (s, Next a).

Definition get {A} (f : suite → A) : T K A := λ s, mret (s, Next (f s)).
Definition put (f : suite → suite) : T K unit := λ s, mret (f s, Next tt).
Definition goto_end {A} : T K A := λ s, mret (s, GotoEnd).
Definition exit {A} (code : Z) : T K A := λ s, mret (s, Exit code).
Definition twhen (b : bool) (m : T K unit) : T K unit := if b then m else mret tt.

(** The body of a function and the code behind its label [end:]. *)
Definition with_end (body cleanup : T K unit) : T K unit := λ s,
  r ← body s;
  match r with
  | (s, Exit code) => mret (s, Exit code)
  | (s, _) => cleanup s
  end.

(** [tests[i]] *)
Definition get_test (i : Z) : T K test := λ s,
  if i <? 0 then undefined else
  match tests s !! Z.to_nat i with
  | Some t => mret (s, Next t)
  | None => undefined
  end.

Definition set_test (i : Z) (f : test → test) : T K unit :=
  t ← get_test i;
  put (λ s, s <| tests := <[Z.to_nat i := f t]> (tests s) |>).

Definition this_test : T K Z := get current_test.

(** ** Starting, stopping, checking *)

(** The warning about a previous test that was not stopped. *)
Definition warn_in_progress (suite_name name : string) (current_test : Z) : T K unit :=
  twhen (c_bool current_test)
    (t ← get_test (current_test - 1);
     twhen (bool_decide (t_state t = IN_PROGRESS))
       (lib (fprintf_stderr "Could not start '%s:%s', previous test '%s:%s' is still in progress"
               [AStr suite_name; AStr name; AStr (suite_of t); AStr (name_of t)]))).

Definition test_start (suite_name name : string) : T K unit :=
  lib (printf ("Starting test %s:%s" +:+ newline) [AStr suite_name; AStr name]) ;;
  put (λ s, s <| current_test := current_test s + 1 |>) ;;
  current_test ← this_test;
  if current_test =? MAX_TESTS then
    lib (fprintf_stderr "Too many tests" []) ;;
    exit 1
  else
  warn_in_progress suite_name name current_test ;;
  set_test current_test (λ t,
    t <| t_suite := strncpy suite_name (SUITE_NAME_LEN + 1) |>
      <| t_name := strncpy name (TEST_NAME_LEN + 1) |>
      <| t_state := IN_PROGRESS |>
      <| t_count := 0 |>).

Definition test_stop (st : state) : T K unit :=
  i ← this_test;
  set_test i (λ t, t <| t_state := st |>) ;;
  match st with
  | SUCCESS => lib (printf ("OK" +:+ newline) [])
  | SKIP => lib (printf ("Skipped" +:+ newline) [])
  | FAIL => lib (printf ("Failed" +:+ newline) [])
  | IN_PROGRESS => mret tt
  end.

(** [tests[current_test].count++] *)
Definition count_check : T K unit :=
  i ← this_test;
  t ← get_test i;
  if INT_MAX <=? t_count t then lib undefined
  else set_test i (λ t, t <| t_count := t_count t + 1 |>).

(** A back-quote stands for a double quote in the text of a statement. *)
Fixpoint dq (s : string) : string :=
  match s with
  | EmptyString => ""
  | String c s => String (if Ascii.eqb c "`" then "034"%char else c) (dq s)
  end.

(** [ASSERT(statement)] in [function] at [line], with what the statement
    stores in a variable; the check is counted before the statement is
    evaluated. *)
Definition ASSERT_AS {A} (function : string) (line : Z) (text : string)
    (statement : T K (bool * A)) : T K A :=
  count_check ;;
  '(ok, a) ← statement;
  if (ok : bool) then mret a
  else
    lib (fprintf_stderr ("ASSERT: %s:%d: %s(): '%s' is false" +:+ newline)
           [AStr "unittests/unittests.c"; AInt line; AStr function; AStr (dq text)]) ;;
    test_stop FAIL ;;
    goto_end.

Definition ASSERT (function : string) (line : Z) (text : string) (statement : T K bool) : T K unit :=
  ASSERT_AS function line text (ok ← statement; mret (ok, tt)).

(** [SKIP(statement, msg)]; no test uses it. *)
Definition SKIP_IF (text : string) (statement : T K bool) : T K unit :=
  skip ← statement;
  twhen skip
    (lib (fprintf_stderr ("Skip: '%s' is true" +:+ newline) [AStr (dq text)]) ;;
     test_stop SKIP ;;
     goto_end).

(** ** The report *)

Definition state_name (st : state) : string :=
  match st with
  | IN_PROGRESS => "In Progress"
  | SUCCESS => "OK"
  | SKIP => "Skipped"
  | FAIL => "Failed"
  end.

Definition state_failed (st : state) : bool :=
  match st with IN_PROGRESS | FAIL => true | SUCCESS | SKIP => false end.

(** The loop over the lengths: [n] tests from [i] on. *)
Fixpoint max_lengths (n : nat) (i : Z) (max_suite_name_len max_test_name_len : Z) : T K (Z * Z) :=
  match n with
  | O => mret (max_suite_name_len, max_test_name_len)
  | S n =>
      t ← get_test i;
      max_lengths n (i + 1)
        (Z.max max_suite_name_len (Z.of_nat (String.length (suite_of t))))
        (Z.max max_test_name_len (Z.of_nat (String.length (name_of t))))
  end.

Definition report_line (max_suite_name_len max_test_name_len : Z) (t : test) : T K unit :=
  lib (printf (tab +:+ "%-*s" +:+ tab +:+ "%-*s" +:+ tab +:+ "%s" +:+ tab +:+ "%d checks" +:+ newline)
         [AInt max_suite_name_len; AStr (suite_of t); AInt max_test_name_len; AStr (name_of t);
          AStr (state_name (t_state t)); AInt (t_count t)]).

Fixpoint report_lines (n : nat) (i : Z) (max_suite_name_len max_test_name_len : Z)
    (has_failed : bool) : T K bool :=
  match n with
  | O => mret has_failed
  | S n =>
      t ← get_test i;
      report_line max_suite_name_len max_test_name_len t ;;
      report_lines n (i + 1) max_suite_name_len max_test_name_len
        (has_failed || state_failed (t_state t))
  end.

Definition test_report : T K bool :=
  lib (printf ("Summary:" +:+ newline) []) ;;
  current_test ← this_test;
  let n := Z.to_nat (current_test + 1) in
  '(max_suite_name_len, max_test_name_len) ← max_lengths n 0 0 0;
  report_lines n 0 max_suite_name_len max_test_name_len false.

(** ** The program's error handlers *)

(** The addresses of [copy_to_err_buf] and [copy_to_err_buf_afu]. *)
Definition copy_to_err_buf_addr : Z := 1.
Definition copy_to_err_buf_afu_addr : Z := 2.

Definition copy_to_err_buf (error : Z) (message : string) : suite → M K suite := λ s,
  match vformat "%s: %s" [AStr (ocxl_err_to_string error); AStr message] with
  | Some text => mret (s <| err_buf := truncate MAX_MESSAGE_LENGTH text |>)
  | None => undefined
  end.

Definition copy_to_err_buf_afu (afu : ptr) (error : Z) (message : string) : suite → M K suite := λ s,
  '(afu_name, _) ← ocxl_afu_get_identifier afu;
  '(major, minor) ← ocxl_afu_get_version afu;
  match vformat "%s(%d,%d): %s: %s"
          [AStr afu_name; AInt major; AInt minor; AStr (ocxl_err_to_string error); AStr message] with
  | Some text => mret (s <| err_buf := truncate MAX_MESSAGE_LENGTH text |>)
  | None => undefined
  end.

(** What the application does for an operation of the library: a callback
    runs the handler it names. *)
Definition handle (e : event) (s : suite) : M K suite :=
  match e with
  | Ev (SCallback f afu error message) _ =>
      if f =? copy_to_err_buf_addr then copy_to_err_buf error message s
      else if f =? copy_to_err_buf_afu_addr then copy_to_err_buf_afu afu error message s
      else undefined
  | _ => mret s
  end.

Fixpoint handle_all (es : list event) (s : suite) : M K suite :=
  match es with
  | [] => mret s
  | e :: es => s ← handle e s; handle_all es s
  end.

(** A run together with the operations it issued. *)
Definition logged {A} (m : M K A) : M K (A * list event) := λ w,
  match m (w <| w_trace := [] |>) with
  | Ret a w' => Ret (a, w_trace w') (w' <| w_trace := w_trace w ++ w_trace w' |>)
  | UB => UB
  | Diverge => Diverge
  end.

(** A call that may report through the program's handlers.  The library does
    not read what they write, and reporting is the last thing it does. *)
Definition reporting {A} (m : M K A) : T K A := λ s,
  '(a, es) ← logged m;
  s ← handle_all es s;
  mret (s, Next a).

End framework.
