(* ===== verification/UnitTests.v ===== *)
(** * UnitTests: the tests of unittests/unittests.c

    Every test function and [main], with the assertions in their order, each
    with its line and the text it reports.  The build is the one for PPC64.
    The test between [#ifdef __UNUSED] and [#endif] is not part of the
    program. *)

From S2P Require Import Prelude Format Types World Logic Messages Mmio Irq Event Afu Getopt VirtAfu UnitTest.
Open Scope Z_scope.

Definition ocxl_sysfs_path : string := "/tmp/ocxl-test".
Definition ocxl_dev_path : string := "/dev/ocxl-test".
Definition GLOBAL_MMIO_SIZE : Z := 32 * 1024 * 1024.
Definition PER_PASID_MMIO_SIZE : Z := 16384.
Definition dummy_path : string := "/dev/ocxl-test/IBM,Dummy.0001:00:00.1.0".
Definition dummy_sysfs_path : string := "/tmp/ocxl-test/IBM,Dummy.0001:00:00.1.0".

#[export] Instance irq_ptr_eq_dec : EqDecision irq_ptr.
Proof. solve_decision. Defined.
#[export] Instance epoll_source_type_eq_dec : EqDecision epoll_source_type.
Proof. solve_decision. Defined.
#[export] Instance epoll_fd_source_eq_dec : EqDecision epoll_fd_source.
Proof. solve_decision. Defined.
#[export] Instance ocxl_mmio_area_eq_dec : EqDecision ocxl_mmio_area.
Proof. solve_decision. Defined.
#[export] Instance handler_eq_dec : EqDecision handler.
Proof. solve_decision. Defined.
#[export] Instance ocxl_afu_eq_dec : EqDecision ocxl_afu.
Proof. solve_decision. Defined.

(** An AFU structure whose bytes are all 0xff. *)
Definition ff_source : epoll_fd_source := mk_fd_source EPOLL_SOURCE_IRQ (Some (mk_irq_ptr (u64 (-1)) 0)).
Definition ff_area : ocxl_mmio_area :=
  mk_mmio_area (u64 (-1)) (u64 (-1)) (ocxl_mmio_type_other (-1)) (Some (u64 (-1))).
Definition ff_afu : ocxl_afu := {|
  afu_index := Some 255; afu_name := pad "255" (Z.to_nat AFU_NAME_MAX + 1);
  afu_device_path := u64 (-1); afu_sysfs_path := u64 (-1);
  afu_version_major := 255; afu_version_minor := 255; afu_fd := -1; afu_fd_info := ff_source;
  afu_epoll_fd := -1; afu_epoll_events := u64 (-1); afu_epoll_event_count := u64 (-1);
  afu_global_mmio_fd := -1; afu_global_mmio := ff_area; afu_per_pasid_mmio := ff_area;
  afu_page_size := u64 (-1); afu_irqs := u64 (-1); afu_irq_count := UINT16_MAX;
  afu_irq_max_count := UINT16_MAX; afu_mmios := u64 (-1); afu_mmio_count := UINT16_MAX;
  afu_mmio_max_count := UINT16_MAX; afu_pasid := UINT32_MAX; afu_verbose_errors := true;
  afu_error_handler := UserHandler (u64 (-1)); afu_tracing := true; afu_attached := true;
  afu_ppc64_amr := u64 (-1)
|}.

Section tests.
Context {K : Type} `{Platform K} `{Abi} `{!Device K}.

(** ** Expressions of the assertions *)

(** [e == f(...)] *)
Definition err_is (e : ocxl_err) (m : T K ocxl_err) : T K bool := rc ← m; mret (bool_decide (rc = e)).
Definition lib_err_is (e : ocxl_err) (m : M K ocxl_err) : T K bool := err_is e (lib m).
Definition value_is (z : Z) (m : M K Z) : T K bool := x ← lib m; mret (x =? z).
Definition value_is_not (z : Z) (m : M K Z) : T K bool := x ← lib m; mret (negb (x =? z)).

(** [!strcmp(p, text)] *)
Definition str_is (text : string) (m : M K ptr) : T K bool :=
  lib (p ← m; s ← get_str p; mret (String.eqb s text)).

(** A function that stores a handle in [afu]. *)
Definition into_afu (m : M K (ocxl_err * ptr)) : T K ocxl_err :=
  '(rc, afu) ← lib m;
  put (λ s, s <| local_afu := afu |>) ;;
  mret rc.

Definition set_afu_var (p : ptr) : T K unit := put (λ s, s <| local_afu := p |>).
Definition the_afu : T K ptr := get local_afu.

(** [my_afu->field] *)
Definition field {A} (f : ocxl_afu → A) (p : ptr) : M K A := a ← get_afu p; mret (f a).

(** [if (afu) { ocxl_afu_close(afu); }] *)
Definition close_if_open : T K unit :=
  afu ← the_afu;
  twhen (c_bool afu) (lib (ocxl_afu_close afu) ;; mret tt).

(** [OCXL_OK == f(..., &x)], with what was stored in [x] *)
Definition ok_with {A} (m : M K (ocxl_err * option A)) : T K (bool * option A) :=
  '(rc, x) ← lib m; mret (bool_decide (rc = OCXL_OK), x).

(** The value of a variable that was stored to. *)
Definition stored {A} (o : option A) : T K A := lib (match o with Some a => mret a | None => undefined end).

(** ** Structures *)

Definition test_afu_init : T K unit :=
  let ASSERT := ASSERT "test_afu_init" in
  test_start "AFU" "init" ;;
  afu1 ← lib (alloc (HAfu ff_afu));
  afu2 ← lib (alloc (HAfu ff_afu));
  let memcmp := (a ← get_afu afu1; b ← get_afu afu2; mret (bool_decide (a ≠ b))) in
  with_end
    (ASSERT 193 "!memcmp(&afu1, &afu2, sizeof(afu1))" (d ← lib memcmp; mret (negb d)) ;;
     lib (afu_init afu1) ;;
     ASSERT 195 "memcmp(&afu1, &afu2, sizeof(afu1))" (lib memcmp) ;;
     let afu := afu1 in
     ASSERT 198 "ocxl_afu_get_device_path(afu) == NULL" (value_is NULL (ocxl_afu_get_device_path afu)) ;;
     ASSERT 199 "ocxl_afu_get_sysfs_path(afu) == NULL" (value_is NULL (ocxl_afu_get_sysfs_path afu)) ;;
     '(major, minor) ← lib (ocxl_afu_get_version afu);
     ASSERT 202 "major == 0" (mret (major =? 0)) ;;
     ASSERT 203 "minor == 0" (mret (minor =? 0)) ;;
     ASSERT 204 "ocxl_afu_get_event_fd(afu) == -1" (value_is (-1) (ocxl_afu_get_event_fd afu)) ;;
     ASSERT 205 "ocxl_mmio_size(afu, OCXL_GLOBAL_MMIO) == 0" (value_is 0 (ocxl_mmio_size afu OCXL_GLOBAL_MMIO)) ;;
     ASSERT 206 "ocxl_mmio_size(afu, OCXL_PER_PASID_MMIO) == 0"
       (value_is 0 (ocxl_mmio_size afu OCXL_PER_PASID_MMIO)) ;;
     ASSERT 208 "ocxl_mmio_get_fd(afu, OCXL_GLOBAL_MMIO) == -1"
       (value_is (-1) (ocxl_mmio_get_fd afu OCXL_GLOBAL_MMIO)) ;;
     ASSERT 209 "ocxl_mmio_get_fd(afu, OCXL_PER_PASID_MMIO) == -1"
       (value_is (-1) (ocxl_mmio_get_fd afu OCXL_PER_PASID_MMIO)) ;;
     test_stop SUCCESS)
    (* the two structures go out of scope *)
    (lib (free afu1) ;; lib (free afu2)).

Definition test_ocxl_afu_alloc : T K unit :=
  let ASSERT := ASSERT "test_ocxl_afu_alloc" in
  test_start "AFU" "ocxl_afu_alloc" ;;
  template ← lib (alloc (HAfu (initial_afu 0 false false)));
  lib (afu_init template) ;;
  set_afu_var OCXL_INVALID_AFU ;;
  with_end
    (ASSERT 227 "OCXL_OK == afu_alloc(&afu)" (err_is OCXL_OK (into_afu afu_alloc)) ;;
     afu ← the_afu;
     ASSERT 228 "afu != 0" (mret (negb (afu =? 0))) ;;
     ASSERT 229 "ocxl_afu_get_device_path(afu) == NULL" (value_is NULL (ocxl_afu_get_device_path afu)) ;;
     ASSERT 230 "ocxl_afu_get_sysfs_path(afu) == NULL" (value_is NULL (ocxl_afu_get_sysfs_path afu)) ;;
     ASSERT 231 "ocxl_afu_get_event_fd(afu) == -1" (value_is (-1) (ocxl_afu_get_event_fd afu)) ;;
     ASSERT 232 "ocxl_mmio_size(afu, OCXL_GLOBAL_MMIO) == 0" (value_is 0 (ocxl_mmio_size afu OCXL_GLOBAL_MMIO)) ;;
     ASSERT 233 "ocxl_mmio_size(afu, OCXL_PER_PASID_MMIO) == 0"
       (value_is 0 (ocxl_mmio_size afu OCXL_PER_PASID_MMIO)) ;;
     ASSERT 234 "ocxl_mmio_get_fd(afu, OCXL_GLOBAL_MMIO) == -1"
       (value_is (-1) (ocxl_mmio_get_fd afu OCXL_GLOBAL_MMIO)) ;;
     ASSERT 235 "ocxl_mmio_get_fd(afu, OCXL_PER_PASID_MMIO) == -1"
       (value_is (-1) (ocxl_mmio_get_fd afu OCXL_PER_PASID_MMIO)) ;;
     test_stop SUCCESS)
    (afu ← the_afu; lib (ocxl_afu_close afu) ;; lib (free template)).

Definition test_device_matches : T K unit :=
  let ASSERT := ASSERT "test_device_matches" in
  test_start "AFU" "device_matches" ;;
  dev_dir ← lib (call (SOpendir "/dev"));
  match dev_dir with
  | None => lib undefined (* dirfd(NULL) *)
  | Some _ =>
      with_end
        (urandom ← ASSERT_AS "test_device_matches" 252 "!fstatat(dev_fd, `urandom`, &urandom, 0)"
           (st ← lib (call (SFstatat "/dev" "urandom"));
            mret (match st with Some _ => true | None => false end, st));
         '(_, st_rdev) ← stored urandom;
         ASSERT 253 "!device_matches(dev_fd, `zero`, urandom.st_rdev)"
           (m ← lib (device_matches "/dev" "zero" st_rdev); mret (negb m)) ;;
         ASSERT 254 "device_matches(dev_fd, `urandom`, urandom.st_rdev)"
           (lib (device_matches "/dev" "urandom" st_rdev)) ;;
         test_stop SUCCESS)
        (lib (call (SClosedir "/dev")))
  end.

(** ** Opening *)

Definition create_afu (fuel : nat) : T K unit :=
  thread ← lib (create_ocxl_device fuel "IBM,Dummy" GLOBAL_MMIO_SIZE PER_PASID_MMIO_SIZE);
  put (λ s, s <| afu_thread := thread |>) ;;
  if negb (c_bool thread) then
    lib (fprintf_stderr ("Could not create dummy AFU" +:+ newline) []) ;;
    exit 1
  else mret tt.

Definition test_populate_metadata : T K unit :=
  let ASSERT := ASSERT "test_populate_metadata" in
  test_start "AFU" "populate_metadata" ;;
  afu ← lib (alloc (HAfu (initial_afu 0 false false)));
  with_end
    (st ← ASSERT_AS "test_populate_metadata" 283
       "!stat(`/dev/ocxl-test/IBM,Dummy.0001:00:00.1.0`, &dev_stat)"
       (st ← lib (call (SStat dummy_path));
        mret (match st with Some _ => true | None => false end, st));
     st_rdev ← stored st;
     lib (afu_init afu) ;;
     ASSERT 288 "populate_metadata(dev_stat.st_rdev, &afu)" (lib (populate_metadata st_rdev afu)) ;;
     ASSERT 289 "!strcmp(afu.identifier.afu_name, `IBM,Dummy`)"
       (name ← lib (field afu_name afu); mret (String.eqb name "IBM,Dummy")) ;;
     ASSERT 290 "afu.identifier.afu_index == 0"
       (index ← lib (field afu_index afu); index ← stored index; mret (index =? 0)) ;;
     ASSERT 291 "!strcmp(afu.device_path, `/dev/ocxl-test/IBM,Dummy.0001:00:00.1.0`)"
       (str_is dummy_path (field afu_device_path afu)) ;;
     ASSERT 292 "!strcmp(afu.sysfs_path, `/tmp/ocxl-test/IBM,Dummy.0001:00:00.1.0`)"
       (str_is dummy_sysfs_path (field afu_sysfs_path afu)) ;;
     test_stop SUCCESS)
    (lib (free afu)).

Definition device_path_text : string :=
  "!strcmp(ocxl_afu_get_device_path(afu), `/dev/ocxl-test/IBM,Dummy.0001:00:00.1.0`)".

Definition test_get_afu_by_path : T K unit :=
  let ASSERT := ASSERT "test_get_afu_by_path" in
  let symlink_path := "/tmp/ocxl-test-symlink"%string in
  test_start "AFU" "get_afu_by_path" ;;
  set_afu_var OCXL_INVALID_AFU ;;
  with_end
    (lib (ocxl_enable_messages OCXL_NO_MESSAGES) ;;
     ASSERT 310 "OCXL_NO_DEV == get_afu_by_path(`/nonexistent`, &afu)"
       (err_is OCXL_NO_DEV (into_afu (get_afu_by_path "/nonexistent"))) ;;
     lib (ocxl_enable_messages OCXL_ERRORS) ;;
     afu ← the_afu;
     ASSERT 312 "0 == afu" (mret (0 =? afu)) ;;
     set_afu_var 0 ;;
     ASSERT 315 "OCXL_OK == get_afu_by_path(`/dev/ocxl-test/IBM,Dummy.0001:00:00.1.0`, &afu)"
       (err_is OCXL_OK (into_afu (get_afu_by_path dummy_path))) ;;
     afu ← the_afu;
     ASSERT 316 "afu != 0" (mret (negb (afu =? 0))) ;;
     ASSERT 317 device_path_text (str_is dummy_path (ocxl_afu_get_device_path afu)) ;;
     lib (ocxl_afu_close afu) ;;
     set_afu_var 0 ;;
     ASSERT 322 "0 == symlink(`/dev/ocxl-test/IBM,Dummy.0001:00:00.1.0`, symlink_path)"
       (value_is 0 (call (SSymlink dummy_path symlink_path))) ;;
     ASSERT 324 "OCXL_OK == get_afu_by_path(symlink_path, &afu)"
       (err_is OCXL_OK (into_afu (get_afu_by_path symlink_path))) ;;
     afu ← the_afu;
     ASSERT 325 "afu != 0" (mret (negb (afu =? 0))) ;;
     ASSERT 326 device_path_text (str_is dummy_path (ocxl_afu_get_device_path afu)) ;;
     test_stop SUCCESS)
    (lib (ocxl_enable_messages OCXL_ERRORS) ;;
     close_if_open ;;
     lib (call (SUnlink symlink_path)) ;;
     mret tt).

Definition test_afu_open : T K unit :=
  let ASSERT := ASSERT "test_afu_open" in
  test_start "AFU" "afu_open" ;;
  set_afu_var OCXL_INVALID_AFU ;;
  with_end
    (ASSERT 347 "OCXL_OK == get_afu_by_path(`/dev/ocxl-test/IBM,Dummy.0001:00:00.1.0`, &afu)"
       (err_is OCXL_OK (into_afu (get_afu_by_path dummy_path))) ;;
     afu ← the_afu;
     ASSERT 349 "my_afu->fd == -1" (value_is (-1) (field afu_fd afu)) ;;
     ASSERT 350 "my_afu->epoll_fd == -1" (value_is (-1) (field afu_epoll_fd afu)) ;;
     ASSERT 352 "OCXL_OK == afu_open(afu)" (lib_err_is OCXL_OK (afu_open afu)) ;;
     ASSERT 354 "my_afu->fd != -1" (value_is_not (-1) (field afu_fd afu)) ;;
     ASSERT 355 "my_afu->epoll_fd != -1" (value_is_not (-1) (field afu_epoll_fd afu)) ;;
     ASSERT 357 "ocxl_afu_get_event_fd(afu) != -1" (value_is_not (-1) (ocxl_afu_get_event_fd afu)) ;;
     ASSERT 358 "ocxl_mmio_get_fd(afu, OCXL_GLOBAL_MMIO) != -1"
       (value_is_not (-1) (ocxl_mmio_get_fd afu OCXL_GLOBAL_MMIO)) ;;
     ASSERT 359 "ocxl_mmio_get_fd(afu, OCXL_PER_PASID_MMIO) != -1"
       (value_is_not (-1) (ocxl_mmio_get_fd afu OCXL_PER_PASID_MMIO)) ;;
     test_stop SUCCESS)
    close_if_open.

Definition test_ocxl_afu_open_specific : T K unit :=
  let ASSERT := ASSERT "test_ocxl_afu_open_specific" in
  set_afu_var (u64 (OCXL_INVALID_AFU - 1)) ;;
  test_start "AFU" "ocxl_afu_open_specific" ;;
  with_end
    (lib (ocxl_enable_messages OCXL_NO_MESSAGES) ;;
     ASSERT 378 "OCXL_NO_DEV == ocxl_afu_open_specific(`nonexistent`, NULL, -1, &afu)"
       (err_is OCXL_NO_DEV (into_afu (ocxl_afu_open_specific "nonexistent" None (-1)))) ;;
     afu ← the_afu;
     ASSERT 379 "afu == OCXL_INVALID_AFU" (mret (afu =? OCXL_INVALID_AFU)) ;;
     ASSERT 380 "OCXL_NO_DEV == ocxl_afu_open_specific(`IBM,Dummy`, `0001:00:00.2`, -1, &afu)"
       (err_is OCXL_NO_DEV (into_afu (ocxl_afu_open_specific "IBM,Dummy" (Some "0001:00:00.2"%string) (-1)))) ;;
     ASSERT 381 "OCXL_NO_DEV == ocxl_afu_open_specific(`IBM,Dummy`, `0001:00:00.1`, 1, &afu)"
       (err_is OCXL_NO_DEV (into_afu (ocxl_afu_open_specific "IBM,Dummy" (Some "0001:00:00.1"%string) 1))) ;;
     lib (ocxl_enable_messages OCXL_ERRORS) ;;
     ASSERT 383 "OCXL_OK == ocxl_afu_open_specific(`IBM,Dummy`, `0001:00:00.1`, 0, &afu)"
       (err_is OCXL_OK (into_afu (ocxl_afu_open_specific "IBM,Dummy" (Some "0001:00:00.1"%string) 0))) ;;
     afu ← the_afu;
     ASSERT 384 "afu != OCXL_INVALID_AFU" (mret (negb (afu =? OCXL_INVALID_AFU))) ;;
     ASSERT 385 device_path_text (str_is dummy_path (ocxl_afu_get_device_path afu)) ;;
     lib (ocxl_afu_close afu) ;;
     set_afu_var OCXL_INVALID_AFU ;;
     ASSERT 389 "OCXL_OK == ocxl_afu_open_specific(`IBM,Dummy`, `0001:00:00.1`, -1, &afu)"
       (err_is OCXL_OK (into_afu (ocxl_afu_open_specific "IBM,Dummy" (Some "0001:00:00.1"%string) (-1)))) ;;
     afu ← the_afu;
     ASSERT 390 "afu != OCXL_INVALID_AFU" (mret (negb (afu =? OCXL_INVALID_AFU))) ;;
     ASSERT 391 device_path_text (str_is dummy_path (ocxl_afu_get_device_path afu)) ;;
     ASSERT 394 "my_afu->version_major == 5" (value_is 5 (field afu_version_major afu)) ;;
     ASSERT 395 "my_afu->version_minor == 10" (value_is 10 (field afu_version_minor afu)) ;;
     ASSERT 396 "my_afu->global_mmio.length == 32*1024*1024"
       (value_is (32 * 1024 * 1024) (field (λ a, area_length (afu_global_mmio a)) afu)) ;;
     ASSERT 397 "my_afu->per_pasid_mmio.length == 16384"
       (value_is 16384 (field (λ a, area_length (afu_per_pasid_mmio a)) afu)) ;;
     ASSERT 398 "my_afu->pasid == 1234" (value_is 1234 (field afu_pasid afu)) ;;
     test_stop SUCCESS)
    (lib (ocxl_enable_messages OCXL_ERRORS) ;; close_if_open).

Definition open_from_dev_text : string :=
  "OCXL_OK == ocxl_afu_open_from_dev(`/dev/ocxl-test/IBM,Dummy.0001:00:00.1.0`, &afu)".

Definition test_ocxl_afu_open_from_dev : T K unit :=
  let ASSERT := ASSERT "test_ocxl_afu_open_from_dev" in
  test_start "AFU" "ocxl_afu_open_from_dev" ;;
  set_afu_var OCXL_INVALID_AFU ;;
  with_end
    (lib (ocxl_enable_messages OCXL_NO_MESSAGES) ;;
     ASSERT 418 "OCXL_NO_DEV == ocxl_afu_open_from_dev(`/nonexistent`, &afu)"
       (err_is OCXL_NO_DEV (into_afu (ocxl_afu_open_from_dev "/nonexistent"))) ;;
     lib (ocxl_enable_messages OCXL_ERRORS) ;;
     ASSERT 421 open_from_dev_text (err_is OCXL_OK (into_afu (ocxl_afu_open_from_dev dummy_path))) ;;
     afu ← the_afu;
     ASSERT 423 "my_afu->fd != -1" (value_is_not (-1) (field afu_fd afu)) ;;
     ASSERT 424 "my_afu->epoll_fd != -1" (value_is_not (-1) (field afu_epoll_fd afu)) ;;
     ASSERT 425 device_path_text (str_is dummy_path (ocxl_afu_get_device_path afu)) ;;
     test_stop SUCCESS)
    (lib (ocxl_enable_messages OCXL_ERRORS) ;; close_if_open).

Definition test_afu_getters : T K unit :=
  let ASSERT := ASSERT "test_afu_getters" in
  test_start "AFU" "getters" ;;
  set_afu_var OCXL_INVALID_AFU ;;
  with_end
    (ASSERT 443 "OCXL_OK == ocxl_afu_open(`IBM,Dummy`, &afu)"
       (err_is OCXL_OK (into_afu (ocxl_afu_open "IBM,Dummy"))) ;;
     afu ← the_afu;
     ASSERT 445 "identifier->afu_index == 0"
       ('(_, index) ← lib (ocxl_afu_get_identifier afu); index ← stored index; mret (index =? 0)) ;;
     ASSERT 446 "!strcmp(identifier->afu_name, `IBM,Dummy`)"
       ('(name, _) ← lib (ocxl_afu_get_identifier afu); mret (String.eqb name "IBM,Dummy")) ;;
     ASSERT 447 device_path_text (str_is dummy_path (ocxl_afu_get_device_path afu)) ;;
     let expected_path := truncate (Z.to_nat PATH_MAX) (ocxl_sysfs_path +:+ "/IBM,Dummy.0001:00:00.1.0") in
     ASSERT 450 "!strcmp(ocxl_afu_get_sysfs_path(afu), expected_path)"
       (str_is expected_path (ocxl_afu_get_sysfs_path afu)) ;;
     '(major, minor) ← lib (ocxl_afu_get_version afu);
     ASSERT 454 "major == 5" (mret (major =? 5)) ;;
     ASSERT 455 "minor == 10" (mret (minor =? 10)) ;;
     ASSERT 456 "ocxl_afu_get_event_fd(afu) >= 0"
       (fd ← lib (ocxl_afu_get_event_fd afu); mret (0 <=? fd)) ;;
     ASSERT 457 "ocxl_mmio_size(afu, OCXL_GLOBAL_MMIO) == 32*1024*1024"
       (value_is (32 * 1024 * 1024) (ocxl_mmio_size afu OCXL_GLOBAL_MMIO)) ;;
     ASSERT 458 "ocxl_mmio_size(afu, OCXL_PER_PASID_MMIO) == 16384"
       (value_is 16384 (ocxl_mmio_size afu OCXL_PER_PASID_MMIO)) ;;
     ASSERT 459 "ocxl_afu_get_pasid(afu) == 1234" (value_is 1234 (ocxl_afu_get_pasid afu)) ;;
     ASSERT 460 "ocxl_afu_get_event_fd(afu) != -1" (value_is_not (-1) (ocxl_afu_get_event_fd afu)) ;;
     test_stop SUCCESS)
    close_if_open.

Definition test_ocxl_afu_open : T K unit :=
  let ASSERT := ASSERT "test_ocxl_afu_open" in
  test_start "AFU" "ocxl_afu_open" ;;
  set_afu_var OCXL_INVALID_AFU ;;
  with_end
    (lib (ocxl_enable_messages OCXL_NO_MESSAGES) ;;
     ASSERT 479 "OCXL_NO_DEV == ocxl_afu_open(`nonexistent`, &afu)"
       (err_is OCXL_NO_DEV (into_afu (ocxl_afu_open "nonexistent"))) ;;
     lib (ocxl_enable_messages OCXL_ERRORS) ;;
     ASSERT 482 "OCXL_OK == ocxl_afu_open(`IBM,Dummy`, &afu)"
       (err_is OCXL_OK (into_afu (ocxl_afu_open "IBM,Dummy"))) ;;
     afu ← the_afu;
     ASSERT 484 "my_afu->fd != -1" (value_is_not (-1) (field afu_fd afu)) ;;
     ASSERT 485 "my_afu->epoll_fd != -1" (value_is_not (-1) (field afu_epoll_fd afu)) ;;
     ASSERT 486 device_path_text (str_is dummy_path (ocxl_afu_get_device_path afu)) ;;
     test_stop SUCCESS)
    (lib (ocxl_enable_messages OCXL_ERRORS) ;; close_if_open).

(** ** Attaching and closing *)

Definition test_ocxl_afu_attach : T K unit :=
  let ASSERT := ASSERT "test_ocxl_afu_attach" in
  test_start "AFU" "ocxl_afu_attach" ;;
  set_afu_var OCXL_INVALID_AFU ;;
  with_end
    (ASSERT 505 "!afu_is_attached()" (b ← lib afu_is_attached; mret (negb b)) ;;
     ASSERT 506 open_from_dev_text (err_is OCXL_OK (into_afu (ocxl_afu_open_from_dev dummy_path))) ;;
     afu ← the_afu;
     lib (ocxl_afu_enable_messages afu OCXL_ERRORS) ;;
     ASSERT 508 "OCXL_OK == ocxl_afu_attach(afu, OCXL_ATTACH_FLAGS_NONE)"
       (lib_err_is OCXL_OK (ocxl_afu_attach afu OCXL_ATTACH_FLAGS_NONE)) ;;
     ASSERT 509 "afu_is_attached()" (lib afu_is_attached) ;;
     test_stop SUCCESS)
    close_if_open.

(** The structure is read after it was freed. *)
Definition test_ocxl_afu_close : T K unit :=
  let ASSERT := ASSERT "test_ocxl_afu_close" in
  test_start "AFU" "ocxl_afu_close" ;;
  set_afu_var OCXL_INVALID_AFU ;;
  with_end
    (ASSERT 526 open_from_dev_text (err_is OCXL_OK (into_afu (ocxl_afu_open_from_dev dummy_path))) ;;
     afu ← the_afu;
     lib (ocxl_afu_enable_messages afu OCXL_ERRORS) ;;
     ASSERT 528 "OCXL_OK == ocxl_afu_close(afu)" (lib_err_is OCXL_OK (ocxl_afu_close afu)) ;;
     ASSERT 529 "afu != 0" (mret (negb (afu =? 0))) ;;
     ASSERT 535 "0 == my_afu->irq_count" (value_is 0 (field afu_irq_count afu)) ;;
     ASSERT 536 "0 == my_afu->irq_max_count" (value_is 0 (field afu_irq_max_count afu)) ;;
     ASSERT 537 "0 == my_afu->epoll_event_count" (value_is 0 (field afu_epoll_event_count afu)) ;;
     ASSERT 538 "-1 == my_afu->fd" (value_is (-1) (field afu_fd afu)) ;;
     ASSERT 539 "-1 == my_afu->epoll_fd" (value_is (-1) (field afu_epoll_fd afu)) ;;
     ASSERT 540 "NULL == my_afu->device_path" (value_is NULL (field afu_device_path afu)) ;;
     ASSERT 541 "NULL == my_afu->sysfs_path" (value_is NULL (field afu_sysfs_path afu)) ;;
     test_stop SUCCESS)
    close_if_open.

(** ** MMIO *)

Definition map_text : string := "OCXL_OK == ocxl_mmio_map(afu, OCXL_GLOBAL_MMIO, &global_mmio)".

(** [ASSERT(OCXL_OK == ocxl_mmio_map(afu, OCXL_GLOBAL_MMIO, &global_mmio))] *)
Definition map_global (function : string) (line : Z) (afu : ptr) : T K ocxl_mmio_h :=
  global_mmio ← ASSERT_AS function line map_text (ok_with (ocxl_mmio_map afu OCXL_GLOBAL_MMIO));
  stored global_mmio.

Definition test_ocxl_mmio_map : T K unit :=
  let ASSERT := ASSERT "test_ocxl_mmio_map" in
  test_start "MMIO" "ocxl_mmio_map/unmap" ;;
  set_afu_var OCXL_INVALID_AFU ;;
  with_end
    (ASSERT 558 open_from_dev_text (err_is OCXL_OK (into_afu (ocxl_afu_open_from_dev dummy_path))) ;;
     afu ← the_afu;
     lib (ocxl_afu_enable_messages afu OCXL_ERRORS) ;;
     ASSERT 562 "my_afu->global_mmio_fd != -1" (value_is_not (-1) (field afu_global_mmio_fd afu)) ;;
     ASSERT 563 "my_afu->global_mmio.start == NULL"
       (value_is NULL (field (λ a, area_start (afu_global_mmio a)) afu)) ;;
     ASSERT 564 "my_afu->global_mmio.length == GLOBAL_MMIO_SIZE"
       (value_is GLOBAL_MMIO_SIZE (field (λ a, area_length (afu_global_mmio a)) afu)) ;;
     global_mmio ← map_global "test_ocxl_mmio_map" 567 afu;
     ASSERT 568 "my_afu->global_mmio_fd != -1" (value_is_not (-1) (field afu_global_mmio_fd afu)) ;;
     info ← ASSERT_AS "test_ocxl_mmio_map" 571 "OCXL_OK == ocxl_mmio_get_info(global_mmio, &addr, &size)"
       (ok_with (ocxl_mmio_get_info global_mmio));
     '(addr, size) ← stored info;
     ASSERT 572 "addr != NULL" (mret (negb (addr =? NULL))) ;;
     ASSERT 573 "size == GLOBAL_MMIO_SIZE" (mret (size =? GLOBAL_MMIO_SIZE)) ;;
     lib (ocxl_mmio_unmap global_mmio) ;;
     ASSERT 576 "my_afu->global_mmio_fd != -1" (value_is_not (-1) (field afu_global_mmio_fd afu)) ;;
     ASSERT 577 "my_afu->mmios[0].start == NULL"
       (value_is NULL (mmios ← field afu_mmios afu; area ← read_elt mmios 0; mret (area_start area))) ;;
     ASSERT 579 "OCXL_OK == ocxl_afu_close(afu)" (lib_err_is OCXL_OK (ocxl_afu_close afu)) ;;
     ASSERT 580 "my_afu->global_mmio_fd == -1" (value_is (-1) (field afu_global_mmio_fd afu)) ;;
     ASSERT 581 "my_afu->global_mmio.start == NULL"
       (value_is NULL (field (λ a, area_start (afu_global_mmio a)) afu)) ;;
     ASSERT 582 "my_afu->global_mmio.length == GLOBAL_MMIO_SIZE"
       (value_is GLOBAL_MMIO_SIZE (field (λ a, area_length (afu_global_mmio a)) afu)) ;;
     test_stop SUCCESS)
    close_if_open.

Definition test_mmio_check : T K unit :=
  let ASSERT := ASSERT "test_mmio_check" in
  test_start "MMIO" "mmio_check" ;;
  set_afu_var OCXL_INVALID_AFU ;;
  with_end
    (ASSERT 599 open_from_dev_text (err_is OCXL_OK (into_afu (ocxl_afu_open_from_dev dummy_path))) ;;
     afu ← the_afu;
     ASSERT 602 "my_afu->global_mmio_fd != -1" (value_is_not (-1) (field afu_global_mmio_fd afu)) ;;
     ASSERT 603 "my_afu->global_mmio.start == NULL"
       (value_is NULL (field (λ a, area_start (afu_global_mmio a)) afu)) ;;
     ASSERT 604 "my_afu->global_mmio.length == GLOBAL_MMIO_SIZE"
       (value_is GLOBAL_MMIO_SIZE (field (λ a, area_length (afu_global_mmio a)) afu)) ;;
     lib (ocxl_afu_enable_messages afu OCXL_NO_MESSAGES) ;;
     ASSERT 608 "OCXL_INVALID_ARGS == mmio_check(0, 0, 4)"
       (lib_err_is OCXL_INVALID_ARGS (mmio_check (mk_mmio_h NULL 0) 0 4)) ;;
     global_mmio ← map_global "test_mmio_check" 611 afu;
     ASSERT 612 "OCXL_OUT_OF_BOUNDS == mmio_check(global_mmio, GLOBAL_MMIO_SIZE + 8, 4)"
       (lib_err_is OCXL_OUT_OF_BOUNDS (mmio_check global_mmio (GLOBAL_MMIO_SIZE + 8) 4)) ;;
     lib (ocxl_afu_enable_messages afu OCXL_ERRORS) ;;
     ASSERT 615 "OCXL_OK == mmio_check(global_mmio, 0, 4)"
       (lib_err_is OCXL_OK (mmio_check global_mmio 0 4)) ;;
     test_stop SUCCESS)
    (afu ← the_afu;
     lib (ocxl_afu_enable_messages afu OCXL_ERRORS) ;;
     close_if_open).

(** [for (offset = 0; offset < GLOBAL_MMIO_SIZE; offset += step)
       ASSERT(OCXL_OK == write(global_mmio, offset, ..., offset));] *)
Fixpoint write_loop (fuel : nat) (function : string) (line : Z) (text : string)
    (write : Z → M K ocxl_err) (step offset : Z) : T K unit :=
  match fuel with
  | O => lib diverge
  | S fuel =>
      if offset <? GLOBAL_MMIO_SIZE then
        ASSERT function line text (lib_err_is OCXL_OK (write offset)) ;;
        write_loop fuel function line text write step (offset + step)
      else mret tt
  end.

(** The loop that reads the values back: [good] afterwards. *)
Fixpoint read_loop (fuel : nat) (function : string) (line : Z) (text : string)
    (read : Z → M K (ocxl_err * option Z)) (step offset : Z) : T K bool :=
  match fuel with
  | O => lib diverge
  | S fuel =>
      if offset <? GLOBAL_MMIO_SIZE then
        val ← ASSERT_AS function line text (ok_with (read offset));
        val ← stored val;
        if negb (val =? offset) then mret false
        else read_loop fuel function line text read step (offset + step)
      else mret true
  end.

(** One step per access, and one that finds the end. *)
Definition accesses (step : Z) : nat := S (Z.to_nat (GLOBAL_MMIO_SIZE / step)).

(** [*(uint32_t * )(mmio->start + offset)] and the same for 64 bits: no
    barriers here *)
Definition load_area (n : nat) (global_mmio : ocxl_mmio_h) (offset : Z) : M K Z :=
  mmio ← get_area global_mmio;
  if negb (in_mapping mmio n offset) then undefined else
  bs ← call (SLoad (u64 (area_start mmio + offset)) n);
  mret (of_native_bytes bs).

Definition test_ocxl_mmio_read32_native : T K unit :=
  let fn := "test_ocxl_mmio_read32_native"%string in
  let ASSERT := ASSERT fn in
  test_start "MMIO" "ocxl_mmio_read32/write32_native" ;;
  set_afu_var OCXL_INVALID_AFU ;;
  with_end
    (ASSERT 633 open_from_dev_text (err_is OCXL_OK (into_afu (ocxl_afu_open_from_dev dummy_path))) ;;
     afu ← the_afu;
     lib (ocxl_afu_enable_messages afu OCXL_ERRORS) ;;
     global_mmio ← map_global fn 637 afu;
     write_loop (accesses 4) fn 640 "OCXL_OK == mmio_write32_native(global_mmio, offset, offset)"
       (λ offset, mmio_write32_native global_mmio offset offset) 4 0 ;;
     good ← read_loop (accesses 4) fn 647 "OCXL_OK == mmio_read32_native(global_mmio, offset, &val)"
       (λ offset, mmio_read32_native global_mmio offset) 4 0;
     ASSERT 653 "good" (mret good) ;;
     lib (ocxl_mmio_unmap global_mmio) ;;
     test_stop SUCCESS)
    (afu ← the_afu;
     lib (ocxl_afu_enable_messages afu OCXL_ERRORS) ;;
     close_if_open).

Definition test_ocxl_mmio_read64_native : T K unit :=
  let fn := "test_ocxl_mmio_read64_native"%string in
  let ASSERT := ASSERT fn in
  test_start "MMIO" "ocxl_mmio_read64/write64_native" ;;
  set_afu_var OCXL_INVALID_AFU ;;
  with_end
    (ASSERT 673 open_from_dev_text (err_is OCXL_OK (into_afu (ocxl_afu_open_from_dev dummy_path))) ;;
     afu ← the_afu;
     lib (ocxl_afu_enable_messages afu OCXL_ERRORS) ;;
     global_mmio ← map_global fn 677 afu;
     write_loop (accesses 8) fn 680 "OCXL_OK == mmio_write64_native(global_mmio, offset, offset)"
       (λ offset, mmio_write64_native global_mmio offset offset) 8 0 ;;
     good ← read_loop (accesses 8) fn 687 "OCXL_OK == mmio_read64_native(global_mmio, offset, &val)"
       (λ offset, mmio_read64_native global_mmio offset) 8 0;
     ASSERT 693 "good" (mret good) ;;
     lib (ocxl_mmio_unmap global_mmio) ;;
     test_stop SUCCESS)
    close_if_open.

Definition test_ocxl_mmio_read32 : T K unit :=
  let fn := "test_ocxl_mmio_read32"%string in
  let ASSERT := ASSERT fn in
  test_start "MMIO" "ocxl_mmio_read32/write32" ;;
  set_afu_var OCXL_INVALID_AFU ;;
  with_end
    (ASSERT 712 open_from_dev_text (err_is OCXL_OK (into_afu (ocxl_afu_open_from_dev dummy_path))) ;;
     afu ← the_afu;
     global_mmio ← map_global fn 715 afu;
     write_loop (accesses 4) fn 719
       "OCXL_OK == ocxl_mmio_write32(global_mmio, offset, OCXL_MMIO_BIG_ENDIAN, offset)"
       (λ offset, ocxl_mmio_write32 global_mmio offset OCXL_MMIO_BIG_ENDIAN offset) 4 0 ;;
     good ← read_loop (accesses 4) fn 726
       "OCXL_OK == ocxl_mmio_read32(global_mmio, offset, OCXL_MMIO_BIG_ENDIAN, &val)"
       (λ offset, ocxl_mmio_read32 global_mmio offset OCXL_MMIO_BIG_ENDIAN) 4 0;
     ASSERT 732 "good" (mret good) ;;
     big ← lib (load_area 4 global_mmio 4);
     ASSERT 735 "4 == be32toh(big)" (mret (4 =? be32toh big)) ;;
     write_loop (accesses 4) fn 738
       "OCXL_OK == ocxl_mmio_write32(global_mmio, offset, OCXL_MMIO_LITTLE_ENDIAN, offset)"
       (λ offset, ocxl_mmio_write32 global_mmio offset OCXL_MMIO_LITTLE_ENDIAN offset) 4 0 ;;
     good ← read_loop (accesses 4) fn 743
       "OCXL_OK == ocxl_mmio_read32(global_mmio, offset, OCXL_MMIO_LITTLE_ENDIAN, &val)"
       (λ offset, ocxl_mmio_read32 global_mmio offset OCXL_MMIO_LITTLE_ENDIAN) 4 0;
     ASSERT 749 "good" (mret good) ;;
     little ← lib (load_area 4 global_mmio 4);
     ASSERT 752 "4 == le32toh(little)" (mret (4 =? le32toh little)) ;;
     ASSERT 753 "big != little" (mret (negb (big =? little))) ;;
     lib (ocxl_mmio_unmap global_mmio) ;;
     test_stop SUCCESS)
    close_if_open.

Definition test_ocxl_mmio_read64 : T K unit :=
  let fn := "test_ocxl_mmio_read64"%string in
  let ASSERT := ASSERT fn in
  test_start "MMIO" "ocxl_mmio_read64/write64" ;;
  set_afu_var OCXL_INVALID_AFU ;;
  with_end
    (ASSERT 772 open_from_dev_text (err_is OCXL_OK (into_afu (ocxl_afu_open_from_dev dummy_path))) ;;
     afu ← the_afu;
     lib (ocxl_afu_enable_messages afu OCXL_ERRORS) ;;
     global_mmio ← map_global fn 776 afu;
     write_loop (accesses 8) fn 780
       "OCXL_OK == ocxl_mmio_write64(global_mmio, offset, OCXL_MMIO_BIG_ENDIAN, offset)"
       (λ offset, ocxl_mmio_write64 global_mmio offset OCXL_MMIO_BIG_ENDIAN offset) 8 0 ;;
     good ← read_loop (accesses 8) fn 787
       "OCXL_OK == ocxl_mmio_read64(global_mmio, offset, OCXL_MMIO_BIG_ENDIAN, &val)"
       (λ offset, ocxl_mmio_read64 global_mmio offset OCXL_MMIO_BIG_ENDIAN) 8 0;
     ASSERT 793 "good" (mret good) ;;
     big ← lib (load_area 8 global_mmio 8);
     ASSERT 796 "8 == be64toh(big)" (mret (8 =? be64toh big)) ;;
     write_loop (accesses 8) fn 799
       "OCXL_OK == ocxl_mmio_write64(global_mmio, offset, OCXL_MMIO_LITTLE_ENDIAN, offset)"
       (λ offset, ocxl_mmio_write64 global_mmio offset OCXL_MMIO_LITTLE_ENDIAN offset) 8 0 ;;
     good ← read_loop (accesses 8) fn 804
       "OCXL_OK == ocxl_mmio_read64(global_mmio, offset, OCXL_MMIO_LITTLE_ENDIAN, &val)"
       (λ offset, ocxl_mmio_read64 global_mmio offset OCXL_MMIO_LITTLE_ENDIAN) 8 0;
     ASSERT 810 "good" (mret good) ;;
     little ← lib (load_area 8 global_mmio 8);
     ASSERT 813 "8 == le64toh(little)" (mret (8 =? le64toh little)) ;;
     ASSERT 815 "big != little" (mret (negb (big =? little))) ;;
     lib (ocxl_mmio_unmap global_mmio) ;;
     test_stop SUCCESS)
    (afu ← the_afu;
     lib (ocxl_afu_enable_messages afu OCXL_ERRORS) ;;
     close_if_open).

(** ** Events *)

(** [action == read_afu_event(my_afu, 0, &event, &last)], with [event] and [last] *)
Definition read_event_is (action : ocxl_event_action) (afu : ptr) :
    T K (bool * (option ocxl_event * bool)) :=
  '(a, event, last) ← lib (read_afu_event afu 0);
  mret (bool_decide (a = action), (event, last)).

(** [event.type == OCXL_EVENT_TRANSLATION_FAULT] and its members *)
Definition event_fault (event : option ocxl_event) : T K (option ocxl_event_translation_fault) :=
  e ← stored event;
  mret (match e with OCXL_EVENT_TRANSLATION_FAULT f => Some f | OCXL_EVENT_IRQ _ => None end).

Definition fault_is (f : ocxl_event_translation_fault → Z) (z : Z) (event : option ocxl_event) : T K bool :=
  e ← event_fault event; e ← stored e; mret (f e =? z).

Definition none_text : string :=
  "OCXL_EVENT_ACTION_NONE == read_afu_event(my_afu, 0, &event, &last)".
Definition success_text : string :=
  "OCXL_EVENT_ACTION_SUCCESS == read_afu_event(my_afu, 0, &event, &last)".

Definition test_read_afu_event : T K unit :=
  let fn := "test_read_afu_event"%string in
  let ASSERT := ASSERT fn in
  let force := modify_dev (force_translation_fault 0xfeeddeadbeeff00d 0x123456789abcdef0 16) in
  test_start "IRQ" "read_afu_event" ;;
  set_afu_var OCXL_INVALID_AFU ;;
  with_end
    (ASSERT 836 open_from_dev_text (err_is OCXL_OK (into_afu (ocxl_afu_open_from_dev dummy_path))) ;;
     afu ← the_afu;
     lib (ocxl_afu_enable_messages afu OCXL_ERRORS) ;;
     ASSERT 838 "OCXL_OK == ocxl_afu_attach(afu, OCXL_ATTACH_FLAGS_NONE)"
       (lib_err_is OCXL_OK (ocxl_afu_attach afu OCXL_ATTACH_FLAGS_NONE)) ;;
     '(event, last) ← ASSERT_AS fn 843 none_text (read_event_is OCXL_EVENT_ACTION_NONE afu);
     ASSERT 844 "last" (mret last) ;;
     lib force ;;
     '(event, last) ← ASSERT_AS fn 853 success_text (read_event_is OCXL_EVENT_ACTION_SUCCESS afu);
     ASSERT 854 "last" (mret last) ;;
     ASSERT 855 "event.type == OCXL_EVENT_TRANSLATION_FAULT"
       (f ← event_fault event; mret (match f with Some _ => true | None => false end)) ;;
     ASSERT 856 "event.translation_fault.addr == (void *)0xfeeddeadbeeff00d"
       (fault_is ev_addr 0xfeeddeadbeeff00d event) ;;
     ASSERT 858 "event.translation_fault.dsisr == 0x123456789abcdef0"
       (fault_is ev_dsisr 0x123456789abcdef0 event) ;;
     ASSERT 860 "event.translation_fault.count == 16" (fault_is ev_fault_count 16 event) ;;
     lib force ;;
     '(event, last) ← ASSERT_AS fn 869 success_text (read_event_is OCXL_EVENT_ACTION_SUCCESS afu);
     ASSERT 870 "last" (mret last) ;;
     ASSERT 871 "event.type == OCXL_EVENT_TRANSLATION_FAULT"
       (f ← event_fault event; mret (match f with Some _ => true | None => false end)) ;;
     ASSERT 872 "event.translation_fault.addr == (void *)0xfeeddeadbeeff00d"
       (fault_is ev_addr 0xfeeddeadbeeff00d event) ;;
     ASSERT 874 "event.translation_fault.dsisr == 0x123456789abcdef0"
       (fault_is ev_dsisr 0x123456789abcdef0 event) ;;
     ASSERT 876 "event.translation_fault.count == 16" (fault_is ev_fault_count 16 event) ;;
     '(event, last) ← ASSERT_AS fn 879 none_text (read_event_is OCXL_EVENT_ACTION_NONE afu);
     ASSERT 880 "last" (mret last) ;;
     test_stop SUCCESS)
    close_if_open.

(** ** Error handlers *)

Definition test_ocxl_set_error_message_handler : T K unit :=
  let ASSERT := ASSERT "test_ocxl_set_error_message_handler" in
  test_start "ERR" "ocxl_set_error_message_handler" ;;
  with_end
    (put (λ s, s <| err_buf := pad NUL MAX_MESSAGE_LENGTH |>) ;;
     lib (ocxl_set_error_message_handler (UserHandler copy_to_err_buf_addr)) ;;
     lib (ocxl_enable_messages OCXL_ERRORS) ;;
     reporting (errmsg NULL OCXL_INTERNAL_ERROR "%s" [AStr "error message test"]) ;;
     ASSERT 952 "!strcmp(`Internal error: error message test`, err_buf)"
       (buf ← get err_buf; mret (String.eqb "Internal error: error message test" (c_string buf))) ;;
     test_stop SUCCESS)
    (lib (ocxl_set_error_message_handler DefaultHandler)).

Definition test_ocxl_set_afu_error_message_handler : T K unit :=
  let ASSERT := ASSERT "test_ocxl_set_afu_error_message_handler" in
  test_start "ERR" "ocxl_set_afu_error_message_handler" ;;
  put (λ s, s <| err_buf := pad NUL MAX_MESSAGE_LENGTH |>) ;;
  set_afu_var OCXL_INVALID_AFU ;;
  with_end
    (ASSERT 979 open_from_dev_text (err_is OCXL_OK (into_afu (ocxl_afu_open_from_dev dummy_path))) ;;
     afu ← the_afu;
     lib (ocxl_afu_set_error_message_handler afu (UserHandler copy_to_err_buf_afu_addr)) ;;
     lib (ocxl_afu_enable_messages afu OCXL_ERRORS) ;;
     reporting (errmsg afu OCXL_INTERNAL_ERROR "%s" [AStr "error message test"]) ;;
     ASSERT 988 "!strcmp(`IBM,Dummy(5,10): Internal error: error message test`, err_buf)"
       (buf ← get err_buf;
        mret (String.eqb "IBM,Dummy(5,10): Internal error: error message test" (c_string buf))) ;;
     test_stop SUCCESS)
    close_if_open.

(** ** The program *)

Definition SIGINT : Z := 2.
Definition SIGTERM : Z := 15.

Definition exit_handler : T K unit :=
  thread ← get afu_thread;
  twhen (c_bool thread)
    (lib (stop_afu ;;
          call (SThreadKill thread SIGTERM) ;;
          call (SThreadJoin thread) ;;
          term_afu)).

Definition main_setup : T K unit :=
  lib (call (SSignal SIGINT) ;;
       ocxl_set_sys_path ocxl_sysfs_path ;;
       ocxl_set_dev_path ocxl_dev_path ;;
       ocxl_enable_messages OCXL_ERRORS ;;
       ensure_dir ocxl_sysfs_path).

Fixpoint run_tests (l : list (T K unit)) : T K unit :=
  match l with [] => mret tt | t :: l => t ;; run_tests l end.

(** The tests, in the order of [main]: those without a device, those that
    open it, the one that reads the structure of a closed AFU, and the rest. *)
Definition structure_tests : list (T K unit) :=
  [test_afu_init; test_ocxl_afu_alloc; test_device_matches].

Definition open_tests : list (T K unit) :=
  [test_populate_metadata; test_afu_getters; test_get_afu_by_path; test_afu_open;
   test_ocxl_afu_open_specific; test_ocxl_afu_open_from_dev; test_ocxl_afu_open;
   test_ocxl_afu_attach].

Definition message_tests : list (T K unit) :=
  [test_ocxl_set_error_message_handler; test_ocxl_set_afu_error_message_handler].

Definition mmio_tests : list (T K unit) :=
  [test_ocxl_mmio_map; test_mmio_check; test_ocxl_mmio_read32_native;
   test_ocxl_mmio_read64_native; test_ocxl_mmio_read32; test_ocxl_mmio_read64].

Definition main_tests (fuel : nat) : T K unit :=
  run_tests structure_tests ;;
  create_afu fuel ;;
  lib (call (SSleep 1000000)) ;;
  run_tests open_tests ;;
  test_ocxl_afu_close ;;
  run_tests message_tests ;;
  run_tests mmio_tests ;;
  test_read_afu_event.

(** The exit status. *)
Definition main (fuel : nat) : M K Z :=
  '(_, v) ← (main_setup ;;
             main_tests fuel ;;
             exit_handler ;;
             failed ← test_report;
             mret (if (failed : bool) then 1 else 0)) initial_suite;
  match v with
  | Next status => mret status
  | Exit code => mret code
  | GotoEnd => undefined
  end.

End tests.
