(* ===== verification/UnitTestFacts.v ===== *)
(** * UnitTestFacts: rules for the tests

    [steady m]: a part of a test writes to no entry of the table but its own
    and keeps the entries well-formed, and it jumps to the end only after the
    test was marked as failed.  [concludes m]: the part ends the test.  The
    two are closed under the constructions the tests are written with, so that
    a test has them by its structure ([settled]).  [wpt] is [wp] for the
    monad of the tests. *)

From S2P Require Import Prelude Format Types World Logic Messages Mmio Event Afu Getopt VirtAfu UnitTest.
From S2P Require Import UnitTests.
Open Scope Z_scope.

Create HintDb settled discriminated.

(** ** The table *)

Record test_wf (t : test) : Prop := {
  tw_suite : String.length (t_suite t) = (SUITE_NAME_LEN + 1)%nat;
  tw_name : String.length (t_name t) = (TEST_NAME_LEN + 1)%nat;
  tw_count : 0 <= t_count t <= INT_MAX
}.

Record suite_wf (s : suite) : Prop := {
  sw_length : Z.of_nat (length (tests s)) = MAX_TESTS;
  sw_current : -1 <= current_test s <= MAX_TESTS;
  sw_tests : Forall test_wf (tests s)
}.

Lemma length_pad c n : String.length (pad c n) = n.
Proof. induction n; simpl; auto. Qed.

Lemma length_substring_0 n s : String.length (String.substring 0 n s) = Nat.min n (String.length s).
Proof.
  revert n. induction s as [|c s IH]; intros [|n]; simpl; try done. by rewrite IH.
Qed.

Lemma length_strncpy s n : String.length (strncpy s n) = n.
Proof. unfold strncpy. rewrite length_string_app, length_substring_0, length_pad. lia. Qed.

Lemma initial_suite_wf : suite_wf initial_suite.
Proof. split; [done|done|]. apply Forall_replicate. by repeat split. Qed.

(** The state of the test that runs. *)
Definition this_state (s : suite) : option state := t_state <$> tests s !! Z.to_nat (current_test s).

(** [s'] differs from [s] at most in the entry of the test that runs. *)
Record same_others (s s' : suite) : Prop := {
  so_current : current_test s' = current_test s;
  so_others i : i ≠ Z.to_nat (current_test s) → tests s' !! i = tests s !! i
}.

#[export] Instance same_others_preorder : PreOrder same_others.
Proof.
  split; [by split|]. intros s1 s2 s3 [E1 O1] [E2 O2]. split; [congruence|].
  intros i Hi. rewrite O2 by congruence. by apply O1.
Qed.

Section settled.
Context {K : Type} `{Platform K} `{Abi} `{!Device K}.
Implicit Types (w : world K).

Definition verdict_ok {A} (v : verdict A) (s : suite) : Prop :=
  match v with Next _ => True | GotoEnd => this_state s = Some FAIL | Exit _ => False end.

Definition steady {A} (m : T K A) : Prop := ∀ s w s' v w',
  m s w = Ret (s', v) w' → suite_wf s → suite_wf s' ∧ same_others s s' ∧ verdict_ok v s'.

Definition concludes (m : T K unit) : Prop := ∀ s w s' v w',
  m s w = Ret (s', v) w' → suite_wf s →
  suite_wf s' ∧ same_others s s' ∧
  match v with
  | Next _ => this_state s' = Some SUCCESS
  | GotoEnd => this_state s' = Some FAIL
  | Exit _ => False
  end.

(** Code that leaves the table alone and does not jump. *)
Definition harmless {A} (m : T K A) : Prop := ∀ s w s' v w',
  m s w = Ret (s', v) w' → tests s' = tests s ∧ current_test s' = current_test s ∧ ∃ a, v = Next a.

Lemma suite_wf_same s s' : tests s' = tests s → current_test s' = current_test s → suite_wf s → suite_wf s'.
Proof. intros E1 E2 [H1 H2 H3]. split; [by rewrite E1|by rewrite E2|by rewrite E1]. Qed.

Lemma harmless_steady {A} (m : T K A) : harmless m → steady m.
Proof.
  intros Hm s w s' v w' E Hs. destruct (Hm _ _ _ _ _ E) as (E1 & E2 & a & ->). split_and!.
  - by eapply suite_wf_same.
  - split; [done|]. intros i _. by rewrite E1.
  - done.
Qed.

Lemma harmless_lib {A} (m : M K A) : harmless (lib m).
Proof.
  intros s w s' v w'. unfold lib, mbind, M_bind. destruct (m w); [|done..]. intros [= <- <- _]. eauto.
Qed.

Lemma harmless_ret {A} (a : A) : harmless (mret a).
Proof. intros s w s' v w' [= <- <- _]. eauto. Qed.

Lemma harmless_get {A} (f : suite → A) : harmless (get f).
Proof. intros s w s' v w' [= <- <- _]. eauto. Qed.

Lemma harmless_put f :
  (∀ s, tests (f s) = tests s) → (∀ s, current_test (f s) = current_test s) → harmless (put f).
Proof. intros H1 H2 s w s' v w' [= <- <- _]. eauto. Qed.

Lemma harmless_get_test i : harmless (get_test i).
Proof.
  intros s w s' v w'. unfold get_test. destruct (i <? 0); [done|]. destruct (_ !! _); [|done].
  intros [= <- <- _]. eauto.
Qed.

Lemma harmless_bind {A B} (m : T K A) (k : A → T K B) :
  harmless m → (∀ a, harmless (k a)) → harmless (m ≫= k).
Proof.
  intros Hm Hk s w s' v w' E. unfold mbind, T_bind in E. unfold mbind, M_bind in E.
  destruct (m s w) as [[s1 v1] w1| |] eqn:E1; [|done..].
  destruct (Hm _ _ _ _ _ E1) as (F1 & F2 & a & ->). destruct (Hk a _ _ _ _ _ E) as (G1 & G2 & G3).
  split_and!; [congruence|congruence|done].
Qed.

Lemma harmless_twhen b (m : T K unit) : harmless m → harmless (twhen b m).
Proof. intros Hm. destruct b; [done|apply harmless_ret]. Qed.

Lemma steady_bind {A B} (m : T K A) (k : A → T K B) :
  steady m → (∀ a, steady (k a)) → steady (m ≫= k).
Proof.
  intros Hm Hk s w s' v w' E Hs. unfold mbind, T_bind in E. unfold mbind, M_bind in E.
  destruct (m s w) as [[s1 v1] w1| |] eqn:E1; [|done..].
  destruct (Hm _ _ _ _ _ E1 Hs) as (W1 & O1 & V1). destruct v1 as [a| |].
  - destruct (Hk a _ _ _ _ _ E W1) as (W2 & O2 & V2). split_and!; [done|by etrans|done].
  - by injection E as <- <- _.
  - by injection E as <- <- _.
Qed.

Lemma concludes_bind {A} (m : T K A) (k : A → T K unit) :
  steady m → (∀ a, concludes (k a)) → concludes (m ≫= k).
Proof.
  intros Hm Hk s w s' v w' E Hs. unfold mbind, T_bind in E. unfold mbind, M_bind in E.
  destruct (m s w) as [[s1 v1] w1| |] eqn:E1; [|done..].
  destruct (Hm _ _ _ _ _ E1 Hs) as (W1 & O1 & V1). destruct v1 as [a| |].
  - destruct (Hk a _ _ _ _ _ E W1) as (W2 & O2 & V2). split_and!; [done|by etrans|done].
  - by injection E as <- <- _.
  - by injection E as <- <- _.
Qed.

(** ** An update of the entry of the test that runs *)

Lemma run_set_test s w i f s' v w' :
  set_test (K := K) i f s w = Ret (s', v) w' →
  ∃ t, 0 <= i ∧ tests s !! Z.to_nat i = Some t ∧ v = Next tt ∧ w' = w ∧
    s' = s <| tests := <[Z.to_nat i := f t]> (tests s) |>.
Proof.
  unfold set_test, get_test, mbind, T_bind, mbind, M_bind. destruct (Z.ltb_spec i 0); [done|].
  destruct (tests s !! Z.to_nat i) as [t|]; [|done]. intros [= <- <- <-]. by exists t.
Qed.

Lemma run_set_this s w f s' v w' :
  set_test (K := K) (current_test s) f s w = Ret (s', v) w' → suite_wf s → (∀ t, test_wf t → test_wf (f t)) →
  ∃ t, tests s !! Z.to_nat (current_test s) = Some t ∧ v = Next tt ∧ suite_wf s' ∧ same_others s s' ∧
    tests s' !! Z.to_nat (current_test s) = Some (f t).
Proof.
  intros E [W1 W2 W3] Hf. apply run_set_test in E as (t & Hi0 & Ht & -> & -> & ->). exists t.
  pose proof (lookup_lt_Some _ _ _ Ht). split_and!; [done|done| | |].
  - split; simpl; [by rewrite length_insert|done|]. apply Forall_insert; [done|].
    apply Hf. exact (Forall_lookup_1 _ _ _ _ W3 Ht).
  - split; simpl; [done|]. intros i Hi. by apply list_lookup_insert_ne.
  - simpl. by apply list_lookup_insert_eq.
Qed.

Lemma test_wf_state t st : test_wf t → test_wf (t <| t_state := st |>).
Proof. by intros []. Qed.

(** [test_stop] marks the test. *)
Lemma run_test_stop st s w s' v w' :
  test_stop (K := K) st s w = Ret (s', v) w' → suite_wf s →
  suite_wf s' ∧ same_others s s' ∧ this_state s' = Some st ∧ ∃ a, v = Next a.
Proof.
  intros E Hs. unfold test_stop, this_test, get, mbind, T_bind, mbind, M_bind in E. simpl in E.
  destruct (set_test _ _ s w) as [[s1 v1] w1| |] eqn:E1; [|done..].
  apply run_set_this in E1 as (t & Ht & -> & W1 & O1 & L1); [|done|by intros; apply test_wf_state].
  assert (this_state s1 = Some st) as V1 by (unfold this_state; by rewrite (so_current _ _ O1), L1).
  assert (harmless (match st with
    | SUCCESS => lib (printf ("OK" +:+ newline) []) | SKIP => lib (printf ("Skipped" +:+ newline) [])
    | FAIL => lib (printf ("Failed" +:+ newline) []) | IN_PROGRESS => mret tt end : T K unit)) as Hh.
  { destruct st; auto using harmless_lib, harmless_ret. }
  destruct (Hh _ _ _ _ _ E) as (F1 & F2 & F3). split_and!; [by eapply suite_wf_same| | |done].
  - etrans; [exact O1|]. split; [done|]. intros i _. by rewrite F1.
  - unfold this_state. by rewrite F1, F2.
Qed.

Lemma concludes_success : concludes (test_stop SUCCESS).
Proof.
  intros s w s' v w' E Hs. destruct (run_test_stop _ _ _ _ _ _ E Hs) as (W & O & V & a & ->). done.
Qed.

Lemma steady_count_check : steady count_check.
Proof.
  intros s w s' v w' E Hs. unfold count_check, this_test, get in E.
  unfold mbind, T_bind, mbind, M_bind in E. simpl in E.
  unfold get_test in E at 1. destruct (current_test s <? 0); [done|].
  destruct (tests s !! Z.to_nat (current_test s)) as [t|] eqn:Ht; [|done]. simpl in E.
  destruct (Z.leb_spec INT_MAX (t_count t)) as [|Hlt]; [done|].
  apply run_set_test in E as (t' & Hi0 & Ht' & -> & -> & ->). rewrite Ht in Ht'. injection Ht' as <-.
  destruct Hs as [W1 W2 W3]. pose proof (Forall_lookup_1 _ _ _ _ W3 Ht) as [T1 T2 T3].
  split_and!; [split; simpl; [by rewrite length_insert|done|]| |done].
  - apply Forall_insert; [done|]. split; simpl; [done|done|lia].
  - split; simpl; [done|]. intros i Hi. by apply list_lookup_insert_ne.
Qed.

Lemma steady_fail {A} : steady (test_stop FAIL ;; goto_end (A := A)).
Proof.
  intros s w s' v w' E Hs. unfold mbind, T_bind in E. unfold mbind, M_bind in E.
  destruct (test_stop FAIL s w) as [[s1 v1] w1| |] eqn:E1; [|done..].
  destruct (run_test_stop _ _ _ _ _ _ E1 Hs) as (W1 & O1 & V1 & a & ->).
  by injection E as <- <- _.
Qed.

Lemma steady_ASSERT_AS {A} fn line text (m : T K (bool * A)) : steady m → steady (ASSERT_AS fn line text m).
Proof.
  intros Hm. apply steady_bind; [apply steady_count_check|]. intros _. apply steady_bind; [done|].
  intros [[] a]; [apply harmless_steady, harmless_ret|].
  apply steady_bind; [apply harmless_steady, harmless_lib|]. intros _. apply steady_fail.
Qed.

Lemma steady_ASSERT fn line text (m : T K bool) : steady m → steady (ASSERT fn line text m).
Proof.
  intros Hm. apply steady_ASSERT_AS, steady_bind; [done|]. intros b. apply harmless_steady, harmless_ret.
Qed.

(** A callback writes the message buffer only. *)
Lemma run_handle_all es s w s' w' :
  handle_all (K := K) es s w = Ret s' w' → tests s' = tests s ∧ current_test s' = current_test s.
Proof.
  assert (∀ e s w s' w', handle (K := K) e s w = Ret s' w' →
    tests s' = tests s ∧ current_test s' = current_test s) as H1.
  { clear. intros [R c r] s w s' w'. destruct c; try by intros [= <- _]. simpl.
    destruct (_ =? _); [by intros [= <- _]|]. destruct (_ =? _); [|done].
    unfold copy_to_err_buf_afu, mbind, M_bind.
    destruct (ocxl_afu_get_identifier _ _) as [[] ?| |]; [|done..].
    destruct (ocxl_afu_get_version _ _) as [[] ?| |]; [|done..]. by intros [= <- _]. }
  revert s w. induction es as [|e es IH]; intros s w E; [by injection E as <- _|].
  simpl in E. unfold mbind, M_bind in E. destruct (handle e s w) as [s1 w1| |] eqn:E1; [|done..].
  destruct (H1 _ _ _ _ _ E1), (IH _ _ E). split; congruence.
Qed.

Lemma harmless_reporting {A} (m : M K A) : harmless (reporting m).
Proof.
  intros s w s' v w' E. unfold reporting, mbind, M_bind in E.
  destruct (logged m w) as [[a es] w1| |]; [|done..].
  destruct (handle_all es s w1) as [s1 w2| |] eqn:E1; [|done..].
  apply run_handle_all in E1 as [? ?]. injection E as <- <- _. eauto.
Qed.

End settled.

#[export] Hint Resolve harmless_lib harmless_ret harmless_get harmless_get_test harmless_reporting
  harmless_twhen steady_ASSERT steady_ASSERT_AS concludes_success : settled.
#[export] Hint Extern 1 (harmless (put _)) => apply harmless_put; reflexivity : settled.
#[export] Hint Extern 5 (steady _) => apply harmless_steady : settled.

(** Follow the structure of a test. *)
Ltac settled :=
  repeat first
    [ progress (cbv zeta; cbn beta)
    | solve [auto with settled]
    | match goal with
      | |- harmless (_ ≫= _) => apply harmless_bind; [|intros]
      | |- harmless (twhen _ _) => apply harmless_twhen
      | |- concludes (_ ≫= _) => apply concludes_bind; [|intros]
      | |- steady (ASSERT _ _ _ _) => apply steady_ASSERT
      | |- steady (ASSERT_AS _ _ _ _) => apply steady_ASSERT_AS
      | |- steady (_ ≫= _) => apply steady_bind; [|intros]
      | |- _ (match ?x with _ => _ end) => destruct x
      end ].

Section verdicts.
Context {K : Type} `{Platform K} `{Abi} `{!Device K}.
Implicit Types (w : world K).

Lemma harmless_into_afu (m : M K (ocxl_err * ptr)) : harmless (into_afu m).
Proof. unfold into_afu. settled. Qed.

Lemma harmless_err_is e (m : T K ocxl_err) : harmless m → harmless (err_is e m).
Proof. intros Hm. unfold err_is. settled. Qed.

Lemma harmless_stored {A} (o : option A) : harmless (K := K) (stored o).
Proof. apply harmless_lib. Qed.

Lemma harmless_close_if_open : harmless (K := K) close_if_open.
Proof. unfold close_if_open, the_afu. settled. Qed.

#[local] Hint Resolve harmless_into_afu harmless_err_is harmless_stored harmless_close_if_open : settled.

Lemma harmless_lib_err_is e (m : M K ocxl_err) : harmless (lib_err_is e m).
Proof. unfold lib_err_is. settled. Qed.

Lemma harmless_value_is z (m : M K Z) : harmless (value_is z m).
Proof. unfold value_is. settled. Qed.

Lemma harmless_value_is_not z (m : M K Z) : harmless (value_is_not z m).
Proof. unfold value_is_not. settled. Qed.

Lemma harmless_str_is text (m : M K ptr) : harmless (str_is text m).
Proof. apply harmless_lib. Qed.

Lemma harmless_ok_with {A} (m : M K (ocxl_err * option A)) : harmless (ok_with m).
Proof. unfold ok_with. settled. Qed.

Lemma harmless_set_afu_var p : harmless (K := K) (set_afu_var p).
Proof. unfold set_afu_var. settled. Qed.

Lemma harmless_the_afu : harmless (K := K) the_afu.
Proof. unfold the_afu. settled. Qed.

Lemma harmless_read_event_is action afu : harmless (K := K) (read_event_is action afu).
Proof. unfold read_event_is. settled. Qed.

Lemma harmless_event_fault e : harmless (K := K) (event_fault e).
Proof. unfold event_fault. settled. Qed.

#[local] Hint Resolve harmless_lib_err_is harmless_value_is harmless_value_is_not harmless_str_is
  harmless_ok_with harmless_set_afu_var harmless_the_afu harmless_read_event_is harmless_event_fault : settled.

Lemma harmless_fault_is f z e : harmless (K := K) (fault_is f z e).
Proof. unfold fault_is. settled. Qed.

Lemma steady_map_global fn line afu : steady (K := K) (map_global fn line afu).
Proof. unfold map_global. settled. Qed.

Lemma steady_write_loop fuel fn line text write step offset :
  steady (K := K) (write_loop fuel fn line text write step offset).
Proof. revert offset. induction fuel as [|fuel IH]; intros offset; simpl; settled. Qed.

Lemma steady_read_loop fuel fn line text read step offset :
  steady (K := K) (read_loop fuel fn line text read step offset).
Proof. revert offset. induction fuel as [|fuel IH]; intros offset; simpl; settled. Qed.

#[local] Hint Resolve harmless_fault_is steady_map_global steady_write_loop steady_read_loop : settled.

(** ** Whole tests

    A test adds its entry behind the others and leaves it with a verdict. *)
Definition is_test (m : T K unit) : Prop := ∀ s w s' v w',
  m s w = Ret (s', v) w' → suite_wf s →
  suite_wf s' ∧ current_test s' = current_test s + 1 ∧
  match v with
  | Next _ => (∀ i, i ≠ Z.to_nat (current_test s') → tests s' !! i = tests s !! i) ∧
              (this_state s' = Some SUCCESS ∨ this_state s' = Some FAIL)
  | GotoEnd => False
  | Exit code => code = 1 ∧ current_test s' = MAX_TESTS
  end.

Lemma harmless_warn sn name i : harmless (K := K) (warn_in_progress sn name i).
Proof. unfold warn_in_progress. settled. Qed.

Lemma run_test_start sn name s w s' v w' :
  test_start (K := K) sn name s w = Ret (s', v) w' → suite_wf s →
  suite_wf s' ∧ current_test s' = current_test s + 1 ∧
  match v with
  | Next _ => ∀ i, i ≠ Z.to_nat (current_test s') → tests s' !! i = tests s !! i
  | GotoEnd => False
  | Exit code => code = 1 ∧ current_test s' = MAX_TESTS
  end.
Proof.
  intros E Hs. unfold test_start in E. unfold mbind, T_bind in E. unfold mbind, M_bind in E.
  unfold lib at 1 in E. unfold mbind, M_bind in E.
  destruct (printf _ _ w) as [[] w1| |]; [|done..]. simpl in E.
  set (s1 := s <| current_test := current_test s + 1 |>) in E.
  destruct Hs as [W1 W2 W3].
  destruct (Z.eqb_spec (current_test s + 1) MAX_TESTS) as [Ec|Ec].
  - unfold lib, mbind, M_bind, exit in E. destruct (fprintf_stderr _ _ w1) as [[] w2| |]; [|done..].
    injection E as <- <- _. split_and!; [|done|done|done]. split; simpl; [done|lia|done].
  - destruct (warn_in_progress sn name (current_test s + 1) s1 w1) as [[s2 v2] w2| |] eqn:E2; [|done..].
    assert (tests s2 = tests s1 ∧ current_test s2 = current_test s1 ∧ ∃ a, v2 = Next a) as (F1 & F2 & a & ->).
    { revert E2. apply harmless_warn. }
    apply run_set_test in E as (t & Hi0 & Ht & -> & -> & ->). rewrite F1 in Ht. simpl in Ht.
    pose proof (lookup_lt_Some _ _ _ Ht).
    assert (current_test s2 = current_test s + 1) as F3 by by rewrite F2.
    assert (tests s2 = tests s) as F4 by by rewrite F1.
    split_and!; simpl; [|done|].
    + split; simpl; rewrite ?F3, ?F4, ?length_insert; [done|lia|].
      apply Forall_insert; [done|]. split; simpl; [apply length_strncpy..|done].
    + intros i Hi. rewrite F3 in Hi. rewrite F4. by apply list_lookup_insert_ne.
Qed.

(** The part of a test behind [test_start]. *)
Definition finishes (m : T K unit) : Prop := ∀ s w s' v w',
  m s w = Ret (s', v) w' → suite_wf s →
  suite_wf s' ∧ same_others s s' ∧
  (∃ a, v = Next a) ∧ (this_state s' = Some SUCCESS ∨ this_state s' = Some FAIL).

Lemma finishes_with_end body cleanup : concludes body → harmless cleanup → finishes (with_end body cleanup).
Proof.
  intros Hb Hc s w s' v w' E Hs. unfold with_end, mbind, M_bind in E.
  destruct (body s w) as [[s1 v1] w1| |] eqn:E1; [|done..].
  destruct (Hb _ _ _ _ _ E1 Hs) as (W1 & O1 & V1).
  assert (this_state s1 = Some SUCCESS ∨ this_state s1 = Some FAIL) as V2 by (destruct v1; simpl in V1; tauto).
  assert (cleanup s1 w1 = Ret (s', v) w') as E2 by (destruct v1; done).
  destruct (Hc _ _ _ _ _ E2) as (F1 & F2 & F3). split_and!; [by eapply suite_wf_same| |done|].
  - etrans; [exact O1|]. split; [done|]. intros i _. by rewrite F1.
  - unfold this_state. by rewrite F1, F2.
Qed.

Lemma finishes_bind {A} (m : T K A) (k : A → T K unit) :
  harmless m → (∀ a, finishes (k a)) → finishes (m ≫= k).
Proof.
  intros Hm Hk s w s' v w' E Hs. unfold mbind, T_bind in E. unfold mbind, M_bind in E.
  destruct (m s w) as [[s1 v1] w1| |] eqn:E1; [|done..].
  destruct (Hm _ _ _ _ _ E1) as (F1 & F2 & a & ->).
  destruct (Hk a _ _ _ _ _ E) as (W & O & V1 & V2); [by eapply suite_wf_same|]. split_and!; [done| |done..].
  etrans; [|exact O]. split; [done|]. intros i _. by rewrite F1.
Qed.

Lemma finishes_undefined : finishes (lib undefined).
Proof. by intros s w s' v w' E. Qed.

Lemma is_test_intro sn name (m : T K unit) : finishes m → is_test (test_start sn name ;; m).
Proof.
  intros Hm s w s' v w' E Hs. unfold mbind, T_bind in E. unfold mbind, M_bind in E.
  destruct (test_start sn name s w) as [[s1 v1] w1| |] eqn:E1; [|done..].
  destruct (run_test_start _ _ _ _ _ _ _ E1 Hs) as (W1 & C1 & V1). destruct v1 as [a| |code]; [|done|].
  - destruct (Hm _ _ _ _ _ E W1) as (W2 & [O1 O2] & (b & ->) & V2). split_and!; [done|congruence| |done].
    intros i Hi. rewrite O2 by congruence. apply V1. congruence.
  - by injection E as <- <- _.
Qed.

(** Code in front of a test that leaves the table alone. *)
Lemma is_test_bind {A} (m : T K A) (k : A → T K unit) :
  harmless m → (∀ a, is_test (k a)) → is_test (m ≫= k).
Proof.
  intros Hm Hk s w s' v w' E Hs. unfold mbind, T_bind in E. unfold mbind, M_bind in E.
  destruct (m s w) as [[s1 v1] w1| |] eqn:E1; [|done..].
  destruct (Hm _ _ _ _ _ E1) as (F1 & F2 & a & ->).
  destruct (Hk a _ _ _ _ _ E) as (W & C & V); [by eapply suite_wf_same|]. rewrite F1, F2 in *. done.
Qed.

Ltac tested :=
  cbv zeta;
  repeat match goal with
         | |- is_test (test_start _ _ ;; _) => apply is_test_intro
         | |- is_test (_ ≫= _) => apply is_test_bind; [settled|intros _]
         end;
  repeat match goal with
         | |- finishes (with_end _ _) => apply finishes_with_end; settled
         | |- finishes (_ ≫= _) => apply finishes_bind; [settled|intros]
         | |- finishes (match ?x with _ => _ end) => destruct x
         | |- finishes (lib undefined) => apply finishes_undefined
         end.

Definition all_tests : list (T K unit) :=
  structure_tests ++ open_tests ++ [test_ocxl_afu_close] ++ message_tests ++ mmio_tests ++ [test_read_afu_event].

Lemma structure_tests_are_tests : Forall is_test structure_tests.
Proof.
  repeat apply Forall_cons_2; [..|by apply Forall_nil].
  - unfold test_afu_init. tested.
  - unfold test_ocxl_afu_alloc. tested.
  - unfold test_device_matches. tested.
Qed.

Lemma open_tests_are_tests : Forall is_test open_tests.
Proof.
  repeat apply Forall_cons_2; [..|by apply Forall_nil].
  - unfold test_populate_metadata. tested.
  - unfold test_afu_getters. tested.
  - unfold test_get_afu_by_path. tested.
  - unfold test_afu_open. tested.
  - unfold test_ocxl_afu_open_specific. tested.
  - unfold test_ocxl_afu_open_from_dev. tested.
  - unfold test_ocxl_afu_open. tested.
  - unfold test_ocxl_afu_attach. tested.
Qed.

Lemma message_tests_are_tests : Forall is_test message_tests.
Proof.
  repeat apply Forall_cons_2; [..|by apply Forall_nil].
  - unfold test_ocxl_set_error_message_handler. tested.
  - unfold test_ocxl_set_afu_error_message_handler. tested.
Qed.

Lemma mmio_tests_are_tests : Forall is_test mmio_tests.
Proof.
  repeat apply Forall_cons_2; [..|by apply Forall_nil].
  - unfold test_ocxl_mmio_map. tested.
  - unfold test_mmio_check. tested.
  - unfold test_ocxl_mmio_read32_native. tested.
  - unfold test_ocxl_mmio_read64_native. tested.
  - unfold test_ocxl_mmio_read32. tested.
  - unfold test_ocxl_mmio_read64. tested.
Qed.

Lemma all_tests_are_tests : Forall is_test all_tests.
Proof.
  unfold all_tests. rewrite !Forall_app. split_and!; auto using structure_tests_are_tests,
    open_tests_are_tests, message_tests_are_tests, mmio_tests_are_tests.
  - apply Forall_cons_2; [|by apply Forall_nil]. unfold test_ocxl_afu_close. tested.
  - apply Forall_cons_2; [|by apply Forall_nil]. unfold test_read_afu_event. tested.
Qed.

End verdicts.

(** ** Sequences of tests *)

Section sequences.
Context {K : Type} `{Platform K} `{Abi} `{!Device K}.
Implicit Types (w : world K).

(** The entries of [s'] behind the current one of [s] have verdicts, the
    others are those of [s]. *)
Record extends (s s' : suite) (n : nat) : Prop := {
  ex_current : current_test s' = current_test s + Z.of_nat n;
  ex_old i : Z.of_nat i <= current_test s → tests s' !! i = tests s !! i;
  ex_new i : current_test s < Z.of_nat i <= current_test s' →
    ∃ t, tests s' !! i = Some t ∧ (t_state t = SUCCESS ∨ t_state t = FAIL)
}.

Lemma extends_refl s : extends s s 0.
Proof. split; [lia|done|lia]. Qed.

Lemma extends_trans s1 s2 s3 n m : extends s1 s2 n → extends s2 s3 m → extends s1 s3 (n + m).
Proof.
  intros [C1 O1 N1] [C2 O2 N2]. split; [lia|..].
  - intros i Hi. rewrite O2 by lia. by apply O1.
  - intros i Hi. destruct (Z.le_gt_cases (Z.of_nat i) (current_test s2)); [|apply N2; lia].
    rewrite O2 by lia. apply N1. lia.
Qed.

Lemma is_test_extends (m : T K unit) s w s' a w' :
  is_test m → m s w = Ret (s', Next a) w' → suite_wf s → suite_wf s' ∧ extends s s' 1.
Proof.
  intros Hm E Hs. destruct (Hm _ _ _ _ _ E Hs) as (W & C & O & V). split; [done|].
  pose proof (sw_current _ Hs). split; [lia|..].
  - intros i Hi. apply O. lia.
  - intros i Hi. replace i with (Z.to_nat (current_test s')) by lia. unfold this_state in V.
    destruct (tests s' !! Z.to_nat (current_test s')) as [t|]; [|by destruct V].
    exists t. split; [done|]. destruct V as [[= V]|[= V]]; auto.
Qed.

(** What a part of [main] does to the table when it goes on. *)
Definition advances (n : nat) {A} (m : T K A) : Prop := ∀ s w s' a w',
  m s w = Ret (s', Next a) w' → suite_wf s → suite_wf s' ∧ extends s s' n.

Lemma advances_bind n m {A B} (f : T K A) (g : A → T K B) :
  advances n f → (∀ a, advances m (g a)) → advances (n + m) (f ≫= g).
Proof.
  intros Hf Hg s w s' b w' E Hs. unfold mbind, T_bind in E. unfold mbind, M_bind in E.
  destruct (f s w) as [[s1 [a| |]] w1| |] eqn:E1; try done.
  destruct (Hf _ _ _ _ _ E1 Hs) as [W1 X1], (Hg a _ _ _ _ _ E W1) as [W2 X2].
  split; [done|by eapply extends_trans].
Qed.

Lemma advances_harmless {A} (m : T K A) : harmless m → advances 0 m.
Proof.
  intros Hm s w s' a w' E Hs. destruct (Hm _ _ _ _ _ E) as (E1 & E2 & _).
  split; [by eapply suite_wf_same|]. split; [lia|intros; by rewrite E1|lia].
Qed.

Lemma advances_exit {A} code : advances 0 (exit (A := A) code : T K A).
Proof. by intros s w s' a w' E. Qed.

Lemma advances_run_tests l : Forall is_test l → advances (length l) (run_tests (K := K) l).
Proof.
  induction 1 as [|m l Hm _ IH]; simpl.
  - apply advances_harmless, harmless_ret.
  - apply (advances_bind 1); [|done]. intros s w s' a w'. by apply is_test_extends.
Qed.

Lemma advances_create_afu fuel : advances 0 (create_afu (K := K) fuel).
Proof.
  apply (advances_bind 0 0); [apply advances_harmless, harmless_lib|]. intros thread.
  apply (advances_bind 0 0); [apply advances_harmless, harmless_put; done|]. intros _.
  destruct (negb _); [|apply advances_harmless, harmless_ret].
  apply (advances_bind 0 0); [apply advances_harmless, harmless_lib|]. intros _. apply advances_exit.
Qed.

Lemma advances_main_tests fuel : advances 21 (main_tests (K := K) fuel).
Proof.
  pose proof (all_tests_are_tests (K := K)) as Hall. unfold all_tests in Hall.
  rewrite !Forall_app in Hall. destruct Hall as (H1 & H2 & H3 & H4 & H5 & H6).
  apply (advances_bind 3 18); [by apply advances_run_tests|]. intros _.
  apply (advances_bind 0 18); [apply advances_create_afu|]. intros _.
  apply (advances_bind 0 18); [apply advances_harmless, harmless_lib|]. intros _.
  apply (advances_bind 8 10); [by apply advances_run_tests|]. intros _.
  apply (advances_bind 1 9); [|intros _].
  { apply Forall_cons_1 in H3 as [H3 _]. intros s w s' a w'. by apply is_test_extends. }
  apply (advances_bind 2 7); [by apply advances_run_tests|]. intros _.
  apply (advances_bind 6 1); [by apply advances_run_tests|]. intros _.
  apply Forall_cons_1 in H6 as [H6 _]. intros s w s' a w'. by apply is_test_extends.
Qed.

End sequences.

(** ** Total correctness *)

Section wpt.
Context {K : Type} `{Platform K} `{Abi} `{!Device K}.
Implicit Types (w : world K).

Definition wpt {A} (m : T K A) (Q : verdict A → suite → world K → Prop) (s : suite) (w : world K) : Prop :=
  wp (m s) (λ r w', Q r.2 r.1 w') w.

Lemma wpt_mono {A} (m : T K A) (Q Q' : verdict A → suite → world K → Prop) s w :
  (∀ v s' w', Q v s' w' → Q' v s' w') → wpt m Q s w → wpt m Q' s w.
Proof. intros HQ. apply wp_mono. intros [s' v] w'. apply HQ. Qed.

Lemma wpt_bind {A B} (m : T K A) (k : A → T K B) (Q : verdict B → suite → world K → Prop) s w :
  wpt m (λ v s' w', match v with
                    | Next a => wpt (k a) Q s' w'
                    | GotoEnd => Q GotoEnd s' w'
                    | Exit code => Q (Exit code) s' w'
                    end) s w →
  wpt (m ≫= k) Q s w.
Proof.
  unfold wpt. intros Hm. apply wp_bind. eapply wp_mono; [|exact Hm]. intros [s' [a| |code]] w'; simpl; auto.
Qed.

Lemma wpt_ret {A} (a : A) (Q : verdict A → suite → world K → Prop) s w : Q (Next a) s w → wpt (mret a) Q s w.
Proof. done. Qed.

Lemma wpt_lib {A} (m : M K A) (Q : verdict A → suite → world K → Prop) s w :
  wp m (λ a w', Q (Next a) s w') w → wpt (lib m) Q s w.
Proof. intros Hm. apply wp_bind. eapply wp_mono; [|exact Hm]. intros a w' HQ. by apply wp_ret. Qed.

Lemma wpt_get {A} (f : suite → A) (Q : verdict A → suite → world K → Prop) s w :
  Q (Next (f s)) s w → wpt (get f) Q s w.
Proof. done. Qed.

Lemma wpt_put f (Q : verdict unit → suite → world K → Prop) s w : Q (Next tt) (f s) w → wpt (put f) Q s w.
Proof. done. Qed.

Lemma wpt_with_end body cleanup (Q : verdict unit → suite → world K → Prop) s w :
  wpt body (λ v s' w', match v with Exit code => Q (Exit code) s' w' | _ => wpt cleanup Q s' w' end) s w →
  wpt (with_end body cleanup) Q s w.
Proof.
  intros Hb. apply wp_bind. eapply wp_mono; [|exact Hb]. intros [s' [a| |code]] w'; simpl; auto.
Qed.

Lemma wpt_get_test i t (Q : verdict test → suite → world K → Prop) s w :
  0 <= i → tests s !! Z.to_nat i = Some t → Q (Next t) s w → wpt (get_test i) Q s w.
Proof.
  intros Hi Ht HQ. unfold wpt, get_test. destruct (Z.ltb_spec i 0); [lia|]. by rewrite Ht.
Qed.

(** The test that runs, and its entry. *)
Record running (s : suite) (t : test) : Prop := {
  rn_current : 0 <= current_test s;
  rn_entry : tests s !! Z.to_nat (current_test s) = Some t
}.

Definition set_entry (t : test) (s : suite) : suite :=
  s <| tests := <[Z.to_nat (current_test s) := t]> (tests s) |>.

Lemma running_set s t t' : running s t → running (set_entry t' s) t'.
Proof.
  intros [H1 H2]. split; [done|]. simpl. apply list_lookup_insert_eq. by eapply lookup_lt_Some.
Qed.

Lemma wpt_set_this f (Q : verdict unit → suite → world K → Prop) s t w :
  running s t → Q (Next tt) (set_entry (f t) s) w → wpt (set_test (current_test s) f) Q s w.
Proof. intros [H1 H2] HQ. apply wpt_bind. by eapply wpt_get_test. Qed.

Lemma wpt_test_stop st (Q : verdict unit → suite → world K → Prop) s t w :
  running s t → (∀ w', quiet w w' → Q (Next tt) (set_entry (t <| t_state := st |>) s) w') →
  wpt (test_stop st) Q s w.
Proof.
  intros Hr HQ. apply wpt_bind, wpt_get. apply wpt_bind. eapply wpt_set_this; [exact Hr|].
  destruct st; [by apply wpt_ret, HQ|apply wpt_lib, wp_printf; [done|apply HQ]..].
Qed.

Lemma wpt_count_check (Q : verdict unit → suite → world K → Prop) s t w :
  running s t → t_count t < INT_MAX → Q (Next tt) (set_entry (t <| t_count := t_count t + 1 |>) s) w →
  wpt count_check Q s w.
Proof.
  intros Hr Hc HQ. apply wpt_bind, wpt_get. apply wpt_bind. eapply wpt_get_test; [apply Hr..|].
  destruct (Z.leb_spec INT_MAX (t_count t)); [lia|]. by eapply wpt_set_this.
Qed.

(** An assertion about a call: the check is counted, and the test fails when
    the call does not give what is asserted. *)
Lemma wpt_ASSERT_AS {A} fn line text (m : T K (bool * A)) (Q : verdict A → suite → world K → Prop) s t w :
  running s t → t_count t < INT_MAX →
  (let s1 := set_entry (t <| t_count := t_count t + 1 |>) s in
   wpt m (λ v s' w', match v with
     | Next (true, a) => Q (Next a) s' w'
     | Next (false, a) => ∃ t', running s' t' ∧
         ∀ w'', quiet w' w'' → Q GotoEnd (set_entry (t' <| t_state := FAIL |>) s') w''
     | GotoEnd => Q GotoEnd s' w'
     | Exit code => Q (Exit code) s' w'
     end) s1 w) →
  wpt (ASSERT_AS fn line text m) Q s w.
Proof.
  intros Hr Hc Hm. apply wpt_bind. eapply wpt_count_check; [exact Hr|done|]. apply wpt_bind.
  eapply wpt_mono; [|exact Hm]. intros [[[] a]| |code] s' w' HQ; [by apply wpt_ret| |done|done].
  destruct HQ as (t' & Hr' & HQ). apply wpt_bind, wpt_lib, wp_fprintf_stderr; [done|]. intros w1 Hq1.
  apply wpt_bind. eapply wpt_test_stop; [exact Hr'|]. intros w2 Hq2. apply HQ. by etrans.
Qed.

End wpt.
