(* ===== verification/UnitTestReport.v ===== *)
(** * UnitTestReport: the names in the table, and the report

    What [test_report] prints and returns, as a function of the table; and
    what the table keeps of a name ([strncpy]). *)

From S2P Require Import Prelude Format Types World Logic Messages Mmio Event Afu Getopt VirtAfu UnitTest.
From S2P Require Import UnitTests UnitTestFacts.
Open Scope Z_scope.

(** ** Names *)

Definition no_nul (s : string) : Prop := c_string s = s.

Lemma c_string_app s t : no_nul s → c_string (s +:+ t) = s +:+ c_string t.
Proof.
  unfold no_nul. induction s as [|c s IH]; [done|]. change (String c s +:+ t) with (String c (s +:+ t)).
  simpl c_string. destruct (Ascii.eqb c NUL); [done|].
  intros [= E]. exact (f_equal (String c) (IH E)).
Qed.

Lemma c_string_pad n t : c_string (pad NUL n +:+ t) = match n with O => c_string t | S _ => ""%string end.
Proof. by destruct n. Qed.

Lemma no_nul_substring s n : no_nul s → no_nul (String.substring 0 n s).
Proof.
  unfold no_nul. revert n. induction s as [|c s IH]; intros [|n]; simpl; try done.
  destruct (Ascii.eqb c NUL); [done|]. intros [= E]. by rewrite IH.
Qed.

(** The name the report prints: the first 33 characters of the name a test
    was started with. *)
Lemma name_of_strncpy sn name st n :
  no_nul name →
  name_of (mk_test sn (strncpy name (TEST_NAME_LEN + 1)) st n) = String.substring 0 (TEST_NAME_LEN + 1) name.
Proof.
  intros Hn. unfold name_of. change (t_name (mk_test sn ?x st n)) with x. unfold strncpy.
  rewrite str_app_assoc, c_string_app by by apply no_nul_substring. rewrite c_string_pad.
  generalize (String.substring 0 (TEST_NAME_LEN + 1) name) as kept. intros kept.
  destruct (_ - _)%nat; apply str_app_nil_r.
Qed.

(** A name is terminated inside its array exactly if it has at most
    [TEST_NAME_LEN] characters. *)
Fixpoint has_nul (s : string) : bool :=
  match s with EmptyString => false | String c s => Ascii.eqb c NUL || has_nul s end.

Lemma has_nul_app s t : has_nul (s +:+ t) = has_nul s || has_nul t.
Proof.
  induction s as [|c s IH]; [done|]. change (String c s +:+ t) with (String c (s +:+ t)). simpl.
  by rewrite IH, orb_assoc.
Qed.

Lemma has_nul_pad n : has_nul (pad NUL n) = negb (n =? 0)%nat.
Proof. by destruct n. Qed.

Lemma no_nul_has s : no_nul s → has_nul s = false.
Proof.
  unfold no_nul. induction s as [|c s IH]; simpl; [done|]. destruct (Ascii.eqb c NUL); [done|].
  intros [= E]. auto.
Qed.

Lemma strncpy_terminated name n :
  no_nul name → has_nul (strncpy name n) = (String.length name <? n)%nat.
Proof.
  intros Hn. unfold strncpy. rewrite has_nul_app, no_nul_has by by apply no_nul_substring.
  rewrite has_nul_pad. simpl. destruct (Nat.ltb_spec (String.length name) n), (Nat.eqb_spec (n - String.length name) 0);
    simpl; try done; lia.
Qed.

(** ** The report *)

Section report.
Context {K : Type} `{Platform K} `{Abi} `{!Device K}.
Implicit Types (w : world K).

Definition max_len (f : test → string) (ts : list test) : Z :=
  foldl (λ n t, Z.max n (Z.of_nat (String.length (f t)))) 0 ts.

(** The longest text has [n] characters. *)
Definition longest (f : test → string) (ts : list test) (n : Z) : Prop :=
  Forall (λ t, Z.of_nat (String.length (f t)) <= n) ts ∧
  (ts = [] ∧ n = 0 ∨ Exists (λ t, Z.of_nat (String.length (f t)) = n) ts).

Lemma longest_foldl (f : test → string) ts m :
  let n := foldl (λ n t, Z.max n (Z.of_nat (String.length (f t)))) m ts in
  m <= n ∧ Forall (λ t, Z.of_nat (String.length (f t)) <= n) ts ∧
  (n = m ∨ Exists (λ t, Z.of_nat (String.length (f t)) = n) ts).
Proof.
  revert m. induction ts as [|t ts IH]; intros m; simpl; [auto with lia|].
  destruct (IH (Z.max m (Z.of_nat (String.length (f t))))) as (Hm & Hf & He).
  split_and!; [lia|constructor; [lia|done]|]. destruct He as [He|He]; [|by right; right].
  rewrite He. destruct (Z.max_spec m (Z.of_nat (String.length (f t)))) as [[_ ->]|[_ ->]]; [by right; left|by left].
Qed.

Lemma max_len_longest f ts : longest f ts (max_len f ts).
Proof.
  destruct (longest_foldl f ts 0) as (_ & Hf & He). split; [done|]. destruct ts as [|t ts]; [by left|right].
  destruct He as [He|He]; [|done]. left. fold (max_len f (t :: ts)) in He |- *.
  apply Forall_cons_1 in Hf as [Ht _]. fold (max_len f (t :: ts)) in Ht. lia.
Qed.

(** The word for a test that ran. *)
Definition verdict_text (st : state) : string :=
  match st with
  | SUCCESS => "OK"
  | FAIL => "Failed"
  | SKIP => "Skipped"
  | IN_PROGRESS => "In Progress"
  end.

(** A line of the report. *)
Definition report_text (max_suite max_name : Z) (t : test) : string :=
  let cell n s := s +:+ pad " " (Z.to_nat n - String.length s) in
  tab +:+ cell max_suite (suite_of t) +:+ tab +:+ cell max_name (name_of t) +:+ tab +:+
  verdict_text (t_state t) +:+ tab +:+ print_int (t_count t) +:+ " checks" +:+ newline.

Definition report_texts (max_suite max_name : Z) (ts : list test) : list string :=
  ("Summary:" +:+ newline) :: (report_text max_suite max_name <$> ts).

(** A world in which a text was printed. *)
Definition printed w (text : string) : world K :=
  w <| w_os := (os_step _ (SStdout text) (w_os w)).2 |> <| w_trace := w_trace w ++ [Ev (SStdout text) tt] |>.

Lemma run_printf fmt args text w : vformat fmt args = Some text → printf fmt args w = Ret tt (printed w text).
Proof.
  intros E. unfold printf, call, printed. rewrite E. by destruct (os_step _ (SStdout text) (w_os w)) as [[] k].
Qed.

Lemma wide_cell n s :
  0 <= n → justify (wide (plain_spec <| sp_left := true |> <| sp_wide := true |>) n) s =
           s +:+ pad " " (Z.to_nat n - String.length s).
Proof. intros Hn. unfold justify, wide. simpl. by rewrite Z.abs_eq. Qed.

Lemma run_report_line ms mn t s w :
  0 <= ms → 0 <= mn → test_wf t →
  report_line ms mn t s w = Ret (s, Next tt) (printed w (report_text ms mn t)).
Proof.
  intros H1 H2 Ht. unfold report_line, lib, mbind, M_bind. erewrite run_printf; [done|].
  unfold report_text, vformat. simpl. rewrite !wide_cell by done.
  unfold render_int, justify. simpl.
  assert (swrap 32 (t_count t) = t_count t) as ->.
  { destruct Ht as [_ _ Hc]. unfold INT_MAX in Hc. apply swrap_small; lia. }
  rewrite !str_app_assoc. by destruct (t_state t).
Qed.

Lemma run_get_test i t s w :
  tests s !! i = Some t → get_test (K := K) (Z.of_nat i) s w = Ret (s, Next t) w.
Proof.
  intros Ht. unfold get_test. destruct (Z.ltb_spec (Z.of_nat i) 0); [lia|]. by rewrite Nat2Z.id, Ht.
Qed.

Lemma take_drop_cons (l : list test) i n :
  (i + S n <= length l)%nat → ∃ t, l !! i = Some t ∧ take (S n) (drop i l) = t :: take n (drop (S i) l).
Proof.
  intros Hl. destruct (lookup_lt_is_Some_2 l i ltac:(lia)) as [t Ht]. exists t. split; [done|].
  by rewrite (drop_S _ _ _ Ht).
Qed.

Lemma run_max_lengths n i a b s w :
  (i + n <= length (tests s))%nat →
  max_lengths (K := K) n (Z.of_nat i) a b s w =
  Ret (s, Next (foldl (λ n t, Z.max n (Z.of_nat (String.length (suite_of t)))) a (take n (drop i (tests s))),
                foldl (λ n t, Z.max n (Z.of_nat (String.length (name_of t)))) b (take n (drop i (tests s))))) w.
Proof.
  revert i a b. induction n as [|n IH]; intros i a b Hn; [done|].
  destruct (take_drop_cons _ _ _ Hn) as (t & Ht & ->). simpl max_lengths.
  unfold mbind, T_bind, mbind, M_bind. rewrite (run_get_test _ _ _ _ Ht).
  replace (Z.of_nat i + 1) with (Z.of_nat (S i)) by lia. by rewrite IH by lia.
Qed.

Lemma run_report_lines n i ms mn failed s w :
  (i + n <= length (tests s))%nat → 0 <= ms → 0 <= mn → Forall test_wf (tests s) →
  report_lines (K := K) n (Z.of_nat i) ms mn failed s w =
  Ret (s, Next (failed || existsb (λ t, state_failed (t_state t)) (take n (drop i (tests s)))))
      (foldl printed w (report_text ms mn <$> take n (drop i (tests s)))).
Proof.
  intros Hn H1 H2 Hw. revert i failed w Hn. induction n as [|n IH]; intros i failed w Hn.
  { simpl. by rewrite orb_false_r. }
  destruct (take_drop_cons _ _ _ Hn) as (t & Ht & ->). simpl report_lines.
  unfold mbind, T_bind, mbind, M_bind. rewrite (run_get_test _ _ _ _ Ht), run_report_line; [|done..|].
  - replace (Z.of_nat i + 1) with (Z.of_nat (S i)) by lia. rewrite IH by lia. simpl.
    by rewrite orb_assoc.
  - exact (Forall_lookup_1 _ _ _ _ Hw Ht).
Qed.

Lemma max_len_nonneg f ts : 0 <= max_len f ts.
Proof.
  unfold max_len. assert (∀ a, 0 <= a → 0 <= foldl (λ n t, Z.max n (Z.of_nat (String.length (f t)))) a ts) as Hf.
  { induction ts as [|t ts IH]; intros a Ha; simpl; [done|]. apply IH. lia. }
  by apply Hf.
Qed.

(** The tests that were started. *)
Definition ran_tests (s : suite) : list test := take (Z.to_nat (current_test s + 1)) (tests s).

(** A test the run failed with. *)
Definition bad (t : test) : Prop := t_state t = FAIL ∨ t_state t = IN_PROGRESS.

Lemma failed_bad ts : existsb (λ t, state_failed (t_state t)) ts = true ↔ Exists bad ts.
Proof.
  rewrite existsb_exists, List.Exists_exists. unfold bad. split.
  - intros (t & Hin & Ht). exists t. split; [done|]. destruct (t_state t); naive_solver.
  - intros (t & Hin & Ht). exists t. split; [done|]. by destruct Ht as [-> | ->].
Qed.

Lemma run_test_report s w :
  suite_wf s → current_test s < MAX_TESTS →
  ∃ failed max_suite max_name,
    test_report (K := K) s w =
      Ret (s, Next failed) (foldl printed w (report_texts max_suite max_name (ran_tests s))) ∧
    (failed = true ↔ Exists bad (ran_tests s)) ∧
    longest suite_of (ran_tests s) max_suite ∧ longest name_of (ran_tests s) max_name.
Proof.
  intros [W1 W2 W3] Hc. exists (existsb (λ t, state_failed (t_state t)) (ran_tests s)),
    (max_len suite_of (ran_tests s)), (max_len name_of (ran_tests s)).
  split_and!; [|apply failed_bad|apply max_len_longest|apply max_len_longest].
  unfold test_report. unfold mbind, T_bind, mbind, M_bind.
  unfold lib, mbind, M_bind. rewrite (run_printf _ [] ("Summary:" +:+ newline)) by done. simpl.
  rewrite (run_max_lengths _ 0 0 0) by lia. rewrite (run_report_lines _ 0); try done; try lia.
  - apply (max_len_nonneg suite_of).
  - apply (max_len_nonneg name_of).
Qed.

End report.
