(* ===== verification/UnitTestMmio.v ===== *)
(** * UnitTestMmio: the tests that fill the global MMIO area and read it back

    The tests of the four ways to access a register have the same loops: every
    register of the area is written with its own offset, then every register
    is read back.  Whatever the kernel and the device do, a loop goes through,
    or stops at the first register that lies behind the end of the area; on
    registers that behave like memory the values come back. *)

From S2P Require Import Prelude Format Types World Logic Messages Buffer Ledger Mmio MmioFacts.
From S2P Require Import MmioAccess Irq IrqFacts IrqTable Event Names Afu AfuInv AfuClose AfuOpen Trace.
From S2P Require Import Api Client Getopt VirtAfu UnitTest UnitTests UnitTestFacts.
Open Scope Z_scope.

(** A mapping the kernel grants lies in the address space. *)
Class MapRange (K : Type) `{Platform K} : Prop :=
  map_range n prot fd offset (k : K) :
    let addr := (os_step _ (SMmap n prot fd offset) k).1 in
    addr ≠ MAP_FAILED → 0 < addr ∧ 0 <= n ∧ addr + n <= 2 ^ 63.

Definition add_checks (n : Z) (t : test) : test := t <| t_count := t_count t + n |>.

Lemma set_entry_twice t t' s : set_entry t (set_entry t' s) = set_entry t s.
Proof. unfold set_entry. simpl. unfold field_upd. simpl. by rewrite list_insert_insert_eq. Qed.

Lemma add_checks_0 s t : running s t → set_entry (add_checks 0 t) s = s.
Proof.
  intros [_ Hr]. unfold set_entry, add_checks. destruct s as [ts c b th l], t. simpl in *.
  unfold field_upd. simpl. rewrite Z.add_0_r. by rewrite list_insert_id.
Qed.

Lemma add_checks_add n m t : add_checks n (add_checks m t) = add_checks (n + m) t.
Proof. unfold add_checks, field_upd. simpl. f_equal. lia. Qed.

Lemma since_accessed {K} `{Platform K} `{Abi} {R : Set} (c : sys R) r (w w' : world K) :
  accessed c r w w' → since w w'.
Proof. intros Hacc. exact (ex_intro _ _ (accessed_ran _ _ _ _ Hacc)). Qed.

Section loops.
Context {K : Type} `{Platform K} `{Abi} `{!Device K} `{!RegisterMemory K}.
Implicit Types (w : world K).

(** A mapped area [x], and a way to access it: [n] bytes, in the order [e]. *)
Context (live : gmap ptr afu_view) (p : ptr) (a : ocxl_afu) (areas : list ocxl_mmio_area)
  (irqs : list ocxl_irq) (i : nat) (x : ocxl_mmio_area).
Context (Hlive : live !! p = Some (mk_view a areas irqs)) (Hx : areas !! i = Some x).
Context (Hstart : 0 < area_start x) (Hlen : 0 <= area_length x) (Hend : area_start x + area_length x <= 2 ^ 63).
Context (n : nat) (Hn : 1 <= Z.of_nat n <= 8) (e : ocxl_endian).
Context (write : Z → M K ocxl_err) (read : Z → M K (ocxl_err * option Z)).
Context (Hwrite : ∀ offset w, 0 <= offset → mmio_inv w p a areas →
  wp (write offset) (write_result n x offset e offset w) w).
Context (Hread : ∀ offset w, 0 <= offset → mmio_inv w p a areas → wp (read offset) (read_result n x offset e w) w).

Lemma live_mmio w : sys_inv w live → mmio_inv w p a areas.
Proof. intros Hs. apply (proj1 (si_views _ _ Hs _ _ Hlive)). Qed.

(** The registers below [upto] hold their offsets. *)
Definition written w (upto : Z) : Prop :=
  ∀ o, 0 <= o < upto → (Z.of_nat n | o) → reg_bytes w (area_start x + o) n = encode e n o.

Lemma verdict_ok_iff offset :
  0 <= offset < 2 ^ 62 →
  access_verdict x offset (Z.of_nat n) = if offset + Z.of_nat n <=? area_length x then OCXL_OK else OCXL_OUT_OF_BOUNDS.
Proof.
  intros Ho. unfold access_verdict, NULL. destruct (Z.eqb_spec (area_start x) 0); [lia|].
  rewrite out_of_bounds_exact by lia. by destruct (_ <=? _).
Qed.

Lemma divide_step o offset : (Z.of_nat n | o) → (Z.of_nat n | offset) → o < offset + Z.of_nat n → o <= offset.
Proof.
  intros [c1 ->] [c2 ->] Hlt. assert (c1 < c2 + 1) by (apply (Z.mul_lt_mono_pos_r (Z.of_nat n)); lia).
  apply Z.mul_le_mono_nonneg_r; lia.
Qed.

Lemma divide_below o offset : (Z.of_nat n | o) → (Z.of_nat n | offset) → o < offset → o + Z.of_nat n <= offset.
Proof.
  intros [c1 ->] [c2 ->] Hlt. assert (c1 < c2) by (apply (Z.mul_lt_mono_pos_r (Z.of_nat n)); lia).
  replace (c1 * Z.of_nat n + Z.of_nat n) with ((c1 + 1) * Z.of_nat n) by lia.
  apply Z.mul_le_mono_nonneg_r; lia.
Qed.

Lemma wp_write_step offset w :
  sys_inv w live → 0 <= offset < 2 ^ 62 → (Z.of_nat n | offset) → written w offset →
  wp (write offset) (λ rc w', sys_inv w' live ∧ since w w' ∧
    if offset + Z.of_nat n <=? area_length x then rc = OCXL_OK ∧ written w' (offset + Z.of_nat n)
    else rc = OCXL_OUT_OF_BOUNDS) w.
Proof.
  intros Hs Ho Hd Hw. eapply wp_mono; [|apply Hwrite; [lia|apply live_mmio, Hs]]. intros rc w' Hr.
  split; [by eapply write_result_sys|]. unfold write_result in Hr. rewrite verdict_ok_iff in Hr by done.
  destruct (Z.leb_spec (offset + Z.of_nat n) (area_length x)) as [Hle|Hgt].
  2: { destruct Hr as [-> Hq]. split; [by apply since_quiet|done]. }
  destruct Hr as [Hacc ->]. split; [by eapply since_accessed|]. split; [done|].
  unfold u64 in Hacc. rewrite uwrap_small in Hacc by lia. intros o Hoff Hdo.
  pose proof (divide_step o offset Hdo Hd ltac:(lia)).
  destruct (decide (o = offset)) as [->|Hne].
  - rewrite <-(length_encode e n offset) at 1. apply (reg_bytes_stored _ _ _ _ Hacc), encode_are_bytes.
  - pose proof (divide_below o offset Hdo Hd ltac:(lia)).
    rewrite (reg_bytes_elsewhere _ _ _ _ _ _ Hacc); [|apply encode_are_bytes|left; lia]. apply Hw; [lia|done].
Qed.

Lemma wp_read_step offset w :
  sys_inv w live → 0 <= offset → offset + Z.of_nat n <= area_length x → offset < 2 ^ 31 → 4 <= Z.of_nat n →
  (Z.of_nat n | offset) → (∃ upto, offset < upto ∧ written w upto) →
  wp (read offset) (λ r w', sys_inv w' live ∧ since w w' ∧ (∀ upto, written w upto → written w' upto) ∧
    r = (OCXL_OK, Some offset)) w.
Proof.
  intros Hs Ho Hle Hsmall Hn4 Hd (upto & Hup & Hw). eapply wp_mono; [|apply Hread; [lia|apply live_mmio, Hs]]. intros r w' Hr.
  split; [by eapply read_result_sys|]. unfold read_result in Hr. rewrite verdict_ok_iff in Hr by lia.
  rewrite (proj2 (Z.leb_le _ _) Hle) in Hr. destruct Hr as (bs & Hacc & ->).
  split; [by eapply since_accessed|].
  unfold u64 in Hacc. rewrite uwrap_small in Hacc by lia.
  destruct (reg_load_access _ _ _ _ _ Hacc) as [-> Hsame]. split.
  - intros upto' Hw' o Hoff Hdo. rewrite <-(Hw' o Hoff Hdo). apply list_fmap_ext. intros j y _. apply Hsame.
  - rewrite Hw by (lia || done). rewrite decode_encode, Z.mod_small; [done|]. split; [lia|].
    apply Z.lt_le_trans with (256 ^ 4); [lia|]. apply Z.pow_le_mono_r; lia.
Qed.

(** The registers the loop still has to go through. *)
Definition left_over (offset : Z) : Z := (GLOBAL_MMIO_SIZE - offset) / Z.of_nat n.

Lemma left_over_step offset : left_over offset = left_over (offset + Z.of_nat n) + 1.
Proof.
  unfold left_over. replace (GLOBAL_MMIO_SIZE - offset) with (GLOBAL_MMIO_SIZE - (offset + Z.of_nat n) + 1 * Z.of_nat n) by lia.
  rewrite Z.div_add by lia. done.
Qed.

Lemma left_over_end : left_over GLOBAL_MMIO_SIZE = 0.
Proof. unfold left_over. by rewrite Z.sub_diag, Z.div_0_l by lia. Qed.

Lemma left_over_nonneg offset : offset <= GLOBAL_MMIO_SIZE → 0 <= left_over offset.
Proof. intros Ho. apply Z.div_pos; lia. Qed.

Context (Hsize : (Z.of_nat n | GLOBAL_MMIO_SIZE)).

Lemma next_in offset : (Z.of_nat n | offset) → offset < GLOBAL_MMIO_SIZE → offset + Z.of_nat n <= GLOBAL_MMIO_SIZE.
Proof. intros Hd Hlt. by apply divide_below. Qed.

Lemma wpt_write_loop fuel fn line text offset s t w Q :
  sys_inv w live → running s t → 0 <= t_count t → t_count t + left_over offset <= INT_MAX →
  0 <= offset <= GLOBAL_MMIO_SIZE → offset <= area_length x → (Z.of_nat n | offset) → written w offset →
  left_over offset < Z.of_nat fuel →
  (∀ w', GLOBAL_MMIO_SIZE <= area_length x → sys_inv w' live → since w w' → written w' GLOBAL_MMIO_SIZE →
     Q (Next tt) (set_entry (add_checks (left_over offset) t) s) w') →
  (∀ t' w', area_length x < GLOBAL_MMIO_SIZE → sys_inv w' live → since w w' → t_state t' = FAIL →
     t_count t' <= INT_MAX → Q GotoEnd (set_entry t' s) w') →
  wpt (write_loop fuel fn line text write (Z.of_nat n) offset) Q s w.
Proof.
  revert offset s t w. induction fuel as [|fuel IH]; intros offset s t w Hs Hr Ht0 Ht Ho Hol Hd Hw Hf Hok Hfail.
  { pose proof (left_over_nonneg offset). lia. }
  simpl. destruct (Z.ltb_spec offset GLOBAL_MMIO_SIZE) as [Hlt|Hge].
  2: { assert (offset = GLOBAL_MMIO_SIZE) as -> by lia. apply wpt_ret.
       rewrite <-(add_checks_0 s t Hr), <-left_over_end. apply Hok; [done|done|reflexivity|done]. }
  rewrite left_over_step in *. pose proof (next_in offset Hd Hlt) as Hnext.
  pose proof (left_over_nonneg _ Hnext) as Hpos.
  apply wpt_bind. eapply wpt_ASSERT_AS; [exact Hr|lia|]. set (s1 := set_entry _ s).
  apply wpt_bind. unfold lib_err_is, err_is. apply wpt_bind, wpt_lib.
  assert (GLOBAL_MMIO_SIZE < 2 ^ 62) as Hsm by done.
  eapply wp_mono; [|apply (wp_write_step offset w Hs); [lia|done|done]].
  simpl. intros rc w1 (Hs1 & Hw1 & Hrc). apply wpt_ret. apply wpt_ret.
  assert (running s1 (add_checks 1 t)) as Hr1 by (by eapply running_set).
  destruct (Z.leb_spec (offset + Z.of_nat n) (area_length x)) as [Hle|Hgt].
  - destruct Hrc as [-> Hwr]. simpl. eapply (IH _ s1 (add_checks 1 t)); try done; simpl; try lia.
    + by apply Z.divide_add_r; [|exists 1; lia].
    + intros w' H1 H2 H3 H4. unfold s1. rewrite set_entry_twice.
      rewrite add_checks_add. apply Hok; [done|done|by etrans|done].
    + intros t' w' H1 H2 H3 H4 H5. unfold s1. rewrite set_entry_twice. apply Hfail; [done|done|by etrans|done|done].
  - subst rc. simpl. exists (add_checks 1 t). split; [done|]. intros w2 Hq.
    unfold s1. rewrite set_entry_twice. apply Hfail; [lia|by eapply sys_inv_quiet| |done|].
    + etrans; [exact Hw1|by apply since_quiet].
    + simpl. lia.
Qed.

Lemma wpt_read_loop fuel fn line text offset s t w Q :
  sys_inv w live → running s t → 0 <= t_count t → t_count t + left_over offset <= INT_MAX → 4 <= Z.of_nat n →
  0 <= offset <= GLOBAL_MMIO_SIZE → GLOBAL_MMIO_SIZE <= area_length x → (Z.of_nat n | offset) →
  written w GLOBAL_MMIO_SIZE → left_over offset < Z.of_nat fuel →
  (∀ w', sys_inv w' live → since w w' → written w' GLOBAL_MMIO_SIZE →
     Q (Next true) (set_entry (add_checks (left_over offset) t) s) w') →
  wpt (read_loop fuel fn line text read (Z.of_nat n) offset) Q s w.
Proof.
  intros Hs Hr Ht0 Ht Hn4. revert offset s t w Hs Hr Ht0 Ht.
  induction fuel as [|fuel IH]; intros offset s t w Hs Hr Ht0 Ht Ho Hol Hd Hw Hf Hok.
  { pose proof (left_over_nonneg offset). lia. }
  simpl. destruct (Z.ltb_spec offset GLOBAL_MMIO_SIZE) as [Hlt|Hge].
  2: { assert (offset = GLOBAL_MMIO_SIZE) as -> by lia. apply wpt_ret.
       rewrite <-(add_checks_0 s t Hr), <-left_over_end. apply Hok; [done|reflexivity|done]. }
  rewrite left_over_step in *. pose proof (next_in offset Hd Hlt) as Hnext.
  pose proof (left_over_nonneg _ Hnext) as Hpos.
  apply wpt_bind. eapply wpt_ASSERT_AS; [exact Hr|lia|]. set (s1 := set_entry _ s).
  unfold ok_with. apply wpt_bind, wpt_lib. assert (GLOBAL_MMIO_SIZE < 2 ^ 31) as Hsm by done.
  eapply wp_mono; [|apply (wp_read_step offset w Hs); [lia|lia|lia|lia|done|by exists GLOBAL_MMIO_SIZE]].
  simpl. intros r w1 (Hs1 & Hw1 & Hkeep & ->). apply wpt_ret. simpl. apply wpt_bind, wpt_lib, wp_ret.
  rewrite Z.eqb_refl. simpl.
  assert (running s1 (add_checks 1 t)) as Hr1 by (by eapply running_set).
  eapply (IH _ s1 (add_checks 1 t)); try done; simpl; try lia.
  - by apply Z.divide_add_r; [|exists 1; lia].
  - by apply Hkeep.
  - intros w' H1 H2 H3. unfold s1. rewrite set_entry_twice.
    rewrite add_checks_add. apply Hok; [done|by etrans|done].
Qed.

End loops.

(** ** Opening, mapping and closing in a test *)

Section steps.
Context {K : Type} `{Platform K} `{Abi} `{!Device K} `{!ShortNames K} `{!NonZeroHandles K}.
Implicit Types (w : world K).

Lemma wp_sys_open_from_dev w live path Q :
  sys_inv w live →
  (∀ err w', is_ok err = false → sys_inv w' live → Q (err, OCXL_INVALID_AFU) w') →
  (∀ p a d_name w', sys_inv w' (<[p := mk_view a [] []]> live) → live !! p = None →
     open_handle w w' p a d_name → Q (OCXL_OK, p) w') →
  wp (ocxl_afu_open_from_dev path) Q w.
Proof.
  intros Hs Hfail Hok. apply wp_open_from_dev; [apply Hs|..].
  - intros rc w' Hrc Hk. apply Hfail; [by destruct Hrc as [->|[->| ->]]|by eapply sys_inv_kept].
  - intros p a d_name w' Ho. destruct (sys_inv_open _ _ _ _ _ _ Hs Ho). by eapply Hok.
Qed.

Lemma wp_sys_close w live p x Q :
  sys_inv w live → live !! p = Some x → (∀ w', sys_inv w' (delete p live) → Q OCXL_OK w') →
  wp (ocxl_afu_close p) Q w.
Proof.
  intros Hs Hp HQ. destruct (si_views _ _ Hs _ _ Hp) as [Hi Hfd]. eapply wp_afu_close; [exact Hi|done|].
  intros w' Hc. apply HQ. by eapply sys_inv_close.
Qed.

(** The size of the global area of the device the AFU was opened on. *)
Definition reported_size (size : Z) w : Prop :=
  ∃ fd md, Ev (SIoctlGetMetadata fd) (0, md) ∈ effects w ∧ md_global_mmio_size md = size.

Lemma reported_since size w w' : since w w' → reported_size size w → reported_size size w'.
Proof.
  intros [es Hr] (fd & md & Hin & E). exists fd, md. split; [|done]. rewrite (ran_effects _ _ _ Hr).
  apply elem_of_app. by left.
Qed.

Lemma open_handle_reported w w' p a d_name :
  open_handle w w' p a d_name → reported_size (area_length (afu_global_mmio a)) w'.
Proof.
  intros Ho. destruct (oh_metadata _ _ _ _ _ Ho) as (w1 & rc & md & Hr & _ & _ & _ & E & _).
  exists (afu_fd a), md. split; [|by rewrite E]. rewrite (ran_effects _ _ _ Hr). apply elem_of_app. right.
  unfold open_effects. do 2 right. by left.
Qed.

Lemma sys_inv_not_null w live p : sys_inv w live → is_Some (live !! p) → c_bool p = true.
Proof.
  intros Hs [[a areas irqs] Hp]. destruct (si_views _ _ Hs _ _ Hp) as [Hi _]. simpl in Hi.
  unfold c_bool. destruct (Z.eqb_spec p 0) as [->|]; [|done].
  by destruct (mi_null _ _ _ _ (ai_mmio _ _ _ _ _ Hi)).
Qed.

(** An assertion about a value. *)
Lemma wpt_ASSERT_value fn line text (b : bool) s t w Q :
  running s t → t_count t < INT_MAX → b = true →
  Q (Next tt) (set_entry (add_checks 1 t) s) w → wpt (K := K) (ASSERT fn line text (mret b)) Q s w.
Proof. intros Hr Hc -> HQ. by eapply wpt_ASSERT_AS. Qed.

Definition with_afu (p : ptr) (s : suite) : suite := s <| local_afu := p |>.

(** The failed entry of a test. *)
Definition failed_entry (n : Z) (t : test) : test := add_checks n t <| t_state := FAIL |>.

Lemma wpt_assert_open fn line text path s t w live Q :
  running s t → t_count t < INT_MAX → sys_inv w live →
  (∀ p a d_name w', sys_inv w' (<[p := mk_view a [] []]> live) → live !! p = None →
     open_handle w w' p a d_name → since w w' →
     Q (Next tt) (with_afu p (set_entry (add_checks 1 t) s)) w') →
  (∀ w', sys_inv w' live → since w w' →
     Q GotoEnd (with_afu NULL (set_entry (failed_entry 1 t) s)) w') →
  wpt (ASSERT fn line text (err_is OCXL_OK (into_afu (ocxl_afu_open_from_dev path)))) Q s w.
Proof.
  intros Hr Hc Hs Hok Hfail. eapply wpt_ASSERT_AS; [exact Hr|done|]. set (s1 := set_entry _ s).
  apply wpt_bind. unfold err_is, into_afu. apply wpt_bind, wpt_bind, wpt_lib.
  apply wp_since; [traced|]. eapply wp_sys_open_from_dev; [exact Hs|..].
  - intros err w1 He Hs1 S1. apply wpt_bind, wpt_put, wpt_ret, wpt_ret, wpt_ret.
    rewrite bool_decide_false by (by intros ->). exists (add_checks 1 t).
    split; [by apply (running_set s t (add_checks 1 t)) in Hr as []|]. intros w2 Hq.
    assert (S2 : since w w2) by (etrans; [exact S1|by apply since_quiet]).
    pose proof (Hfail w2 ltac:(by eapply sys_inv_quiet) S2) as HQ.
    rewrite <-(set_entry_twice (failed_entry 1 t) (add_checks 1 t) s) in HQ. exact HQ.
  - intros p a d_name w1 Hs1 Hp Ho S1. apply wpt_bind, wpt_put, wpt_ret, wpt_ret, wpt_ret.
    rewrite bool_decide_true by done. by eapply Hok.
Qed.

Context `{!MapRange K}.

Lemma wpt_map_global fn line s t w live p a irqs Q :
  running s t → t_count t < INT_MAX → sys_inv w live → live !! p = Some (mk_view a [] irqs) →
  (∀ a' i x areas' w', sys_inv w' (<[p := mk_view a' areas' irqs]> live) → areas' !! i = Some x →
     since w w' → 0 < area_start x → 0 <= area_length x → area_start x + area_length x <= 2 ^ 63 →
     area_length x = u64 (area_length (afu_global_mmio a)) →
     Q (Next (handle_of a' i)) (set_entry (add_checks 1 t) s) w') →
  (∀ w', sys_inv w' live → since w w' → Q GotoEnd (set_entry (failed_entry 1 t) s) w') →
  wpt (map_global fn line p) Q s w.
Proof.
  intros Hr Hc Hs Hlive Hok Hfail. unfold map_global. apply wpt_bind.
  eapply wpt_ASSERT_AS; [exact Hr|done|]. set (s1 := set_entry _ s). unfold ok_with. apply wpt_bind, wpt_lib.
  apply wp_since; [unfold ocxl_mmio_map; traced|].
  assert (afu_mmio_count a = 0) as Hzero.
  { destruct (si_views _ _ Hs _ _ Hlive) as [Hi _]. apply (mt_count _ _ _ _ (mi_table _ _ _ _ (ai_mmio _ _ _ _ _ Hi))). }
  eapply wp_sys_map_at; [exact Hs|exact Hlive|lia|..].
  - intros err w1 He Hs1 S1. apply wpt_ret. rewrite bool_decide_false by (by intros ->).
    exists (add_checks 1 t). split; [by eapply running_set|]. intros w2 Hq. unfold s1. rewrite set_entry_twice.
    apply Hfail; [by eapply sys_inv_quiet|]. etrans; [exact S1|by apply since_quiet].
  - intros a' i x areas' w1 Hs1 Hx (fd & n & Hreq & El & Hne & Es) _ _ S1. apply wpt_ret.
    rewrite bool_decide_true by done. apply wpt_lib, wp_ret.
    pose proof (map_range n (Z.lor PROT_READ PROT_WRITE) fd 0 (w_os w)) as Hrange. simpl in Hrange.
    rewrite Es in Hrange. destruct (Hrange Hne) as (R1 & R2 & R3). rewrite <-El in R2, R3.
    eapply Hok; try done. rewrite El. unfold map_request in Hreq.
    destruct (map_exceeds _ _ _); [done|]. destruct (_ =? 0); [done|]. injection Hreq as _ <-.
    unfold map_size. simpl. by rewrite Z.sub_0_r.
Qed.

(** The code behind the label [end:]: the AFU, if there is one, is closed. *)
Lemma wpt_close_none s w Q : local_afu s = NULL → Q (Next tt) s w → wpt (K := K) close_if_open Q s w.
Proof. intros E HQ. apply wpt_bind, wpt_get. rewrite E. by apply wpt_ret. Qed.

Lemma wpt_close_open s w live x Q :
  sys_inv w live → live !! local_afu s = Some x →
  (∀ w', sys_inv w' (delete (local_afu s) live) → since w w' → Q (Next tt) s w') →
  wpt (K := K) close_if_open Q s w.
Proof.
  intros Hs Hp HQ. apply wpt_bind, wpt_get. rewrite (sys_inv_not_null w live) by eauto. simpl.
  apply wpt_bind, wpt_lib. apply wp_since; [auto with traced|]. eapply wp_sys_close; [exact Hs|exact Hp|].
  intros w1 Hs1 S1. by apply wpt_ret, HQ.
Qed.

End steps.

(** ** A round: fill, read back, check *)

Definition registers (n : nat) : Z := GLOBAL_MMIO_SIZE / Z.of_nat n.

Section round.
Context {K : Type} `{Platform K} `{Abi} `{!Device K} `{!RegisterMemory K}.
Implicit Types (w : world K).
Context (live : gmap ptr afu_view) (p : ptr) (a : ocxl_afu) (areas : list ocxl_mmio_area)
  (irqs : list ocxl_irq) (i : nat) (x : ocxl_mmio_area).
Context (Hlive : live !! p = Some (mk_view a areas irqs)) (Hx : areas !! i = Some x).
Context (Hstart : 0 < area_start x) (Hlen : 0 <= area_length x) (Hend : area_start x + area_length x <= 2 ^ 63).

Lemma wpt_round n e write read fn l1 text1 l2 text2 l3 text3 (k : T K unit) s t w Q :
  n = 4%nat ∨ n = 8%nat →
  (∀ offset w, 0 <= offset → mmio_inv w p a areas → wp (write offset) (write_result n x offset e offset w) w) →
  (∀ offset w, 0 <= offset → mmio_inv w p a areas → wp (read offset) (read_result n x offset e w) w) →
  sys_inv w live → running s t → 0 <= t_count t → t_count t <= 100000000 →
  (∀ w', GLOBAL_MMIO_SIZE <= area_length x → sys_inv w' live → since w w' →
     written x n e w' GLOBAL_MMIO_SIZE →
     wpt k Q (set_entry (add_checks (2 * registers n + 1) t) s) w') →
  (∀ t' w', area_length x < GLOBAL_MMIO_SIZE → sys_inv w' live → since w w' → t_state t' = FAIL →
     Q GotoEnd (set_entry t' s) w') →
  wpt (write_loop (accesses (Z.of_nat n)) fn l1 text1 write (Z.of_nat n) 0 ;;
       good ← read_loop (accesses (Z.of_nat n)) fn l2 text2 read (Z.of_nat n) 0;
       ASSERT fn l3 text3 (mret good) ;;
       k) Q s w.
Proof.
  intros Hn Hwrite Hread Hs Hr Ht0 Ht Hok Hfail.
  assert (1 <= Z.of_nat n <= 8 ∧ 4 <= Z.of_nat n) as [Hn1 Hn4] by lia.
  assert (Z.of_nat n | GLOBAL_MMIO_SIZE) as Hd.
  { destruct Hn as [-> | ->]; [exists 8388608|exists 4194304]; done. }
  assert (left_over n 0 = registers n) as E0 by (unfold left_over, registers; by rewrite Z.sub_0_r).
  assert (0 <= registers n <= 8388608) as Hb by (destruct Hn as [-> | ->]; done).
  assert (left_over n 0 < Z.of_nat (accesses (Z.of_nat n))) as Hf.
  { rewrite E0. unfold accesses. fold (registers n). rewrite Nat2Z.inj_succ, Z2Nat.id by lia. lia. }
  assert (INT_MAX = 2147483647) as EI by done.
  assert (GLOBAL_MMIO_SIZE = 33554432) as EG by done.
  apply wpt_bind. eapply (wpt_write_loop live p a areas irqs x Hlive Hstart Hlen Hend n Hn1 e); try eassumption.
  - rewrite E0. lia.
  - lia.
  - apply Z.divide_0_r.
  - intros o Ho. lia.
  - intros w1 Hl Hs1 S1 Hw1. rewrite E0. set (t1 := add_checks (registers n) t).
    pose proof (running_set s t t1 Hr) as Hr1.
    apply wpt_bind. eapply (wpt_read_loop live p a areas irqs x Hlive Hstart Hlen Hend n Hn1 e);
      try eassumption; try (unfold t1; simpl; rewrite ?E0; lia).
    + apply Z.divide_0_r.
    + intros w2 Hs2 S2 Hw2. rewrite E0, set_entry_twice. unfold t1. rewrite add_checks_add.
      set (t2 := add_checks _ t). pose proof (running_set s t t2 Hr) as Hr2.
      apply wpt_bind. eapply wpt_ASSERT_value; [exact Hr2|unfold t2; simpl; lia|done|].
      rewrite set_entry_twice. unfold t2. rewrite add_checks_add.
      replace (1 + (registers n + registers n)) with (2 * registers n + 1) by lia.
      apply Hok; [done|done|by etrans|done].
  - intros t' w1 Hl Hs1 S1 Hst _. by apply Hfail.
Qed.

(** A direct load of a register. *)
Lemma wp_load_area n e o w Q :
  0 <= o → (Z.of_nat n | o) → (1 <= n)%nat → o + Z.of_nat n <= GLOBAL_MMIO_SIZE → GLOBAL_MMIO_SIZE <= area_length x →
  sys_inv w live → written x n e w GLOBAL_MMIO_SIZE →
  (∀ w', sys_inv w' live → since w w' → Q (of_native_bytes (encode e n o)) w') →
  wp (load_area n (handle_of a i) o) Q w.
Proof.
  intros H1 H2 Hn H3 H4 Hs Hw HQ. pose proof (live_mmio live p a areas irqs Hlive w Hs) as Hi.
  apply wp_bind. eapply wp_get_area; [exact Hi|exact Hx|].
  assert (in_mapping x n o = true) as ->.
  { unfold in_mapping, u64. rewrite uwrap_small, (proj2 (Z.eqb_neq _ _)) by (unfold NULL; lia). simpl. lia. }
  apply wp_bind. eapply wp_sys_call; [exact Hs|done|done|done|]. intros bs w' Hs' D.
  assert (bs = encode e n o) as ->.
  { pose proof (reg_load (u64 (area_start x + o)) n (w_os w)) as Hl. rewrite (did_step _ _ _ _ D) in Hl. simpl in Hl.
    unfold u64 in Hl. rewrite uwrap_small in Hl by lia. by rewrite Hl, <-(Hw o ltac:(lia) H2). }
  apply wp_ret, HQ; [done|exact (since_did _ _ _ _ D)].
Qed.

End round.

(** ** The native accesses *)

Section native.
Context {K : Type} `{Platform K} `{Abi} `{!RegisterMemory K}.
Implicit Types (w : world K).

Lemma wp_mmio_write64_native w p a areas i x offset v :
  mmio_inv w p a areas → areas !! i = Some x → 0 <= offset →
  wp (mmio_write64_native (handle_of a i) offset v) (write_result 8 x offset OCXL_MMIO_HOST_ENDIAN v w) w.
Proof.
  intros Hi Hx Ho. apply (wp_native_write 599 "mmio_write64_native" "%s MMIO Write64@0x%04lx=0x%016lx" 8
    w p a areas i x); [done|done|lia|by apply not_underruns|done| |].
  - intros err w' E Hk Hq. by apply write_result_refused.
  - intros w' E Hacc. unfold write_result. by rewrite E.
Qed.

Lemma wp_mmio_read64_native w p a areas i x offset :
  mmio_inv w p a areas → areas !! i = Some x → 0 <= offset →
  wp (mmio_read64_native (handle_of a i) offset) (read_result 8 x offset OCXL_MMIO_HOST_ENDIAN w) w.
Proof.
  intros Hi Hx Ho. apply (wp_native_read 527 "mmio_read64_native" "%s MMIO Read64@0x%04lx=0x%016lx" 8
    w p a areas i x); [done|done|lia|by apply not_underruns|done| |].
  - intros err w' E Hk Hq. by apply read_result_refused.
  - intros bs w' E Hacc. unfold read_result. rewrite E. by exists bs.
Qed.

End native.

(** ** The tests *)

Section whole.
Context {K : Type} `{Platform K} `{Abi} `{!Device K} `{!RegisterMemory K}.
Context `{!ShortNames K} `{!NonZeroHandles K} `{!MapRange K}.
Implicit Types (w : world K).

(** The entry of a test that was just started. *)
Definition started (sn name : string) : test :=
  mk_test (strncpy sn (SUITE_NAME_LEN + 1)) (strncpy name (TEST_NAME_LEN + 1)) IN_PROGRESS 0.

Definition next_test (s : suite) : suite := s <| current_test := current_test s + 1 |>.

Lemma wpt_test_start sn name s w Q :
  suite_wf s → current_test s + 1 < MAX_TESTS →
  (∀ t w', quiet w w' → running (next_test s) t →
     Q (Next tt) (set_entry (started sn name) (next_test s)) w') →
  wpt (K := K) (test_start sn name) Q s w.
Proof.
  intros [W1 W2 W3] Hc HQ. apply wpt_bind, wpt_lib, wp_printf; [done|]. intros w1 Hq1.
  apply wpt_bind, wpt_put. apply wpt_bind, wpt_get. fold (next_test s).
  change (current_test (next_test s)) with (current_test s + 1).
  destruct (Z.eqb_spec (current_test s + 1) MAX_TESTS); [lia|].
  destruct (lookup_lt_is_Some_2 (tests s) (Z.to_nat (current_test s + 1))) as [t Ht]; [lia|].
  assert (running (next_test s) t) as Hr by (split; [simpl; lia|done]).
  assert (∀ w', quiet w w' → wpt (K := K) (set_test (current_test (next_test s)) (λ t,
    t <| t_suite := strncpy sn (SUITE_NAME_LEN + 1) |> <| t_name := strncpy name (TEST_NAME_LEN + 1) |>
      <| t_state := IN_PROGRESS |> <| t_count := 0 |>)) Q (next_test s) w') as Hset.
  { intros w' Hq'. eapply wpt_set_this; [exact Hr|]. by eapply HQ. }
  apply wpt_bind. unfold warn_in_progress, twhen.
  destruct (c_bool (current_test s + 1)) eqn:Ec; [|by apply wpt_ret, Hset].
  unfold c_bool in Ec. apply negb_true_iff, Z.eqb_neq in Ec.
  destruct (lookup_lt_is_Some_2 (tests s) (Z.to_nat (current_test s))) as [t0 Ht0]; [lia|].
  apply wpt_bind. eapply (wpt_get_test _ t0); [lia|by rewrite Z.add_simpl_r|].
  destruct (bool_decide _); [|by apply wpt_ret, Hset].
  apply wpt_lib, wp_fprintf_stderr; [done|]. intros w2 Hq2. apply Hset. by etrans.
Qed.

(** What a test of the area leaves in the table: it passes with all its
    checks, or it failed when it opened or mapped the AFU, or because the area
    the device reported is too small. *)
Definition mmio_verdict (checks : Z) (t : test) w : Prop :=
  (t_state t = SUCCESS ∧ t_count t = checks) ∨
  (t_state t = FAIL ∧ (t_count t <= 2 ∨ ∃ size, reported_size size w ∧ u64 size < GLOBAL_MMIO_SIZE)).

(** The AFUs are those of the start, the test is the next one of the table. *)
Definition mmio_post (live : gmap ptr afu_view) (s : suite) (checks : Z)
    (v : verdict unit) (s' : suite) w' : Prop :=
  v = Next tt ∧ sys_inv w' live ∧ current_test s' = current_test s + 1 ∧
  ∃ t, running s' t ∧ mmio_verdict checks t w'.

(** The state at the label [end:]. *)
Definition at_end (live : gmap ptr afu_view) (s : suite) (checks : Z) (s' : suite) w' : Prop :=
  current_test s' = current_test s + 1 ∧ (∃ t, running s' t ∧ mmio_verdict checks t w') ∧
  ((local_afu s' = NULL ∧ sys_inv w' live) ∨
   (∃ x, live !! local_afu s' = None ∧ sys_inv w' (<[local_afu s' := x]> live))).

Lemma mmio_verdict_since checks t w w' : since w w' → mmio_verdict checks t w → mmio_verdict checks t w'.
Proof.
  intros Hs [?|[? [?|(size & Hr & ?)]]]; [by left|right; auto|right]. split; [done|]. right. exists size.
  split; [by eapply reported_since|done].
Qed.

Lemma wpt_end_close live s checks s' w' :
  at_end live s checks s' w' → wpt close_if_open (mmio_post live s checks) s' w'.
Proof.
  intros (Hc & (t & Hr & Hv) & [[El Hs]|(x & Hn & Hs)]).
  - apply wpt_close_none; [done|]. split_and!; [done..|]. by exists t.
  - eapply wpt_close_open; [exact Hs|apply lookup_insert_eq|]. intros w1 Hs1 S1.
    rewrite delete_insert_id in Hs1 by done. split_and!; [done..|]. exists t.
    split; [done|by eapply mmio_verdict_since].
Qed.

(** A test of the area: the part [k] behind the opening of the AFU. *)
Lemma wpt_mmio_test sn name fn line text path checks (k : ptr → T K unit) live s w :
  suite_wf s → current_test s + 1 < MAX_TESTS → sys_inv w live →
  (∀ s1 t p a w1, running s1 t → current_test s1 = current_test s + 1 → t_count t = 1 →
     local_afu s1 = p → live !! p = None → sys_inv w1 (<[p := mk_view a [] []]> live) →
     reported_size (area_length (afu_global_mmio a)) w1 →
     wpt (k p) (λ v s' w', match v with Exit _ => False | _ => at_end live s checks s' w' end) s1 w1) →
  wpt (test_start sn name ;;
       set_afu_var OCXL_INVALID_AFU ;;
       with_end (ASSERT fn line text (err_is OCXL_OK (into_afu (ocxl_afu_open_from_dev path))) ;;
                 afu ← the_afu; k afu)
                close_if_open)
    (mmio_post live s checks) s w.
Proof.
  intros Hwf Hc Hs Hk. apply wpt_bind, wpt_test_start; [done|done|]. intros t0 w0 Hq0 Hr0.
  set (s0 := set_entry _ _). apply wpt_bind, wpt_put. set (s1 := s0 <| local_afu := _ |>).
  assert (running s1 (started sn name)) as Hr1.
  { destruct (running_set _ _ (started sn name) Hr0) as [R1 R2]. by split. }
  apply wpt_with_end.
  apply (wpt_mono _ (λ v s' w', match v with Exit _ => False | _ => at_end live s checks s' w' end)).
  { intros [] s' w' HB; [exact (wpt_end_close _ _ _ _ _ HB)|exact (wpt_end_close _ _ _ _ _ HB)|]. destruct HB. }
  apply wpt_bind. eapply wpt_assert_open; [exact Hr1|done|by eapply sys_inv_quiet|..].
  - intros p a d_name w1 Hs1 Hp Ho S1. apply wpt_bind, wpt_get. eapply (Hk _ (add_checks 1 (started sn name)) p a);
      try done; [|by eapply open_handle_reported].
    destruct (running_set _ _ (add_checks 1 (started sn name)) Hr1) as [R1 R2]. by split.
  - intros w1 Hs1 S1. split_and!; [done| |by left]. exists (failed_entry 1 (started sn name)). split.
    + destruct (running_set _ _ (failed_entry 1 (started sn name)) Hr1) as [R1 R2]. by split.
    + right. split; [done|by left].
Qed.

(** The state of a test that has opened the AFU, after [n] checks. *)
Record testing (live : gmap ptr afu_view) (s : suite) (n : Z) (a : ocxl_afu) (areas : list ocxl_mmio_area)
    (s' : suite) (t : test) w' : Prop := {
  tg_running : running s' t;
  tg_count : t_count t = n;
  tg_current : current_test s' = current_test s + 1;
  tg_fresh : live !! local_afu s' = None;
  tg_sys : sys_inv w' (<[local_afu s' := mk_view a areas []]> live)
}.

(** Checks are counted, and the world goes on. *)
Lemma testing_step live s n a areas s1 t w1 m a' areas' w2 :
  testing live s n a areas s1 t w1 → sys_inv w2 (<[local_afu s1 := mk_view a' areas' []]> live) →
  testing live s (m + n) a' areas' (set_entry (add_checks m t) s1) (add_checks m t) w2.
Proof. intros [R <- C F _] Hs. split; [by eapply running_set|simpl; lia|done..]. Qed.

Lemma testing_same live s n a areas s1 t w1 a' areas' w2 :
  testing live s n a areas s1 t w1 → sys_inv w2 (<[local_afu s1 := mk_view a' areas' []]> live) →
  testing live s n a' areas' s1 t w2.
Proof. intros [R C1 C F _] Hs. by split. Qed.

Lemma testing_at_end live s n a areas s1 t w1 checks t' w2 :
  testing live s n a areas s1 t w1 → sys_inv w2 (<[local_afu s1 := mk_view a areas []]> live) →
  mmio_verdict checks t' w2 → at_end live s checks (set_entry t' s1) w2.
Proof.
  intros [R _ C F _] Hs Hv. split_and!; [done| |right; by eexists]. exists t'. split; [by eapply running_set|done].
Qed.

(** The part [k] behind the mapping of the area, of the size the device reported. *)
Definition maps_area live s (size n : Z) a areas i x s' t w' : Prop :=
  testing live s n a areas s' t w' ∧ areas !! i = Some x ∧ 0 < area_start x ∧ 0 <= area_length x ∧
  area_start x + area_length x <= 2 ^ 63 ∧ area_length x = u64 size ∧ reported_size size w'.

Lemma wpt_map_then live s checks size fn line (k : ocxl_mmio_h → T K unit) a s1 t w1 :
  testing live s 1 a [] s1 t w1 → size = area_length (afu_global_mmio a) → reported_size size w1 →
  (∀ a' areas' i x s2 t2 w2, maps_area live s size 2 a' areas' i x s2 t2 w2 →
     wpt (k (handle_of a' i)) (λ v s' w', match v with Exit _ => False | _ => at_end live s checks s' w' end) s2 w2) →
  wpt (h ← map_global fn line (local_afu s1); k h)
    (λ v s' w', match v with Exit _ => False | _ => at_end live s checks s' w' end) s1 w1.
Proof.
  intros Ht -> Hrep Hk. pose proof Ht as [R C1 C F Hs].
  apply wpt_bind. eapply wpt_map_global; [exact R|by rewrite C1|exact Hs|apply lookup_insert_eq|..].
  - intros a' i x areas' w2 Hs2 Hx S2 R1 R2 R3 El. rewrite insert_insert_eq in Hs2.
    eapply Hk. split_and!; try done; [|by eapply reported_since].
    by eapply (testing_step live s 1 _ _ _ _ _ 1 a' areas').
  - intros w2 Hs2 S2. eapply testing_at_end; [exact Ht|done|]. right. split; [done|]. left. simpl. lia.
Qed.

(** A round on the mapped area. *)
Lemma wpt_round_then live s checks size n c a areas i x s1 t1 w1 write read e fn l1 text1 l2 text2 l3 text3 (k : T K unit) :
  maps_area live s size c a areas i x s1 t1 w1 → 0 <= c <= 100000000 → n = 4%nat ∨ n = 8%nat →
  (∀ offset w, 0 <= offset → mmio_inv w (local_afu s1) a areas → wp (write offset) (write_result n x offset e offset w) w) →
  (∀ offset w, 0 <= offset → mmio_inv w (local_afu s1) a areas → wp (read offset) (read_result n x offset e w) w) →
  (∀ s2 t2 w2, maps_area live s size (2 * registers n + 1 + c) a areas i x s2 t2 w2 →
     GLOBAL_MMIO_SIZE <= area_length x → written x n e w2 GLOBAL_MMIO_SIZE → local_afu s2 = local_afu s1 →
     wpt k (λ v s' w', match v with Exit _ => False | _ => at_end live s checks s' w' end) s2 w2) →
  wpt (write_loop (accesses (Z.of_nat n)) fn l1 text1 write (Z.of_nat n) 0 ;;
       good ← read_loop (accesses (Z.of_nat n)) fn l2 text2 read (Z.of_nat n) 0;
       ASSERT fn l3 text3 (mret good) ;;
       k)
    (λ v s' w', match v with Exit _ => False | _ => at_end live s checks s' w' end) s1 w1.
Proof.
  intros (Ht & Hx & R1 & R2 & R3 & El & Hrep) Hc Hn Hwrite Hread Hk. pose proof Ht as [R C1 C F Hs].
  eapply (wpt_round _ (local_afu s1) a areas [] x (lookup_insert_eq _ _ _) R1 R2 R3 n e write read);
    [done|done|done|exact Hs|exact R|lia|lia|..].
  - intros w2 Hl Hs2 S2 Hw2. eapply Hk; [|done|done|done].
    split_and!; try done; [by eapply testing_step|by eapply reported_since].
  - intros t' w2 Hl Hs2 S2 Hst. eapply testing_at_end; [exact Ht|done|]. right. split; [done|]. right. exists size.
    split; [by eapply reported_since|]. by rewrite <-El.
Qed.

(** An assertion about a value that was read. *)
Lemma wpt_assert_then live s checks size c a areas i x s1 t1 w1 fn line text (b : bool) (k : T K unit) :
  maps_area live s size c a areas i x s1 t1 w1 → c <= 100000000 → b = true →
  (∀ s2 t2, maps_area live s size (1 + c) a areas i x s2 t2 w1 → local_afu s2 = local_afu s1 →
     wpt k (λ v s' w', match v with Exit _ => False | _ => at_end live s checks s' w' end) s2 w1) →
  wpt (ASSERT fn line text (mret b) ;; k)
    (λ v s' w', match v with Exit _ => False | _ => at_end live s checks s' w' end) s1 w1.
Proof.
  intros (Ht & Hrest) Hc Hb Hk. pose proof Ht as [R C1 C F Hs]. assert (INT_MAX = 2147483647) by done.
  apply wpt_bind. eapply wpt_ASSERT_value; [exact R|lia|done|]. eapply Hk; [|done].
  split; [by eapply testing_step|done].
Qed.

Lemma wpt_load_then {B} live s size c a areas i x s1 t1 w1 n e o (k : Z → T K B) (Q : verdict B → suite → world K → Prop) :
  maps_area live s size c a areas i x s1 t1 w1 → 0 <= o → o + Z.of_nat n <= GLOBAL_MMIO_SIZE → (1 <= n)%nat → (Z.of_nat n | o) →
  GLOBAL_MMIO_SIZE <= area_length x → written x n e w1 GLOBAL_MMIO_SIZE →
  (∀ w2, maps_area live s size c a areas i x s1 t1 w2 →
     wpt (k (of_native_bytes (encode e n o))) Q s1 w2) →
  wpt (v ← lib (load_area n (handle_of a i) o); k v) Q s1 w1.
Proof.
  intros (Ht & Hx & R1 & R2 & R3 & El & Hrep) Ho Ho' Hn Hd Hl Hw Hk. pose proof Ht as [R C1 C F Hs].
  apply wpt_bind, wpt_lib. eapply (wp_load_area _ (local_afu s1) a areas [] i x (lookup_insert_eq _ _ _) Hx R1 R2 R3);
    [done|done|done|done|done|exact Hs|exact Hw|].
  intros w2 Hs2 S2. apply Hk. split_and!; try done. by eapply reported_since.
Qed.

(** The end of a test that passes. *)
Lemma wpt_unmap_stop live s size c a areas i x s1 t1 w1 :
  maps_area live s size c a areas i x s1 t1 w1 →
  wpt (lib (ocxl_mmio_unmap (handle_of a i)) ;; test_stop SUCCESS)
    (λ v s' w', match v with Exit _ => False | _ => at_end live s c s' w' end) s1 w1.
Proof.
  intros (Ht & Hx & _). pose proof Ht as [R C1 C F Hs]. apply wpt_bind, wpt_lib.
  eapply wp_sys_unmap; [exact Hs|apply lookup_insert_eq|exact Hx|]. intros areas' w2 Hs2.
  rewrite insert_insert_eq in Hs2. pose proof (testing_same _ _ _ _ _ _ _ _ _ _ _ Ht Hs2) as Ht2.
  eapply wpt_test_stop; [exact R|]. intros w3 Hq. eapply testing_at_end; [exact Ht2|by eapply sys_inv_quiet|].
  left. by split.
Qed.

End whole.
