(* ===== verification/UnitTestRun.v ===== *)
(** * UnitTestRun: the unit tests on the virtual kernel

    The virtual kernel runs the program from its start: it has the device
    files the tests look at, and a thread that is created serves the device.
    The file of the global MMIO area has 32768 chunks; the loop that writes
    it is summed up in a lemma, the rest is computed. *)

From S2P Require Import Prelude Format Types World Logic Messages Buffer Ledger Mmio MmioFacts.
From S2P Require Import MmioAccess Irq IrqFacts IrqTable Event Names Afu AfuInv AfuClose AfuOpen Trace.
From S2P Require Import Api EventFacts Client Getopt VirtAfu VirtAfuFacts VirtOcxl.
From S2P Require Import UnitTest UnitTests UnitTestFacts UnitTestReport UnitTestMmio.
Open Scope Z_scope.

#[export] Instance virt_map_range : MapRange virt.
Proof.
  intros n prot fd offset v. unfold os_step, virt_platform, virt_step. cbv zeta.
  destruct (n <=? 0) eqn:E1, (2 ^ 47 <? Z.max 65536 (v_next_map v) + n) eqn:E2; cbn [orb fst]; try done.
  apply Z.leb_gt in E1. apply Z.ltb_ge in E2. intros _. split_and!; lia.
Qed.

(** ** Sequences *)

Lemma run_bind {K A B} (m : T K A) (k : A → T K B) s w s' a w' :
  m s w = Ret (s', Next a) w' → (m ≫= k) s w = k a s' w'.
Proof. intros E. unfold mbind, T_bind, mbind, M_bind. by rewrite E. Qed.

Lemma run_bind_UB {K A B} (m : T K A) (k : A → T K B) s w : m s w = UB → (m ≫= k) s w = UB.
Proof. intros E. unfold mbind, T_bind, mbind, M_bind. by rewrite E. Qed.

Lemma run_lib {K A} `{Platform K} `{!Device K} (m : M K A) s w a w' : m w = Ret a w' → lib m s w = Ret (s, Next a) w'.
Proof. intros E. unfold lib, mbind, M_bind. by rewrite E. Qed.

Lemma M_run_bind {K A B} (m : M K A) (k : A → M K B) w a w' : m w = Ret a w' → (m ≫= k) w = k a w'.
Proof. intros E. unfold mbind, M_bind. by rewrite E. Qed.

(** ** The file *)

Definition grown (path : string) (n : Z) (files : list (string * Z)) : list (string * Z) :=
  (λ x, if String.eqb x.1 path then (path, x.2 + n) else x) <$> files.

Lemma grown_0 path files : grown path 0 files = files.
Proof.
  unfold grown. rewrite <-(list_fmap_id files) at 2. apply list_fmap_ext. intros _ [p n] _. simpl.
  destruct (String.eqb_spec p path) as [->|]; [|done]. by rewrite Z.add_0_r.
Qed.

Lemma grown_add path n m files : grown path m (grown path n files) = grown path (n + m) files.
Proof.
  unfold grown. rewrite <-list_fmap_compose. apply list_fmap_ext. intros _ [p k] _. simpl.
  destruct (String.eqb p path) eqn:E; simpl; [by rewrite String.eqb_refl, Z.add_assoc|by rewrite E].
Qed.

(** The world when [n] chunks were written. *)
Definition wrote (fd : Z) (path : string) (n : nat) (w : world virt) : world virt :=
  w <| w_os := (w_os w) <| v_files := grown path (BUF_SIZE * Z.of_nat n) (v_files (w_os w)) |> |>
    <| w_trace := w_trace w ++ write_events fd (replicate n BUF_SIZE) |>.

Lemma wrote_0 fd path w : wrote fd path 0 w = w.
Proof.
  destruct w as [k h n g tr]. unfold wrote, field_upd. simpl. rewrite grown_0, app_nil_r. by destruct k.
Qed.

Lemma run_write fd fd' path w :
  find (λ x, x.1 =? fd) (v_writing (w_os w)) = Some (fd', path) →
  call (SWrite fd zeros) w = Ret BUF_SIZE (wrote fd path 1 w).
Proof.
  intros E. unfold call, os_step, virt_platform, virt_step, virt_write. rewrite E. done.
Qed.

Lemma run_fill_file fuel fd fd' tmp path size offset w :
  find (λ x, x.1 =? fd) (v_writing (w_os w)) = Some (fd', path) →
  0 <= offset → offset <= size + BUF_SIZE → size + BUF_SIZE < 2 ^ 64 → (chunks (size - offset) < fuel)%nat →
  fill_file fuel fd tmp size offset w = Ret true (wrote fd path (chunks (size - offset)) w).
Proof.
  revert offset w. induction fuel as [|fuel IH]; intros offset w Hfd H1 H2 H3 Hn; [lia|]. cbn [fill_file].
  destruct (Z.ltb_spec offset size) as [Hlt|Hge].
  - rewrite chunks_step in * by lia. fold zeros. erewrite M_run_bind by by eapply run_write.
    change (BUF_SIZE <? 0) with false. cbv iota. unfold u64. rewrite uwrap_small by (unfold BUF_SIZE in *; lia).
    replace (size - offset - BUF_SIZE) with (size - (offset + BUF_SIZE)) in * by lia.
    rewrite IH; [|exact Hfd|unfold BUF_SIZE in *; lia..]. f_equal. generalize (chunks (size - (offset + BUF_SIZE))).
    intros n. unfold wrote, field_upd. simpl. rewrite grown_add, <-app_assoc.
    do 3 f_equal. rewrite Nat2Z.inj_succ. unfold BUF_SIZE. lia.
  - rewrite chunks_done, wrote_0 by lia. done.
Qed.

(** ** The device is created *)

Lemma T_bind_ext {K A B} (m m' : T K A) (k k' : A → T K B) s w :
  m s w = m' s w → (∀ a s w, k a s w = k' a s w) → (m ≫= k) s w = (m' ≫= k') s w.
Proof.
  intros E Ek. unfold mbind, T_bind, mbind, M_bind. rewrite E. destruct (m' s w) as [[s1 [a| |]] w1| |]; auto.
Qed.

Lemma M_bind_ext {K A B} (m : M K A) (k k' : A → M K B) w :
  (∀ a w', m w = Ret a w' → k a w' = k' a w') → (m ≫= k) w = (m ≫= k') w.
Proof. intros Ek. unfold mbind, M_bind. destruct (m w) as [a w'| |] eqn:E; auto. Qed.

Lemma M_bind_eq {K A B} (m m' : M K A) (k : A → M K B) w : m w = m' w → (m ≫= k) w = (m' ≫= k) w.
Proof. intros E. unfold mbind, M_bind. by rewrite E. Qed.

(** The loop in one step; [log] is what it adds to the trace. *)
Definition fill_at_once (log : Z → list event) (fd : Z) (tmp : string) (size : Z) : M virt bool := λ w,
  Ret true (w <| w_os := (w_os w) <| v_files := grown tmp (BUF_SIZE * Z.of_nat (chunks size)) (v_files (w_os w)) |> |>
              <| w_trace := w_trace w ++ log fd |>).

(** [create_ocxl_device] with the loop in one step. *)
Definition create_at_once (log : Z → list event) (afu_name : string) (size pp : Z) : M virt Z :=
  modify_dev (λ d, d <| _global_mmio_size := size |> <| _pp_mmio_size := pp |>
                     <| device_name := truncate DEVICE_NAME_MAX ("ocxl-test/" +:+ afu_instance afu_name) |>) ;;
  g ← get_globals;
  ensure_dir (sysfs_base (SYS_PATH g) afu_name) ;;
  let tmp := mmio_file (SYS_PATH g) afu_name in
  fd ← call (SCreat tmp 420);
  if fd <? 0 then
    report_errno "Could not create global_mmio_area file '%s': %d: %s" tmp ;; mret 0
  else
  ok ← fill_at_once log fd tmp size;
  if negb (ok : bool) then mret 0 else
  call (SClose fd) ;;
  name ← read_dev device_name;
  '(rc, afu_thread) ← call (SThreadCreate name);
  if c_bool rc then fprintf_stderr ("Could not create AFU thread" +:+ newline) [] ;; mret 0
  else mret afu_thread.

Definition write_log (size fd : Z) : list event := write_events fd (replicate (chunks size) BUF_SIZE).

Lemma create_in_one fuel afu_name size pp w :
  0 <= size → size + BUF_SIZE < 2 ^ 64 → (chunks size < fuel)%nat →
  create_ocxl_device fuel afu_name size pp w = create_at_once (write_log size) afu_name size pp w.
Proof.
  intros H1 H2 Hn. unfold create_ocxl_device, create_at_once.
  apply M_bind_ext. intros _ w1 _. apply M_bind_ext. intros g w2 _. apply M_bind_ext. intros _ w3 _.
  apply M_bind_ext. intros fd w4 Hc. destruct (fd <? 0); [done|].
  erewrite M_run_bind; [|eapply run_fill_file; [|lia|unfold BUF_SIZE; lia|done|by rewrite Z.sub_0_r]].
  2: { injection Hc as <- <-. simpl. by rewrite Z.eqb_refl. }
  rewrite Z.sub_0_r. done.
Qed.

(** [create_afu] with the loop in one step. *)
Definition create_log (log : Z → list event) : T virt unit :=
  thread ← lib (create_at_once log "IBM,Dummy" GLOBAL_MMIO_SIZE PER_PASID_MMIO_SIZE);
  put (λ s, s <| afu_thread := thread |>) ;;
  if negb (c_bool thread) then
    lib (fprintf_stderr ("Could not create dummy AFU" +:+ newline) []) ;; exit 1
  else mret tt.

Lemma create_afu_in_one fuel s w :
  (chunks GLOBAL_MMIO_SIZE < fuel)%nat → create_afu fuel s w = create_log (write_log GLOBAL_MMIO_SIZE) s w.
Proof.
  intros Hn. apply T_bind_ext; [|done]. unfold lib, mbind, M_bind.
  rewrite create_in_one; [done|by compute|by compute|done].
Qed.

(** ** The tests *)

(** The kernel before the program starts: the files the tests look at. *)
Definition bare : virt :=
  virt_init <| v_devices := [("/dev", "urandom", 0x109); ("/dev", "zero", 0x105)]%string |>.

(** The tests up to [test_ocxl_afu_attach]. *)
Definition first_tests (create : T virt unit) : T virt unit :=
  run_tests structure_tests ;; create ;; lib (call (SSleep 1000000)) ;; run_tests open_tests.

(** Name, state and number of checks. *)
Definition entry_of (t : test) : string * state * Z := (name_of t, t_state t, t_count t).

Definition entries {A} (r : outcome virt (suite * verdict A)) : option (list (string * state * Z)) :=
  match r with Ret (s, Next _) _ => Some (entry_of <$> ran_tests s) | _ => None end.

Definition first_entries : list (string * state * Z) :=
  [("init", SUCCESS, 11); ("ocxl_afu_alloc", SUCCESS, 9); ("device_matches", SUCCESS, 3);
   ("populate_metadata", SUCCESS, 6); ("getters", SUCCESS, 12); ("get_afu_by_path", SUCCESS, 9);
   ("afu_open", SUCCESS, 9); ("ocxl_afu_open_specific", SUCCESS, 15);
   ("ocxl_afu_open_from_dev", SUCCESS, 5); ("ocxl_afu_open", SUCCESS, 5);
   ("ocxl_afu_attach", SUCCESS, 4)]%string.

Lemma first_tests_log log :
  entries ((main_setup ;; first_tests (create_log log)) initial_suite (initial_world bare)) = Some first_entries.
Proof. vm_compute. reflexivity. Qed.

Lemma first_tests_create fuel s w :
  (chunks GLOBAL_MMIO_SIZE < fuel)%nat →
  (main_setup ;; first_tests (create_afu fuel)) s w =
  (main_setup ;; first_tests (create_log (write_log GLOBAL_MMIO_SIZE))) s w.
Proof.
  intros Hn. apply T_bind_ext; [done|]. intros _ s1 w1. apply T_bind_ext; [done|]. intros _ s2 w2.
  apply T_bind_ext; [by apply create_afu_in_one|done].
Qed.

(** [main] with a way to create the device. *)
Definition main_with (create : T virt unit) : M virt Z :=
  '(_, v) ← (main_setup ;;
             (run_tests structure_tests ;;
              create ;;
              lib (call (SSleep 1000000)) ;;
              run_tests open_tests ;;
              test_ocxl_afu_close ;;
              run_tests message_tests ;;
              run_tests mmio_tests ;;
              test_read_afu_event) ;;
             exit_handler ;;
             failed ← test_report;
             mret (if (failed : bool) then 1 else 0)) initial_suite;
  match v with
  | Next status => mret status
  | Exit code => mret code
  | GotoEnd => undefined
  end.

Lemma main_create fuel w :
  (chunks GLOBAL_MMIO_SIZE < fuel)%nat →
  main fuel w = main_with (create_log (write_log GLOBAL_MMIO_SIZE)) w.
Proof.
  intros Hn. apply M_bind_eq.
  apply T_bind_ext; [done|]. intros _ s1 w1. apply T_bind_ext; [|done].
  apply T_bind_ext; [done|]. intros _ s2 w2. apply T_bind_ext; [by apply create_afu_in_one|done].
Qed.

Lemma main_log log : main_with (create_log log) (initial_world bare) = UB.
Proof. vm_compute. reflexivity. Qed.

(** ** Faults *)

Lemma virt_silent (v v' : virt) : rtc silent_step v v' → v_dev v' = v_dev v ∧ v_fds v' = v_fds v.
Proof.
  induction 1 as [v|v v1 v' Hs _ [IH1 IH2]]; [done|]. rewrite IH1, IH2. destruct Hs as [R c k Hc].
  destruct c; try done. unfold os_step, virt_platform, virt_step. by case_match.
Qed.

(** The record of a fault, read back. *)
Definition in64 (z : Z) : Prop := 0 <= z < 2 ^ 64.

Lemma le_bytes_8 z rest : in64 z → of_le_bytes (take 8 (le_bytes 8 z ++ rest)) = z.
Proof.
  intros Hz. rewrite take_app_length' by by rewrite length_le_bytes. rewrite of_le_le_bytes. by apply Z.mod_small.
Qed.

Lemma event_bytes_report f :
  in64 (xf_addr f) → in64 (xf_dsisr f) → in64 (xf_count f) →
  afu_report (event_size, event_bytes OCXL_AFU_EVENT_XSL_FAULT_ERROR OCXL_KERNEL_EVENT_FLAG_LAST f) =
  Some (OCXL_EVENT_TRANSLATION_FAULT (mk_event_fault (xf_addr f) (xf_dsisr f) (xf_count f))) ∧
  last_event (event_bytes OCXL_AFU_EVENT_XSL_FAULT_ERROR OCXL_KERNEL_EVENT_FLAG_LAST f) = true.
Proof.
  intros Ha Hd Hc. split; [|done]. unfold afu_report.
  change (event_body _) with (le_bytes 8 (xf_addr f) ++ le_bytes 8 (xf_dsisr f) ++ le_bytes 8 (xf_count f)).
  cbn [fst snd]. change (_ && _) with true. cbv iota. do 3 f_equal.
  - by apply le_bytes_8.
  - unfold xsl_dsisr, virt_abi. rewrite drop_app_length' by by rewrite length_le_bytes. by apply le_bytes_8.
  - unfold xsl_count, virt_abi. rewrite app_assoc, drop_app_length' by by rewrite length_app, !length_le_bytes.
    rewrite <-(app_nil_r (le_bytes 8 (xf_count f))). by apply le_bytes_8.
Qed.

Section faults.
Context (w : world virt) (p : ptr) (a : ocxl_afu).
Context (Ha : w_heap w !! p = Some (HAfu a)) (Hr : can_report w p).
Context (Hctx : is_context (w_os w) (afu_fd a) = true).

(** A pending fault is read, and the device has none afterwards. *)
Lemma wp_read_fault f Q :
  translation_fault (v_dev (w_os w)) = f → xf_addr f ≠ 0 →
  in64 (xf_addr f) → in64 (xf_dsisr f) → in64 (xf_count f) →
  (∀ w', same_mem w w' → v_fds (w_os w') = v_fds (w_os w) → xf_addr (translation_fault (v_dev (w_os w'))) = 0 →
     Q (OCXL_EVENT_ACTION_SUCCESS,
        Some (OCXL_EVENT_TRANSLATION_FAULT (mk_event_fault (xf_addr f) (xf_dsisr f) (xf_count f))), true) w') →
  wp (read_afu_event p 0) Q w.
Proof.
  intros Hf Hne H1 H2 H3 HQ. eapply wp_read_afu_event; [exact Ha|exact Hr|]. intros r res w1 w' D Hq Hv.
  pose proof (did_step _ _ _ _ D) as Hs. unfold os_step, virt_platform in Hs. simpl in Hs.
  unfold virt_read in Hs. rewrite Hctx in Hs. unfold virt_afu_read, afu_read in Hs. simpl in Hs.
  rewrite Hf in Hs. rewrite (proj2 (Z.eqb_neq _ _) Hne) in Hs. injection Hs as Er Ek.
  destruct (event_bytes_report f H1 H2 H3) as [E1 E2]. pose proof (virt_silent _ _ (quiet_os _ _ Hq)) as [S1 S2].
  assert (r = (event_size, event_bytes OCXL_AFU_EVENT_XSL_FAULT_ERROR OCXL_KERNEL_EVENT_FLAG_LAST f)) as -> by done.
  pose proof (afu_report_ok _ _ E1) as Eok.
  inversion Hv as [E|E|_ E|e _ E]; subst res; [congruence|done|congruence|]. rewrite E1 in E. injection E as <-.
  cbn [snd]. rewrite E2. apply HQ; [etrans; [apply D|apply Hq]|by rewrite S2, <-Ek|by rewrite S1, <-Ek].
Qed.

Lemma wp_read_none Q :
  xf_addr (translation_fault (v_dev (w_os w))) = 0 →
  (∀ w', same_mem w w' → Q (OCXL_EVENT_ACTION_NONE, None, true) w') → wp (read_afu_event p 0) Q w.
Proof.
  intros Hf HQ. unfold read_afu_event. simpl. apply wp_bind. eapply wp_get_afu; [exact Ha|].
  apply wp_bind, wp_call; [done|]. intros [n buf] w1 D. pose proof (did_step _ _ _ _ D) as Hs.
  unfold os_step, virt_platform in Hs. simpl in Hs. unfold virt_read in Hs. rewrite Hctx in Hs.
  unfold virt_afu_read, afu_read in Hs. simpl in Hs. rewrite Hf in Hs. injection Hs as <- <- Ek.
  apply wp_bind. unfold wp at 1, call, os_step, virt_platform. simpl. rewrite <-Ek. simpl. apply HQ.
  destruct D as [[] _ _]. by split.
Qed.

End faults.

(** ** The test of [ocxl_afu_close] *)

Section close.
Context {K : Type} `{Platform K} `{Abi} `{!Device K} `{!ShortNames K} `{!NonZeroHandles K} `{!MapRange K}.
Implicit Types (w : world K).

Lemma wrong_bind {A B} (m : T K A) (k : A → T K B) s w :
  wpt m (λ v s' w', ∃ a, v = Next a ∧ goes_wrong (k a s') w') s w → goes_wrong ((m ≫= k) s) w.
Proof.
  intros Hm. apply goes_wrong_bind. eapply wp_mono; [|exact Hm]. intros [s' v] w' (a & E & Hk). simpl in E. by subst v.
Qed.

Lemma wrong_with_end (body cleanup : T K unit) s w : goes_wrong (body s) w → goes_wrong (with_end body cleanup s) w.
Proof. apply goes_wrong_bind_l. Qed.

(** Behind a start that is known. *)
Lemma wpt_run_bind {A B} (m : T K A) (k : A → T K B) s w s' a w' (Q : verdict B → suite → world K → Prop) :
  m s w = Ret (s', Next a) w' → wpt (k a) Q s' w' → wpt (m ≫= k) Q s w.
Proof. intros E. unfold wpt, wp. by rewrite (run_bind _ _ _ _ _ _ _ E). Qed.

Lemma wrong_run_bind {A B} (m : T K A) (k : A → T K B) s w s' a w' :
  m s w = Ret (s', Next a) w' → goes_wrong (k a s') w' → goes_wrong ((m ≫= k) s) w.
Proof. intros E. unfold goes_wrong. by rewrite (run_bind _ _ _ _ _ _ _ E). Qed.

(** An assertion about a member of a freed structure. *)
Lemma wrong_field fn line text z (f : ocxl_afu → Z) p (k : T K unit) s t w :
  running s t → t_count t < INT_MAX → w_heap w !! p = None →
  goes_wrong ((ASSERT fn line text (value_is z (field f p)) ;; k) s) w.
Proof.
  intros Hr Hc Hp. apply goes_wrong_bind_l. unfold ASSERT, ASSERT_AS.
  apply wrong_bind. eapply wpt_count_check; [exact Hr|done|]. exists tt. split; [done|].
  apply goes_wrong_bind_l, goes_wrong_bind_l, goes_wrong_bind_l, goes_wrong_bind_l.
  unfold field, get_afu. apply goes_wrong_bind_l, goes_wrong_bind_l. unfold goes_wrong, load_obj. by rewrite Hp.
Qed.

(** The assertion that the AFU was opened, from what the library answers. *)
Lemma wpt_assert_answer fn line text path rc h s t w w1 Q :
  running s t → t_count t < INT_MAX → ocxl_afu_open_from_dev path w = Ret (rc, h) w1 →
  (if is_ok rc then Q (Next tt) (with_afu h (set_entry (add_checks 1 t) s)) w1
   else ∀ w2, quiet w1 w2 → Q GotoEnd (with_afu h (set_entry (failed_entry 1 t) s)) w2) →
  wpt (ASSERT fn line text (err_is OCXL_OK (into_afu (ocxl_afu_open_from_dev path)))) Q s w.
Proof.
  intros Hr Hc E HQ. eapply wpt_ASSERT_AS; [exact Hr|done|]. set (s1 := set_entry _ s).
  apply wpt_bind. unfold err_is, into_afu. apply wpt_bind, wpt_bind, wpt_lib. unfold wp. rewrite E.
  apply wpt_bind, wpt_put, wpt_ret, wpt_ret, wpt_ret. destruct (is_ok rc) eqn:Eok.
  - rewrite bool_decide_true by (by destruct rc). exact HQ.
  - rewrite bool_decide_false by (by intros ->). exists (add_checks 1 t).
    split; [by apply (running_set s t (add_checks 1 t)) in Hr as []|]. intros w2 Hq. specialize (HQ w2 Hq).
    rewrite <-(set_entry_twice (failed_entry 1 t) (add_checks 1 t) s) in HQ. exact HQ.
Qed.

Lemma wp_close_frees w live p x Q :
  sys_inv w live → live !! p = Some x → (∀ w', w_heap w' !! p = None → Q OCXL_OK w') → wp (ocxl_afu_close p) Q w.
Proof.
  intros Hs Hp HQ. destruct (si_views _ _ Hs _ _ Hp) as [Hi Hfd]. eapply wp_afu_close; [exact Hi|done|].
  intros w' Hc. apply HQ, (ac_freed _ _ _ _ _ _ Hc). by left.
Qed.

Lemma wpt_assert_closed fn line text s t w live p x Q :
  running s t → t_count t < INT_MAX → sys_inv w live → live !! p = Some x →
  (∀ w', w_heap w' !! p = None → Q (Next tt) (set_entry (add_checks 1 t) s) w') →
  wpt (ASSERT fn line text (lib_err_is OCXL_OK (ocxl_afu_close p))) Q s w.
Proof.
  intros Hr Hc Hs Hp HQ. eapply wpt_ASSERT_AS; [exact Hr|done|]. apply wpt_bind, wpt_bind, wpt_lib.
  eapply wp_close_frees; [exact Hs|exact Hp|]. intros w' Hfree. apply wpt_ret, wpt_ret.
  rewrite bool_decide_true by done. by apply HQ.
Qed.

(** The test from its start: the AFU it opens is freed where it is read. *)
Lemma afu_close_test live s w :
  suite_wf s → current_test s + 1 < MAX_TESTS → sys_inv w live →
  ∃ w0, quiet w w0 ∧
    match ocxl_afu_open_from_dev dummy_path w0 with
    | Ret (rc, p) w1 =>
        if is_ok rc then
          goes_wrong (test_ocxl_afu_close s) w ∧
          ∃ w2, (ocxl_afu_enable_messages p OCXL_ERRORS ;; ocxl_afu_close p) w1 = Ret OCXL_OK w2 ∧
            w_heap w2 !! p = None
        else
          wpt test_ocxl_afu_close (λ v s' w', v = Next tt ∧ sys_inv w' live ∧
            current_test s' = current_test s + 1 ∧
            ∃ t, tests s' !! Z.to_nat (current_test s') = Some t ∧ t_state t = FAIL ∧ t_count t = 1) s w
    | _ => False
    end.
Proof.
  intros Hwf Hc Hs.
  assert (wpt (test_start "AFU" "ocxl_afu_close") (λ v s' w', v = Next tt ∧ quiet w w' ∧
    running s' (started "AFU" "ocxl_afu_close") ∧ current_test s' = current_test s + 1) s w) as Hstart.
  { apply wpt_test_start; [done|done|]. intros t w' Hq Hr. split_and!; [done|done|by eapply running_set|done]. }
  apply wp_run in Hstart as ([s0 v] & w0 & E0 & Hv & Hq & Hr & Ec). simpl in Hv, Hr, Ec. subst v.
  exists w0. split; [done|]. pose proof (sys_inv_quiet _ _ _ Hs Hq) as Hs0.
  set (s1 := s0 <| local_afu := OCXL_INVALID_AFU |>).
  assert (running s1 (started "AFU" "ocxl_afu_close")) as Hr1 by (destruct Hr; by split).
  pose proof (wp_run _ _ _ (wp_sys_open_from_dev w0 live dummy_path (λ r w', 
    (is_ok r.1 = false ∧ r.2 = NULL ∧ sys_inv w' live) ∨ (is_ok r.1 = true ∧ live !! r.2 = None ∧
      ∃ a, sys_inv w' (<[r.2 := mk_view a [] []]> live))) Hs0
    ltac:(intros; left; done) ltac:(intros; right; eauto))) as ([rc p] & w1 & E & Hopen). rewrite E. simpl in Hopen.
  destruct Hopen as [(Eok & -> & Hs1)|(Eok & Hp & a & Hs1)]; rewrite Eok.
  - eapply wpt_run_bind; [exact E0|]. eapply (wpt_run_bind _ _ _ _ s1); [done|]. apply wpt_with_end.
    apply wpt_bind. eapply wpt_assert_answer; [exact Hr1|done|exact E|]. rewrite Eok.
    intros w2 Hq2. apply wpt_close_none; [done|]. split_and!; [done|by eapply sys_inv_quiet|done|].
    exists (failed_entry 1 (started "AFU" "ocxl_afu_close")). split_and!; [|done|done].
    apply (rn_entry _ _ (running_set _ _ _ Hr1)).
  - assert (∃ w2 a2, ocxl_afu_enable_messages p OCXL_ERRORS w1 = Ret tt w2 ∧
      sys_inv w2 (<[p := mk_view a2 [] []]> live)) as (w2 & a2 & E2 & Hs2).
    { assert (wp (ocxl_afu_enable_messages p OCXL_ERRORS) (λ _ w', ∃ a', sys_inv w' (<[p := mk_view a' [] []]> live)) w1)
        as ([] & w2 & E2 & a2 & Hs2)%wp_run; [|by exists w2, a2].
      eapply wp_sys_set; [exact Hs1|apply lookup_insert_eq|by intros ?; repeat split|].
      intros w2 Hs2. rewrite insert_insert_eq in Hs2. by eexists. }
    split.
    + eapply wrong_run_bind; [exact E0|]. eapply (wrong_run_bind _ _ _ _ s1); [done|].
      apply wrong_with_end, wrong_bind. eapply wpt_assert_answer; [exact Hr1|done|exact E|]. rewrite Eok.
      exists tt. split; [done|]. set (t2 := add_checks 1 (started "AFU" "ocxl_afu_close")).
      set (s2 := with_afu p _).
      assert (running s2 t2) as Hr2 by (destruct (running_set _ _ t2 Hr1); by split).
      apply wrong_bind, wpt_get. exists p. split; [done|]. apply wrong_bind, wpt_lib. unfold wp. rewrite E2.
      exists tt. split; [done|]. apply wrong_bind.
      eapply wpt_assert_closed; [exact Hr2|done|exact Hs2|apply lookup_insert_eq|]. intros w3 Hfree.
      exists tt. split; [done|]. pose proof (running_set _ _ (add_checks 1 t2) Hr2) as Hr3.
      apply wrong_bind. eapply wpt_ASSERT_value; [exact Hr3|done| |].
      { eapply (sys_inv_not_null w2); [exact Hs2|by rewrite lookup_insert_eq]. }
      exists tt. split; [done|]. eapply wrong_field; [by eapply running_set|done|done].
    + rewrite (M_run_bind _ _ _ _ _ E2).
      destruct (wp_run (ocxl_afu_close p) (λ rc w', rc = OCXL_OK ∧ w_heap w' !! p = None) w2) as (rc' & w3 & E3 & -> & Hfree).
      { eapply wp_close_frees; [exact Hs2|apply lookup_insert_eq|done]. }
      by exists w3.
Qed.

End close.
