(* ===== verification/UnitTestSpec.v ===== *)
(** * UnitTestSpec: the properties of the unit tests

    The table of tests, the report, the device the tests run on, and what the
    tests themselves do: on every platform for the table, the report, the
    creation of the device and the tests of the MMIO area and of
    [ocxl_afu_close]; on the virtual kernel for the tests from the start of
    the program on. *)

From S2P Require Import Prelude Format Types World Logic Messages Buffer Ledger Mmio MmioFacts.
From S2P Require Import MmioAccess Irq IrqFacts IrqTable Event Names Afu AfuInv AfuClose AfuOpen Trace.
From S2P Require Import Api EventFacts Client Getopt VirtAfu VirtAfuFacts VirtOcxl Demo.
From S2P Require Import UnitTest UnitTests UnitTestFacts UnitTestReport UnitTestMmio UnitTestRun.
Open Scope Z_scope.

(** ** The table and the report *)

Section table.
Context {K : Type} `{Platform K} `{Abi} `{!Device K}.
Implicit Types (w : world K).

(** C13: every one of the 21 tests keeps the table of tests well-formed
    (its size, the sizes of the two arrays of an entry, the range of the
    counter): when it returns, it has added one entry behind the others, left
    the others alone, and its entry is passed or failed, never still in
    progress; it ends the process only when the table is full. *)
Theorem tests_typed : Forall (is_test (K := K)) all_tests.
Proof. exact all_tests_are_tests. Qed.

(** C14: after any sequence of the tests that goes through, the table has
    exactly one more entry for each, with a verdict, behind the entries it had,
    which are unchanged. *)
Theorem run_tests_table (l : list (T K unit)) s w s' w' :
  l ⊆ all_tests → suite_wf s → run_tests l s w = Ret (s', Next tt) w' →
  suite_wf s' ∧ extends s s' (length l).
Proof.
  intros Hl Hs E. eapply advances_run_tests; [|exact E|exact Hs]. apply list.Forall_forall. intros m Hm.
  exact (proj1 (list.Forall_forall _ _) all_tests_are_tests m (Hl m Hm)).
Qed.

(** C15: the report, for a well-formed table that is not over-full, prints
    a heading and one line for every test that was started, in order: its
    names, padded to the length of the longest ones, its verdict in words and
    its number of checks.  It says that the run failed exactly if some test
    failed or was never stopped, and changes nothing. *)
Theorem test_report_spec s w :
  suite_wf s → current_test s < MAX_TESTS →
  ∃ failed max_suite max_name,
    test_report (K := K) s w =
      Ret (s, Next failed) (foldl printed w (report_texts max_suite max_name (ran_tests s))) ∧
    (failed = true ↔ Exists (λ t, t_state t = FAIL ∨ t_state t = IN_PROGRESS) (ran_tests s)) ∧
    longest suite_of (ran_tests s) max_suite ∧ longest name_of (ran_tests s) max_name.
Proof. apply run_test_report. Qed.

(** What the table keeps of a name: it is terminated in its array exactly if it
    has at most 32 characters, and the report prints 33 of them at most. *)
Theorem test_name_kept sn name st n :
  no_nul name →
  has_nul (strncpy name (TEST_NAME_LEN + 1)) = (String.length name <? 33)%nat ∧
  name_of (mk_test sn (strncpy name (TEST_NAME_LEN + 1)) st n) = String.substring 0 33 name.
Proof. intros Hn. split; [by apply strncpy_terminated|by apply name_of_strncpy]. Qed.

(** ** The device *)

(** C12: the creation of the device on every path: the directory is made if
    it is not there; the file is created and written in chunks of zeros until
    its size is reached, or up to the first write that fails; then it is closed
    and the thread is created.  The result is the thread, or 0 on any failure
    (a descriptor whose file could not be written is left open). *)
Theorem create_ocxl_device_spec fuel name size pp w :
  0 <= size → size + BUF_SIZE < 2 ^ 64 → (chunks size < fuel)%nat →
  wp (K := K) (create_ocxl_device fuel name size pp)
    (λ r w', ∃ ds es, logs (ds ++ es) w w' ∧
       made_dir (sysfs_base (SYS_PATH (w_glob w)) name) ds ∧
       created (mmio_file (SYS_PATH (w_glob w)) name) (chunks size) r es) w.
Proof. intros H1 H2 Hn. apply wp_create_ocxl_device; [done..|]. intros r ds es w' L Hd Hc. by exists ds, es. Qed.

End table.

(** ** The tests of the MMIO area *)

Section mmio.
Context {K : Type} `{Platform K} `{Abi} `{!Device K} `{!RegisterMemory K} `{!ByteLoads K}.
Context `{!ShortNames K} `{!NonZeroHandles K} `{!MapRange K}.
Implicit Types (w : world K).

(** Two checks that the AFU is opened and mapped, a round for each byte order
    (every register written, every register read back, and the flag), and three
    checks of the bytes of a register. *)
Definition checks_read32 : Z := 2 + 2 * (2 * registers 4 + 1) + 3.

Lemma converted_order (n : nat) (v : Z) :
  n = 4%nat ∧ v = 4 ∨ n = 8%nat ∧ v = 8 →
  of_native_bytes (encode OCXL_MMIO_BIG_ENDIAN n v) ≠ of_native_bytes (encode OCXL_MMIO_LITTLE_ENDIAN n v).
Proof.
  unfold of_native_bytes, encode. intros [[-> ->]|[-> ->]]; destruct host_little_endian; vm_compute; done.
Qed.

Lemma order_checks n v :
  n = 4%nat ∧ v = 4 ∨ n = 8%nat ∧ v = 8 →
  (v =? (if host_little_endian then bswap n (of_native_bytes (encode OCXL_MMIO_BIG_ENDIAN n v))
         else of_native_bytes (encode OCXL_MMIO_BIG_ENDIAN n v))) = true ∧
  (v =? (if host_little_endian then of_native_bytes (encode OCXL_MMIO_LITTLE_ENDIAN n v)
         else bswap n (of_native_bytes (encode OCXL_MMIO_LITTLE_ENDIAN n v)))) = true.
Proof.
  unfold of_native_bytes, encode. intros [[-> ->]|[-> ->]]; destruct host_little_endian; by vm_compute.
Qed.

(** C10: whatever the kernel answers, on registers that behave like memory
    the test of 32-bit accesses returns with all its AFUs closed: it passes
    with its 33554439 checks (every register written and read back in both byte
    orders, and seen in its byte order in memory), or it failed when it opened or
    mapped the AFU, or because the area is smaller than the device of the
    tests has it. *)
Theorem test_ocxl_mmio_read32_spec live s w :
  suite_wf s → current_test s + 1 < MAX_TESTS → sys_inv w live →
  wpt test_ocxl_mmio_read32 (mmio_post live s checks_read32) s w.
Proof.
  intros Hwf Hc Hs. apply wpt_mmio_test; [done..|]. intros s1 t p a0 w1 R C1 Ct <- F Hs1 Hrep.
  eapply (wpt_map_then live s _ (area_length (afu_global_mmio a0))); [by split|done|done|].
  intros a areas i x s2 t2 w2 Hm2. pose proof (order_checks 4 4 ltac:(auto)) as [Hbe Hle].
  eapply (wpt_round_then live s _ _ 4 2 a areas i x s2 t2 w2); [exact Hm2|lia|by left| | |].
  { intros offset w' Ho Hi. apply (wp_mmio_write32 _ _ _ _ _ _ _ _ _ Hi); [apply Hm2|by apply not_underruns]. }
  { intros offset w' Ho Hi. apply (wp_mmio_read32 _ _ _ _ _ _ _ _ Hi); [apply Hm2|by apply not_underruns]. }
  intros s3 t3 w3 Hm3 Hl3 Hw3 E3.
  eapply (wpt_load_then live s _ _ a areas i x s3 t3 w3 4); [exact Hm3|done|done|lia|by exists 1|done|exact Hw3|].
  intros w4 Hm4. eapply wpt_assert_then; [exact Hm4|done|exact Hbe|]. intros s5 t5 Hm5 E5.
  eapply (wpt_round_then live s _ _ 4 _ a areas i x s5 t5 w4); [exact Hm5|by vm_compute|by left| | |].
  { intros offset w' Ho Hi. apply (wp_mmio_write32 _ _ _ _ _ _ _ _ _ Hi); [apply Hm2|by apply not_underruns]. }
  { intros offset w' Ho Hi. apply (wp_mmio_read32 _ _ _ _ _ _ _ _ Hi); [apply Hm2|by apply not_underruns]. }
  intros s6 t6 w6 Hm6 Hl6 Hw6 E6.
  eapply (wpt_load_then live s _ _ a areas i x s6 t6 w6 4); [exact Hm6|done|done|lia|by exists 1|done|exact Hw6|].
  intros w7 Hm7. eapply wpt_assert_then; [exact Hm7|done|exact Hle|]. intros s8 t8 Hm8 E8.
  eapply wpt_assert_then; [exact Hm8|done| |].
  { apply negb_true_iff, Z.eqb_neq, converted_order. auto. }
  intros s9 t9 Hm9 E9. by eapply wpt_unmap_stop.
Qed.

Definition checks_read64_native : Z := 2 + (2 * registers 8 + 1).

(** The test of the native 64-bit accesses, in the same way. *)
Theorem test_ocxl_mmio_read64_native_spec live s w :
  suite_wf s → current_test s + 1 < MAX_TESTS → sys_inv w live →
  wpt test_ocxl_mmio_read64_native (mmio_post live s checks_read64_native) s w.
Proof.
  intros Hwf Hc Hs. apply wpt_mmio_test; [done..|]. intros s1 t p a0 w1 R C1 Ct <- F Hs1 Hrep.
  apply wpt_bind, wpt_lib. apply wp_since; [unfold ocxl_afu_enable_messages; traced|].
  eapply wp_sys_set; [exact Hs1|apply lookup_insert_eq|by intros ?; repeat split|].
  intros w1' Hs1' S1. rewrite insert_insert_eq in Hs1'.
  eapply (wpt_map_then live s _ (area_length (afu_global_mmio a0))); [by split|done|by eapply reported_since|].
  intros a areas i x s2 t2 w2 Hm2.
  eapply (wpt_round_then live s _ _ 8 2 a areas i x s2 t2 w2); [exact Hm2|lia|by right| | |].
  { intros offset w' Ho Hi. apply (wp_mmio_write64_native _ _ _ _ _ _ _ _ Hi); [apply Hm2|done]. }
  { intros offset w' Ho Hi. apply (wp_mmio_read64_native _ _ _ _ _ _ _ Hi); [apply Hm2|done]. }
  intros s3 t3 w3 Hm3 Hl3 Hw3 E3. by eapply wpt_unmap_stop.
Qed.


End mmio.

(** ** On the virtual kernel *)

(** On the virtual kernel without the device, the program creates it (a file
    of 32768 chunks, a thread) and its first eleven tests pass, with the number
    of checks they have in the source. *)
Theorem first_tests_pass fuel :
  (chunks GLOBAL_MMIO_SIZE < fuel)%nat →
  entries ((main_setup ;; first_tests (create_afu fuel)) initial_suite (initial_world bare)) = Some first_entries.
Proof. intros Hn. rewrite first_tests_create by done. apply first_tests_log. Qed.

(** As a whole, the run relies on freed memory there. *)
Theorem main_use_after_free fuel :
  (chunks GLOBAL_MMIO_SIZE < fuel)%nat → main fuel (initial_world bare) = UB.
Proof. intros Hn. rewrite main_create by done. apply main_log. Qed.

(** C16: a translation fault that is forced on the device is what the
    library reads from it, member by member, as the last event; it is read
    once, and the next read finds no event. *)
Theorem fault_round_trip (w : world virt) p a areas irqs addr dsisr count :
  afu_inv w p a areas irqs → is_context (w_os w) (afu_fd a) = true →
  addr ≠ 0 → in64 addr → in64 dsisr → in64 count →
  wp (modify_dev (force_translation_fault addr dsisr count) ;;
      first ← read_afu_event p 0;
      second ← read_afu_event p 0;
      mret (first, second))
    (λ r _, r = ((OCXL_EVENT_ACTION_SUCCESS,
                  Some (OCXL_EVENT_TRANSLATION_FAULT (mk_event_fault addr dsisr count)), true),
                 (OCXL_EVENT_ACTION_NONE, None, true))) w.
Proof.
  intros Hi Hc Hne H1 H2 H3. pose proof (afu_inv_report _ _ _ _ _ Hi) as Hr.
  apply wp_bind. unfold wp at 1, modify_dev. set (w1 := w <| w_os := _ |>).
  assert (w_heap w1 !! p = Some (HAfu a)) as Ha by apply (mi_afu _ _ _ _ (ai_mmio _ _ _ _ _ Hi)).
  apply wp_bind. apply (wp_read_fault w1 p a Ha Hr Hc (mk_fault addr dsisr count)); [done..|].
  intros w2 [Hm _ _] Hfds Hf. apply wp_bind. eapply (wp_read_none w2 p a); [by rewrite Hm| |done|].
  - unfold is_context, fd_kind_of. rewrite Hfds. exact Hc.
  - intros w3 _. by apply wp_ret.
Qed.

(** ** Instances *)

(** The kernel with the device in place. *)
Definition plugged (sys_path : string) : virt :=
  plug_in ocxl_dev_path sys_path "IBM,Dummy" GLOBAL_MMIO_SIZE PER_PASID_MMIO_SIZE bare.

(** The tests without a device, on the virtual kernel. *)
Definition after_structure : suite * world virt :=
  match run_tests structure_tests initial_suite (initial_world bare) with
  | Ret (s, _) w => (s, w)
  | _ => (initial_suite, initial_world bare)
  end.

Lemma structure_all : structure_tests ⊆ all_tests (K := virt).
Proof. intros m Hm. apply elem_of_app. by left. Qed.

Lemma structure_runs :
  run_tests structure_tests initial_suite (initial_world bare) = Ret (after_structure.1, Next tt) after_structure.2.
Proof.
  assert (match run_tests structure_tests initial_suite (initial_world bare) with
          | Ret (_, Next _) _ => true | _ => false end = true) as E by (vm_compute; reflexivity).
  unfold after_structure. by destruct (run_tests _ _ _) as [[s [[]| |]] w| |].
Qed.

Lemma structure_wf : suite_wf after_structure.1.
Proof.
  eapply (advances_run_tests (K := virt)); [|exact structure_runs|exact initial_suite_wf].
  apply structure_tests_are_tests.
Qed.

Lemma run_tests_table_witness :
  suite_wf after_structure.1 ∧ extends initial_suite after_structure.1 (length (structure_tests (K := virt))).
Proof.
  exact (run_tests_table structure_tests initial_suite (initial_world bare) after_structure.1 after_structure.2
           structure_all initial_suite_wf structure_runs).
Defined.

Lemma test_report_spec_witness :
  ∃ failed max_suite max_name,
    test_report after_structure.1 after_structure.2 =
      Ret (after_structure.1, Next failed)
          (foldl printed after_structure.2 (report_texts max_suite max_name (ran_tests after_structure.1))) ∧
    (failed = true ↔ Exists (λ t, t_state t = FAIL ∨ t_state t = IN_PROGRESS) (ran_tests after_structure.1)) ∧
    longest suite_of (ran_tests after_structure.1) max_suite ∧ longest name_of (ran_tests after_structure.1) max_name.
Proof.
  refine (test_report_spec after_structure.1 after_structure.2 structure_wf _). vm_compute. reflexivity.
Defined.

(** The report of these tests. *)
Example structure_report :
  match test_report after_structure.1 (initial_world bare) with
  | Ret (_, Next failed) w => failed = false ∧ v_stdout (w_os w) =
      ("Summary:" +:+ newline +:+
       tab +:+ "AFU" +:+ tab +:+ "init          " +:+ tab +:+ "OK" +:+ tab +:+ "11 checks" +:+ newline +:+
       tab +:+ "AFU" +:+ tab +:+ "ocxl_afu_alloc" +:+ tab +:+ "OK" +:+ tab +:+ "9 checks" +:+ newline +:+
       tab +:+ "AFU" +:+ tab +:+ "device_matches" +:+ tab +:+ "OK" +:+ tab +:+ "3 checks" +:+ newline)
  | _ => False
  end.
Proof. vm_compute. done. Qed.

(** The name of one of the tests has 34 characters. *)
Example long_name :
  name_of (started "ERR" "ocxl_set_afu_error_message_handler") = "ocxl_set_afu_error_message_handle"%string ∧
  has_nul (t_name (started "ERR" "ocxl_set_afu_error_message_handler")) = false.
Proof. by vm_compute. Qed.

Lemma create_ocxl_device_spec_witness :
  wp (create_ocxl_device 3 "IBM,Dummy" 2048 16384)
    (λ r w', ∃ ds es, logs (ds ++ es) (initial_world bare) w' ∧
       made_dir (sysfs_base "/sys/class/ocxl" "IBM,Dummy") ds ∧
       created (mmio_file "/sys/class/ocxl" "IBM,Dummy") 2 r es) (initial_world bare).
Proof.
  refine (create_ocxl_device_spec 3 "IBM,Dummy" 2048 16384 (initial_world bare) _ _ _);
    [lia|vm_compute; reflexivity|vm_compute; lia].
Defined.

Lemma test_ocxl_mmio_read32_spec_witness :
  wpt test_ocxl_mmio_read32 (mmio_post ∅ initial_suite 33554439) initial_suite (initial_world (plugged SYS_PATH_DEFAULT)).
Proof.
  refine (test_ocxl_mmio_read32_spec ∅ initial_suite (initial_world (plugged SYS_PATH_DEFAULT)) initial_suite_wf _ (sys_inv_initial _)).
  vm_compute. reflexivity.
Defined.


Lemma fault_round_trip_witness :
  wp (modify_dev (force_translation_fault 0xfeeddeadbeeff00d 0x123456789abcdef0 16) ;;
      first ← read_afu_event demo_afu 0;
      second ← read_afu_event demo_afu 0;
      mret (first, second))
    (λ r _, r = ((OCXL_EVENT_ACTION_SUCCESS,
                  Some (OCXL_EVENT_TRANSLATION_FAULT (mk_event_fault 0xfeeddeadbeeff00d 0x123456789abcdef0 16)), true),
                 (OCXL_EVENT_ACTION_NONE, None, true))) world_open.
Proof.
  refine (fault_round_trip world_open demo_afu afu_opened [] [] _ _ _ afu_inv_open _ _ _ _ _);
    [vm_compute; reflexivity|discriminate|unfold in64; lia..].
Defined.

(** The other tests on their own, where the device is in place. *)
Example message_tests_pass :
  entries ((main_setup ;; run_tests message_tests) initial_suite (initial_world (plugged ocxl_sysfs_path))) =
  Some [("ocxl_set_error_message_handler", SUCCESS, 1); ("ocxl_set_afu_error_message_handle", SUCCESS, 2)]%string.
Proof. vm_compute. reflexivity. Qed.

Example mmio_check_passes :
  entries ((main_setup ;; test_mmio_check) initial_suite (initial_world (plugged ocxl_sysfs_path))) =
  Some [("mmio_check", SUCCESS, 8)]%string.
Proof. vm_compute. reflexivity. Qed.

Example read_afu_event_passes :
  entries ((main_setup ;; test_read_afu_event) initial_suite (initial_world (plugged ocxl_sysfs_path))) =
  Some [("read_afu_event", SUCCESS, 18)]%string.
Proof. vm_compute. reflexivity. Qed.

(** [test_ocxl_afu_close] and [test_ocxl_mmio_map] use an AFU they closed; the
    AFU can be opened there. *)
Example close_tests_go_wrong :
  (main_setup ;; test_ocxl_afu_close) initial_suite (initial_world (plugged ocxl_sysfs_path)) = UB ∧
  (main_setup ;; test_ocxl_mmio_map) initial_suite (initial_world (plugged ocxl_sysfs_path)) = UB.
Proof. by vm_compute. Qed.

(** Without the device, [test_mmio_check] uses the AFU it could not open; the
    same holds for two of the tests of the area, and not for the other ones. *)
Example mmio_check_no_device :
  (main_setup ;; test_mmio_check) initial_suite (initial_world bare) = UB ∧
  (main_setup ;; test_ocxl_mmio_read32_native) initial_suite (initial_world bare) = UB ∧
  (main_setup ;; test_ocxl_mmio_read64) initial_suite (initial_world bare) = UB ∧
  entries ((main_setup ;; test_ocxl_mmio_read32) initial_suite (initial_world bare)) =
  Some [("ocxl_mmio_read32/write32", FAIL, 1)]%string.
Proof. by vm_compute. Qed.

(** The handler for reads goes behind its buffer when more is asked for than an
    event has, and the one for polls answers twice. *)
Example afu_read_too_much :
  afu_read (KERNEL_EVENT_SIZE + 1) 0 (force_translation_fault 1 2 3 initial_dev) = None ∧
  afu_poll initial_dev = [reply_poll POLLERR; reply_poll 0].
Proof. by vm_compute. Qed.
